(* ===== verification/_CoqProject ===== *)
-Q . S2P
Prelude.v
GoStrings.v
Base64.v
GoTime.v
Errors.v
GoDuration.v
Values.v
GoFmt.v
Crypto.v
Credential.v
Instances.v
Delegation.v
SDJwt.v
Verify.v
VerifyFacts.v
Issue.v
IssueFacts.v
ChainExample.v
ChainProps.v
AuthzBridge.v
Policy.v
PolicyFacts.v
PolicyStore.v
IssuancePolicy.v
Config.v
Http.v
ResponseWriter.v
Mux.v
Tenant.v
Server.v
Trust.v
Did.v
Gateway.v
GatewayProps.v
Logging.v
Metrics.v
MetricsProps.v
RateLimit.v
Redis.v
Flags.v
Keys.v
KeysProps.v
Jwk.v
JwkProps.v
KeyUtils.v
Keygen.v
Issuer.v
IssuerProps.v
Admin.v
AdminProps.v
PolicyAdmin.v
Postgres.v
Oidc4vp.v
Oidc4vpFacts.v
Oidc4vpProps.v
Oidc4vpEndpoint.v
Oidc4vpEndpointProps.v
VerifierServer.v
IssuerServer.v
Router.v
VerifierServerProps.v
VerifierServerRuns.v
DatabaseServer.v
EndToEnd.v
RemoteSigners.v
Jwtutil.v
Sdk.v
SdkAgent.v
Idctl.v
Startup.v
S2S.v
AuditDemo.v
Examples.v
