(* ===== verification/Prelude.v ===== *)
(** * The credential service: a verification development.

    The program (Go, under src/) issues verifiable credentials as signed JWTs, verifies them
    alone and as delegation chains, turns a verified chain into an authorization decision at a
    gateway, and manages what that needs: signing keys, DIDs, trusted issuers, tenants and
    policies.  An issuer process and a verifier process expose these parts over HTTP.

    ** How the program is modelled

    A Go function becomes a Rocq function of the same name.  A pair [(value, error)] is a
    [result]; [errors.Is] and [errors.As] are functions on a type of errors (Errors).  A method
    that changes its receiver returns the new receiver; a method that locks a shared structure
    is one step on it.  Clock readings, random values, UUIDs, the iteration order of Go maps
    and the answers of the disk and the network are arguments, one per use, in the order the
    code makes them.  An HTTP handler is a function of a request and of a state to a response,
    a new state and the list of what it recorded (Http).  Integers that can overflow are
    wrapped at 64 bits ([wrap64], [seconds], [unix_time]); time is a number of nanoseconds
    with Go's arithmetic (GoTime).  Every loop of the modelled code is a structural recursion,
    so every definition is total and runs; the one exception, the loop of time.ParseDuration
    (GoDuration), has the length of its text as fuel, and [parse_terms_fuel] proves that more
    changes nothing.

    Interfaces stand for what is not in the repository: the JSON codec ([Json], with the law
    [JsonLaw] that a safe value reads back as its image), Ed25519 ([Ed25519], [signer_ok]),
    SHA-256, RFC 3339 dates, PKCS#8 ([Pkcs8Law], [KeyParsers]), case folding outside ASCII
    ([Unicode]), URL parsing ([Url], [NewRequest]), the Redis server ([Redis], and its sorted
    sets, [SortedSetsLaws]), the registry and the collectors of Prometheus ([Prometheus]),
    go-jose ([GoJoseLaws]) and the client of the key service ([KMSClient]).  A PostgreSQL
    database is a record of tables, and a statement the change it makes to them, with what the
    columns of a policy refuse (Postgres).
    Each has a concrete instance, in Instances or at the end of the file that uses it; the
    instances of the properties run on those.  Base64 is not an interface: it is defined, and
    its round trips proved.

    ** Files, and the code they model

    - Prelude: results, tactics, 64-bit integers, sorting, linked lists of a relation.
      GoStrings, Base64, GoTime, GoDuration, GoFmt, Values, Flags: strings, encoding, time,
      formatting, dynamic values and command-line flags of Go's standard library.
    - Errors, Crypto, Credential: the errors of the packages; keys and signers; the credential
      records and their validation (vc.go, vc_helpers.go).
    - Delegation (delegation.go, obo.go, admin.go), SDJwt and Verify (vc_verify.go), Issue
      (vc.go): the rules, the verifier and the issuer.  VerifyFacts and IssueFacts say what
      success means; ChainProps has the properties.
    - AuthzBridge (authz_bridge.go): from a chain to a synthetic JWT.  Jwtutil
      (internal/jwtutil): how a downstream service validates one.
    - Policy, PolicyFacts (internal/policy/engine_impl.go): the engine.  PolicyStore: the store
      as a class with laws, and the in-memory store as an instance.  Postgres (store_pg.go,
      internal/storage and the PG parts of tenant/store.go and trust/tenant_registry.go): the
      stores in the database.  PolicyAdmin: the admin
      endpoints, proved against those laws.  IssuancePolicy: the limits on issuance.
    - Config (internal/config): both configurations.
    - Http, ResponseWriter, Tenant, Trust: responses, audit events and middlewares, and the
      writers those record an answer with; the tenant resolver and its middleware; trust
      registries (a class with laws), revocations and their handlers.  Logging
      (internal/logging): levels, loggers, the lines of the log.  Metrics, MetricsProps
      (internal/metrics): the factory, the collectors, what each call increments.
    - Did: did:jwk, did:web and the caching resolver of internal/domain/did_resolver*.go.
    - Gateway, GatewayProps (gateway_handlers.go): the authorize endpoint over any registry,
      cache and limiter.  RateLimit (internal/ratelimit): the sliding window.  Redis
      (cache/redis_cache.go): the cache, and which cache and limiter a server gets.
    - Keys, KeysProps (internal/did, internal/keystore, crypto/did_keygen.go): documents,
      rotation, the file store, the key stores (a class with laws and three instances).
    - Jwk, JwkProps (crypto/jwk.go, local_signer.go, rotation.go), KeyUtils (utils.go):
      thumbprints, public JWKs, signers read from files, key sets.  Keygen (cmd/keygen).  RemoteSigners (crypto/vault_signer.go,
      kms_signer.go): the signers behind Vault and Google KMS.
    - Issuer, IssuerProps (issuer_handlers.go, keygen_handlers.go): issue, delegate, keygen.
      Admin, AdminProps (admin_middleware.go, bootstrap_handlers.go, verifier_handlers.go).
    - Oidc4vp (internal/oidc4vp): authorization requests, their store (a class with laws and an
      instance) and the validation of responses; Oidc4vpFacts and Oidc4vpProps say what
      acceptance means.  Oidc4vpEndpoint, Oidc4vpEndpointProps (oidc4vp_handlers.go): the
      response endpoint, as two parts that other requests may run between.
    - Mux: net/http's ServeMux.  Server: what mounts a handler, with its body decoder and its
      part of the state, in a server; the health handlers; the middlewares around.
      VerifierServer and IssuerServer (services/): the two servers, every route on one shared
      state.  VerifierServerProps, VerifierServerRuns: what a request, and a run of requests,
      can do.  DatabaseServer: the verifier on a database.  Router (httpserver/router.go): the
      mux no service uses.  EndToEnd: the issuer's answer presented to the verifier.  Startup:
      the choice of the key store, NewServer of the issuer, cmd/issuer and cmd/verifier, and
      the two services as a deployment.
    - Sdk, SdkAgent (sdk/go): the client, the facade, the agent sessions, over a network that is
      an argument.  Idctl (cmd/idctl): the command-line tool on files.
    - S2S (samples/s2s, samples/agent): the sample client and service against both servers.
      AuditDemo (examples/audit-logging-demo).  Examples: the programs of a page each under
      examples/ (examples/sdk-go/sd-jwt2 is a copy of sd-jwt).

    ** What the theorems show

    - Verification: exactly which chains are accepted, that every credential of an accepted
      chain is signed, unexpired and (through a registry) trusted, and that scope and lifetime
      only shrink along it; which disclosures are accepted.
    - Round trips: what is issued verifies (alone, through the issue endpoint, as the last link
      of a chain through the delegate endpoint, and from one server to the other); a
      bootstrapped administrator passes the admin gate; synthetic JWTs (also in Jwtutil),
      did:jwk DIDs, public JWKs, key documents, key files and stored policies read back.
    - Deployments: a verifier and an issuer started one after the other on one disk share a
      key, every credential of the issuer verifies, and the sample client gets through both to
      its service; started side by side they do not trust each other.
    - Decisions: the engine implements its specification, independently of the order of its
      inputs; whatever the gateway served before, an allow is backed by a verified chain and a
      policy; the rate limiter implements a log of accepted requests; the policies in the
      database are those the store in memory would hold.
    - Gates: tenant and admin middlewares let through exactly whom they should; policy
      administration stays within the tenant; a tenant keeps one signing key; rotation keeps
      the last five keys; a downstream service accepts only genuine, current tokens; an agent
      session asks for no more than its parent has.
    - Keys: a key set that was loaded describes each of its keys correctly and was read from
      private files; a key behind the key service is the same signer as the key in a file; a
      Vault that works gives a signer that works.
    - OIDC4VP: an accepted response answers the request in every respect, whatever the order
      in which maps are visited; the endpoint answers 200 exactly then, and refines a
      specification in which a request is answered at most once, under any interleaving.
    - Observation: the counters of the gateway add up to the answers it gave; every request to
      a sensitive path is in the audit log, whatever the level.
    - Servers: every request leaves the shared state as it is or makes one change to it, on
      the route that is for it and for an enabled tenant; by induction over runs, only the default
      tenant is ever trusted anyone for, and policies change only behind the admin gate.
    - Where the code departs from its intent: digests of issued SD-JWTs are not checked, an
      expiry can wrap around, a negative lifetime is accepted, cache keys are ambiguous, a
      list in a condition panics, windows over an hour are forgotten, combining policies can
      widen them, the holder of an OIDC4VP response is ambiguous, anyone can become an
      administrator through the trust endpoint, the gateway's tokens have no audience, the
      agent helpers neither read the issuer's credentials nor get past the gateway, a rotated
      Vault key may be published in an old version, the counters of the verifier do not move
      with the gateway, services started side by side overwrite each other's key, a start on a
      database opens again what an administrator closed, the sample service checks no
      signature, keygen reports permissions it did not set, the mux of NewRouter has no gate,
      and one example can only panic.

    ** Bounds of the model

    ServeMux is modelled for paths without percent-escapes.  A panic is a value where the code
    can reach one ([fault]); net/http turns it into a closed connection.  On a database, the
    server's part of the trust and of the policies are copies of tables no other process
    writes to meanwhile, and the statements of a request do not fail; those of a start may.

    ** Not modelled

    The drivers of PostgreSQL, Redis and Prometheus, the JSON handler of log/slog, TLS and
    sockets, the usage texts of package flag and the Printf lines of a start: input and output,
    or calls to other programs.  What is left of the Go files besides that are imports, blank
    lines and comments, and declarations whose names the model takes from their values. *)

From Stdlib Require Import ZArith Lia Sorted.
From stdpp Require Export base list gmap strings option sets pretty.

(** ** Results: Go's [(value, error)] pairs *)

(** A Go function returning [(T, error)] is modelled by [result E T]; the error
    branch carries no value because no caller of the modelled code reads it. *)
Inductive result (E A : Type) : Type :=
| Ok (a : A)
| Err (e : E).
Arguments Ok {E A} a.
Arguments Err {E A} e.

Definition rbind {E A B} (c : result E A) (k : A -> result E B) : result E B :=
  match c with
  | Ok a => k a
  | Err e => Err e
  end.

Declare Scope go_scope.
Delimit Scope go_scope with go.

(** [let! x := c in k] is "[x, err := c; if err != nil { return err }; k]". *)
Notation "'let!' x ':=' c 'in' k" := (rbind c (fun x => k))
  (at level 10, x pattern, c at level 100, k at level 200) : go_scope.

(** [guard! b else e in k] is "[if !b { return e }; k]". *)
Notation "'guard!' b 'else' e 'in' k" := (if b then k else Err e)
  (at level 10, b at level 100, e at level 100, k at level 200) : go_scope.

(** [stop! b with e in k] is "[if b { return e }; k]". *)
Notation "'stop!' b 'with' e 'in' k" := (if b then Err e else k)
  (at level 10, b at level 100, e at level 100, k at level 200) : go_scope.

Open Scope go_scope.

Definition of_option {E A} (e : E) (o : option A) : result E A :=
  match o with
  | Some a => Ok a
  | None => Err e
  end.

Definition is_ok {E A} (r : result E A) : bool :=
  match r with Ok _ => true | Err _ => false end.

Definition to_option {E A} (r : result E A) : option A :=
  match r with Ok a => Some a | Err _ => None end.

(** Replace the error, as in "[if err != nil { return ErrX }]". *)
Definition map_err {E F A} (f : E -> F) (r : result E A) : result F A :=
  match r with Ok a => Ok a | Err e => Err (f e) end.

Global Instance result_eq_dec {E A} `{EqDecision E, EqDecision A} : EqDecision (result E A).
Proof. solve_decision. Defined.

Lemma rbind_Ok {E A B} (c : result E A) (k : A -> result E B) (b : B) :
  rbind c k = Ok b <-> exists a, c = Ok a /\ k a = Ok b.
Proof. destruct c; cbn; split; [eauto|intros (?&[=]&?); congruence|done|by intros (?&?&?)]. Qed.

Lemma rbind_Err {E A B} (c : result E A) (k : A -> result E B) (e : E) :
  rbind c k = Err e <-> c = Err e \/ exists a, c = Ok a /\ k a = Err e.
Proof. destruct c; cbn; naive_solver. Qed.

Lemma of_option_Ok {E A} (e : E) (o : option A) (a : A) :
  of_option e o = Ok a <-> o = Some a.
Proof. destruct o; cbn; naive_solver. Qed.

Lemma map_err_Ok {E F A} (f : E -> F) (r : result E A) (a : A) :
  map_err f r = Ok a <-> r = Ok a.
Proof. destruct r; cbn; naive_solver. Qed.

Lemma guard_Ok {E A} (b : bool) (e : E) (k : result E A) (a : A) :
  (if b then k else Err e) = Ok a <-> b = true /\ k = Ok a.
Proof. destruct b; naive_solver. Qed.

Lemma stop_Ok {E A} (b : bool) (e : E) (k : result E A) (a : A) :
  (if b then Err e else k) = Ok a <-> b = false /\ k = Ok a.
Proof. destruct b; naive_solver. Qed.

(** The database of the "what does success imply" equivalences. *)
Create Rewrite HintDb ok_db.
#[export] Hint Rewrite @rbind_Ok @of_option_Ok @map_err_Ok @guard_Ok @stop_Ok : ok_db.

(** One step of the inversion of a successful run: a bind, an early return, the
    wrapping of an error or the test of an option. *)
Tactic Notation "bind_inv" hyp(H) "as" simple_intropattern(x) simple_intropattern(Hx) :=
  lazymatch type of H with
  | rbind _ _ = Ok _ => apply rbind_Ok in H; destruct H as (x & Hx & H)
  end.
Tactic Notation "stop_inv" hyp(H) "as" simple_intropattern(Hb) :=
  lazymatch type of H with
  | (if _ then Err _ else _) = Ok _ => apply stop_Ok in H; destruct H as [Hb H]
  | (if _ then _ else Err _) = Ok _ => apply guard_Ok in H; destruct H as [Hb H]
  end.
Ltac ok_simp H :=
  repeat lazymatch type of H with
  | map_err _ _ = Ok _ => apply map_err_Ok in H
  | of_option _ _ = Ok _ => apply of_option_Ok in H
  end.

(** [ok_inv H] turns [H : f x = Ok y] into the facts success stands for. *)
Ltac ok_inv H :=
  repeat first
    [ progress autorewrite with ok_db in H
    | match type of H with
      | exists _, _ => let x := fresh "x" in destruct H as [x H]
      | _ /\ _ => let H1 := fresh "H" in destruct H as [H1 H]; try ok_inv H1
      end ].

(** Case analysis on the scrutinee of the first match in the goal. *)
Ltac case_match_goal :=
  match goal with
  | |- context [match ?x with _ => _ end] =>
      lazymatch x with
      | context [match _ with _ => _ end] => fail
      | _ => destruct x eqn:?
      end
  end.

(** Reflect boolean tests of the code into propositions. *)
Ltac breflect :=
  repeat match goal with
  | H : (_ && _)%bool = true |- _ => apply andb_true_iff in H; destruct H
  | H : (_ || _)%bool = false |- _ => apply orb_false_iff in H; destruct H
  | H : negb _ = true |- _ => apply negb_true_iff in H
  | H : negb _ = false |- _ => apply negb_false_iff in H
  | H : bool_decide _ = true |- _ => apply bool_decide_eq_true in H
  | H : bool_decide _ = false |- _ => apply bool_decide_eq_false in H
  | H : (_ <? _)%Z = true |- _ => apply Z.ltb_lt in H
  | H : (_ <? _)%Z = false |- _ => apply Z.ltb_ge in H
  | H : (_ <=? _)%Z = true |- _ => apply Z.leb_le in H
  | H : (_ <=? _)%Z = false |- _ => apply Z.leb_gt in H
  | H : (_ =? _)%Z = true |- _ => apply Z.eqb_eq in H
  | H : (_ =? _)%Z = false |- _ => apply Z.eqb_neq in H
  | H : (_ =? _)%nat = true |- _ => apply Nat.eqb_eq in H
  | H : (_ =? _)%nat = false |- _ => apply Nat.eqb_neq in H
  | H : (_ <? _)%nat = true |- _ => apply Nat.ltb_lt in H
  | H : (_ <? _)%nat = false |- _ => apply Nat.ltb_ge in H
  | H : (_ <=? _)%nat = true |- _ => apply Nat.leb_le in H
  | H : (_ <=? _)%nat = false |- _ => apply Nat.leb_gt in H
  end.

(** ** Machine integers *)

(** Two's complement reading of an integer at the width of Go's [int64] (and of
    [int] on the 64-bit platforms the service is built for). *)
Definition wrap64 (z : Z) : Z := ((z + 2 ^ 63) mod 2 ^ 64 - 2 ^ 63)%Z.

Definition max_int64 : Z := (2 ^ 63 - 1)%Z.
Definition min_int64 : Z := (- 2 ^ 63)%Z.

Definition in_int64 (z : Z) : Prop := (min_int64 <= z <= max_int64)%Z.

Lemma wrap64_id z : in_int64 z -> wrap64 z = z.
Proof. unfold in_int64, min_int64, max_int64, wrap64. intros H. rewrite Z.mod_small; lia. Qed.

Lemma wrap64_in z : in_int64 (wrap64 z).
Proof.
  unfold in_int64, min_int64, max_int64, wrap64.
  pose proof (Z.mod_pos_bound (z + 2 ^ 63) (2 ^ 64) eq_refl). lia.
Qed.

(** ** Lists *)

Section lists.
Context {A : Type}.

(** Every pair of neighbours is related: how the chain verifier compares a
    credential with the one before it. *)
Fixpoint linked (R : A -> A -> Prop) (l : list A) : Prop :=
  match l with
  | x :: ((y :: _) as l') => R x y /\ linked R l'
  | _ => True
  end.

Lemma linked_snoc R (l : list A) (x y : A) :
  linked R (l ++ [x; y]) <-> linked R (l ++ [x]) /\ R x y.
Proof.
  induction l as [|a [|b l] IH]; cbn in *; [tauto| |].
  - tauto.
  - rewrite IH. tauto.
Qed.

Lemma linked_tail (R : A -> A -> Prop) (x : A) (l : list A) : linked R (x :: l) -> linked R l.
Proof. destruct l; [done|]. by intros [_ ?]. Qed.

(** A transitive link between neighbours links the first and every later element. *)
Lemma linked_trans_head (R : A -> A -> Prop) (x : A) (l : list A) :
  (forall a b c, R a b -> R b c -> R a c) ->
  linked R (x :: l) -> Forall (R x) l.
Proof.
  intros Htrans. revert x. induction l as [|y l IH]; intros x; [constructor|].
  intros [Hxy Hl]. constructor; [done|].
  eapply Forall_impl; [by apply IH|]. cbn. eauto.
Qed.

(** ... and, for a preorder, every element and any later one. *)
Lemma linked_lookup (R : A -> A -> Prop) `{!PreOrder R} (l : list A) i j x y :
  linked R l -> (i <= j)%nat -> l !! i = Some x -> l !! j = Some y -> R x y.
Proof.
  revert i j. induction l as [|a l IH]; intros i j Hl Hij Hi Hj; [done|].
  destruct i as [|i], j as [|j]; try lia.
  - cbn in Hi, Hj. simplify_eq. done.
  - cbn in Hi, Hj. simplify_eq. apply linked_trans_head in Hl; [|intros; by etransitivity].
    by eapply Forall_lookup_1 in Hl.
  - apply (IH i j); [by eapply linked_tail|lia|done|done].
Qed.
End lists.

(** ** Fallible loops *)

(** Run a fallible step on every element, stop at the first error. *)
Fixpoint traverse {E A B} (f : A -> result E B) (l : list A) : result E (list B) :=
  match l with
  | [] => Ok []
  | x :: l' => let! y := f x in let! ys := traverse f l' in Ok (y :: ys)
  end.

Lemma traverse_Ok {E A B} (f : A -> result E B) l ys :
  traverse f l = Ok ys <-> Forall2 (fun x y => f x = Ok y) l ys.
Proof.
  revert ys. induction l as [|x l IH]; intros ys; cbn.
  - split; [intros [= <-]; constructor|]. by inversion 1.
  - rewrite rbind_Ok. setoid_rewrite rbind_Ok. split.
    + intros (y & Hy & ys' & Hys & [= <-]). constructor; [done|by apply IH].
    + inversion 1 as [|? y ? ys' Hy Hys]; subst. exists y. split; [done|]. exists ys'.
      split; [by apply IH|done].
Qed.

(** A loop that succeeds does so in every order, with the results in that order. *)
Lemma traverse_perm {E A B} (f : A -> result E B) l l' ys :
  l ≡ₚ l' -> traverse f l = Ok ys -> exists ys', traverse f l' = Ok ys' /\ ys ≡ₚ ys'.
Proof.
  intros Hp Hf%traverse_Ok. destruct (Permutation_Forall2 Hp Hf) as (ys' & Hp' & Hf').
  exists ys'. by rewrite traverse_Ok.
Qed.

(** ** Sorting *)

Lemma StronglySorted_weaken {A} (R S : A -> A -> Prop) (l : list A) :
  (forall x y, R x y -> S x y) -> StronglySorted R l -> StronglySorted S l.
Proof.
  intros HRS. induction 1 as [|x l Hl IH Hx]; constructor; [done|].
  eapply Forall_impl; [exact Hx|]. auto.
Qed.

(** [sort.SliceStable] (and [sort.Slice], when no two elements are equivalent). *)
Section sorting.
Context {A : Type} (less : A -> A -> bool).

Fixpoint insert_by (x : A) (l : list A) : list A :=
  match l with
  | [] => [x]
  | y :: l' => if less y x then y :: insert_by x l' else x :: y :: l'
  end.

Definition sort_by (l : list A) : list A := foldr insert_by [] l.

Lemma insert_by_perm x l : insert_by x l ≡ₚ x :: l.
Proof.
  induction l as [|y l IH]; cbn; [done|]. destruct (less y x); [|done].
  rewrite IH. apply Permutation_swap.
Qed.

Lemma sort_by_perm l : sort_by l ≡ₚ l.
Proof. induction l as [|x l IH]; cbn; [done|]. by rewrite insert_by_perm, IH. Qed.

(** [x] may come before [y]. *)
Definition not_after (x y : A) : Prop := less y x = false.

Context (Htrans : forall x y z, not_after x y -> not_after y z -> not_after x z).
Context (Hasym : forall x y, less x y = true -> not_after x y).

Lemma insert_by_sorted x l : StronglySorted not_after l -> StronglySorted not_after (insert_by x l).
Proof.
  induction 1 as [|y l Hl IH Hy]; cbn; [repeat constructor|].
  destruct (less y x) eqn:Hyx.
  - constructor; [done|]. apply Forall_forall. intros z Hz. rewrite insert_by_perm in Hz.
    apply elem_of_cons in Hz as [->|Hz]; [by apply Hasym|]. by eapply Forall_forall in Hy.
  - constructor; [by constructor|]. constructor; [done|].
    eapply Forall_impl; [exact Hy|]. intros z Hz. by eapply Htrans.
Qed.

Lemma sort_by_sorted l : StronglySorted not_after (sort_by l).
Proof. induction l as [|x l IH]; cbn; [constructor|by apply insert_by_sorted]. Qed.

(** Sorting two orderings of the same elements gives the same list, when the order
    tells any two of them apart. *)
Lemma sorted_unique l l' :
  (forall x y, x ∈ l -> y ∈ l -> not_after x y -> not_after y x -> x = y) ->
  l ≡ₚ l' -> StronglySorted not_after l -> StronglySorted not_after l' -> l = l'.
Proof.
  intros Hanti Hp Hs. revert l' Hanti Hp.
  induction Hs as [|x l Hl IH Hx]; intros l' Hanti Hp Hs'.
  - by apply Permutation_nil_l in Hp as ->.
  - destruct Hs' as [|y l' Hl' Hy]; [by symmetry in Hp; apply Permutation_nil_cons in Hp|].
    assert (x = y) as ->.
    { assert (Hxin : x ∈ y :: l') by (rewrite <- Hp; left).
      assert (Hyin : y ∈ x :: l) by (rewrite Hp; left).
      apply elem_of_cons in Hxin as [|Hxin]; [done|]. apply elem_of_cons in Hyin as [|Hyin]; [done|].
      apply Hanti; [left|by right| |].
      - by eapply Forall_forall in Hx.
      - by eapply Forall_forall in Hy. }
    f_equal. apply IH; [|by apply Permutation_cons_inv in Hp|done].
    intros a b Ha Hb. apply Hanti; by right.
Qed.
End sorting.
