(* ===== verification/GoStrings.v ===== *)
(** * The string functions of Go's [strings] package the service calls.

    A Go string is a sequence of bytes, so it is a Stdlib [string] (a sequence of
    8-bit [ascii]); [len] is [String.length].  Functions that only look at bytes
    are defined here.  For the three functions that also consult the Unicode
    tables ([EqualFold], [ToLower], [TrimSpace]) the ASCII path is written out and
    the non-ASCII path is a parameter, the class [Unicode]. *)

From S2P Require Import Prelude.
From Stdlib Require Import ZArith Lia Ascii String.
From stdpp Require Import list strings.

Local Open Scope string_scope.

(** stdpp blocks the reduction of concatenation; here it may reduce on a constructor. *)
#[global] Arguments String.append : simpl nomatch.

(** ** Prefixes and suffixes *)

Definition has_prefix (s p : string) : bool := String.prefix p s.

(** Drop the first [n] bytes. *)
Fixpoint drop_bytes (n : nat) (s : string) : string :=
  match n, s with
  | S n', String _ s' => drop_bytes n' s'
  | _, _ => s
  end.

(** Keep the first [n] bytes, Go's [s[:n]]. *)
Fixpoint take_bytes (n : nat) (s : string) : string :=
  match n, s with
  | S n', String a s' => String a (take_bytes n' s')
  | _, _ => ""
  end.

Definition trim_prefix (s p : string) : string :=
  if has_prefix s p then drop_bytes (String.length p) s else s.

Definition has_suffix (s p : string) : bool :=
  ((String.length p <=? String.length s)%nat
   && bool_decide (drop_bytes (String.length s - String.length p) s = p))%bool.

Definition trim_suffix (s p : string) : string :=
  if has_suffix s p then take_bytes (String.length s - String.length p) s else s.

(** [strings.Contains]. *)
Fixpoint contains_str (s p : string) : bool :=
  has_prefix s p ||
  match s with
  | "" => false
  | String _ s' => contains_str s' p
  end.

(** ** Splitting and joining on a one-byte separator *)

(** Put a byte in front of the first piece. *)
Definition cons_head (a : ascii) (l : list string) : list string :=
  match l with
  | p :: ps => String a p :: ps
  | [] => [String a ""]
  end.

(** [strings.Split(s, sep)] for a one-byte [sep]. *)
Fixpoint split_on (c : ascii) (s : string) : list string :=
  match s with
  | "" => [""]
  | String a s' => if decide (a = c) then "" :: split_on c s' else cons_head a (split_on c s')
  end.

(** [strings.SplitN(s, sep, n)] for a one-byte [sep] and [n > 0]: at most [n]
    pieces, the last one is the unsplit rest. *)
Fixpoint split_n (c : ascii) (n : nat) (s : string) : list string :=
  match n with
  | O => []
  | S O => [s]
  | S n' =>
      (fix go (s : string) : list string :=
         match s with
         | "" => [""]
         | String a s' => if decide (a = c) then "" :: split_n c n' s' else cons_head a (go s')
         end) s
  end.

(** [strings.Join(l, sep)]. *)
Definition str_join (sep : string) (l : list string) : string := String.concat sep l.

(** [strings.Count(s, sep)] for a one-byte [sep]. *)
Fixpoint count_byte (c : ascii) (s : string) : nat :=
  match s with
  | "" => 0
  | String a s' => (if decide (a = c) then 1 else 0) + count_byte c s'
  end%nat.

(** [strings.LastIndex(s, sep)] for a one-byte [sep]; [None] for [-1]. *)
Fixpoint last_index (c : ascii) (s : string) : option nat :=
  match s with
  | "" => None
  | String a s' =>
      match last_index c s' with
      | Some i => Some (S i)
      | None => if decide (a = c) then Some O else None
      end
  end.

(** Every byte satisfies a test. *)
Fixpoint string_forall (f : ascii -> bool) (s : string) : bool :=
  match s with
  | "" => true
  | String a s' => f a && string_forall f s'
  end.

Definition no_byte (c : ascii) : string -> bool := string_forall (fun a => negb (bool_decide (a = c))).

Fixpoint string_map (f : ascii -> ascii) (s : string) : string :=
  match s with
  | "" => ""
  | String a s' => String (f a) (string_map f s')
  end.

(** ** Functions with a Unicode path *)

Definition is_ascii (a : ascii) : bool := (nat_of_ascii a <? 128)%nat.

Definition byte_in (lo hi : nat) (a : ascii) : bool :=
  ((lo <=? nat_of_ascii a) && (nat_of_ascii a <=? hi))%nat.

Definition lower_byte (a : ascii) : ascii :=
  if byte_in 65 90 a then ascii_of_nat (nat_of_ascii a + 32) else a.

(** What the three functions do on strings with a byte outside ASCII. *)
Class Unicode := {
  unicode_equal_fold : string -> string -> bool;
  unicode_to_lower : string -> string;
  unicode_trim_space : string -> string;
}.

Section unicode.
Context `{Unicode}.

Definition equal_fold (s t : string) : bool :=
  if (string_forall is_ascii s && string_forall is_ascii t)%bool
  then bool_decide (string_map lower_byte s = string_map lower_byte t)
  else unicode_equal_fold s t.

Definition to_lower (s : string) : string :=
  if string_forall is_ascii s then string_map lower_byte s else unicode_to_lower s.

(** The six ASCII white-space bytes: tab, newline, vertical tab, form feed,
    carriage return, space. *)
Definition is_space (a : ascii) : bool := byte_in 9 13 a || bool_decide (a = " "%char).

Fixpoint trim_left (s : string) : string :=
  match s with
  | "" => ""
  | String a s' => if is_space a then trim_left s' else s
  end.

Fixpoint trim_right (s : string) : string :=
  match s with
  | "" => ""
  | String a s' =>
      match trim_right s' with
      | "" => if is_space a then "" else String a ""
      | t => String a t
      end
  end.

Definition trim_space (s : string) : string :=
  if string_forall is_ascii s then trim_right (trim_left s) else unicode_trim_space s.
End unicode.

(** ** Laws *)

Lemma cons_head_nonempty a l : cons_head a l <> [].
Proof. by destruct l. Qed.

Lemma split_on_nonempty c s : split_on c s <> [].
Proof. destruct s; cbn; [done|]. case_decide; [done|apply cons_head_nonempty]. Qed.

Lemma concat_cons_head sep a l : l <> [] -> String.concat sep (cons_head a l) = String a (String.concat sep l).
Proof. by destruct l as [|p [|q l]]. Qed.

Lemma concat_cons sep p l : l <> [] -> String.concat sep (p :: l) = p +:+ sep +:+ String.concat sep l.
Proof. by destruct l. Qed.

(** Joining what was split gives the string back. *)
Lemma join_split c s : str_join (String c "") (split_on c s) = s.
Proof.
  unfold str_join. induction s as [|a s IH]; cbn; [done|]. case_decide as Ha.
  - subst. rewrite concat_cons by apply split_on_nonempty. cbn. by rewrite IH.
  - rewrite concat_cons_head by apply split_on_nonempty. by rewrite IH.
Qed.

Lemma split_on_app c p s :
  no_byte c p = true ->
  split_on c (p +:+ String c s) = p :: split_on c s.
Proof.
  unfold no_byte. induction p as [|a p IH]; cbn [String.append split_on string_forall].
  - intros _. by rewrite decide_True.
  - intros [Ha Hp]%andb_true_iff. breflect. rewrite decide_False by done. by rewrite IH.
Qed.

Lemma split_on_single c p : no_byte c p = true -> split_on c p = [p].
Proof.
  unfold no_byte. induction p as [|a p IH]; cbn [split_on string_forall]; [done|].
  intros [Ha Hp]%andb_true_iff. breflect. rewrite decide_False by done. by rewrite IH.
Qed.

(** Splitting what was joined gives the pieces back, when no piece has the separator. *)
Lemma split_join c l :
  l <> [] -> Forall (fun p => no_byte c p = true) l -> split_on c (str_join (String c "") l) = l.
Proof.
  unfold str_join. induction l as [|p l IH]; [done|]. intros _ [Hp Hl]%Forall_cons.
  destruct l as [|q l]; [by apply split_on_single|].
  rewrite concat_cons by done. cbn [String.append]. rewrite split_on_app by done. f_equal. by apply IH.
Qed.

Lemma length_cons_head a l : l <> [] -> length (cons_head a l) = length l.
Proof. by destruct l. Qed.

(** The number of pieces is the number of separators plus one. *)
Lemma length_split_on c s : length (split_on c s) = S (count_byte c s).
Proof.
  induction s as [|a s IH]; cbn; [done|]. case_decide; cbn; [by rewrite IH|].
  by rewrite length_cons_head, IH by apply split_on_nonempty.
Qed.

Lemma split_on_pieces c s : Forall (fun p => no_byte c p = true) (split_on c s).
Proof.
  unfold no_byte. induction s as [|a s IH]; cbn; [by repeat constructor|].
  case_decide as Ha; [by constructor|].
  destruct (split_on c s) as [|p ps] eqn:E; [by apply split_on_nonempty in E|].
  apply Forall_cons in IH as [Hp Hps]. constructor; [|done]. cbn. rewrite Hp.
  by rewrite bool_decide_eq_false_2.
Qed.

Lemma string_forall_app f s t : string_forall f (s +:+ t) = string_forall f s && string_forall f t.
Proof.
  induction s as [|a s IH]; cbn; [done|]. rewrite IH. by destruct (f a).
Qed.

Lemma string_forall_impl (f g : ascii -> bool) s :
  (forall a, f a = true -> g a = true) -> string_forall f s = true -> string_forall g s = true.
Proof.
  intros Hfg. induction s as [|a s IH]; cbn; [done|]. intros [Ha Hs]%andb_true_iff.
  rewrite Hfg by done. by apply IH.
Qed.

Lemma string_app_nil_r s : s +:+ "" = s.
Proof. induction s as [|a s IH]; cbn; [done|]. by rewrite IH. Qed.

Lemma string_app_assoc s t u : (s +:+ t) +:+ u = s +:+ t +:+ u.
Proof. induction s as [|a s IH]; cbn; [done|]. by rewrite IH. Qed.

Lemma has_prefix_app p s : has_prefix (p +:+ s) p = true.
Proof.
  unfold has_prefix. induction p as [|a p IH]; cbn; [by destruct s|].
  by destruct (ascii_dec a a).
Qed.

Lemma string_length_app s t : String.length (s +:+ t) = (String.length s + String.length t)%nat.
Proof. induction s as [|a s IH]; cbn; [done|]. by rewrite IH. Qed.

Lemma take_bytes_app s t : take_bytes (String.length s) (s +:+ t) = s.
Proof. induction s as [|a s IH]; cbn; [by destruct t|]. by rewrite IH. Qed.

Lemma drop_bytes_app p s : drop_bytes (String.length p) (p +:+ s) = s.
Proof. induction p as [|a p IH]; cbn; [by destruct s|done]. Qed.

Lemma trim_prefix_app p s : trim_prefix (p +:+ s) p = s.
Proof. unfold trim_prefix. by rewrite has_prefix_app, drop_bytes_app. Qed.

(** A prefix test says exactly that the string starts with the prefix. *)
Lemma has_prefix_spec s p : has_prefix s p = true <-> exists t, s = p +:+ t.
Proof.
  split; [|intros [t ->]; apply has_prefix_app].
  unfold has_prefix. revert s. induction p as [|a p IH]; intros s; cbn.
  - intros _. by exists s.
  - destruct s as [|b s]; cbn; [done|]. destruct (ascii_dec a b) as [->|]; [|done].
    intros [t ->]%IH. by exists t.
Qed.

(** A suffix test says exactly that the string ends with the suffix. *)
Lemma take_drop_bytes n s : take_bytes n s +:+ drop_bytes n s = s.
Proof. revert n. induction s as [|a s IH]; intros [|n]; cbn; [done..|]. by rewrite IH. Qed.

Lemma has_suffix_spec s p : has_suffix s p = true <-> exists t, s = t +:+ p.
Proof.
  unfold has_suffix. split.
  - intros [_ Hd]%andb_true_iff. breflect. eexists. symmetry. rewrite <- Hd at 1. apply take_drop_bytes.
  - intros [t ->]. rewrite string_length_app.
    replace (String.length t + String.length p - String.length p)%nat with (String.length t) by lia.
    rewrite drop_bytes_app, bool_decide_eq_true_2, andb_true_r by done. apply Nat.leb_le. lia.
Qed.

Lemma split_on_snoc c s : split_on c (s +:+ String c "") = app (split_on c s) [""].
Proof.
  induction s as [|a s IH]; cbn [String.append split_on]; [by rewrite decide_True|].
  case_decide; rewrite IH; [done|]. destruct (split_on c s) as [|p l] eqn:E; [by apply split_on_nonempty in E|done].
Qed.

Create Rewrite HintDb go_strings.
#[export] Hint Rewrite has_prefix_app drop_bytes_app trim_prefix_app string_app_nil_r : go_strings.

(** Byte order on strings, as [sort.Strings] uses it. *)
Definition str_ltb (s t : string) : bool := match String.compare s t with Lt => true | _ => false end.

(** ** Numbers in text *)

Definition digit_value (a : ascii) : option Z :=
  let n := nat_of_ascii a in
  if ((48 <=? n) && (n <=? 57))%nat then Some (Z.of_nat (n - 48)) else None.

(** The value of a run of decimal digits, [None] if some byte is not a digit. *)
Fixpoint digits_value (acc : Z) (s : string) : option Z :=
  match s with
  | "" => Some acc
  | String a s' => d ← digit_value a; digits_value (10 * acc + d)%Z s'
  end.

(** [strconv.ParseInt(s, 10, 64)] (and [strconv.Atoi] on 64-bit platforms): an optional
    sign, at least one digit, and a value that fits. *)
Definition parse_int (s : string) : option Z :=
  let '(neg, digits) :=
    match s with
    | String "-" s' => (true, s')
    | String "+" s' => (false, s')
    | _ => (false, s)
    end in
  if bool_decide (digits = "") then None
  else
    v ← digits_value 0 digits;
    let z := (if neg then - v else v)%Z in
    if ((min_int64 <=? z) && (z <=? max_int64))%Z then Some z else None.

Lemma parse_int_range s z : parse_int s = Some z -> in_int64 z.
Proof.
  unfold parse_int, in_int64. destruct (match s with "" => _ | String _ _ => _ end) as [neg digits].
  case_bool_decide; [done|]. destruct (digits_value 0 digits) as [v|]; [|done].
  cbn [mbind option_bind]. cbv zeta. destruct (_ && _)%bool eqn:E; [|done]. intros [= <-]. by breflect.
Qed.

(** ** Hexadecimal *)

Definition hex_digit (n : nat) : ascii := ascii_of_nat (if (n <? 10)%nat then 48 + n else 87 + n).

(** [fmt.Sprintf("%x", bytes)]. *)
Fixpoint hex_string (s : string) : string :=
  match s with
  | "" => ""
  | String a s' =>
      let n := nat_of_ascii a in
      String (hex_digit (n / 16)) (String (hex_digit (n mod 16)) (hex_string s'))
  end.

Lemma hex_string_length s : String.length (hex_string s) = (2 * String.length s)%nat.
Proof. induction s as [|a s IH]; [done|]. cbn [hex_string String.length]. rewrite IH. lia. Qed.

Lemma hex_digit_inj n m : (n < 16)%nat -> (m < 16)%nat -> hex_digit n = hex_digit m -> n = m.
Proof.
  intros Hn Hm Hd. apply (f_equal nat_of_ascii) in Hd. unfold hex_digit in Hd.
  destruct (n <? 10)%nat eqn:En, (m <? 10)%nat eqn:Em; apply Nat.ltb_lt in En || apply Nat.ltb_ge in En;
    apply Nat.ltb_lt in Em || apply Nat.ltb_ge in Em; rewrite !nat_ascii_embedding in Hd by lia; lia.
Qed.

Lemma hex_string_inj s t : hex_string s = hex_string t -> s = t.
Proof.
  revert t. induction s as [|a s IH]; intros [|b t]; try done. cbn [hex_string]. cbv zeta.
  pose proof (nat_ascii_bounded a). pose proof (nat_ascii_bounded b).
  pose proof (Nat.div_mod_eq (nat_of_ascii a) 16). pose proof (Nat.div_mod_eq (nat_of_ascii b) 16).
  assert (nat_of_ascii a mod 16 < 16 /\ nat_of_ascii b mod 16 < 16)%nat as [? ?] by (split; apply Nat.mod_upper_bound; lia).
  remember (nat_of_ascii a / 16)%nat as qa eqn:Ea. remember (nat_of_ascii b / 16)%nat as qb eqn:Eb.
  remember (nat_of_ascii a mod 16)%nat as ra eqn:Era. remember (nat_of_ascii b mod 16)%nat as rb eqn:Erb.
  intros [= Hq Hr Hst]. apply hex_digit_inj in Hq, Hr; try lia. f_equal; [|by apply IH].
  rewrite <- (ascii_nat_embedding a), <- (ascii_nat_embedding b). f_equal. lia.
Qed.
