(* ===== verification/Base64.v ===== *)
(** * [base64.RawURLEncoding] of Go's [encoding/base64].

    The unpadded URL alphabet.  As in Go's decoder (which is not the strict one):
    carriage returns and newlines are skipped, a last group of one character is
    refused, and the unused low bits of the last character are ignored. *)

From S2P Require Import Prelude GoStrings.
From Stdlib Require Import ZArith Lia Ascii String.
From stdpp Require Import list strings.

Local Open Scope string_scope.

(** Six bits, most significant first. *)
Inductive sextet := Sextet (b5 b4 b3 b2 b1 b0 : bool).

Definition sextet_val (s : sextet) : nat :=
  let 'Sextet b5 b4 b3 b2 b1 b0 := s in
  (32 * Nat.b2n b5 + 16 * Nat.b2n b4 + 8 * Nat.b2n b3 + 4 * Nat.b2n b2 + 2 * Nat.b2n b1 + Nat.b2n b0)%nat.

Definition sextet_of_nat (n : nat) : sextet :=
  Sextet (Nat.testbit n 5) (Nat.testbit n 4) (Nat.testbit n 3)
         (Nat.testbit n 2) (Nat.testbit n 1) (Nat.testbit n 0).

(** The alphabet A-Z a-z 0-9 - _ *)
Definition encode_sextet (s : sextet) : ascii :=
  let n := sextet_val s in
  if (n <? 26)%nat then ascii_of_nat (65 + n)
  else if (n <? 52)%nat then ascii_of_nat (97 + (n - 26))
  else if (n <? 62)%nat then ascii_of_nat (48 + (n - 52))
  else if (n =? 62)%nat then "-"%char else "_"%char.

Definition decode_sextet (a : ascii) : option sextet :=
  let n := nat_of_ascii a in
  if byte_in 65 90 a then Some (sextet_of_nat (n - 65))
  else if byte_in 97 122 a then Some (sextet_of_nat (n - 97 + 26))
  else if byte_in 48 57 a then Some (sextet_of_nat (n - 48 + 52))
  else if bool_decide (a = "-"%char) then Some (sextet_of_nat 62)
  else if bool_decide (a = "_"%char) then Some (sextet_of_nat 63)
  else None.

(** [ascii] lists its bits least significant first. *)
Definition group1 (x : ascii) : list sextet :=
  let 'Ascii x0 x1 x2 x3 x4 x5 x6 x7 := x in
  [Sextet x7 x6 x5 x4 x3 x2; Sextet x1 x0 false false false false].

Definition group2 (x y : ascii) : list sextet :=
  let 'Ascii x0 x1 x2 x3 x4 x5 x6 x7 := x in
  let 'Ascii y0 y1 y2 y3 y4 y5 y6 y7 := y in
  [Sextet x7 x6 x5 x4 x3 x2; Sextet x1 x0 y7 y6 y5 y4; Sextet y3 y2 y1 y0 false false].

Definition group3 (x y z : ascii) : list sextet :=
  let 'Ascii x0 x1 x2 x3 x4 x5 x6 x7 := x in
  let 'Ascii y0 y1 y2 y3 y4 y5 y6 y7 := y in
  let 'Ascii z0 z1 z2 z3 z4 z5 z6 z7 := z in
  [Sextet x7 x6 x5 x4 x3 x2; Sextet x1 x0 y7 y6 y5 y4;
   Sextet y3 y2 y1 y0 z7 z6; Sextet z5 z4 z3 z2 z1 z0].

Fixpoint to_sextets (s : string) : list sextet :=
  match s with
  | "" => []
  | String x "" => group1 x
  | String x (String y "") => group2 x y
  | String x (String y (String z s')) => group3 x y z ++ to_sextets s'
  end.

(** [None] when the last group has a single character. *)
Fixpoint of_sextets (l : list sextet) : option string :=
  match l with
  | [] => Some ""
  | [_] => None
  | [Sextet x7 x6 x5 x4 x3 x2; Sextet x1 x0 _ _ _ _] =>
      Some (String (Ascii x0 x1 x2 x3 x4 x5 x6 x7) "")
  | [Sextet x7 x6 x5 x4 x3 x2; Sextet x1 x0 y7 y6 y5 y4; Sextet y3 y2 y1 y0 _ _] =>
      Some (String (Ascii x0 x1 x2 x3 x4 x5 x6 x7) (String (Ascii y0 y1 y2 y3 y4 y5 y6 y7) ""))
  | Sextet x7 x6 x5 x4 x3 x2 :: Sextet x1 x0 y7 y6 y5 y4 ::
    Sextet y3 y2 y1 y0 z7 z6 :: Sextet z5 z4 z3 z2 z1 z0 :: l' =>
      match of_sextets l' with
      | Some s =>
          Some (String (Ascii x0 x1 x2 x3 x4 x5 x6 x7)
               (String (Ascii y0 y1 y2 y3 y4 y5 y6 y7)
               (String (Ascii z0 z1 z2 z3 z4 z5 z6 z7) s)))
      | None => None
      end
  end.

Fixpoint string_of_sextets (l : list sextet) : string :=
  match l with
  | [] => ""
  | s :: l' => String (encode_sextet s) (string_of_sextets l')
  end.

Definition is_newline (a : ascii) : bool :=
  bool_decide (nat_of_ascii a = 10)%nat || bool_decide (nat_of_ascii a = 13)%nat.

Fixpoint sextets_of_string (s : string) : option (list sextet) :=
  match s with
  | "" => Some []
  | String a s' =>
      if is_newline a then sextets_of_string s'
      else match decode_sextet a, sextets_of_string s' with
           | Some x, Some l => Some (x :: l)
           | _, _ => None
           end
  end.

(** [RawURLEncoding.EncodeToString] and [RawURLEncoding.DecodeString]. *)
Definition b64_encode (s : string) : string := string_of_sextets (to_sextets s).

Definition b64_decode (s : string) : option string :=
  match sextets_of_string s with
  | Some l => of_sextets l
  | None => None
  end.

(** ** Round trip *)

(** A byte of the alphabet. *)
Definition b64_byte (a : ascii) : bool :=
  byte_in 65 90 a || byte_in 97 122 a || byte_in 48 57 a
  || bool_decide (a = "-"%char) || bool_decide (a = "_"%char).

Lemma decode_encode_sextet s : decode_sextet (encode_sextet s) = Some s.
Proof. by destruct s as [[] [] [] [] [] []]. Qed.

Lemma encode_sextet_byte s : b64_byte (encode_sextet s) = true.
Proof. by destruct s as [[] [] [] [] [] []]. Qed.

Lemma encode_sextet_newline s : is_newline (encode_sextet s) = false.
Proof. by destruct s as [[] [] [] [] [] []]. Qed.

Lemma sextets_of_string_of_sextets l : sextets_of_string (string_of_sextets l) = Some l.
Proof.
  induction l as [|x l IH]; cbn [string_of_sextets sextets_of_string]; [done|].
  by rewrite encode_sextet_newline, decode_encode_sextet, IH.
Qed.

(** Induction by groups of three bytes. *)
Lemma string_ind3 (P : string -> Prop) :
  P "" -> (forall x, P (String x "")) -> (forall x y, P (String x (String y ""))) ->
  (forall x y z s, P s -> P (String x (String y (String z s)))) -> forall s, P s.
Proof.
  intros H0 H1 H2 H3. fix IH 1. intros [|x [|y [|z s]]]; [done|done|done|].
  apply H3, IH.
Qed.

Lemma of_to_sextets s : of_sextets (to_sextets s) = Some s.
Proof.
  induction s as [|x|x y|x y z s IH] using string_ind3; [done|by destruct x|by destruct x, y|].
  destruct x, y, z. cbn. by rewrite IH.
Qed.

Lemma b64_roundtrip s : b64_decode (b64_encode s) = Some s.
Proof.
  unfold b64_decode, b64_encode. rewrite sextets_of_string_of_sextets. apply of_to_sextets.
Qed.

Lemma b64_encode_alphabet s : string_forall b64_byte (b64_encode s) = true.
Proof.
  unfold b64_encode. generalize (to_sextets s). intros l.
  induction l as [|x l IH]; cbn [string_of_sextets string_forall]; [done|].
  by rewrite encode_sextet_byte, IH.
Qed.

Lemma b64_encode_ascii s : string_forall is_ascii (b64_encode s) = true.
Proof.
  eapply string_forall_impl; [|apply b64_encode_alphabet].
  intros [[] [] [] [] [] [] [] []]; vm_compute; congruence.
Qed.

Lemma b64_encode_inj s t : b64_encode s = b64_encode t -> s = t.
Proof. intros H. apply (f_equal b64_decode) in H. rewrite !b64_roundtrip in H. congruence. Qed.

(** No byte outside the alphabet occurs in an encoded string. *)
Lemma b64_encode_no_byte c s : b64_byte c = false -> no_byte c (b64_encode s) = true.
Proof.
  intros Hc. unfold no_byte. eapply string_forall_impl; [|apply b64_encode_alphabet].
  intros a Ha. cbn. apply negb_true_iff, bool_decide_eq_false. intros ->. congruence.
Qed.

Lemma b64_encode_empty s : b64_encode s = "" <-> s = "".
Proof.
  split; [|by intros ->]. intros H. apply b64_encode_inj. by rewrite H.
Qed.

(** Four characters for three bytes. *)
Lemma b64_encode_length s : (3 * String.length (b64_encode s) <= 4 * String.length s + 2)%nat.
Proof.
  assert (Hl : forall l, String.length (string_of_sextets l) = length l)
    by (induction l as [|x l IH]; cbn; [done|by rewrite IH]).
  unfold b64_encode. rewrite Hl. revert s. fix IH 1. intros s. destruct s as [|x s]; [cbn; lia|].
  destruct s as [|y s]; [destruct x; cbn; lia|]. destruct s as [|z s]; [destruct x, y; cbn; lia|].
  specialize (IH s). cbn [to_sextets]. rewrite length_app.
  replace (length (group3 x y z)) with 4%nat by (by destruct x, y, z). cbn [String.length]. lia.
Qed.

#[export] Hint Rewrite b64_roundtrip : go_strings.

(** ** [base64.StdEncoding]: the other two last letters, and padding *)

Definition std_byte (a : ascii) : ascii :=
  if bool_decide (a = "-"%char) then "+"%char
  else if bool_decide (a = "_"%char) then "/"%char else a.

Definition b64_padding (n : nat) : string :=
  match (n mod 4)%nat with
  | 2 => "=="
  | 3 => "="
  | _ => ""
  end%nat.

Definition b64_std_encode (s : string) : string :=
  string_map std_byte (b64_encode s) +:+ b64_padding (String.length (b64_encode s)).

(** [base64.StdEncoding.DecodeString] *)
Definition std_to_url (a : ascii) : ascii :=
  if bool_decide (a = "+"%char) then "-"%char else if bool_decide (a = "/"%char) then "_"%char else a.

Fixpoint without_newlines (s : string) : string :=
  match s with
  | "" => ""
  | String a s' => if is_newline a then without_newlines s' else String a (without_newlines s')
  end.

Definition b64std_decode (s : string) : option string :=
  let s := without_newlines s in
  if negb (String.length s mod 4 =? 0)%nat then None
  else if negb (no_byte "-"%char s && no_byte "_"%char s) then None
  else b64_decode (string_map std_to_url
         (if has_suffix s "==" then trim_suffix s "==" else trim_suffix s "=")).

(** Mapped back, a byte of the alphabet is itself. *)
Lemma std_url_byte a : b64_byte a = true ->
  std_to_url (std_byte a) = a /\ bool_decide (std_byte a = "-"%char) = false
  /\ bool_decide (std_byte a = "_"%char) = false /\ bool_decide (std_byte a = "="%char) = false
  /\ is_newline (std_byte a) = false.
Proof. destruct a as [[] [] [] [] [] [] [] []]; vm_compute; intros [=]; done. Qed.

Lemma std_url_string e : string_forall b64_byte e = true ->
  let t := string_map std_byte e in
  string_map std_to_url t = e /\ no_byte "-" t = true /\ no_byte "_" t = true /\ no_byte "=" t = true
  /\ without_newlines t = t /\ String.length t = String.length e.
Proof.
  induction e as [|a e IH]; cbn [string_forall string_map]; [done|]. intros [Ha He]%andb_true_iff.
  destruct (IH He) as (Hm & Hd & Hu & Hq & Hn & Hl). destruct (std_url_byte a Ha) as (Em & Ed & Eu & Eq & En).
  unfold no_byte in *. cbn [string_forall string_map without_newlines String.length].
  by rewrite Em, Ed, Eu, Eq, En, Hm, Hd, Hu, Hq, Hn, Hl.
Qed.

(** No encoding has a lone character in its last group. *)
Lemma b64_encode_groups s : (String.length (b64_encode s) mod 4 <> 1)%nat.
Proof.
  unfold b64_encode. induction s as [|x|x y|x y z s IH] using string_ind3; [done|by destruct x|by destruct x, y|].
  destruct x, y, z. cbn [to_sextets group3 app string_of_sextets String.length].
  change (S (S (S (S (String.length (string_of_sextets (to_sextets s)))))))
    with (4 + String.length (string_of_sextets (to_sextets s)))%nat.
  by rewrite <- Nat.Div0.add_mod_idemp_l.
Qed.

Lemma trim_suffix_app s p : trim_suffix (s +:+ p) p = s.
Proof.
  unfold trim_suffix. rewrite (proj2 (has_suffix_spec _ _)) by eauto. rewrite string_length_app.
  replace (String.length s + String.length p - String.length p)%nat with (String.length s) by lia. apply take_bytes_app.
Qed.

Lemma no_byte_suffix c t : no_byte c t = true -> has_suffix t (String c "") = false.
Proof.
  intros Ht. apply not_true_iff_false. intros (u & ->)%has_suffix_spec. unfold no_byte in Ht.
  rewrite string_forall_app in Ht. apply andb_true_iff in Ht as [_ Ht]. cbn in Ht. by rewrite bool_decide_eq_true_2 in Ht.
Qed.

(** One padding character after text without any is not two. *)
Lemma one_pad c t : no_byte c t = true -> has_suffix (t +:+ String c "") (String c (String c "")) = false.
Proof.
  intros Ht. apply not_true_iff_false. intros (u & Hu)%has_suffix_spec.
  change (String c (String c "")) with (String c "" +:+ String c "") in Hu. rewrite <- string_app_assoc in Hu.
  apply (f_equal (fun s => trim_suffix s (String c ""))) in Hu. rewrite !trim_suffix_app in Hu.
  apply no_byte_suffix in Ht. rewrite (proj2 (has_suffix_spec _ _)) in Ht by eauto. done.
Qed.

Lemma without_newlines_app s t : without_newlines (s +:+ t) = without_newlines s +:+ without_newlines t.
Proof. induction s as [|a s IH]; cbn; [done|]. destruct (is_newline a); cbn; by rewrite IH. Qed.

(** Padding completes the last group, and the decoder takes it away. *)
Lemma b64_std_padded t : (String.length t mod 4 <> 1)%nat -> no_byte "=" t = true ->
  let p := t +:+ b64_padding (String.length t) in
  (String.length p mod 4 = 0)%nat
  /\ (if has_suffix p "==" then trim_suffix p "==" else trim_suffix p "=") = t.
Proof.
  intros Hn Ht. unfold b64_padding. pose proof (Nat.mod_upper_bound (String.length t) 4 ltac:(lia)) as Hb.
  pose proof (no_byte_suffix _ _ Ht) as Hs. pose proof (one_pad _ _ Ht) as Ho.
  destruct (String.length t mod 4)%nat as [|[|[|[|n]]]] eqn:E; [|done| | |lia]; cbn zeta.
  - rewrite string_app_nil_r. split; [done|]. assert (Hd : has_suffix t "==" = false).
    { apply not_true_iff_false. intros (u & ->)%has_suffix_spec. apply not_true_iff_false in Hs. apply Hs.
      apply has_suffix_spec. exists (u +:+ "="). by rewrite string_app_assoc. }
    rewrite Hd. unfold trim_suffix. by rewrite Hs.
  - rewrite string_length_app, trim_suffix_app, (proj2 (has_suffix_spec _ "==")) by eauto.
    split; [|done]. by rewrite <- Nat.Div0.add_mod_idemp_l, E.
  - rewrite string_length_app, trim_suffix_app, Ho. split; [|done]. by rewrite <- Nat.Div0.add_mod_idemp_l, E.
Qed.

Lemma b64_std_roundtrip s : b64std_decode (b64_std_encode s) = Some s.
Proof.
  unfold b64_std_encode, b64std_decode.
  destruct (std_url_string (b64_encode s) (b64_encode_alphabet s)) as (Hm & Hd & Hu & Hq & Hn & Hl).
  set (t := string_map std_byte (b64_encode s)) in *. rewrite <- Hl.
  destruct (b64_std_padded t) as [Hlen Htrim]; [rewrite Hl; apply b64_encode_groups|done|].
  rewrite without_newlines_app, Hn.
  replace (without_newlines (b64_padding (String.length t))) with (b64_padding (String.length t))
    by (unfold b64_padding; by destruct (String.length t mod 4)%nat as [|[|[|[|n]]]]).
  cbn zeta in *. rewrite Hlen, Htrim, Hm, b64_roundtrip. cbn. unfold no_byte in *. rewrite !string_forall_app, Hd, Hu.
  unfold b64_padding. by destruct (String.length t mod 4)%nat as [|[|[|[|n]]]].
Qed.

(** A byte of an encoding, padding included. *)
Definition b64_std_char (a : ascii) : bool :=
  byte_in 65 90 a || byte_in 97 122 a || byte_in 48 57 a || bool_decide (a ∈ ["+"; "/"; "="]%char).

Lemma b64_std_alphabet s : string_forall b64_std_char (b64_std_encode s) = true.
Proof.
  unfold b64_std_encode. rewrite string_forall_app. apply andb_true_iff. split.
  - pose proof (b64_encode_alphabet s) as Ha. induction (b64_encode s) as [|a e IH]; cbn in *; [done|].
    apply andb_true_iff in Ha as [Ha He]. rewrite (IH He), andb_true_r. revert Ha.
    clear. destruct a as [[] [] [] [] [] [] [] []]; vm_compute; intros [=]; done.
  - unfold b64_padding. by destruct (_ mod 4)%nat as [|[|[|[|n]]]].
Qed.

Lemma b64_std_no_byte c s : b64_std_char c = false -> no_byte c (b64_std_encode s) = true.
Proof.
  intros Hc. eapply string_forall_impl; [|apply b64_std_alphabet]. intros a Ha.
  apply negb_true_iff, bool_decide_eq_false. by intros ->; congruence.
Qed.
