(* ===== verification/GoTime.v ===== *)
(** * Go's [time.Time] and [time.Duration].

    A [time.Time] is a second count since 1 January of year 1 (an [int64]) and a
    nanosecond within the second; it is modelled as one integer, the nanoseconds
    since that instant, whose second part is kept at 64 bits.  The zero value is
    therefore [0].  A [time.Duration] is an [int64] number of nanoseconds.
    The monotonic clock reading that [time.Now] adds is not modelled: two readings
    of the clock are compared by their wall time. *)

From S2P Require Import Prelude.
From Stdlib Require Import ZArith Lia.

Local Open Scope Z_scope.

Abbreviation time := Z (only parsing).
Abbreviation duration := Z (only parsing).

Definition nanosecond : duration := 1.
Definition microsecond : duration := 1000.
Definition millisecond : duration := 1000000.
Definition second : duration := 1000000000.
Definition minute : duration := 60 * second.
Definition hour : duration := 60 * minute.

(** Seconds between year 1 and the Unix epoch. *)
Definition unix_to_internal : Z := 62135596800.

Definition zero_time : time := 0.
Definition is_zero (t : time) : bool := t =? 0.

Definition sec_of (t : time) : Z := t / second.
Definition nsec_of (t : time) : Z := t mod second.

(** A value [time.Time] can hold. *)
Definition valid_time (t : time) : Prop := in_int64 (sec_of t).

(** [time.Unix(s, 0).UTC()]: the conversion to the internal epoch wraps. *)
Definition unix_time (s : Z) : time := wrap64 (s + unix_to_internal) * second.

(** [t.Unix()]. *)
Definition to_unix (t : time) : Z := wrap64 (sec_of t - unix_to_internal).

(** [t.UnixNano()], which wraps around outside the years 1678 to 2262. *)
Definition unix_nano (t : time) : Z := wrap64 (t - unix_to_internal * second).

Definition after (t u : time) : bool := u <? t.
Definition before (t u : time) : bool := t <? u.

(** [t.Add(d)]: the second count saturates. *)
Definition time_add (t : time) (d : duration) : time :=
  let ns := nsec_of t + d in
  Z.max (- max_int64) (Z.min max_int64 (sec_of t + ns / second)) * second + ns mod second.

(** [t.Sub(u)]: saturates at the bounds of a duration. *)
Definition time_sub (t u : time) : duration := Z.max min_int64 (Z.min max_int64 (t - u)).

(** [time.Duration(n) * time.Second]: an [int64] product. *)
Definition seconds (n : Z) : duration := wrap64 (n * second).

(** [time.Time.Format(time.RFC3339)] and [time.Parse(time.RFC3339, _)]. *)
Class Rfc3339 := {
  format_rfc3339 : time -> string;
  parse_rfc3339 : string -> option time;
}.

(** Times of the years 1 to 9999, the range the service's dates live in. *)
Definition civil_time (t : time) : Prop := 0 <= t < 315537897600 * second.

Lemma civil_valid t : civil_time t -> valid_time t.
Proof.
  unfold civil_time, valid_time, in_int64, sec_of, min_int64, max_int64, second. intros Ht.
  pose proof (Z.div_pos t 1000000000 ltac:(lia) ltac:(lia)).
  assert (t / 1000000000 <= 315537897600) by (apply Z.div_le_upper_bound; lia). lia.
Qed.

Lemma time_split t : t = sec_of t * second + nsec_of t.
Proof. unfold sec_of, nsec_of, second. pose proof (Z.div_mod t 1000000000 ltac:(lia)). lia. Qed.

Lemma nsec_bound t : 0 <= nsec_of t < second.
Proof. unfold nsec_of, second. apply Z.mod_pos_bound. lia. Qed.

(** Inside the civil range addition is addition. *)
Lemma time_add_civil t d :
  civil_time t -> civil_time (t + d) -> time_add t d = t + d.
Proof.
  intros Ht Htd.
  unfold time_add. pose proof (time_split t) as E.
  assert (Hs : sec_of t + (nsec_of t + d) / second = sec_of (t + d)).
  { rewrite E at 3. unfold sec_of, second.
    replace (t / 1000000000 * 1000000000 + nsec_of t + d)
      with ((nsec_of t + d) + t / 1000000000 * 1000000000) by lia.
    rewrite Z.div_add by lia. lia. }
  assert (Hn : (nsec_of t + d) mod second = nsec_of (t + d)).
  { rewrite E at 2. unfold nsec_of at 2, second.
    replace (sec_of t * 1000000000 + nsec_of t + d)
      with ((nsec_of t + d) + sec_of t * 1000000000) by lia.
    by rewrite Z.mod_add by lia. }
  rewrite Hs, Hn. pose proof (time_split (t + d)) as E'.
  apply civil_valid in Htd as Hv. revert Hv. unfold valid_time, in_int64.
  unfold min_int64, max_int64 in *. unfold civil_time in Htd.
  assert (0 <= sec_of (t + d)) by (unfold sec_of, second; apply Z.div_pos; lia).
  intros. rewrite Z.max_r, Z.min_r by lia. lia.
Qed.

(** Second counts of the civil range survive the trip through the Unix epoch. *)
Lemma unix_time_civil s :
  0 <= s + unix_to_internal < 315537897600 -> unix_time s = (s + unix_to_internal) * second.
Proof.
  intros Hs. unfold unix_time. rewrite wrap64_id; [done|].
  unfold in_int64, min_int64, max_int64. lia.
Qed.

Lemma to_unix_civil t : civil_time t -> to_unix t = sec_of t - unix_to_internal.
Proof.
  intros Ht. apply civil_valid in Ht as Hv. unfold to_unix. apply wrap64_id.
  unfold civil_time in Ht. unfold in_int64, min_int64, max_int64, unix_to_internal.
  assert (0 <= sec_of t) by (unfold sec_of, second; apply Z.div_pos; lia).
  unfold valid_time, in_int64, max_int64 in Hv. lia.
Qed.

(** The second-precision time of a Unix count is the time without its nanoseconds. *)
Lemma unix_to_unix t : civil_time t -> unix_time (to_unix t) = sec_of t * second.
Proof.
  intros Ht. rewrite to_unix_civil by done. rewrite unix_time_civil; [f_equal; lia|].
  unfold civil_time in Ht. unfold sec_of, second in *.
  pose proof (Z.div_pos t 1000000000 ltac:(lia) ltac:(lia)).
  assert (t / 1000000000 < 315537897600) by (apply Z.div_lt_upper_bound; lia). lia.
Qed.

Lemma seconds_exact n : in_int64 (n * second) -> seconds n = n * second.
Proof. apply wrap64_id. Qed.
