(* ===== verification/Errors.v ===== *)
(** * Errors.

    Go's package-level error variables are the constructors of [sentinel]; an error
    value is one of them, a fresh text ([errors.New], [fmt.Errorf] without [%w]), a
    [domain.ValidationError], or one of these wrapped with text around it
    ([fmt.Errorf] with one [%w]).  [errors.Is] and [err.Error()] are functions. *)

From S2P Require Import Prelude.
From Stdlib Require Import String.
From stdpp Require Import list strings.

Local Open Scope string_scope.

(** The [var ErrX = errors.New(...)] of the packages.
    Source: internal/domain/vc_verify.go:15-28, [Err...]. *)
Inductive sentinel :=
(* internal/domain/vc_verify.go *)
| ErrInvalidToken | ErrInvalidSignature | ErrExpiredCredential | ErrIssuedInFuture
| ErrUntrustedIssuer | ErrUnexpectedAudience | ErrInvalidDelegation | ErrDelegationScope
| ErrDelegationTTL | ErrDelegationDepth | ErrMissingDisclosure | ErrInvalidDisclosure
(* internal/domain/authz_bridge.go *)
| ErrDecisionDenied | ErrSigningKeyRequired | ErrIssuerRequired | ErrInvalidTTL
| ErrInvalidTokenFormat | ErrUnsupportedPublicKeyType | ErrInvalidTokenSignature
(* internal/domain/admin.go *)
| ErrNotAdminVC | ErrInsufficientAdminPrivileges
(* internal/domain/did_resolver.go *)
| ErrInvalidDIDFormat | ErrUnsupportedDIDMethod | ErrInvalidJWK | ErrUnsupportedKeyType
| ErrEmptyDID | ErrWebResolutionFailed | ErrInvalidDIDDocument | ErrDocumentTooLarge
| ErrUnsecureConnection | ErrInvalidWebDID
(* internal/policy *)
| ErrPolicyNotFound | ErrPolicyViolation
(* internal/tenant *)
| ErrTenantNotFound | ErrTenantDisabled
(* internal/crypto *)
| ErrKMSSigningDisabled
(* sdk/go *)
| ErrUnauthorized | ErrInvalidCredential | ErrServerError | ErrNetwork.

#[global] Instance sentinel_eq_dec : EqDecision sentinel.
Proof. solve_decision. Defined.

(** The texts of the verification errors.
    Source: internal/domain/vc_verify.go:15-28, [Err...]. *)
Definition verify_error_text (s : sentinel) : string :=
  match s with
  | ErrInvalidToken => "invalid credential token"
  | ErrInvalidSignature => "invalid credential signature"
  | ErrExpiredCredential => "credential has expired"
  | ErrIssuedInFuture => "credential is issued in the future"
  | ErrUntrustedIssuer => "issuer is not trusted"
  | ErrUnexpectedAudience => "unexpected audience"
  | ErrInvalidDelegation => "invalid delegation chain"
  | ErrDelegationScope => "delegated scope must be subset of parent"
  | ErrDelegationTTL => "delegated credential expires after parent"
  | ErrDelegationDepth => "delegation depth exceeded"
  | ErrMissingDisclosure => "disclosure missing for SD-JWT digest"
  | ErrInvalidDisclosure => "invalid SD-JWT disclosure"
  | _ => ""
  end.

(** Source: internal/domain/authz_bridge.go:15-23, [Err...]. *)
Definition bridge_error_text (s : sentinel) : string :=
  match s with
  | ErrDecisionDenied => "cannot mint token for denied decision"
  | ErrSigningKeyRequired => "signing key is required"
  | ErrIssuerRequired => "issuer is required"
  | ErrInvalidTTL => "ttl must be positive"
  | ErrInvalidTokenFormat => "invalid token format"
  | ErrUnsupportedPublicKeyType => "unsupported public key type"
  | ErrInvalidTokenSignature => "invalid signature"
  | _ => ""
  end.

(** Source: internal/domain/did_resolver.go:14-26, [Err...]. *)
Definition resolver_error_text (s : sentinel) : string :=
  match s with
  | ErrInvalidDIDFormat => "invalid DID format"
  | ErrUnsupportedDIDMethod => "unsupported DID method"
  | ErrInvalidJWK => "invalid JWK structure"
  | ErrUnsupportedKeyType => "unsupported key type"
  | ErrEmptyDID => "empty DID"
  | ErrWebResolutionFailed => "did:web resolution failed"
  | ErrInvalidDIDDocument => "invalid DID document"
  | ErrDocumentTooLarge => "DID document too large"
  | ErrUnsecureConnection => "did:web requires HTTPS"
  | ErrInvalidWebDID => "invalid did:web format"
  | _ => ""
  end.

(** The text of every error variable. *)
Definition sentinel_text (s : sentinel) : string :=
  match s with
  | ErrNotAdminVC => "credential is not an admin VC"
  | ErrInsufficientAdminPrivileges => "insufficient admin privileges"
  | ErrPolicyNotFound => "policy not found"
  | ErrPolicyViolation => "issuance policy violation"
  | ErrTenantNotFound => "tenant not found"
  | ErrTenantDisabled => "tenant disabled"
  | ErrKMSSigningDisabled => "kms signing disabled"
  | ErrUnauthorized => "unauthorized"
  | ErrInvalidCredential => "invalid_credential"
  | ErrServerError => "server_error"
  | ErrNetwork => "network_error"
  | s => verify_error_text s +:+ bridge_error_text s +:+ resolver_error_text s
  end.

(** Source: internal/domain/vc.go, [ValidationError]. *)
Record ValidationError := mkValidationError {
  ve_Field : string;
  ve_Message : string;
  ve_Code : string;
}.

#[global] Instance ValidationError_eq_dec : EqDecision ValidationError.
Proof. solve_decision. Defined.

(** Source: internal/domain/vc.go, [ValidationError.Error]. *)
Definition ValidationError_Error (e : ValidationError) : string :=
  if bool_decide (ve_Field e = "") then ve_Message e
  else ve_Field e +:+ ": " +:+ ve_Message e.

(** Source: internal/domain/vc.go, [NewValidationError]. *)
Definition NewValidationError (message : string) : ValidationError :=
  mkValidationError "" message "validation_error".

(** Source: internal/domain/vc.go, [NewFieldValidationError]. *)
Definition NewFieldValidationError (field message : string) : ValidationError :=
  mkValidationError field message "field_validation_error".

(** A Go [error] value. *)
Inductive error :=
| ErrVar (s : sentinel)
| ErrText (msg : string)
| ErrValidation (v : ValidationError)
| ErrWrap (pre : string) (inner : error) (post : string).

#[global] Instance error_eq_dec : EqDecision error.
Proof. solve_decision. Defined.

Coercion ErrVar : sentinel >-> error.

(** [err.Error()]. *)
Fixpoint error_text (e : error) : string :=
  match e with
  | ErrVar s => sentinel_text s
  | ErrText m => m
  | ErrValidation v => ValidationError_Error v
  | ErrWrap pre e post => pre +:+ error_text e +:+ post
  end.

(** [errors.Is(err, ErrX)]. *)
Fixpoint error_is (e : error) (s : sentinel) : bool :=
  match e with
  | ErrVar t => bool_decide (t = s)
  | ErrWrap _ e _ => error_is e s
  | _ => false
  end.

(** [errors.As(err, &validationErr)]. *)
Fixpoint error_as_validation (e : error) : option ValidationError :=
  match e with
  | ErrValidation v => Some v
  | ErrWrap _ e _ => error_as_validation e
  | _ => None
  end.

(** An error matches at most one error variable. *)
Lemma error_is_unique e s t : error_is e s = true -> error_is e t = true -> s = t.
Proof.
  induction e as [u| | |pre e IH post]; cbn; try done.
  intros Hs Ht. breflect. congruence.
Qed.
