(* ===== verification/GoDuration.v ===== *)
(** * Durations in text.

    [time.ParseDuration] of Go's standard library: a sign and a sequence of decimal numbers, each
    with a fraction and a unit.  Whole parts are unsigned 64-bit numbers; a fraction is scaled in
    64-bit floats, here the binary floats of the standard library of Rocq (SpecFloat). *)

From S2P Require Import Prelude GoStrings GoTime Errors.
From Stdlib Require Import ZArith Ascii String Lia Floats.SpecFloat.
From stdpp Require Import list strings.

Local Open Scope string_scope.

(** ** Floats *)

Definition float_of_Z (z : Z) : spec_float := binary_normalize 53 1024 z 0 false.

(** [uint64(f)] of a float that is not negative and fits: the whole part. *)
Definition truncate (f : spec_float) : Z :=
  match f with
  | S754_finite false m e => Z.shiftl (Zpos m) e
  | _ => 0%Z
  end.

(** [float64(f) * (float64(unit) / scale)] *)
Definition scaled (f unit scale : Z) : Z :=
  truncate (SFmul 53 1024 (float_of_Z f) (SFdiv 53 1024 (float_of_Z unit) (float_of_Z scale))).

(** ** Scanning *)

(** [leadingInt]: the digits in front, and what follows them; nothing if they are too many. *)
Fixpoint leading_int (x : Z) (s : string) : option (Z * string) :=
  match s with
  | String a s' =>
      match digit_value a with
      | Some d =>
          let x' := (x * 10 + d)%Z in
          if ((2 ^ 63 / 10 <? x) || (2 ^ 63 <? x'))%Z then None else leading_int x' s'
      | None => Some (x, s)
      end
  | "" => Some (x, s)
  end.

(** [leadingFraction]: digits that would not fit are skipped. *)
Fixpoint leading_fraction (x scale : Z) (overflow : bool) (s : string) : Z * Z * string :=
  match s with
  | String a s' =>
      match digit_value a with
      | Some d =>
          let x' := (x * 10 + d)%Z in
          if overflow || ((max_int64 / 10 <? x) || (2 ^ 63 <? x'))%Z then leading_fraction x scale true s'
          else leading_fraction x' (scale * 10) false s'
      | None => (x, scale, s)
      end
  | "" => (x, scale, s)
  end.

(** The unit in front: everything up to a dot or a digit. *)
Fixpoint leading_unit (s : string) : string * string :=
  match s with
  | String a s' =>
      if bool_decide (a = "."%char) || bool_decide (is_Some (digit_value a)) then ("", s)
      else let '(u, rest) := leading_unit s' in (String a u, rest)
  | "" => ("", "")
  end.

(** [unitMap]; a micro sign is two bytes, and there are two of them. *)
Definition unit_of (u : string) : option Z :=
  if bool_decide (u = "ns") then Some nanosecond
  else if bool_decide (u = "us" \/ u = "µs" \/ u = "μs") then Some microsecond
  else if bool_decide (u = "ms") then Some millisecond
  else if bool_decide (u = "s") then Some second
  else if bool_decide (u = "m") then Some minute
  else if bool_decide (u = "h") then Some hour
  else None.

(** ** Parsing *)

(** One number with its unit, in nanoseconds, and what follows it. *)
Definition parse_term (s : string) : option (Z * string) :=
  '(v, s1) ← leading_int 0 s;
  let pre := negb (String.length s1 =? String.length s)%nat in
  let '(f, scale, s2, post) :=
    match s1 with
    | String "." s1' =>
        let '(f, scale, s2) := leading_fraction 0 1 false s1' in
        (f, scale, s2, negb (String.length s2 =? String.length s1')%nat)
    | _ => (0%Z, 1%Z, s1, false)
    end in
  if negb (pre || post) then None
  else
    let '(u, s3) := leading_unit s2 in
    unit ← unit_of u;
    if (2 ^ 63 / unit <? v)%Z then None
    else
      let v := (v * unit + (if 0 <? f then scaled f unit scale else 0))%Z in
      if (2 ^ 63 <? v)%Z then None else Some (v, s3).

(** The terms of a string.  Every term has a unit, so the length of the string bounds their
    number. *)
Fixpoint parse_terms (fuel : nat) (d : Z) (s : string) : option Z :=
  if bool_decide (s = "") then Some d
  else
    match fuel with
    | O => None
    | S fuel =>
        '(v, s') ← parse_term s;
        let d := (d + v)%Z in
        if (2 ^ 63 <? d)%Z then None else parse_terms fuel d s'
    end.

Definition parse_duration (s : string) : option duration :=
  let '(neg, s) :=
    match s with
    | String "-" s' => (true, s')
    | String "+" s' => (false, s')
    | _ => (false, s)
    end in
  if bool_decide (s = "0") then Some 0%Z
  else if bool_decide (s = "") then None
  else
    d ← parse_terms (String.length s) 0 s;
    if neg then Some (wrap64 (- d))
    else if (max_int64 <? d)%Z then None else Some d.

Definition quoted (s : string) : string :=
  let mark := String "034" "" in mark +:+ s +:+ mark.

(** [time.ParseDuration].  The text of its error, which tells more, is only ever logged. *)
Definition ParseDuration (s : string) : result error duration :=
  of_option (ErrText ("time: invalid duration " +:+ quoted s)) (parse_duration s).

Example parse_duration_examples :
  (parse_duration <$> ["1m"; "24h"; "1h30m"; "1.5h"; "300ms"; "-2.5s"; "+5us"; ".5s"; "1.s"; "0";
                       "9223372036854775807ns"; "-9223372036854775808ns"])
  = Some <$> [minute; 24 * hour; 90 * minute; 90 * minute; 300 * millisecond; -2500 * millisecond;
              5 * microsecond; 500 * millisecond; second; 0; max_int64; min_int64]%Z
  /\ (parse_duration <$> [""; "1"; "-"; "."; ".s"; "m"; "1d"; "3000000h"; "9223372036854775808ns"; "1m "])
     = [None; None; None; None; None; None; None; None; None; None].
Proof. vm_compute. split; reflexivity. Qed.

(** ** The loop ends, and the result fits *)

Lemma digit_value_range a d : digit_value a = Some d -> (0 <= d <= 9)%Z.
Proof.
  unfold digit_value. destruct (_ && _)%bool eqn:E; [|done]. intros [= <-]. apply andb_true_iff in E as [Ha Hb].
  apply Nat.leb_le in Ha, Hb. lia.
Qed.

Lemma leading_int_spec s : forall x v s',
  (0 <= x)%Z -> leading_int x s = Some (v, s') -> (0 <= v)%Z /\ (String.length s' <= String.length s)%nat.
Proof.
  induction s as [|a s IH]; intros x v s' Hx; cbn [leading_int]; [by intros [= <- <-]|].
  destruct (digit_value a) as [d|] eqn:Hd; [|intros [= <- <-]; lia]. apply digit_value_range in Hd.
  destruct (_ || _)%bool; [done|]. intros Hl. apply IH in Hl as [??]; cbn; lia.
Qed.

Lemma leading_fraction_length s : forall x scale o f scale' s',
  leading_fraction x scale o s = (f, scale', s') -> (String.length s' <= String.length s)%nat.
Proof.
  induction s as [|a s IH]; intros x scale o f scale' s'; cbn [leading_fraction]; [by intros [= _ _ <-]|].
  destruct (digit_value a); [|by intros [= _ _ <-]].
  destruct (_ || _)%bool; intros Hl; apply IH in Hl; cbn; lia.
Qed.

Lemma leading_unit_length s u s' : leading_unit s = (u, s') -> (String.length s' + String.length u = String.length s)%nat.
Proof.
  revert u s'. induction s as [|a s IH]; intros u s'; cbn [leading_unit]; [by intros [= <- <-]|].
  destruct (_ || _)%bool; [by intros [= <- <-]; cbn; lia|].
  destruct (leading_unit s) as [u1 s1]. intros [= <- <-]. cbn. specialize (IH _ _ eq_refl). lia.
Qed.

Lemma truncate_nonneg f : (0 <= truncate f)%Z.
Proof. destruct f as [| | |[] m e]; cbn; try lia. by apply Z.shiftl_nonneg. Qed.

(** A term is not empty: it has a unit. *)
Lemma parse_term_spec s v s' :
  parse_term s = Some (v, s') -> (0 <= v)%Z /\ (String.length s' < String.length s)%nat.
Proof.
  unfold parse_term. destruct (leading_int 0 s) as [[v0 s1]|] eqn:Hi; [|done]. cbn [mbind option_bind].
  apply leading_int_spec in Hi as [Hv Hl]; [|lia].
  assert (Hrest : forall f scale s2 post, (String.length s2 <= String.length s1)%nat ->
    (if negb (negb (String.length s1 =? String.length s)%nat || post) then None
     else let '(u, s3) := leading_unit s2 in
          unit ← unit_of u;
          if (2 ^ 63 / unit <? v0)%Z then None
          else let v := (v0 * unit + (if 0 <? f then scaled f unit scale else 0))%Z in
               if (2 ^ 63 <? v)%Z then None else Some (v, s3)) = Some (v, s') ->
    (0 <= v)%Z /\ (String.length s' < String.length s)%nat).
  { intros f scale s2 post Hs2. destruct (negb _); [done|]. destruct (leading_unit s2) as [u s3] eqn:Hu.
    apply leading_unit_length in Hu. destruct (unit_of u) as [unit|] eqn:Hun; [|done]. cbn [mbind option_bind].
    assert (Hpos : (0 < unit)%Z /\ u <> "").
    { unfold unit_of in Hun. repeat case_bool_decide; simplify_eq; split; try done; naive_solver. }
    destruct Hpos as [Hpos Hne]. destruct (_ <? v0)%Z; [done|]. cbv zeta. destruct (2 ^ 63 <? _)%Z; [done|].
    intros [= <- <-]. split.
    - assert (0 <= (if 0 <? f then scaled f unit scale else 0))%Z by (destruct (0 <? f)%Z; [apply truncate_nonneg|lia]).
      nia.
    - destruct u; [done|]. cbn in Hu. lia. }
  destruct s1 as [|[[] [] [] [] [] [] [] []] s1']; try (by apply (Hrest 0%Z 1%Z)).
  destruct (leading_fraction 0 1 false s1') as [[f scale] s2] eqn:Hf. apply leading_fraction_length in Hf.
  apply Hrest. cbn. lia.
Qed.

(** The fuel of [parse_duration] is enough: more changes nothing. *)
Lemma parse_terms_fuel n s d : (String.length s <= n)%nat -> parse_terms n d s = parse_terms (String.length s) d s.
Proof.
  remember (String.length s) as m eqn:Hm. revert s n d Hm. induction m as [m IH] using lt_wf_ind.
  intros s n d -> Hn. destruct s as [|a s]; [by destruct n|]. destruct n as [|n]; [cbn in Hn; lia|].
  cbn [parse_terms String.length]. rewrite bool_decide_eq_false_2 by done.
  destruct (parse_term (String a s)) as [[v s']|] eqn:Ht; [|done]. cbn [mbind option_bind].
  apply parse_term_spec in Ht as [_ Hl]. cbn in Hl, Hn. destruct (2 ^ 63 <? d + v)%Z; [done|].
  rewrite (IH (String.length s') ltac:(cbn; lia) s' n), (IH (String.length s') ltac:(cbn; lia) s' (String.length s)) by (done || lia).
  done.
Qed.

Lemma parse_terms_range n s : forall d d', (0 <= d <= 2 ^ 63)%Z -> parse_terms n d s = Some d' -> (0 <= d' <= 2 ^ 63)%Z.
Proof.
  revert s. induction n as [|n IH]; intros s d d' Hd; cbn [parse_terms]; case_bool_decide; try done; try (by intros [= <-]).
  destruct (parse_term s) as [[v s']|] eqn:Ht; [|done]. cbn [mbind option_bind].
  apply parse_term_spec in Ht as [Hv _]. destruct (2 ^ 63 <? d + v)%Z eqn:E; [done|]. breflect. apply IH. lia.
Qed.

(** Every duration that is read is a 64-bit integer. *)
Lemma ParseDuration_range s d : ParseDuration s = Ok d -> in_int64 d.
Proof.
  unfold ParseDuration, parse_duration. rewrite of_option_Ok.
  destruct (match s with "" => _ | String _ _ => _ end) as [neg s'].
  repeat case_bool_decide; try done; [by intros [= <-]|].
  destruct (parse_terms _ 0 s') as [d'|] eqn:Ht; [|done]. cbn [mbind option_bind].
  apply parse_terms_range in Ht; [|lia].
  destruct neg; [intros [= <-]; apply wrap64_in|]. unfold in_int64, min_int64, max_int64 in *.
  destruct (_ <? d')%Z eqn:E; [done|]. breflect. intros [= <-]. lia.
Qed.
