(* ===== verification/Values.v ===== *)
(** * Dynamic values: Go's [interface{}], JSON, claims.

    [gval] is the value an [interface{}] of the service can hold: what
    [encoding/json] decodes ([VNull], [VBool], [VFloat], [VStr], [VArr], [VObj]) and
    the Go values the service puts in a claims map itself before it is marshalled
    ([VInt], [VInt64], [VStrs]).  JSON text is an interface, the class [Json]: the
    development never looks inside the text, only at the law [JsonLaw]. *)

From S2P Require Import Prelude GoStrings Errors.
From Stdlib Require Import ZArith Lia Ascii String.
From Stdlib Require Import Floats.SpecFloat.
From stdpp Require Import gmap list strings.

Local Open Scope string_scope.

(** ** Values *)

(** [VFloat] holds an IEEE binary64 number, Go's [float64]. *)
#[warnings="-register-all"]
Inductive gval : Type :=
| VNull
| VBool (b : bool)
| VInt (z : Z)              (** a Go [int] *)
| VInt64 (z : Z)            (** a Go [int64] *)
| VFloat (f : spec_float)   (** a Go [float64] *)
| VStr (s : string)
| VStrs (l : list string)   (** a Go [[]string] *)
| VArr (l : list gval)      (** a Go [[]interface{}] *)
| VObj (m : gmap string gval).  (** a Go [map[string]interface{}] *)

(** A Go [map[string]interface{}] field: [None] is the nil map. *)
Abbreviation claims_map := (option (gmap string gval)).

#[global] Instance spec_float_eq_dec : EqDecision spec_float.
Proof. solve_decision. Defined.

#[global] Instance gval_eq_dec : EqDecision gval.
Proof.
  refine (fix go v w :=
    let _ : EqDecision gval := @go in
    match v, w with
    | VNull, VNull => left eq_refl
    | VBool a, VBool b => cast_if (decide (a = b))
    | VInt a, VInt b => cast_if (decide (a = b))
    | VInt64 a, VInt64 b => cast_if (decide (a = b))
    | VFloat a, VFloat b => cast_if (decide (a = b))
    | VStr a, VStr b => cast_if (decide (a = b))
    | VStrs a, VStrs b => cast_if (decide (a = b))
    | VArr a, VArr b => cast_if (decide (a = b))
    | VObj a, VObj b => cast_if (decide (a = b))
    | _, _ => right _
    end); congruence.
Defined.

(** Reading a key of a map field; a nil map reads like an empty one. *)
Definition claim (c : claims_map) (k : string) : option gval := m ← c; m !! k.

(** [x, ok := v.(string)]: the dynamic type test, and the zero value on failure. *)
Definition as_string (v : gval) : option string :=
  match v with VStr s => Some s | _ => None end.

(** [s, _ := m[k].(string)]: empty when the key is missing or not a string. *)
Definition claim_string (c : claims_map) (k : string) : string :=
  match claim c k with Some (VStr s) => s | _ => "" end.

(** The string items of a decoded array, the others skipped. *)
Definition string_items (l : list gval) : list string := omap as_string l.

(** ** float64 arithmetic the service uses *)

(** [float64(z)]: the nearest binary64 number. *)
Definition float_of_Z (z : Z) : spec_float := binary_normalize 53 1024 z 0 false.

(** [int(f)]: truncation towards zero.  Go leaves the value unspecified when the
    number does not fit (or is not a number); [None] stands for that. *)
Definition trunc_float (f : spec_float) : option Z :=
  match f with
  | S754_zero _ => Some 0%Z
  | S754_finite s m e =>
      let a := match e with
               | Z0 => Zpos m
               | Zpos p => (Zpos m * 2 ^ Zpos p)%Z
               | Zneg p => (Zpos m / 2 ^ Zpos p)%Z
               end in
      let z := (if s then - a else a)%Z in
      if ((min_int64 <=? z) && (z <=? max_int64))%Z then Some z else None
  | _ => None
  end.

(** [a == b] on [float64]. *)
Definition float_eqb : spec_float -> spec_float -> bool := SFeqb.

(** ** UTF-8 *)

Definition cont_byte : ascii -> bool := byte_in 128 191.

(** [utf8.ValidString]. *)
Fixpoint utf8_valid (s : string) : bool :=
  match s with
  | "" => true
  | String a s1 =>
      if byte_in 0 127 a then utf8_valid s1
      else match s1 with
      | "" => false
      | String b s2 =>
          if byte_in 194 223 a then cont_byte b && utf8_valid s2
          else match s2 with
          | "" => false
          | String c s3 =>
              if byte_in 224 239 a then
                byte_in (if bool_decide (nat_of_ascii a = 224%nat) then 160 else 128)
                        (if bool_decide (nat_of_ascii a = 237%nat) then 159 else 191) b
                && cont_byte c && utf8_valid s3
              else match s3 with
              | "" => false
              | String d s4 =>
                  byte_in 240 244 a
                  && byte_in (if bool_decide (nat_of_ascii a = 240%nat) then 144 else 128)
                             (if bool_decide (nat_of_ascii a = 244%nat) then 143 else 191) b
                  && cont_byte c && cont_byte d && utf8_valid s4
              end
          end
      end
  end.

Lemma utf8_valid_ascii s : string_forall is_ascii s = true -> utf8_valid s = true.
Proof.
  induction s as [|a s IH]; [done|].
  cbn [string_forall utf8_valid]. intros [Ha Hs]%andb_true_iff.
  assert (byte_in 0 127 a = true) as ->; [|by apply IH].
  unfold is_ascii in Ha. unfold byte_in. breflect. apply andb_true_iff.
  split; apply Nat.leb_le; lia.
Qed.

(** ** JSON *)

(** A number JSON text can carry: finite, and canonical. *)
Definition json_number (f : spec_float) : bool :=
  match f with
  | S754_zero _ => true
  | S754_finite _ m e => bounded 53 1024 m e
  | _ => false
  end.

(** Values [json.Marshal] accepts and writes without replacing bytes. *)
Fixpoint json_safe (v : gval) : bool :=
  match v with
  | VStr s => utf8_valid s
  | VFloat f => json_number f
  | VStrs l => forallb utf8_valid l
  | VArr l => forallb json_safe l
  | VObj m => map_fold (fun k v b => utf8_valid k && json_safe v && b) true m
  | _ => true
  end.

(** What a marshalled value reads back as: integers become [float64] numbers,
    string slices become arrays. *)
Fixpoint json_image (v : gval) : gval :=
  match v with
  | VInt z | VInt64 z => VFloat (float_of_Z z)
  | VStrs l => VArr (VStr <$> l)
  | VArr l => VArr (json_image <$> l)
  | VObj m => VObj (json_image <$> m)
  | v => v
  end.

(** [json.Marshal] and [json.Unmarshal] at a type. *)
Class Json (T : Type) := {
  json_marshal : T -> result error string;
  json_unmarshal : string -> result error T;
}.

(** An object is safe when its members are. *)
Lemma json_safe_obj m :
  json_safe (VObj m) = true <-> map_Forall (fun k v => utf8_valid k = true /\ json_safe v = true) m.
Proof.
  cbn [json_safe]. apply (map_fold_weak_ind (fun b m => b = true <-> map_Forall _ m)).
  - split; [intros _; apply map_Forall_empty|done].
  - intros k v m' b Hk IH. rewrite map_Forall_insert by done. rewrite !andb_true_iff, IH. done.
Qed.

(** The documented behaviour the service relies on: a safe value is marshalled,
    and the text reads back as the value's image. *)
Class JsonLaw (T : Type) `{Json T} (safe : T -> bool) (image : T -> T) : Prop :=
  json_law : forall v, safe v = true ->
    exists s, json_marshal v = Ok s /\ json_unmarshal s = Ok (image v).

Lemma json_image_lookup (m : gmap string gval) k : (json_image <$> m) !! k = json_image <$> (m !! k).
Proof. apply lookup_fmap. Qed.

(** [int(f)] and [int64(f)] as the amd64 compiler implements them: a number that does
    not fit gives the least integer. *)
Definition int_of_float (f : spec_float) : Z := default min_int64 (trunc_float f).

(** ** Induction on values *)

Fixpoint gval_size (v : gval) : nat :=
  match v with
  | VArr l => S (foldr (fun v n => gval_size v + n) 0 l)
  | VObj m => S (map_fold (fun _ v n => gval_size v + n) 0 m)
  | _ => 1
  end%nat.

Lemma gval_size_list l v : v ∈ l -> (gval_size v <= foldr (fun v n => gval_size v + n) 0 l)%nat.
Proof. induction 1; cbn; lia. Qed.

Lemma gval_size_map (m : gmap string gval) k v :
  m !! k = Some v -> (gval_size v <= map_fold (fun _ v n => gval_size v + n) 0 m)%nat.
Proof.
  revert k v. induction m as [|i x m Hi Hfold IH] using map_first_key_ind; intros k v.
  - by rewrite lookup_empty.
  - rewrite map_fold_insert_first_key by done. rewrite lookup_insert.
    case_decide; [intros [= ->]; lia|]. intros Hv%IH. lia.
Qed.

Section gval_ind.
Variable P : gval -> Prop.
Hypothesis Hleaf : forall v, (forall l, v <> VArr l) -> (forall m, v <> VObj m) -> P v.
Hypothesis Harr : forall l, Forall P l -> P (VArr l).
Hypothesis Hobj : forall m, map_Forall (fun _ => P) m -> P (VObj m).

Lemma gval_nested_ind v : P v.
Proof.
  remember (gval_size v) as n eqn:Hn. revert v Hn.
  induction (lt_wf n) as [n _ IH]. intros v ->.
  destruct v as [| | | | | | |l|m].
  1-7: by apply Hleaf.
  - apply Harr, Forall_forall. intros w Hw%gval_size_list.
    eapply IH; [|done]. cbn. lia.
  - apply Hobj. intros k w Hw%gval_size_map. eapply IH; [|done]. cbn. lia.
Qed.
End gval_ind.

(** A value that came from JSON text reads back unchanged. *)
Lemma json_image_idem v : json_image (json_image v) = json_image v.
Proof.
  induction v as [v Hl Hm|l IH|m IH] using gval_nested_ind.
  - destruct v; cbn; try done; [|by destruct (Hl l)|by destruct (Hm m)].
    f_equal. rewrite <- list_fmap_compose. by apply list_fmap_ext.
  - cbn. f_equal. rewrite <- list_fmap_compose.
    induction IH as [|v l Hv _ IHl]; cbn; [done|]. by rewrite Hv, IHl.
  - cbn. f_equal. rewrite <- map_fmap_compose. apply map_fmap_ext. intros k v Hv. by eapply IH.
Qed.
