(* ===== verification/GoFmt.v ===== *)
(** * [reflect.DeepEqual] and the [%v] verb on dynamic values. *)

From S2P Require Import Prelude GoStrings Errors Values.
From Stdlib Require Import ZArith Ascii String Floats.SpecFloat.
From stdpp Require Import gmap list strings pretty.

Local Open Scope string_scope.

(** [reflect.DeepEqual(v, w)] on two values that share no memory: equal dynamic types, then
    equal contents; numbers are compared with [==], so the two zeros are equal and a NaN
    equals nothing. *)
Fixpoint deep_equal (v w : gval) : bool :=
  match v, w with
  | VNull, VNull => true
  | VBool a, VBool b => bool_decide (a = b)
  | VInt a, VInt b => bool_decide (a = b)
  | VInt64 a, VInt64 b => bool_decide (a = b)
  | VFloat a, VFloat b => float_eqb a b
  | VStr a, VStr b => bool_decide (a = b)
  | VStrs a, VStrs b => bool_decide (a = b)
  | VArr a, VArr b =>
      (fix go (a b : list gval) : bool :=
         match a, b with
         | [], [] => true
         | x :: a', y :: b' => deep_equal x y && go a' b'
         | _, _ => false
         end) a b
  | VObj a, VObj b =>
      bool_decide (size a = size b)
      && map_fold (fun k x r => match b !! k with Some y => deep_equal x y | None => false end && r) true a
  | _, _ => false
  end.

(** How [%v] writes a [float64]: the shortest decimal that reads back, which the library's
    tables produce. *)
Class FloatFormat := format_float : spec_float -> string.

(** The order in which [fmt] prints the keys of a map. *)
Definition key_less (a b : string * string) : bool :=
  match String.compare a.1 b.1 with Lt => true | _ => false end.

(** [fmt.Sprintf("%v", v)]. *)
Fixpoint format_v `{FloatFormat} (v : gval) : string :=
  match v with
  | VNull => "<nil>"
  | VBool b => if b then "true" else "false"
  | VInt z | VInt64 z => pretty z
  | VFloat f => format_float f
  | VStr s => s
  | VStrs l => "[" +:+ str_join " " l +:+ "]"
  | VArr l => "[" +:+ str_join " " (map format_v l) +:+ "]"
  | VObj m =>
      let entries := sort_by key_less (map_fold (fun k x r => (k, format_v x) :: r) [] m) in
      "map[" +:+ str_join " " (map (fun kv => kv.1 +:+ ":" +:+ kv.2) entries) +:+ "]"
  end.

(** [fmt.Sprintf("%v", l)] of a slice of strings. *)
Definition format_strings (l : list string) : string := "[" +:+ str_join " " l +:+ "]".
