(* ===== verification/Crypto.v ===== *)
(** * Keys, signatures and digests.

    The cryptographic primitives of Go's standard library are interfaces: a client
    of this file knows a digest function ([Sha256]), the Ed25519 check
    ([Ed25519]) and, for a signer that works, the law that what it signs
    verifies ([signer_ok]). *)

From S2P Require Import Prelude GoStrings Errors.
From Stdlib Require Import ZArith String.
From stdpp Require Import list strings.

Local Open Scope string_scope.

(** A [crypto.PublicKey]: an interface value, nil or of one of the concrete types
    the service meets.  Ed25519 keys are byte strings. *)
Inductive public_key :=
| PubNil
| PubEd25519 (k : string)
| PubECDSA (curve x y : string)
| PubRSA (bits : Z).

#[global] Instance public_key_eq_dec : EqDecision public_key.
Proof. solve_decision. Defined.

(** [ed25519.PublicKeySize] *)
Definition ed25519_public_key_size : nat := 32.

(** [publicKey.(ed25519.PublicKey)] *)
Definition as_ed25519 (pub : public_key) : option string :=
  match pub with PubEd25519 k => Some k | _ => None end.

(** [ed25519.Verify] (on keys of the right size: Go panics on the others). *)
Class Ed25519 := ed25519_verify : string -> string -> string -> bool.

(** [sha256.Sum256] *)
Class Sha256 := sha256 : string -> string.

(** A [crypto.Signer]: the public half and the signing operation. *)
Record Signer := mkSigner {
  signer_Public : public_key;
  signer_Sign : string -> result error string;
}.

(** A signer that holds the Ed25519 key [k] and can sign: every message gets a
    signature, and the signatures verify under [k]. *)
Definition signer_ok `{Ed25519} (s : Signer) (k : string) : Prop :=
  signer_Public s = PubEd25519 k /\
  forall m, exists sg, signer_Sign s m = Ok sg /\ ed25519_verify k m sg = true.
