(* ===== verification/Credential.v ===== *)
(** * The credential data model and its validation.

    Models internal/domain/vc.go: the canonical [VerifiableCredential], its VC-JWT
    wrapper, and the validators.  A nil map or slice is kept apart from an empty one
    where the code can tell them apart ([Context], [CredentialSubject], [Claims]). *)

From S2P Require Import Prelude GoStrings Base64 GoTime Errors Values.
From Stdlib Require Import ZArith Ascii String Lia.
From stdpp Require Import gmap list strings pretty.

Local Open Scope string_scope.

(** ** Records *)

(** Source: internal/domain/vc.go, [Proof]. *)
Record Proof_ := mkProof {
  proof_Type : string;
  proof_Created : string;
  proof_ProofValue : string;
  proof_ProofPurpose : string;
  proof_VerificationMethod : string;
}.

(** Source: internal/domain/vc.go, [VerifiableCredential]. *)
Record VerifiableCredential := mkVC {
  vc_Context : option (list string);
  vc_Type : list string;
  vc_ID : string;
  vc_Issuer : string;
  vc_IssuanceDate : string;
  vc_ExpirationDate : string;
  vc_CredentialSubject : claims_map;
  vc_Proof : option Proof_;
  vc_JTI : string;
  vc_ISS : string;
  vc_SUB : string;
  vc_IAT : Z;
  vc_EXP : Z;
  vc_NBF : Z;
  vc_Scope : list string;
  vc_DelegationChain : list string;
  vc_Format : string;
  vc_SDDigests : list string;
  vc_SDDigestAlg : string;
  vc_Claims : claims_map;
  vc_Subject : string;
  vc_IssuedAt : time;
  vc_ExpiresAt : time;
}.

(** The zero value of the struct. *)
Definition zero_vc : VerifiableCredential :=
  mkVC None [] "" "" "" "" None None "" "" "" 0 0 0 [] [] "" [] "" None "" zero_time zero_time.

(** Source: internal/domain/vc.go, [VCJWTPayload]. *)
Record VCJWTPayload := mkPayload {
  pl_ISS : string;
  pl_SUB : string;
  pl_JTI : string;
  pl_IAT : Z;
  pl_EXP : Z;
  pl_NBF : Z;
  pl_VC : VerifiableCredential;
}.

(** Source: internal/domain/vc.go, [CredentialRequest]. *)
Record CredentialRequest := mkCredentialRequest {
  cr_IssuerDid : string;
  cr_Subjects : list claims_map;
}.

#[global] Instance Proof_eq_dec : EqDecision Proof_.
Proof. solve_decision. Defined.
#[global] Instance VerifiableCredential_eq_dec : EqDecision VerifiableCredential.
Proof. solve_decision. Defined.
#[global] Instance VCJWTPayload_eq_dec : EqDecision VCJWTPayload.
Proof. solve_decision. Defined.

(** Field updates of a credential value, Go's [credential.X = v]. *)
Definition set_jwt_fields (vc : VerifiableCredential) (p : VCJWTPayload) : VerifiableCredential :=
  let '(mkVC ctx ty id iss idate edate subj proof _ _ _ _ _ _ sc dc fmt sd sda cl sub ia ea) := vc in
  mkVC ctx ty id iss idate edate subj proof (pl_JTI p) (pl_ISS p) (pl_SUB p) (pl_IAT p) (pl_EXP p)
       (pl_NBF p) sc dc fmt sd sda cl sub ia ea.

Definition set_IssuedAt (t : time) (vc : VerifiableCredential) : VerifiableCredential :=
  let '(mkVC ctx ty id iss idate edate subj proof jti isj su iat exp nbf sc dc fmt sd sda cl sub _ ea) := vc in
  mkVC ctx ty id iss idate edate subj proof jti isj su iat exp nbf sc dc fmt sd sda cl sub t ea.

Definition set_ExpiresAt (t : time) (vc : VerifiableCredential) : VerifiableCredential :=
  let '(mkVC ctx ty id iss idate edate subj proof jti isj su iat exp nbf sc dc fmt sd sda cl sub ia _) := vc in
  mkVC ctx ty id iss idate edate subj proof jti isj su iat exp nbf sc dc fmt sd sda cl sub ia t.

Definition set_Subject (s : string) (vc : VerifiableCredential) : VerifiableCredential :=
  let '(mkVC ctx ty id iss idate edate subj proof jti isj su iat exp nbf sc dc fmt sd sda cl _ ia ea) := vc in
  mkVC ctx ty id iss idate edate subj proof jti isj su iat exp nbf sc dc fmt sd sda cl s ia ea.

Definition set_Issuer (s : string) (vc : VerifiableCredential) : VerifiableCredential :=
  let '(mkVC ctx ty id _ idate edate subj proof jti isj su iat exp nbf sc dc fmt sd sda cl sub ia ea) := vc in
  mkVC ctx ty id s idate edate subj proof jti isj su iat exp nbf sc dc fmt sd sda cl sub ia ea.

Definition set_Claims (c : claims_map) (vc : VerifiableCredential) : VerifiableCredential :=
  let '(mkVC ctx ty id iss idate edate subj proof jti isj su iat exp nbf sc dc fmt sd sda _ sub ia ea) := vc in
  mkVC ctx ty id iss idate edate subj proof jti isj su iat exp nbf sc dc fmt sd sda c sub ia ea.

Definition set_CredentialSubject (c : claims_map) (vc : VerifiableCredential) : VerifiableCredential :=
  let '(mkVC ctx ty id iss idate edate _ proof jti isj su iat exp nbf sc dc fmt sd sda cl sub ia ea) := vc in
  mkVC ctx ty id iss idate edate c proof jti isj su iat exp nbf sc dc fmt sd sda cl sub ia ea.

Definition set_SDDigests (l : list string) (vc : VerifiableCredential) : VerifiableCredential :=
  let '(mkVC ctx ty id iss idate edate subj proof jti isj su iat exp nbf sc dc fmt _ sda cl sub ia ea) := vc in
  mkVC ctx ty id iss idate edate subj proof jti isj su iat exp nbf sc dc fmt l sda cl sub ia ea.

Definition set_Format (f : string) (vc : VerifiableCredential) : VerifiableCredential :=
  let '(mkVC ctx ty id iss idate edate subj proof jti isj su iat exp nbf sc dc _ sd sda cl sub ia ea) := vc in
  mkVC ctx ty id iss idate edate subj proof jti isj su iat exp nbf sc dc f sd sda cl sub ia ea.

Definition set_Proof (p : option Proof_) (vc : VerifiableCredential) : VerifiableCredential :=
  let '(mkVC ctx ty id iss idate edate subj _ jti isj su iat exp nbf sc dc fmt sd sda cl sub ia ea) := vc in
  mkVC ctx ty id iss idate edate subj p jti isj su iat exp nbf sc dc fmt sd sda cl sub ia ea.

Definition set_payload_VC (v : VerifiableCredential) (p : VCJWTPayload) : VCJWTPayload :=
  mkPayload (pl_ISS p) (pl_SUB p) (pl_JTI p) (pl_IAT p) (pl_EXP p) (pl_NBF p) v.

(** ** Validation *)

(** Source: internal/domain/vc.go, [ValidateDID]. *)
Definition ValidateDID (did : string) : result error unit :=
  let invalid m := ErrValidation (NewValidationError m) in
  stop! bool_decide (did = "") with invalid "DID cannot be empty" in
  stop! (1000 <? String.length did)%nat with invalid "DID too long (max 1000 characters)" in
  stop! negb (has_prefix did "did:") with invalid "DID must start with 'did:'" in
  match split_n ":"%char 3 did with
  | _ :: method :: methodSpecificID :: _ =>
      stop! bool_decide (method = "") with invalid "DID method cannot be empty" in
      stop! bool_decide (methodSpecificID = "") with
        invalid "DID method-specific-id cannot be empty" in
      Ok tt
  | _ => Err (invalid "DID must have format 'did:method:method-specific-id'")
  end.

(** Source: internal/domain/vc.go, [ValidateCredentialSubject]. *)
Definition ValidateCredentialSubject (subject : claims_map) : result error unit :=
  match subject with
  | None => Err (ErrValidation (NewFieldValidationError "credentialSubject" "cannot be null"))
  | Some m =>
      stop! bool_decide (m = ∅) with
        ErrValidation (NewFieldValidationError "credentialSubject" "cannot be empty") in
      Ok tt
  end.

(** The loop of [ValidateCredentialRequest]: the first bad subject, with its index.
    Source: internal/domain/vc.go:467-471, [ValidateCredentialRequest]. *)
Fixpoint validate_subjects (i : nat) (l : list claims_map) : result error unit :=
  match l with
  | [] => Ok tt
  | subject :: l' =>
      let! _ := map_err (fun e => ErrWrap ("invalid subject[" +:+ pretty i +:+ "]: ") e "")
                  (ValidateCredentialSubject subject) in
      validate_subjects (S i) l'
  end.

(** Source: internal/domain/vc.go, [ValidateCredentialRequest]. *)
Definition ValidateCredentialRequest (req : CredentialRequest) : result error unit :=
  let! _ := map_err (fun e => ErrWrap "invalid issuer DID: " e "") (ValidateDID (cr_IssuerDid req)) in
  stop! bool_decide (cr_Subjects req = []) with
    ErrValidation (NewFieldValidationError "subjects" "at least one subject is required") in
  validate_subjects 0 (cr_Subjects req).

Section build.
Context `{Rfc3339}.

(** Source: internal/domain/vc.go, [BuildCredential]. *)
Definition BuildCredential (id issuer issuanceDate expirationDate : string) (subject : claims_map)
  : result error VerifiableCredential :=
  let! _ := map_err (fun e => ErrWrap "invalid issuer: " e "") (ValidateDID issuer) in
  stop! bool_decide (id = "") with ErrValidation (NewFieldValidationError "id" "cannot be empty") in
  let! _ := ValidateCredentialSubject subject in
  let! _ := of_option (ErrValidation (NewFieldValidationError "issuanceDate" "must be RFC3339 format"))
              (parse_rfc3339 issuanceDate) in
  let! _ :=
    (if bool_decide (expirationDate = "") then Ok zero_time
     else of_option (ErrValidation (NewFieldValidationError "expirationDate" "must be RFC3339 format"))
            (parse_rfc3339 expirationDate)) in
  Ok (mkVC (Some ["https://www.w3.org/2018/credentials/v1"]) ["VerifiableCredential"] id issuer
           issuanceDate expirationDate subject None "" "" "" 0 0 0 [] [] "" [] "" None ""
           zero_time zero_time).
End build.

(** ** JSON images *)

(** A map field reads back with its values' images; a nil map is [null], a nil map. *)
Definition map_image (c : claims_map) : claims_map :=
  match c with Some m => Some (json_image <$> m) | None => None end.

Lemma map_image_idem c : map_image (map_image c) = map_image c.
Proof.
  destruct c as [m|]; [|done]. cbn. f_equal. rewrite <- map_fmap_compose.
  apply map_fmap_ext. intros k v _. apply json_image_idem.
Qed.

(** With [omitempty] an empty map is not written either. *)
Definition map_image_omitempty (c : claims_map) : claims_map :=
  match c with
  | Some m => if bool_decide (m = ∅) then None else Some (json_image <$> m)
  | None => None
  end.

Definition map_safe (c : claims_map) : bool :=
  match c with Some m => json_safe (VObj m) | None => true end.

(** An instant [time.Time.MarshalJSON] writes exactly: the years 1 to 9999. *)
Definition time_safe (t : time) : bool := ((0 <=? t) && (t <? 315537897600 * second))%Z.

Definition proof_safe (p : option Proof_) : bool :=
  match p with
  | Some p => forallb utf8_valid
      [proof_Type p; proof_Created p; proof_ProofValue p; proof_ProofPurpose p; proof_VerificationMethod p]
  | None => true
  end.

(** The credential [encoding/json] reads back: only the dynamic values change, and
    an empty [Claims] map, which is [omitempty], becomes nil. *)
Definition vc_image (vc : VerifiableCredential) : VerifiableCredential :=
  set_Claims (map_image_omitempty (vc_Claims vc))
    (set_CredentialSubject (map_image (vc_CredentialSubject vc)) vc).

Definition vc_safe (vc : VerifiableCredential) : bool :=
  forallb utf8_valid (default [] (vc_Context vc)) && forallb utf8_valid (vc_Type vc)
  && forallb utf8_valid [vc_ID vc; vc_Issuer vc; vc_IssuanceDate vc; vc_ExpirationDate vc;
       vc_JTI vc; vc_ISS vc; vc_SUB vc; vc_Format vc; vc_SDDigestAlg vc; vc_Subject vc]
  && forallb utf8_valid (vc_Scope vc) && forallb utf8_valid (vc_DelegationChain vc)
  && forallb utf8_valid (vc_SDDigests vc) && proof_safe (vc_Proof vc)
  && map_safe (vc_CredentialSubject vc) && map_safe (vc_Claims vc)
  && time_safe (vc_IssuedAt vc) && time_safe (vc_ExpiresAt vc).

Definition payload_image (p : VCJWTPayload) : VCJWTPayload := set_payload_VC (vc_image (pl_VC p)) p.

Definition payload_safe (p : VCJWTPayload) : bool :=
  forallb utf8_valid [pl_ISS p; pl_SUB p; pl_JTI p] && vc_safe (pl_VC p).

(** ** Facts *)

Lemma time_safe_civil t : time_safe t = true <-> civil_time t.
Proof. unfold time_safe, civil_time. rewrite andb_true_iff, Z.leb_le, Z.ltb_lt. done. Qed.

(** A valid DID is [did:method:rest] with both parts non-empty. *)
Definition did_shape (did : string) : Prop :=
  exists method rest,
    did = "did:" +:+ method +:+ ":" +:+ rest /\ no_byte ":"%char method = true
    /\ method <> "" /\ rest <> "".

Lemma split_n_one c n s : no_byte c s = true -> n <> O -> split_n c n s = [s].
Proof.
  intros Hs Hn. destruct n as [|[|n]]; [done|done|].
  revert Hs. unfold no_byte. induction s as [|a s IH]; [done|].
  cbn [string_forall]. intros [Ha Hs]%andb_true_iff. breflect.
  cbn [split_n] in *. rewrite decide_False by done. by rewrite IH.
Qed.

Lemma split_n_app c n p s :
  no_byte c p = true -> split_n c (S (S n)) (p +:+ String c s) = p :: split_n c (S n) s.
Proof.
  unfold no_byte. induction p as [|a p IH].
  - intros _. cbn [String.append split_n]. by rewrite decide_True.
  - cbn [string_forall]. intros [Ha Hp]%andb_true_iff. breflect.
    cbn [String.append]. cbn [split_n] in *. rewrite decide_False by done. by rewrite IH.
Qed.

(** Every string either lacks the separator or splits at its first occurrence. *)
Lemma first_sep c s :
  no_byte c s = true \/ exists p t, s = p +:+ String c t /\ no_byte c p = true.
Proof.
  induction s as [|a s IH]; [by left|].
  destruct (decide (a = c)) as [->|Hac]; [right; by exists "", s|].
  destruct IH as [Hs|(p & t & -> & Hp)].
  - left. unfold no_byte in *. cbn. by rewrite bool_decide_eq_false_2.
  - right. exists (String a p), t. split; [done|]. unfold no_byte in *. cbn.
    by rewrite bool_decide_eq_false_2.
Qed.

Lemma split3_did method rest :
  no_byte ":"%char method = true ->
  split_n ":"%char 3 ("did:" +:+ method +:+ ":" +:+ rest) = ["did"; method; rest].
Proof.
  intros Hm. change ("did:" +:+ method +:+ ":" +:+ rest) with ("did" +:+ String ":" (method +:+ String ":" rest)).
  by rewrite !split_n_app.
Qed.

(** The shape is what [ValidateDID] accepts, up to 1000 bytes. *)
Lemma ValidateDID_Ok did :
  ValidateDID did = Ok tt <-> did_shape did /\ (String.length did <= 1000)%nat.
Proof.
  unfold ValidateDID. rewrite !stop_Ok, !bool_decide_eq_false, negb_false_iff, Nat.ltb_ge. split.
  - intros (Hne & Hlen & [t ->]%has_prefix_spec & H). split; [|done].
    destruct (first_sep ":"%char t) as [Ht|(m & r & -> & Hm)].
    + change ("did:" +:+ t) with ("did" +:+ String ":" t) in H.
      by rewrite split_n_app, split_n_one in H.
    + change (String ":" r) with (":" +:+ r) in *. rewrite split3_did in H by done. exists m, r.
      destruct (decide (m = "")); [by rewrite bool_decide_eq_true_2 in H|].
      destruct (decide (r = "")); [|done].
      by rewrite bool_decide_eq_false_2, bool_decide_eq_true_2 in H.
  - intros [(m & r & -> & Hm & Hm' & Hr) Hlen].
    split; [done|]. split; [done|]. split; [apply has_prefix_app|].
    rewrite split3_did by done. by rewrite !bool_decide_eq_false_2.
Qed.

(** ** Files *)

(** Source: internal/domain/vc.go, [Property]. *)
Record Property := mkProperty { pr_Name : string; pr_Type : string; pr_Required : bool }.

(** Source: internal/domain/vc.go, [BaseSchema]. *)
Record BaseSchema := mkBaseSchema {
  bs_CredentialID : Property;
  bs_CredentialType : Property;
  bs_IssueDate : Property;
  bs_ExpirationDate : Property;
  bs_Issuer : Property;
}.

(** Source: internal/domain/vc.go, [Schema]. *)
Record Schema := mkSchema { sc_Properties : list Property }.

(** [read] is [os.ReadFile].
    Source: internal/domain/vc.go, [LoadBaseSchema]. *)
Definition LoadBaseSchema `{Json BaseSchema} (read : string -> result error string) (filePath : string)
  : result error BaseSchema :=
  let! file := map_err (fun e => ErrWrap "failed to read base schema file: " e "") (read filePath) in
  map_err (fun e => ErrWrap "failed to unmarshal base schema JSON: " e "") (json_unmarshal file).

(** Source: internal/domain/vc.go, [ParseEd25519PrivateKeyFromBase64]. *)
Definition ParseEd25519PrivateKeyFromBase64 (base64Key : string) : result error string :=
  map_err (fun e => ErrWrap "failed to decode base64 private key: " e "")
    (of_option (ErrText "illegal base64 data") (b64std_decode base64Key)).

(** Any bytes are accepted for a key, whatever their number. *)
Lemma ParseEd25519PrivateKeyFromBase64_any bytes :
  ParseEd25519PrivateKeyFromBase64 (b64_std_encode bytes) = Ok bytes.
Proof. unfold ParseEd25519PrivateKeyFromBase64. by rewrite b64_std_roundtrip. Qed.
