(* ===== verification/Instances.v ===== *)
(** * Concrete instances of the interfaces.

    The witnesses evaluate the model on concrete inputs, with these instances of
    the interfaces the model is parametrised by: a codec that satisfies [JsonLaw]
    (every value is written as the binary numeral of its [Countable] code), a
    digest, and a signature scheme whose signers satisfy [signer_ok].  Nothing of
    the model depends on them. *)

From S2P Require Import Prelude GoStrings GoTime Errors Values GoFmt Crypto Credential.
From Stdlib Require Import ZArith Ascii String Lia Floats.SpecFloat.
From stdpp Require Import gmap list strings countable.

Local Open Scope string_scope.

(** ** Induction on values *)

(** ** Codes of values *)

#[global] Instance spec_float_countable : Countable spec_float.
Proof.
  refine (inj_countable'
    (fun f => match f with
              | S754_zero s => inl (inl s)
              | S754_infinity s => inl (inr s)
              | S754_nan => inr (inl tt)
              | S754_finite s m e => inr (inr (s, m, e))
              end)
    (fun c => match c with
              | inl (inl s) => S754_zero s
              | inl (inr s) => S754_infinity s
              | inr (inl _) => S754_nan
              | inr (inr (s, m, e)) => S754_finite s m e
              end) _).
  by intros [].
Defined.

Definition code {A} `{Countable A} (x : A) : gen_tree positive := GenLeaf (encode x).

Definition decode_or {A} `{Countable A} (d : A) (t : gen_tree positive) : A :=
  match t with GenLeaf p => default d (decode p) | _ => d end.

Lemma decode_or_code {A} `{Countable A} (d x : A) : decode_or d (code x) = x.
Proof. unfold decode_or, code. by rewrite decode_encode. Qed.

Fixpoint gval_code (v : gval) : gen_tree positive :=
  match v with
  | VNull => GenNode 0 []
  | VBool b => GenNode 1 [code b]
  | VInt z => GenNode 2 [code z]
  | VInt64 z => GenNode 3 [code z]
  | VFloat f => GenNode 4 [code f]
  | VStr s => GenNode 5 [code s]
  | VStrs l => GenNode 6 [code l]
  | VArr l => GenNode 7 (map gval_code l)
  | VObj m => GenNode 8 (map_fold (fun k v r => code k :: gval_code v :: r) [] m)
  end.

Fixpoint gval_decode (t : gen_tree positive) : gval :=
  match t with
  | GenNode 1 [t] => VBool (decode_or false t)
  | GenNode 2 [t] => VInt (decode_or 0%Z t)
  | GenNode 3 [t] => VInt64 (decode_or 0%Z t)
  | GenNode 4 [t] => VFloat (decode_or S754_nan t)
  | GenNode 5 [t] => VStr (decode_or "" t)
  | GenNode 6 [t] => VStrs (decode_or [] t)
  | GenNode 7 ts => VArr (map gval_decode ts)
  | GenNode 8 ts =>
      VObj ((fix go ts :=
               match ts with
               | k :: t :: ts' => <[decode_or "" k := gval_decode t]> (go ts')
               | _ => ∅
               end) ts)
  | _ => VNull
  end.

Lemma gval_decode_code v : gval_decode (gval_code v) = v.
Proof.
  induction v as [v Hl Hm|l IH|m IH] using gval_nested_ind.
  - destruct v; cbn -[decode_or code]; try done; by rewrite decode_or_code || naive_solver.
  - cbn. f_equal. induction IH as [|v l Hv _ IHl]; cbn; [done|]. by rewrite Hv, IHl.
  - cbn -[decode_or code]. f_equal.
    induction m as [|k v m Hk Hfold IHm] using map_first_key_ind; [done|].
    rewrite map_fold_insert_first_key by done. cbn -[decode_or code].
    apply map_Forall_insert in IH as [Hv Hm]; [|done].
    rewrite decode_or_code, Hv. f_equal. by apply IHm.
Qed.

#[global] Instance gval_countable : Countable gval.
Proof. exact (inj_countable' gval_code gval_decode gval_decode_code). Defined.

#[global] Instance Proof_countable : Countable Proof_.
Proof.
  refine (inj_countable'
    (fun p => (proof_Type p, proof_Created p, proof_ProofValue p, proof_ProofPurpose p,
               proof_VerificationMethod p))
    (fun '(a, b, c, d, e) => mkProof a b c d e) _).
  by intros [].
Defined.

(** Records are coded as trees, one leaf per field (nested pairs would double the
    length of the numeral at every level). *)
Definition vc_code (v : VerifiableCredential) : gen_tree positive :=
  GenNode 0
    [code (vc_Context v); code (vc_Type v); code (vc_ID v); code (vc_Issuer v);
     code (vc_IssuanceDate v); code (vc_ExpirationDate v);
     gval_code (from_option VObj VNull (vc_CredentialSubject v)); code (vc_Proof v);
     code (vc_JTI v); code (vc_ISS v); code (vc_SUB v); code (vc_IAT v); code (vc_EXP v);
     code (vc_NBF v); code (vc_Scope v); code (vc_DelegationChain v); code (vc_Format v);
     code (vc_SDDigests v); code (vc_SDDigestAlg v);
     gval_code (from_option VObj VNull (vc_Claims v)); code (vc_Subject v);
     code (vc_IssuedAt v); code (vc_ExpiresAt v)].

Definition decode_map (t : gen_tree positive) : claims_map :=
  match gval_decode t with VObj m => Some m | _ => None end.

Definition vc_decode (t : gen_tree positive) : VerifiableCredential :=
  match t with
  | GenNode _ [a1; a2; a3; a4; a5; a6; a7; a8; a9; b1; b2; b3; b4; b5; b6; b7; b8; b9; c1; c2; c3; c4; c5] =>
      mkVC (decode_or None a1) (decode_or [] a2) (decode_or "" a3) (decode_or "" a4)
        (decode_or "" a5) (decode_or "" a6) (decode_map a7) (decode_or None a8) (decode_or "" a9)
        (decode_or "" b1) (decode_or "" b2) (decode_or 0%Z b3) (decode_or 0%Z b4) (decode_or 0%Z b5)
        (decode_or [] b6) (decode_or [] b7) (decode_or "" b8) (decode_or [] b9) (decode_or "" c1)
        (decode_map c2) (decode_or "" c3) (decode_or 0%Z c4) (decode_or 0%Z c5)
  | _ => zero_vc
  end.

Lemma decode_map_code c : decode_map (gval_code (from_option VObj VNull c)) = c.
Proof. unfold decode_map. rewrite gval_decode_code. by destruct c. Qed.

Lemma vc_decode_code v : vc_decode (vc_code v) = v.
Proof. unfold vc_decode, vc_code. rewrite !decode_or_code, !decode_map_code. by destruct v. Qed.

#[global] Instance VerifiableCredential_countable : Countable VerifiableCredential.
Proof. exact (inj_countable' vc_code vc_decode vc_decode_code). Defined.

Definition payload_code (p : VCJWTPayload) : gen_tree positive :=
  GenNode 0 [code (pl_ISS p); code (pl_SUB p); code (pl_JTI p); code (pl_IAT p);
             code (pl_EXP p); code (pl_NBF p); vc_code (pl_VC p)].

Definition payload_decode (t : gen_tree positive) : VCJWTPayload :=
  match t with
  | GenNode _ [a; b; c; d; e; f; g] =>
      mkPayload (decode_or "" a) (decode_or "" b) (decode_or "" c) (decode_or 0%Z d)
        (decode_or 0%Z e) (decode_or 0%Z f) (vc_decode g)
  | _ => mkPayload "" "" "" 0 0 0 zero_vc
  end.

Lemma payload_decode_code p : payload_decode (payload_code p) = p.
Proof.
  unfold payload_decode, payload_code. rewrite !decode_or_code, vc_decode_code. by destruct p.
Qed.

#[global] Instance VCJWTPayload_countable : Countable VCJWTPayload.
Proof. exact (inj_countable' payload_code payload_decode payload_decode_code). Defined.

(** Objects as values. *)
Definition object_countable : Countable (gmap string gval).
Proof.
  refine (inj_countable' VObj (fun v => match v with VObj m => m | _ => ∅ end) _). done.
Defined.

(** ** The codec *)

(** Numerals as strings: the bits below the leading one, seven to a byte while
    there are seven, then one to a byte. *)
Fixpoint pos_bits (p : positive) : list bool :=
  match p with
  | xH => []
  | xO p => false :: pos_bits p
  | xI p => true :: pos_bits p
  end.

Definition bits_pos (l : list bool) : positive :=
  foldr (fun (b : bool) p => if b then xI p else xO p) xH l.

Fixpoint bits_to_string (l : list bool) : string :=
  match l with
  | b1 :: b2 :: b3 :: b4 :: b5 :: b6 :: l' =>
      String (Ascii b1 b2 b3 b4 b5 b6 true false) (bits_to_string l')
  | b :: l' => String (Ascii b false false false false false false false) (bits_to_string l')
  | [] => ""
  end.

Fixpoint bits_of_string (s : string) : list bool :=
  match s with
  | "" => []
  | String (Ascii b1 b2 b3 b4 b5 b6 true _) s' =>
      b1 :: b2 :: b3 :: b4 :: b5 :: b6 :: bits_of_string s'
  | String (Ascii b _ _ _ _ _ false _) s' => b :: bits_of_string s'
  end.

Lemma bits_pos_bits p : bits_pos (pos_bits p) = p.
Proof. unfold bits_pos. induction p as [p IH|p IH|]; cbn; [by rewrite IH|by rewrite IH|done]. Qed.

Lemma bits_of_to_string l : bits_of_string (bits_to_string l) = l.
Proof.
  revert l. fix IH 1. intros [|b1 [|b2 [|b3 [|b4 [|b5 [|b6 l]]]]]]; [reflexivity..|].
  cbn. by rewrite IH.
Qed.

Definition pos_to_string (p : positive) : string := bits_to_string (pos_bits p).
Definition pos_of_string (s : string) : positive := bits_pos (bits_of_string s).

Lemma pos_of_to_string p : pos_of_string (pos_to_string p) = p.
Proof. unfold pos_of_string, pos_to_string. rewrite bits_of_to_string. apply bits_pos_bits. Qed.

(** Values are written through their image, tagged with the type. *)
Definition code_json {T} `{Countable T} (tag : string) (image : T -> T) : Json T := {|
  json_marshal v := Ok (tag +:+ pos_to_string (encode (image v)));
  json_unmarshal s :=
    if has_prefix s tag then
      of_option (ErrText "invalid character") (decode (pos_of_string (drop_bytes (String.length tag) s)))
    else Err (ErrText "cannot unmarshal");
|}.

Lemma code_json_law {T} `{Countable T} (tag : string) (safe : T -> bool) (image : T -> T) :
  @JsonLaw T (code_json tag image) safe image.
Proof.
  intros v _. eexists. split; [done|]. cbn.
  by rewrite has_prefix_app, drop_bytes_app, pos_of_to_string, decode_encode.
Qed.

#[export] Instance array_json : Json (list gval) := code_json "a" (fmap json_image).
#[export] Instance object_json : Json (gmap string gval) :=
  @code_json _ _ object_countable "o" (fmap json_image).
#[export] Instance presentations_json : Json (gmap string (list string)) := code_json "m" (fun m => m).
#[export] Instance payload_json : Json VCJWTPayload := code_json "p" payload_image.
#[export] Instance flat_json : Json VerifiableCredential := code_json "c" vc_image.

#[export] Instance array_json_law safe : JsonLaw (list gval) safe (fmap json_image).
Proof. apply code_json_law. Qed.
#[export] Instance object_json_law safe : JsonLaw (gmap string gval) safe (fmap json_image).
Proof. apply code_json_law. Qed.
#[export] Instance payload_json_law safe : JsonLaw VCJWTPayload safe payload_image.
Proof. apply code_json_law. Qed.

(** ** Digest and signatures *)

(** A digest (the identity, which has no collision). *)
#[export] Instance plain_sha256 : Sha256 := fun s => s.

(** A signature is the key and the message; key and signer share the key string. *)
#[export] Instance plain_ed25519 : Ed25519 := fun k m sg => bool_decide (sg = k +:+ m).

Definition plain_signer (k : string) : Signer :=
  mkSigner (PubEd25519 k) (fun m => Ok (k +:+ m)).

Lemma plain_signer_ok k : signer_ok (plain_signer k) k.
Proof. split; [done|]. intros m. eexists. split; [done|]. by apply bool_decide_eq_true. Qed.

(** Dates are written as their nanosecond count. *)
#[export] Instance plain_rfc3339 : Rfc3339 := {|
  format_rfc3339 t := "T" +:+ pos_to_string (encode t);
  parse_rfc3339 s :=
    if has_prefix s "T" then decode (pos_of_string (drop_bytes 1 s)) else None;
|}.

(** Numbers are not written. *)
#[export] Instance plain_float_format : FloatFormat := fun _ => "".

(** No Unicode beyond ASCII. *)
#[export] Instance plain_unicode : Unicode := {|
  unicode_equal_fold s t := bool_decide (s = t);
  unicode_to_lower s := s;
  unicode_trim_space s := s;
|}.

(** ** A clock reading and a key *)

(** 9 October 2022, at noon and a bit. *)
Definition t0 : time := (63800913600 * second + 123456789)%Z.
Definition alice_key : string := "0123456789abcdef0123456789abcdef".
Definition alice : Signer := plain_signer alice_key.
Definition resolve_alice (issuer : string) : result error public_key := Ok (PubEd25519 alice_key).
