(* ===== verification/Delegation.v ===== *)
(** * Delegation rules and the on-behalf-of context.

    Models internal/domain/delegation.go, internal/domain/obo.go, [ScopeFromClaims]
    of internal/domain/vc_verify.go, and the admin claims of internal/domain/admin.go. *)

From S2P Require Import Prelude GoStrings GoTime Errors Values Credential.
From Stdlib Require Import ZArith Ascii String Lia.
From stdpp Require Import gmap list strings.

Local Open Scope string_scope.

(** ** The three delegation checks *)

(** Source: internal/domain/delegation.go, [IsScopeSubset]. *)
Definition IsScopeSubset (parentScope childScope : list string) : bool :=
  if bool_decide (childScope = []) then true
  else
    let parentSet : gset string := list_to_set parentScope in
    forallb (fun s => bool_decide (s ∈ parentSet)) childScope.

(** Source: internal/domain/delegation.go, [IsTTLWithinParent]. *)
Definition IsTTLWithinParent (parentExpiresAt childExpiresAt : time) : bool :=
  if is_zero parentExpiresAt then true
  else if is_zero childExpiresAt then false
  else negb (after childExpiresAt parentExpiresAt).

(** Source: internal/domain/delegation.go, [IsDepthAllowed]. *)
Definition IsDepthAllowed (depth maxDepth : Z) : bool :=
  if (maxDepth <=? 0)%Z then true else (depth <=? maxDepth)%Z.

(** Source: internal/domain/vc_verify.go, [ScopeFromClaims]. *)
Definition ScopeFromClaims (claims : claims_map) : list string :=
  match claims with
  | None => []
  | Some m =>
      match m !! "scope" with
      | None => []
      | Some (VStrs v) => v
      | Some (VArr v) => string_items v
      | Some (VStr v) => [v]
      | Some _ => []
      end
  end.

(** ** On behalf of *)

(** Source: internal/domain/obo.go, [OnBehalfOfContext]. *)
Record OnBehalfOfContext := mkOBO {
  obo_Subject : string;
  obo_ActingFor : string;
  obo_DelegationDepth : Z;
  obo_Scope : list string;
}.

(** Source: internal/domain/obo.go, [BuildOnBehalfOfContext]. *)
Definition BuildOnBehalfOfContext (parent child : option VerifiableCredential) : OnBehalfOfContext :=
  let subject := match child with Some c => vc_Subject c | None => "" end in
  let scope := match child with Some c => ScopeFromClaims (vc_Claims c) | None => [] end in
  match parent with
  | None => mkOBO subject "" 0 scope
  | Some p =>
      let depth :=
        match claim (vc_Claims p) "delegation_depth" with
        | Some (VFloat v) => wrap64 (int_of_float v + 1)
        | _ => 1%Z
        end in
      mkOBO subject (vc_Subject p) depth
        (if bool_decide (scope = []) then ScopeFromClaims (vc_Claims p) else scope)
  end.

(** ** Admin credentials *)

(** Source: internal/domain/admin.go:10-10, [AdminVCTTL]. *)
Definition AdminVCTTL : duration := (6 * 30 * 24 * hour)%Z.

(** Source: internal/domain/admin.go:13-13, [AdminVCType]. *)
Definition AdminVCType : string := "admin".

(** Source: internal/domain/admin.go:19-19, [SuperAdminRole]. *)
Definition SuperAdminRole : string := "super-admin".

(** Source: internal/domain/admin.go, [IsAdminVC]. *)
Definition IsAdminVC (claims : claims_map) : bool :=
  match claim claims "vc_type" with
  | Some (VStr vcType) => bool_decide (vcType = AdminVCType)
  | _ => false
  end.

(** Source: internal/domain/admin.go, [HasAdminRole]. *)
Definition HasAdminRole (claims : claims_map) (requiredRole : string) : bool :=
  match claim claims "admin_roles" with
  | Some (VStrs roles) => existsb (fun role => bool_decide (role = requiredRole)) roles
  | Some (VArr roles) =>
      existsb (fun role => match role with
                           | VStr str => bool_decide (str = requiredRole)
                           | _ => false
                           end) roles
  | _ => false
  end.

(** Source: internal/domain/admin.go, [ValidateAdminVC]. *)
Definition ValidateAdminVC (claims : claims_map) (requiredRole : string) : result error unit :=
  stop! negb (IsAdminVC claims) with ErrVar ErrNotAdminVC in
  stop! negb (HasAdminRole claims requiredRole) with ErrVar ErrInsufficientAdminPrivileges in
  Ok tt.

(** Source: internal/domain/admin.go, [CreateAdminClaims]. *)
Definition CreateAdminClaims (roles : list string) (additionalClaims : claims_map) : gmap string gval :=
  let claims : gmap string gval := {["vc_type" := VStr AdminVCType; "admin_roles" := VStrs roles]} in
  match additionalClaims with
  | None => claims
  | Some m => m ∪ claims
  end.

(** ** Laws of the checks *)

Lemma IsScopeSubset_spec p c : IsScopeSubset p c = true <-> (forall s, s ∈ c -> s ∈ p).
Proof.
  unfold IsScopeSubset. case_bool_decide as Hc.
  - subst. split; [set_solver|done].
  - rewrite forallb_forall. split.
    + intros H s Hs. specialize (H s). rewrite <- list_elem_of_In, bool_decide_eq_true in H.
      apply H in Hs. set_solver.
    + intros H s Hs%list_elem_of_In. apply bool_decide_eq_true. set_solver.
Qed.

#[export] Instance IsScopeSubset_preorder : PreOrder (fun p c => IsScopeSubset p c = true).
Proof.
  split.
  - intros l. by apply IsScopeSubset_spec.
  - intros a b c. rewrite !IsScopeSubset_spec. auto.
Qed.

(** [None] as the expiry of a credential that never expires: the order behind
    [IsTTLWithinParent]. *)
Definition expiry (t : time) : option time := if is_zero t then None else Some t.

Definition expires_within (parent child : option time) : Prop :=
  match parent, child with
  | None, _ => True
  | Some _, None => False
  | Some p, Some c => (c <= p)%Z
  end.

Lemma IsTTLWithinParent_spec p c :
  IsTTLWithinParent p c = true <-> expires_within (expiry p) (expiry c).
Proof.
  unfold IsTTLWithinParent, expiry, after. destruct (is_zero p), (is_zero c); cbn; try done.
  by rewrite negb_true_iff, Z.ltb_ge.
Qed.

#[export] Instance IsTTLWithinParent_preorder : PreOrder (fun p c => IsTTLWithinParent p c = true).
Proof.
  split.
  - intros t. apply IsTTLWithinParent_spec. unfold expires_within. destruct (expiry t); [lia|done].
  - intros a b c. rewrite !IsTTLWithinParent_spec. unfold expires_within.
    destruct (expiry a), (expiry b), (expiry c); try done. lia.
Qed.

Lemma IsDepthAllowed_spec d m : IsDepthAllowed d m = true <-> (m <= 0 \/ d <= m)%Z.
Proof.
  unfold IsDepthAllowed. destruct (m <=? 0)%Z eqn:E; breflect.
  - split; [lia|done].
  - rewrite Z.leb_le. lia.
Qed.

(** Scopes read the same before and after a JSON round trip. *)
Lemma string_items_strs l : string_items (VStr <$> l) = l.
Proof. induction l as [|s l IH]; [done|]. unfold string_items in *. cbn. by f_equal. Qed.

Lemma string_items_image l : string_items (json_image <$> l) = string_items l.
Proof.
  induction l as [|v l IH]; [done|]. unfold string_items in *. destruct v; cbn; try done.
  by f_equal.
Qed.

Lemma ScopeFromClaims_image c : ScopeFromClaims (map_image c) = ScopeFromClaims c.
Proof.
  destruct c as [m|]; [|done]. cbn. rewrite lookup_fmap.
  destruct (m !! "scope") as [[]|]; cbn; try done.
  - apply string_items_strs.
  - apply string_items_image.
Qed.

Lemma ValidateAdminVC_Ok claims role :
  ValidateAdminVC claims role = Ok tt <-> IsAdminVC claims = true /\ HasAdminRole claims role = true.
Proof. unfold ValidateAdminVC. rewrite !stop_Ok, !negb_false_iff. naive_solver. Qed.
