(* ===== verification/SDJwt.v ===== *)
(** * Selective disclosure: checking disclosures against digests.

    Models internal/domain/vc_helpers.go.  The credential struct is updated in
    place through its pointer; its [Claims] map may be the same Go map as its
    [CredentialSubject] (the verifier aliases them), which the flag [aliased] says. *)

From S2P Require Import Prelude GoStrings Base64 GoTime Errors Values Crypto Credential.
From Stdlib Require Import ZArith Ascii String Lia.
From stdpp Require Import gmap list strings.

Local Open Scope string_scope.

Section sdjwt.
Context `{Json (list gval), Sha256}.

(** Source: internal/domain/vc_helpers.go, [computeSDJWDigest]. *)
Definition computeSDJWDigest (disclosure : string) : string := b64_encode (sha256 disclosure).

(** One disclosure: its name and value, once its digest is among the expected ones.
    Source: internal/domain/vc_helpers.go:28-54, [applySDJWDisclosures]. *)
Definition open_disclosure (digestSet : gset string) (disclosure : string)
  : result error (string * gval) :=
  let! raw := of_option (ErrVar ErrInvalidToken) (b64_decode disclosure) in
  let! arr := map_err (fun _ => ErrVar ErrInvalidToken) (json_unmarshal raw) in
  match arr with
  | [a0; a1; a2] =>
      let salt := default "" (as_string a0) in
      let key := default "" (as_string a1) in
      stop! (bool_decide (salt = "") || bool_decide (key = "")) with ErrVar ErrInvalidToken in
      let! reconstructed := map_err (fun _ => ErrVar ErrInvalidToken) (json_marshal arr) in
      let digest := computeSDJWDigest reconstructed in
      stop! negb (bool_decide (digest ∈ digestSet)) with ErrVar ErrInvalidDisclosure in
      Ok (key, a2)
  | _ => Err (ErrVar ErrInvalidToken)
  end.

(** The first pass.
    Source: internal/domain/vc_helpers.go:26-54, [applySDJWDisclosures]. *)
Fixpoint open_disclosures (digestSet : gset string) (disclosures : list string)
    (resolved : gmap string gval) : result error (gmap string gval) :=
  match disclosures with
  | [] => Ok resolved
  | d :: ds =>
      let! kv := open_disclosure digestSet d in
      open_disclosures digestSet ds (<[kv.1 := kv.2]> resolved)
  end.

(** Is a digest that of some disclosure?  The inner loop of the second pass.
    Source: internal/domain/vc_helpers.go:57-67, [applySDJWDisclosures]. *)
Fixpoint digest_disclosed (digest : string) (disclosures : list string) : result error bool :=
  match disclosures with
  | [] => Ok false
  | d :: ds =>
      let! raw := of_option (ErrVar ErrInvalidDisclosure) (b64_decode d) in
      if bool_decide (computeSDJWDigest raw = digest) then Ok true
      else digest_disclosed digest ds
  end.

(** The second pass: every digest is disclosed.
    Source: internal/domain/vc_helpers.go:56-71, [applySDJWDisclosures]. *)
Fixpoint all_disclosed (digests : list string) (disclosures : list string) : result error unit :=
  match digests with
  | [] => Ok tt
  | digest :: digests' =>
      let! found := digest_disclosed digest disclosures in
      stop! negb found with ErrVar ErrMissingDisclosure in
      all_disclosed digests' disclosures
  end.

(** Source: internal/domain/vc_helpers.go, [applySDJWDisclosures]. *)
Definition applySDJWDisclosures (aliased : bool) (vc : VerifiableCredential)
    (disclosures : list string) : result error VerifiableCredential :=
  if bool_decide (vc_SDDigests vc = []) then Ok vc
  else
    let digestSet : gset string := list_to_set (vc_SDDigests vc) in
    let! resolvedClaims := open_disclosures digestSet disclosures ∅ in
    let! _ := all_disclosed (elements digestSet) disclosures in
    let claims := Some (resolvedClaims ∪ default ∅ (vc_Claims vc)) in
    let vc := set_SDDigests [] (set_Claims claims vc) in
    Ok (if aliased then set_CredentialSubject claims vc else vc).

(** ** What acceptance means *)

(** The pairs the disclosures open to, in order. *)
Lemma open_disclosures_Ok S ds acc out :
  open_disclosures S ds acc = Ok out <->
  exists kvs, Forall2 (fun d kv => open_disclosure S d = Ok kv) ds kvs
    /\ out = foldl (fun m kv => <[kv.1 := kv.2]> m) acc kvs.
Proof.
  revert acc. induction ds as [|d ds IH]; intros acc; cbn.
  - split; [intros [= <-]; by exists []|]. intros (kvs & ->%Forall2_nil_inv_l & ->). done.
  - rewrite rbind_Ok. split.
    + intros (kv & Hd & (kvs & Hkvs & ->)%IH). exists (kv :: kvs). by split; [constructor|].
    + intros (kvs & (kv & kvs' & Hd & Hkvs & ->)%Forall2_cons_inv_l & ->).
      exists kv. split; [done|]. apply IH. by exists kvs'.
Qed.

Lemma digest_disclosed_true g ds :
  digest_disclosed g ds = Ok true ->
  exists d raw, d ∈ ds /\ b64_decode d = Some raw /\ computeSDJWDigest raw = g.
Proof.
  induction ds as [|d ds IH]; cbn; [done|].
  rewrite rbind_Ok. intros (raw & Hraw%of_option_Ok & H1). case_bool_decide.
  - exists d, raw. split; [left|done].
  - apply IH in H1 as (d' & raw' & ? & ?). exists d', raw'. split; [by right|done].
Qed.

Lemma all_disclosed_Ok gs ds :
  all_disclosed gs ds = Ok tt <-> Forall (fun g => digest_disclosed g ds = Ok true) gs.
Proof.
  induction gs as [|g gs IH]; cbn; [by split; [constructor|]|].
  rewrite rbind_Ok, Forall_cons. split.
  - intros ([] & Hg & H1); cbn in H1; [|done]. by rewrite <- IH.
  - intros [Hg Hgs]. exists true. by rewrite IH.
Qed.

(** Every expected digest is the digest of one of the disclosures. *)
Lemma all_disclosed_covers gs ds g :
  all_disclosed gs ds = Ok tt -> g ∈ gs ->
  exists d raw, d ∈ ds /\ b64_decode d = Some raw /\ computeSDJWDigest raw = g.
Proof.
  rewrite all_disclosed_Ok, Forall_forall. intros Hall Hg.
  by apply digest_disclosed_true, Hall.
Qed.

(** The converse of [digest_disclosed_true] when every disclosure decodes. *)
Lemma digest_disclosed_complete g ds d raw :
  Forall (fun d => is_Some (b64_decode d)) ds ->
  d ∈ ds -> b64_decode d = Some raw -> computeSDJWDigest raw = g ->
  digest_disclosed g ds = Ok true.
Proof.
  induction 1 as [|d' ds [raw' Hd'] _ IH]; [by intros ?%elem_of_nil|].
  intros Hin Hraw Hg. cbn. rewrite Hd'. cbn. case_bool_decide; [done|].
  apply elem_of_cons in Hin as [->|Hin]; [congruence|by apply IH].
Qed.

Lemma open_disclosure_decodes S d kv :
  open_disclosure S d = Ok kv -> is_Some (b64_decode d).
Proof. unfold open_disclosure. intros Hd. bind_inv Hd as raw Hraw. ok_simp Hraw. by exists raw. Qed.

(** The digests of [gs] are those of disclosures in [ds]. *)
Definition covers (gs ds : list string) : Prop :=
  forall g, g ∈ gs -> exists d raw, d ∈ ds /\ b64_decode d = Some raw /\ computeSDJWDigest raw = g.

(** The claims the disclosures add, the later ones winning. *)
Definition disclosed (kvs : list (string * gval)) : gmap string gval :=
  foldl (fun m kv => <[kv.1 := kv.2]> m) ∅ kvs.

Lemma applySDJWDisclosures_Ok al vc ds vc' :
  vc_SDDigests vc <> [] ->
  applySDJWDisclosures al vc ds = Ok vc' <->
  exists kvs,
    Forall2 (fun d kv => open_disclosure (list_to_set (vc_SDDigests vc)) d = Ok kv) ds kvs
    /\ covers (vc_SDDigests vc) ds
    /\ vc' = (let claims := Some (disclosed kvs ∪ default ∅ (vc_Claims vc)) in
              let vc := set_SDDigests [] (set_Claims claims vc) in
              if al then set_CredentialSubject claims vc else vc).
Proof.
  intros Hne. unfold applySDJWDisclosures. rewrite bool_decide_eq_false_2 by done. cbv zeta. split.
  - intros Ha. bind_inv Ha as res Hres. bind_inv Ha as u Hall. injection Ha as <-. destruct u.
    apply open_disclosures_Ok in Hres as (kvs & Hkvs & ->). exists kvs. split; [done|].
    split; [|done]. intros g Hg. eapply all_disclosed_covers; [done|].
    by rewrite elem_of_elements, elem_of_list_to_set.
  - intros (kvs & Hkvs & Hcov & ->). rewrite (proj2 (open_disclosures_Ok _ _ _ _)) by eauto.
    cbn [rbind]. rewrite (proj2 (all_disclosed_Ok _ _)); [done|].
    apply Forall_forall. intros g Hg.
    rewrite elem_of_elements, elem_of_list_to_set in Hg.
    apply Hcov in Hg as (d & raw & Hd & Hraw & Hg). eapply digest_disclosed_complete; try done.
    apply Forall_forall. intros d' [i Hi]%list_elem_of_lookup_1.
    destruct (Forall2_lookup_l _ _ _ _ _ Hkvs Hi) as (kv & _ & Hkv).
    by eapply open_disclosure_decodes.
Qed.
End sdjwt.
