(* ===== verification/Verify.v ===== *)
(** * Credential and chain verification.

    Models internal/domain/vc_verify.go.  The issuer key lookup is a function of the
    issuer for the duration of one verification. *)

From S2P Require Import Prelude GoStrings Base64 GoTime Errors Values Crypto Credential Delegation.
From S2P Require Import SDJwt.
From Stdlib Require Import ZArith Ascii String Lia.
From stdpp Require Import gmap list strings.

Local Open Scope string_scope.

(** Source: internal/domain/vc_verify.go, [DelegationChainResult]. *)
Record DelegationChainResult := mkChainResult {
  cr_Credentials : list VerifiableCredential;
  cr_CurrentSubject : string;
  cr_RootDelegator : string;
  cr_DelegationDepth : Z;
}.

(** Source: internal/domain/vc_verify.go, [VerifierDependencies]. *)
Record VerifierDependencies := mkDeps {
  ResolveIssuerPublicKey : option (string -> result error public_key);
}.

(** Source: internal/domain/vc_verify.go, [VerificationOptions]. *)
Record VerificationOptions := mkOptions {
  ExpectedAudience : string;
  MaxDelegationDepth : Z;
}.

(** Source: internal/domain/vc_verify.go, [parseSDJWTPayload]. *)
Definition parseSDJWTPayload (token : string) : string * list string :=
  match split_on "~"%char token with
  | [] => (token, [])
  | [base] => (base, [])
  | base :: disclosures => (base, disclosures)
  end.

Section verify.
Context `{Json (list gval), Json VCJWTPayload, Json VerifiableCredential, Sha256, Ed25519}.

(** The signature check both formats share.
    Source: internal/domain/vc_verify.go:162-181, [verifySingleCredential]. *)
Definition check_signature (resolve : string -> result error public_key) (issuer : string)
    (part0 part1 part2 : string) : result error unit :=
  let! publicKey := map_err (fun _ => ErrWrap "resolve issuer: " (ErrVar ErrUntrustedIssuer) "")
                      (resolve issuer) in
  let! edKey := of_option (ErrVar ErrInvalidToken) (as_ed25519 publicKey) in
  let signingInput := part0 +:+ "." +:+ part1 in
  let! signatureBytes := of_option (ErrVar ErrInvalidToken) (b64_decode part2) in
  stop! negb (ed25519_verify edKey signingInput signatureBytes) with ErrVar ErrInvalidSignature in
  Ok tt.

(** The credential of a W3C VC-JWT payload, and whether its [Claims] map is the
    same Go map as its [CredentialSubject].
    Source: internal/domain/vc_verify.go:140-160, [verifySingleCredential]. *)
Definition w3c_credential (p : VCJWTPayload) : VerifiableCredential * bool :=
  let credential := set_jwt_fields (pl_VC p) p in
  let credential :=
    if (0 <? vc_IAT credential)%Z then set_IssuedAt (unix_time (vc_IAT credential)) credential
    else credential in
  let credential :=
    if (0 <? vc_EXP credential)%Z then set_ExpiresAt (unix_time (vc_EXP credential)) credential
    else credential in
  let credential := set_Subject (pl_SUB p) credential in
  match vc_Claims credential, vc_CredentialSubject credential with
  | None, Some m => (set_Claims (Some m) credential, true)
  | _, _ => (credential, false)
  end.

(** Source: internal/domain/vc_verify.go:137-206, [verifySingleCredential]. *)
Definition verify_w3c (p : VCJWTPayload) (part0 part1 part2 : string) (disclosures : list string)
    (resolve : string -> result error public_key) (expectedAudience : string) (now : time)
  : result error VerifiableCredential :=
  let '(credential, aliased) := w3c_credential p in
  let! _ := check_signature resolve (vc_Issuer credential) part0 part1 part2 in
  stop! ((0 <? vc_EXP credential) && (vc_EXP credential <=? to_unix now))%Z
    with ErrVar ErrExpiredCredential in
  stop! ((0 <? vc_IAT credential) && (to_unix (time_add now minute) <? vc_IAT credential))%Z
    with ErrVar ErrIssuedInFuture in
  let! credential := applySDJWDisclosures aliased credential disclosures in
  stop! (negb (bool_decide (expectedAudience = ""))
         && negb (bool_decide (claim (vc_Claims credential) "aud" = Some (VStr expectedAudience))))
    with ErrVar ErrUnexpectedAudience in
  Ok credential.

(** The credential of a flat payload, with the JWT names as fallbacks; the key is
    looked up under its issuer.
    Source: internal/domain/vc_verify.go:215-228, [verifySingleCredential]. *)
Definition legacy_credential (credential : VerifiableCredential) : VerifiableCredential :=
  let credential :=
    if (bool_decide (vc_Issuer credential = "") && negb (bool_decide (vc_ISS credential = "")))
    then set_Issuer (vc_ISS credential) credential else credential in
  let credential :=
    if (bool_decide (vc_Subject credential = "") && negb (bool_decide (vc_SUB credential = "")))
    then set_Subject (vc_SUB credential) credential else credential in
  let credential :=
    if (is_zero (vc_ExpiresAt credential) && (0 <? vc_EXP credential)%Z)
    then set_ExpiresAt (unix_time (vc_EXP credential)) credential else credential in
  if (is_zero (vc_IssuedAt credential) && (0 <? vc_IAT credential)%Z)
  then set_IssuedAt (unix_time (vc_IAT credential)) credential else credential.

(** Source: internal/domain/vc_verify.go:209-272, [verifySingleCredential]. *)
Definition verify_legacy (flat : VerifiableCredential) (part0 part1 part2 : string)
    (disclosures : list string) (resolve : string -> result error public_key)
    (expectedAudience : string) (now : time) : result error VerifiableCredential :=
  let credential := legacy_credential flat in
  let! _ := check_signature resolve (vc_Issuer credential) part0 part1 part2 in
  stop! (negb (is_zero (vc_ExpiresAt credential)) && negb (before now (vc_ExpiresAt credential)))
    with ErrVar ErrExpiredCredential in
  stop! (negb (is_zero (vc_IssuedAt credential))
         && after (vc_IssuedAt credential) (time_add now minute)) with ErrVar ErrIssuedInFuture in
  let! credential := applySDJWDisclosures false credential disclosures in
  stop! (negb (bool_decide (expectedAudience = ""))
         && negb (bool_decide (claim_string (vc_Claims credential) "aud" = expectedAudience)))
    with ErrVar ErrUnexpectedAudience in
  Ok credential.

(** Source: internal/domain/vc_verify.go, [verifySingleCredential]. *)
Definition verifySingleCredential (token : string) (disclosures : list string)
    (resolve : string -> result error public_key) (expectedAudience : string) (now : time)
  : result error VerifiableCredential :=
  match split_on "."%char token with
  | [part0; part1; part2] =>
      let! payloadBytes := of_option (ErrVar ErrInvalidToken) (b64_decode part1) in
      let legacy :=
        let! flat := map_err (fun _ => ErrVar ErrInvalidToken) (json_unmarshal payloadBytes) in
        verify_legacy flat part0 part1 part2 disclosures resolve expectedAudience now in
      match json_unmarshal payloadBytes with
      | Ok p =>
          if bool_decide (vc_Context (pl_VC p) = None) then legacy
          else verify_w3c p part0 part1 part2 disclosures resolve expectedAudience now
      | Err _ => legacy
      end
  | _ => Err (ErrVar ErrInvalidToken)
  end.

(** ** Chains *)

(** The checks of a credential against the one before it.
    Source: internal/domain/vc_verify.go:87-100, [VerifyCredentialChain]. *)
Definition check_link (idx : Z) (maxDepth : Z) (parent child : VerifiableCredential)
  : result error unit :=
  stop! negb (IsDepthAllowed idx maxDepth) with ErrVar ErrDelegationDepth in
  stop! negb (IsScopeSubset (ScopeFromClaims (vc_Claims parent)) (ScopeFromClaims (vc_Claims child)))
    with ErrVar ErrDelegationScope in
  stop! negb (IsTTLWithinParent (vc_ExpiresAt parent) (vc_ExpiresAt child))
    with ErrVar ErrDelegationTTL in
  Ok tt.

(** The loop of the chain verifier: [idx] tokens were read, [parent] is the
    credential of the last one.
    Source: internal/domain/vc_verify.go:69-101, [VerifyCredentialChain]. *)
Fixpoint verify_tokens (resolve : string -> result error public_key) (audience : string)
    (maxDepth : Z) (now : time) (idx : Z) (parent : option VerifiableCredential)
    (tokens : list string) : result error (list VerifiableCredential) :=
  match tokens with
  | [] => Ok []
  | token :: tokens' =>
      let '(baseToken, disclosures) := parseSDJWTPayload token in
      let expectedAudience := match tokens' with [] => audience | _ => "" end in
      let! credential := verifySingleCredential baseToken disclosures resolve expectedAudience now in
      let! _ := match parent with
                | Some p => check_link idx maxDepth p credential
                | None => Ok tt
                end in
      let! rest := verify_tokens resolve audience maxDepth now (idx + 1) (Some credential) tokens' in
      Ok (credential :: rest)
  end.

(** Source: internal/domain/vc_verify.go, [VerifyCredentialChain]. *)
Definition VerifyCredentialChain (tokens : list string) (deps : VerifierDependencies)
    (opts : VerificationOptions) (now : time) : result error DelegationChainResult :=
  match ResolveIssuerPublicKey deps with
  | None => Err (ErrWrap "resolve issuer public key is required: " (ErrVar ErrInvalidToken) "")
  | Some resolve =>
      stop! bool_decide (tokens = []) with
        ErrWrap "no credentials supplied: " (ErrVar ErrInvalidDelegation) "" in
      let maxDepth := if (MaxDelegationDepth opts =? 0)%Z then 3%Z else MaxDelegationDepth opts in
      let! credentials := verify_tokens resolve (ExpectedAudience opts) maxDepth now 0 None tokens in
      let depth := (Z.of_nat (length credentials) - 1)%Z in
      let result := mkChainResult credentials
        (default "" (vc_Subject <$> last credentials)) (default "" (vc_Subject <$> head credentials))
        depth in
      stop! negb (IsDepthAllowed depth maxDepth) with ErrVar ErrDelegationDepth in
      Ok result
  end.

(** Source: internal/domain/vc_verify.go, [VerifyCredential]. *)
Definition VerifyCredential (token : string) (deps : VerifierDependencies)
    (expectedAudience : string) (now : time) : result error VerifiableCredential :=
  let! res := VerifyCredentialChain [token] deps (mkOptions expectedAudience 1) now in
  of_option (ErrVar ErrInvalidToken) (head (cr_Credentials res)).
End verify.
