(* ===== verification/VerifyFacts.v ===== *)
(** * What a successful verification means.

    Lemmas about internal/domain/vc_verify.go, and the properties of credential and
    chain verification. *)

From S2P Require Import Prelude GoStrings Base64 GoTime Errors Values Crypto Credential Delegation.
From S2P Require Import SDJwt Verify.
From Stdlib Require Import ZArith Ascii String Lia.
From stdpp Require Import gmap list strings.

Local Open Scope string_scope.

(** ** Specification of a chain *)

(** A child carries no more scope and no more lifetime than its parent. *)
Definition delegates (parent child : VerifiableCredential) : Prop :=
  IsScopeSubset (ScopeFromClaims (vc_Claims parent)) (ScopeFromClaims (vc_Claims child)) = true
  /\ IsTTLWithinParent (vc_ExpiresAt parent) (vc_ExpiresAt child) = true.

#[export] Instance delegates_preorder : PreOrder delegates.
Proof.
  split.
  - intros c. split.
    + exact (reflexivity (R := fun p c => IsScopeSubset p c = true) _).
    + exact (reflexivity (R := fun p c => IsTTLWithinParent p c = true) _).
  - intros a b c [Hs Ht] [Hs' Ht']. split.
    + exact (transitivity (R := fun p c => IsScopeSubset p c = true) Hs Hs').
    + exact (transitivity (R := fun p c => IsTTLWithinParent p c = true) Ht Ht').
Qed.

(** The depth of the chain is within the bound. *)
Definition depth_within (maxDepth depth : Z) : Prop := (maxDepth <= 0 \/ depth <= maxDepth)%Z.

Definition max_depth (opts : VerificationOptions) : Z :=
  if (MaxDelegationDepth opts =? 0)%Z then 3%Z else MaxDelegationDepth opts.

(** The issuer's key signed the token's first two parts. *)
Definition signed_by `{Ed25519} (resolve : string -> result error public_key)
    (token issuer : string) : Prop :=
  exists p0 p1 p2 key sg,
    split_on "."%char token = [p0; p1; p2] /\ resolve issuer = Ok (PubEd25519 key)
    /\ b64_decode p2 = Some sg /\ ed25519_verify key (p0 +:+ "." +:+ p1) sg = true.

(** Not past its expiry, at [now]: a payload of the W3C form expires with the JWT's [exp] claim
    and a flat one at its [ExpiresAt]. *)
Definition unexpired (now : time) (w3c : bool) (c : VerifiableCredential) : Prop :=
  if w3c then (0 < vc_EXP c -> to_unix now < vc_EXP c)%Z
  else (vc_ExpiresAt c <> zero_time -> now < vc_ExpiresAt c)%Z.

Definition for_audience (audience : string) (c : VerifiableCredential) : Prop :=
  audience <> "" -> claim (vc_Claims c) "aud" = Some (VStr audience).

Section facts.
Context `{Json (list gval), Json VCJWTPayload, Json VerifiableCredential, Sha256, Ed25519}.

(** What the payload of a token without disclosures says: whether it has the W3C form, the
    credential, and whether its claims are the map of its subject. *)
Definition payload_credential (token : string) : option (bool * (VerifiableCredential * bool)) :=
  match split_on "."%char token with
  | [_; part; _] =>
      bytes ← b64_decode part;
      let flat := (fun flat => (false, (legacy_credential flat, false))) <$> to_option (json_unmarshal bytes) in
      match json_unmarshal bytes with
      | Ok p => if bool_decide (vc_Context (pl_VC p) = None) then flat else Some (true, w3c_credential p)
      | Err _ => flat
      end
  | _ => None
  end.

(** [c] is what a presented token says, with its disclosures: the payload of the token is a
    credential that had not expired at [now] and whose issuer's key signed the token, and [c]
    is that credential with the disclosed claims. *)
Definition genuine (resolve : string -> result error public_key) (now : time) (token : string)
    (c : VerifiableCredential) : Prop :=
  exists w3c c0 aliased, payload_credential (parseSDJWTPayload token).1 = Some (w3c, (c0, aliased))
    /\ signed_by resolve (parseSDJWTPayload token).1 (vc_Issuer c0) /\ unexpired now w3c c0
    /\ applySDJWDisclosures aliased c0 (parseSDJWTPayload token).2 = Ok c.

(** The credentials of a list of tokens; the audience is asked of the last one. *)
Fixpoint verifies_all (resolve : string -> result error public_key) (audience : string) (now : time)
    (tokens : list string) (cs : list VerifiableCredential) : Prop :=
  match tokens, cs with
  | [], [] => True
  | token :: tokens', c :: cs' =>
      verifySingleCredential (parseSDJWTPayload token).1 (parseSDJWTPayload token).2 resolve
        (match tokens' with [] => audience | _ => "" end) now = Ok c
      /\ verifies_all resolve audience now tokens' cs'
  | _, _ => False
  end.

Lemma verifies_all_length resolve audience now tokens cs :
  verifies_all resolve audience now tokens cs -> length tokens = length cs.
Proof.
  revert cs. induction tokens as [|t ts IH]; intros [|c cs]; cbn; try done.
  intros [_ Hcs]. f_equal. by apply IH.
Qed.

(** ** Single credentials *)

Lemma check_signature_Ok resolve issuer p0 p1 p2 :
  check_signature resolve issuer p0 p1 p2 = Ok tt <->
  exists key sg, resolve issuer = Ok (PubEd25519 key) /\ b64_decode p2 = Some sg
    /\ ed25519_verify key (p0 +:+ "." +:+ p1) sg = true.
Proof.
  unfold check_signature. rewrite rbind_Ok. setoid_rewrite rbind_Ok. setoid_rewrite rbind_Ok.
  setoid_rewrite stop_Ok. setoid_rewrite map_err_Ok. setoid_rewrite of_option_Ok.
  setoid_rewrite negb_false_iff. split.
  - intros (pub & Hr & key & Hk & sg & Hs & Hv & _). destruct pub; try done.
    injection Hk as ->. eauto.
  - intros (key & sg & Hr & Hs & Hv). exists (PubEd25519 key). naive_solver.
Qed.

(** Disclosures change neither issuer nor dates. *)
Lemma applySDJWDisclosures_fields al vc ds vc' :
  applySDJWDisclosures al vc ds = Ok vc' ->
  vc_Issuer vc' = vc_Issuer vc /\ vc_EXP vc' = vc_EXP vc /\ vc_ExpiresAt vc' = vc_ExpiresAt vc
  /\ vc_Subject vc' = vc_Subject vc.
Proof.
  unfold applySDJWDisclosures. case_bool_decide; [by intros [= <-]|].
  intros (res & _ & Hk)%rbind_Ok. apply rbind_Ok in Hk as (_ & _ & [= <-]).
  by destruct al, vc.
Qed.

Lemma audience_of_stop audience c :
  (negb (bool_decide (audience = ""))
   && negb (bool_decide (claim (vc_Claims c) "aud" = Some (VStr audience))))%bool = false ->
  for_audience audience c.
Proof.
  intros Ha Hne. rewrite bool_decide_eq_false_2 in Ha by done.
  by case_bool_decide.
Qed.

Lemma audience_of_string audience c :
  (negb (bool_decide (audience = ""))
   && negb (bool_decide (claim_string (vc_Claims c) "aud" = audience)))%bool = false ->
  for_audience audience c.
Proof.
  intros Ha Hne. rewrite bool_decide_eq_false_2 in Ha by done. revert Ha.
  case_bool_decide as Hs; [|done]. intros _. unfold claim_string in Hs.
  by destruct (claim (vc_Claims c) "aud") as [[]|]; subst.
Qed.

(** A credential that verifies, and is for an audience, verifies when that one is expected. *)
Lemma verifySingleCredential_audience token ds resolve audience now c :
  verifySingleCredential token ds resolve "" now = Ok c -> for_audience audience c ->
  verifySingleCredential token ds resolve audience now = Ok c.
Proof.
  intros Hv Ha.
  assert (Hstop : (negb (bool_decide (audience = ""))
      && negb (bool_decide (claim (vc_Claims c) "aud" = Some (VStr audience))))%bool = false).
  { destruct (decide (audience = "")) as [->|Hne]; [done|]. by rewrite (bool_decide_eq_true_2 (claim _ _ = _)), andb_false_r by auto. }
  assert (Hstop' : (negb (bool_decide (audience = ""))
      && negb (bool_decide (claim_string (vc_Claims c) "aud" = audience)))%bool = false).
  { destruct (decide (audience = "")) as [->|Hne]; [done|]. unfold claim_string. rewrite (Ha Hne).
    by rewrite (bool_decide_eq_true_2 (audience = audience)), andb_false_r. }
  assert (Hw : forall p p0 p1 p2, verify_w3c p p0 p1 p2 ds resolve "" now = Ok c ->
    verify_w3c p p0 p1 p2 ds resolve audience now = Ok c).
  { intros p p0 p1 p2. unfold verify_w3c. destruct (w3c_credential p) as [cr al]. rewrite !rbind_Ok.
    intros (u & Hu & Hr). exists u. split; [done|]. stop_inv Hr as He. stop_inv Hr as Hi. bind_inv Hr as c' Hc'.
    cbn [negb bool_decide andb] in Hr. injection Hr as ->. rewrite He, Hi, Hc'. cbn [rbind]. by rewrite Hstop. }
  assert (Hl : forall f p0 p1 p2, verify_legacy f p0 p1 p2 ds resolve "" now = Ok c ->
    verify_legacy f p0 p1 p2 ds resolve audience now = Ok c).
  { intros f p0 p1 p2. unfold verify_legacy. rewrite !rbind_Ok.
    intros (u & Hu & Hr). exists u. split; [done|]. stop_inv Hr as He. stop_inv Hr as Hi. bind_inv Hr as c' Hc'.
    cbn [negb bool_decide andb] in Hr. injection Hr as ->. rewrite He, Hi, Hc'. cbn [rbind]. by rewrite Hstop'. }
  unfold verifySingleCredential in *. destruct (split_on _ token) as [|p0 [|p1 [|p2 [|]]]]; try done.
  bind_inv Hv as bytes Hb. rewrite Hb. cbn [rbind].
  assert (Hlegacy : (let! flat := map_err (fun _ => ErrVar ErrInvalidToken) (json_unmarshal bytes) in
                     verify_legacy flat p0 p1 p2 ds resolve "" now) = Ok c ->
    (let! flat := map_err (fun _ => ErrVar ErrInvalidToken) (json_unmarshal bytes) in
     verify_legacy flat p0 p1 p2 ds resolve audience now) = Ok c).
  { intros Hr. bind_inv Hr as flat Hflat. rewrite Hflat. cbn [rbind]. by apply Hl. }
  destruct (json_unmarshal bytes) as [p|]; [|by apply Hlegacy].
  destruct (bool_decide (vc_Context (pl_VC p) = None)); [by apply Hlegacy|by apply Hw].
Qed.

Lemma verify_w3c_sound p p0 p1 p2 ds resolve audience now c :
  verify_w3c p p0 p1 p2 ds resolve audience now = Ok c ->
  check_signature resolve (vc_Issuer (w3c_credential p).1) p0 p1 p2 = Ok tt
  /\ unexpired now true (w3c_credential p).1
  /\ applySDJWDisclosures (w3c_credential p).2 (w3c_credential p).1 ds = Ok c /\ for_audience audience c.
Proof.
  unfold verify_w3c. destruct (w3c_credential p) as [c0 al]. intros H4.
  apply rbind_Ok in H4 as ([] & Hsig & H4). apply stop_Ok in H4 as [Hexp H4].
  apply stop_Ok in H4 as [_ H4]. apply rbind_Ok in H4 as (c1 & Hap & H4).
  apply stop_Ok in H4 as [Haud [= ->]]. cbn [fst snd unexpired].
  split; [done|]. split; [|by split; [|apply audience_of_stop]].
  intros Hpos. apply andb_false_iff in Hexp as [Hx|Hx]; breflect; lia.
Qed.

Lemma verify_legacy_sound flat p0 p1 p2 ds resolve audience now c :
  verify_legacy flat p0 p1 p2 ds resolve audience now = Ok c ->
  check_signature resolve (vc_Issuer (legacy_credential flat)) p0 p1 p2 = Ok tt
  /\ unexpired now false (legacy_credential flat)
  /\ applySDJWDisclosures false (legacy_credential flat) ds = Ok c /\ for_audience audience c.
Proof.
  unfold verify_legacy. generalize (legacy_credential flat). intros c0 H4.
  apply rbind_Ok in H4 as ([] & Hsig & H4). apply stop_Ok in H4 as [Hexp H4].
  apply stop_Ok in H4 as [_ H4]. apply rbind_Ok in H4 as (c1 & Hap & H4).
  apply stop_Ok in H4 as [Haud [= ->]]. cbn [unexpired].
  split; [done|]. split; [|by split; [|apply audience_of_string]].
  unfold is_zero, before, zero_time in *. intros Hne.
  apply andb_false_iff in Hexp as [Hz|Hz]; breflect; lia.
Qed.

(** Success of the verifier, whatever the format. *)
Lemma verified_payload token ds resolve audience now c :
  verifySingleCredential token ds resolve audience now = Ok c ->
  for_audience audience c /\
  exists w3c c0 aliased, payload_credential token = Some (w3c, (c0, aliased))
    /\ signed_by resolve token (vc_Issuer c0) /\ unexpired now w3c c0 /\ applySDJWDisclosures aliased c0 ds = Ok c.
Proof.
  unfold verifySingleCredential, payload_credential, signed_by.
  destruct (split_on "."%char token) as [|p0 [|p1 [|p2 [|]]]]; try done.
  rewrite rbind_Ok. intros (payload & ->%of_option_Ok & H4). cbn [mbind option_bind].
  assert (Hsigned : forall issuer, check_signature resolve issuer p0 p1 p2 = Ok tt ->
    exists q0 q1 q2 key sg, [p0; p1; p2] = [q0; q1; q2] /\ resolve issuer = Ok (PubEd25519 key)
      /\ b64_decode q2 = Some sg /\ ed25519_verify key (q0 +:+ "." +:+ q1) sg = true).
  { intros issuer (key & sg & ? & ? & ?)%check_signature_Ok. by exists p0, p1, p2, key, sg. }
  destruct (json_unmarshal payload) as [p|]; [case_bool_decide|].
  1, 3: apply rbind_Ok in H4 as (flat & Hf & H4); apply map_err_Ok in Hf; rewrite Hf;
    apply verify_legacy_sound in H4 as (Hsig & Hu & Ha & Haud); split; [done|]; cbn;
    exists false, (legacy_credential flat), false; auto.
  apply verify_w3c_sound in H4 as (Hsig & Hu & Ha & Haud). split; [done|].
  exists true, (w3c_credential p).1, (w3c_credential p).2. rewrite <- surjective_pairing. auto.
Qed.

Lemma verified_genuine resolve audience now token c :
  verifySingleCredential (parseSDJWTPayload token).1 (parseSDJWTPayload token).2 resolve audience now = Ok c ->
  genuine resolve now token c.
Proof. intros [_ Hg]%verified_payload. exact Hg. Qed.

Lemma genuine_signed resolve now token c :
  genuine resolve now token c -> signed_by resolve (parseSDJWTPayload token).1 (vc_Issuer c).
Proof.
  intros (w3c & c0 & al & _ & Hs & _ & Ha). apply applySDJWDisclosures_fields in Ha as (-> & _). done.
Qed.

(** A lookup that finds no more keys finds those it finds. *)
Lemma genuine_mono (resolve resolve' : string -> result error public_key) now token c :
  (forall key, resolve (vc_Issuer c) = Ok key -> resolve' (vc_Issuer c) = Ok key) ->
  genuine resolve now token c -> genuine resolve' now token c.
Proof.
  intros Hr (w3c & c0 & al & Hp & (p0 & p1 & p2 & key & sg & Hs & Hk & Hd & Hv) & Hu & Ha).
  exists w3c, c0, al. split; [done|]. split; [|done]. pose proof (applySDJWDisclosures_fields _ _ _ _ Ha) as (Hi & _).
  rewrite Hi in Hr. exists p0, p1, p2, key, sg. auto.
Qed.

(** ** Chains *)

Lemma check_link_Ok idx m p c :
  check_link idx m p c = Ok tt <-> depth_within m idx /\ delegates p c.
Proof.
  unfold check_link, delegates, depth_within.
  rewrite !stop_Ok, !negb_false_iff, IsDepthAllowed_spec. naive_solver.
Qed.

(** The loop, from a position inside the chain. *)
Lemma verify_tokens_Ok resolve audience m now tokens : forall idx parent cs,
  verify_tokens resolve audience m now idx (Some parent) tokens = Ok cs <->
  verifies_all resolve audience now tokens cs /\ linked delegates (parent :: cs)
  /\ (cs <> [] -> depth_within m (idx + Z.of_nat (length cs) - 1)).
Proof.
  induction tokens as [|t ts IH]; intros idx parent cs; cbn [verify_tokens].
  - split; [intros [= <-]; done|]. by destruct cs; cbn; [|intros [[] _]].
  - destruct (parseSDJWTPayload t) as [base ds] eqn:Hp. rewrite rbind_Ok.
    setoid_rewrite rbind_Ok. setoid_rewrite rbind_Ok. split.
    + intros (c & Hc & [] & Hl%check_link_Ok & rest & Hrest & [= <-]).
      apply IH in Hrest as (Hall & Hlk & Hd). destruct Hl as [Hd0 Hdel].
      cbn [verifies_all length linked]. rewrite Hp. split; [done|]. split; [done|].
      intros _. unfold depth_within in *. destruct rest as [|c' rest]; [cbn; lia|].
      specialize (Hd ltac:(done)). cbn [length] in *. lia.
    + intros (Hall & Hlk & Hd). destruct cs as [|c cs]; [done|].
      cbn [verifies_all] in Hall. rewrite Hp in Hall. destruct Hall as [Hc Hall].
      destruct Hlk as [Hdel Hlk]. specialize (Hd ltac:(done)). cbn [length] in Hd.
      unfold depth_within in Hd. exists c. split; [done|]. exists tt. rewrite check_link_Ok.
      split; [split; [unfold depth_within; lia|done]|]. exists cs. split; [|done].
      apply IH. split; [done|]. split; [done|]. intros _. unfold depth_within. lia.
Qed.

Lemma verify_tokens_start resolve audience m now tokens cs :
  verify_tokens resolve audience m now 0 None tokens = Ok cs /\ depth_within m (Z.of_nat (length cs) - 1)
  <-> verifies_all resolve audience now tokens cs /\ linked delegates cs
  /\ depth_within m (Z.of_nat (length cs) - 1).
Proof.
  destruct tokens as [|t ts]; cbn [verify_tokens].
  - split; [intros [[= <-] ?]; done|]. by destruct cs; [intros (_ & _ & ?)|intros [[] _]].
  - destruct (parseSDJWTPayload t) as [base ds] eqn:Hp. cbn [rbind]. rewrite rbind_Ok.
    setoid_rewrite rbind_Ok. split.
    + intros [(c & Hc & rest & Hrest & [= <-]) Hd].
      apply verify_tokens_Ok in Hrest as (Hall & Hlk & _). cbn [verifies_all]. by rewrite Hp.
    + intros (Hall & Hlk & Hd). destruct cs as [|c cs]; [done|].
      cbn [verifies_all] in Hall. rewrite Hp in Hall. destruct Hall as [Hc Hall].
      split; [|done]. exists c. split; [done|]. exists cs. split; [|done].
      apply verify_tokens_Ok. split; [done|]. split; [done|]. intros _.
      cbn [length] in Hd. replace (0 + 1 + Z.of_nat (length cs) - 1)%Z
        with (Z.of_nat (S (length cs)) - 1)%Z by lia. done.
Qed.

(** The result the verifier builds from the credentials of the chain. *)
Definition chain_result (cs : list VerifiableCredential) : DelegationChainResult :=
  mkChainResult cs (default "" (vc_Subject <$> last cs)) (default "" (vc_Subject <$> head cs))
    (Z.of_nat (length cs) - 1).

Lemma VerifyCredentialChain_Ok tokens resolve opts now r :
  VerifyCredentialChain tokens (mkDeps (Some resolve)) opts now = Ok r <->
  exists cs, tokens <> [] /\ verifies_all resolve (ExpectedAudience opts) now tokens cs
    /\ linked delegates cs /\ depth_within (max_depth opts) (Z.of_nat (length cs) - 1)
    /\ r = chain_result cs.
Proof.
  unfold VerifyCredentialChain. cbn [ResolveIssuerPublicKey]. rewrite stop_Ok, rbind_Ok.
  fold (max_depth opts). rewrite bool_decide_eq_false. split.
  - intros (Hne & cs & Hcs & Hd). apply stop_Ok in Hd as [Hd%negb_false_iff [= <-]].
    apply IsDepthAllowed_spec in Hd. exists cs. split; [done|].
    destruct (verify_tokens_start resolve (ExpectedAudience opts) (max_depth opts) now tokens cs)
      as [Hst _]. by destruct Hst as (? & ? & ?).
  - intros (cs & Hne & Hall & Hlk & Hd & ->). split; [done|]. exists cs.
    destruct (verify_tokens_start resolve (ExpectedAudience opts) (max_depth opts) now tokens cs)
      as [_ Hst]. destruct Hst as [Hcs _]; [done|]. split; [done|].
    apply stop_Ok. rewrite negb_false_iff, IsDepthAllowed_spec. done.
Qed.

Lemma verifies_all_sound resolve audience now tokens cs :
  verifies_all resolve audience now tokens cs -> Forall2 (genuine resolve now) tokens cs.
Proof.
  revert cs. induction tokens as [|t ts IH]; intros [|c cs]; cbn; try done.
  intros [Hc Hcs]. apply verified_genuine in Hc. constructor; [done|]. by apply IH.
Qed.

Lemma verifies_all_last resolve audience now tokens cs leaf :
  verifies_all resolve audience now tokens cs -> last cs = Some leaf -> for_audience audience leaf.
Proof.
  revert cs. induction tokens as [|t ts IH]; intros [|c cs]; cbn; try done.
  intros [Hc Hcs] Hl. destruct ts as [|t' ts], cs as [|c' cs]; try done.
  - injection Hl as <-. by apply verified_payload in Hc as [? _].
  - by apply (IH (c' :: cs)).
Qed.
End facts.
