(* ===== verification/Issue.v ===== *)
(** * Credential issuance.

    Models the issuing half of internal/domain/vc.go.  The clock reading, the random
    UUID and the random salts are arguments; the iteration order of a Go map is the
    order of the list of its entries. *)

From S2P Require Import Prelude GoStrings Base64 GoTime Errors Values Crypto Credential SDJwt.
From Stdlib Require Import ZArith Ascii String Lia.
From stdpp Require Import gmap list strings.

Local Open Scope string_scope.

(** [encodeSegment] at any type with a JSON codec.
    Source: internal/domain/vc.go, [encodeSegment]. *)
Definition encodeSegment {T} `{Json T} (data : T) : result error string :=
  let! jsonBytes := map_err (fun e => ErrWrap "marshal segment: " e "") (json_marshal data) in
  Ok (b64_encode jsonBytes).

(** Source: internal/domain/vc.go, [SDJWT]. *)
Record SDJWT := mkSDJWT {
  sdjwt_Token : string;
  sdjwt_Disclosures : list string;
}.

(** A JOSE header: the algorithm and the type.  *)
Definition jose_header (typ : string) : gmap string gval :=
  {["alg" := VStr "EdDSA"; "typ" := VStr typ]}.

Section issue.
Context `{Json (gmap string gval), Json VCJWTPayload, Json (list gval), Sha256, Rfc3339}.

(** The payload [IssueBasicCredential] signs.
    Source: internal/domain/vc.go:208-238, [IssueBasicCredential]. *)
Definition basic_payload (now : time) (uuid issuerDID subjectDID : string) (ttl : duration)
    (claims : claims_map) : VCJWTPayload :=
  let issuedAt := now in
  let expiresAt := time_add issuedAt ttl in
  let vc := mkVC (Some ["https://www.w3.org/2018/credentials/v1"]) ["VerifiableCredential"] uuid
              issuerDID (format_rfc3339 issuedAt) (format_rfc3339 expiresAt) claims None
              "" "" "" 0 0 0 [] [] "" [] "" claims subjectDID issuedAt expiresAt in
  mkPayload issuerDID subjectDID uuid (to_unix issuedAt) (to_unix expiresAt) (to_unix issuedAt) vc.

(** Source: internal/domain/vc.go, [IssueBasicCredential]. *)
Definition IssueBasicCredential (now : time) (uuid issuerDID subjectDID : string)
    (signer : option Signer) (ttl : duration) (claims : claims_map) : result error string :=
  let! _ := map_err (fun e => ErrWrap "invalid issuer DID: " e "") (ValidateDID issuerDID) in
  let! _ := map_err (fun e => ErrWrap "invalid subject DID: " e "") (ValidateDID subjectDID) in
  let! signer := of_option (ErrValidation (NewValidationError "signer is required")) signer in
  stop! (ttl <=? 0)%Z with ErrValidation (NewValidationError "ttl must be positive") in
  let payload := basic_payload now uuid issuerDID subjectDID ttl claims in
  let! headerSegment := map_err (fun e => ErrWrap "encode header: " e "")
                          (encodeSegment (jose_header "vc+jwt")) in
  let! payloadSegment := map_err (fun e => ErrWrap "encode payload: " e "")
                           (encodeSegment payload) in
  let signingInput := headerSegment +:+ "." +:+ payloadSegment in
  let! signature := map_err (fun e => ErrWrap "sign payload: " e "")
                      (signer_Sign signer signingInput) in
  Ok (signingInput +:+ "." +:+ b64_encode signature).

(** Source: internal/domain/vc.go, [IssueBasicCredentialWithFormat]. *)
Definition IssueBasicCredentialWithFormat (now : time) (uuid issuerDID subjectDID : string)
    (signer : option Signer) (ttl : duration) (claims : claims_map) (format : string)
  : result error string :=
  let claims := Some (default ∅ claims) in
  let! token := IssueBasicCredential now uuid issuerDID subjectDID signer ttl claims in
  match split_on "."%char token with
  | [part0; part1; part2] =>
      match b64_decode part1 with
      | None => Ok token
      | Some payloadBytes =>
          match json_unmarshal payloadBytes with
          | Err _ => Ok token
          | Ok vcjwtPayload =>
              let vcjwtPayload :=
                set_payload_VC (set_Format format (pl_VC vcjwtPayload)) vcjwtPayload in
              match encodeSegment vcjwtPayload with
              | Err _ => Ok token
              | Ok newPayload =>
                  let signingInput := part0 +:+ "." +:+ newPayload in
                  let! signer := of_option (ErrText "nil signer") signer in
                  let! signature := map_err (fun e => ErrWrap "sign payload: " e "")
                                      (signer_Sign signer signingInput) in
                  Ok (str_join "." [part0; newPayload; b64_encode signature])
              end
          end
      end
  | _ => Ok token
  end.

(** The disclosure and the digest of one claim; [saltBytes] are the twelve random bytes.
    Source: internal/domain/vc.go, [buildDisclosure]. *)
Definition buildDisclosure (saltBytes key : string) (value : gval) : result error (string * string) :=
  let salt := b64_encode saltBytes in
  let disclosureArray := [VStr salt; VStr key; value] in
  let! disclosureBytes := map_err (fun e => ErrWrap "marshal disclosure: " e "")
                            (json_marshal disclosureArray) in
  Ok (b64_encode disclosureBytes, computeSDJWDigest disclosureBytes).

Fixpoint build_disclosures (entries : list (string * (string * gval)))
  : result error (list (string * string)) :=
  match entries with
  | [] => Ok []
  | (salt, (key, value)) :: entries' =>
      let! dd := map_err (fun e => ErrWrap "build disclosure: " e "")
                   (buildDisclosure salt key value) in
      let! rest := build_disclosures entries' in
      Ok (dd :: rest)
  end.

(** [entries] are the claims in the order the map iteration visits them, each with
    the salt drawn for it.
    Source: internal/domain/vc.go, [IssueSDJWTCredential]. *)
Definition IssueSDJWTCredential (now : time) (uuid issuerDID subjectDID : string)
    (signer : option Signer) (ttl : duration) (entries : list (string * (string * gval)))
  : result error SDJWT :=
  let! dds := build_disclosures entries in
  let disclosures := dds.*1 in
  let digests := dds.*2 in
  let sdClaims : gmap string gval := {["_sd" := VStrs digests; "_sd_alg" := VStr "sha256"]} in
  let! token := IssueBasicCredentialWithFormat now uuid issuerDID subjectDID signer ttl
                  (Some sdClaims) "sd-jwt" in
  Ok (mkSDJWT token disclosures).

(** Source: internal/domain/vc.go, [computeDisclosureDigest]. *)
Definition computeDisclosureDigest (disclosure : string) : string := b64_encode (sha256 disclosure).

(** Source: internal/domain/vc.go, [AttachProof]. *)
Definition AttachProof (now : time) (vc : VerifiableCredential) (signature : string)
  : VerifiableCredential :=
  set_Proof (Some (mkProof "Ed25519Signature2018" (format_rfc3339 now)
                     (b64_std_encode signature) "assertionMethod" (vc_Issuer vc +:+ "#keys-1"))) vc.

(** Source: internal/domain/vc.go, [SignCredential]. *)
Definition SignCredential (signer : option Signer) (credentialJSON : string) : result error string :=
  let! signer := of_option (ErrText "signer is required") signer in
  stop! bool_decide (credentialJSON = "") with ErrText "credential payload is empty" in
  map_err (fun e => ErrWrap "failed to sign credential: " e "") (signer_Sign signer credentialJSON).
End issue.
