(* ===== verification/IssueFacts.v ===== *)
(** * Issued tokens and how the verifier reads them. *)

From S2P Require Import Prelude GoStrings Base64 GoTime Errors Values Crypto Credential Delegation.
From S2P Require Import SDJwt Verify VerifyFacts Issue.
From Stdlib Require Import ZArith Ascii String Lia.
From stdpp Require Import gmap list strings.

Local Open Scope string_scope.

(** The compact form of a signed token. *)
Definition jwt_token (header payload signature : string) : string :=
  b64_encode header +:+ "." +:+ b64_encode payload +:+ "." +:+ b64_encode signature.

Definition signing_input (header payload : string) : string :=
  b64_encode header +:+ "." +:+ b64_encode payload.

Lemma b64_no_dot s : no_byte "."%char (b64_encode s) = true.
Proof. by apply b64_encode_no_byte. Qed.

Lemma split_jwt_token h p sg :
  split_on "."%char (jwt_token h p sg) = [b64_encode h; b64_encode p; b64_encode sg].
Proof.
  change (jwt_token h p sg)
    with (b64_encode h +:+ String "." (b64_encode p +:+ String "." (b64_encode sg))).
  rewrite split_on_app, split_on_app, split_on_single by apply b64_no_dot. done.
Qed.

(** A token is a text that JSON carries. *)
Lemma jwt_token_text h p sg : utf8_valid (jwt_token h p sg) = true.
Proof. apply utf8_valid_ascii. unfold jwt_token. by rewrite !string_forall_app, !b64_encode_ascii. Qed.

Lemma encodeSegment_Ok {T} `{Json T} (v : T) s :
  encodeSegment v = Ok s <-> exists t, json_marshal v = Ok t /\ s = b64_encode t.
Proof.
  unfold encodeSegment. rewrite rbind_Ok. setoid_rewrite map_err_Ok. naive_solver.
Qed.

Lemma encodeSegment_law {T} `{JsonLaw T safe image} (v : T) :
  safe v = true ->
  exists t, encodeSegment v = Ok (b64_encode t) /\ json_unmarshal t = Ok (image v).
Proof.
  intros Hs. destruct (json_law v Hs) as (t & Ht & Hu). exists t. split; [|done].
  apply encodeSegment_Ok. eauto.
Qed.

Lemma signing_input_cat h p sg :
  (b64_encode h +:+ "." +:+ b64_encode p) +:+ "." +:+ b64_encode sg = jwt_token h p sg.
Proof. unfold jwt_token. by rewrite !string_app_assoc. Qed.

Section facts.
Context `{Json (gmap string gval), Json VCJWTPayload, Json VerifiableCredential,
  Json (list gval), Sha256, Ed25519, Rfc3339}.

(** A well-formed W3C token verifies to the credential of its payload. *)
Lemma verify_w3c_token h pt sg q k ds resolve now :
  let c := (w3c_credential q).1 in
  json_unmarshal pt = Ok q -> vc_Context (pl_VC q) <> None ->
  resolve (vc_Issuer c) = Ok (PubEd25519 k) -> ed25519_verify k (signing_input h pt) sg = true ->
  vc_SDDigests c = [] -> (to_unix now < vc_EXP c)%Z -> (vc_IAT c <= to_unix (time_add now minute))%Z ->
  verifySingleCredential (jwt_token h pt sg) ds resolve "" now = Ok c.
Proof.
  cbv zeta. intros Hu Hc Hr Hv Hsd He Hi. unfold verifySingleCredential.
  rewrite split_jwt_token, b64_roundtrip. cbn [of_option rbind]. rewrite Hu, bool_decide_eq_false_2 by done.
  unfold verify_w3c. destruct (w3c_credential q) as [c al]; cbn [fst] in *.
  assert (check_signature resolve (vc_Issuer c) (b64_encode h) (b64_encode pt) (b64_encode sg) = Ok tt)
    as ->.
  { apply check_signature_Ok. exists k, sg. by rewrite b64_roundtrip. }
  cbn [rbind]. replace (vc_EXP c <=? to_unix now)%Z with false by (symmetry; apply Z.leb_gt; lia).
  replace (to_unix (time_add now minute) <? vc_IAT c)%Z with false by (symmetry; apply Z.ltb_ge; lia).
  rewrite !andb_false_r. unfold applySDJWDisclosures. by rewrite Hsd.
Qed.

(** What [IssueBasicCredential] returns. *)
Lemma IssueBasicCredential_Ok now uuid iss sub s ttl claims token :
  IssueBasicCredential now uuid iss sub (Some s) ttl claims = Ok token <->
  ValidateDID iss = Ok tt /\ ValidateDID sub = Ok tt /\ (0 < ttl)%Z /\
  exists ht pt sg, json_marshal (jose_header "vc+jwt") = Ok ht
    /\ json_marshal (basic_payload now uuid iss sub ttl claims) = Ok pt
    /\ signer_Sign s (signing_input ht pt) = Ok sg /\ token = jwt_token ht pt sg.
Proof.
  unfold IssueBasicCredential. cbn [of_option rbind]. split.
  - intros Ht. bind_inv Ht as [] Hi. bind_inv Ht as [] Hs. stop_inv Ht as Hp.
    bind_inv Ht as hs Hh. bind_inv Ht as ps Hps. bind_inv Ht as sg Hsg. injection Ht as <-.
    ok_simp Hi. ok_simp Hs. ok_simp Hh. ok_simp Hps. ok_simp Hsg.
    apply encodeSegment_Ok in Hh as (ht & Hh & ->), Hps as (pt & Hps & ->). breflect.
    do 3 (split; [done || lia|]). exists ht, pt, sg. split; [done|]. split; [done|].
    split; [done|]. exact (signing_input_cat ht pt sg).
  - intros (-> & -> & Hp & ht & pt & sg & Hh & Hps & Hsg & ->). cbn [map_err rbind].
    rewrite (proj2 (Z.leb_gt ttl 0)) by lia. unfold encodeSegment. rewrite Hh, Hps. cbn [map_err rbind].
    change (b64_encode ht +:+ "." +:+ b64_encode pt) with (signing_input ht pt). rewrite Hsg.
    cbn [map_err rbind]. f_equal. exact (signing_input_cat ht pt sg).
Qed.
End facts.

(** ** The claims an issued credential ends up with *)

(** Reading the payload back does not lose the claims, even when they are empty. *)
Lemma w3c_claims_image p :
  vc_Claims (pl_VC p) = vc_CredentialSubject (pl_VC p) ->
  vc_Claims (w3c_credential (payload_image p)).1 = map_image (vc_Claims (pl_VC p))
  /\ vc_CredentialSubject (w3c_credential (payload_image p)).1 = map_image (vc_Claims (pl_VC p)).
Proof.
  destruct p as [? ? ? iat exp ? [? ? ? ? ? ? cs ? ? ? ? ? ? ? ? ? ? ? ? cl ? ? ?]]; cbn. intros <-.
  unfold w3c_credential, payload_image, vc_image. cbn.
  destruct (0 <? iat)%Z; cbn; destruct (0 <? exp)%Z; cbn; destruct cl as [m|]; cbn; try done.
  all: case_bool_decide; [subst; by rewrite fmap_empty|done].
Qed.

(** The fields of the credential that come from the wrapper. *)
Lemma w3c_credential_fields p :
  let c := (w3c_credential p).1 in
  vc_Issuer c = vc_Issuer (pl_VC p) /\ vc_EXP c = pl_EXP p /\ vc_IAT c = pl_IAT p
  /\ vc_Subject c = pl_SUB p /\ vc_SDDigests c = vc_SDDigests (pl_VC p)
  /\ vc_Format c = vc_Format (pl_VC p)
  /\ ((0 < pl_EXP p)%Z -> vc_ExpiresAt c = unix_time (pl_EXP p))
  /\ ((0 < pl_IAT p)%Z -> vc_IssuedAt c = unix_time (pl_IAT p)).
Proof.
  destruct p as [? ? ? iat exp ? [? ? ? ? ? ? cs ? ? ? ? ? ? ? ? ? ? ? ? cl ? ? ?]]; cbn. unfold w3c_credential. cbn.
  destruct (0 <? iat)%Z eqn:E1; cbn; destruct (0 <? exp)%Z eqn:E2; breflect; cbn;
    destruct cl, cs; cbn; repeat split; done || lia.
Qed.

Section laws.
Context `{Json (gmap string gval), Json VCJWTPayload, Json VerifiableCredential,
  Json (list gval), Sha256, Ed25519, Rfc3339}.
Context `{!JsonLaw (gmap string gval) (fun m => json_safe (VObj m)) (fmap json_image)}.
Context `{!JsonLaw VCJWTPayload payload_safe payload_image}.

(** The inputs for which issuance succeeds. *)
Definition issuable (now : time) (uuid iss sub : string) (ttl : duration) (claims : claims_map)
    : Prop :=
  ValidateDID iss = Ok tt /\ ValidateDID sub = Ok tt /\ (0 < ttl)%Z
  /\ payload_safe (basic_payload now uuid iss sub ttl claims) = true.

Definition with_format (p : VCJWTPayload) (f : string) : VCJWTPayload :=
  set_payload_VC (set_Format f (pl_VC p)) p.

Lemma header_safe : json_safe (VObj (jose_header "vc+jwt")) = true.
Proof. by vm_compute. Qed.

(** Issuing always returns a token: its payload text reads back as the image of the
    payload, and its signature verifies under the signer's key. *)
Lemma IssueBasicCredential_returns now uuid iss sub s k ttl claims :
  signer_ok s k -> issuable now uuid iss sub ttl claims ->
  exists ht pt sg,
    IssueBasicCredential now uuid iss sub (Some s) ttl claims = Ok (jwt_token ht pt sg)
    /\ json_unmarshal pt = Ok (payload_image (basic_payload now uuid iss sub ttl claims))
    /\ ed25519_verify k (signing_input ht pt) sg = true.
Proof.
  intros [_ Hs] (Hi & Hsub & Ht & Hsafe).
  destruct (json_law (jose_header "vc+jwt") header_safe) as (ht & Hh & _).
  destruct (json_law _ Hsafe) as (pt & Hp & Hu).
  destruct (Hs (signing_input ht pt)) as (sg & Hsg & Hv).
  exists ht, pt, sg. split; [|done]. apply IssueBasicCredential_Ok. eauto 10.
Qed.

Lemma IssueBasicCredentialWithFormat_returns now uuid iss sub s k ttl claims f :
  let p := payload_image (basic_payload now uuid iss sub ttl (Some (default ∅ claims))) in
  signer_ok s k -> issuable now uuid iss sub ttl (Some (default ∅ claims)) ->
  payload_safe (with_format p f) = true ->
  exists ht pt sg,
    IssueBasicCredentialWithFormat now uuid iss sub (Some s) ttl claims f = Ok (jwt_token ht pt sg)
    /\ json_unmarshal pt = Ok (payload_image (with_format p f))
    /\ ed25519_verify k (signing_input ht pt) sg = true.
Proof.
  cbv zeta. intros Hk Hiss Hsafe.
  destruct (IssueBasicCredential_returns _ _ _ _ _ _ _ _ Hk Hiss) as (ht & pt & sg & Ht & Hu & _).
  destruct (json_law _ Hsafe) as (pt' & Hp' & Hu').
  destruct (proj2 Hk (signing_input ht pt')) as (sg' & Hsg' & Hv').
  exists ht, pt', sg'. split; [|done].
  unfold IssueBasicCredentialWithFormat. rewrite Ht. cbn [rbind].
  rewrite split_jwt_token, b64_roundtrip, Hu. unfold encodeSegment. unfold with_format in Hp'.
  rewrite Hp'. cbn [map_err rbind of_option].
  change (b64_encode ht +:+ "." +:+ b64_encode pt') with (signing_input ht pt'). rewrite Hsg'.
  done.
Qed.

End laws.

(** ** Dates *)

(** The instants at which a credential issued at [now] for [ttl] is read: not before
    it was issued, and before the second in which it expires. *)
Definition within_life (now : time) (ttl : duration) (now' : time) : Prop :=
  (unix_to_internal * second + second <= now /\ now <= now' /\ sec_of now' < sec_of (now + ttl)
   /\ civil_time (now + ttl + minute))%Z.

Lemma within_life_dates now ttl now' :
  within_life now ttl now' ->
  (0 < to_unix now /\ to_unix now' < to_unix (time_add now ttl)
   /\ to_unix now <= to_unix (time_add now' minute) /\ 0 < to_unix (time_add now ttl))%Z
  /\ civil_time (now + ttl) /\ time_add now ttl = (now + ttl)%Z.
Proof.
  unfold within_life, civil_time. intros (H0 & Hn & Hs & Hc).
  assert (Hlt : (now' < now + ttl)%Z).
  { destruct (Z.lt_ge_cases now' (now + ttl)) as [|Hge]; [done|exfalso].
    assert (sec_of (now + ttl) <= sec_of now')%Z; [|lia].
    unfold sec_of. apply Z.div_le_mono; [done|lia]. }
  unfold unix_to_internal, minute, second in *.
  rewrite !time_add_civil by (unfold civil_time, minute, second; lia).
  rewrite !to_unix_civil by (unfold civil_time, minute, second; lia).
  assert (sec_of now <= sec_of (now' + minute))%Z
    by (unfold sec_of, minute, second; apply Z.div_le_mono; lia).
  assert (sec_of now <= sec_of now')%Z by (unfold sec_of, second; apply Z.div_le_mono; lia).
  assert (62135596801 <= sec_of now)%Z
    by (unfold sec_of, second; apply Z.div_le_lower_bound; lia).
  unfold unix_to_internal, minute, second in *. repeat split; lia.
Qed.

Lemma parse_jwt_token h p sg : parseSDJWTPayload (jwt_token h p sg) = (jwt_token h p sg, []).
Proof.
  unfold parseSDJWTPayload. rewrite split_on_single; [done|].
  unfold jwt_token, no_byte. rewrite !string_forall_app.
  fold (no_byte "~"%char). by rewrite !b64_encode_no_byte.
Qed.

Section reads.
Context `{Json (gmap string gval), Json VCJWTPayload, Json VerifiableCredential,
  Json (list gval), Sha256, Ed25519, Rfc3339}.

(** A token whose payload text reads back as [payload_image p], for a payload [p]
    made by the issuer, verifies during its life, with any disclosures. *)
Lemma verify_issued_token h pt sg k now uuid iss sub ttl claims f ds resolve now' :
  let p := basic_payload now uuid iss sub ttl claims in
  let q := match f with None => p | Some f => with_format (payload_image p) f end in
  json_unmarshal pt = Ok (payload_image q) -> ed25519_verify k (signing_input h pt) sg = true ->
  resolve iss = Ok (PubEd25519 k) -> within_life now ttl now' ->
  verifySingleCredential (jwt_token h pt sg) ds resolve "" now'
    = Ok (w3c_credential (payload_image q)).1.
Proof.
  cbv zeta. intros Hu Hv Hr Hl. apply within_life_dates in Hl as ((Hl1 & Hl2 & Hl3 & _) & _ & _).
  pose proof (w3c_credential_fields (payload_image (match f with
    | None => basic_payload now uuid iss sub ttl claims
    | Some f => with_format (payload_image (basic_payload now uuid iss sub ttl claims)) f end)))
    as (Hi & He & Ha & _ & Hd & _).
  eapply verify_w3c_token; [done| | |done| | |].
  - by destruct f.
  - rewrite Hi. by destruct f.
  - rewrite Hd. by destruct f.
  - rewrite He. by destruct f.
  - rewrite Ha. by destruct f.
Qed.
End reads.
