(* ===== verification/ChainExample.v ===== *)
(** * A concrete chain of two credentials, for the instances of the properties. *)

From S2P Require Import Prelude GoStrings Base64 GoTime Errors Values Crypto Credential Instances.
From S2P Require Import Delegation SDJwt Verify Issue.
From Stdlib Require Import ZArith Ascii String Lia.
From stdpp Require Import gmap list strings.

Local Open Scope string_scope.

Definition token_for (sub : string) (ttl : duration) (scope : list string) : string :=
  default "" (to_option (IssueBasicCredential t0 "id" "did:ex:alice" sub (Some alice) ttl
    (Some {["scope" := VStrs scope]}))).

Definition root_token : string := Eval vm_compute in token_for "did:ex:bob" (2 * minute) ["read"; "write"].
Definition leaf_token : string := Eval vm_compute in token_for "did:ex:carol" minute ["read"].

Definition chain_opts : VerificationOptions := mkOptions "" 3.

Definition chain_of (tokens : list string) : DelegationChainResult :=
  default (mkChainResult [] "" "" 0)
    (to_option (VerifyCredentialChain tokens (mkDeps (Some resolve_alice)) chain_opts t0)).

Definition chain_of_both : DelegationChainResult := chain_of [root_token; leaf_token].

Lemma chain_of_two :
  VerifyCredentialChain [root_token; leaf_token] (mkDeps (Some resolve_alice)) chain_opts t0
  = Ok chain_of_both.
Proof. vm_compute. reflexivity. Qed.

(** The first and the last credential of the chain. *)
Definition root_credential : VerifiableCredential := default zero_vc (head (cr_Credentials chain_of_both)).
Definition leaf_credential : VerifiableCredential := default zero_vc (last (cr_Credentials chain_of_both)).

Lemma both_credentials : cr_Credentials chain_of_both = [root_credential; leaf_credential].
Proof. vm_compute. reflexivity. Qed.
