(* ===== verification/ChainProps.v ===== *)
(** * Properties of issuance and verification.

    What an accepted delegation chain guarantees, and that issued credentials are
    accepted; each property with a concrete instance. *)

From S2P Require Import Prelude GoStrings Base64 GoTime Errors Values Crypto Credential Delegation.
From S2P Require Import SDJwt Verify VerifyFacts Instances Issue IssueFacts ChainExample.
From Stdlib Require Import ZArith Ascii String Lia.
From stdpp Require Import gmap list strings.

Local Open Scope string_scope.

Section chains.
Context `{Json (list gval), Json VCJWTPayload, Json VerifiableCredential, Sha256, Ed25519}.

(** C1: A chain is accepted exactly when it is not empty, every token verifies on its own
    (the audience being asked of the last one only), every credential carries no more
    scope and no more lifetime than the one before it, and the number of links is within
    the bound; the result then lists the credentials, the first and the last subject and
    the number of links. *)
Theorem chain_verification_spec tokens resolve opts now r :
  VerifyCredentialChain tokens (mkDeps (Some resolve)) opts now = Ok r <->
  exists cs, tokens <> [] /\ verifies_all resolve (ExpectedAudience opts) now tokens cs
    /\ linked delegates cs /\ depth_within (max_depth opts) (Z.of_nat (length cs) - 1)
    /\ r = chain_result cs.
Proof. apply VerifyCredentialChain_Ok. Qed.

(** C2: In an accepted chain every credential is what its token says, with the disclosed
    claims: the token was signed by the key its issuer resolves to, and its payload had not
    expired, neither by the [exp] claim of the W3C form nor by the [expires_at] of the flat
    one.  The leaf has the expected audience, and its subject is the one reported. *)
Theorem chain_sound tokens deps opts now r :
  VerifyCredentialChain tokens deps opts now = Ok r ->
  exists resolve, ResolveIssuerPublicKey deps = Some resolve
    /\ Forall2 (genuine resolve now) tokens (cr_Credentials r)
    /\ exists leaf, last (cr_Credentials r) = Some leaf
         /\ for_audience (ExpectedAudience opts) leaf /\ cr_CurrentSubject r = vc_Subject leaf.
Proof.
  destruct deps as [[resolve|]]; [|done]. intros Hr.
  apply VerifyCredentialChain_Ok in Hr as (cs & Hne & Hall & _ & _ & ->). exists resolve.
  split; [done|]. split; [by eapply verifies_all_sound|]. cbn.
  apply verifies_all_length in Hall as Hlen.
  destruct (last cs) as [leaf|] eqn:Hl.
  - exists leaf. split; [done|]. split; [by eapply verifies_all_last|done].
  - apply last_None in Hl as ->. by destruct tokens.
Qed.

(** C3: In an accepted chain authority only shrinks: whatever credential precedes
    another, anywhere in the chain, it has every scope the later one has, and it does
    not expire before it (a credential without an expiry never does). *)
Theorem chain_attenuates tokens deps opts now r i j ci cj :
  VerifyCredentialChain tokens deps opts now = Ok r -> (i <= j)%nat ->
  cr_Credentials r !! i = Some ci -> cr_Credentials r !! j = Some cj ->
  (forall s, s ∈ ScopeFromClaims (vc_Claims cj) -> s ∈ ScopeFromClaims (vc_Claims ci))
  /\ expires_within (expiry (vc_ExpiresAt ci)) (expiry (vc_ExpiresAt cj)).
Proof.
  destruct deps as [[resolve|]]; [|done]. intros Hr Hij Hi Hj.
  apply VerifyCredentialChain_Ok in Hr as (cs & _ & _ & Hlk & _ & ->). cbn in *.
  rewrite <- IsScopeSubset_spec, <- IsTTLWithinParent_spec. change (delegates ci cj).
  by eapply (linked_lookup delegates).
Qed.
End chains.

Lemma chain_sound_witness :
  exists leaf, last (cr_Credentials chain_of_both) = Some leaf /\ vc_Subject leaf = "did:ex:carol".
Proof.
  destruct (chain_sound _ _ _ _ _ chain_of_two) as (_ & _ & _ & leaf & Hl & _ & Hs).
  exists leaf. split; [exact Hl|]. rewrite <- Hs. vm_compute. reflexivity.
Defined.

Lemma chain_attenuates_witness :
  (forall s, s ∈ ScopeFromClaims (vc_Claims leaf_credential) ->
             s ∈ ScopeFromClaims (vc_Claims root_credential))
  /\ ScopeFromClaims (vc_Claims root_credential) = ["read"; "write"].
Proof.
  split; [|vm_compute; reflexivity].
  eapply (chain_attenuates _ _ _ _ _ 0 1 _ _ chain_of_two); [lia| |]; rewrite both_credentials; reflexivity.
Defined.

Section issuing.
Context `{Json (gmap string gval), Json VCJWTPayload, Json VerifiableCredential,
  Json (list gval), Sha256, Ed25519, Rfc3339}.
Context `{!JsonLaw (gmap string gval) (fun m => json_safe (VObj m)) (fmap json_image)}.
Context `{!JsonLaw VCJWTPayload payload_safe payload_image}.

(** Issuing and then verifying is a round trip: for valid DIDs, a positive lifetime
    and claims JSON can carry, a token is returned, and at any instant of its life
    the verifier that resolves the issuer to the signer's key accepts it and reads back
    the issuer, the subject, the claims and, to the second, the expiry. *)
Theorem issue_verify_roundtrip now uuid iss sub s k ttl claims resolve now' :
  signer_ok s k -> issuable now uuid iss sub ttl claims -> resolve iss = Ok (PubEd25519 k) ->
  within_life now ttl now' ->
  exists token c,
    IssueBasicCredential now uuid iss sub (Some s) ttl claims = Ok token
    /\ VerifyCredential token (mkDeps (Some resolve)) "" now' = Ok c
    /\ vc_Issuer c = iss /\ vc_Subject c = sub /\ vc_Claims c = map_image claims
    /\ vc_ExpiresAt c = (sec_of (now + ttl) * second)%Z.
Proof.
  intros Hk Hiss Hr Hl.
  destruct (IssueBasicCredential_returns _ _ _ _ _ _ _ _ Hk Hiss) as (ht & pt & sg & Ht & Hu & Hv).
  pose proof (within_life_dates _ _ _ Hl) as ((_ & _ & _ & Hpos) & Hc & Hadd).
  pose proof (verify_issued_token ht pt sg k now uuid iss sub ttl claims None [] resolve now'
                Hu Hv Hr Hl) as Hver.
  set (q := basic_payload now uuid iss sub ttl claims) in *.
  exists (jwt_token ht pt sg), (w3c_credential (payload_image q)).1. split; [done|]. split.
  - unfold VerifyCredential, VerifyCredentialChain. cbn. rewrite parse_jwt_token, Hver. done.
  - pose proof (w3c_credential_fields (payload_image q)) as (Hi & _ & _ & Hs & _ & _ & Hx & _).
    split; [done|]. split; [done|]. split; [by apply (w3c_claims_image q)|].
    rewrite Hx; [|done]. cbn. by rewrite Hadd, unix_to_unix.
Qed.

(** C39: The digests of an SD-JWT are never checked.  The issuer puts them among the
    claims and not in the digest field the verifier reads, so the token it returns is
    accepted with whatever disclosures, missing, foreign or malformed, and the credential
    that results has no claim but the two bookkeeping ones. *)
Theorem sdjwt_disclosures_unchecked now uuid iss sub s k ttl entries dds resolve now' :
  let sd : claims_map :=
    Some {["_sd" := VStrs dds.*2; "_sd_alg" := VStr "sha256"]} in
  signer_ok s k -> build_disclosures entries = Ok dds -> issuable now uuid iss sub ttl sd ->
  payload_safe (with_format (payload_image (basic_payload now uuid iss sub ttl sd)) "sd-jwt") = true ->
  resolve iss = Ok (PubEd25519 k) -> within_life now ttl now' ->
  exists token c,
    IssueSDJWTCredential now uuid iss sub (Some s) ttl entries = Ok (mkSDJWT token dds.*1)
    /\ vc_Format c = "sd-jwt"
    /\ (forall key, key <> "_sd" -> key <> "_sd_alg" -> claim (vc_Claims c) key = None)
    /\ forall disclosures, verifySingleCredential token disclosures resolve "" now' = Ok c.
Proof.
  cbv zeta. intros Hk Hdds Hiss Hsafe Hr Hl.
  set (sd := {["_sd" := VStrs dds.*2; "_sd_alg" := VStr "sha256"]} : gmap string gval) in *.
  destruct (IssueBasicCredentialWithFormat_returns now uuid iss sub s k ttl (Some sd) "sd-jwt" Hk Hiss
              Hsafe) as (ht & pt & sg & Ht & Hu & Hv).
  set (q := with_format (payload_image (basic_payload now uuid iss sub ttl (Some sd))) "sd-jwt") in *.
  exists (jwt_token ht pt sg), (w3c_credential (payload_image q)).1.
  split; [unfold IssueSDJWTCredential; rewrite Hdds; cbn [rbind]; cbv zeta; fold sd; by rewrite Ht|].
  split; [apply (w3c_credential_fields (payload_image q))|]. split.
  - intros key Hne Hne'.
    assert (Hcl : vc_Claims (w3c_credential (payload_image q)).1 = map_image (Some sd)).
    { assert (Hom : map_image_omitempty (Some sd) = map_image (Some sd)).
      { cbn [map_image_omitempty]. rewrite bool_decide_eq_false_2; [done|]. apply insert_non_empty. }
      destruct (w3c_claims_image q) as [Hq _]; [exact Hom|]. rewrite Hq.
      change (vc_Claims (pl_VC q)) with (map_image_omitempty (Some sd)). by rewrite Hom, map_image_idem. }
    rewrite Hcl. cbn. rewrite lookup_fmap. unfold sd.
    by rewrite lookup_insert_ne, lookup_singleton_ne.
  - intros ds. by apply (verify_issued_token ht pt sg k now uuid iss sub ttl (Some sd) (Some "sd-jwt")).
Qed.
End issuing.

Lemma issue_verify_roundtrip_witness :
  exists token c,
    IssueBasicCredential t0 "id" "did:ex:alice" "did:ex:bob" (Some alice) minute
      (Some {["scope" := VStrs ["read"]]}) = Ok token
    /\ VerifyCredential token (mkDeps (Some resolve_alice)) "" (t0 + 5 * second)%Z = Ok c
    /\ vc_Issuer c = "did:ex:alice".
Proof.
  destruct (issue_verify_roundtrip t0 "id" "did:ex:alice" "did:ex:bob" alice alice_key minute
    (Some {["scope" := VStrs ["read"]]}) resolve_alice (t0 + 5 * second)%Z)
    as (token & c & Hi & Hv & Hc & _).
  - apply plain_signer_ok.
  - split; [vm_compute; reflexivity|]. split; [vm_compute; reflexivity|].
    split; [vm_compute; reflexivity|vm_compute; reflexivity].
  - vm_compute. reflexivity.
  - unfold within_life, civil_time. repeat split; vm_compute; congruence.
  - exists token, c. split; [exact Hi|]. split; [exact Hv|exact Hc].
Defined.

Definition sd_entries : list (string * (string * gval)) := [("salt-12bytes", ("email", VStr "a@b.c"))].

Lemma sdjwt_disclosures_unchecked_witness :
  exists token ds,
    IssueSDJWTCredential t0 "id" "did:ex:alice" "did:ex:bob" (Some alice) minute sd_entries
      = Ok (mkSDJWT token ds)
    /\ is_ok (verifySingleCredential token ["no disclosure at all"] resolve_alice "" t0) = true.
Proof.
  destruct (build_disclosures sd_entries) as [dds|] eqn:Hdds; [|discriminate (eq_sym Hdds)].
  assert (Hc := Hdds). vm_compute in Hc. injection Hc as Hc.
  destruct (sdjwt_disclosures_unchecked t0 "id" "did:ex:alice" "did:ex:bob" alice alice_key minute
    sd_entries dds resolve_alice t0) as (token & c & Hi & _ & _ & Hv).
  - apply plain_signer_ok.
  - exact Hdds.
  - rewrite <- Hc. split; [vm_compute; reflexivity|]. split; [vm_compute; reflexivity|].
    split; [vm_compute; reflexivity|vm_compute; reflexivity].
  - rewrite <- Hc. vm_compute. reflexivity.
  - vm_compute. reflexivity.
  - unfold within_life, civil_time. repeat split; vm_compute; congruence.
  - exists token, dds.*1. split; [exact Hi|]. rewrite Hv. reflexivity.
Defined.

Section disclosures.
Context `{Json (list gval), Sha256}.

(** A credential whose digest field is set is accepted with a list of disclosures
    exactly when each disclosure opens, with a digest among the expected ones, and
    every expected digest is that of one of the disclosures; the claims are then the
    disclosed ones over the credential's own, and the digests are cleared. *)
Theorem disclosures_checked al vc ds vc' :
  vc_SDDigests vc <> [] ->
  applySDJWDisclosures al vc ds = Ok vc' <->
  exists kvs,
    Forall2 (fun d kv => open_disclosure (list_to_set (vc_SDDigests vc)) d = Ok kv) ds kvs
    /\ covers (vc_SDDigests vc) ds
    /\ vc' = (let claims := Some (disclosed kvs ∪ default ∅ (vc_Claims vc)) in
              let vc := set_SDDigests [] (set_Claims claims vc) in
              if al then set_CredentialSubject claims vc else vc).
Proof. apply applySDJWDisclosures_Ok. Qed.
End disclosures.

Definition email_disclosure : string * string :=
  default ("", "") (to_option (buildDisclosure "salt-12bytes" "email" (VStr "a@b.c"))).

Lemma disclosures_checked_witness :
  let vc := set_SDDigests [email_disclosure.2] zero_vc in
  vc_SDDigests vc <> [] /\
  applySDJWDisclosures false vc [email_disclosure.1]
    = Ok (set_Claims (Some {["email" := VStr "a@b.c"]}) zero_vc) /\
  applySDJWDisclosures false vc [] = Err (ErrVar ErrMissingDisclosure).
Proof.
  split; [discriminate|]. split; [|vm_compute; reflexivity].
  apply disclosures_checked; [discriminate|]. exists [("email", VStr "a@b.c")].
  split; [constructor; [vm_compute; reflexivity|constructor]|]. split.
  - intros g Hg. exists email_disclosure.1. eexists. split; [left|]. split; [vm_compute; reflexivity|].
    apply list_elem_of_singleton in Hg as ->. vm_compute. reflexivity.
  - vm_compute. reflexivity.
Defined.

(** C40: The conversion of a child's [exp] to a date wraps around: with an [exp] in the last
    2000 years of the 64-bit range the child is unexpired at every date of the calendar, and
    still passes the lifetime check against any parent. *)
Theorem exp_wraps_around idx m parent p now :
  (max_int64 - unix_to_internal < pl_EXP p <= max_int64)%Z ->
  civil_time (vc_ExpiresAt parent) -> civil_time now -> depth_within m idx ->
  (forall s, s ∈ ScopeFromClaims (vc_Claims (w3c_credential p).1) ->
             s ∈ ScopeFromClaims (vc_Claims parent)) ->
  check_link idx m parent (w3c_credential p).1 = Ok tt
  /\ unexpired now true (w3c_credential p).1
  /\ (to_unix now < vc_EXP (w3c_credential p).1)%Z.
Proof.
  intros He Hp Hn Hd Hs. pose proof (w3c_credential_fields p) as (_ & Hexp & _ & _ & _ & _ & Hx & _).
  assert (Hpos : (0 < pl_EXP p)%Z) by (unfold max_int64, unix_to_internal in He; lia).
  assert (Hlt : (to_unix now < pl_EXP p)%Z).
  { rewrite to_unix_civil by done. unfold civil_time in Hn.
    assert (sec_of now < 315537897600)%Z
      by (unfold sec_of, second in *; apply Z.div_lt_upper_bound; lia).
    unfold max_int64, unix_to_internal in *. lia. }
  rewrite check_link_Ok, Hexp. split; [|split; [cbn; by rewrite Hexp|done]].
  split; [done|]. split; [by apply IsScopeSubset_spec|].
  assert (Hneg : (unix_time (pl_EXP p) < 0)%Z).
  { unfold unix_time, wrap64, max_int64, unix_to_internal, second in *.
    assert ((pl_EXP p + 62135596800 + 2 ^ 63) mod 2 ^ 64 = pl_EXP p + 62135596800 + 2 ^ 63 - 2 ^ 64)%Z
      as ->.
    { symmetry. apply Z.mod_unique_pos with (q := 1%Z); lia. }
    lia. }
  apply IsTTLWithinParent_spec. unfold civil_time in Hp. rewrite Hx by done.
  unfold expiry, is_zero, expires_within.
  destruct (vc_ExpiresAt parent =? 0)%Z, (unix_time (pl_EXP p) =? 0)%Z eqn:E; breflect; try done; lia.
Qed.

Lemma exp_wraps_around_witness :
  let parent := set_ExpiresAt (t0 + minute)%Z zero_vc in
  let child := (w3c_credential (mkPayload "" "" "" 0 max_int64 0 zero_vc)).1 in
  check_link 1 3 parent child = Ok tt /\ unexpired (t0 + 1000000 * hour)%Z true child.
Proof.
  cbv zeta. edestruct (exp_wraps_around 1 3 (set_ExpiresAt (t0 + minute)%Z zero_vc)
    (mkPayload "" "" "" 0 max_int64 0 zero_vc) (t0 + 1000000 * hour)%Z) as (Hl & Hu & _).
  - unfold max_int64, unix_to_internal. cbn [pl_EXP]. lia.
  - unfold civil_time. cbn. unfold t0, minute, second. lia.
  - unfold civil_time, t0, hour, minute, second. lia.
  - right. lia.
  - intros s Hs. cbn in Hs. by apply elem_of_nil in Hs.
  - split; [exact Hl|exact Hu].
Defined.
