(* ===== verification/AuthzBridge.v ===== *)
(** * The authorization bridge.

    Models internal/domain/authz_bridge.go: from a verified chain to a decision, and
    from a decision to the compact token legacy services read. *)

From S2P Require Import Prelude GoStrings Base64 GoTime Errors Values Crypto Credential Instances.
From S2P Require Import Delegation SDJwt Verify VerifyFacts Issue IssueFacts ChainExample.
From Stdlib Require Import ZArith Ascii String Lia.
From stdpp Require Import gmap list strings.

Local Open Scope string_scope.

(** Source: internal/domain/authz_bridge.go, [AuthzDecision]. *)
Record AuthzDecision := mkDecision {
  ad_Allowed : bool;
  ad_SubjectDID : string;
  ad_ActingOnBehalfOf : string;
  ad_DelegationDepth : Z;
  ad_Claims : claims_map;
  ad_Reason : string;
}.

(** Source: internal/domain/authz_bridge.go, [BuildAuthzDecisionFromVerification]. *)
Definition BuildAuthzDecisionFromVerification (result : option DelegationChainResult) : AuthzDecision :=
  match result with
  | None => mkDecision false "" "" 0 None "missing_verification_result"
  | Some r =>
      match last (cr_Credentials r) with
      | None => mkDecision false "" "" 0 None "missing_verification_result"
      | Some leaf => mkDecision true (cr_CurrentSubject r) (cr_RootDelegator r)
                       (cr_DelegationDepth r) (vc_Claims leaf) ""
      end
  end.

(** The claims of the token, before they are marshalled.
    Source: internal/domain/authz_bridge.go:73-88, [BuildSyntheticJWT]. *)
Definition synthetic_payload (now : time) (d : AuthzDecision) (issuer : string) (ttl : duration)
  : gmap string gval :=
  let payload : gmap string gval :=
    {["iss" := VStr issuer; "sub" := VStr (ad_SubjectDID d); "iat" := VInt64 (to_unix now);
      "exp" := VInt64 (to_unix (time_add now ttl)); "delegation_depth" := VInt (ad_DelegationDepth d)]} in
  let payload :=
    if bool_decide (ad_ActingOnBehalfOf d = "") then payload
    else <["obo" := VStr (ad_ActingOnBehalfOf d)]> payload in
  match claim (ad_Claims d) "scope" with
  | Some scopeVal => <["scope" := scopeVal]> payload
  | None => payload
  end.

(** The loop of [splitToken]: [i] bytes were read, the piece that is being read
    starts at [start].
    Source: internal/domain/authz_bridge.go, [splitToken]. *)
Fixpoint splitToken_loop (token rest : string) (i start : nat) (res : list string) : list string :=
  match rest with
  | "" => if (start <=? String.length token)%nat then app res [drop_bytes start token] else res
  | String a rest' =>
      if bool_decide (a = "."%char)
      then splitToken_loop token rest' (S i) (S i)
             (app res [take_bytes (i - start) (drop_bytes start token)])
      else splitToken_loop token rest' (S i) start res
  end.

(** Source: internal/domain/authz_bridge.go, [splitToken]. *)
Definition splitToken (token : string) : list string := splitToken_loop token token 0 0 [].

Section bridge.
Context `{Json (gmap string gval), Ed25519}.

(** Source: internal/domain/authz_bridge.go, [BuildSyntheticJWT]. *)
Definition BuildSyntheticJWT (now : time) (decision : AuthzDecision) (signingKey : option Signer)
    (issuer : string) (ttl : duration) : result error string :=
  stop! negb (ad_Allowed decision) with ErrVar ErrDecisionDenied in
  let! signingKey := of_option (ErrVar ErrSigningKeyRequired) signingKey in
  stop! bool_decide (issuer = "") with ErrVar ErrIssuerRequired in
  stop! (ttl <=? 0)%Z with ErrVar ErrInvalidTTL in
  let payload := synthetic_payload now decision issuer ttl in
  let! headerSegment := encodeSegment (jose_header "JWT") in
  let! payloadSegment := encodeSegment payload in
  let signingInput := headerSegment +:+ "." +:+ payloadSegment in
  let! signature := map_err (fun e => ErrWrap "sign payload: " e "")
                      (signer_Sign signingKey signingInput) in
  Ok (signingInput +:+ "." +:+ b64_encode signature).

(** Source: internal/domain/authz_bridge.go, [DecodeSyntheticJWT]. *)
Definition DecodeSyntheticJWT (token : string) : result error (gmap string gval) :=
  match splitToken token with
  | [_; part1; _] =>
      let! payloadBytes := of_option (ErrText "decode payload: illegal base64 data") (b64_decode part1) in
      map_err (fun e => ErrWrap "unmarshal payload: " e "") (json_unmarshal payloadBytes)
  | _ => Err (ErrVar ErrInvalidTokenFormat)
  end.

(** Source: internal/domain/authz_bridge.go, [VerifySyntheticJWTSignature]. *)
Definition VerifySyntheticJWTSignature (token : string) (publicKey : public_key) : result error unit :=
  match splitToken token with
  | [part0; part1; part2] =>
      let signingInput := part0 +:+ "." +:+ part1 in
      let! signature := of_option (ErrText "decode signature: illegal base64 data") (b64_decode part2) in
      let! edKey := of_option (ErrVar ErrUnsupportedPublicKeyType) (as_ed25519 publicKey) in
      stop! negb (ed25519_verify edKey signingInput signature) with ErrVar ErrInvalidTokenSignature in
      Ok tt
  | _ => Err (ErrVar ErrInvalidTokenFormat)
  end.
End bridge.

(** ** Facts *)

(** The loop, once it has read [pre] up to the piece's start and [cur] of the piece. *)
Lemma splitToken_loop_spec token rest : forall pre cur i start res,
  token = pre +:+ cur +:+ rest -> no_byte "."%char cur = true ->
  start = String.length pre -> i = (start + String.length cur)%nat ->
  splitToken_loop token rest i start res = app res (split_on "."%char (cur +:+ rest)).
Proof.
  induction rest as [|a rest IH]; intros pre cur i start res Htok Hcur Hst Hi; cbn [splitToken_loop].
  - rewrite string_app_nil_r in *. subst. rewrite drop_bytes_app, split_on_single by done.
    rewrite string_length_app. by rewrite (proj2 (Nat.leb_le _ _)) by lia.
  - case_bool_decide as Ha.
    + subst a. rewrite split_on_app by done.
      rewrite (IH (pre +:+ cur +:+ ".") ""); [|by rewrite Htok, !string_app_assoc|done| |cbn; lia].
      * cbn [String.append]. rewrite <- app_assoc. f_equal. cbn [app]. f_equal.
        rewrite Htok, Hst, drop_bytes_app. replace (i - String.length pre)%nat with (String.length cur) by lia.
        apply take_bytes_app.
      * rewrite !string_length_app. cbn. lia.
    + rewrite (IH pre (cur +:+ String a "")); [|by rewrite string_app_assoc| |done|].
      * by rewrite string_app_assoc.
      * unfold no_byte in *. rewrite string_forall_app, Hcur. cbn.
        by rewrite bool_decide_eq_false_2.
      * rewrite string_length_app. cbn. lia.
Qed.

Lemma splitToken_split token : splitToken token = split_on "."%char token.
Proof. by apply (splitToken_loop_spec token token "" ""). Qed.

(** A token carries a scope exactly as the decision's claims do. *)
Lemma synthetic_scope now d issuer ttl :
  ScopeFromClaims (Some (synthetic_payload now d issuer ttl)) = ScopeFromClaims (ad_Claims d).
Proof.
  unfold ScopeFromClaims at 1, synthetic_payload.
  set (m := if bool_decide _ then _ else _).
  assert (Hm : m !! "scope" = None).
  { unfold m. by case_bool_decide; rewrite !lookup_insert_ne, lookup_singleton_ne. }
  unfold claim, ScopeFromClaims. destruct (ad_Claims d) as [c|]; cbn; [|by rewrite Hm].
  destruct (c !! "scope") as [v|]; [by rewrite lookup_insert_eq|by rewrite Hm].
Qed.

(** A token's claims can be written when its issuer, its subjects and its scope can. *)
Lemma synthetic_payload_safe now d issuer ttl :
  utf8_valid issuer = true -> utf8_valid (ad_SubjectDID d) = true -> utf8_valid (ad_ActingOnBehalfOf d) = true ->
  (forall v, claim (ad_Claims d) "scope" = Some v -> json_safe v = true) ->
  json_safe (VObj (synthetic_payload now d issuer ttl)) = true.
Proof.
  intros Hi Hs Ho Hc. apply json_safe_obj. unfold synthetic_payload.
  assert (Hbase : forall m : gmap string gval, m = {["iss" := VStr issuer; "sub" := VStr (ad_SubjectDID d);
      "iat" := VInt64 (to_unix now); "exp" := VInt64 (to_unix (time_add now ttl)); "delegation_depth" := VInt (ad_DelegationDepth d)]} ->
    map_Forall (fun k v => utf8_valid k = true /\ json_safe v = true) m).
  { intros m ->. repeat (apply map_Forall_insert_2; [by split|]). apply map_Forall_empty. }
  assert (Hobo : map_Forall (fun k v => utf8_valid k = true /\ json_safe v = true)
    (if bool_decide (ad_ActingOnBehalfOf d = "") then
       ({["iss" := VStr issuer; "sub" := VStr (ad_SubjectDID d);
          "iat" := VInt64 (to_unix now); "exp" := VInt64 (to_unix (time_add now ttl)); "delegation_depth" := VInt (ad_DelegationDepth d)]}
          : gmap string gval)
     else <["obo" := VStr (ad_ActingOnBehalfOf d)]> {["iss" := VStr issuer; "sub" := VStr (ad_SubjectDID d);
          "iat" := VInt64 (to_unix now); "exp" := VInt64 (to_unix (time_add now ttl)); "delegation_depth" := VInt (ad_DelegationDepth d)]})).
  { case_bool_decide; [by apply Hbase|]. apply map_Forall_insert_2; [by split|by apply Hbase]. }
  destruct (claim (ad_Claims d) "scope") as [v|]; [|exact Hobo].
  apply map_Forall_insert_2; [|exact Hobo]. split; [done|by apply Hc].
Qed.

(** What a token says of its issuer, its subject and its scope. *)
Lemma synthetic_payload_lookup now d issuer ttl :
  synthetic_payload now d issuer ttl !! "iss" = Some (VStr issuer)
  /\ synthetic_payload now d issuer ttl !! "sub" = Some (VStr (ad_SubjectDID d))
  /\ synthetic_payload now d issuer ttl !! "scope" = claim (ad_Claims d) "scope"
  /\ synthetic_payload now d issuer ttl !! "obo"
     = (if decide (ad_ActingOnBehalfOf d = "") then None else Some (VStr (ad_ActingOnBehalfOf d)))
  /\ synthetic_payload now d issuer ttl !! "delegation_depth" = Some (VInt (ad_DelegationDepth d)).
Proof.
  unfold synthetic_payload. destruct (claim (ad_Claims d) "scope") as [v|]; case_bool_decide;
    rewrite ?lookup_insert_eq, ?(lookup_insert_ne _ "scope") by done;
    rewrite ?(lookup_insert_ne _ "obo") by done; rewrite ?lookup_insert_eq, ?decide_True, ?decide_False by done; done.
Qed.

Section facts.
Context `{Json (gmap string gval), Ed25519}.

(** What [BuildSyntheticJWT] returns. *)
Lemma BuildSyntheticJWT_Ok now d s issuer ttl token :
  BuildSyntheticJWT now d (Some s) issuer ttl = Ok token <->
  ad_Allowed d = true /\ issuer <> "" /\ (0 < ttl)%Z /\
  exists ht pt sg, json_marshal (jose_header "JWT") = Ok ht
    /\ json_marshal (synthetic_payload now d issuer ttl) = Ok pt
    /\ signer_Sign s (signing_input ht pt) = Ok sg /\ token = jwt_token ht pt sg.
Proof.
  unfold BuildSyntheticJWT. cbn [of_option rbind]. split.
  - intros Ht. stop_inv Ht as Ha. stop_inv Ht as Hi. stop_inv Ht as Hp.
    bind_inv Ht as hs Hh. bind_inv Ht as ps Hps. bind_inv Ht as sg Hsg. injection Ht as <-.
    ok_simp Hsg. apply encodeSegment_Ok in Hh as (ht & Hh & ->), Hps as (pt & Hps & ->). breflect.
    do 3 (split; [done || lia|]). exists ht, pt, sg. split; [done|]. split; [done|].
    split; [done|]. exact (signing_input_cat ht pt sg).
  - intros (-> & Hi & Hp & ht & pt & sg & Hh & Hps & Hsg & ->). cbn [negb].
    rewrite bool_decide_eq_false_2 by done.
    rewrite (proj2 (Z.leb_gt ttl 0)) by lia. unfold encodeSegment. rewrite Hh, Hps. cbn [map_err rbind].
    change (b64_encode ht +:+ "." +:+ b64_encode pt) with (signing_input ht pt). rewrite Hsg.
    cbn [map_err rbind]. f_equal. exact (signing_input_cat ht pt sg).
Qed.

Lemma DecodeSyntheticJWT_token ht pt sg :
  DecodeSyntheticJWT (jwt_token ht pt sg)
  = map_err (fun e => ErrWrap "unmarshal payload: " e "") (json_unmarshal pt).
Proof. unfold DecodeSyntheticJWT. by rewrite splitToken_split, split_jwt_token, b64_roundtrip. Qed.

Lemma VerifySyntheticJWTSignature_token ht pt sg k :
  VerifySyntheticJWTSignature (jwt_token ht pt sg) (PubEd25519 k)
  = if ed25519_verify k (signing_input ht pt) sg then Ok tt else Err (ErrVar ErrInvalidTokenSignature).
Proof.
  unfold VerifySyntheticJWTSignature. rewrite splitToken_split, split_jwt_token, b64_roundtrip.
  cbn [of_option rbind as_ed25519]. unfold signing_input. by destruct (ed25519_verify _ _ _).
Qed.
End facts.

(** ** Properties *)

(** The hand-written splitter of the bridge agrees with splitting at every dot. *)
Theorem splitToken_is_split token :
  splitToken token = split_on "."%char token /\ str_join "." (splitToken token) = token.
Proof. rewrite splitToken_split. split; [done|apply join_split]. Qed.

Section bridge_props.
Context `{Json (gmap string gval), Json (list gval), Json VCJWTPayload, Json VerifiableCredential,
  Sha256, Ed25519}.
Context `{!JsonLaw (gmap string gval) (fun m => json_safe (VObj m)) (fmap json_image)}.

(** Minting and reading back is a round trip: an allowed decision, an issuer, a
    positive lifetime and claims JSON can carry give a token that decodes to the claims
    and verifies under the signer's key. *)
Theorem synthetic_roundtrip now d s k issuer ttl :
  signer_ok s k -> ad_Allowed d = true -> issuer <> "" -> (0 < ttl)%Z ->
  json_safe (VObj (synthetic_payload now d issuer ttl)) = true ->
  exists token, BuildSyntheticJWT now d (Some s) issuer ttl = Ok token
    /\ DecodeSyntheticJWT token = Ok (json_image <$> synthetic_payload now d issuer ttl)
    /\ VerifySyntheticJWTSignature token (PubEd25519 k) = Ok tt.
Proof.
  intros [_ Hs] Ha Hi Ht Hsafe.
  destruct (json_law (jose_header "JWT")) as (ht & Hh & _); [by vm_compute|].
  destruct (json_law (synthetic_payload now d issuer ttl) Hsafe) as (pt & Hp & Hu).
  destruct (Hs (signing_input ht pt)) as (sg & Hsg & Hv).
  exists (jwt_token ht pt sg). split; [apply BuildSyntheticJWT_Ok; eauto 10|].
  rewrite DecodeSyntheticJWT_token, VerifySyntheticJWTSignature_token, Hu, Hv. done.
Qed.

(** The decision built from a chain that has credentials. *)
Lemma decision_of_chain cs root leaf :
  head cs = Some root -> last cs = Some leaf ->
  BuildAuthzDecisionFromVerification (Some (chain_result cs))
  = mkDecision true (vc_Subject leaf) (vc_Subject root) (Z.of_nat (length cs) - 1) (vc_Claims leaf) "".
Proof.
  intros Hh Hl. unfold BuildAuthzDecisionFromVerification, chain_result.
  cbn [cr_Credentials cr_CurrentSubject cr_RootDelegator cr_DelegationDepth]. by rewrite Hl, Hh.
Qed.

(** C24: From chain to token, authority does not grow.  The decision built from an accepted
    chain is allowed, is for the last subject on behalf of the first, with the number of links
    as its depth and the claims of the last credential.  A token minted from it, read back,
    names its issuer, these two subjects (the first one unless it is empty) and the depth, and
    its scopes are those of the last credential, so none that any credential of the chain
    lacks. *)
Theorem bridge_attenuates tokens deps opts now r s issuer ttl now' token m :
  let d := BuildAuthzDecisionFromVerification (Some r) in
  VerifyCredentialChain tokens deps opts now = Ok r ->
  json_safe (VObj (synthetic_payload now' d issuer ttl)) = true ->
  BuildSyntheticJWT now' d (Some s) issuer ttl = Ok token -> DecodeSyntheticJWT token = Ok m ->
  exists root leaf, head (cr_Credentials r) = Some root /\ last (cr_Credentials r) = Some leaf
    /\ d = mkDecision true (vc_Subject leaf) (vc_Subject root) (Z.of_nat (length (cr_Credentials r)) - 1)
             (vc_Claims leaf) ""
    /\ m !! "iss" = Some (VStr issuer) /\ m !! "sub" = Some (VStr (vc_Subject leaf))
    /\ m !! "obo" = (if decide (vc_Subject root = "") then None else Some (VStr (vc_Subject root)))
    /\ m !! "delegation_depth" = Some (json_image (VInt (Z.of_nat (length (cr_Credentials r)) - 1)))
    /\ ScopeFromClaims (Some m) = ScopeFromClaims (vc_Claims leaf)
    /\ forall c sc, c ∈ cr_Credentials r -> sc ∈ ScopeFromClaims (Some m) -> sc ∈ ScopeFromClaims (vc_Claims c).
Proof.
  cbv zeta. intros Hr Hsafe Ht Hm. destruct deps as [[resolve|]]; [|done].
  apply VerifyCredentialChain_Ok in Hr as (cs & Hne & Hall & Hlk & _ & ->). cbn [cr_Credentials chain_result].
  apply verifies_all_length in Hall. destruct cs as [|root cs]; [exfalso; destruct tokens; [by apply Hne|discriminate Hall]|].
  destruct (last (root :: cs)) as [leaf|] eqn:Hl; [|apply last_None in Hl; discriminate Hl].
  exists root, leaf. split; [reflexivity|]. split; [reflexivity|].
  pose proof (decision_of_chain (root :: cs) root leaf eq_refl Hl) as Hdec. rewrite Hdec in Hsafe, Ht |- *. clear Hdec.
  split; [reflexivity|]. set (d := mkDecision true _ _ _ _ _) in *.
  apply BuildSyntheticJWT_Ok in Ht as (_ & _ & _ & ht & pt & sg & _ & Hp & _ & ->).
  destruct (json_law (synthetic_payload now' d issuer ttl) Hsafe) as (pt' & Hp' & Hu). rewrite Hp in Hp'. injection Hp' as <-.
  rewrite DecodeSyntheticJWT_token, Hu in Hm. injection Hm as <-.
  destruct (synthetic_payload_lookup now' d issuer ttl) as (Hi & Hs & _ & Ho & Hd).
  change (ad_ActingOnBehalfOf d) with (vc_Subject root) in Ho.
  rewrite !lookup_fmap, Hi, Hs, Ho, Hd. do 2 (split; [done|]). split; [by destruct (decide (vc_Subject root = ""))|]. split; [done|].
  change (Some (json_image <$> synthetic_payload now' d issuer ttl))
    with (map_image (Some (synthetic_payload now' d issuer ttl))).
  rewrite ScopeFromClaims_image, synthetic_scope. split; [done|].
  intros c sc [i Hic]%list_elem_of_lookup_1 Hsc. rewrite last_lookup in Hl. apply lookup_lt_Some in Hic as Hlt.
  assert (Hdel : delegates c leaf)
    by (apply (linked_lookup delegates (root :: cs) i (pred (length (root :: cs)))); [done|lia|done|done]).
  destruct Hdel as [Hsub' _]. rewrite IsScopeSubset_spec in Hsub'. by apply Hsub'.
Qed.
End bridge_props.

(** ** Instances *)

Lemma synthetic_roundtrip_witness :
  let d := mkDecision true "did:ex:bob" "did:ex:alice" 1 (Some {["scope" := VStrs ["read"]]}) "" in
  exists token, BuildSyntheticJWT t0 d (Some alice) "did:ex:gw" minute = Ok token
    /\ VerifySyntheticJWTSignature token (PubEd25519 alice_key) = Ok tt.
Proof.
  cbv zeta.
  destruct (synthetic_roundtrip t0
    (mkDecision true "did:ex:bob" "did:ex:alice" 1 (Some {["scope" := VStrs ["read"]]}) "")
    alice alice_key "did:ex:gw" minute) as (token & Hb & _ & Hv).
  - apply plain_signer_ok.
  - reflexivity.
  - discriminate.
  - reflexivity.
  - vm_compute. reflexivity.
  - exists token. split; [exact Hb|exact Hv].
Defined.

Definition bridge_token : string :=
  default "" (to_option (BuildSyntheticJWT t0
    (BuildAuthzDecisionFromVerification (Some chain_of_both))
    (Some alice) "did:ex:gw" minute)).

Definition bridge_claims : gmap string gval :=
  default ∅ (to_option (DecodeSyntheticJWT bridge_token)).

Lemma bridge_attenuates_witness :
  DecodeSyntheticJWT bridge_token = Ok bridge_claims
  /\ bridge_claims !! "obo" = Some (VStr (vc_Subject root_credential)) /\ vc_Subject root_credential <> ""
  /\ forall sc, sc ∈ ScopeFromClaims (Some bridge_claims) ->
       sc ∈ ScopeFromClaims (vc_Claims root_credential).
Proof.
  assert (Hm : DecodeSyntheticJWT bridge_token = Ok bridge_claims) by (vm_compute; reflexivity).
  split; [exact Hm|].
  destruct (bridge_attenuates [root_token; leaf_token] (mkDeps (Some resolve_alice)) chain_opts
    t0 chain_of_both alice "did:ex:gw" minute t0 bridge_token bridge_claims chain_of_two)
    as (root & leaf & Hh & _ & _ & _ & _ & Ho & _ & _ & Hsc).
  - vm_compute. reflexivity.
  - vm_compute. reflexivity.
  - exact Hm.
  - rewrite both_credentials in Hh. apply (inj Some) in Hh. rewrite <- Hh in Ho. split; [exact Ho|]. split; [vm_compute; discriminate|].
    intros sc. apply Hsc. rewrite both_credentials. left.
Defined.
