(* ===== verification/Policy.v ===== *)
(** * The policy engine.

    Models internal/policy/types.go, engine.go, engine_impl.go and engine_noop.go:
    which policies match a request, and how the matching ones decide it.

    Comparing two interface values that hold maps or slices panics in Go; such a run
    is [Err Panic].  The order in which the conditions of a policy are visited is not
    fixed by Go; it is the argument [order]. *)

From S2P Require Import Prelude GoStrings GoTime Errors Values.
From Stdlib Require Import ZArith Ascii String Lia Sorted.
From stdpp Require Import gmap list strings.

Local Open Scope string_scope.

(** ** Data *)

(** Source: internal/policy/types.go:10-10, [EffectAllow]. *)
Definition EffectAllow : string := "allow".
(** Source: internal/policy/types.go:12-12, [EffectDeny]. *)
Definition EffectDeny : string := "deny".

(** A Go [[]string]: [None] is the nil slice, which has no elements but is not the empty one to
    a database or in JSON. *)
Abbreviation slice := (option (list string)).

(** What a loop over a slice visits. *)
Definition elems (s : slice) : list string := default [] s.

(** Source: internal/policy/types.go, [Policy]. *)
Record Policy := mkPolicy {
  p_ID : Z;
  p_TenantID : string;
  p_Name : string;
  p_Description : string;
  p_Effect : string;
  p_Actions : slice;
  p_Resources : slice;
  p_Subjects : slice;
  p_Conditions : gmap string gval;
  p_Priority : Z;
  p_Enabled : bool;
  p_CreatedAt : time;
  p_UpdatedAt : time;
}.

#[global] Instance Policy_eq_dec : EqDecision Policy.
Proof. solve_decision. Defined.

(** Source: internal/policy/engine.go, [EvaluationInput]. *)
Record EvaluationInput := mkInput {
  in_TenantID : string;
  in_Subject : string;
  in_ActingOnBehalfOf : string;
  in_Scope : list string;
  in_Claims : claims_map;
  in_Resource : string;
  in_Action : string;
  in_Context : claims_map;
}.

(** Source: internal/policy/engine.go, [EvaluationResult]. *)
Record EvaluationResult := mkResult {
  er_Allow : bool;
  er_Reason : string;
  er_PolicyID : option Z;
}.

#[global] Instance EvaluationResult_eq_dec : EqDecision EvaluationResult.
Proof. solve_decision. Defined.

(** How a call can fail to return: with an error value, or with a run-time panic. *)
Inductive fault :=
| Failed (e : error)
| Panic.

#[global] Instance fault_eq_dec : EqDecision fault.
Proof. solve_decision. Defined.

(** ** Matching one policy *)

(** Source: internal/policy/engine_impl.go, [matchesResource]. *)
Definition matchesResource (p : Policy) (resource : string) : bool :=
  existsb (fun r => bool_decide (r = resource)
                    || (has_suffix r "*" && has_prefix resource (trim_suffix r "*"))) (elems (p_Resources p)).

(** Source: internal/policy/engine_impl.go, [hasRole]. *)
Definition hasRole (claims : claims_map) (role : string) : bool :=
  match claim claims "roles" with
  | Some (VStrs v) => existsb (fun r => bool_decide (r = role)) v
  | Some (VArr v) =>
      existsb (fun item => match as_string item with
                           | Some str => bool_decide (str = role)
                           | None => false
                           end) v
  | _ => false
  end.

(** Source: internal/policy/engine_impl.go, [matchesSubject]. *)
Definition matchesSubject (p : Policy) (subject : string) (claims : claims_map) : bool :=
  existsb (fun s =>
    bool_decide (s = "any") || bool_decide (s = subject)
    || (has_prefix s "role:"
        && (let role := trim_prefix s "role:" in
            negb (bool_decide (role = "")) && hasRole claims role)))
    (elems (p_Subjects p)).

Definition in_list (s : string) (l : list string) : bool := existsb (fun x => bool_decide (x = s)) l.

(** Source: internal/policy/engine_impl.go, [scopeContains]. *)
Definition scopeContains (scope : list string) (value : gval) : bool :=
  match value with
  | VStr v => in_list v scope
  | VArr v => forallb (fun item => match as_string item with
                                   | Some str => in_list str scope
                                   | None => true
                                   end) v
  | VStrs v => forallb (fun str => in_list str scope) v
  | _ => false
  end.

(** [a == b] on two [interface{}] values. *)
Definition interface_eq (a b : gval) : result fault bool :=
  match a, b with
  | VStrs _, VStrs _ | VArr _, VArr _ | VObj _, VObj _ => Err Panic
  | VFloat x, VFloat y => Ok (float_eqb x y)
  | _, _ => Ok (bool_decide (a = b))
  end.

(** Source: internal/policy/engine_impl.go, [claimEquals]. *)
Definition claimEquals (claims : claims_map) (key : string) (expected : gval) : result fault bool :=
  match claim claims key with
  | None => Ok false
  | Some val =>
      match expected with
      | VStr exp => Ok (bool_decide (val = VStr exp))
      | VFloat exp =>
          match val with
          | VFloat actual => Ok (float_eqb actual exp)
          | VInt actual => Ok (float_eqb (float_of_Z actual) exp)
          | _ => Ok false
          end
      | VInt exp =>
          match val with
          | VInt actual => Ok (bool_decide (actual = exp))
          | VFloat actual => Ok (bool_decide (int_of_float actual = exp))
          | _ => Ok false
          end
      | _ => interface_eq val expected
      end
  end.

Section engine.
Context `{Unicode}.
(** The order in which a Go map's entries are visited. *)
Variable order : gmap string gval -> list (string * gval).

(** Source: internal/policy/engine_impl.go, [matchesAction]. *)
Definition matchesAction (p : Policy) (action : string) : bool :=
  existsb (fun a => equal_fold a action) (elems (p_Actions p)).

(** The loop over the claims of a [claim_equals] condition.
    Source: internal/policy/engine_impl.go:172-176, [matchesConditions]. *)
Fixpoint claims_equal (claims : claims_map) (conds : list (string * gval)) : result fault bool :=
  match conds with
  | [] => Ok true
  | (k, v) :: conds' =>
      let! ok := claimEquals claims k v in
      if ok then claims_equal claims conds' else Ok false
  end.

(** One condition of a policy.
    Source: internal/policy/engine_impl.go:162-179, [matchesConditions]. *)
Definition matches_condition (input : EvaluationInput) (key : string) (val : gval) : result fault bool :=
  if bool_decide (key = "scope_contains") then Ok (scopeContains (in_Scope input) val)
  else if bool_decide (key = "claim_equals") then
    match val with
    | VObj condMap => claims_equal (in_Claims input) (order condMap)
    | _ => Ok false
    end
  else Ok false.

(** Source: internal/policy/engine_impl.go:161-181, [matchesConditions]. *)
Fixpoint conditions_loop (input : EvaluationInput) (conds : list (string * gval)) : result fault bool :=
  match conds with
  | [] => Ok true
  | (key, val) :: conds' =>
      let! ok := matches_condition input key val in
      if ok then conditions_loop input conds' else Ok false
  end.

(** Source: internal/policy/engine_impl.go, [matchesConditions]. *)
Definition matchesConditions (p : Policy) (input : EvaluationInput) : result fault bool :=
  conditions_loop input (order (p_Conditions p)).

(** The tests that precede the conditions.
    Source: internal/policy/engine_impl.go:65-76, [filterMatchingPolicies]. *)
Definition applies (p : Policy) (input : EvaluationInput) : bool :=
  p_Enabled p && matchesAction p (in_Action input) && matchesResource p (in_Resource input)
  && matchesSubject p (in_Subject input) (in_Claims input).

(** Source: internal/policy/engine_impl.go, [filterMatchingPolicies]. *)
Fixpoint filterMatchingPolicies (policies : list Policy) (input : EvaluationInput)
  : result fault (list Policy) :=
  match policies with
  | [] => Ok []
  | p :: policies' =>
      let! m := (if applies p input then matchesConditions p input else Ok false) in
      let! rest := filterMatchingPolicies policies' input in
      Ok (if m then p :: rest else rest)
  end.

(** The order of [sort.SliceStable].
    Source: internal/policy/engine_impl.go:36-41, [EngineV1.Evaluate]. *)
Definition policy_less (p q : Policy) : bool :=
  if (p_Priority p =? p_Priority q)%Z then (p_ID p <? p_ID q)%Z
  else (p_Priority p <? p_Priority q)%Z.

(** Source: internal/policy/engine_impl.go:46-46, [EngineV1.Evaluate]. *)
Definition is_deny (p : Policy) : bool := equal_fold (p_Effect p) EffectDeny.
(** Source: internal/policy/engine_impl.go:49-49, [EngineV1.Evaluate]. *)
Definition is_allow (p : Policy) : bool := equal_fold (p_Effect p) EffectAllow.

(** The loop over the sorted matches, and what follows it.
    Source: internal/policy/engine_impl.go:43-58, [EngineV1.Evaluate]. *)
Fixpoint decide_loop (allowPolicy : option Policy) (matching : list Policy) : EvaluationResult :=
  match matching with
  | [] =>
      match allowPolicy with
      | Some p => mkResult true "policy_allow" (Some (p_ID p))
      | None => mkResult false "no_allowing_policy" None
      end
  | p :: matching' =>
      if is_deny p then mkResult false "policy_deny" (Some (p_ID p))
      else decide_loop
             (if is_allow p && bool_decide (allowPolicy = None) then Some p else allowPolicy)
             matching'
  end.

(** Source: internal/policy/engine_impl.go:32-58, [EngineV1.Evaluate]. *)
Definition decide_matching (matching : list Policy) : EvaluationResult :=
  if bool_decide (matching = []) then mkResult false "no_matching_policy" None
  else decide_loop None (sort_by policy_less matching).

(** [list] is the store's [ListPoliciesForTenant]; [None] is a nil engine or store.
    Source: internal/policy/engine_impl.go, [EngineV1.Evaluate]. *)
Definition EngineV1_Evaluate (list : option (string -> result error (list Policy)))
    (input : EvaluationInput) : result fault EvaluationResult :=
  match list with
  | None => Err (Failed (ErrText "policy store not configured"))
  | Some list =>
      let! policies := map_err Failed (list (in_TenantID input)) in
      let! matching := filterMatchingPolicies policies input in
      Ok (decide_matching matching)
  end.
End engine.

(** Source: internal/policy/engine_noop.go, [NoOpEngine.Evaluate]. *)
Definition NoOpEngine_Evaluate (input : EvaluationInput) : result fault EvaluationResult :=
  Ok (mkResult true "allow_all" None).

(** What the rest of the service knows of an engine: a function of the input.
    Source: internal/policy/engine.go, [Engine]. *)
Class Engine := Evaluate : EvaluationInput -> result fault EvaluationResult.
