(* ===== verification/PolicyFacts.v ===== *)
(** * What the policy engine decides. *)

From S2P Require Import Prelude GoStrings GoTime Errors Values Crypto Credential Instances Policy.
From Stdlib Require Import ZArith Ascii String Lia Sorted.
From stdpp Require Import gmap list strings.

Local Open Scope string_scope.

(** ** Specification *)

(** A condition of a policy holds of a request. *)
Definition condition_holds (input : EvaluationInput) (key : string) (val : gval) : Prop :=
  (key = "scope_contains" /\ scopeContains (in_Scope input) val = true) \/
  (key = "claim_equals" /\ exists m, val = VObj m /\
     forall k v, m !! k = Some v -> claimEquals (in_Claims input) k v = Ok true).

(** A policy speaks about a request. *)
Definition applicable `{Unicode} (input : EvaluationInput) (p : Policy) : Prop :=
  applies p input = true /\ forall key val, p_Conditions p !! key = Some val -> condition_holds input key val.

(** Priority first, then age: the order in which policies are considered. *)
Definition policy_le (p q : Policy) : Prop :=
  (p_Priority p < p_Priority q \/ (p_Priority p = p_Priority q /\ p_ID p <= p_ID q))%Z.

(** The decision a set of matching policies stands for: deny overrides allow, and no
    match is a denial; the policy named is the first of its kind. *)
Inductive decided `{Unicode} (matching : Policy -> Prop) : EvaluationResult -> Prop :=
| decided_nothing :
    (forall p, ~ matching p) -> decided matching (mkResult false "no_matching_policy" None)
| decided_deny p :
    matching p -> is_deny p = true -> (forall q, matching q -> is_deny q = true -> policy_le p q) ->
    decided matching (mkResult false "policy_deny" (Some (p_ID p)))
| decided_allow p :
    (forall q, matching q -> is_deny q = false) ->
    matching p -> is_allow p = true -> (forall q, matching q -> is_allow q = true -> policy_le p q) ->
    decided matching (mkResult true "policy_allow" (Some (p_ID p)))
| decided_neither p :
    matching p -> (forall q, matching q -> is_deny q = false /\ is_allow q = false) ->
    decided matching (mkResult false "no_allowing_policy" None).

(** ** Matching *)

(** Every iteration order visits exactly the entries. *)
Definition iterates (order : gmap string gval -> list (string * gval)) : Prop :=
  forall m, order m ≡ₚ map_to_list m.

Lemma iterates_elem order m k v : iterates order -> (k, v) ∈ order m <-> m !! k = Some v.
Proof. intros Ho. by rewrite (Ho m), elem_of_map_to_list. Qed.

Section matching.
Context `{Unicode} (order : gmap string gval -> list (string * gval)) (Horder : iterates order).

Lemma claims_equal_true claims conds :
  claims_equal claims conds = Ok true <-> (forall k v, (k, v) ∈ conds -> claimEquals claims k v = Ok true).
Proof.
  induction conds as [|[k v] conds IH]; cbn.
  - split; [|done]. intros _ k v Hkv. by apply elem_of_nil in Hkv.
  - split.
    + intros Hc. apply rbind_Ok in Hc as (b & Hb & Hc). destruct b; [|done].
      intros k' v' [[= -> ->]|Hin]%elem_of_cons; [done|]. by apply IH.
    + intros Hall. rewrite (Hall k v) by left. cbn. apply IH. intros k' v' Hin. apply Hall. by right.
Qed.

Lemma matches_condition_true input key val :
  matches_condition order input key val = Ok true <-> condition_holds input key val.
Proof.
  unfold matches_condition, condition_holds. case_bool_decide as Hs; [|case_bool_decide as Hc].
  - subst. split; [intros [= Hsc]; by left|]. intros [[_ ->]|[? _]]; done.
  - subst. split.
    + destruct val; try done. rewrite claims_equal_true. intros Hall. right. split; [done|].
      eexists. split; [done|]. intros k v Hkv. apply Hall. by apply iterates_elem.
    + intros [[? _]|(_ & m & -> & Hall)]; [done|]. apply claims_equal_true.
      intros k v Hkv. apply Hall. by apply iterates_elem in Hkv.
  - split; [done|]. by intros [[? _]|[? _]].
Qed.

Lemma conditions_loop_true input conds :
  conditions_loop order input conds = Ok true <->
  (forall k v, (k, v) ∈ conds -> matches_condition order input k v = Ok true).
Proof.
  induction conds as [|[k v] conds IH]; cbn.
  - split; [|done]. intros _ k v Hkv. by apply elem_of_nil in Hkv.
  - split.
    + intros Hc. apply rbind_Ok in Hc as (b & Hb & Hc). destruct b; [|done].
      intros k' v' [[= -> ->]|Hin]%elem_of_cons; [done|]. by apply IH.
    + intros Hall. rewrite (Hall k v) by left. cbn. apply IH. intros k' v' Hin. apply Hall. by right.
Qed.

(** What the engine tests of one policy. *)
Definition match_policy (input : EvaluationInput) (p : Policy) : result fault bool :=
  if applies p input then matchesConditions order p input else Ok false.

Lemma match_policy_true input p : match_policy input p = Ok true <-> applicable input p.
Proof.
  unfold match_policy, applicable, matchesConditions. destruct (applies p input); [|naive_solver].
  rewrite conditions_loop_true. setoid_rewrite matches_condition_true. split.
  - intros Hall. split; [done|]. intros k v Hkv. apply Hall. by apply iterates_elem.
  - intros [_ Hall] k v Hkv. apply Hall. by apply iterates_elem in Hkv.
Qed.

Lemma filterMatchingPolicies_Ok ps input ms :
  filterMatchingPolicies order ps input = Ok ms ->
  ms = filter (fun p => match_policy input p = Ok true) ps.
Proof.
  revert ms. induction ps as [|p ps IH]; intros ms; cbn [filterMatchingPolicies]; [by intros [= <-]|].
  intros Hf. apply rbind_Ok in Hf as (b & Hb & Hf). apply rbind_Ok in Hf as (rest & Hr & [= <-]).
  apply IH in Hr as ->. fold (match_policy input p) in Hb. rewrite filter_cons, Hb.
  destruct b; case_decide; congruence.
Qed.

(** Without a run-time panic on any policy, the filter returns. *)
Lemma filterMatchingPolicies_returns ps input :
  Forall (fun p => is_ok (match_policy input p) = true) ps ->
  filterMatchingPolicies order ps input = Ok (filter (fun p => match_policy input p = Ok true) ps).
Proof.
  intros Hok. destruct (filterMatchingPolicies order ps input) as [ms|f] eqn:Hf;
    [by apply filterMatchingPolicies_Ok in Hf as ->|exfalso].
  revert f Hf. induction Hok as [|p ps Hp _ IH]; intros f; cbn [filterMatchingPolicies]; [done|].
  fold (match_policy input p). destruct (match_policy input p) as [b|]; [|done]. cbn.
  destruct (filterMatchingPolicies order ps input); [done|]. intros _. by eapply IH.
Qed.
End matching.

(** ** Deciding *)

Section deciding.
Context `{Unicode}.

Lemma policy_not_after p q : not_after policy_less p q <-> policy_le p q.
Proof.
  unfold not_after, policy_less, policy_le. destruct (p_Priority q =? p_Priority p)%Z eqn:E; breflect.
  - rewrite Z.ltb_ge. lia.
  - rewrite Z.ltb_ge. lia.
Qed.

Lemma policy_le_trans p q r : policy_le p q -> policy_le q r -> policy_le p r.
Proof. unfold policy_le. lia. Qed.

Lemma policies_sorted l : StronglySorted policy_le (sort_by policy_less l).
Proof.
  eapply StronglySorted_weaken; [intros x y; apply policy_not_after|].
  apply sort_by_sorted.
  - intros p q r. rewrite !policy_not_after. apply policy_le_trans.
  - intros p q. rewrite policy_not_after. unfold policy_less, policy_le.
    destruct (p_Priority p =? p_Priority q)%Z eqn:E; breflect; intros; breflect; lia.
Qed.

(** The loop, on any list: the first deny, else the first allow. *)
Lemma decide_loop_spec a l :
  decide_loop a l =
  match list_find (fun p => is_deny p = true) l with
  | Some (_, p) => mkResult false "policy_deny" (Some (p_ID p))
  | None =>
      match a, list_find (fun p => is_allow p = true) l with
      | Some p, _ | None, Some (_, p) => mkResult true "policy_allow" (Some (p_ID p))
      | None, None => mkResult false "no_allowing_policy" None
      end
  end.
Proof.
  revert a. induction l as [|p l IH]; intros a; cbn [decide_loop list_find]; [by destruct a|].
  destruct (is_deny p) eqn:Hd; [by rewrite decide_True|].
  rewrite decide_False by congruence. rewrite IH.
  destruct (list_find (fun p => is_deny p = true) l) as [[? ?]|]; [done|]. cbn.
  destruct a as [a|]; cbn; [by rewrite andb_false_r|]. rewrite andb_true_r.
  destruct (is_allow p) eqn:Ha; [by rewrite decide_True|]. rewrite decide_False by congruence.
  by destruct (list_find (fun p => is_allow p = true) l) as [[? ?]|].
Qed.

(** In a sorted list, what is found first is least. *)
Lemma sorted_find_least (P : Policy -> Prop) `{!forall p, Decision (P p)} l i p q :
  StronglySorted policy_le l -> list_find P l = Some (i, p) -> q ∈ l -> P q -> policy_le p q.
Proof.
  intros Hs. revert i. induction Hs as [|x l Hl IH Hx]; intros i; cbn; [done|].
  case_decide as HP.
  - intros [= <- <-] [->|Hq]%elem_of_cons _; [unfold policy_le; lia|].
    by eapply Forall_forall in Hx.
  - intros Hf [->|Hq]%elem_of_cons HPq; [done|].
    destruct (list_find P l) as [[j y]|]; [|done]. cbn in Hf. injection Hf as <- <-. by eapply IH.
Qed.

Lemma decide_matching_decided ms : decided (fun p => p ∈ ms) (decide_matching ms).
Proof.
  unfold decide_matching. case_bool_decide as Hne.
  { subst. apply decided_nothing. intros p Hp. by apply elem_of_nil in Hp. }
  rewrite decide_loop_spec. pose proof (policies_sorted ms) as Hs.
  pose proof (sort_by_perm policy_less ms) as Hp. set (l := sort_by policy_less ms) in *.
  assert (Hin : forall p, p ∈ ms <-> p ∈ l) by (intros p; by rewrite Hp).
  destruct (list_find (fun p => is_deny p = true) l) as [[i p]|] eqn:Hd.
  - apply list_find_Some in Hd as Hd'. destruct Hd' as (Hi & Hpd & _).
    apply decided_deny; [apply Hin; by eapply list_elem_of_lookup_2|done|].
    intros q Hq%Hin Hqd. by eapply sorted_find_least.
  - apply list_find_None in Hd. rewrite Forall_forall in Hd.
    assert (Hnd : forall q, q ∈ ms -> is_deny q = false)
      by (intros q Hq%Hin; apply Hd in Hq; by destruct (is_deny q)).
    destruct (list_find (fun p => is_allow p = true) l) as [[i p]|] eqn:Ha.
    + apply list_find_Some in Ha as Ha'. destruct Ha' as (Hi & Hpa & _).
      apply decided_allow; [done|apply Hin; by eapply list_elem_of_lookup_2|done|].
      intros q Hq%Hin Hqa. by eapply sorted_find_least.
    + apply list_find_None in Ha. rewrite Forall_forall in Ha.
      destruct ms as [|p ms]; [done|]. apply (decided_neither _ p); [left|].
      intros q Hq. split; [by apply Hnd|]. apply Hin, Ha in Hq. by destruct (is_allow q).
Qed.

Lemma decided_equiv (P Q : Policy -> Prop) r : (forall p, P p <-> Q p) -> decided P r -> decided Q r.
Proof.
  intros HPQ Hr. assert (HQP : forall p, Q p -> P p) by (intros p; apply HPQ).
  destruct Hr as [Hn|p Hp Hd Hl|p Hnd Hp Ha Hl|p Hp Hn].
  - apply decided_nothing. intros p Hq. by apply (Hn p), HQP.
  - apply decided_deny; [by apply HPQ|done|]. auto.
  - apply decided_allow; [auto|by apply HPQ|done|]. auto.
  - apply (decided_neither _ p); [by apply HPQ|]. auto.
Qed.
End deciding.

(** The specification determines the decision. *)
Lemma decided_unique `{Unicode} (P : Policy -> Prop) r r' : decided P r -> decided P r' -> r = r'.
Proof.
  intros [Hn|p Hp Hd Hl|p Hnd Hp Ha Hl|p Hp Hn] [Hn'|q Hq Hd' Hl'|q Hnd' Hq Ha' Hl'|q Hq Hn'];
    try done; try (by exfalso; eapply Hn); try (by exfalso; eapply Hn').
  - specialize (Hl q Hq Hd'). specialize (Hl' p Hp Hd). unfold policy_le in *. do 2 f_equal. lia.
  - apply Hnd' in Hp. congruence.
  - apply Hn' in Hp as [? ?]. congruence.
  - apply Hnd in Hq. congruence.
  - specialize (Hl q Hq Ha'). specialize (Hl' p Hp Ha). unfold policy_le in *. do 2 f_equal. lia.
  - apply Hn' in Hp as [? ?]. congruence.
  - apply Hn in Hq as [? ?]. congruence.
  - apply Hn in Hq as [? ?]. congruence.
Qed.

(** ** Panics *)

(** A value two of which can be compared. *)
Definition scalar (v : gval) : bool :=
  match v with VStrs _ | VArr _ | VObj _ => false | _ => true end.

Definition scalar_conditions (p : Policy) : Prop :=
  forall m k v, p_Conditions p !! "claim_equals" = Some (VObj m) -> m !! k = Some v -> scalar v = true.

Lemma claimEquals_scalar claims k v : scalar v = true -> is_ok (claimEquals claims k v) = true.
Proof.
  unfold claimEquals. destruct (claim claims k) as [w|]; [|done].
  by destruct v; try done; destruct w.
Qed.

Section panics.
Context `{Unicode} (order : gmap string gval -> list (string * gval)) (Horder : iterates order).

Lemma claims_equal_scalar claims conds :
  Forall (fun kv => scalar kv.2 = true) conds -> is_ok (claims_equal claims conds) = true.
Proof.
  induction 1 as [|[k v] conds Hv _ IH]; cbn; [done|].
  pose proof (claimEquals_scalar claims k v Hv). by destruct (claimEquals claims k v) as [[]|].
Qed.

Lemma match_policy_scalar input p :
  scalar_conditions p -> is_ok (match_policy order input p) = true.
Proof.
  intros Hs. unfold match_policy, matchesConditions. destruct (applies p input); [|done].
  assert (Hall : Forall (fun kv => is_ok (matches_condition order input kv.1 kv.2) = true)
                   (order (p_Conditions p))).
  { apply Forall_forall. intros [k v] Hkv. apply iterates_elem in Hkv; [|done]. cbn.
    unfold matches_condition. case_bool_decide; [done|]. case_bool_decide; [|done]. subst.
    destruct v; try done. apply claims_equal_scalar, Forall_forall. intros [k v] Hv. cbn.
    apply iterates_elem in Hv; [|done]. by eapply Hs. }
  induction Hall as [|[k v] conds Hkv _ IH]; cbn; [done|]. cbn in Hkv.
  by destruct (matches_condition order input k v) as [[]|].
Qed.
End panics.

(** The request is allowed when some matching policy allows it and none denies it. *)
Lemma decided_allows `{Unicode} matching r :
  decided matching r ->
  er_Allow r = true <-> (exists p, matching p /\ is_allow p = true) /\ forall q, matching q -> is_deny q = false.
Proof.
  intros [Hno|p Hp Hd _|p Hno Hp Ha _|p Hp Hno]; cbn.
  - split; [done|]. intros [(p & Hp & _) _]. by apply Hno in Hp.
  - split; [done|]. intros [_ Hq]. apply Hq in Hp. congruence.
  - split; [|done]. intros _. split; [by exists p|done].
  - split; [done|]. intros [(q & Hq & Ha) _]. apply Hno in Hq as [_ Hq]. congruence.
Qed.

(** ** Properties *)

Section properties.
Context `{Unicode}.

(** C20: The engine decides as its specification says, from the enabled policies of the
    tenant whose actions, resources, subjects and conditions all match: any matching
    deny refuses and the one of least priority and id is named; otherwise a matching
    allow permits; otherwise, and when nothing matches, the request is refused. *)
Theorem engine_decides order list input r :
  iterates order -> EngineV1_Evaluate order (Some list) input = Ok r ->
  exists policies, list (in_TenantID input) = Ok policies /\
    decided (fun p => p ∈ policies /\ applicable input p) r.
Proof.
  intros Ho Hr. unfold EngineV1_Evaluate in Hr. bind_inv Hr as ps Hps. bind_inv Hr as ms Hms.
  injection Hr as <-. ok_simp Hps. exists ps. split; [done|].
  apply filterMatchingPolicies_Ok in Hms as ->.
  eapply decided_equiv, decide_matching_decided. intros p.
  rewrite list_elem_of_filter, match_policy_true by done. tauto.
Qed.

(** C21: The decision does not depend on the order in which the store lists the
    policies, nor on the order in which the conditions are visited. *)
Theorem engine_order_independent order order' list list' input ps ps' r r' :
  iterates order -> iterates order' ->
  list (in_TenantID input) = Ok ps -> list' (in_TenantID input) = Ok ps' ->
  (forall p, p ∈ ps <-> p ∈ ps') ->
  EngineV1_Evaluate order (Some list) input = Ok r ->
  EngineV1_Evaluate order' (Some list') input = Ok r' -> r = r'.
Proof.
  intros Ho Ho' Hl Hl' Hps Hr Hr'. unfold EngineV1_Evaluate in Hr, Hr'. rewrite Hl in Hr. rewrite Hl' in Hr'.
  cbn [map_err rbind] in Hr, Hr'. bind_inv Hr as ms Hms. bind_inv Hr' as ms' Hms'.
  injection Hr as <-. injection Hr' as <-.
  apply filterMatchingPolicies_Ok in Hms as ->, Hms' as ->.
  eapply decided_unique; [apply decide_matching_decided|].
  eapply decided_equiv, decide_matching_decided. intros p.
  by rewrite !list_elem_of_filter, !match_policy_true, Hps.
Qed.

(** C22: With conditions on strings, numbers, booleans and nulls the engine always returns
    a decision; a single applicable policy whose condition compares a claim with a list,
    when the claim is a list, makes it panic. *)
Theorem engine_returns order list input ps :
  iterates order -> list (in_TenantID input) = Ok ps ->
  (Forall scalar_conditions ps -> exists r, EngineV1_Evaluate order (Some list) input = Ok r)
  /\ (forall p k l l', ps = [p] -> applies p input = true ->
        p_Conditions p = {["claim_equals" := VObj {[k := VArr l]}]} ->
        claim (in_Claims input) k = Some (VArr l') ->
        EngineV1_Evaluate order (Some list) input = Err Panic).
Proof.
  intros Ho Hl. unfold EngineV1_Evaluate. rewrite Hl. cbn [map_err rbind]. split.
  - intros Hs. rewrite filterMatchingPolicies_returns; [cbn; eauto|].
    eapply Forall_impl; [exact Hs|]. intros p Hp. by apply match_policy_scalar.
  - intros p k l l' -> Ha Hc Hcl. cbn [filterMatchingPolicies]. rewrite Ha.
    unfold matchesConditions. rewrite Hc.
    assert (Hsing : forall (k : string) (v : gval), order {[k := v]} = [(k, v)]).
    { intros k' v. apply Permutation_singleton_r. by rewrite (Ho _), map_to_list_singleton. }
    rewrite Hsing. cbn [conditions_loop]. unfold matches_condition.
    rewrite bool_decide_eq_false_2, bool_decide_eq_true_2, Hsing by done. cbn [claims_equal].
    unfold claimEquals. by rewrite Hcl.
Qed.
End properties.

(** ** Instances *)

Definition allow_read : Policy :=
  mkPolicy 1 "acme" "readers" "" "allow" (Some ["read"]) (Some ["docs/*"]) (Some ["role:dev"])
    {["scope_contains" := VStr "read"]} 100 true 0 0.
Definition deny_secret : Policy :=
  mkPolicy 2 "acme" "no secrets" "" "Deny" (Some ["read"]) (Some ["docs/secret"]) (Some ["any"]) ∅ 200 true 0 0.
Definition acme_policies (tenant : string) : result error (list Policy) := Ok [allow_read; deny_secret].
Definition read_docs (resource : string) : EvaluationInput :=
  mkInput "acme" "did:ex:bob" "" ["read"] (Some {["roles" := VArr [VStr "dev"]]}) resource "READ" None.

Lemma iterates_map_to_list : iterates map_to_list.
Proof. by intros m. Qed.

Lemma engine_decides_witness :
  EngineV1_Evaluate map_to_list (Some acme_policies) (read_docs "docs/a")
    = Ok (mkResult true "policy_allow" (Some 1%Z))
  /\ EngineV1_Evaluate map_to_list (Some acme_policies) (read_docs "docs/secret")
    = Ok (mkResult false "policy_deny" (Some 2%Z))
  /\ decided (fun p => p ∈ [allow_read; deny_secret] /\ applicable (read_docs "docs/secret") p)
       (mkResult false "policy_deny" (Some 2%Z)).
Proof.
  split; [vm_compute; reflexivity|]. split; [vm_compute; reflexivity|].
  destruct (engine_decides map_to_list acme_policies (read_docs "docs/secret")
    (mkResult false "policy_deny" (Some 2%Z)) iterates_map_to_list) as (ps & Hps & Hd).
  - vm_compute. reflexivity.
  - injection Hps as <-. exact Hd.
Defined.

Definition decision_of (ps : list Policy) (resource : string) : EvaluationResult :=
  default (mkResult false "" None)
    (to_option (EngineV1_Evaluate map_to_list (Some (fun _ => Ok ps)) (read_docs resource))).

Lemma engine_order_independent_witness :
  decision_of [allow_read; deny_secret] "docs/secret" = decision_of [deny_secret; allow_read] "docs/secret".
Proof.
  apply (engine_order_independent map_to_list map_to_list (fun _ => Ok [allow_read; deny_secret])
    (fun _ => Ok [deny_secret; allow_read]) (read_docs "docs/secret")
    [allow_read; deny_secret] [deny_secret; allow_read]);
    [apply iterates_map_to_list|apply iterates_map_to_list|reflexivity|reflexivity| | | ].
  - intros p. rewrite !elem_of_cons. tauto.
  - vm_compute. reflexivity.
  - vm_compute. reflexivity.
Defined.

Definition list_condition : Policy :=
  mkPolicy 3 "acme" "same roles" "" "allow" (Some ["read"]) (Some ["*"]) (Some ["any"])
    {["claim_equals" := VObj {["roles" := VArr [VStr "dev"]]}]} 100 true 0 0.

Lemma engine_returns_witness :
  (exists r, EngineV1_Evaluate map_to_list (Some acme_policies) (read_docs "docs/a") = Ok r)
  /\ EngineV1_Evaluate map_to_list (Some (fun _ => Ok [list_condition])) (read_docs "docs/a") = Err Panic.
Proof.
  split.
  - apply (engine_returns map_to_list acme_policies (read_docs "docs/a") [allow_read; deny_secret]
             iterates_map_to_list); [reflexivity|].
    repeat constructor; intros m k v Hc; vm_compute in Hc; discriminate.
  - eapply (engine_returns map_to_list (fun _ => Ok [list_condition]) (read_docs "docs/a") [list_condition]
             iterates_map_to_list); [reflexivity|reflexivity|vm_compute; reflexivity|reflexivity|].
    vm_compute. reflexivity.
Defined.
