(* ===== verification/PolicyStore.v ===== *)
(** * The policy store.

    Models internal/policy/store.go (the interface, a class) and store_memory.go (the
    in-memory implementation, an instance with its laws).  A method that locks the
    store is one atomic step on its state; a failing method leaves it unchanged. *)

From S2P Require Import Prelude GoStrings GoTime Errors Values Crypto Credential Instances Policy.
From S2P Require Import PolicyFacts.
From Stdlib Require Import ZArith Ascii String Lia Sorted.
From stdpp Require Import gmap list strings.

Local Open Scope string_scope.

(** ** The interface *)

(** Source: internal/policy/store.go, [Store]. *)
Class PolicyStore (St : Type) := {
  ListPoliciesForTenant : St -> string -> result error (list Policy);
  CreatePolicy : St -> time -> option Policy -> result error (Policy * St);
  UpdatePolicy : St -> time -> option Policy -> result error (Policy * St);
  GetPolicy : St -> string -> Z -> result error Policy;
  DeletePolicy : St -> string -> Z -> result error St;
}.

Definition with_stamp (id : Z) (created updated : time) (p : Policy) : Policy :=
  mkPolicy id (p_TenantID p) (p_Name p) (p_Description p) (p_Effect p) (p_Actions p) (p_Resources p)
    (p_Subjects p) (p_Conditions p) (p_Priority p) (p_Enabled p) created updated.

(** What a store promises: it behaves like a table per tenant, keyed by id. *)
Class PolicyStoreLaws (St : Type) `{PolicyStore St} := {
  (** the states the store can be in, and whether an id is left *)
  store_ok : St -> Prop;
  store_room : St -> Prop;
  table : St -> string -> gmap Z Policy;

  table_keys s t id p : store_ok s -> table s t !! id = Some p -> p_ID p = id /\ p_TenantID p = t;

  list_law s t : store_ok s ->
    exists l, ListPoliciesForTenant s t = Ok l /\ l ≡ₚ (map_to_list (table s t)).*2
      /\ StronglySorted policy_le l;

  create_law s now p : store_ok s -> store_room s -> p_TenantID p <> "" ->
    exists id s', (forall t, table s t !! id = None) /\
      let p' := with_stamp id (if is_zero (p_CreatedAt p) then now else p_CreatedAt p) now p in
      CreatePolicy s now (Some p) = Ok (p', s') /\ store_ok s'
      /\ forall t, table s' t = if decide (t = p_TenantID p) then <[id := p']> (table s t) else table s t;

  update_law s now p : store_ok s -> p_TenantID p <> "" ->
    match table s (p_TenantID p) !! p_ID p with
    | None => UpdatePolicy s now (Some p) = Err (ErrVar ErrPolicyNotFound)
    | Some old => exists s',
        let p' := with_stamp (p_ID p) (if is_zero (p_CreatedAt p) then p_CreatedAt old else p_CreatedAt p)
                    now p in
        UpdatePolicy s now (Some p) = Ok (p', s') /\ store_ok s'
        /\ forall t, table s' t =
             if decide (t = p_TenantID p) then <[p_ID p := p']> (table s t) else table s t
    end;

  get_law s t id : store_ok s ->
    GetPolicy s t id = of_option (ErrVar ErrPolicyNotFound) (table s t !! id);

  delete_law s t id : store_ok s ->
    match table s t !! id with
    | None => DeletePolicy s t id = Err (ErrVar ErrPolicyNotFound)
    | Some _ => exists s', DeletePolicy s t id = Ok s' /\ store_ok s'
        /\ forall t', table s' t' = if decide (t' = t) then delete id (table s t') else table s t'
    end;
}.

(** ** The in-memory store *)

Module Memory.

(** Source: internal/policy/store_memory.go, [MemoryStore]. *)
Record MemoryStore := mkMemory {
  policies : gmap string (gmap Z Policy);
  nextID : Z;
}.

(** Source: internal/policy/store_memory.go, [NewMemoryStore]. *)
Definition NewMemoryStore : MemoryStore := mkMemory ∅ 1.

(** Source: internal/policy/store_memory.go, [MemoryStore.ListPoliciesForTenant]. *)
Definition ListPoliciesForTenant (m : MemoryStore) (tenantID : string) : result error (list Policy) :=
  match policies m !! tenantID with
  | None => Ok []
  | Some tenantPolicies => Ok (sort_by policy_less (map_to_list tenantPolicies).*2)
  end.

(** Source: internal/policy/store_memory.go, [MemoryStore.CreatePolicy]. *)
Definition CreatePolicy (m : MemoryStore) (now : time) (p : option Policy)
  : result error (Policy * MemoryStore) :=
  let! p := of_option (ErrText "policy is nil") p in
  stop! bool_decide (p_TenantID p = "") with ErrText "tenant_id is required" in
  let tenantPolicies := default ∅ (policies m !! p_TenantID p) in
  let p' := with_stamp (nextID m) (if is_zero (p_CreatedAt p) then now else p_CreatedAt p) now p in
  Ok (p', mkMemory (<[p_TenantID p := <[p_ID p' := p']> tenantPolicies]> (policies m))
            (wrap64 (nextID m + 1))).

(** Source: internal/policy/store_memory.go, [MemoryStore.UpdatePolicy]. *)
Definition UpdatePolicy (m : MemoryStore) (now : time) (p : option Policy)
  : result error (Policy * MemoryStore) :=
  let! p := of_option (ErrText "policy is nil") p in
  stop! bool_decide (p_TenantID p = "") with ErrText "tenant_id is required" in
  let tenantPolicies := default ∅ (policies m !! p_TenantID p) in
  let! existing := of_option (ErrVar ErrPolicyNotFound) (tenantPolicies !! p_ID p) in
  let p' := with_stamp (p_ID p) (if is_zero (p_CreatedAt p) then p_CreatedAt existing else p_CreatedAt p)
              now p in
  Ok (p', mkMemory (<[p_TenantID p := <[p_ID p := p']> tenantPolicies]> (policies m)) (nextID m)).

(** Source: internal/policy/store_memory.go, [MemoryStore.GetPolicy]. *)
Definition GetPolicy (m : MemoryStore) (tenantID : string) (id : Z) : result error Policy :=
  match policies m !! tenantID with
  | Some tenantPolicies => of_option (ErrVar ErrPolicyNotFound) (tenantPolicies !! id)
  | None => Err (ErrVar ErrPolicyNotFound)
  end.

(** Source: internal/policy/store_memory.go, [MemoryStore.DeletePolicy]. *)
Definition DeletePolicy (m : MemoryStore) (tenantID : string) (id : Z) : result error MemoryStore :=
  let! tenantPolicies := of_option (ErrVar ErrPolicyNotFound) (policies m !! tenantID) in
  let! _ := of_option (ErrVar ErrPolicyNotFound) (tenantPolicies !! id) in
  Ok (mkMemory (<[tenantID := delete id tenantPolicies]> (policies m)) (nextID m)).

#[export] Instance memory_ops : PolicyStore MemoryStore := {|
  PolicyStore.ListPoliciesForTenant := ListPoliciesForTenant;
  PolicyStore.CreatePolicy := CreatePolicy;
  PolicyStore.UpdatePolicy := UpdatePolicy;
  PolicyStore.GetPolicy := GetPolicy;
  PolicyStore.DeletePolicy := DeletePolicy;
|}.

(** ** The invariant *)

Definition tenant_table (m : MemoryStore) (t : string) : gmap Z Policy := default ∅ (policies m !! t).

(** Every policy is stored under its own tenant and id, and ids stay below the counter. *)
Definition memory_ok (m : MemoryStore) : Prop :=
  (0 < nextID m)%Z /\
  forall t id p, tenant_table m t !! id = Some p ->
    p_ID p = id /\ p_TenantID p = t /\ (0 < id < nextID m)%Z.

Definition memory_room (m : MemoryStore) : Prop := (nextID m < max_int64)%Z.

Lemma new_ok : memory_ok NewMemoryStore.
Proof. split; [done|]. intros t id p. unfold tenant_table. cbn [policies NewMemoryStore]. by rewrite lookup_empty. Qed.

Lemma tenant_table_insert m t x n t' :
  tenant_table (mkMemory (<[t := x]> (policies m)) n) t' = if decide (t' = t) then x else tenant_table m t'.
Proof.
  unfold tenant_table. cbn. case_decide as Ht; [subst; by rewrite lookup_insert_eq|].
  by rewrite lookup_insert_ne.
Qed.

Lemma memory_list m t :
  ListPoliciesForTenant m t = Ok (sort_by policy_less (map_to_list (tenant_table m t)).*2).
Proof. unfold ListPoliciesForTenant, tenant_table. by destruct (policies m !! t). Qed.

Lemma memory_create m now p :
  memory_ok m -> memory_room m -> p_TenantID p <> "" ->
  exists id s', (forall t, tenant_table m t !! id = None) /\
    let p' := with_stamp id (if is_zero (p_CreatedAt p) then now else p_CreatedAt p) now p in
    CreatePolicy m now (Some p) = Ok (p', s') /\ memory_ok s'
    /\ forall t, tenant_table s' t =
         if decide (t = p_TenantID p) then <[id := p']> (tenant_table m t) else tenant_table m t.
Proof.
  intros [Hn Hm] Hroom Ht. exists (nextID m). eexists.
  split; [|split; [|split]].
  - intros t. destruct (tenant_table m t !! nextID m) as [q|] eqn:Hq; [|done].
    apply Hm in Hq as (_ & _ & ?). lia.
  - unfold CreatePolicy. cbn [of_option rbind]. by rewrite bool_decide_eq_false_2.
  - unfold memory_room in Hroom. split; cbn [nextID];
      (rewrite wrap64_id; [|unfold in_int64, max_int64, min_int64 in *; lia]); [lia|].
    intros t id q. rewrite tenant_table_insert. case_decide as Hd.
    + subst t. fold (tenant_table m (p_TenantID p)). cbn [p_ID with_stamp]. rewrite lookup_insert.
      case_decide; [intros [= <-]; subst; cbn; split; [done|]; split; [done|lia]|].
      intros (? & ? & ?)%Hm. split; [done|]. split; [done|lia].
    + intros (? & ? & ?)%Hm. split; [done|]. split; [done|lia].
  - intros t. rewrite tenant_table_insert. by case_decide as Hd; [subst t|].
Qed.

Lemma memory_update m now p :
  memory_ok m -> p_TenantID p <> "" ->
  match tenant_table m (p_TenantID p) !! p_ID p with
  | None => UpdatePolicy m now (Some p) = Err (ErrVar ErrPolicyNotFound)
  | Some old => exists s',
      let p' := with_stamp (p_ID p) (if is_zero (p_CreatedAt p) then p_CreatedAt old else p_CreatedAt p)
                  now p in
      UpdatePolicy m now (Some p) = Ok (p', s') /\ memory_ok s'
      /\ forall t, tenant_table s' t =
           if decide (t = p_TenantID p) then <[p_ID p := p']> (tenant_table m t) else tenant_table m t
  end.
Proof.
  intros [Hn Hm] Ht. unfold UpdatePolicy. cbn [of_option rbind].
  rewrite bool_decide_eq_false_2 by done. fold (tenant_table m (p_TenantID p)).
  destruct (tenant_table m (p_TenantID p) !! p_ID p) as [old|] eqn:Hold; cbn [of_option rbind]; [|done].
  eexists. split; [done|]. split.
  - split; [done|]. intros t id q. rewrite tenant_table_insert. apply Hm in Hold as (_ & _ & Hid).
    case_decide as Hd; [|by intros ?%Hm]. subst t. rewrite lookup_insert.
    case_decide; [intros [= <-]; by subst|by intros ?%Hm].
  - intros t. rewrite tenant_table_insert. by case_decide as Hd; [subst t|].
Qed.

Lemma memory_delete m t id :
  memory_ok m ->
  match tenant_table m t !! id with
  | None => DeletePolicy m t id = Err (ErrVar ErrPolicyNotFound)
  | Some _ => exists s', DeletePolicy m t id = Ok s' /\ memory_ok s'
      /\ forall t', tenant_table s' t' =
           if decide (t' = t) then delete id (tenant_table m t') else tenant_table m t'
  end.
Proof.
  intros [Hn Hm]. unfold DeletePolicy. destruct (policies m !! t) as [tp|] eqn:Htp; cbn [of_option rbind].
  2: { unfold tenant_table at 1. by rewrite Htp. }
  assert (Htab : tenant_table m t = tp) by (unfold tenant_table; by rewrite Htp).
  rewrite Htab. destruct (tp !! id) as [q|] eqn:Hq; cbn [of_option rbind]; [|done].
  eexists. split; [done|]. split.
  - split; [done|]. intros t' id' q'. rewrite tenant_table_insert. case_decide as Hd; [|by intros ?%Hm].
    subst t'. intros [_ Hq']%lookup_delete_Some. apply Hm. by rewrite Htab.
  - intros t'. rewrite tenant_table_insert. case_decide as Hd; [subst t'; by rewrite Htab|done].
Qed.

#[export] Instance memory_laws : PolicyStoreLaws MemoryStore.
Proof.
  refine {| store_ok := memory_ok; store_room := memory_room; table := tenant_table |}.
  - intros m t id p [_ Hm] Hp. by apply Hm in Hp as (? & ? & _).
  - intros m t _. eexists. split; [apply memory_list|]. split; [apply sort_by_perm|apply policies_sorted].
  - apply memory_create.
  - apply memory_update.
  - intros m t id _. cbn. unfold GetPolicy, tenant_table. by destruct (policies m !! t).
  - apply memory_delete.
Defined.

(** The listing does not depend on the order in which the map was visited. *)
Lemma memory_list_order m t l :
  memory_ok m -> l ≡ₚ (map_to_list (tenant_table m t)).*2 ->
  sort_by policy_less l = sort_by policy_less (map_to_list (tenant_table m t)).*2.
Proof.
  intros [_ Hm] Hl. eapply (sorted_unique policy_less).
  - intros p q Hp Hq Hpq Hqp. rewrite policy_not_after in Hpq, Hqp.
    assert (Hid : p_ID p = p_ID q) by (unfold policy_le in *; lia).
    rewrite sort_by_perm, Hl, list_elem_of_fmap in Hp, Hq.
    destruct Hp as ([i p'] & -> & Hp%elem_of_map_to_list), Hq as ([j q'] & -> & Hq%elem_of_map_to_list).
    cbn in *. apply Hm in Hp as Hp'. apply Hm in Hq as Hq'. destruct Hp' as (? & _), Hq' as (? & _).
    subst. rewrite Hid in Hp. congruence.
  - by rewrite !sort_by_perm.
  - eapply StronglySorted_weaken; [|apply policies_sorted]. intros; by apply policy_not_after.
  - eapply StronglySorted_weaken; [|apply policies_sorted]. intros; by apply policy_not_after.
Qed.

End Memory.

(** ** Runs of a store *)

Inductive store_cmd :=
| CmdCreate (now : time) (p : Policy)
| CmdUpdate (now : time) (p : Policy)
| CmdDelete (t : string) (id : Z).

(** The tenant a command is about. *)
Definition cmd_tenant (c : store_cmd) : string :=
  match c with CmdCreate _ p | CmdUpdate _ p => p_TenantID p | CmdDelete t _ => t end.

Section runs.
Context {St : Type} `{PolicyStore St}.

Definition exec (s : St) (c : store_cmd) : St :=
  match c with
  | CmdCreate now p => from_option snd s (to_option (CreatePolicy s now (Some p)))
  | CmdUpdate now p => from_option snd s (to_option (UpdatePolicy s now (Some p)))
  | CmdDelete t id => default s (to_option (DeletePolicy s t id))
  end.

Definition run (s : St) (cs : list store_cmd) : St := foldl exec s cs.

Context `{!PolicyStoreLaws St}.

(** A command on a named tenant keeps the store in order, and touches no other tenant. *)
Lemma exec_ok s c :
  store_ok s -> store_room s -> cmd_tenant c <> "" ->
  store_ok (exec s c) /\ forall t, t <> cmd_tenant c -> table (exec s c) t = table s t.
Proof.
  intros Hok Hroom. destruct c as [now p|now p|t id]; cbn; intros Ht.
  - destruct (create_law s now p Hok Hroom Ht) as (id & s' & _ & Hc & Hok' & Htab).
    rewrite Hc. split; [done|]. intros t Hne. cbn. by rewrite Htab, decide_False.
  - pose proof (update_law s now p Hok Ht) as Hu.
    destruct (table s (p_TenantID p) !! p_ID p) as [old|]; [|by rewrite Hu].
    destruct Hu as (s' & Hu & Hok' & Htab). rewrite Hu. split; [done|].
    intros t Hne. cbn. by rewrite Htab, decide_False.
  - pose proof (delete_law s t id Hok) as Hd. destruct (table s t !! id); [|by rewrite Hd].
    destruct Hd as (s' & Hd & Hok' & Htab). rewrite Hd. split; [done|].
    intros t' Hne. cbn. by rewrite Htab, decide_False.
Qed.

(** What a listing holds. *)
Lemma list_spec s t : store_ok s ->
  exists l, ListPoliciesForTenant s t = Ok l /\ StronglySorted policy_le l
    /\ NoDup (p_ID <$> l) /\ (forall p, p ∈ l <-> table s t !! p_ID p = Some p)
    /\ Forall (fun p => p_TenantID p = t) l.
Proof.
  intros Hok. destruct (list_law s t Hok) as (l & Hl & Hp & Hs). exists l.
  assert (Hin : forall p, p ∈ l <-> table s t !! p_ID p = Some p).
  { intros p. rewrite Hp, list_elem_of_fmap. split.
    - intros ([id q] & -> & Hq%elem_of_map_to_list). cbn in *.
      by destruct (table_keys s t id q Hok Hq) as [-> _].
    - intros Hq%elem_of_map_to_list. by exists (p_ID p, p). }
  split; [done|]. split; [done|]. split; [|split; [done|]].
  - rewrite Hp, <- list_fmap_compose.
    rewrite (list_fmap_ext _ fst) by
      (intros i [id q] Hq%list_elem_of_lookup_2%elem_of_map_to_list; by apply (table_keys s t id q)).
    apply NoDup_fst_map_to_list.
  - apply Forall_forall. intros p Hq%Hin. by destruct (table_keys s t _ p Hok Hq).
Qed.
End runs.

(** ** Properties of the in-memory store *)

Module MemoryProps.
Import Memory.

(** The laws of the interface, at the in-memory store. *)
Definition memory_exec_ok m c :
  memory_ok m -> memory_room m -> cmd_tenant c <> "" ->
  memory_ok (exec m c) /\ forall t, t <> cmd_tenant c -> tenant_table (exec m c) t = tenant_table m t
  := @exec_ok MemoryStore memory_ops memory_laws m c.

Lemma memory_get m t id : GetPolicy m t id = of_option (ErrVar ErrPolicyNotFound) (tenant_table m t !! id).
Proof. unfold GetPolicy, tenant_table. by destruct (policies m !! t). Qed.

(** An id is left after each command of a run. *)
Lemma exec_nextID m c : memory_ok m -> memory_room m ->
  (nextID (exec m c) <= nextID m + 1)%Z.
Proof.
  intros [Hn _] Hroom. unfold memory_room, max_int64 in Hroom. destruct c as [now p|now p|t id]; cbn.
  - unfold CreatePolicy. cbn. case_bool_decide; cbn; [lia|].
    rewrite wrap64_id; [lia|]. unfold in_int64, min_int64, max_int64. lia.
  - unfold UpdatePolicy. cbn. case_bool_decide; cbn; [lia|].
    destruct (_ !! p_ID p); cbn; lia.
  - unfold DeletePolicy. destruct (policies m !! t); cbn; [|lia]. destruct (_ !! id); cbn; lia.
Qed.

Lemma run_ok cs m :
  memory_ok m -> (nextID m + Z.of_nat (length cs) < max_int64)%Z ->
  Forall (fun c => cmd_tenant c <> "") cs -> memory_ok (run m cs).
Proof.
  revert m. induction cs as [|c cs IH]; intros m Hok Hlen Hcs; [done|]. cbn.
  apply Forall_cons in Hcs as [Hc Hcs]. cbn [length] in Hlen.
  assert (Hroom : memory_room m) by (unfold memory_room; lia).
  destruct (memory_exec_ok m c Hok Hroom Hc) as [Hok' _].
  pose proof (exec_nextID m c Hok Hroom). apply IH; [exact Hok'|lia|done].
Qed.

(** After any run of creations, updates and deletions (up to the 2^63 ids of the
    counter), listing a tenant returns its policies and no other tenant's, each once and
    under its own id, sorted by priority and then by id. *)
Theorem memory_runs_list cs t :
  (1 + Z.of_nat (length cs) < max_int64)%Z -> Forall (fun c => cmd_tenant c <> "") cs ->
  exists l, ListPoliciesForTenant (run NewMemoryStore cs) t = Ok l /\ StronglySorted policy_le l
    /\ NoDup (p_ID <$> l) /\ Forall (fun p => p_TenantID p = t) l
    /\ forall p, p ∈ l <-> GetPolicy (run NewMemoryStore cs) t (p_ID p) = Ok p.
Proof.
  intros Hlen Hcs. assert (Hok : memory_ok (run NewMemoryStore cs))
    by (apply run_ok; [apply new_ok|exact Hlen|done]).
  destruct (@list_spec _ memory_ops memory_laws (run NewMemoryStore cs) t Hok) as (l & Hl & Hs & Hnd & Hin & Hten).
  exists l. split; [exact Hl|]. split; [done|]. split; [done|]. split; [done|].
  intros p. rewrite Hin. rewrite memory_get. cbn [table memory_laws].
  split; [by intros ->|]. intros Hp. by apply of_option_Ok in Hp.
Qed.

(** A command on one tenant changes nothing another tenant can see. *)
Theorem memory_isolated m c t :
  memory_ok m -> memory_room m -> cmd_tenant c <> "" -> t <> cmd_tenant c ->
  ListPoliciesForTenant (exec m c) t = ListPoliciesForTenant m t
  /\ forall id, GetPolicy (exec m c) t id = GetPolicy m t id.
Proof.
  intros Hok Hroom Hc Ht. destruct (memory_exec_ok m c Hok Hroom Hc) as [Hok' Htab].
  rewrite !memory_list, (Htab t Ht). split; [done|]. intros id. by rewrite !memory_get, (Htab t Ht).
Qed.

(** What is written is what is read: a created policy gets an id no tenant has, and
    reads back with it; an update under its id keeps its creation date and reads back;
    after its deletion it is not found, and it can be neither deleted nor updated again. *)
Theorem memory_roundtrip m now p q now' :
  memory_ok m -> memory_room m -> p_TenantID p <> "" -> p_TenantID q = p_TenantID p ->
  exists p1 m1, CreatePolicy m now (Some p) = Ok (p1, m1)
    /\ (forall t, GetPolicy m t (p_ID p1) = Err (ErrVar ErrPolicyNotFound))
    /\ GetPolicy m1 (p_TenantID p) (p_ID p1) = Ok p1
    /\ exists q1 m2, UpdatePolicy m1 now' (Some (with_stamp (p_ID p1) zero_time zero_time q)) = Ok (q1, m2)
    /\ GetPolicy m2 (p_TenantID p) (p_ID p1) = Ok q1 /\ p_CreatedAt q1 = p_CreatedAt p1
    /\ exists m3, DeletePolicy m2 (p_TenantID p) (p_ID p1) = Ok m3
    /\ GetPolicy m3 (p_TenantID p) (p_ID p1) = Err (ErrVar ErrPolicyNotFound)
    /\ DeletePolicy m3 (p_TenantID p) (p_ID p1) = Err (ErrVar ErrPolicyNotFound)
    /\ UpdatePolicy m3 now' (Some q1) = Err (ErrVar ErrPolicyNotFound).
Proof.
  intros Hok Hroom Ht Hq.
  destruct (memory_create m now p Hok Hroom Ht) as (id & m1 & Hfresh & Hc & Hok1 & Htab1).
  set (p1 := with_stamp id _ now p) in *. exists p1, m1. split; [done|].
  change (p_ID p1) with id. split; [intros t; by rewrite memory_get, Hfresh|].
  assert (H1 : tenant_table m1 (p_TenantID p) !! id = Some p1)
    by (rewrite Htab1, decide_True by done; apply lookup_insert_eq).
  split; [by rewrite memory_get, H1|].
  pose proof (memory_update m1 now' (with_stamp id zero_time zero_time q) Hok1) as Hu.
  cbn [p_TenantID p_ID with_stamp] in Hu. rewrite Hq, H1 in Hu.
  destruct Hu as (m2 & Hu & Hok2 & Htab2); [done|]. set (q1 := with_stamp id _ now' _) in *.
  assert (H2 : tenant_table m2 (p_TenantID p) !! id = Some q1)
    by (rewrite Htab2, decide_True by done; apply lookup_insert_eq).
  exists q1, m2. split; [exact Hu|]. split; [by rewrite memory_get, H2|]. split; [done|].
  pose proof (memory_delete m2 (p_TenantID p) id Hok2) as Hd. rewrite H2 in Hd.
  destruct Hd as (m3 & Hd & Hok3 & Htab3). exists m3. split; [done|].
  assert (H3 : tenant_table m3 (p_TenantID p) !! id = None)
    by (rewrite Htab3, decide_True by done; apply lookup_delete_eq).
  split; [by rewrite memory_get, H3|]. split.
  - pose proof (memory_delete m3 (p_TenantID p) id Hok3) as Hd3. by rewrite H3 in Hd3.
  - pose proof (memory_update m3 now' q1 Hok3) as Hu3.
    change (p_TenantID q1) with (p_TenantID q) in Hu3. rewrite Hq in Hu3.
    change (p_ID q1) with id in Hu3. rewrite H3 in Hu3. by apply Hu3.
Qed.

Definition two_tenants : list store_cmd :=
  [CmdCreate t0 allow_read; CmdCreate t0 (with_stamp 0 0 0 deny_secret);
   CmdCreate t0 (mkPolicy 0 "other" "x" "" "allow" (Some ["a"]) (Some ["*"]) (Some ["any"]) ∅ 1 true 0 0);
   CmdDelete "acme" 1%Z].

Lemma memory_runs_list_witness :
  exists l, ListPoliciesForTenant (run NewMemoryStore two_tenants) "acme" = Ok l /\ (p_ID <$> l) = [2%Z].
Proof.
  destruct (memory_runs_list two_tenants "acme") as (l & Hl & _).
  - vm_compute. reflexivity.
  - repeat constructor; discriminate.
  - exists l. split; [exact Hl|]. vm_compute in Hl. injection Hl as <-. reflexivity.
Defined.

Lemma memory_isolated_witness :
  ListPoliciesForTenant (exec NewMemoryStore (CmdCreate t0 allow_read)) "other" = Ok [].
Proof.
  destruct (memory_isolated NewMemoryStore (CmdCreate t0 allow_read) "other") as [Hl _].
  - apply new_ok.
  - reflexivity.
  - discriminate.
  - discriminate.
  - rewrite Hl. reflexivity.
Defined.

Lemma memory_roundtrip_witness :
  exists p1 m1, CreatePolicy NewMemoryStore t0 (Some allow_read) = Ok (p1, m1)
    /\ GetPolicy m1 "acme" (p_ID p1) = Ok p1.
Proof.
  destruct (memory_roundtrip NewMemoryStore t0 allow_read deny_secret t0)
    as (p1 & m1 & Hc & _ & Hg & _).
  - apply new_ok.
  - reflexivity.
  - discriminate.
  - reflexivity.
  - exists p1, m1. split; [exact Hc|exact Hg].
Defined.

End MemoryProps.
