(* ===== verification/IssuancePolicy.v ===== *)
(** * The issuance policy.

    Models internal/policy/issuance_policy.go: the limits a credential request is held
    to.  The process environment is the function [env]; an unset variable reads as the
    empty string. *)

From S2P Require Import Prelude GoStrings GoTime Errors Values Crypto Credential Instances.
From S2P Require Import Delegation.
From Stdlib Require Import ZArith Ascii String Lia.
From stdpp Require Import gmap list strings pretty.

Local Open Scope string_scope.

(** Source: internal/policy/issuance_policy.go, [IssuancePolicy]. *)
Record IssuancePolicy := mkIssuancePolicy {
  MaxTTLSeconds : Z;
  AllowedScopes : list string;
  RequiredClaims : list string;
}.

(** Source: internal/policy/issuance_policy.go, [contains]. *)
Definition contains (l : list string) (value : string) : bool :=
  existsb (fun item => bool_decide (item = value)) l.

(** Source: internal/policy/issuance_policy.go, [normalizeScope]. *)
Definition normalizeScope (scope : gval) : list string :=
  match scope with
  | VStr v => [v]
  | VStrs v => v
  | VArr v => string_items v
  | _ => []
  end.

Section env.
Context `{Unicode}.

(** Source: internal/policy/issuance_policy.go, [splitAndTrim]. *)
Definition splitAndTrim (raw : string) : list string :=
  filter (fun s => s <> "") (trim_space <$> split_on ","%char raw).

(** Source: internal/policy/issuance_policy.go, [LoadIssuancePolicyFromEnv]. *)
Definition LoadIssuancePolicyFromEnv (env : string -> string) : IssuancePolicy :=
  let raw := env "ISSUER_POLICY_MAX_TTL_SECONDS" in
  let max :=
    match parse_int raw with
    | Some v => if (0 <? v)%Z then v else 86400%Z
    | None => 86400%Z
    end in
  let scopes := env "ISSUER_POLICY_ALLOWED_SCOPES" in
  let required := env "ISSUER_POLICY_REQUIRED_CLAIMS" in
  mkIssuancePolicy max
    (if bool_decide (scopes = "") then [] else splitAndTrim scopes)
    (if bool_decide (required = "") then [] else splitAndTrim required).
End env.

(** The error of a violated limit. *)
Definition violation (msg : string) : error := ErrWrap "" (ErrVar ErrPolicyViolation) (": " +:+ msg).

(** The first required claim that is missing.
    Source: internal/policy/issuance_policy.go:51-55, [IssuancePolicy.ValidateRequest]. *)
Definition first_missing (claims : claims_map) (keys : list string) : option string :=
  snd <$> list_find (fun key => claim claims key = None) keys.

(** The first requested scope that is not allowed.
    Source: internal/policy/issuance_policy.go:61-65, [IssuancePolicy.ValidateRequest]. *)
Definition first_forbidden (allowed scopes : list string) : option string :=
  snd <$> list_find (fun requested => contains allowed requested = false) scopes.

(** Source: internal/policy/issuance_policy.go, [IssuancePolicy.ValidateRequest]. *)
Definition ValidateRequest (p : IssuancePolicy) (ttlSeconds : Z) (claims : claims_map)
  : result error unit :=
  stop! ((0 <? MaxTTLSeconds p) && (MaxTTLSeconds p <? ttlSeconds))%Z with
    violation ("ttl_seconds exceeds policy limit of " +:+ pretty (MaxTTLSeconds p)) in
  match first_missing claims (RequiredClaims p) with
  | Some key => Err (violation ("missing required claim '" +:+ key +:+ "'"))
  | None =>
      if bool_decide (AllowedScopes p = []) then Ok tt
      else
        match claim claims "scope" with
        | None => Ok tt
        | Some scopeVal =>
            match first_forbidden (AllowedScopes p) (normalizeScope scopeVal) with
            | Some requested =>
                Err (violation ("scope '" +:+ requested +:+ "' not permitted by issuance policy"))
            | None => Ok tt
            end
        end
  end.

(** Source: internal/policy/issuance_policy.go, [IssuancePolicy.ValidateClaimsOnly]. *)
Definition ValidateClaimsOnly (p : IssuancePolicy) (claims : claims_map) : result error unit :=
  ValidateRequest p (MaxTTLSeconds p) claims.

(** Source: internal/policy/issuance_policy.go, [IssuancePolicy.Combine]. *)
Definition Combine (p other : IssuancePolicy) : IssuancePolicy :=
  mkIssuancePolicy
    (if ((0 <? MaxTTLSeconds other)
         && ((MaxTTLSeconds p =? 0) || (MaxTTLSeconds other <? MaxTTLSeconds p)))%Z
     then MaxTTLSeconds other else MaxTTLSeconds p)
    (if bool_decide (AllowedScopes other = []) then AllowedScopes p else AllowedScopes other)
    (if bool_decide (RequiredClaims other = []) then RequiredClaims p else RequiredClaims other).

(** ** Specification *)

(** The three limits, each of which may be unset. *)
Definition ttl_within (p : IssuancePolicy) (ttl : Z) : Prop :=
  (MaxTTLSeconds p <= 0 \/ ttl <= MaxTTLSeconds p)%Z.
Definition has_required (p : IssuancePolicy) (claims : claims_map) : Prop :=
  forall key, key ∈ RequiredClaims p -> is_Some (claim claims key).
Definition scopes_allowed (p : IssuancePolicy) (claims : claims_map) : Prop :=
  AllowedScopes p = [] \/ forall s, s ∈ ScopeFromClaims claims -> s ∈ AllowedScopes p.

Lemma contains_spec l v : contains l v = true <-> v ∈ l.
Proof.
  unfold contains. rewrite existsb_exists. split.
  - intros (x & Hx & Hv). apply list_elem_of_In in Hx. breflect. by subst.
  - intros Hv. exists v. split; [by apply list_elem_of_In|by apply bool_decide_eq_true].
Qed.

(** The policy reads the same scopes as the verifier. *)
Lemma normalizeScope_claims claims v :
  claim claims "scope" = Some v -> normalizeScope v = ScopeFromClaims claims.
Proof. unfold claim, ScopeFromClaims. destruct claims as [m|]; cbn; [|done]. intros ->. by destruct v. Qed.

Lemma no_scope_claims claims : claim claims "scope" = None -> ScopeFromClaims claims = [].
Proof. unfold claim, ScopeFromClaims. destruct claims as [m|]; cbn; [|done]. by intros ->. Qed.

Lemma first_missing_None claims keys :
  first_missing claims keys = None <-> forall key, key ∈ keys -> is_Some (claim claims key).
Proof.
  unfold first_missing. rewrite fmap_None, list_find_None, Forall_forall.
  setoid_rewrite not_eq_None_Some. done.
Qed.

Lemma first_forbidden_None allowed scopes :
  first_forbidden allowed scopes = None <-> forall s, s ∈ scopes -> s ∈ allowed.
Proof.
  unfold first_forbidden. rewrite fmap_None, list_find_None, Forall_forall.
  setoid_rewrite not_false_iff_true. setoid_rewrite contains_spec. done.
Qed.

Lemma ValidateRequest_Ok p ttl claims :
  ValidateRequest p ttl claims = Ok tt <->
  ttl_within p ttl /\ has_required p claims /\ scopes_allowed p claims.
Proof.
  unfold ValidateRequest, ttl_within, has_required, scopes_allowed.
  destruct ((0 <? MaxTTLSeconds p) && (MaxTTLSeconds p <? ttl))%Z eqn:Ht.
  { breflect. split; [done|]. intros (? & _). lia. }
  assert (Htl : (MaxTTLSeconds p <= 0 \/ ttl <= MaxTTLSeconds p)%Z)
    by (apply andb_false_iff in Ht as [?|?]; breflect; lia).
  rewrite <- first_missing_None. destruct (first_missing claims (RequiredClaims p)); [naive_solver|].
  case_bool_decide as Ha; [naive_solver|].
  destruct (claim claims "scope") as [v|] eqn:Hs.
  - rewrite (normalizeScope_claims _ _ Hs), <- first_forbidden_None.
    destruct (first_forbidden _ _); naive_solver.
  - rewrite (no_scope_claims _ Hs). split; [|done]. intros _. repeat split; try done.
    right. intros s Hin. by apply elem_of_nil in Hin.
Qed.

(** Every refusal is a policy violation. *)
Lemma ValidateRequest_Err p ttl claims e :
  ValidateRequest p ttl claims = Err e -> error_is e ErrPolicyViolation = true.
Proof.
  unfold ValidateRequest. destruct (_ && _)%bool; [by intros [= <-]|].
  destruct (first_missing _ _); [by intros [= <-]|]. case_bool_decide; [done|].
  destruct (claim claims "scope"); [|done]. destruct (first_forbidden _ _); [by intros [= <-]|done].
Qed.

(** ** Properties *)

(** A request is accepted exactly when its lifetime is within the limit, every
    required claim is present and every scope the verifier will read from the claims is
    allowed (an unset limit does not restrict); every refusal is a policy violation. *)
Theorem issuance_policy_spec p ttl claims :
  (ValidateRequest p ttl claims = Ok tt <->
   ttl_within p ttl /\ has_required p claims /\ scopes_allowed p claims)
  /\ forall e, ValidateRequest p ttl claims = Err e -> error_is e ErrPolicyViolation = true.
Proof. split; [apply ValidateRequest_Ok|apply ValidateRequest_Err]. Qed.

(** Combining policies takes the stricter lifetime, but the other policy's lists replace
    the first one's: the combination accepts what the other policy accepts of claims, and
    it can accept a scope the first policy forbids. *)
Theorem combine_not_stricter :
  (forall p q ttl claims, (0 <= MaxTTLSeconds p)%Z -> AllowedScopes q <> [] -> RequiredClaims q <> [] ->
     (ValidateRequest (Combine p q) ttl claims = Ok tt <->
      ttl_within p ttl /\ ValidateRequest q ttl claims = Ok tt))
  /\ exists p q ttl claims, ValidateRequest (Combine p q) ttl claims = Ok tt
       /\ ValidateRequest p ttl claims <> Ok tt.
Proof.
  split.
  - intros p q ttl claims Hp Hs Hr. rewrite !ValidateRequest_Ok.
    unfold Combine, ttl_within, has_required, scopes_allowed. cbn.
    rewrite !bool_decide_eq_false_2 by done.
    destruct ((0 <? MaxTTLSeconds q) && _)%Z eqn:E; cbn.
    + breflect. apply orb_true_iff in H0 as [?|?]; breflect; intuition lia.
    + apply andb_false_iff in E as [E|E]; breflect; intuition lia.
  - exists (mkIssuancePolicy 60 ["read"] []), (mkIssuancePolicy 60 ["write"] []), 10%Z,
      (Some {["scope" := VStr "write"]}). split; vm_compute; [done|congruence].
Qed.

(** A policy loaded from the environment always limits the lifetime, whatever the
    variable holds, and its lists have no empty entry. *)
Theorem env_policy_limits `{Unicode} env ttl claims :
  let p := LoadIssuancePolicyFromEnv env in
  (0 < MaxTTLSeconds p)%Z /\ ("" ∉ AllowedScopes p) /\ ("" ∉ RequiredClaims p)
  /\ (ValidateRequest p ttl claims = Ok tt -> ttl <= MaxTTLSeconds p)%Z.
Proof.
  cbv zeta. assert (Hpos : (0 < MaxTTLSeconds (LoadIssuancePolicyFromEnv env))%Z).
  { cbn. destruct (parse_int _) as [v|]; [|lia]. destruct (0 <? v)%Z eqn:E; breflect; lia. }
  split; [done|]. cbn [AllowedScopes RequiredClaims LoadIssuancePolicyFromEnv].
  split; [|split].
  1, 2: case_bool_decide; unfold splitAndTrim; rewrite ?list_elem_of_filter; set_solver.
  intros [Ht _]%ValidateRequest_Ok. unfold ttl_within in Ht. lia.
Qed.
