(* ===== verification/Config.v ===== *)
(** * Configuration.

    Models internal/config/config.go.  The process environment is the function [env]; an
    unset variable reads as the empty string. *)

From S2P Require Import Prelude GoStrings IssuancePolicy Crypto.
From Stdlib Require Import ZArith Ascii String Lia.
From stdpp Require Import gmap list strings.

Local Open Scope string_scope.

(** Source: internal/config/config.go, [getenv]. *)
Definition getenv (env : string -> string) (key fallback : string) : string :=
  let v := env key in if bool_decide (v = "") then fallback else v.

(** [strconv.Atoi] fails on the empty string too.
    Source: internal/config/config.go, [getenvInt]. *)
Definition getenvInt (env : string -> string) (key : string) (fallback : Z) : Z :=
  default fallback (parse_int (env key)).

(** Source: internal/config/config.go, [IssuerConfig]. *)
Record IssuerConfig := mkIssuerConfig {
  ic_HTTPPort : string;
  ic_DefaultTenantID : string;
  ic_TenancyMode : string;
  ic_LogLevel : string;
  ic_AuditDB_DSN : string;
  ic_Policy : IssuancePolicy;
}.

(** Source: internal/config/config.go, [LoadIssuerConfigFromEnv]. *)
Definition LoadIssuerConfigFromEnv `{Unicode} (env : string -> string) : IssuerConfig :=
  mkIssuerConfig (getenv env "ISSUER_HTTP_PORT" "8080")
    (getenv env "DEFAULT_TENANT_ID" "default-tenant")
    (getenv env "TENANCY_MODE" "single")
    (getenv env "ISSUER_LOG_LEVEL" "info")
    (getenv env "ISSUER_AUDIT_DB_DSN" "")
    (LoadIssuancePolicyFromEnv env).

(** Source: internal/config/config.go, [VerifierConfig]. *)
Record VerifierConfig := mkVerifierConfig {
  vf_HTTPPort : string;
  vf_DefaultTenantID : string;
  vf_DB_DSN : string;
  vf_UseDBTrustRegistry : bool;
  vf_TenancyMode : string;
  vf_LogLevel : string;
  vf_GatewayCache : bool;
  vf_RateLimitEnabled : bool;
  vf_RedisAddr : string;
  vf_RedisPassword : string;
  vf_RedisDB : Z;
  vf_OIDC4VPMaxRequestSize : Z;
  vf_OIDC4VPRevocationStrict : bool;
  vf_DIDResolutionTimeout : Z;
  vf_MaxDIDLength : Z;
  vf_DIDResolverDebug : bool;
}.

(** Source: internal/config/config.go, [LoadVerifierConfigFromEnv]. *)
Definition LoadVerifierConfigFromEnv (env : string -> string) : VerifierConfig :=
  let flag key fallback := bool_decide (getenv env key fallback = "true") in
  mkVerifierConfig (getenv env "VERIFIER_HTTP_PORT" "8081")
    (getenv env "DEFAULT_TENANT_ID" "default-tenant")
    (getenv env "VERIFIER_DB_DSN" "")
    (flag "VERIFIER_USE_DB_TRUST_REGISTRY" "false")
    (getenv env "TENANCY_MODE" "single")
    (getenv env "VERIFIER_LOG_LEVEL" "info")
    (flag "GATEWAY_CACHE_ENABLED" "false")
    (flag "RATELIMIT_ENABLED" "false")
    (getenv env "REDIS_ADDR" "")
    (getenv env "REDIS_PASSWORD" "")
    (getenvInt env "REDIS_DB" 0)
    (getenvInt env "OIDC4VP_MAX_REQUEST_SIZE" 262144)
    (flag "OIDC4VP_REVOCATION_STRICT" "true")
    (getenvInt env "DID_RESOLUTION_TIMEOUT" 5)
    (getenvInt env "MAX_DID_LENGTH" 2048)
    (flag "DID_RESOLVER_DEBUG" "false").

(** A configuration always names a default tenant. *)
Lemma default_tenant_named `{Unicode} env :
  ic_DefaultTenantID (LoadIssuerConfigFromEnv env) <> "" /\ vf_DefaultTenantID (LoadVerifierConfigFromEnv env) <> "".
Proof. unfold LoadIssuerConfigFromEnv, LoadVerifierConfigFromEnv, getenv; cbn. by repeat case_bool_decide. Qed.

Lemma getenvInt_range env key fallback : in_int64 fallback -> in_int64 (getenvInt env key fallback).
Proof.
  unfold getenvInt. intros Hf. destruct (parse_int (env key)) as [z|] eqn:Hz; [|done].
  by eapply parse_int_range.
Qed.
