(* ===== verification/Http.v ===== *)
(** * The HTTP layer.

    Models internal/httpserver/errors.go, middleware.go, the audit part of
    internal/logging/logging.go and internal/version.  A handler is a function of the
    request and of a state, and gives back a response, the new state and what it
    recorded on the way (audit events, counters), in order.  A request body is what
    [json.Decoder] makes of the bytes: [None] when it fails. *)

From S2P Require Import Prelude GoStrings GoTime Errors Values.
From Stdlib Require Import ZArith Ascii String Lia.
From stdpp Require Import gmap list strings.

Local Open Scope string_scope.

(** Source: internal/version/version.go:3-3, [APIVersion]. *)
Definition APIVersion : string := "v1".

(** ** Audit events *)

(** Source: internal/logging/logging.go, [AuditEvent]. *)
Record AuditEvent := mkEvent {
  ev_Timestamp : time;
  ev_CorrelationID : string;
  ev_EventType : string;
  ev_TenantID : string;
  ev_UserID : string;
  ev_SubjectDID : string;
  ev_IssuerDID : string;
  ev_Resource : string;
  ev_Action : string;
  ev_Outcome : string;
  ev_Reason : string;
  ev_IPAddress : string;
  ev_UserAgent : string;
  ev_Metadata : gmap string gval;
}.

(** A call of a metrics collector: of the [GatewayMetrics] a handler is configured with, of its
    [VerifierMetrics], or of the global [metrics.DefaultVerifierMetrics].
    Source: internal/metrics/metrics.go, [GatewayMetrics]. *)
Inductive metric_call :=
| IncAuthzRequest (tenantID : string)
| IncAuthzAllow (tenantID : string)
| IncAuthzDeny (tenantID reason : string)
| IncAuthzCacheHit (tenantID : string)
| IncAuthzCacheMiss (tenantID : string)
| IncVerificationSuccess (reason : string)
| IncVerificationFailure (reason : string)
| DefaultIncVerificationSuccess (reason : string)
| DefaultIncVerificationFailure (reason : string).

(** What a handler leaves behind besides its response. *)
Inductive effect :=
| Logged (e : AuditEvent)     (** a line of the audit log *)
| Stored (e : AuditEvent)     (** a row of the audit store *)
| Counted (c : metric_call).  (** a metric *)

(** ** Requests *)

(** The values the middlewares put in a request's context. *)
Record context := mkContext {
  ctx_CorrelationID : option string;  (** [logging.CorrelationIDKey] *)
  ctx_LogTenantID : option string;    (** [logging.TenantIDKey] *)
  ctx_UserID : option string;         (** [logging.UserIDKey] *)
  ctx_RequestID : option string;      (** [requestIDKey] *)
  ctx_TenantID : option string;       (** [tenantIDKey] *)
  ctx_AdminSubject : option string;
  ctx_AdminClaims : option claims_map;
}.

Definition background : context := mkContext None None None None None None None.

Record request (B : Type) := mkRequest {
  r_Method : string;
  r_Path : string;
  r_RawQuery : string;
  r_Header : string -> string;
  r_RemoteAddr : string;
  r_Body : option B;
  r_Context : context;
}.
Arguments mkRequest {B}. Arguments r_Method {B}. Arguments r_Path {B}. Arguments r_RawQuery {B}.
Arguments r_Header {B}. Arguments r_RemoteAddr {B}. Arguments r_Body {B}. Arguments r_Context {B}.

Definition with_context {B} (c : context) (r : request B) : request B :=
  mkRequest (r_Method r) (r_Path r) (r_RawQuery r) (r_Header r) (r_RemoteAddr r) (r_Body r) c.

(** Source: internal/logging/logging.go, [GetCorrelationID]. *)
Definition GetCorrelationID (c : context) : string := default "" (ctx_CorrelationID c).
(** Source: internal/logging/logging.go, [GetTenantID]. *)
Definition GetTenantID (c : context) : string := default "" (ctx_LogTenantID c).
(** Source: internal/logging/logging.go, [GetUserID]. *)
Definition GetUserID (c : context) : string := default "" (ctx_UserID c).

(** Source: internal/logging/logging.go, [WithCorrelationID]. *)
Definition WithCorrelationID (id : string) (c : context) : context :=
  mkContext (Some id) (ctx_LogTenantID c) (ctx_UserID c) (ctx_RequestID c) (ctx_TenantID c)
    (ctx_AdminSubject c) (ctx_AdminClaims c).

(** Source: internal/logging/logging.go, [WithTenantID]. *)
Definition WithTenantID (id : string) (c : context) : context :=
  mkContext (ctx_CorrelationID c) (Some id) (ctx_UserID c) (ctx_RequestID c) (ctx_TenantID c)
    (ctx_AdminSubject c) (ctx_AdminClaims c).

(** [context.WithValue(ctx, tenantIDKey, id)] *)
Definition with_tenant_key (id : string) (c : context) : context :=
  mkContext (ctx_CorrelationID c) (ctx_LogTenantID c) (ctx_UserID c) (ctx_RequestID c) (Some id)
    (ctx_AdminSubject c) (ctx_AdminClaims c).

Definition with_admin (subject : string) (claims : claims_map) (c : context) : context :=
  mkContext (ctx_CorrelationID c) (ctx_LogTenantID c) (ctx_UserID c) (ctx_RequestID c) (ctx_TenantID c)
    (Some subject) (Some claims).

(** Source: internal/httpserver/middleware.go, [RequestIDFromContext]. *)
Definition RequestIDFromContext (c : context) : string :=
  let id := GetCorrelationID c in
  if bool_decide (id = "") then default "" (ctx_RequestID c) else id.

(** Source: internal/httpserver/middleware.go, [TenantIDFromContext]. *)
Definition TenantIDFromContext (c : context) : string :=
  let id := GetTenantID c in
  if bool_decide (id = "") then default "" (ctx_TenantID c) else id.

(** The tenant a handler works for. *)
Definition tenant_or_default {B} (r : request B) (defaultTenantID : string) : string :=
  let tenantID := TenantIDFromContext (r_Context r) in
  if bool_decide (tenantID = "") then defaultTenantID else tenantID.

(** Source: internal/logging/logging.go:177-197, [LogAuditEvent]. *)
Definition LogAuditEvent (c : context) (now : time) (e : AuditEvent) : effect :=
  let orelse a b := if bool_decide (a = "") then b else a in
  Logged (mkEvent now (orelse (ev_CorrelationID e) (GetCorrelationID c)) (ev_EventType e)
    (orelse (ev_TenantID e) (GetTenantID c)) (orelse (ev_UserID e) (GetUserID c))
    (ev_SubjectDID e) (ev_IssuerDID e) (ev_Resource e) (ev_Action e) (ev_Outcome e) (ev_Reason e)
    (ev_IPAddress e) (ev_UserAgent e) (ev_Metadata e)).

(** An event with the fields most callers set. *)
Definition event (type subject issuer outcome reason : string) (metadata : gmap string gval) : AuditEvent :=
  mkEvent zero_time "" type "" "" subject issuer "" "" outcome reason "" "" metadata.

Definition stamped (now : time) (e : AuditEvent) : AuditEvent :=
  mkEvent now (ev_CorrelationID e) (ev_EventType e) (ev_TenantID e) (ev_UserID e) (ev_SubjectDID e)
    (ev_IssuerDID e) (ev_Resource e) (ev_Action e) (ev_Outcome e) (ev_Reason e) (ev_IPAddress e)
    (ev_UserAgent e) (ev_Metadata e).

(** Source: internal/logging/logging.go, [LogSecurityEvent]. *)
Definition LogSecurityEvent (c : context) (now : time) (type outcome reason : string)
    (metadata : gmap string gval) : effect :=
  LogAuditEvent c now (event type "" "" outcome reason metadata).

(** Source: internal/logging/logging.go, [LogCredentialEvent]. *)
Definition LogCredentialEvent (c : context) (now : time) (type subject issuer outcome : string) : effect :=
  LogAuditEvent c now (event type subject issuer outcome "" ∅).

(** ** Responses *)

(** Source: internal/httpserver/errors.go, [FieldError]. *)
Record FieldError := mkFieldError { fe_Field : string; fe_Message : string; fe_Code : string }.

(** Source: internal/httpserver/errors.go, [APIError]. *)
Record APIError := mkAPIError {
  ae_Error : string;
  ae_Description : string;
  ae_Code : string;
  ae_APIVersion : string;
  ae_Fields : list FieldError;
  ae_TraceID : string;
}.

Inductive body (R : Type) :=
| Body (b : R)
| ErrorBody (e : APIError)
| NoBody.
Arguments Body {R}. Arguments ErrorBody {R}. Arguments NoBody {R}.

Record response (R : Type) := mkResponse {
  rs_Status : Z;
  rs_Header : gmap string string;
  rs_Body : body R;
}.
Arguments mkResponse {R}. Arguments rs_Status {R}. Arguments rs_Header {R}. Arguments rs_Body {R}.

Definition json_type : gmap string string := {["Content-Type" := "application/json"]}.

(** [w.Header().Set("Content-Type", ...); json.NewEncoder(w).Encode(b)] *)
Definition respond {R} (status : Z) (b : R) : response R := mkResponse status json_type (Body b).

(** A plain-text error, which [http.Error] writes as it is. *)
Definition http_error {R} (status : Z) (text : string) : response R :=
  mkResponse status {["Content-Type" := "text/plain; charset=utf-8"; "X-Content-Type-Options" := "nosniff"]}
    (ErrorBody (mkAPIError text "" "" "" [] "")).

Section errors.
Context {R : Type}.

(** Source: internal/httpserver/errors.go, [WriteAPIErrorWithFields]. *)
Definition WriteAPIErrorWithFields (status : Z) (code description : string) (fields : list FieldError)
  : response R :=
  mkResponse status json_type (ErrorBody (mkAPIError code description code APIVersion fields "")).

(** Source: internal/httpserver/errors.go, [WriteAPIError]. *)
Definition WriteAPIError (status : Z) (code description : string) : response R :=
  WriteAPIErrorWithFields status code description [].

(** Source: internal/httpserver/errors.go, [WriteValidationError]. *)
Definition WriteValidationError (err : error) : response R :=
  match error_as_validation err with
  | Some v =>
      let fields :=
        if bool_decide (ve_Field v = "") then []
        else [mkFieldError (ve_Field v) (ve_Message v) (ve_Code v)] in
      WriteAPIErrorWithFields 400 "validation_error" "Invalid request data" fields
  | None => WriteAPIError 400 "validation_error" (error_text err)
  end.

(** Source: internal/httpserver/errors.go, [WriteDIDError]. *)
Definition WriteDIDError (err : error) : response R :=
  WriteAPIError 400 "invalid_did" ("Invalid DID format: " +:+ error_text err).

(** Source: internal/httpserver/errors.go, [WriteInternalError]. *)
Definition WriteInternalError (message : string) : response R :=
  WriteAPIError 500 "internal_error" message.
End errors.

(** ** Handlers and middlewares *)

Definition outcome (St R : Type) : Type := response R * St * list effect.

Definition handler (B St R : Type) : Type := request B -> St -> outcome St R.

(** Stop with a response, the state as it is and nothing recorded. *)
Definition halt {St R} (s : St) (resp : response R) : outcome St R := (resp, s, []).

Definition out_response {St R} (o : outcome St R) : response R := o.1.1.
Definition out_state {St R} (o : outcome St R) : St := o.1.2.
Definition out_effects {St R} (o : outcome St R) : list effect := o.2.

Lemma outcome_eta {St R} (o : outcome St R) : o = (out_response o, out_state o, out_effects o).
Proof. by destruct o as [[? ?] ?]. Qed.

Section middlewares.
Context {B St R : Type}.

(** Source: internal/httpserver/middleware.go, [MiddlewareChain]. *)
Definition MiddlewareChain (middlewares : list (handler B St R -> handler B St R))
    (h : handler B St R) : handler B St R :=
  foldl (fun h m => m h) h (reverse middlewares).

Definition set_headers (hs : gmap string string) (o : outcome St R) : outcome St R :=
  let '(resp, s, es) := o in
  (mkResponse (rs_Status resp) (rs_Header resp ∪ hs) (rs_Body resp), s, es).

(** Source: internal/httpserver/middleware.go:206-211, [SecurityHeadersMiddleware]. *)
Definition security_headers : gmap string string :=
  {["X-Content-Type-Options" := "nosniff"; "X-Frame-Options" := "DENY";
    "X-XSS-Protection" := "1; mode=block";
    "Strict-Transport-Security" := "max-age=31536000; includeSubDomains";
    "Content-Security-Policy" := "default-src 'self'";
    "Referrer-Policy" := "strict-origin-when-cross-origin"]}.

(** Source: internal/httpserver/middleware.go, [SecurityHeadersMiddleware]. *)
Definition SecurityHeadersMiddleware (next : handler B St R) : handler B St R :=
  fun r s => set_headers security_headers (next r s).

(** [strings.Trim(s, "/")] *)
Fixpoint trim_left_slash (s : string) : string :=
  match s with
  | String "/" s' => trim_left_slash s'
  | _ => s
  end.
Fixpoint trim_right_slash (s : string) : string :=
  match s with
  | "" => ""
  | String a s' =>
      match trim_right_slash s' with
      | "" => if bool_decide (a = "/"%char) then "" else String a ""
      | t => String a t
      end
  end.

(** The segment after the first "tenants" that has one.
    Source: internal/httpserver/middleware.go:277-281, [extractTenantID]. *)
Fixpoint after_tenants (parts : list string) : string :=
  match parts with
  | part :: ((next :: _) as parts') =>
      if bool_decide (part = "tenants") then next else after_tenants parts'
  | _ => ""
  end.

(** Source: internal/httpserver/middleware.go, [extractTenantID]. *)
Definition extractTenantID (r : request B) : string :=
  let tenantID := r_Header r "X-Tenant-ID" in
  if bool_decide (tenantID = "")
  then after_tenants (split_on "/"%char (trim_right_slash (trim_left_slash (r_Path r))))
  else tenantID.

(** [generated] is the random identifier [GenerateCorrelationID] draws.
    Source: internal/httpserver/middleware.go, [CorrelationIDMiddleware]. *)
Definition CorrelationIDMiddleware (generated : string) (next : handler B St R) : handler B St R :=
  fun r s =>
    let correlationID :=
      if bool_decide (r_Header r "X-Correlation-ID" = "") then
        if bool_decide (r_Header r "X-Request-ID" = "") then generated else r_Header r "X-Request-ID"
      else r_Header r "X-Correlation-ID" in
    let ctx := WithCorrelationID correlationID (r_Context r) in
    let tenantID := extractTenantID r in
    let ctx := if bool_decide (tenantID = "") then ctx else WithTenantID tenantID ctx in
    set_headers {["X-Correlation-ID" := correlationID; "X-Request-ID" := correlationID]}
      (next (with_context ctx r) s).

Context `{Unicode}.

(** Source: internal/httpserver/middleware.go, [getClientIP]. *)
Definition getClientIP (r : request B) : string :=
  let xff := r_Header r "X-Forwarded-For" in
  if negb (bool_decide (xff = "")) then
    trim_space (default "" (head (split_on ","%char xff)))
  else if negb (bool_decide (r_Header r "X-Real-IP" = "")) then r_Header r "X-Real-IP"
  else
    let ip := r_RemoteAddr r in
    if bool_decide (ip = "") then "unknown"
    else match last_index ":"%char ip with
         | Some colonPos => take_bytes colonPos ip
         | None => ip
         end.

(** Source: internal/httpserver/middleware.go, [isSensitiveEndpoint]. *)
Definition isSensitiveEndpoint (path : string) : bool :=
  existsb (contains_str path)
    ["/credentials/"; "/verify"; "/issue"; "/revoke"; "/delegate"; "/policies/"; "/trust-registry/";
     "/admin/"; "/keys/"; "/presentations/"; "/schemas/"].

(** [now], [duration] and [bytes] are measured when the response was written.
    Source: internal/httpserver/middleware.go:117-179, [AuditMiddleware]. *)
Definition AuditMiddleware (now : time) (duration bytes : Z) (next : handler B St R) : handler B St R :=
  fun r s =>
    let '(resp, s', es) := next r s in
    let outcome := if (400 <=? rs_Status resp)%Z then "failure" else "success" in
    let audit :=
      if isSensitiveEndpoint (r_Path r) then
        [LogAuditEvent (r_Context r) now
           (mkEvent zero_time "" "security.data_access" "" "" "" "" (r_Path r) (r_Method r) outcome ""
              (getClientIP r) (r_Header r "User-Agent")
              {["status_code" := VInt (rs_Status resp); "duration_ms" := VInt64 duration;
                "content_length" := VInt64 bytes; "query_params" := VStr (r_RawQuery r)]})]
      else [] in
    (resp, s', app es audit).

(** Source: internal/httpserver/middleware.go, [RateLimitAuditMiddleware]. *)
Definition RateLimitAuditMiddleware (now : time) (next : handler B St R) : handler B St R :=
  fun r s =>
    let '(resp, s', es) := next r s in
    let audit :=
      if (rs_Status resp =? 429)%Z then
        [LogSecurityEvent (r_Context r) now "security.rate_limit_exceeded" "blocked"
           "Rate limit exceeded for client"
           {["path" := VStr (r_Path r); "method" := VStr (r_Method r);
             "ip_address" := VStr (getClientIP r); "user_agent" := VStr (r_Header r "User-Agent")]}]
      else [] in
    (resp, s', app es audit).

(** Source: internal/httpserver/middleware.go, [StandardMiddlewareChain]. *)
Definition StandardMiddlewareChain (now : time) (generated : string) (duration bytes : Z)
  : handler B St R -> handler B St R :=
  MiddlewareChain [SecurityHeadersMiddleware; CorrelationIDMiddleware generated;
                   AuditMiddleware now duration bytes; RateLimitAuditMiddleware now].
End middlewares.

(** ** Properties *)

(** The first middleware of a chain is the outermost. *)
Lemma MiddlewareChain_cons {B St R} (m : handler B St R -> handler B St R) ms h :
  MiddlewareChain (m :: ms) h = m (MiddlewareChain ms h).
Proof. unfold MiddlewareChain. by rewrite reverse_cons, foldl_app. Qed.

(** What the standard chain passes to the handler it wraps. *)
Definition seen_request {B} (generated : string) (r : request B) : request B :=
  let id :=
    if bool_decide (r_Header r "X-Correlation-ID" = "") then
      if bool_decide (r_Header r "X-Request-ID" = "") then generated else r_Header r "X-Request-ID"
    else r_Header r "X-Correlation-ID" in
  let ctx := WithCorrelationID id (r_Context r) in
  with_context
    (if bool_decide (extractTenantID r = "") then ctx else WithTenantID (extractTenantID r) ctx) r.

(** The standard middlewares are transparent: the handler runs once, on the request with
    its correlation id and tenant in the context; its status, body and state come back as they
    are, with the security headers it did not set itself and the correlation id it saw;
    what it recorded is kept, and audit lines are added after it, always one for a
    sensitive path. *)
Theorem standard_chain_transparent {B St R} `{Unicode} now generated duration bytes
    (h : handler B St R) (r : request B) (s : St) :
  let o := StandardMiddlewareChain now generated duration bytes h r s in
  let o' := h (seen_request generated r) s in
  rs_Status (out_response o) = rs_Status (out_response o')
  /\ rs_Body (out_response o) = rs_Body (out_response o') /\ out_state o = out_state o'
  /\ (forall k v, rs_Header (out_response o') !! k = None -> security_headers !! k = Some v ->
        rs_Header (out_response o) !! k = Some v)
  /\ (rs_Header (out_response o') !! "X-Correlation-ID" = None ->
      rs_Header (out_response o) !! "X-Correlation-ID"
        = Some (GetCorrelationID (r_Context (seen_request generated r))))
  /\ exists added, out_effects o = app (out_effects o') added
       /\ (isSensitiveEndpoint (r_Path r) = true -> added <> []).
Proof.
  unfold StandardMiddlewareChain. rewrite !MiddlewareChain_cons. cbv zeta.
  unfold SecurityHeadersMiddleware, CorrelationIDMiddleware, AuditMiddleware, RateLimitAuditMiddleware.
  change (MiddlewareChain [] h) with h.
  change (with_context _ r) with (seen_request generated r).
  destruct (h (seen_request generated r) s) as [[resp s'] es]. cbn.
  split; [done|]. split; [done|]. split; [done|].
  assert (Hid : GetCorrelationID (r_Context (seen_request generated r))
    = if bool_decide (r_Header r "X-Correlation-ID" = "") then
        if bool_decide (r_Header r "X-Request-ID" = "") then generated else r_Header r "X-Request-ID"
      else r_Header r "X-Correlation-ID")
    by (unfold seen_request; cbn; by case_bool_decide).
  split; [|split].
  - intros k v Hk Hv. rewrite lookup_union_r; [done|]. rewrite lookup_union_r by done.
    apply not_elem_of_dom_1. intros Hd. rewrite dom_insert, dom_singleton in Hd.
    assert (k = "X-Correlation-ID" \/ k = "X-Request-ID") as [->| ->] by set_solver.
    all: by vm_compute in Hv.
  - intros Hk. apply lookup_union_Some_l. rewrite lookup_union_r, lookup_insert_eq by done.
    f_equal. exact (eq_sym Hid).
  - eexists. rewrite <- app_assoc. split; [done|].
    change (r_Path (seen_request generated r)) with (r_Path r). intros ->.
    destruct (rs_Status resp =? 429)%Z; done.
Qed.
