(* ===== verification/ResponseWriter.v ===== *)
(** * The writers of the middlewares.

    Models the two wrappers of http.ResponseWriter in internal/httpserver/middleware.go.  The
    rest of the development has a handler return its response; here a handler is the sequence
    of calls it makes on its writer, and the properties say when what the wrappers record of
    them is the response. *)

From S2P Require Import Prelude GoStrings Http.
From Stdlib Require Import ZArith Ascii String Lia.
From stdpp Require Import list strings.

Local Open Scope string_scope.

(** A call on a writer; [n] is the number of bytes of [data] that the connection took. *)
Inductive call :=
| WriteHeader (code : Z)
| Write (data : string) (n : nat).

(** ** net/http *)

(** What has been sent: the status, once there is a final one, and the number of bytes. *)
Record sent := mkSent { se_Status : option Z; se_Bytes : Z }.

Definition informational (code : Z) : bool := (100 <=? code)%Z && (code <=? 199)%Z && negb (code =? 101)%Z.

(** The first final status counts; a body that comes first is sent with 200. *)
Definition http_call (w : sent) (c : call) : sent :=
  match c with
  | WriteHeader code =>
      match se_Status w with
      | Some _ => w
      | None => if informational code then w else mkSent (Some code) (se_Bytes w)
      end
  | Write _ n => mkSent (Some (default 200%Z (se_Status w))) (se_Bytes w + Z.of_nat n)
  end.

(** The status the client gets, 200 when the handler returns without any. *)
Definition client_status (w : sent) : Z := default 200%Z (se_Status w).

Definition fresh : sent := mkSent None 0.

(** ** The wrappers *)

(** Source: internal/httpserver/middleware.go, [responseWriter]. *)
Record responseWriter := mkResponseWriter {
  rw_ResponseWriter : sent;
  rw_statusCode : Z;
  rw_bytesWritten : Z;
}.

(** Source: internal/httpserver/middleware.go, [responseWriter.WriteHeader]. *)
Definition rw_WriteHeader (rw : responseWriter) (code : Z) : responseWriter :=
  mkResponseWriter (http_call (rw_ResponseWriter rw) (WriteHeader code)) code (rw_bytesWritten rw).

(** Source: internal/httpserver/middleware.go, [responseWriter.Write]. *)
Definition rw_Write (rw : responseWriter) (data : string) (n : nat) : responseWriter :=
  mkResponseWriter (http_call (rw_ResponseWriter rw) (Write data n)) (rw_statusCode rw) (rw_bytesWritten rw + Z.of_nat n).

Definition rw_call (rw : responseWriter) (c : call) : responseWriter :=
  match c with WriteHeader code => rw_WriteHeader rw code | Write data n => rw_Write rw data n end.

(** Source: internal/httpserver/middleware.go:122-122, [AuditMiddleware]. *)
Definition wrappedWriter : responseWriter := mkResponseWriter fresh 200 0.

(** Source: internal/httpserver/middleware.go, [statusRecorder]. *)
Record statusRecorder := mkStatusRecorder { sr_ResponseWriter : sent; sr_status : Z }.

(** Source: internal/httpserver/middleware.go, [statusRecorder.WriteHeader]. *)
Definition sr_WriteHeader (r : statusRecorder) (code : Z) : statusRecorder :=
  mkStatusRecorder (http_call (sr_ResponseWriter r) (WriteHeader code)) code.

(** Its [Write] is that of the writer it wraps. *)
Definition sr_call (r : statusRecorder) (c : call) : statusRecorder :=
  match c with
  | WriteHeader code => sr_WriteHeader r code
  | Write _ _ => mkStatusRecorder (http_call (sr_ResponseWriter r) c) (sr_status r)
  end.

(** ** What is recorded *)

Definition codes (cs : list call) : list Z := omap (fun c => match c with WriteHeader code => Some code | _ => None end) cs.

(** The wrapped writer sees every call, and the bytes are counted. *)
Lemma rw_calls cs rw :
  let rw' := foldl rw_call rw cs in
  rw_ResponseWriter rw' = foldl http_call (rw_ResponseWriter rw) cs
  /\ (rw_bytesWritten rw' - rw_bytesWritten rw = se_Bytes (rw_ResponseWriter rw') - se_Bytes (rw_ResponseWriter rw))%Z
  /\ rw_statusCode rw' = default (rw_statusCode rw) (last (codes cs)).
Proof.
  revert rw. induction cs as [|c cs IH]; intros rw; cbn [foldl]; [split; [done|]; split; [lia|done]|].
  destruct (IH (rw_call rw c)) as (Hs & Hb & Hc). split; [|split].
  - rewrite Hs. by destruct c.
  - destruct c; cbn [rw_call rw_WriteHeader rw_Write rw_bytesWritten rw_ResponseWriter http_call] in *.
    + assert (Hbytes : se_Bytes match se_Status (rw_ResponseWriter rw) with
        | Some _ => rw_ResponseWriter rw
        | None => if informational code then rw_ResponseWriter rw else mkSent (Some code) (se_Bytes (rw_ResponseWriter rw)) end
        = se_Bytes (rw_ResponseWriter rw)) by (destruct (se_Status _); [done|by destruct (informational code)]).
      rewrite Hbytes in Hb. lia.
    + cbn [se_Bytes] in Hb. lia.
  - rewrite Hc. destruct c; cbn [rw_call rw_WriteHeader rw_Write rw_statusCode codes omap list_omap]; [|done].
    fold (codes cs). rewrite last_cons. by destruct (last (codes cs)).
Qed.

(** Once a status is sent it stays. *)
Lemma sent_stays cs w code : se_Status w = Some code -> se_Status (foldl http_call w cs) = Some code.
Proof.
  revert w. induction cs as [|c cs IH]; intros w Hw; cbn [foldl]; [done|]. apply IH.
  destruct c; cbn; by rewrite Hw.
Qed.

(** A handler that answers as those of the services do: a final status, then the body; or the
    body alone.  What the middleware records is then what the client gets, its status and the
    bytes of its body. *)
Theorem recorded_is_sent header body :
  codes body = [] -> (forall code, header = Some code -> informational code = false) ->
  let cs := app (match header with Some code => [WriteHeader code] | None => [] end) body in
  let rw := foldl rw_call wrappedWriter cs in
  rw_statusCode rw = client_status (foldl http_call fresh cs) /\ rw_bytesWritten rw = se_Bytes (foldl http_call fresh cs).
Proof.
  cbv zeta. intros Hb Hh. destruct (rw_calls (app (match header with Some code => [WriteHeader code] | None => [] end) body) wrappedWriter)
    as (Hs & Hn & ->). rewrite Hs in Hn. cbn [rw_bytesWritten wrappedWriter rw_ResponseWriter fresh se_Bytes] in Hn. split; [|lia].
  unfold client_status, codes. rewrite omap_app. fold (codes body). rewrite Hb, app_nil_r. destruct header as [code|]; cbn [app omap list_omap].
  - cbn [foldl]. rewrite (sent_stays body _ code); [done|]. cbn. by rewrite Hh.
  - cbn. clear Hh Hs Hn. assert (Hst : forall w, se_Status w = None \/ se_Status w = Some 200%Z ->
      default 200%Z (se_Status (foldl http_call w body)) = 200%Z).
    { induction body as [|c body IH]; intros w Hw; cbn [foldl]; [by destruct Hw as [-> | ->]|].
      destruct c as [code|data n]; [done|]. apply IH; [done|]. right. cbn. by destruct Hw as [-> | ->]. }
    symmetry. apply Hst. by left.
Qed.

(** A status that comes after the body is recorded, but the client has had 200: such an answer
    would be audited as a failure the client did not see. *)
Example late_status :
  let cs := [Write "{}" 2; WriteHeader 500] in
  rw_statusCode (foldl rw_call wrappedWriter cs) = 500%Z /\ client_status (foldl http_call fresh cs) = 200%Z.
Proof. done. Qed.
