(* ===== verification/Mux.v ===== *)
(** * Routing: [http.ServeMux].

    The request multiplexer of Go 1.22 for the patterns the service registers, which name no
    method, no host and no wildcard: a pattern is a path, and one that ends in a slash stands
    for the whole subtree.  The most specific pattern wins; a path that is not in canonical
    form, or that lacks the slash of a subtree, is redirected.  A path is read as it is after
    percent-decoding; the body of a redirect is left out. *)

From S2P Require Import Prelude GoStrings Errors Values Http.
From Stdlib Require Import ZArith Ascii String Lia.
From stdpp Require Import gmap list strings.

Local Open Scope string_scope.

(** ** Canonical paths *)

(** The loop of [path.Clean] over the segments of a rooted path, the segments kept so far in
    reverse order. *)
Fixpoint clean_segments (kept segments : list string) : list string :=
  match segments with
  | [] => reverse kept
  | seg :: segments' =>
      if bool_decide (seg = "") || bool_decide (seg = ".") then clean_segments kept segments'
      else if bool_decide (seg = "..") then clean_segments (tail kept) segments'
      else clean_segments (seg :: kept) segments'
  end.

(** [path.Clean(p)] of a rooted path. *)
Definition path_clean (p : string) : string :=
  "/" +:+ str_join "/" (clean_segments [] (split_on "/"%char p)).

(** [cleanPath] of net/http. *)
Definition cleanPath (p : string) : string :=
  let p := if has_prefix p "/" then p else "/" +:+ p in
  let np := path_clean p in
  if has_suffix p "/" && negb (bool_decide (np = "/")) then np +:+ "/" else np.

(** A segment that cleaning keeps. *)
Definition plain_segment (seg : string) : Prop :=
  seg <> "" /\ seg <> "." /\ seg <> ".." /\ no_byte "/"%char seg = true.

(** A path in canonical form. *)
Inductive canonical : string -> Prop :=
| canonical_path segs : Forall plain_segment segs -> canonical ("/" +:+ str_join "/" segs)
| canonical_tree segs : Forall plain_segment segs -> segs <> [] -> canonical ("/" +:+ str_join "/" segs +:+ "/").

Lemma clean_segments_plain kept segs :
  Forall plain_segment kept -> Forall (fun seg => no_byte "/"%char seg = true) segs ->
  Forall plain_segment (clean_segments kept segs).
Proof.
  intros Hk Hs. revert kept Hk. induction Hs as [|seg segs Hseg _ IH]; intros kept Hk; cbn [clean_segments].
  - by apply Forall_reverse.
  - destruct (bool_decide (seg = "") || _) eqn:E; [by apply IH|].
    destruct (bool_decide (seg = "..")) eqn:E'.
    + apply IH. by destruct Hk.
    + apply orb_false_iff in E as [E1 E2]. breflect. apply IH. by constructor.
Qed.

Lemma clean_segments_id kept segs :
  Forall plain_segment segs -> clean_segments kept segs = app (reverse kept) segs.
Proof.
  intros Hs. revert kept. induction Hs as [|seg segs (H1 & H2 & H3 & _) _ IH]; intros kept; cbn [clean_segments].
  - by rewrite app_nil_r.
  - rewrite !bool_decide_eq_false_2 by done. cbn [orb]. rewrite IH, reverse_cons, <- app_assoc. done.
Qed.

Lemma clean_segments_snoc kept segs : clean_segments kept (app segs [""]) = clean_segments kept segs.
Proof.
  revert kept. induction segs as [|seg segs IH]; intros kept; cbn; [done|]. by rewrite !IH.
Qed.

Lemma plain_pieces segs : Forall plain_segment segs -> Forall (fun seg => no_byte "/"%char seg = true) segs.
Proof. intros Hs. eapply Forall_impl; [exact Hs|]. by intros seg (_ & _ & _ & ?). Qed.

Lemma split_rooted p : split_on "/"%char ("/" +:+ p) = "" :: split_on "/"%char p.
Proof. done. Qed.

(** Cleaning a rooted path that is clean gives it back. *)
Lemma path_clean_id segs :
  Forall plain_segment segs -> path_clean ("/" +:+ str_join "/" segs) = "/" +:+ str_join "/" segs.
Proof.
  intros Hs. unfold path_clean. rewrite split_rooted. cbn [clean_segments].
  rewrite bool_decide_eq_true_2 by done. cbn [orb]. destruct segs as [|seg segs]; [done|].
  rewrite split_join by (done || by apply plain_pieces). by rewrite clean_segments_id.
Qed.

Lemma path_clean_slash p : path_clean (p +:+ "/") = path_clean p.
Proof. unfold path_clean. by rewrite split_on_snoc, clean_segments_snoc. Qed.

(** A clean path ends in a slash only when it is the root. *)
Lemma plain_no_slash segs :
  Forall plain_segment segs -> segs <> [] -> has_suffix ("/" +:+ str_join "/" segs) "/" = false.
Proof.
  intros Hs Hne. apply not_true_iff_false. intros [t Ht]%has_suffix_spec.
  apply (f_equal (fun s => last (split_on "/"%char s))) in Ht. rewrite split_on_snoc, last_snoc in Ht.
  rewrite split_rooted, split_join in Ht by (done || by apply plain_pieces).
  destruct segs as [|seg segs]; [done|]. cbn [last] in Ht.
  apply last_Some_elem_of, (proj1 (Forall_forall _ _) Hs) in Ht. by destruct Ht.
Qed.

Lemma cleanPath_canonical p : canonical (cleanPath p).
Proof.
  unfold cleanPath. set (q := if has_prefix p "/" then p else "/" +:+ p).
  assert (Hc : exists segs, Forall plain_segment segs /\ path_clean q = "/" +:+ str_join "/" segs).
  { eexists. split; [|done]. apply clean_segments_plain; [done|apply split_on_pieces]. }
  destruct Hc as (segs & Hs & ->). destruct (has_suffix q "/"); cbn [andb]; [|by constructor].
  case_bool_decide as Hr; cbn [negb]; [by constructor|]. rewrite string_app_assoc.
  constructor; [done|]. intros ->. by apply Hr.
Qed.

Lemma cleanPath_fixed p : canonical p -> cleanPath p = p.
Proof.
  intros Hp. unfold cleanPath. destruct Hp as [segs Hs|segs Hs Hne].
  - rewrite has_prefix_app, path_clean_id by done. destruct segs as [|seg segs]; [done|].
    by rewrite plain_no_slash.
  - rewrite has_prefix_app, <- string_app_assoc, path_clean_slash, path_clean_id by done.
    rewrite (proj2 (has_suffix_spec _ _)) by eauto. rewrite bool_decide_eq_false_2; [done|].
    destruct segs as [|seg segs]; [done|]. apply Forall_cons in Hs as [(Hn & _) _]. intros He.
    injection He as He. destruct seg; [done|]. by destruct segs.
Qed.

(** ** Tables *)

Section mux.
Context {B St R : Type}.

Definition ServeMux : Type := list (string * handler B St R).

Definition is_subtree (pattern : string) : bool := has_suffix pattern "/".

Definition pattern_matches (pattern path : string) : bool :=
  if is_subtree pattern then has_prefix path pattern else bool_decide (pattern = path).

(** The longest pattern that matches. *)
Fixpoint mux_match (m : ServeMux) (path : string) : option (string * handler B St R) :=
  match m with
  | [] => None
  | (pattern, h) :: m' =>
      let rest := mux_match m' path in
      if pattern_matches pattern path then
        match rest with
        | Some (q, h') => if (String.length pattern <? String.length q)%nat then Some (q, h') else Some (pattern, h)
        | None => Some (pattern, h)
        end
      else rest
  end.

(** A path without its final slash, when only the subtree is registered. *)
Definition lacks_slash (m : ServeMux) (path : string) : bool :=
  negb (bool_decide (path ∈ m.*1)) && negb (has_suffix path "/") && bool_decide (path +:+ "/" ∈ m.*1).

Definition not_found : response R := http_error 404 "404 page not found".

Definition redirect (r : request B) (path : string) : response R :=
  mkResponse 301 {["Location" := if bool_decide (r_RawQuery r = "") then path
                                 else path +:+ "?" +:+ r_RawQuery r]} NoBody.

(** [mux.ServeHTTP]. *)
Definition mux_serve (m : ServeMux) : handler B St R :=
  fun r s =>
    let path := if bool_decide (r_Method r = "CONNECT") then r_Path r else cleanPath (r_Path r) in
    if lacks_slash m path then halt s (redirect r (path +:+ "/"))
    else if negb (bool_decide (path = r_Path r)) then halt s (redirect r path)
    else match mux_match m path with
         | Some (_, h) => h r s
         | None => halt s not_found
         end.

(** ** Facts *)

Lemma mux_match_Some m path p h :
  mux_match m path = Some (p, h) ->
  (p, h) ∈ m /\ pattern_matches p path = true
  /\ forall q, q ∈ m.*1 -> pattern_matches q path = true -> (String.length q <= String.length p)%nat.
Proof.
  revert p h. induction m as [|[q g] m IH]; intros p h; cbn -[Nat.ltb]; [done|].
  destruct (pattern_matches q path) eqn:Hq.
  - destruct (mux_match m path) as [[p' h']|] eqn:Hm.
    + destruct (IH _ _ eq_refl) as (Hin & Hp & Hmax).
      destruct (String.length q <? String.length p')%nat eqn:Hl; intros [= <- <-]; breflect.
      * split; [by right|]. split; [done|]. intros x Hx Hxm.
        apply elem_of_cons in Hx as [->|Hx]; [lia|by apply Hmax].
      * split; [left|]. split; [done|]. intros x Hx Hxm. apply elem_of_cons in Hx as [->|Hx]; [lia|].
        specialize (Hmax x Hx Hxm). lia.
    + intros [= <- <-]. split; [left|]. split; [done|]. intros x Hx Hxm.
      apply elem_of_cons in Hx as [->|Hx]; [lia|].
      exfalso. clear IH. induction m as [|[y g'] m IHm]; [by apply not_elem_of_nil in Hx|]. cbn in Hm, Hx.
      destruct (pattern_matches y path) eqn:Hy; [by repeat case_match|].
      apply elem_of_cons in Hx as [->|Hx]; [congruence|by apply IHm].
  - intros Hm. destruct (IH _ _ Hm) as (Hin & Hp & Hmax). split; [by right|]. split; [done|].
    intros x Hx Hxm. apply elem_of_cons in Hx as [->|Hx]; [congruence|by apply Hmax].
Qed.

Lemma mux_match_None m path :
  mux_match m path = None <-> forall q, q ∈ m.*1 -> pattern_matches q path = false.
Proof.
  induction m as [|[q g] m IH]; cbn; [by split; [intros _ q ?%not_elem_of_nil|]|].
  destruct (pattern_matches q path) eqn:Hq.
  - split; [by repeat case_match|]. intros Hall. specialize (Hall q ltac:(left)). congruence.
  - rewrite IH. split; [intros Hall x [->|Hx]%elem_of_cons; auto|].
    intros Hall x Hx. apply Hall. by right.
Qed.
End mux.

(** Two patterns that match one path and have the same length are the same. *)
Lemma has_prefix_len s p q :
  has_prefix s p = true -> has_prefix s q = true -> String.length p = String.length q -> p = q.
Proof.
  intros [t ->]%has_prefix_spec [u Hu]%has_prefix_spec Hl.
  pose proof (take_bytes_app p t) as Hp. by rewrite Hu, Hl, take_bytes_app in Hp.
Qed.

Lemma pattern_matches_prefix p path : pattern_matches p path = true -> has_prefix path p = true.
Proof.
  unfold pattern_matches. destruct (is_subtree p); [done|]. intros ->%bool_decide_eq_true.
  rewrite <- (string_app_nil_r path) at 1. apply has_prefix_app.
Qed.

Section routing.
Context {B St R : Type}.
Implicit Types m : ServeMux (B := B) (St := St) (R := R).

(** A table of distinct patterns routes the same in every order. *)
Lemma mux_match_perm m m' path : NoDup m.*1 -> m ≡ₚ m' -> mux_match m path = mux_match m' path.
Proof.
  intros Hnd Hp.
  destruct (mux_match m path) as [[p h]|] eqn:Hm; destruct (mux_match m' path) as [[q g]|] eqn:Hm'; [| | |done].
  - apply mux_match_Some in Hm as (Hin & Hpm & Hmax), Hm' as (Hin' & Hqm & Hmax').
    rewrite <- Hp in Hin'. assert (p = q) as ->.
    { apply (has_prefix_len path); [by apply pattern_matches_prefix..|].
      assert (p ∈ m'.*1) by (rewrite <- Hp; by apply (list_elem_of_fmap_2' fst m (p, h))).
      assert (q ∈ m.*1) by by apply (list_elem_of_fmap_2' fst m (q, g)).
      specialize (Hmax q). specialize (Hmax' p). apply Nat.le_antisymm; auto. }
    apply (elem_of_list_to_map_1 (M := gmap string)) in Hin, Hin'; [|done..]. congruence.
  - apply mux_match_Some in Hm as (Hin & Hpm & _). rewrite Hp in Hin.
    rewrite (proj1 (mux_match_None m' path) Hm' p) in Hpm; [done|]. by apply (list_elem_of_fmap_2' fst m' (p, h)).
  - apply mux_match_Some in Hm' as (Hin & Hpm & _). rewrite <- Hp in Hin.
    rewrite (proj1 (mux_match_None m path) Hm q) in Hpm; [done|]. by apply (list_elem_of_fmap_2' fst m (q, g)).
Qed.

(** The path a request is routed on. *)
Definition routed_path (r : request B) : string :=
  if bool_decide (r_Method r = "CONNECT") then r_Path r else cleanPath (r_Path r).

Lemma mux_serve_found m r s :
  routed_path r = r_Path r -> lacks_slash m (r_Path r) = false ->
  mux_serve m r s = match mux_match m (r_Path r) with Some (_, h) => h r s | None => halt s not_found end.
Proof.
  unfold mux_serve. fold (routed_path r). intros -> ->. by rewrite bool_decide_eq_true_2.
Qed.

(** A request is answered by the handler of the most specific pattern, or not at all. *)
Lemma mux_serve_cases m r s :
  (exists p h, (p, h) ∈ m /\ pattern_matches p (r_Path r) = true
     /\ (forall q, q ∈ m.*1 -> pattern_matches q (r_Path r) = true -> (String.length q <= String.length p)%nat)
     /\ routed_path r = r_Path r /\ mux_serve m r s = h r s)
  \/ exists resp, mux_serve m r s = halt s resp
       /\ ((rs_Status resp = 301%Z /\ rs_Body resp = NoBody)
           \/ (resp = not_found /\ forall q, q ∈ m.*1 -> pattern_matches q (r_Path r) = false)).
Proof.
  unfold mux_serve. fold (routed_path r).
  destruct (lacks_slash m (routed_path r)); [right; eexists; split; [done|]; by left|].
  case_bool_decide as Hc; cbn [negb]; [|right; eexists; split; [done|]; by left]. rewrite Hc.
  destruct (mux_match m (r_Path r)) as [[p h]|] eqn:Hm.
  - left. apply mux_match_Some in Hm as (Hin & Hp & Hmax). by exists p, h.
  - right. eexists. split; [done|]. right. split; [done|]. by apply mux_match_None.
Qed.

(** The pattern that is the path wins. *)
Lemma mux_match_exact m p h : NoDup m.*1 -> (p, h) ∈ m -> mux_match m p = Some (p, h).
Proof.
  intros Hnd Hin. assert (Hp : pattern_matches p p = true).
  { unfold pattern_matches. destruct (is_subtree p); [|by apply bool_decide_eq_true].
    rewrite <- (string_app_nil_r p) at 1. apply has_prefix_app. }
  assert (Hp1 : p ∈ m.*1) by by apply (list_elem_of_fmap_2' fst m (p, h)).
  destruct (mux_match m p) as [[q g]|] eqn:Hm.
  - apply mux_match_Some in Hm as (Hin' & Hq & Hmax). specialize (Hmax p Hp1 Hp).
    assert (q = p) as ->.
    { apply pattern_matches_prefix, has_prefix_spec in Hq as [t ->]. rewrite string_length_app in Hmax.
      assert (t = "") as -> by (destruct t; [done|cbn in Hmax; lia]). by rewrite string_app_nil_r. }
    apply (elem_of_list_to_map_1 (M := gmap string)) in Hin, Hin'; [|done..]. congruence.
  - rewrite (proj1 (mux_match_None m p) Hm p Hp1) in Hp. done.
Qed.

Lemma mux_serve_exact m r s p h :
  NoDup m.*1 -> (p, h) ∈ m -> r_Path r = p -> cleanPath p = p -> mux_serve m r s = h r s.
Proof.
  intros Hnd Hin Hp Hc. rewrite mux_serve_found; rewrite Hp.
  - by rewrite (mux_match_exact m p h).
  - unfold routed_path. rewrite Hp, Hc. by case_bool_decide.
  - unfold lacks_slash. rewrite bool_decide_eq_true_2; [done|]. by apply (list_elem_of_fmap_2' fst m (p, h)).
Qed.

(** Routing.  A request runs the handler of the longest registered pattern that matches
    its path, and then that path is canonical: rooted, without empty, "." or ".." segments
    (unless the method is CONNECT).  Otherwise no handler runs and the state is untouched:
    the answer is a redirect, or 404 when no pattern matches.  The order in which patterns
    were registered makes no difference. *)
Theorem routing_sound m m' r s :
  NoDup m.*1 -> m ≡ₚ m' ->
  mux_serve m r s = mux_serve m' r s
  /\ ((exists p h, (p, h) ∈ m /\ pattern_matches p (r_Path r) = true
         /\ (forall q, q ∈ m.*1 -> pattern_matches q (r_Path r) = true -> q <> p ->
               (String.length q < String.length p)%nat)
         /\ (r_Method r <> "CONNECT" -> canonical (r_Path r)) /\ mux_serve m r s = h r s)
      \/ exists resp, mux_serve m r s = halt s resp
           /\ (rs_Status resp = 301%Z
               \/ (rs_Status resp = 404%Z /\ forall q, q ∈ m.*1 -> pattern_matches q (r_Path r) = false))).
Proof.
  intros Hnd Hp. split.
  - assert (Hl : forall path, lacks_slash m path = lacks_slash m' path).
    { intros path. unfold lacks_slash. f_equal; [f_equal; f_equal|]; apply bool_decide_ext; by rewrite Hp. }
    unfold mux_serve. fold (routed_path r). rewrite Hl. by rewrite (mux_match_perm m m').
  - destruct (mux_serve_cases m r s) as [(p & h & Hin & Hpm & Hmax & Hc & He)|(resp & He & [[Hs _]|[-> Hn]])];
      [left|right; eauto 10..].
    exists p, h. do 2 (split; [done|]). split; [|split; [|done]].
    + intros q Hq Hqm Hne. specialize (Hmax q Hq Hqm). destruct (decide (String.length q = String.length p)); [|lia].
        exfalso. apply Hne, (has_prefix_len (r_Path r)); [by apply pattern_matches_prefix..|done].
    + intros Hm. unfold routed_path in Hc. rewrite bool_decide_eq_false_2 in Hc by done.
        rewrite <- Hc. apply cleanPath_canonical.
Qed.
End routing.

Definition echo_path : handler unit unit string := fun r s => halt s (respond 200 (r_Path r)).

Definition sample_mux : ServeMux := [("/v1/", echo_path); ("/v1/keys", echo_path)].

Definition get_path (path : string) : request unit := mkRequest "GET" path "" (fun _ => "") "" None background.

Lemma routing_sound_witness :
  let run p := mux_serve (reverse sample_mux) (get_path p) tt in
  run "/v1/keys" = halt tt (respond 200 "/v1/keys")
  /\ rs_Status (out_response (run "/v1/../v1/./keys")) = 301%Z
  /\ rs_Status (out_response (run "/v2")) = 404%Z.
Proof.
  cbv zeta. assert (Hnd : NoDup sample_mux.*1) by (apply (bool_decide_unpack _); vm_compute; exact I).
  split; [|split; vm_compute; reflexivity].
  refine (eq_trans (eq_sym (proj1 (routing_sound sample_mux (reverse sample_mux) (get_path "/v1/keys") tt Hnd
    (symmetry (reverse_Permutation _))))) _).
  vm_compute. reflexivity.
Defined.
