(* ===== verification/Tenant.v ===== *)
(** * Tenants.

    Models internal/domain/tenant.go, internal/tenant/store.go (the interface and the
    in-memory store), internal/tenant/resolver.go and
    internal/httpserver/middleware_tenant.go. *)

From S2P Require Import Prelude GoStrings GoTime Errors Values Crypto Credential Instances Http.
From Stdlib Require Import ZArith Ascii String Lia.
From stdpp Require Import gmap list strings.

Local Open Scope string_scope.

(** Source: internal/domain/tenant.go, [Tenant]. *)
Record Tenant := mkTenant {
  t_ID : string;
  t_Name : string;
  t_Enabled : bool;
  t_CreatedAt : time;
  t_UpdatedAt : time;
}.

#[global] Instance Tenant_eq_dec : EqDecision Tenant.
Proof. solve_decision. Defined.

(** Source: internal/tenant/store.go, [MemoryStore]. *)
Definition TenantStore : Type := gmap string Tenant.

(** Source: internal/tenant/store.go, [MemoryStore.GetTenant]. *)
Definition GetTenant (m : TenantStore) (id : string) : result error Tenant :=
  of_option (ErrVar ErrTenantNotFound) (m !! id).

(** Source: internal/tenant/store.go, [MemoryStore.UpsertTenant]. *)
Definition UpsertTenant (m : TenantStore) (now : time) (t : Tenant) : result error TenantStore :=
  stop! bool_decide (t_ID t = "") with ErrText "tenant id is required" in
  let t' := mkTenant (t_ID t) (t_Name t) (t_Enabled t)
              (if is_zero (t_CreatedAt t) then now else t_CreatedAt t) now in
  Ok (<[t_ID t := t']> m).

(** Source: internal/tenant/store.go, [MemoryStore.ListTenants]. *)
Definition ListTenants (m : TenantStore) : result error (list Tenant) := Ok (map_to_list m).*2.

(** The code compares a mode only with [ModeSingle]; any other string acts as [ModeMulti].
    Source: internal/tenant/store.go:12-18, [Mode]. *)
Inductive Mode := ModeSingle | ModeMulti.

#[global] Instance Mode_eq_dec : EqDecision Mode.
Proof. solve_decision. Defined.

(** [Store] is the lookup of the configured store, [None] when there is none.
    Source: internal/tenant/resolver.go, [Resolver]. *)
Record Resolver := mkResolver {
  res_Mode : Mode;
  res_DefaultTenantID : string;
  res_Store : option (string -> result error Tenant);
}.

(** Source: internal/tenant/resolver.go, [Resolver.Resolve]. *)
Definition Resolve {B} (res : Resolver) (req : request B) : result error Tenant :=
  match res_Store res with
  | None => Err (ErrText "tenant store not configured")
  | Some get =>
      let header := r_Header req "X-Tenant-ID" in
      let! tenantID :=
        (if bool_decide (header = "") then
           match res_Mode res with
           | ModeSingle => Ok (res_DefaultTenantID res)
           | ModeMulti => Err (ErrText "tenant header required")
           end
         else Ok header) in
      let! tenant := get tenantID in
      stop! negb (t_Enabled tenant) with ErrVar ErrTenantDisabled in
      Ok tenant
  end.

(** The refusal of a request whose tenant was not resolved.
    Source: internal/httpserver/middleware_tenant.go:14-32, [TenantMiddleware]. *)
Definition tenant_refusal {R} (mode : Mode) (err : error) : response R :=
  if bool_decide (err = ErrVar ErrTenantNotFound) then
    WriteAPIError 404 "tenant_not_found" (error_text err)
  else if bool_decide (err = ErrVar ErrTenantDisabled) then
    WriteAPIError 403 "tenant_disabled" (error_text err)
  else
    WriteAPIError (match mode with ModeSingle => 500 | ModeMulti => 400 end) "tenant_required"
      (error_text err).

(** Source: internal/httpserver/middleware_tenant.go, [TenantMiddleware]. *)
Definition TenantMiddleware {B St R} (res : Resolver) (next : handler B St R) : handler B St R :=
  fun r s =>
    match Resolve res r with
    | Err err => halt s (tenant_refusal (res_Mode res) err)
    | Ok tnt => next (with_context (with_tenant_key (t_ID tnt) (r_Context r)) r) s
    end.

(** ** Facts *)

(** Tenants are stored under their id. *)
Definition tenants_ok (m : TenantStore) : Prop := map_Forall (fun id t => t_ID t = id /\ id <> "") m.

Lemma empty_ok : tenants_ok ∅.
Proof. apply map_Forall_empty. Qed.

Lemma upsert_ok m now t m' : tenants_ok m -> UpsertTenant m now t = Ok m' -> tenants_ok m'.
Proof.
  intros Hm Hu. unfold UpsertTenant in Hu. stop_inv Hu as Hid. injection Hu as <-. breflect.
  by apply map_Forall_insert_2.
Qed.

Lemma Resolve_Ok {B} res (req : request B) t :
  Resolve res req = Ok t <->
  exists get id, res_Store res = Some get /\ get id = Ok t /\ t_Enabled t = true
    /\ (if bool_decide (r_Header req "X-Tenant-ID" = "")
        then res_Mode res = ModeSingle /\ id = res_DefaultTenantID res
        else id = r_Header req "X-Tenant-ID").
Proof.
  unfold Resolve. destruct (res_Store res) as [get|]; [|naive_solver]. split.
  - intros Hr. bind_inv Hr as id Hid. bind_inv Hr as t' Ht. stop_inv Hr as He. injection Hr as ->.
    exists get, id. breflect. split; [done|]. split; [done|]. split; [done|].
    case_bool_decide; [|congruence]. destruct (res_Mode res); naive_solver.
  - intros (get' & id & [= <-] & Ht & He & Hid). case_bool_decide.
    + destruct Hid as [-> ->]. cbn [rbind]. rewrite Ht. cbn [rbind]. by rewrite He.
    + subst id. cbn [rbind]. rewrite Ht. cbn [rbind]. by rewrite He.
Qed.

(** ** Properties *)

(** Behind the tenant middleware a handler only ever runs for an enabled tenant of the
    store: when it runs, its context holds the id of such a tenant, the one the header names
    or, in single mode without a header, the default one; in every other case the request is
    refused with an error status and the state is untouched. *)
Theorem tenant_gate {B St R} mode dflt m (next : handler B St R) (r : request B) (s : St) :
  tenants_ok m ->
  let o := TenantMiddleware (mkResolver mode dflt (Some (GetTenant m))) next r s in
  (exists id t, m !! id = Some t /\ t_Enabled t = true
     /\ o = next (with_context (with_tenant_key id (r_Context r)) r) s
     /\ (if bool_decide (r_Header r "X-Tenant-ID" = "") then mode = ModeSingle /\ id = dflt
         else id = r_Header r "X-Tenant-ID"))
  \/ ((400 <= rs_Status (out_response o))%Z /\ out_state o = s /\ out_effects o = []).
Proof.
  intros Hm. cbv zeta. unfold TenantMiddleware.
  destruct (Resolve _ r) as [t|e] eqn:Hr.
  - left. apply Resolve_Ok in Hr as (get & id & [= <-] & Ht & He & Hid). cbn [res_Mode res_DefaultTenantID] in Hid.
    unfold GetTenant in Ht. apply of_option_Ok in Ht. exists id, t.
    destruct (Hm id t Ht) as [-> _]. done.
  - right. cbn. unfold tenant_refusal. destruct mode; repeat case_bool_decide; cbn; split; done || lia.
Qed.

Definition acme : Tenant := mkTenant "acme" "Acme" true 0 0.
Definition closed : Tenant := mkTenant "closed" "Closed" false 0 0.
Definition two_tenants_store : TenantStore := {["acme" := acme; "closed" := closed]}.

Definition tenant_request (id : string) : request unit :=
  mkRequest "GET" "/" "" (fun h => if bool_decide (h = "X-Tenant-ID") then id else "") "" None background.

Definition echo_tenant : handler unit unit string :=
  fun r s => (respond 200 (TenantIDFromContext (r_Context r)), s, []).

Lemma tenant_gate_witness :
  let run id := TenantMiddleware (mkResolver ModeMulti "" (Some (GetTenant two_tenants_store)))
                  echo_tenant (tenant_request id) tt in
  tenants_ok two_tenants_store
  /\ (400 <= rs_Status (out_response (run "closed")))%Z
  /\ rs_Body (out_response (run "acme")) = Body "acme".
Proof.
  cbv zeta.
  assert (Hok : tenants_ok two_tenants_store)
    by (apply map_Forall_insert_2; [done|]; apply map_Forall_insert_2; [done|apply map_Forall_empty]).
  split; [exact Hok|]. split; [|reflexivity].
  destruct (tenant_gate ModeMulti "" two_tenants_store echo_tenant (tenant_request "closed") tt Hok)
    as [(id & t & Hid & He & _ & Hh)|[Hs _]]; [|exact Hs].
  vm_compute in Hh. subst id. vm_compute in Hid. injection Hid as <-. discriminate.
Defined.
