(* ===== verification/Server.v ===== *)
(** * Servers.

    What the two services share: adapters that mount a handler with its own body, state and
    answer in a server (internal/httpserver/router.go registers them the same way), and
    internal/httpserver/health_handlers.go.  A server reads the bytes of a body; each handler
    decodes them, [BodyDecoder] being the decoder for its type. *)

From S2P Require Import Prelude GoStrings GoTime Errors Values Crypto Http Mux Tenant.
From Stdlib Require Import ZArith Ascii String Lia.
From stdpp Require Import gmap list strings.

Local Open Scope string_scope.

(** [json.NewDecoder(r.Body).Decode], or [ParseForm] for a form. *)
Class BodyDecoder (T : Type) := decode_body : string -> option T.

(** [http.NewRequestWithContext] with a method and a URL: it may refuse either. *)
Class NewRequest := new_request : string -> string -> result error unit.

(** ** Mounting *)

Definition map_body {R A} (f : R -> A) (b : body R) : body A :=
  match b with
  | Body b => Body (f b)
  | ErrorBody e => ErrorBody e
  | NoBody => NoBody
  end.

Definition map_response {R A} (f : R -> A) (resp : response R) : response A :=
  mkResponse (rs_Status resp) (rs_Header resp) (map_body f (rs_Body resp)).

Definition with_body {B B'} (b : option B') (r : request B) : request B' :=
  mkRequest (r_Method r) (r_Path r) (r_RawQuery r) (r_Header r) (r_RemoteAddr r) b (r_Context r).

Section mount.
Context {S St B R A : Type}.

(** The request a handler sees behind its decoder. *)
Definition decoded `{BodyDecoder B} (r : request string) : request B := with_body (r_Body r ≫= decode_body) r.

(** A handler on a part of a server's state, [get] and [put] reading and writing that part. *)
Definition mount `{BodyDecoder B} (get : S -> St) (put : St -> S -> S) (inj : R -> A) (h : handler B St R)
  : handler string S A :=
  fun r s =>
    let '(resp, st, es) := h (decoded r) (get s) in
    (map_response inj resp, put st s, es).

Lemma mount_eq `{BodyDecoder B} get put inj h r s :
  mount get put inj h r s
  = (map_response inj (out_response (h (decoded r) (get s))), put (out_state (h (decoded r) (get s))) s,
     out_effects (h (decoded r) (get s))).
Proof. unfold mount. by destruct (h _ _) as [[??]?]. Qed.
End mount.

(** ** Health *)

(** Source: internal/httpserver/health_handlers.go, [HealthResponse]. *)
Record HealthResponse := mkHealth { hr_Status : string; hr_APIVersion : string }.

Section health.
Context {B S : Type}.

(** Source: internal/httpserver/health_handlers.go, [writeHealthOK]. *)
Definition writeHealthOK : response HealthResponse := respond 200 (mkHealth "ok" APIVersion).

(** Source: internal/httpserver/health_handlers.go:19-21, [RegisterHealthRoutes]. *)
Definition handleHealth : handler B S HealthResponse := fun r s => halt s writeHealthOK.

(** [readinessCheck] is what the check of the server answers, when there is one.
    Source: internal/httpserver/health_handlers.go:23-32, [RegisterHealthRoutes]. *)
Definition handleReady (readinessCheck : option (result error unit)) : handler B S HealthResponse :=
  fun r s =>
    match readinessCheck with
    | Some (Err err) => halt s (WriteAPIError 503 "not_ready" (error_text err))
    | _ => halt s writeHealthOK
    end.
End health.

(** ** The shell around a mux *)

(** What the middlewares of a server take from the environment of one request: the random
    identifier, the time of their events, and the measures of the answer. *)
Record arrival := mkArrival {
  ar_generated : string;
  ar_now : time;
  ar_duration : Z;
  ar_bytes : Z;
}.

Section shell.
Context `{Unicode}.
Context {S R : Type}.

(** Source: services/verifier/server.go:221-221, [NewServer]. *)
Definition shell (a : arrival) (res : Resolver) (h : handler string S R) : handler string S R :=
  StandardMiddlewareChain (ar_now a) (ar_generated a) (ar_duration a) (ar_bytes a) (TenantMiddleware res h).

(** The request a handler of the mux sees, for tenant [id]. *)
Definition admitted (a : arrival) (id : string) (r : request string) : request string :=
  let r := seen_request (ar_generated a) r in with_context (with_tenant_key id (r_Context r)) r.

Lemma standard_chain_state now generated duration bytes (h : handler string S R) r s :
  out_state (StandardMiddlewareChain now generated duration bytes h r s)
  = out_state (h (seen_request generated r) s).
Proof.
  unfold StandardMiddlewareChain. rewrite !MiddlewareChain_cons.
  unfold SecurityHeadersMiddleware, CorrelationIDMiddleware, AuditMiddleware, RateLimitAuditMiddleware.
  change (MiddlewareChain [] h) with h. change (with_context _ r) with (seen_request generated r).
  by destruct (h (seen_request generated r) s) as [[??]?].
Qed.

Lemma standard_chain_response now generated duration bytes (h : handler string S R) r s :
  rs_Status (out_response (StandardMiddlewareChain now generated duration bytes h r s))
  = rs_Status (out_response (h (seen_request generated r) s))
  /\ rs_Body (out_response (StandardMiddlewareChain now generated duration bytes h r s))
  = rs_Body (out_response (h (seen_request generated r) s)).
Proof.
  unfold StandardMiddlewareChain. rewrite !MiddlewareChain_cons.
  unfold SecurityHeadersMiddleware, CorrelationIDMiddleware, AuditMiddleware, RateLimitAuditMiddleware.
  change (MiddlewareChain [] h) with h. change (with_context _ r) with (seen_request generated r).
  by destruct (h (seen_request generated r) s) as [[??]?].
Qed.

(** The tenant a request resolves to. *)
Definition resolves_to (res : Resolver) (a : arrival) (r : request string) (t : Tenant) : Prop :=
  Resolve res (seen_request (ar_generated a) r) = Ok t.

(** A request is served for one tenant, or refused with the state as it was. *)
Lemma shell_cases a res h r s :
  (exists t, resolves_to res a r t
     /\ let o := h (admitted a (t_ID t) r) s in
        out_state (shell a res h r s) = out_state o
        /\ rs_Status (out_response (shell a res h r s)) = rs_Status (out_response o)
        /\ rs_Body (out_response (shell a res h r s)) = rs_Body (out_response o))
  \/ ((forall t, ~ resolves_to res a r t) /\ out_state (shell a res h r s) = s
      /\ (400 <= rs_Status (out_response (shell a res h r s)))%Z
      /\ exists e, rs_Body (out_response (shell a res h r s)) = ErrorBody e).
Proof.
  unfold shell, resolves_to.
  pose proof (standard_chain_response (ar_now a) (ar_generated a) (ar_duration a) (ar_bytes a)
    (TenantMiddleware res h) r s) as [Hs Hb].
  rewrite standard_chain_state. unfold TenantMiddleware in *.
  destruct (Resolve res (seen_request (ar_generated a) r)) as [t|e].
  - left. exists t. done.
  - right. split; [done|]. split; [done|]. rewrite Hs, Hb. cbn. unfold tenant_refusal.
    destruct (res_Mode res); repeat case_bool_decide; cbn; split; lia || eauto.
Qed.
End shell.
