(* ===== verification/Trust.v ===== *)
(** * Trust registries and revocations.

    Models internal/domain/trust_registry.go (the interface, as a class, and the in-memory
    registry), internal/trust/tenant_registry.go (the in-memory tenant registry),
    internal/domain/revocation.go, and the HTTP handlers over them
    (internal/httpserver/trust_handlers.go and admin_revocation.go). *)

From S2P Require Import Prelude GoStrings Base64 GoTime Errors Values Crypto Credential Instances.
From S2P Require Import Delegation SDJwt Verify VerifyFacts Issue ChainExample Http.
From Stdlib Require Import ZArith Ascii String Lia.
From stdpp Require Import gmap list strings.

Local Open Scope string_scope.

(** ** The interface *)

(** Source: internal/domain/trust_registry.go, [TrustRegistry]. *)
Class TrustRegistry (St : Type) := {
  IsTrustedIssuer : St -> string -> string -> result error bool;
  AddTrustedIssuer : St -> string -> string -> result error St;
  RemoveTrustedIssuer : St -> string -> string -> result error St;
}.

(** A registry is a set of issuers for each tenant. *)
Class TrustRegistryLaws (St : Type) `{TrustRegistry St} := {
  trusted_set : St -> string -> gset string;
  is_trusted_law s t i : IsTrustedIssuer s t i = Ok (bool_decide (i ∈ trusted_set s t));
  add_trusted_law s t i : exists s', AddTrustedIssuer s t i = Ok s' /\
    forall t', trusted_set s' t' = if decide (t' = t) then {[i]} ∪ trusted_set s t' else trusted_set s t';
  remove_trusted_law s t i : exists s', RemoveTrustedIssuer s t i = Ok s' /\
    forall t', trusted_set s' t' = if decide (t' = t) then trusted_set s t' ∖ {[i]} else trusted_set s t';
}.

(** ** The in-memory registry *)

Module MemoryTrust.

(** Source: internal/domain/trust_registry.go, [MemoryTrustRegistry]. *)
Record MemoryTrustRegistry := mkRegistry { trusted : gmap string (gset string) }.

(** Source: internal/domain/trust_registry.go, [NewMemoryTrustRegistry]. *)
Definition NewMemoryTrustRegistry : MemoryTrustRegistry := mkRegistry ∅.

(** Source: internal/domain/trust_registry.go, [MemoryTrustRegistry.IsTrustedIssuer]. *)
Definition IsTrustedIssuer (m : MemoryTrustRegistry) (tenantID issuerDID : string) : result error bool :=
  match trusted m !! tenantID with
  | None => Ok false
  | Some issuers => Ok (bool_decide (issuerDID ∈ issuers))
  end.

(** Source: internal/domain/trust_registry.go, [MemoryTrustRegistry.AddTrustedIssuer]. *)
Definition AddTrustedIssuer (m : MemoryTrustRegistry) (tenantID issuerDID : string)
  : result error MemoryTrustRegistry :=
  Ok (mkRegistry (<[tenantID := {[issuerDID]} ∪ default ∅ (trusted m !! tenantID)]> (trusted m))).

(** Source: internal/domain/trust_registry.go, [MemoryTrustRegistry.RemoveTrustedIssuer]. *)
Definition RemoveTrustedIssuer (m : MemoryTrustRegistry) (tenantID issuerDID : string)
  : result error MemoryTrustRegistry :=
  match trusted m !! tenantID with
  | None => Ok m
  | Some issuers => Ok (mkRegistry (<[tenantID := issuers ∖ {[issuerDID]}]> (trusted m)))
  end.

#[global] Instance memory_trust : TrustRegistry MemoryTrustRegistry := {|
  Trust.IsTrustedIssuer := IsTrustedIssuer;
  Trust.AddTrustedIssuer := AddTrustedIssuer;
  Trust.RemoveTrustedIssuer := RemoveTrustedIssuer;
|}.

#[global] Instance memory_trust_laws : TrustRegistryLaws MemoryTrustRegistry.
Proof.
  refine {| trusted_set := fun m t => default ∅ (trusted m !! t) |}.
  - intros m t i. cbn. unfold IsTrustedIssuer. by destruct (trusted m !! t).
  - intros m t i. eexists. split; [done|]. intros t'. cbn [trusted].
    destruct (decide (t' = t)) as [->|Ht]; [by rewrite lookup_insert_eq|by rewrite lookup_insert_ne].
  - intros m t i. cbn. unfold RemoveTrustedIssuer. destruct (trusted m !! t) as [iss|] eqn:Ht.
    + eexists. split; [done|]. intros t'. cbn [trusted].
      destruct (decide (t' = t)) as [->|Ht']; [by rewrite lookup_insert_eq, Ht|by rewrite lookup_insert_ne].
    + eexists. split; [done|]. intros t'. case_decide; [subst; rewrite Ht; set_solver|done].
Defined.

End MemoryTrust.

(** ** The tenant registry with metadata *)

Module TenantTrust.

(** Source: internal/trust/tenant_registry.go, [InMemoryTenantRegistry]. *)
Record InMemoryTenantRegistry := mkTenantRegistry { trusted : gmap string (gmap string claims_map) }.

(** Source: internal/trust/tenant_registry.go, [InMemoryTenantRegistry.IsTrusted]. *)
Definition IsTrusted (m : InMemoryTenantRegistry) (tenantID issuerDID : string) : result error bool :=
  match trusted m !! tenantID with
  | None => Ok false
  | Some issuers => Ok (bool_decide (is_Some (issuers !! issuerDID)))
  end.

(** Source: internal/trust/tenant_registry.go, [InMemoryTenantRegistry.AddTrustedIssuer]. *)
Definition AddTrustedIssuer (m : InMemoryTenantRegistry) (tenantID issuerDID : string) (md : claims_map)
  : result error InMemoryTenantRegistry :=
  Ok (mkTenantRegistry
        (<[tenantID := <[issuerDID := md]> (default ∅ (trusted m !! tenantID))]> (trusted m))).

(** Source: internal/trust/tenant_registry.go, [InMemoryTenantRegistry.ListTrustedIssuers]. *)
Definition ListTrustedIssuers (m : InMemoryTenantRegistry) (tenantID : string)
  : result error (list string) :=
  Ok (map_to_list (default ∅ (trusted m !! tenantID))).*1.

(** A listing has exactly the issuers the registry trusts, each once. *)
Lemma list_is_trusted m t :
  exists l, ListTrustedIssuers m t = Ok l /\ NoDup l /\ forall i, i ∈ l <-> IsTrusted m t i = Ok true.
Proof.
  eexists. split; [done|]. split; [apply NoDup_fst_map_to_list|].
  intros i. rewrite list_elem_of_fmap. unfold IsTrusted. split.
  - intros ([i' md] & -> & Hi%elem_of_map_to_list). cbn.
    destruct (trusted m !! t) as [iss|]; cbn in Hi; [|by rewrite lookup_empty in Hi].
    by rewrite bool_decide_eq_true_2.
  - destruct (trusted m !! t) as [iss|]; [|done]. intros [= [md Hmd]%bool_decide_eq_true]. cbn.
    exists (i, md). split; [done|]. by apply elem_of_map_to_list.
Qed.

(** In the tenant registry, adding an issuer makes exactly that issuer trusted, for that
    tenant only, and a listing holds the trusted issuers, each once. *)
Theorem tenant_registry_spec m t i md :
  exists m', AddTrustedIssuer m t i md = Ok m'
    /\ (forall t' i', IsTrusted m' t' i' = Ok true <->
          (t' = t /\ i' = i) \/ IsTrusted m t' i' = Ok true)
    /\ exists l, ListTrustedIssuers m' t = Ok l /\ NoDup l /\ forall i', i' ∈ l <-> IsTrusted m' t i' = Ok true.
Proof.
  eexists. split; [done|]. split; [|apply list_is_trusted].
  intros t' i'. unfold IsTrusted. cbn [trusted]. destruct (decide (t' = t)) as [->|Ht].
  - rewrite lookup_insert_eq. destruct (decide (i' = i)) as [->|Hi].
    + rewrite lookup_insert_eq, bool_decide_eq_true_2 by done. tauto.
    + rewrite lookup_insert_ne by done. destruct (trusted m !! t) as [iss|]; cbn; [tauto|].
      rewrite lookup_empty, bool_decide_eq_false_2 by (by intros [? ?]). tauto.
  - rewrite lookup_insert_ne by done. tauto.
Qed.

End TenantTrust.

(** ** Revocations *)

(** The package's [revokedByID] map.
    Source: internal/domain/revocation.go:5-8, [revokedByID]. *)
Definition revocations : Type := gmap string string.

(** Source: internal/domain/revocation.go, [AddRevocation]. *)
Definition AddRevocation (m : revocations) (id reason : string) : revocations := <[id := reason]> m.

(** Source: internal/domain/revocation.go, [RemoveRevocation]. *)
Definition RemoveRevocation (m : revocations) (id : string) : revocations := delete id m.

(** Source: internal/domain/revocation.go, [IsRevoked]. *)
Definition IsRevoked (m : revocations) (id : string) : bool * string :=
  match m !! id with Some reason => (true, reason) | None => (false, "") end.

(** Source: internal/httpserver/admin_revocation.go, [RevocationRequest]. *)
Record RevocationRequest := mkRevocationRequest {
  rv_CredentialID : string;
  rv_Reason : string;
  rv_Remove : bool;
}.

(** Source: internal/httpserver/admin_revocation.go, [RegisterAdminRevocationRoutes]. *)
Definition handleRevocation : handler RevocationRequest revocations string :=
  fun r s =>
    if bool_decide (r_Method r = "POST") then
      match r_Body r with
      | None => halt s (WriteAPIError 400 "bad_request" "credential_id required")
      | Some req =>
          if bool_decide (rv_CredentialID req = "")
          then halt s (WriteAPIError 400 "bad_request" "credential_id required")
          else
            let s' := if rv_Remove req then RemoveRevocation s (rv_CredentialID req)
                      else AddRevocation s (rv_CredentialID req) (rv_Reason req) in
            halt s' (respond 200 "ok")
      end
    else halt s (WriteAPIError 405 "method_not_allowed" "method not allowed").

(** ** The trust handler *)

(** Source: internal/httpserver/trust_handlers.go, [AddTrustedIssuerRequest]. *)
Record AddTrustedIssuerRequest := mkAddTrusted { ati_IssuerDID : string }.

(** Source: internal/httpserver/trust_handlers.go, [AddTrustedIssuerResponse]. *)
Record AddTrustedIssuerResponse := mkAddTrustedResponse {
  atr_Success : bool;
  atr_IssuerDID : string;
  atr_Message : string;
}.

Section handlers.
Context {St : Type} `{TrustRegistry St}.

(** Source: internal/httpserver/trust_handlers.go:27-62, [RegisterTrustRegistryRoutes]. *)
Definition handleAddTrustedIssuer (defaultTenantID : string)
  : handler AddTrustedIssuerRequest St AddTrustedIssuerResponse :=
  fun r s =>
    if negb (bool_decide (r_Method r = "POST")) then
      halt s (WriteAPIError 405 "method_not_allowed" "method not allowed")
    else
      match r_Body r with
      | None => halt s (WriteAPIError 400 "bad_request" "invalid request payload")
      | Some req =>
          if bool_decide (ati_IssuerDID req = "")
          then halt s (WriteAPIError 400 "invalid_request" "issuer_did is required")
          else
            match AddTrustedIssuer s defaultTenantID (ati_IssuerDID req) with
            | Err err => halt s (WriteAPIError 500 "trust_registry_error" (error_text err))
            | Ok s' =>
                halt s' (respond 201 (mkAddTrustedResponse true (ati_IssuerDID req)
                                        "Issuer added to trust registry"))
            end
      end.

(** Source: internal/httpserver/trust_handlers.go:65-77, [RegisterTrustRegistryRoutes]. *)
Definition handleListTrustedIssuers : handler unit St string :=
  fun r s =>
    if negb (bool_decide (r_Method r = "GET")) then
      halt s (WriteAPIError 405 "method_not_allowed" "method not allowed")
    else halt s (respond 200
      "List endpoint not yet implemented - check IsTrustedIssuer for specific DIDs").

(** The key lookup of the verifier and of the gateway: the issuer must be trusted by
    the tenant, when a registry is configured.
    Source: internal/httpserver/gateway_handlers.go:157-171, [RegisterGatewayRoutes]. *)
Definition trusted_resolver (registry : option St) (tenantID : string)
    (resolver : option (string -> result error public_key)) (issuer : string)
  : result error public_key :=
  let! _ :=
    match registry with
    | None => Ok tt
    | Some s =>
        let! trusted := map_err (fun e => ErrWrap "trust lookup: " e "")
                          (IsTrustedIssuer s tenantID issuer) in
        stop! negb trusted with ErrVar ErrUntrustedIssuer in Ok tt
    end in
  let! resolve := of_option (ErrText "resolver not configured") resolver in
  resolve issuer.
End handlers.

(** ** Runs of a registry *)

Inductive trust_op := TrustAdd (t i : string) | TrustRemove (t i : string).

Definition op_on (t i : string) (o : trust_op) : Prop :=
  match o with TrustAdd t' i' | TrustRemove t' i' => t' = t /\ i' = i end.

#[global] Instance op_on_dec t i o : Decision (op_on t i o).
Proof. destruct o; cbn; apply _. Defined.

Section runs.
Context {St : Type} `{TrustRegistry St}.

Definition trust_step (s : St) (o : trust_op) : St :=
  match o with
  | TrustAdd t i => default s (to_option (AddTrustedIssuer s t i))
  | TrustRemove t i => default s (to_option (RemoveTrustedIssuer s t i))
  end.

Definition is_add (o : trust_op) : bool := match o with TrustAdd _ _ => true | _ => false end.

Context `{!TrustRegistryLaws St}.

Lemma trust_step_trusted s o t i :
  i ∈ trusted_set (trust_step s o) t <->
  (if decide (op_on t i o) then is_add o = true else i ∈ trusted_set s t).
Proof.
  destruct o as [t' i'|t' i']; cbn.
  - destruct (add_trusted_law s t' i') as (s' & -> & Hs'). cbn. rewrite Hs'.
    case_decide; subst; case_decide; set_solver.
  - destruct (remove_trusted_law s t' i') as (s' & -> & Hs'). cbn. rewrite Hs'.
    case_decide; subst; case_decide; set_solver.
Qed.

(** The last operation on an issuer of a tenant decides. *)
Lemma trust_run_trusted s os t i :
  i ∈ trusted_set (foldl trust_step s os) t <->
  match last (filter (op_on t i) os) with
  | Some o => is_add o = true
  | None => i ∈ trusted_set s t
  end.
Proof.
  induction os as [|o os IH] using rev_ind; [done|].
  rewrite foldl_snoc, trust_step_trusted, filter_app. cbn [filter list_filter].
  case_decide; [by rewrite last_snoc|]. by rewrite app_nil_r.
Qed.
End runs.

(** ** Properties *)

(** After any sequence of additions and removals an issuer is trusted by a tenant exactly
    when the last operation that names both is an addition: other issuers and other tenants
    play no part. *)
Theorem trust_last_write os t i :
  IsTrustedIssuer (foldl trust_step MemoryTrust.NewMemoryTrustRegistry os) t i
  = Ok (match last (filter (op_on t i) os) with Some o => is_add o | None => false end).
Proof.
  rewrite is_trusted_law. f_equal. apply eq_bool_prop_intro. rewrite !Is_true_true, bool_decide_eq_true.
  rewrite trust_run_trusted. destruct (last _) as [o|]; [done|]. split; [|done].
  cbn. rewrite lookup_empty. set_solver.
Qed.

Section verified.
Context `{Json (list gval), Json VCJWTPayload, Json VerifiableCredential, Sha256, Ed25519}.
Context {St : Type} `{TrustRegistryLaws St}.

(** When the verifier looks keys up through the trust registry, every issuer of an
    accepted chain is trusted by the tenant, at every link and not only at the root. *)
Theorem chain_issuers_trusted tokens s t resolver opts now r c :
  VerifyCredentialChain tokens (mkDeps (Some (trusted_resolver (Some s) t resolver))) opts now = Ok r ->
  c ∈ cr_Credentials r ->
  vc_Issuer c ∈ trusted_set s t /\
  exists resolve key, resolver = Some resolve /\ resolve (vc_Issuer c) = Ok (PubEd25519 key).
Proof.
  intros Hr Hc. apply VerifyCredentialChain_Ok in Hr as (cs & _ & Hall & _ & _ & ->). cbn in Hc.
  apply verifies_all_sound in Hall. apply list_elem_of_lookup_1 in Hc as [n Hn].
  destruct (Forall2_lookup_r _ _ _ _ _ Hall Hn) as (tok & _ & Hsig%genuine_signed).
  destruct Hsig as (p0 & p1 & p2 & key & sg & _ & Hres & _).
  unfold trusted_resolver in Hres. bind_inv Hres as u Htr. bind_inv Hres as resolve Hrv.
  ok_simp Hrv. bind_inv Htr as b Hb. ok_simp Hb. stop_inv Htr as Hneg. breflect. subst b.
  rewrite is_trusted_law in Hb. injection Hb as Hb. breflect. eauto.
Qed.
End verified.

Definition alice_trusted : MemoryTrust.MemoryTrustRegistry :=
  MemoryTrust.mkRegistry {["acme" := {["did:ex:alice"]}]}.

Lemma chain_issuers_trusted_witness :
  vc_Issuer leaf_credential ∈ trusted_set alice_trusted "acme".
Proof.
  refine (proj1 (chain_issuers_trusted [root_token; leaf_token] alice_trusted "acme"
    (Some resolve_alice) chain_opts t0 chain_of_both leaf_credential _ _)).
  - vm_compute. reflexivity.
  - rewrite both_credentials. right. left.
Defined.
