(* ===== verification/Did.v ===== *)
(** * DIDs and their resolution.

    Models internal/domain/did.go, did_resolver.go (the composite resolver with its
    cache), did_resolver_jwk.go and did_resolver_web.go.  The network is a function; the
    parsing of a URL ([net/url.Parse]) is the class [Url]. *)

From S2P Require Import Prelude GoStrings Base64 GoTime Errors Values Crypto Credential Instances.
From Stdlib Require Import ZArith Ascii String Lia.
From stdpp Require Import gmap list strings pretty.

Local Open Scope string_scope.

(** ** Keys as JWKs *)

(** Source: internal/domain/did_resolver_jwk.go, [jwkKey]. *)
Record jwkKey := mkJwk { jwk_Kty : string; jwk_Crv : string; jwk_X : string }.

#[global] Instance jwkKey_eq_dec : EqDecision jwkKey.
Proof. solve_decision. Defined.

(** Source: internal/domain/did.go:15-19, [DIDFromPublicKey]. *)
Definition jwk_of_ed25519 (k : string) : gmap string gval :=
  {["kty" := VStr "OKP"; "crv" := VStr "Ed25519"; "x" := VStr (b64_encode k)]}.

(** What [json.Unmarshal] stores in a [jwkKey]: the three string fields. *)
Definition jwk_of_object (m : gmap string gval) : jwkKey :=
  mkJwk (claim_string (Some m) "kty") (claim_string (Some m) "crv") (claim_string (Some m) "x").

(** An object of strings, once written, reads back as the struct of its fields. *)
Class JwkLaw `{Json (gmap string gval), Json jwkKey} : Prop :=
  jwk_law : forall (m : gmap string gval) s,
    map_Forall (fun _ v => is_Some (as_string v)) m -> json_safe (VObj m) = true ->
    json_marshal m = Ok s -> json_unmarshal s = Ok (jwk_of_object m).

(** Source: internal/domain/did_resolver_jwk.go, [jwkKey.parseEd25519Key]. *)
Definition parseEd25519Key (jwk : jwkKey) : result error public_key :=
  let! keyBytes := of_option (ErrWrap "" ErrInvalidJWK ": invalid base64 in 'x' parameter")
                     (b64_decode (jwk_X jwk)) in
  stop! negb (String.length keyBytes =? ed25519_public_key_size)%nat with
    ErrWrap "" ErrInvalidJWK (": invalid Ed25519 key size: got " +:+ pretty (String.length keyBytes)
                              +:+ ", want 32") in
  Ok (PubEd25519 keyBytes).

(** Source: internal/domain/did_resolver_jwk.go, [jwkKey.parseOKPKey]. *)
Definition parseOKPKey (jwk : jwkKey) : result error public_key :=
  stop! bool_decide (jwk_Crv jwk = "") with
    ErrWrap "" ErrInvalidJWK ": missing 'crv' field for OKP key" in
  guard! bool_decide (jwk_Crv jwk = "Ed25519") else
    ErrWrap "" ErrUnsupportedKeyType (": unsupported OKP curve '" +:+ jwk_Crv jwk +:+ "'") in
  parseEd25519Key jwk.

(** Source: internal/domain/did_resolver_jwk.go, [jwkKey.toPublicKey]. *)
Definition toPublicKey (jwk : jwkKey) : result error public_key :=
  stop! bool_decide (jwk_Kty jwk = "") with ErrWrap "" ErrInvalidJWK ": missing 'kty' field" in
  stop! bool_decide (jwk_X jwk = "") with ErrWrap "" ErrInvalidJWK ": missing 'x' field" in
  guard! bool_decide (jwk_Kty jwk = "OKP") else
    ErrWrap "" ErrUnsupportedKeyType (": unsupported key type '" +:+ jwk_Kty jwk +:+ "'") in
  parseOKPKey jwk.

(** ** Configuration *)

(** Source: internal/domain/did_resolver.go, [ResolverConfig]. *)
Record ResolverConfig := mkResolverConfig {
  MaxDIDLength : Z;
  MaxJWKSize : Z;
  WebTimeoutSeconds : Z;
  MaxDIDDocSize : Z;
  AllowInsecureWeb : bool;
  CacheTTLSeconds : Z;
}.

(** Source: internal/domain/did_resolver.go:44-44, [DefaultMaxDIDLength]. *)
Definition DefaultMaxDIDLength : Z := 2048.
(** Source: internal/domain/did_resolver.go:46-46, [DefaultMaxJWKSize]. *)
Definition DefaultMaxJWKSize : Z := 1024.
(** Source: internal/domain/did_resolver.go:48-48, [DefaultWebTimeoutSeconds]. *)
Definition DefaultWebTimeoutSeconds : Z := 10.
(** Source: internal/domain/did_resolver.go:50-50, [DefaultMaxDIDDocSize]. *)
Definition DefaultMaxDIDDocSize : Z := 10240.

(** Source: internal/domain/did_resolver.go, [DefaultResolverConfig]. *)
Definition DefaultResolverConfig : ResolverConfig :=
  mkResolverConfig DefaultMaxDIDLength DefaultMaxJWKSize DefaultWebTimeoutSeconds DefaultMaxDIDDocSize false 60.

(** Source: internal/domain/did_resolver.go:30-30, [DIDMethodJWK]. *)
Definition DIDMethodJWK : string := "did:jwk".
(** Source: internal/domain/did_resolver.go:31-31, [DIDMethodWeb]. *)
Definition DIDMethodWeb : string := "did:web".

Definition str_len (s : string) : Z := Z.of_nat (String.length s).

(** Source: internal/domain/did_resolver.go, [extractDIDMethod]. *)
Definition extractDIDMethod (did : string) : result error string :=
  stop! bool_decide (did = "") with ErrText "empty DID" in
  match split_n ":"%char 3 did with
  | part0 :: part1 :: _ :: _ =>
      stop! negb (bool_decide (part0 = "did")) with ErrText "DID must start with 'did:'" in
      stop! bool_decide (part1 = "") with ErrText "DID method cannot be empty" in
      Ok ("did:" +:+ part1)
  | _ => Err (ErrText "DID must have at least 3 parts separated by ':'")
  end.

(** Source: internal/domain/did_resolver.go, [extractMethodPrefix]. *)
Definition extractMethodPrefix (did : string) : string :=
  match split_n ":"%char 3 did with
  | _ :: part1 :: _ => "did:" +:+ part1
  | _ => "invalid"
  end.

Section jwk.
Context `{Json (gmap string gval), Json jwkKey}.

(** Source: internal/domain/did.go, [DIDFromPublicKey]. *)
Definition DIDFromPublicKey (pub : public_key) : result error string :=
  match pub with
  | PubEd25519 k =>
      let! payload := map_err (fun e => ErrWrap "marshal jwk: " e "") (json_marshal (jwk_of_ed25519 k)) in
      Ok ("did:jwk:" +:+ b64_encode payload)
  | _ => Err (ErrText "unsupported public key type")
  end.

(** [cancelled] says that the context was done when the call started.
    Source: internal/domain/did_resolver_jwk.go, [JWKResolver.ResolvePublicKey]. *)
Definition JWKResolver_ResolvePublicKey (config : ResolverConfig) (cancelled : option error)
    (did : string) : result error public_key :=
  match cancelled with
  | Some e => Err e
  | None =>
      stop! negb (has_prefix did "did:jwk:") with
        ErrWrap "" ErrInvalidDIDFormat (": expected did:jwk, got " +:+ extractMethodPrefix did) in
      let encodedJWK := trim_prefix did "did:jwk:" in
      stop! bool_decide (encodedJWK = "") with ErrWrap "" ErrInvalidJWK ": missing JWK data" in
      stop! (Z.quot (MaxJWKSize config * 4) 3 <? str_len encodedJWK)%Z with
        ErrWrap "" ErrInvalidJWK ": JWK data too large" in
      let! jwkBytes := of_option (ErrWrap "" ErrInvalidJWK ": invalid base64 encoding")
                         (b64_decode encodedJWK) in
      stop! (MaxJWKSize config <? str_len jwkBytes)%Z with
        ErrWrap "" ErrInvalidJWK ": JWK too large" in
      let! jwk := map_err (fun e => ErrWrap "" ErrInvalidJWK (": invalid JSON: " +:+ error_text e))
                    (json_unmarshal jwkBytes) in
      toPublicKey jwk
  end.
End jwk.

(** ** The composite resolver *)

(** Source: internal/domain/did_resolver.go, [cacheEntry]. *)
Record cacheEntry := mkCacheEntry { ce_key : public_key; ce_expires : time }.

(** A resolver is its position among those the constructor was given; [cache] is [None] when
    caching is disabled.
    Source: internal/domain/did_resolver.go, [CompositeResolver]. *)
Record CompositeResolver := mkComposite {
  cp_resolvers : gmap string nat;
  cp_config : ResolverConfig;
  cp_cache : option (gmap string cacheEntry);
  cp_cacheTTL : duration;
}.

(** The methods of the resolvers from the n-th on: the last one to claim a method gets it.
    Source: internal/domain/did_resolver.go:124-137, [NewCompositeResolverWithConfig]. *)
Fixpoint register_methods (n : nat) (methodMap : gmap string nat) (resolvers : list (option (list string)))
  : result error (gmap string nat) :=
  match resolvers with
  | [] => Ok methodMap
  | r :: resolvers =>
      let! ms := of_option (ErrText "nil resolver provided") r in
      stop! existsb (fun m => bool_decide (m = "")) ms with ErrText "empty method name not allowed" in
      register_methods (S n) (foldl (fun mm m => <[m := n]> mm) methodMap ms) resolvers
  end.

(** A resolver as the constructor sees it: [None] for a nil one, else its methods.
    Source: internal/domain/did_resolver.go, [NewCompositeResolverWithConfig]. *)
Definition NewCompositeResolverWithConfig (config : ResolverConfig)
    (resolvers : list (option (list string))) : result error CompositeResolver :=
  stop! bool_decide (resolvers = []) with ErrText "at least one resolver required" in
  let! methods := register_methods 0 ∅ resolvers in
  stop! bool_decide (methods = ∅) with ErrText "no valid DID methods found" in
  Ok (if (0 <? CacheTTLSeconds config)%Z
      then mkComposite methods config (Some ∅) (seconds (CacheTTLSeconds config))
      else mkComposite methods config None 0).

(** Source: internal/domain/did_resolver.go, [NewCompositeResolver]. *)
Definition NewCompositeResolver : list (option (list string)) -> result error CompositeResolver :=
  NewCompositeResolverWithConfig DefaultResolverConfig.

(** Source: internal/domain/did_resolver_jwk.go, [JWKResolver.SupportedMethods]. *)
Definition JWKResolver_SupportedMethods : list string := ["did:jwk"].

(** Source: internal/domain/did_resolver_web.go, [WebResolver.SupportedMethods]. *)
Definition WebResolver_SupportedMethods : list string := [DIDMethodWeb].

(** The keys of the map, in the order [visit] in which they are visited.
    Source: internal/domain/did_resolver.go, [CompositeResolver.SupportedMethods]. *)
Definition CompositeResolver_SupportedMethods (visit : list string -> list string) (r : CompositeResolver) : list string :=
  visit (map_to_list (cp_resolvers r)).*1.

(** [now] is read when the cache is looked up, [now'] when it is written; [net n] is
    what the n-th resolver answers during the call.
    Source: internal/domain/did_resolver.go, [CompositeResolver.ResolvePublicKey]. *)
Definition CompositeResolver_ResolvePublicKey (r : CompositeResolver) (cancelled : option error)
    (now now' : time) (net : nat -> string -> result error public_key) (did : string)
  : result error public_key * CompositeResolver :=
  let fail e := (Err e, r) in
  if bool_decide (did = "") then fail (ErrVar ErrEmptyDID)
  else if (MaxDIDLength (cp_config r) <? str_len did)%Z then
    fail (ErrWrap "" ErrInvalidDIDFormat (": DID too long (" +:+ pretty (str_len did) +:+ " > "
            +:+ pretty (MaxDIDLength (cp_config r)) +:+ ")"))
  else
    match cancelled with
    | Some e => fail e
    | None =>
        match extractDIDMethod did with
        | Err err => fail (ErrWrap "" ErrInvalidDIDFormat (": " +:+ error_text err))
        | Ok method =>
            match cp_resolvers r !! method with
            | None => fail (ErrWrap "" ErrUnsupportedDIDMethod (": " +:+ method))
            | Some resolver =>
              let hit :=
                cache ← cp_cache r;
                e ← cache !! did;
                if before now (ce_expires e) then Some (ce_key e) else None in
              match hit with
              | Some pub => (Ok pub, r)
              | None =>
                  match net resolver did with
                  | Err err => fail err
                  | Ok pub =>
                      match cp_cache r with
                      | Some cache =>
                          if bool_decide (pub = PubNil) then (Ok pub, r)
                          else
                            (Ok pub, mkComposite (cp_resolvers r) (cp_config r)
                               (Some (<[did := mkCacheEntry pub (time_add now' (cp_cacheTTL r))]> cache))
                               (cp_cacheTTL r))
                      | None => (Ok pub, r)
                      end
                  end
              end
            end
        end
    end.

(** ** did:web *)

Definition hex_value (a : ascii) : option nat :=
  let n := nat_of_ascii a in
  if ((48 <=? n) && (n <=? 57))%nat then Some (n - 48)%nat
  else if ((65 <=? n) && (n <=? 70))%nat then Some (n - 55)%nat
  else if ((97 <=? n) && (n <=? 102))%nat then Some (n - 87)%nat
  else None.

(** [url.QueryUnescape]. *)
Fixpoint query_unescape (s : string) : option string :=
  match s with
  | "" => Some ""
  | String "%" s1 =>
      match s1 with
      | String h (String l s2) =>
          hv ← hex_value h; lv ← hex_value l;
          rest ← query_unescape s2;
          Some (String (ascii_of_nat (16 * hv + lv)) rest)
      | _ => None
      end
  | String "+" s1 => rest ← query_unescape s1; Some (String " " rest)
  | String a s1 => rest ← query_unescape s1; Some (String a rest)
  end.

(** [strings.ReplaceAll(s, "%3A", ":")]. *)
Fixpoint replace_3A (s : string) : string :=
  match s with
  | String "%" (String "3" (String "A" s')) => String ":" (replace_3A s')
  | String a s' => String a (replace_3A s')
  | "" => ""
  end.

Definition is_digit (a : ascii) : bool := byte_in 48 57 a.

(** A parsed URL: its scheme, its host and its text. *)
Record url := mkUrl { u_Scheme : string; u_Host : string; u_String : string }.

Class Url := url_parse : string -> result error url.

(** The address of a did:web document, before it is parsed.
    Source: internal/domain/did_resolver_web.go:82-143, [WebResolver.didToURL]. *)
Definition did_web_address (allowInsecureWeb : bool) (did : string) : result error string :=
  let identifier := trim_prefix did "did:web:" in
  stop! bool_decide (identifier = "") with ErrText "empty identifier after did:web:" in
  let! decoded := of_option (ErrText "invalid URL encoding") (query_unescape identifier) in
  let decoded := replace_3A decoded in
  match split_on ":"%char decoded with
  | [] => Err (ErrText "empty domain in did:web")
  | domain :: rest =>
      stop! bool_decide (domain = "") with ErrText "empty domain in did:web" in
      let scheme :=
        if allowInsecureWeb && (has_prefix domain "127.0.0.1" || has_prefix domain "localhost"
                                || contains_str domain ":")
        then "http" else "https" in
      let base := scheme +:+ "://" +:+ domain in
      Ok match rest with
         | [] => base +:+ "/.well-known/did.json"
         | secondPart :: path =>
             if string_forall is_digit secondPart then
               match path with
               | [] => base +:+ ":" +:+ secondPart +:+ "/.well-known/did.json"
               | _ => base +:+ ":" +:+ secondPart +:+ "/" +:+ str_join "/" path +:+ "/did.json"
               end
             else base +:+ "/" +:+ str_join "/" rest +:+ "/did.json"
         end
  end.

(** Source: internal/domain/did_resolver_web.go, [WebResolver.didToURL]. *)
Definition didToURL `{Url} (allowInsecureWeb : bool) (did : string) : result error url :=
  let! urlStr := did_web_address allowInsecureWeb did in
  let! parsedURL := map_err (fun e => ErrText ("invalid URL construction: " +:+ error_text e))
                      (url_parse urlStr) in
  stop! bool_decide (u_Host parsedURL = "") with ErrText "empty host in constructed URL" in
  Ok parsedURL.

(** What the HTTP client gets back. *)
Record fetched := mkFetched { f_status : Z; f_contentType : string; f_body : string }.

Section web.
Context `{Json (gmap string gval), Json jwkKey, Url}.

(** Source: internal/domain/did_resolver_web.go, [WebResolver.fetchDIDDocument]. *)
Definition fetchDIDDocument (get : string -> result error fetched) (maxDocSize : Z) (urlStr : string)
  : result error (gmap string gval) :=
  let! resp := map_err (fun e => ErrText ("HTTP request failed: " +:+ error_text e)) (get urlStr) in
  stop! negb (f_status resp =? 200)%Z with ErrText ("HTTP " +:+ pretty (f_status resp)) in
  stop! (negb (bool_decide (f_contentType resp = ""))
         && negb (contains_str (f_contentType resp) "application/json")
         && negb (contains_str (f_contentType resp) "application/did+json"))
    with ErrText ("unexpected content type: " +:+ f_contentType resp) in
  stop! (maxDocSize <? str_len (f_body resp))%Z with
    ErrWrap "" ErrDocumentTooLarge (": document exceeds " +:+ pretty maxDocSize +:+ " bytes") in
  let! doc := map_err (fun e => ErrText ("failed to parse JSON: " +:+ error_text e))
                (json_unmarshal (f_body resp)) in
  match claim (Some doc) "id" with
  | None | Some VNull => Err (ErrText "DID document missing 'id' field")
  | _ => Ok doc
  end.

(** The key of one verification method, if it has one the service supports.
    Source: internal/domain/did_resolver_web.go:220-247, [WebResolver.extractPublicKeyFromDocument]. *)
Definition method_key (method : gval) : option public_key :=
  match method with
  | VObj methodMap =>
      match methodMap !! "publicKeyJwk" with
      | Some (VObj jwkMap) =>
          jwkBytes ← to_option (json_marshal jwkMap);
          jwk ← to_option (json_unmarshal jwkBytes);
          to_option (toPublicKey jwk)
      | _ => None
      end
  | _ => None
  end.

Fixpoint first_key (methods : list gval) : option public_key :=
  match methods with
  | [] => None
  | m :: methods' => match method_key m with Some k => Some k | None => first_key methods' end
  end.

(** Source: internal/domain/did_resolver_web.go, [WebResolver.extractPublicKeyFromDocument]. *)
Definition extractPublicKeyFromDocument (doc : gmap string gval) : result error public_key :=
  match doc !! "verificationMethod" with
  | None => Err (ErrText "DID document missing 'verificationMethod' field")
  | Some (VArr (m :: methods)) =>
      of_option (ErrText "no supported public key format found in DID document") (first_key (m :: methods))
  | Some _ => Err (ErrText "no verification methods found in DID document")
  end.

(** Source: internal/domain/did_resolver_web.go, [WebResolver.ResolvePublicKey]. *)
Definition WebResolver_ResolvePublicKey (config : ResolverConfig)
    (get : string -> result error fetched) (did : string) : result error public_key :=
  stop! bool_decide (did = "") with ErrVar ErrEmptyDID in
  stop! negb (has_prefix did "did:web:") with ErrWrap "" ErrInvalidDIDFormat ": not a did:web DID" in
  let! didURL := map_err (fun e => ErrWrap "" ErrInvalidWebDID (": " +:+ error_text e))
                   (didToURL (AllowInsecureWeb config) did) in
  stop! (negb (AllowInsecureWeb config) && negb (bool_decide (u_Scheme didURL = "https"))) with
    ErrWrap "" ErrUnsecureConnection ": did:web requires HTTPS" in
  let! doc := map_err (fun e => ErrWrap "" ErrWebResolutionFailed (": " +:+ error_text e))
                (fetchDIDDocument get (MaxDIDDocSize config) (u_String didURL)) in
  map_err (fun e => ErrWrap "" ErrInvalidDIDDocument (": " +:+ error_text e))
    (extractPublicKeyFromDocument doc).
End web.

(** ** The key in a did:jwk *)

Section jwk_facts.
Context `{JwkLaw}.

Lemma jwk_object_strings k : map_Forall (fun _ v => is_Some (as_string v)) (jwk_of_ed25519 k).
Proof.
  apply map_Forall_insert_2; [by eexists|]. apply map_Forall_insert_2; [by eexists|].
  apply map_Forall_singleton. by eexists.
Qed.

Lemma jwk_object_safe k : json_safe (VObj (jwk_of_ed25519 k)) = true.
Proof.
  assert (Hx : utf8_valid (b64_encode k) = true) by apply utf8_valid_ascii, b64_encode_ascii.
  apply json_safe_obj. unfold jwk_of_ed25519. repeat (apply map_Forall_insert_2; [by split|]). apply map_Forall_empty.
Qed.

(** The DID of a key is valid, and resolves to the key. *)
Lemma DIDFromPublicKey_resolves k s config :
  String.length k = ed25519_public_key_size ->
  json_marshal (jwk_of_ed25519 k) = Ok s -> (0 < String.length s <= 700)%nat ->
  (1024 <= MaxJWKSize config)%Z ->
  DIDFromPublicKey (PubEd25519 k) = Ok ("did:jwk:" +:+ b64_encode s)
  /\ ValidateDID ("did:jwk:" +:+ b64_encode s) = Ok tt
  /\ JWKResolver_ResolvePublicKey config None ("did:jwk:" +:+ b64_encode s) = Ok (PubEd25519 k).
Proof.
  intros Hk Hs Hlen Hcfg. pose proof (b64_encode_length s) as Hb.
  assert (Hu : json_unmarshal s = Ok (jwk_of_object (jwk_of_ed25519 k)))
    by (apply jwk_law; [apply jwk_object_strings|apply jwk_object_safe|done]).
  assert (Hne : b64_encode s <> "").
  { intros He. rewrite (proj1 (b64_encode_empty s) He) in Hlen. cbn in Hlen. lia. }
  split; [unfold DIDFromPublicKey; by rewrite Hs|]. split.
  - apply ValidateDID_Ok. split; [by exists "jwk", (b64_encode s)|].
    rewrite string_length_app. cbn [String.length]. lia.
  - unfold JWKResolver_ResolvePublicKey. rewrite has_prefix_app, trim_prefix_app. cbn [negb].
    rewrite bool_decide_eq_false_2 by done. unfold str_len.
    rewrite (proj2 (Z.ltb_ge _ _)).
    2: { pose proof (Z.quot_le_mono (1024 * 4) (MaxJWKSize config * 4) 3 ltac:(lia) ltac:(lia)) as Hq.
         change (Z.quot (1024 * 4) 3) with 1365%Z in Hq. lia. }
    rewrite b64_roundtrip. cbn [of_option rbind]. rewrite (proj2 (Z.ltb_ge _ _)) by lia.
    rewrite Hu. cbn [map_err rbind]. unfold toPublicKey, parseOKPKey, parseEd25519Key, jwk_of_object.
    change (claim_string (Some (jwk_of_ed25519 k)) "x") with (b64_encode k).
    change (claim_string (Some (jwk_of_ed25519 k)) "kty") with "OKP".
    change (claim_string (Some (jwk_of_ed25519 k)) "crv") with "Ed25519". cbn [jwk_Kty jwk_Crv jwk_X].
    rewrite (bool_decide_eq_false_2 (b64_encode k = "")).
    2: { intros He. by rewrite (proj1 (b64_encode_empty k) He) in Hk. }
    cbn [bool_decide]. rewrite b64_roundtrip. cbn [of_option rbind]. by rewrite Hk.
Qed.
End jwk_facts.

(** A codec of JWKs for the instances: the object codec, and the three fields. *)
#[export] Instance jwk_json : Json jwkKey := {|
  json_marshal j :=
    json_marshal (T := gmap string gval)
      {["kty" := VStr (jwk_Kty j); "crv" := VStr (jwk_Crv j); "x" := VStr (jwk_X j)]};
  json_unmarshal s :=
    let! m := json_unmarshal (T := gmap string gval) s in Ok (jwk_of_object m);
|}.

Lemma claim_string_image m k : claim_string (Some (json_image <$> m)) k = claim_string (Some m) k.
Proof. unfold claim_string, claim. cbn. rewrite lookup_fmap. by destruct (m !! k) as [[]|]. Qed.

#[export] Instance jwk_json_law : JwkLaw.
Proof.
  intros m s _ Hsafe Hs.
  destruct (json_law (JsonLaw := object_json_law (fun m => json_safe (VObj m))) m Hsafe) as (s' & Hs' & Hu).
  rewrite Hs in Hs'. injection Hs' as <-. cbn. cbn in Hu. rewrite Hu. cbn. unfold jwk_of_object.
  by rewrite !claim_string_image.
Qed.

(** ** Properties *)

Section jwk_props.
Context `{JwkLaw}.

(** The DID derived from an Ed25519 key is a valid DID, and resolving it gives the key
    back (for a JWK text of a sane size); so different keys have different DIDs. *)
Theorem did_jwk_roundtrip k s config :
  String.length k = ed25519_public_key_size ->
  json_marshal (jwk_of_ed25519 k) = Ok s -> (0 < String.length s <= 700)%nat ->
  (1024 <= MaxJWKSize config)%Z ->
  exists did, DIDFromPublicKey (PubEd25519 k) = Ok did /\ ValidateDID did = Ok tt
    /\ JWKResolver_ResolvePublicKey config None did = Ok (PubEd25519 k)
    /\ forall k', String.length k' = ed25519_public_key_size ->
         DIDFromPublicKey (PubEd25519 k') = Ok did -> k' = k.
Proof.
  intros Hk Hs Hlen Hcfg. destruct (DIDFromPublicKey_resolves k s config Hk Hs Hlen Hcfg) as (Hd & Hv & Hr).
  eexists. split; [done|]. split; [done|]. split; [done|].
  intros k' Hk' Hd'. unfold DIDFromPublicKey in Hd'. bind_inv Hd' as s' Hs'. ok_simp Hs'.
  injection Hd' as Hd'%b64_encode_inj. subst s'.
  destruct (DIDFromPublicKey_resolves k' s config Hk' Hs' Hlen Hcfg) as (_ & _ & Hr').
  congruence.
Qed.
End jwk_props.

(** ** The cache of the composite resolver *)

(** One resolution: looked up at [c_now], answered by the network at [c_at] if it was
    asked, and stored at [c_store]. *)
Record call := mkCall {
  c_did : string;
  c_cancelled : option error;
  c_now : time;
  c_at : time;
  c_store : time;
}.

Section cache.
(** What the resolvers answer, over time. *)
Variable net : time -> nat -> string -> result error public_key.

Definition do_call (r : CompositeResolver) (c : call) : result error public_key * CompositeResolver :=
  CompositeResolver_ResolvePublicKey r (c_cancelled c) (c_now c) (c_store c) (net (c_at c)) (c_did c).

Definition calls (r : CompositeResolver) (cs : list call) : CompositeResolver :=
  foldl (fun r c => (do_call r c).2) r cs.

(** The n-th resolver is the last that claims the method of [did]. *)
Definition responsible (resolvers : list (option (list string))) (did : string) (n : nat) : Prop :=
  exists method ms, extractDIDMethod did = Ok method /\ resolvers !! n = Some (Some ms) /\ method ∈ ms
    /\ forall n' ms', (n < n')%nat -> resolvers !! n' = Some (Some ms') -> method ∉ ms'.

Lemma claim_methods (n : nat) mm ms m :
  foldl (fun (mm : gmap string nat) m => <[m := n]> mm) mm ms !! m = if decide (m ∈ ms) then Some n else mm !! m.
Proof.
  revert mm. induction ms as [|m' ms IH]; intros mm; cbn [foldl]; [by rewrite decide_False by apply not_elem_of_nil|].
  rewrite IH. destruct (decide (m ∈ ms)) as [Hm|Hm]; [by rewrite decide_True by (by right)|].
  destruct (decide (m' = m)) as [->|Hne].
  - by rewrite lookup_insert_eq, decide_True by left.
  - rewrite lookup_insert_ne, decide_False by (done || (by intros [?|?]%elem_of_cons)). done.
Qed.

(** A registered method belongs to the last resolver that claims it. *)
Lemma register_methods_last resolvers n mm mm' m k :
  register_methods n mm resolvers = Ok mm' -> mm' !! m = Some k ->
  (mm !! m = Some k /\ forall i ms, resolvers !! i = Some (Some ms) -> m ∉ ms)
  \/ exists i ms, k = (n + i)%nat /\ resolvers !! i = Some (Some ms) /\ m ∈ ms
       /\ forall j ms', (i < j)%nat -> resolvers !! j = Some (Some ms') -> m ∉ ms'.
Proof.
  revert n mm. induction resolvers as [|r rs IH]; intros n mm Hr Hk; cbn [register_methods] in Hr.
  { injection Hr as <-. by left. }
  bind_inv Hr as ms Hms. stop_inv Hr as _. apply of_option_Ok in Hms as ->.
  destruct (IH _ _ Hr Hk) as [[Hm Hno]|(i & ms' & -> & Hi & Hin & Hlast)].
  - rewrite claim_methods in Hm. case_decide as Hin.
    + injection Hm as <-. right. exists 0%nat, ms. split; [lia|]. split; [done|]. split; [done|].
      intros [|j] ms' Hj Hl; [lia|by apply (Hno j)].
    + left. split; [done|]. intros [|i] ms' Hl; [by injection Hl as <-|by apply (Hno i)].
  - right. exists (S i), ms'. split; [lia|]. split; [done|]. split; [done|].
    intros [|j] ms'' Hj Hl; [lia|]. apply (Hlast j); [lia|done].
Qed.

Lemma registered_responsible config resolvers r0 did method n :
  NewCompositeResolverWithConfig config resolvers = Ok r0 -> extractDIDMethod did = Ok method ->
  cp_resolvers r0 !! method = Some n -> responsible resolvers did n.
Proof.
  unfold NewCompositeResolverWithConfig. intros Hr Hm Hn. stop_inv Hr as _. bind_inv Hr as mm Hmm. stop_inv Hr as _.
  assert (Hcp : cp_resolvers r0 = mm) by (destruct (0 <? _)%Z in Hr; by injection Hr as <-). rewrite Hcp in Hn.
  destruct (register_methods_last _ _ _ _ _ _ Hmm Hn) as [[Hl _]|(i & ms & -> & ? & ? & ?)]; [by rewrite lookup_empty in Hl|].
  by exists method, ms.
Qed.

(** Every cached key is what the responsible resolver answered in one of the calls, and is kept
    for the configured time from then. *)
Definition cache_backed (cs : list call) (r : CompositeResolver) : Prop :=
  forall cache did e, cp_cache r = Some cache -> cache !! did = Some e ->
    exists c method n, c ∈ cs /\ c_did c = did /\ extractDIDMethod did = Ok method /\ cp_resolvers r !! method = Some n
      /\ net (c_at c) n did = Ok (ce_key e)
      /\ ce_expires e = time_add (c_store c) (cp_cacheTTL r).

Lemma do_call_backed cs r c :
  cache_backed cs r -> cache_backed (app cs [c]) (do_call r c).2
    /\ cp_cacheTTL (do_call r c).2 = cp_cacheTTL r /\ cp_resolvers (do_call r c).2 = cp_resolvers r.
Proof.
  intros Hb. assert (Hmono : cache_backed (app cs [c]) r).
  { intros cache did e Hc He. destruct (Hb cache did e Hc He) as (c' & m & n & ? & ?). exists c', m, n.
    split; [by apply elem_of_app; left|done]. }
  unfold do_call, CompositeResolver_ResolvePublicKey. cbv zeta.
  repeat (case_match; try done). cbn.
  split; [|done]. intros cache did' e [= <-]. rewrite lookup_insert.
  destruct (decide (c_did c = did')) as [<-|Hne].
  - intros [= <-]. do 3 eexists. split; [apply elem_of_app; right; left|]. by repeat split.
  - by apply Hmono.
Qed.

Lemma calls_backed config resolvers r0 cs :
  NewCompositeResolverWithConfig config resolvers = Ok r0 ->
  cache_backed cs (calls r0 cs) /\ cp_cacheTTL (calls r0 cs) = cp_cacheTTL r0
  /\ cp_resolvers (calls r0 cs) = cp_resolvers r0.
Proof.
  intros Hr. induction cs as [|c cs (IH & IHt & IHr)] using rev_ind.
  - split; [|done]. intros cache did e Hc He. exfalso.
    unfold NewCompositeResolverWithConfig in Hr. stop_inv Hr as _. bind_inv Hr as ms Hms. stop_inv Hr as _.
    injection Hr as <-. cbn in Hc. destruct (0 <? CacheTTLSeconds config)%Z; [|done].
    injection Hc as <-. by rewrite lookup_empty in He.
  - unfold calls in *. rewrite foldl_snoc. destruct (do_call_backed cs _ c IH) as (Hb & Ht & Hm).
    by rewrite Ht, Hm.
Qed.

(** C33: Whatever calls were made before, a key the composite resolver returns is the
    answer, for that very DID, of the resolver responsible for its method, the last one that
    claims it: the answer of this call, or that of an earlier call whose time to live has not run
    out at the time of the lookup. *)
Theorem composite_cache_fresh config resolvers r0 cs c pub r' :
  NewCompositeResolverWithConfig config resolvers = Ok r0 ->
  do_call (calls r0 cs) c = (Ok pub, r') ->
  exists n, responsible resolvers (c_did c) n /\
    (net (c_at c) n (c_did c) = Ok pub \/
     exists c', c' ∈ cs /\ c_did c' = c_did c /\ net (c_at c') n (c_did c) = Ok pub
       /\ (c_now c < time_add (c_store c') (cp_cacheTTL r0))%Z).
Proof.
  intros Hr Hc. destruct (calls_backed config resolvers r0 cs Hr) as (Hb & Ht & Hm).
  unfold do_call, CompositeResolver_ResolvePublicKey in Hc. cbv zeta in Hc.
  destruct (bool_decide _); [done|]. destruct (_ <? _)%Z; [done|]. destruct (c_cancelled c); [done|].
  destruct (extractDIDMethod (c_did c)) as [method|] eqn:Hmeth; [|done].
  destruct (cp_resolvers (calls r0 cs) !! method) as [n|] eqn:Hn; [|done].
  exists n. split; [eapply registered_responsible; [done..|by rewrite <- Hm]|].
  repeat (case_match; try done).
  all: try (left; congruence). right.
  injection Hc as -> _.
  match goal with Hh : (_ ≫= _) = Some pub |- _ => rename Hh into Hhit end.
  apply bind_Some in Hhit as (cache & Hcache & Hhit). apply bind_Some in Hhit as (e & He & Hhit).
  destruct (before (c_now c) (ce_expires e)) eqn:Hbef; [|done]. injection Hhit as <-.
  destruct (Hb cache (c_did c) e Hcache He) as (c' & m' & n' & Hin & Hd & Hm' & Hn' & Ha & Hexp). exists c'.
  assert (m' = method) as -> by congruence. assert (n' = n) as -> by congruence.
  unfold before in Hbef. breflect. rewrite Hexp, Ht in Hbef. done.
Qed.
End cache.

(** ** did:web addresses *)

Definition plain_domain (s : string) : Prop :=
  s <> "" /\ string_forall (fun a => negb (bool_decide (a = "%"%char)) && negb (bool_decide (a = "+"%char))
                                     && negb (bool_decide (a = ":"%char))) s = true.

Lemma query_unescape_plain s :
  string_forall (fun a => negb (bool_decide (a = "%"%char)) && negb (bool_decide (a = "+"%char))) s = true ->
  query_unescape s = Some s.
Proof.
  induction s as [|a s IH]; [done|]. cbn [string_forall]. intros [Ha Hs]%andb_true_iff.
  apply andb_true_iff in Ha as [H1 H2]. breflect. specialize (IH Hs).
  assert (Hq : query_unescape (String a s) = (rest ← query_unescape s; Some (String a rest))).
  { destruct a as [[] [] [] [] [] [] [] []]; done. }
  by rewrite Hq, IH.
Qed.

Lemma replace_3A_plain s : no_byte "%"%char s = true -> replace_3A s = s.
Proof.
  unfold no_byte. induction s as [|a s IH]; [done|]. cbn [string_forall]. intros [Ha Hs]%andb_true_iff.
  breflect. specialize (IH Hs).
  assert (Hr : replace_3A (String a s) = String a (replace_3A s)).
  { destruct a as [[] [] [] [] [] [] [] []]; done. }
  by rewrite Hr, IH.
Qed.

Lemma string_forall_join f sep l :
  string_forall f sep = true -> Forall (fun p => string_forall f p = true) l ->
  string_forall f (str_join sep l) = true.
Proof.
  intros Hsep. unfold str_join. induction 1 as [|p l Hp Hl IH]; [done|]. destruct l as [|q l]; [done|].
  change (String.concat sep (p :: q :: l)) with (p +:+ sep +:+ String.concat sep (q :: l)).
  by rewrite !string_forall_app, Hp, Hsep, IH.
Qed.

Lemma plain_domain_parts s : plain_domain s ->
  s <> "" /\ no_byte ":"%char s = true /\
  string_forall (fun a => negb (bool_decide (a = "%"%char)) && negb (bool_decide (a = "+"%char))) s = true
  /\ no_byte "%"%char s = true.
Proof.
  intros [Hne Hs]. split; [done|]. unfold no_byte.
  repeat split; (eapply string_forall_impl; [|exact Hs]); cbn; intros a Ha;
    apply andb_true_iff in Ha as [Ha1 Ha2]; apply andb_true_iff in Ha1 as [Ha0 Ha1]; try done.
  by rewrite Ha0, Ha1.
Qed.

(** The address is always an https one when insecure resolution is off. *)
Lemma did_web_https did a : did_web_address false did = Ok a -> has_prefix a "https://" = true.
Proof.
  unfold did_web_address. intros Ha. stop_inv Ha as _. bind_inv Ha as dec Hd. cbv zeta in Ha.
  destruct (split_on _ _) as [|domain rest]; [done|]. stop_inv Ha as _. injection Ha as <-.
  cbn [andb]. destruct rest as [|p path]; [exact (has_prefix_app "https://" _)|].
  destruct (string_forall is_digit p); [|exact (has_prefix_app "https://" _)].
  destruct path; exact (has_prefix_app "https://" _).
Qed.

(** A did:web DID of plain parts, the second not a number, is fetched from its domain, under
    the well-known path or under the path its parts spell; and whatever the DID, the address
    is an https one unless insecure resolution was switched on. *)
Theorem did_web_address_spec domain path :
  plain_domain domain -> Forall plain_domain path ->
  Forall (fun p => string_forall is_digit p = false) (take 1 path) ->
  did_web_address false ("did:web:" +:+ str_join ":" (domain :: path))
  = Ok ("https://" +:+ domain
        +:+ (match path with [] => "/.well-known" | _ => "/" +:+ str_join "/" path end) +:+ "/did.json")
  /\ forall did a, did_web_address false did = Ok a -> has_prefix a "https://" = true.
Proof.
  intros Hd Hp Hn. split; [|apply did_web_https].
  apply plain_domain_parts in Hd as (Hne & Hd1 & Hd2 & Hd3).
  assert (Hall : Forall (fun s => no_byte ":"%char s = true) (domain :: path)).
  { constructor; [done|]. eapply Forall_impl; [exact Hp|]. intros s Hs. by apply plain_domain_parts in Hs as (_ & ? & _). }
  unfold did_web_address. rewrite trim_prefix_app. rewrite bool_decide_eq_false_2.
  2: { destruct domain; [done|]. by destruct path. }
  rewrite query_unescape_plain.
  2: { apply string_forall_join; [done|]. constructor; [done|]. eapply Forall_impl; [exact Hp|].
       intros s Hs. by apply plain_domain_parts in Hs as (_ & _ & ? & _). }
  cbn [of_option rbind]. cbv zeta. rewrite replace_3A_plain.
  2: { apply string_forall_join; [done|]. constructor; [done|]. eapply Forall_impl; [exact Hp|].
       intros s Hs. by apply plain_domain_parts in Hs as (_ & _ & _ & ?). }
  rewrite split_join by done. rewrite bool_decide_eq_false_2 by done. cbn [andb].
  cbv zeta. destruct path as [|p path]; [f_equal; exact (string_app_assoc _ _ _)|].
  apply Forall_cons in Hn as [-> _]. done.
Qed.

(** ** Instances *)

Definition alice_jwk : string := Eval vm_compute in
  default "" (to_option (json_marshal (jwk_of_ed25519 alice_key))).

Lemma did_jwk_roundtrip_witness :
  exists did, DIDFromPublicKey (PubEd25519 alice_key) = Ok did
    /\ JWKResolver_ResolvePublicKey DefaultResolverConfig None did = Ok (PubEd25519 alice_key).
Proof.
  destruct (did_jwk_roundtrip alice_key alice_jwk DefaultResolverConfig) as (did & Hd & _ & Hr & _).
  - reflexivity.
  - vm_compute. reflexivity.
  - vm_compute. lia.
  - vm_compute. discriminate.
  - exists did. split; [exact Hd|exact Hr].
Defined.

(** A network whose answer for a DID changes at [t0]. *)
Definition rotating_net (t : time) (n : nat) (did : string) : result error public_key :=
  Ok (PubEd25519 (if (t <? t0)%Z then "old" else "new")).

Definition jwk_composite : CompositeResolver :=
  mkComposite {["did:jwk" := 0%nat]} DefaultResolverConfig (Some ∅) (60 * second).

Definition call_at (t : time) : call := mkCall "did:jwk:abc" None t t t.

Lemma composite_cache_fresh_witness :
  let c := call_at (t0 + 10 * second)%Z in
  let cs := [call_at (t0 - 10 * second)%Z] in
  (do_call rotating_net (calls rotating_net jwk_composite cs) c).1 = Ok (PubEd25519 "old")
  /\ exists n, responsible [Some ["did:jwk"]] (c_did c) n /\
      (rotating_net (c_at c) n (c_did c) = Ok (PubEd25519 "old") \/
       exists c', c' ∈ cs /\ c_did c' = c_did c /\ rotating_net (c_at c') n (c_did c) = Ok (PubEd25519 "old")
         /\ (c_now c < time_add (c_store c') (60 * second))%Z).
Proof.
  cbv zeta. split; [vm_compute; reflexivity|].
  eapply (composite_cache_fresh rotating_net DefaultResolverConfig [Some ["did:jwk"]] jwk_composite
    [call_at (t0 - 10 * second)%Z] (call_at (t0 + 10 * second)%Z)).
  - vm_compute. reflexivity.
  - vm_compute. reflexivity.
Defined.

Lemma did_web_address_spec_witness :
  did_web_address false "did:web:example.com:users:alice" = Ok "https://example.com/users/alice/did.json".
Proof.
  refine (proj1 (did_web_address_spec "example.com" ["users"; "alice"] _ _ _)).
  - split; [discriminate|reflexivity].
  - repeat constructor; try discriminate; reflexivity.
  - repeat constructor.
Defined.
