(* ===== verification/Gateway.v ===== *)
(** * The gateway: authorization decisions for reverse proxies.

    Models internal/httpserver/gateway_handlers.go, internal/cache/cache.go and the
    interface of internal/ratelimit.  The decision cache and the rate limiter are
    interfaces (classes); the clock is read several times during a request, each
    reading is a field of [readings]. *)

From S2P Require Import Prelude GoStrings Base64 GoTime Errors Values Crypto Credential Instances.
From S2P Require Import Delegation SDJwt Verify VerifyFacts Issue IssueFacts ChainExample.
From S2P Require Import AuthzBridge Policy PolicyFacts Http Trust.
From Stdlib Require Import ZArith Ascii String Lia.
From stdpp Require Import gmap list strings.

Local Open Scope string_scope.

(** ** Requests and responses *)

(** Source: internal/httpserver/gateway_handlers.go, [GatewayAuthorizeRequest]. *)
Record GatewayAuthorizeRequest := mkAuthorize {
  gr_Credential : string;
  gr_Credentials : list string;
  gr_ExpectedAudience : string;
  gr_WantSyntheticJWT : bool;
  gr_Resource : string;
  gr_Action : string;
}.

(** Source: internal/httpserver/gateway_handlers.go, [AgentContext]. *)
Record AgentContext := mkAgent {
  ag_ActingOnBehalfOf : string;
  ag_DelegationDepth : Z;
  ag_Scope : list string;
}.

(** Source: internal/httpserver/gateway_handlers.go, [GatewayAuthorizeResponse]. *)
Record GatewayAuthorizeResponse := mkDecided {
  gd_Allowed : bool;
  gd_Subject : string;
  gd_ActingOnBehalfOf : string;
  gd_DelegationDepth : Z;
  gd_Claims : claims_map;
  gd_SyntheticJWT : string;
  gd_Agent : option AgentContext;
  gd_TenantID : string;
  gd_PolicyID : option Z;
  gd_ErrorCode : string;
  gd_Message : string;
  gd_Details : claims_map;
  gd_Reason : string;
  gd_APIVersion : string;
}.

(** Source: internal/httpserver/gateway_handlers.go, [gatewayError]. *)
Record gatewayError := mkGatewayError {
  ge_status : Z;
  ge_code : string;
  ge_message : string;
  ge_details : claims_map;
}.

Definition refusal (tenantID code message reason : string) (details : claims_map) (policyID : option Z)
  : GatewayAuthorizeResponse :=
  mkDecided false "" "" 0 None "" None tenantID policyID code message details reason APIVersion.

(** Source: internal/httpserver/gateway_handlers.go, [writeGatewayError]. *)
Definition writeGatewayError (tenantID : string) (err : gatewayError) : response GatewayAuthorizeResponse :=
  respond (ge_status err) (refusal tenantID (ge_code err) (ge_message err) (ge_code err) (ge_details err) None).

(** Source: internal/httpserver/gateway_handlers.go, [statusForGatewayResponse]. *)
Definition statusForGatewayResponse (resp : GatewayAuthorizeResponse) : Z :=
  if gd_Allowed resp then 200
  else
    let code := gd_ErrorCode resp in
    if bool_decide (code = "invalid_request") then 400
    else if bool_decide (code = "rate_limited") then 429
    else if bool_decide (code = "policy_denied") then 403
    else if in_list code ["credential_expired"; "invalid_credential"; "delegation_invalid";
                          "issuer_not_trusted"; "credential_revoked"; "tenant_mismatch"] then 401
    else if in_list code ["policy_error"; "internal_error"] then 500
    else if bool_decide (gd_Reason resp = "jwt_error") then 500
    else 403.

(** Source: internal/httpserver/gateway_handlers.go, [writeGatewayDecision]. *)
Definition writeGatewayDecision (resp : GatewayAuthorizeResponse) : response GatewayAuthorizeResponse :=
  respond (statusForGatewayResponse resp) resp.

(** Source: internal/httpserver/gateway_handlers.go, [mapVerificationError]. *)
Definition mapVerificationError (err : error) : gatewayError :=
  let any l := existsb (error_is err) l in
  if error_is err ErrExpiredCredential then
    mkGatewayError 401 "credential_expired" "credential has expired" None
  else if error_is err ErrUntrustedIssuer then
    mkGatewayError 401 "issuer_not_trusted" "issuer is not trusted" None
  else if any [ErrInvalidSignature; ErrInvalidToken; ErrIssuedInFuture; ErrUnexpectedAudience;
               ErrMissingDisclosure; ErrInvalidDisclosure] then
    mkGatewayError 401 "invalid_credential" (error_text err) None
  else if any [ErrDelegationDepth; ErrDelegationScope; ErrDelegationTTL; ErrInvalidDelegation] then
    mkGatewayError 401 "delegation_invalid" (error_text err) None
  else
    mkGatewayError 500 "internal_error" "credential verification failed"
      (Some {["error" := VStr (error_text err)]}).

(** The tokens of a request.
    Source: internal/httpserver/gateway_handlers.go:123-126, [RegisterGatewayRoutes]. *)
Definition request_tokens (credentials : list string) (credential : string) : list string :=
  match credentials with
  | [] => if bool_decide (credential = "") then [] else [credential]
  | _ => credentials
  end.

(** Source: internal/httpserver/gateway_handlers.go:58-58, [maxCredentialLength]. *)
Definition maxCredentialLength : nat := 8192.
(** Source: internal/httpserver/gateway_handlers.go:59-59, [maxFieldLength]. *)
Definition maxFieldLength : nat := 512.

Definition too_long (s : string) : bool := (maxFieldLength <? String.length s)%nat.

(** The loop over the tokens.
    Source: internal/httpserver/gateway_handlers.go:348-355, [validateGatewayRequest]. *)
Fixpoint validate_tokens (tokens : list string) : result string unit :=
  match tokens with
  | [] => Ok tt
  | token :: tokens' =>
      stop! bool_decide (token = "") with "credential cannot be empty" in
      stop! (maxCredentialLength <? String.length token)%nat with "credential too large" in
      validate_tokens tokens'
  end.

(** Source: internal/httpserver/gateway_handlers.go, [validateGatewayRequest]. *)
Definition validateGatewayRequest (req : GatewayAuthorizeRequest) : result string unit :=
  let tokens := request_tokens (gr_Credentials req) (gr_Credential req) in
  stop! bool_decide (tokens = []) with "credential is required" in
  stop! bool_decide (gr_Resource req = "") with "resource is required" in
  stop! bool_decide (gr_Action req = "") with "action is required" in
  stop! (too_long (gr_ExpectedAudience req) || too_long (gr_Resource req) || too_long (gr_Action req)) with
    "input fields too long" in
  validate_tokens tokens.

(** Source: internal/httpserver/gateway_handlers.go, [filterSafeClaims]. *)
Definition filterSafeClaims (claims : claims_map) : claims_map :=
  match claims with
  | None => None
  | Some m =>
      let safe : gmap string gval := filter (fun kv => kv.1 = "scope" \/ kv.1 = "roles") m in
      if bool_decide (safe = ∅) then None else Some safe
  end.

(** ** Keys *)

(** The bytes hashed for the cache key of a request.
    Source: internal/httpserver/gateway_handlers.go:378-388, [buildCacheKey]. *)
Definition cache_key_bytes (tokens : list string) (tenantID resource action expectedAudience : string)
    (wantSynthetic : bool) : string :=
  str_join "" tokens +:+ tenantID +:+ resource +:+ action +:+ expectedAudience
  +:+ (if wantSynthetic then "synthetic" else "").

(** Source: internal/httpserver/gateway_handlers.go, [buildCacheKey]. *)
Definition buildCacheKey `{Sha256} (tokens : list string)
    (tenantID resource action expectedAudience : string) (wantSynthetic : bool) : string :=
  "gw:" +:+ hex_string (sha256 (cache_key_bytes tokens tenantID resource action expectedAudience wantSynthetic)).

(** [net.SplitHostPort]: the host, or nothing when the address is malformed. *)
Definition first_index (c : ascii) (s : string) : option nat :=
  match split_on c s with
  | p :: _ :: _ => Some (String.length p)
  | _ => None
  end.

Definition split_host (hostport : string) : option string :=
  match last_index ":"%char hostport with
  | None => None
  | Some i =>
      match hostport with
      | String "[" _ =>
          match first_index "]"%char hostport with
          | None => None
          | Some e =>
              if negb (e + 1 =? i)%nat then None
              else if negb (no_byte "["%char (drop_bytes 1 hostport)) then None
              else if negb (no_byte "]"%char (drop_bytes (e + 1) hostport)) then None
              else Some (take_bytes (e - 1) (drop_bytes 1 hostport))
          end
      | _ =>
          let host := take_bytes i hostport in
          if negb (no_byte ":"%char host) then None
          else if negb (no_byte "["%char hostport) then None
          else if negb (no_byte "]"%char hostport) then None
          else Some host
      end
  end.

(** Source: internal/httpserver/gateway_handlers.go, [buildRateLimitKey]. *)
Definition buildRateLimitKey (remoteAddr tenantID : string) : string :=
  tenantID +:+ ":" +:+ default remoteAddr (split_host remoteAddr).

(** Source: internal/httpserver/gateway_handlers.go, [computeDecisionTTL]. *)
Definition computeDecisionTTL (chainResult : option DelegationChainResult) (now : time) : duration :=
  let defaultTTL := (60 * second)%Z in
  match chainResult ≫= fun r => last (cr_Credentials r) with
  | None => defaultTTL
  | Some leaf =>
      if is_zero (vc_ExpiresAt leaf) then defaultTTL
      else
        let remaining := time_sub (vc_ExpiresAt leaf) now in
        if (remaining <=? 0)%Z then 0%Z
        else if (remaining <? defaultTTL)%Z then remaining
        else defaultTTL
  end.

(** ** The cache and the limiter *)

(** Source: internal/cache/cache.go, [DecisionCache]. *)
Class DecisionCache (C : Type) := {
  cache_get : C -> time -> string -> result error (option string);
  cache_set : C -> time -> string -> string -> duration -> result error C;
}.

(** What is relied on of a cache: an answer is what was last set under that very key, and
    its time to live, which may be rounded up to a millisecond, has not run out. *)
Class DecisionCacheLaws (C : Type) `{DecisionCache C} := {
  cached_entry : C -> string -> option (string * time);
  cache_get_law c now k v : cache_get c now k = Ok (Some v) ->
    exists e, cached_entry c k = Some (v, e) /\ (now < e)%Z;
  cache_set_law c now k v ttl c' : (0 < ttl)%Z -> cache_set c now k v ttl = Ok c' ->
    forall k' v' e, cached_entry c' k' = Some (v', e) ->
      (k' = k /\ v' = v /\ e <= now + Z.max ttl millisecond)%Z \/ cached_entry c k' = Some (v', e);
}.

(** Source: internal/cache/cache.go, [NoopDecisionCache]. *)
#[global] Instance NoopDecisionCache : DecisionCache unit := {|
  cache_get _ _ _ := Ok None;
  cache_set c _ _ _ _ := Ok c;
|}.

#[global] Instance NoopDecisionCache_laws : DecisionCacheLaws unit.
Proof. refine {| cached_entry := fun _ _ => None |}; done. Defined.

(** [Allow] returns its verdict and, possibly, an error as well.
    Source: internal/ratelimit/ratelimit.go, [Limiter]. *)
Class Limiter (L : Type) := limiter_allow : L -> time -> string -> bool * L.

(** Source: internal/ratelimit/ratelimit.go, [NoopLimiter]. *)
#[global] Instance NoopLimiter : Limiter unit := fun l _ _ => (true, l).

(** ** The handler *)

(** The clock readings of one request. *)
Record readings := mkReadings {
  at_limit : time;
  at_lookup : time;
  at_verify : time;
  at_mint : time;
  at_ttl : time;
  at_store : time;
}.

Section gateway.
Context `{Json (gmap string gval), Json (list gval), Json VCJWTPayload, Json VerifiableCredential,
  Json GatewayAuthorizeResponse, Sha256, Ed25519}.
Context {T C L : Type} `{TrustRegistry T, DecisionCache C, Limiter L}.

(** Source: internal/httpserver/gateway_handlers.go, [GatewayConfig]. *)
Record GatewayConfig := mkGatewayConfig {
  gw_Resolver : option (string -> result error public_key);
  gw_PolicyEngine : option (EvaluationInput -> result fault EvaluationResult);
  gw_DefaultTenantID : string;
  gw_SigningKey : option Signer;
  gw_JWTIssuer : string;
}.

(** What the handler can change or consult. *)
Record gateway_state := mkGateway {
  gs_registry : option T;
  gs_cache : C;
  gs_limiter : L;
}.

(** Source: internal/httpserver/gateway_handlers.go, [readCachedDecision]. *)
Definition readCachedDecision (c : C) (now : time) (key : string) : option GatewayAuthorizeResponse :=
  match cache_get c now key with
  | Ok (Some data) => to_option (json_unmarshal data)
  | _ => None
  end.

(** Source: internal/httpserver/gateway_handlers.go, [persistDecision]. *)
Definition persistDecision (c : C) (now : time) (key : string) (resp : GatewayAuthorizeResponse)
    (ttl : duration) : C :=
  if (ttl <=? 0)%Z then c
  else match json_marshal resp with
       | Err _ => c
       | Ok payload => default c (to_option (cache_set c now key payload ttl))
       end.

(** Source: internal/httpserver/gateway_handlers.go:184-196, [RegisterGatewayRoutes]. *)
Definition evaluation_input (tenantID path : string) (req : GatewayAuthorizeRequest)
    (chainResult : DelegationChainResult) (decision : AuthzDecision) : EvaluationInput :=
  mkInput tenantID (ad_SubjectDID decision) (ad_ActingOnBehalfOf decision)
    (ScopeFromClaims (ad_Claims decision)) (ad_Claims decision) (gr_Resource req) (gr_Action req)
    (Some {["delegation_depth" := VInt (cr_DelegationDepth chainResult); "path" := VStr path]}).

(** Source: internal/httpserver/gateway_handlers.go:211-221, [RegisterGatewayRoutes]. *)
Definition agent_context (chainResult : DelegationChainResult) : option AgentContext :=
  match reverse (cr_Credentials chainResult) with
  | child :: parent :: _ =>
      let ctx := BuildOnBehalfOfContext (Some parent) (Some child) in
      Some (mkAgent (obo_ActingFor ctx) (obo_DelegationDepth ctx) (obo_Scope ctx))
  | _ => None
  end.

(** Source: internal/httpserver/gateway_handlers.go:223-234, [RegisterGatewayRoutes]. *)
Definition allow_response (tenantID : string) (decision : AuthzDecision) (agent : option AgentContext)
    (pr : EvaluationResult) (jwt : string) : GatewayAuthorizeResponse :=
  mkDecided (ad_Allowed decision) (ad_SubjectDID decision) (ad_ActingOnBehalfOf decision)
    (ad_DelegationDepth decision) (filterSafeClaims (ad_Claims decision)) jwt agent tenantID
    (er_PolicyID pr) "" "" None (er_Reason pr) APIVersion.

(** The part of the handler after a cache miss: it verifies, asks the policy engine,
    and mints a token.  [inl] is a refusal with the counters it bumps, [inr] an allowed
    decision with its chain; [Err Panic] is a panic of the policy engine.
    Source: internal/httpserver/gateway_handlers.go:157-245, [RegisterGatewayRoutes]. *)
Definition decide_request (cfg : GatewayConfig) (registry : option T) (ck : readings)
    (tenantID path : string) (tokens : list string) (req : GatewayAuthorizeRequest)
  : result fault
      (response GatewayAuthorizeResponse * list effect + GatewayAuthorizeResponse * DelegationChainResult) :=
  let deps := mkDeps (Some (trusted_resolver registry tenantID (gw_Resolver cfg))) in
  match VerifyCredentialChain tokens deps (mkOptions (gr_ExpectedAudience req) 3) (at_verify ck) with
  | Err err =>
      let gwErr := mapVerificationError err in
      Ok (inl (writeGatewayError tenantID gwErr,
               [Counted (DefaultIncVerificationFailure (ge_code gwErr));
                Counted (IncAuthzDeny tenantID (ge_code gwErr))]))
  | Ok chainResult =>
      let decision := BuildAuthzDecisionFromVerification (Some chainResult) in
      let engine := default NoOpEngine_Evaluate (gw_PolicyEngine cfg) in
      match engine (evaluation_input tenantID path req chainResult decision) with
      | Err Panic => Err Panic
      | Err (Failed err) =>
          Ok (inl (writeGatewayError tenantID
                     (mkGatewayError 500 "policy_error" (error_text err) None), []))
      | Ok policyResult =>
          if negb (er_Allow policyResult) then
            Ok (inl (writeGatewayDecision
                       (refusal tenantID "policy_denied" (er_Reason policyResult) "policy_denied"
                          (Some {["policy_id" := from_option VInt64 VNull (er_PolicyID policyResult)]})
                          (er_PolicyID policyResult)),
                     [Counted (IncAuthzDeny tenantID "policy_denied")]))
          else
            let jwt :=
              if gr_WantSyntheticJWT req
              then BuildSyntheticJWT (at_mint ck) decision (gw_SigningKey cfg) (gw_JWTIssuer cfg)
                     (15 * minute)%Z
              else Ok "" in
            match jwt with
            | Err err =>
                Ok (inl (writeGatewayDecision
                           (refusal tenantID "internal_error" "failed to mint synthetic jwt" "jwt_error"
                              (Some {["error" := VStr (error_text err)]}) None),
                         [Counted (IncAuthzDeny tenantID "jwt_error")]))
            | Ok token =>
                Ok (inr (allow_response tenantID decision (agent_context chainResult) policyResult token,
                         chainResult))
            end
      end
  end.

(** Source: internal/httpserver/gateway_handlers.go, [RegisterGatewayRoutes]. *)
Definition handleAuthorize (cfg : GatewayConfig) (ck : readings)
    (r : request GatewayAuthorizeRequest) (s : gateway_state)
  : result fault (outcome gateway_state GatewayAuthorizeResponse) :=
  let tenantID := tenant_or_default r (gw_DefaultTenantID cfg) in
  if negb (bool_decide (r_Method r = "POST")) then
    Ok (halt s (writeGatewayError tenantID
                  (mkGatewayError 405 "method_not_allowed" "method not allowed" None)))
  else
    match r_Body r with
    | None =>
        Ok (halt s (writeGatewayError tenantID
                      (mkGatewayError 400 "invalid_request" "invalid request payload" None)))
    | Some req =>
        let count := [Counted (IncAuthzRequest tenantID)] in
        match validateGatewayRequest req with
        | Err msg =>
            Ok (writeGatewayError tenantID (mkGatewayError 400 "invalid_request" msg None), s,
                app count [Counted (IncAuthzDeny tenantID "invalid_request")])
        | Ok _ =>
            let tokens := request_tokens (gr_Credentials req) (gr_Credential req) in
            let '(allowed, limiter) :=
              limiter_allow (gs_limiter s) (at_limit ck) (buildRateLimitKey (r_RemoteAddr r) tenantID) in
            let s := mkGateway (gs_registry s) (gs_cache s) limiter in
            if negb allowed then
              Ok (writeGatewayError tenantID (mkGatewayError 429 "rate_limited" "rate limit exceeded" None),
                  s, app count [Counted (IncAuthzDeny tenantID "rate_limited")])
            else
              let key := buildCacheKey tokens tenantID (gr_Resource req) (gr_Action req)
                           (gr_ExpectedAudience req) (gr_WantSyntheticJWT req) in
              match readCachedDecision (gs_cache s) (at_lookup ck) key with
              | Some cached =>
                  let verdict :=
                    if gd_Allowed cached then Counted (IncAuthzAllow tenantID)
                    else Counted
                           (IncAuthzDeny tenantID (if bool_decide (gd_ErrorCode cached = "") then gd_Reason cached
                                      else gd_ErrorCode cached)) in
                  Ok (writeGatewayDecision cached, s,
                      app count [Counted (IncAuthzCacheHit tenantID); verdict])
              | None =>
                  let count := app count [Counted (IncAuthzCacheMiss tenantID)] in
                  let! d := decide_request cfg (gs_registry s) ck tenantID (r_Path r) tokens req in
                  match d with
                  | inl (resp, es) => Ok (resp, s, app count es)
                  | inr (resp, chainResult) =>
                      let ttl := computeDecisionTTL (Some chainResult) (at_ttl ck) in
                      let cache := persistDecision (gs_cache s) (at_store ck) key resp ttl in
                      Ok (writeGatewayDecision resp, mkGateway (gs_registry s) cache (gs_limiter s),
                          app count [Counted (DefaultIncVerificationSuccess "ok");
                                     Counted (IncAuthzAllow tenantID)])
                  end
              end
        end
    end.
End gateway.
