(* ===== verification/GatewayProps.v ===== *)
(** * What the gateway guarantees. *)

From S2P Require Import Prelude GoStrings Base64 GoTime Errors Values Crypto Credential Instances.
From S2P Require Import Delegation SDJwt Verify VerifyFacts Issue IssueFacts ChainExample.
From S2P Require Import AuthzBridge Policy PolicyFacts Http Trust Gateway.
From Stdlib Require Import ZArith Ascii String Lia.
From stdpp Require Import gmap list strings.

Local Open Scope string_scope.

(** ** Lifetimes of decisions *)

Lemma computeDecisionTTL_bounds r now :
  (0 <= computeDecisionTTL (Some r) now <= 60 * second)%Z
  /\ forall leaf, last (cr_Credentials r) = Some leaf -> vc_ExpiresAt leaf <> zero_time ->
       (0 < computeDecisionTTL (Some r) now -> now + computeDecisionTTL (Some r) now <= vc_ExpiresAt leaf)%Z.
Proof.
  unfold computeDecisionTTL. cbn [mbind option_bind].
  destruct (last (cr_Credentials r)) as [leaf|]; [|split; [unfold second; lia|done]].
  unfold is_zero, zero_time, time_sub, second, min_int64, max_int64.
  destruct (vc_ExpiresAt leaf =? 0)%Z eqn:E; breflect.
  - split; [lia|]. intros leaf' [= <-] Hne. done.
  - destruct (_ <=? 0)%Z eqn:E1; breflect; [split; [lia|]; intros; lia|].
    destruct (_ <? _)%Z eqn:E2; breflect; (split; [lia|]; intros leaf' [= <-] _; lia).
Qed.

Section facts.
Context `{Json (gmap string gval), Json (list gval), Json VCJWTPayload, Json VerifiableCredential,
  Json GatewayAuthorizeResponse, Sha256, Ed25519}.
Context {T C L : Type} `{TrustRegistry T, DecisionCache C, Limiter L}.

(** The key under which the decision of a request is cached. *)
Definition request_key (tenantID : string) (req : GatewayAuthorizeRequest) : string :=
  buildCacheKey (request_tokens (gr_Credentials req) (gr_Credential req)) tenantID (gr_Resource req)
    (gr_Action req) (gr_ExpectedAudience req) (gr_WantSyntheticJWT req).

(** A request was allowed on its merits: the chain verified through the trust registry
    and the policy engine allowed the request as a whole. *)
Definition merits (cfg : GatewayConfig) (registry : option T) (ck : readings) (tenantID path : string)
    (req : GatewayAuthorizeRequest) (d : GatewayAuthorizeResponse) (chain : DelegationChainResult) : Prop :=
  VerifyCredentialChain (request_tokens (gr_Credentials req) (gr_Credential req))
    (mkDeps (Some (trusted_resolver registry tenantID (gw_Resolver cfg))))
    (mkOptions (gr_ExpectedAudience req) 3) (at_verify ck) = Ok chain
  /\ exists pr,
       default NoOpEngine_Evaluate (gw_PolicyEngine cfg)
         (evaluation_input tenantID path req chain (BuildAuthzDecisionFromVerification (Some chain))) = Ok pr
       /\ er_Allow pr = true /\ gd_PolicyID d = er_PolicyID pr
       /\ gd_Subject d = cr_CurrentSubject chain /\ gd_TenantID d = tenantID.

Lemma decision_allowed tokens deps opts now chain :
  VerifyCredentialChain tokens deps opts now = Ok chain ->
  BuildAuthzDecisionFromVerification (Some chain)
  = mkDecision true (cr_CurrentSubject chain) (cr_RootDelegator chain) (cr_DelegationDepth chain)
      (vc_Claims (default zero_vc (last (cr_Credentials chain)))) "".
Proof.
  destruct deps as [[resolve|]]; [|done]. intros Hr.
  apply VerifyCredentialChain_Ok in Hr as (cs & Hne & Hall & _ & _ & ->). cbn.
  apply verifies_all_length in Hall. destruct (last cs) eqn:Hl; [done|].
  apply last_None in Hl as ->. by destruct tokens.
Qed.

(** After a cache miss: an allowed decision was reached on the merits. *)
Lemma decide_request_inr cfg reg ck tenantID path req d chain :
  decide_request cfg reg ck tenantID path (request_tokens (gr_Credentials req) (gr_Credential req)) req
    = Ok (inr (d, chain)) ->
  gd_Allowed d = true /\ merits cfg reg ck tenantID path req d chain.
Proof.
  unfold decide_request, merits. destruct (VerifyCredentialChain _ _ _ _) as [ch|e] eqn:Hv; [|done].
  destruct (default NoOpEngine_Evaluate _ _) as [pr|[]] eqn:He; try done.
  destruct (er_Allow pr) eqn:Ha; [|done]. cbn [negb].
  destruct (if gr_WantSyntheticJWT req then _ else _) as [jwt|]; [|done]. intros Hres.
  assert (d = allow_response tenantID (BuildAuthzDecisionFromVerification (Some ch)) (agent_context ch) pr jwt)
    as -> by congruence.
  assert (chain = ch) as -> by congruence. apply decision_allowed in Hv as Hd. unfold allow_response.
  cbn [gd_Allowed gd_PolicyID gd_Subject gd_TenantID].
  split; [by rewrite Hd|]. split; [done|]. exists pr. split; [done|]. split; [done|]. split; [done|].
  by rewrite Hd.
Qed.

(** Every other outcome is a refusal. *)
Lemma decide_request_inl cfg reg ck tenantID path tokens req resp es :
  decide_request cfg reg ck tenantID path tokens req = Ok (inl (resp, es)) ->
  exists d, rs_Body resp = Body d /\ gd_Allowed d = false /\ (400 <= rs_Status resp)%Z.
Proof.
  unfold decide_request. destruct (VerifyCredentialChain _ _ _ _) as [ch|e].
  - destruct (default NoOpEngine_Evaluate _ _) as [pr|[]]; try done.
    + destruct (er_Allow pr); cbn [negb].
      * destruct (if gr_WantSyntheticJWT req then _ else _); [done|]. intros [= <- _].
        eexists. split; [done|]. split; [done|]. by vm_compute.
      * intros [= <- _]. eexists. split; [done|]. split; [done|]. by vm_compute.
    + intros [= <- _]. eexists. split; [done|]. split; [done|]. cbn. lia.
  - intros [= <- _]. eexists. split; [done|]. split; [done|].
    unfold mapVerificationError. repeat (case_match; [cbn; lia|]). cbn. lia.
Qed.

Lemma status_of_decision d : statusForGatewayResponse d = 200%Z <-> gd_Allowed d = true.
Proof.
  unfold statusForGatewayResponse. destruct (gd_Allowed d); [done|]. split; [|done].
  repeat (case_match; [done|]). done.
Qed.

(** The other direction: with a chain that verifies, an engine that allows and a token that can
    be made, nothing else stands in the way of an allowed decision. *)
Lemma handleAuthorize_allows cfg ck r (s : gateway_state (T := T) (C := C) (L := L)) req chain pr token :
  let t := tenant_or_default r (gw_DefaultTenantID cfg) in
  let decision := BuildAuthzDecisionFromVerification (Some chain) in
  r_Method r = "POST" -> r_Body r = Some req -> validateGatewayRequest req = Ok tt ->
  (limiter_allow (gs_limiter s) (at_limit ck) (buildRateLimitKey (r_RemoteAddr r) t)).1 = true ->
  readCachedDecision (gs_cache s) (at_lookup ck) (request_key t req) = None ->
  VerifyCredentialChain (request_tokens (gr_Credentials req) (gr_Credential req))
    (mkDeps (Some (trusted_resolver (gs_registry s) t (gw_Resolver cfg)))) (mkOptions (gr_ExpectedAudience req) 3)
    (at_verify ck) = Ok chain ->
  default NoOpEngine_Evaluate (gw_PolicyEngine cfg) (evaluation_input t (r_Path r) req chain decision) = Ok pr ->
  er_Allow pr = true ->
  (if gr_WantSyntheticJWT req then BuildSyntheticJWT (at_mint ck) decision (gw_SigningKey cfg) (gw_JWTIssuer cfg) (15 * minute)%Z
   else Ok "") = Ok token ->
  exists s' es, handleAuthorize cfg ck r s
    = Ok (writeGatewayDecision (allow_response t decision (agent_context chain) pr token), s', es)
    /\ gs_registry s' = gs_registry s.
Proof.
  cbv zeta. intros Hm Hb Hval Hlim Hcache Hv He Ha Ht. unfold handleAuthorize. rewrite Hm, Hb, bool_decide_eq_true_2 by done.
  cbn [negb]. rewrite Hval. destruct (limiter_allow _ _ _) as [allowed lim]. cbn [fst] in Hlim. subst allowed. cbn [negb gs_cache gs_registry].
  unfold request_key in Hcache. rewrite Hcache. unfold decide_request. rewrite Hv, He, Ha. cbn [negb]. rewrite Ht. cbn [rbind].
  eexists _, _. split; reflexivity.
Qed.

(** The handler, read backwards from an answer with a decision in it. *)
Lemma handleAuthorize_Ok cfg ck r s resp s' es :
  handleAuthorize cfg ck r s = Ok (resp, s', es) ->
  let tenantID := tenant_or_default r (gw_DefaultTenantID cfg) in
  gs_registry s' = gs_registry s /\
  ((exists d, rs_Body resp = Body d /\ gd_Allowed d = false /\ (400 <= rs_Status resp)%Z
      /\ gs_cache s' = gs_cache s)
   \/ exists req d, r_Body r = Some req /\ resp = writeGatewayDecision d /\
        ((readCachedDecision (gs_cache s) (at_lookup ck) (request_key tenantID req) = Some d
          /\ gs_cache s' = gs_cache s)
         \/ exists chain, gd_Allowed d = true /\ merits cfg (gs_registry s) ck tenantID (r_Path r) req d chain
              /\ gs_cache s' = persistDecision (gs_cache s) (at_store ck) (request_key tenantID req) d
                                 (computeDecisionTTL (Some chain) (at_ttl ck)))).
Proof.
  unfold handleAuthorize. cbv zeta. set (t := tenant_or_default r (gw_DefaultTenantID cfg)).
  destruct (bool_decide (r_Method r = "POST")); cbn [negb].
  2: { intros [= <- <- _]. split; [done|]. left. eexists. split; [done|]. split; [done|]. split; [cbn; lia|done]. }
  destruct (r_Body r) as [req|].
  2: { intros [= <- <- _]. split; [done|]. left. eexists. split; [done|]. split; [done|]. split; [cbn; lia|done]. }
  destruct (validateGatewayRequest req) as [?|msg].
  2: { intros [= <- <- _]. split; [done|]. left. eexists. split; [done|]. split; [done|]. split; [cbn; lia|done]. }
  destruct (limiter_allow _ _ _) as [[] lim]; cbn [negb].
  2: { intros [= <- <- _]. split; [done|]. left. eexists. split; [done|]. split; [done|]. split; [cbn; lia|done]. }
  cbn [gs_cache gs_registry]. fold (request_key t req).
  destruct (readCachedDecision _ _ _) as [d|] eqn:Hc.
  { intros [= <- <- _]. split; [done|]. right. exists req, d. auto. }
  intros Hr. bind_inv Hr as o Ho. destruct o as [[resp' es']|[d chain]].
  - injection Hr as <- <- _. split; [done|]. left.
    apply decide_request_inl in Ho as (d & ? & ? & ?). exists d. done.
  - injection Hr as <- <- _. split; [done|]. right. exists req, d. split; [done|]. split; [done|].
    right. exists chain. apply decide_request_inr in Ho as [? ?]. done.
Qed.

(** ** Runs *)

(** A request of a run: when it was handled, and what it was. *)
Abbreviation served := (readings * request GatewayAuthorizeRequest)%type.

(** A request that panics in the policy engine leaves the cache as it was; the properties of
    runs do not speak of the limiter, whose change is not kept in that case. *)
Definition serve (cfg : GatewayConfig) (s : gateway_state) (x : served) : gateway_state (T := T) (C := C) (L := L) :=
  match handleAuthorize cfg x.1 x.2 s with
  | Ok (_, s', _) => s'
  | Err _ => s
  end.

Definition serve_all (cfg : GatewayConfig) (s : gateway_state) (xs : list served) : gateway_state :=
  foldl (serve cfg) s xs.

Context `{!DecisionCacheLaws C}.

(** The decision [v], cached under [k] until [e], was reached on the merits by a request
    of [xs] with that key, not more than a minute before [e]. *)
Definition backed (cfg : GatewayConfig) (reg : option T) (xs : list served) (k v : string) (e : time) : Prop :=
  exists ck r req d chain, (ck, r) ∈ xs /\ r_Body r = Some req
    /\ k = request_key (tenant_or_default r (gw_DefaultTenantID cfg)) req
    /\ json_marshal d = Ok v /\ gd_Allowed d = true
    /\ merits cfg reg ck (tenant_or_default r (gw_DefaultTenantID cfg)) (r_Path r) req d chain
    /\ (e <= at_store ck + 60 * second)%Z.

Lemma persist_entry c now k d ttl k' v e :
  cached_entry (persistDecision c now k d ttl) k' = Some (v, e) ->
  (k' = k /\ json_marshal d = Ok v /\ e <= now + Z.max ttl millisecond)%Z \/ cached_entry c k' = Some (v, e).
Proof.
  unfold persistDecision. destruct (ttl <=? 0)%Z eqn:Httl; [by right|]. breflect.
  destruct (json_marshal d) as [payload|]; [|by right].
  destruct (cache_set c now k payload ttl) as [c'|] eqn:Hs; cbn; [|by right].
  intros He. destruct (cache_set_law _ _ _ _ _ _ Httl Hs _ _ _ He) as [(-> & -> & ?)|?]; auto.
Qed.

Lemma serve_registry cfg s x : gs_registry (serve cfg s x) = gs_registry s.
Proof.
  unfold serve. destruct (handleAuthorize _ _ _ _) as [[[resp s'] es]|] eqn:Hh; [|done].
  by apply handleAuthorize_Ok in Hh as [? _].
Qed.

Lemma serve_backed cfg s xs x :
  (forall k v e, cached_entry (gs_cache s) k = Some (v, e) -> backed cfg (gs_registry s) xs k v e) ->
  forall k v e, cached_entry (gs_cache (serve cfg s x)) k = Some (v, e) ->
    backed cfg (gs_registry s) (app xs [x]) k v e.
Proof.
  destruct x as [ck r]. intros Hb k v e. assert (Hmono : cached_entry (gs_cache s) k = Some (v, e) ->
    backed cfg (gs_registry s) (app xs [(ck, r)]) k v e).
  { intros He. destruct (Hb _ _ _ He) as (ck' & r' & req & d & chain & Hin & ?).
    exists ck', r', req, d, chain. split; [by apply elem_of_app; left|done]. }
  unfold serve. destruct (handleAuthorize _ _ _ _) as [[[resp s'] es]|] eqn:Hh; [|done].
  apply handleAuthorize_Ok in Hh as [_ [(d & _ & _ & _ & ->)|(req & d & Hreq & _ & Hd)]]; [done|].
  destruct Hd as [[_ ->]|(chain & Ha & Hm & ->)]; [done|].
  intros [(-> & Hv & Hle)|?]%persist_entry; [|by apply Hmono].
  exists ck, r, req, d, chain. split; [apply elem_of_app; right; left|].
  repeat (split; [done|]). pose proof (computeDecisionTTL_bounds chain (at_ttl ck)).
  cbn [fst] in *. unfold millisecond, second in *. lia.
Qed.

Lemma serve_all_backed cfg s xs :
  (forall k, cached_entry (gs_cache s) k = None) ->
  gs_registry (serve_all cfg s xs) = gs_registry s /\
  forall k v e, cached_entry (gs_cache (serve_all cfg s xs)) k = Some (v, e) ->
    backed cfg (gs_registry s) xs k v e.
Proof.
  intros Hempty. induction xs as [|x xs [IHr IH]] using rev_ind.
  - split; [done|]. intros k v e. cbn. by rewrite Hempty.
  - unfold serve_all in *. rewrite foldl_snoc. split; [by rewrite serve_registry|].
    intros k v e He. rewrite <- IHr. apply (serve_backed cfg _ xs x); [|done].
    intros k' v' e' He'. rewrite IHr. by apply IH.
Qed.
End facts.

(** ** Properties *)

Section properties.
Context `{Json (gmap string gval), Json (list gval), Json VCJWTPayload, Json VerifiableCredential,
  Json GatewayAuthorizeResponse, Sha256, Ed25519}.
Context {T C L : Type} `{TrustRegistry T, DecisionCache C, Limiter L, !DecisionCacheLaws C}.

(** C4: Whatever the gateway served before, starting from an empty cache, when it answers a
    request with an allowed decision then either the request's own chain verified through the
    trust registry and the policy engine allowed it, or the decision was reached that way, not
    more than a minute earlier, for a request with the same cache key, and stored. *)
Theorem gateway_allow_sound cfg (s0 : gateway_state (T := T) (C := C) (L := L)) xs ck r resp s' es d :
  (forall k, cached_entry (gs_cache s0) k = None) ->
  handleAuthorize cfg ck r (serve_all cfg s0 xs) = Ok (resp, s', es) ->
  rs_Body resp = Body d -> gd_Allowed d = true ->
  let tenantID := tenant_or_default r (gw_DefaultTenantID cfg) in
  exists req, r_Body r = Some req /\
    ((exists chain, merits cfg (gs_registry s0) ck tenantID (r_Path r) req d chain)
     \/ exists v e, json_unmarshal v = Ok d /\ backed cfg (gs_registry s0) xs (request_key tenantID req) v e
          /\ (at_lookup ck < e)%Z).
Proof.
  intros Hempty Hh Hbody Hallow. destruct (serve_all_backed cfg s0 xs Hempty) as [Hreg Hback].
  apply handleAuthorize_Ok in Hh as [_ [(d' & Hb' & Hd' & _)|(req & d' & Hreq & -> & Hd)]]; [congruence|].
  injection Hbody as ->. exists req. split; [done|].
  destruct Hd as [[Hc _]|(chain & _ & Hm & _)]; [right|left; exists chain; by rewrite <- Hreg].
  unfold readCachedDecision in Hc. destruct (cache_get _ _ _) as [[v|]|] eqn:Hg; try done.
  destruct (json_unmarshal v) as [d'|] eqn:Hu; [|done]. injection Hc as ->.
  apply cache_get_law in Hg as (e & He & Hlt). exists v, e. split; [done|]. split; [by apply Hback|done].
Qed.

(** The status tells the decision: every answer carries a decision, and its status is
    200 exactly when the decision is allowed; a refusal is never put in the cache. *)
Theorem gateway_status_consistent cfg ck r (s : gateway_state (T := T) (C := C) (L := L)) resp s' es :
  handleAuthorize cfg ck r s = Ok (resp, s', es) ->
  exists d, rs_Body resp = Body d /\ (rs_Status resp = 200%Z <-> gd_Allowed d = true)
    /\ (gd_Allowed d = false -> gs_cache s' = gs_cache s).
Proof.
  intros [_ [(d & Hb & Hd & Hs & Hc)|(req & d & _ & -> & Hd)]]%handleAuthorize_Ok; exists d.
  - split; [done|]. split; [|done]. rewrite Hd. split; [lia|done].
  - split; [done|]. split; [apply status_of_decision|].
    destruct Hd as [[_ Hc]|(chain & Ha & _)]; [done|congruence].
Qed.

(** The cache key is the digest of a plain concatenation, so two requests whose parts
    concatenate to the same bytes share it: when a decision is cached for one of them, the
    other gets it, whatever the policy engine would say of it. *)
Theorem gateway_cache_confusion cfg ck r (s : gateway_state (T := T) (C := C) (L := L))
    t req req' d lim :
  let t' := tenant_or_default r (gw_DefaultTenantID cfg) in
  let bytes t req := cache_key_bytes (request_tokens (gr_Credentials req) (gr_Credential req)) t
                       (gr_Resource req) (gr_Action req) (gr_ExpectedAudience req)
                       (gr_WantSyntheticJWT req) in
  r_Method r = "POST" -> r_Body r = Some req' -> validateGatewayRequest req' = Ok tt ->
  limiter_allow (gs_limiter s) (at_limit ck) (buildRateLimitKey (r_RemoteAddr r) t') = (true, lim) ->
  bytes t req = bytes t' req' ->
  readCachedDecision (gs_cache s) (at_lookup ck) (request_key t req) = Some d ->
  exists s' es, handleAuthorize cfg ck r s = Ok (writeGatewayDecision d, s', es).
Proof.
  cbv zeta. intros Hm Hb Hv Hl Hbytes Hc. unfold handleAuthorize. rewrite Hm, Hb, Hv, Hl. cbn [negb].
  assert (Hk : request_key t req = request_key (tenant_or_default r (gw_DefaultTenantID cfg)) req')
    by (unfold request_key, buildCacheKey; by rewrite Hbytes).
  cbn [bool_decide gs_cache gs_registry gs_limiter]. fold (request_key (tenant_or_default r (gw_DefaultTenantID cfg)) req').
  rewrite <- Hk, Hc. eauto.
Qed.
End properties.

(** ** Instances *)

(** A cache that forgets entries when their time is over. *)
Record map_cache := mkMapCache { mc_entries : gmap string (string * time) }.

#[export] Instance map_cache_ops : DecisionCache map_cache := {|
  cache_get c now k :=
    Ok (match mc_entries c !! k with
        | Some (v, e) => if (now <? e)%Z then Some v else None
        | None => None
        end);
  cache_set c now k v ttl := Ok (mkMapCache (<[k := (v, (now + ttl)%Z)]> (mc_entries c)));
|}.

#[export] Instance map_cache_laws : DecisionCacheLaws map_cache.
Proof.
  refine {| cached_entry := fun c k => mc_entries c !! k |}.
  - intros c now k v. cbn. destruct (mc_entries c !! k) as [[v' e]|]; [|done].
    destruct (now <? e)%Z eqn:E; [|done]. intros [= ->]. breflect. eauto.
  - intros c now k v ttl c' _ [= <-] k' v' e. cbn [mc_entries].
    destruct (decide (k' = k)) as [->|Hne]; [rewrite lookup_insert_eq|rewrite lookup_insert_ne by done].
    + intros [= <- <-]. left. repeat split. lia.
    + by right.
Defined.

#[export] Instance agent_eq_dec : EqDecision AgentContext.
Proof. solve_decision. Defined.
#[export] Instance agent_countable : Countable AgentContext.
Proof.
  refine (inj_countable' (fun a => (ag_ActingOnBehalfOf a, ag_DelegationDepth a, ag_Scope a))
    (fun '(a, b, c) => mkAgent a b c) _). by intros [].
Defined.

#[export] Instance decided_eq_dec : EqDecision GatewayAuthorizeResponse.
Proof. solve_decision. Defined.

Definition decided_code (d : GatewayAuthorizeResponse) :=
  ((gd_Allowed d, gd_Subject d, gd_ActingOnBehalfOf d, gd_DelegationDepth d),
   (from_option VObj VNull (gd_Claims d), gd_SyntheticJWT d, gd_Agent d, gd_TenantID d),
   (gd_PolicyID d, gd_ErrorCode d, gd_Message d, from_option VObj VNull (gd_Details d)),
   (gd_Reason d, gd_APIVersion d)).

Definition map_of_value (v : gval) : claims_map := match v with VObj m => Some m | _ => None end.

#[export] Instance decided_countable : Countable GatewayAuthorizeResponse.
Proof.
  refine (inj_countable' decided_code
    (fun '((a, b, c, d), (e, f, g, h), (i, j, k, l), (m, n)) =>
       mkDecided a b c d (map_of_value e) f g h i j k (map_of_value l) m n) _).
  intros [? ? ? ? cl ? ? ? ? ? ? de ? ?]. unfold decided_code. cbn. by destruct cl, de.
Defined.

#[export] Instance decided_json : Json GatewayAuthorizeResponse :=
  code_json "g" (fun d => mkDecided (gd_Allowed d) (gd_Subject d) (gd_ActingOnBehalfOf d)
    (gd_DelegationDepth d) (map_image_omitempty (gd_Claims d)) (gd_SyntheticJWT d) (gd_Agent d)
    (gd_TenantID d) (gd_PolicyID d) (gd_ErrorCode d) (gd_Message d) (map_image_omitempty (gd_Details d))
    (gd_Reason d) (gd_APIVersion d)).

(** Allows one action on one resource. *)
Definition only_sread (i : EvaluationInput) : result fault EvaluationResult :=
  Ok (if bool_decide (in_Resource i = "doc" /\ in_Action i = "sread")
      then mkResult true "policy_allow" (Some 1%Z) else mkResult false "no_matching_policy" None).

Definition gateway_cfg : GatewayConfig :=
  mkGatewayConfig (Some resolve_alice) (Some only_sread) "acme" (Some alice) "did:ex:gw".

Definition all_at (t : time) : readings := mkReadings t t t t t t.

Definition authorize (resource action : string) : request GatewayAuthorizeRequest :=
  mkRequest "POST" "/v1/gateway/authorize" "" (fun _ => "") "10.0.0.1:4711"
    (Some (mkAuthorize "" [root_token; leaf_token] "" false resource action)) background.

Definition gateway0 : gateway_state (T := MemoryTrust.MemoryTrustRegistry) (C := map_cache) (L := unit) :=
  mkGateway (Some alice_trusted) (mkMapCache ∅) tt.

Definition gateway_answer (s : gateway_state) (t : time) (resource action : string)
  : option (response GatewayAuthorizeResponse) :=
  out_response <$> to_option (handleAuthorize gateway_cfg (all_at t) (authorize resource action) s).

Definition gateway1 : gateway_state :=
  serve_all gateway_cfg gateway0 [(all_at t0, authorize "doc" "sread")].

(** A summary of an answer: its status, and whether the decision in it is allowed. *)
Definition verdict (o : option (response GatewayAuthorizeResponse)) : option (Z * bool) :=
  resp ← o;
  match rs_Body resp with Body d => Some (rs_Status resp, gd_Allowed d) | _ => None end.

Lemma verdict_Some s t resource action st b :
  verdict (gateway_answer s t resource action) = Some (st, b) ->
  exists resp s' es d,
    handleAuthorize gateway_cfg (all_at t) (authorize resource action) s = Ok (resp, s', es)
    /\ rs_Body resp = Body d /\ rs_Status resp = st /\ gd_Allowed d = b.
Proof.
  unfold verdict, gateway_answer. destruct (handleAuthorize _ _ _ _) as [[[resp s'] es]|]; cbn; [|done].
  destruct (rs_Body resp) as [d| |] eqn:Hb; try done. intros [= <- <-]. by exists resp, s', es, d.
Qed.

Lemma verdict_doc : verdict (gateway_answer gateway0 t0 "doc" "sread") = Some (200%Z, true).
Proof. vm_compute. reflexivity. Qed.
Lemma verdict_docs : verdict (gateway_answer gateway0 t0 "docs" "read") = Some (403%Z, false).
Proof. vm_compute. reflexivity. Qed.

(** The first request is allowed on its merits. *)
Lemma gateway_allow_sound_witness :
  exists resp d, gateway_answer gateway0 t0 "doc" "sread" = Some resp /\ rs_Body resp = Body d
    /\ exists req, r_Body (authorize "doc" "sread") = Some req /\
       ((exists chain, merits gateway_cfg (Some alice_trusted) (all_at t0) "acme" "/v1/gateway/authorize" req d chain)
        \/ exists v e, json_unmarshal v = Ok d
             /\ backed gateway_cfg (Some alice_trusted) [] (request_key "acme" req) v e /\ (t0 < e)%Z).
Proof.
  destruct (verdict_Some _ _ _ _ _ _ verdict_doc) as (resp & s' & es & d & Hh & Hb & _ & Ha).
  exists resp, d. split; [unfold gateway_answer; rewrite Hh; reflexivity|]. split; [exact Hb|].
  refine (gateway_allow_sound gateway_cfg gateway0 [] (all_at t0) (authorize "doc" "sread") resp s' es d
    _ Hh Hb Ha).
  intros k. apply lookup_empty.
Defined.

Lemma gateway_status_consistent_witness :
  exists resp, gateway_answer gateway0 t0 "docs" "read" = Some resp
    /\ exists d, rs_Body resp = Body d /\ (rs_Status resp = 200%Z <-> gd_Allowed d = true).
Proof.
  destruct (verdict_Some _ _ _ _ _ _ verdict_docs) as (resp & s' & es & d & Hh & _).
  exists resp. split; [unfold gateway_answer; rewrite Hh; reflexivity|].
  destruct (gateway_status_consistent _ _ _ _ _ _ _ Hh) as (d' & Hb & Hs & _). exists d'. exact (conj Hb Hs).
Defined.

Definition cached_doc : option GatewayAuthorizeResponse :=
  readCachedDecision (gs_cache gateway1) (t0 + second)%Z
    (request_key "acme" (mkAuthorize "" [root_token; leaf_token] "" false "doc" "sread")).

Lemma cached_doc_allowed : gd_Allowed <$> cached_doc = Some true.
Proof. vm_compute. reflexivity. Qed.

(** On a fresh gateway the second request is denied; after the first one it is allowed. *)
Lemma gateway_cache_confusion_witness :
  verdict (gateway_answer gateway0 t0 "docs" "read") = Some (403%Z, false)
  /\ exists d s' es, gd_Allowed d = true
       /\ handleAuthorize gateway_cfg (all_at (t0 + second)%Z) (authorize "docs" "read") gateway1
          = Ok (writeGatewayDecision d, s', es).
Proof.
  split; [exact verdict_docs|].
  destruct cached_doc as [d|] eqn:Hc; [|by pose proof cached_doc_allowed as Ha; rewrite Hc in Ha].
  assert (Ha : gd_Allowed d = true).
  { pose proof cached_doc_allowed as Ha. rewrite Hc in Ha. cbn in Ha. congruence. }
  destruct (gateway_cache_confusion gateway_cfg (all_at (t0 + second)%Z) (authorize "docs" "read") gateway1
    "acme" (mkAuthorize "" [root_token; leaf_token] "" false "doc" "sread")
    (mkAuthorize "" [root_token; leaf_token] "" false "docs" "read") d tt) as (s' & es & Hh).
  - reflexivity.
  - reflexivity.
  - vm_compute. reflexivity.
  - reflexivity.
  - vm_compute. reflexivity.
  - exact Hc.
  - exists d, s', es. split; [exact Ha|exact Hh].
Defined.
