(* ===== verification/Logging.v ===== *)
(** * Logs.

    Models internal/logging beyond what the handlers need: the levels and the two loggers, the
    logger of a context, the line an audit event becomes, and the lines of the middlewares in
    internal/httpserver/middleware.go.  The package log/slog of the standard library is modelled
    as far as it is used: a logger has a least level and attributes, and what it writes is a
    level, a message and attributes in order. *)

From S2P Require Import Prelude GoStrings GoTime Errors Values Crypto Instances Http Tenant Server Gateway.
From Stdlib Require Import ZArith Ascii String Lia.
From stdpp Require Import gmap list strings.

Local Open Scope string_scope.

(** ** log/slog *)

Definition LevelDebug : Z := -4.
Definition LevelInfo : Z := 0.
Definition LevelWarn : Z := 4.
Definition LevelError : Z := 8.

Abbreviation attrs := (list (string * gval)).

Record log_line := mkLine { ln_Level : Z; ln_Message : string; ln_Attrs : attrs }.

Record Logger := mkLogger { lg_Level : Z; lg_AddSource : bool; lg_Attrs : attrs }.

(** [logger.With] *)
Definition With (lg : Logger) (new : attrs) : Logger := mkLogger (lg_Level lg) (lg_AddSource lg) (app (lg_Attrs lg) new).

(** [logger.Log]: nothing is written below the level of the handler. *)
Definition write (lg : Logger) (level : Z) (msg : string) (new : attrs) : option log_line :=
  if (lg_Level lg <=? level)%Z then Some (mkLine level msg (app (lg_Attrs lg) new)) else None.

(** ** The loggers of a process *)

(** Source: internal/logging/logging.go, [parseLevel]. *)
Definition parseLevel (level : string) : Z :=
  if bool_decide (level = "debug") then LevelDebug
  else if bool_decide (level = "warn") then LevelWarn
  else if bool_decide (level = "error") then LevelError
  else LevelInfo.

(** Source: internal/logging/logging.go:13-21, [AuditLogger]. *)
Record loggers := mkLoggers { lo_Logger : Logger; lo_AuditLogger : Logger }.

(** Before [Init].
    Source: internal/logging/logging.go:13-21, [Logger]. *)
Definition default_loggers : loggers := mkLoggers (mkLogger LevelInfo false []) (mkLogger LevelInfo true []).

(** Source: internal/logging/logging.go, [Init]. *)
Definition Init (level : string) : loggers :=
  mkLoggers (mkLogger (parseLevel level) false []) (mkLogger LevelInfo true []).

(** [bytes] are the sixteen random bytes.
    Source: internal/logging/logging.go, [GenerateCorrelationID]. *)
Definition GenerateCorrelationID (bytes : string) : string := hex_string bytes.

(** Source: internal/logging/logging.go, [WithUserID]. *)
Definition WithUserID (id : string) (c : context) : context :=
  mkContext (ctx_CorrelationID c) (ctx_LogTenantID c) (Some id) (ctx_RequestID c) (ctx_TenantID c)
    (ctx_AdminSubject c) (ctx_AdminClaims c).

(** An attribute that is not empty. *)
Definition attr (name value : string) : attrs := if bool_decide (value = "") then [] else [(name, VStr value)].

(** Source: internal/logging/logging.go, [ContextLogger]. *)
Definition ContextLogger (lo : loggers) (c : context) : Logger :=
  let logger := With (lo_Logger lo) (attr "correlation_id" (GetCorrelationID c)) in
  let logger := With logger (attr "tenant_id" (GetTenantID c)) in
  With logger (attr "user_id" (GetUserID c)).

(** ** Audit events *)

(** Source: internal/logging/logging.go:36-65, [AuditEventType]. *)
Inductive AuditEventType :=
| AuditEventLogin | AuditEventLogout | AuditEventAccessDenied | AuditEventPermissionGrant
| AuditEventCredentialIssued | AuditEventCredentialVerified | AuditEventCredentialRevoked
| AuditEventDelegationCreated | AuditEventOIDC4VPVerified
| AuditEventTrustRegistryUpdate | AuditEventPolicyCreated | AuditEventPolicyUpdated | AuditEventPolicyDeleted
| AuditEventKeyRotation | AuditEventConfigChange
| AuditEventSecurityIncident | AuditEventRateLimitExceeded | AuditEventSuspiciousActivity | AuditEventDataAccess.

#[global] Instance AuditEventType_eq_dec : EqDecision AuditEventType.
Proof. solve_decision. Defined.

(** Source: internal/logging/logging.go:38-65, [AuditEventType]. *)
Definition event_name (t : AuditEventType) : string :=
  match t with
  | AuditEventLogin => "auth.login"
  | AuditEventLogout => "auth.logout"
  | AuditEventAccessDenied => "auth.access_denied"
  | AuditEventPermissionGrant => "auth.permission_grant"
  | AuditEventCredentialIssued => "credential.issued"
  | AuditEventCredentialVerified => "credential.verified"
  | AuditEventCredentialRevoked => "credential.revoked"
  | AuditEventDelegationCreated => "credential.delegation_created"
  | AuditEventOIDC4VPVerified => "oidc4vp.verified"
  | AuditEventTrustRegistryUpdate => "admin.trust_registry_update"
  | AuditEventPolicyCreated => "admin.policy_created"
  | AuditEventPolicyUpdated => "admin.policy_updated"
  | AuditEventPolicyDeleted => "admin.policy_deleted"
  | AuditEventKeyRotation => "admin.key_rotation"
  | AuditEventConfigChange => "admin.config_change"
  | AuditEventSecurityIncident => "security.incident"
  | AuditEventRateLimitExceeded => "security.rate_limit_exceeded"
  | AuditEventSuspiciousActivity => "security.suspicious_activity"
  | AuditEventDataAccess => "security.data_access"
  end.

(** Source: internal/logging/logging.go, [LogAdminEvent]. *)
Definition LogAdminEvent (c : context) (now : time) (type : AuditEventType) (resource action outcome : string)
    (metadata : gmap string gval) : effect :=
  LogAuditEvent c now
    (mkEvent zero_time "" (event_name type) "" "" "" "" resource action outcome "" "" "" metadata).

Section lines.
Context `{Rfc3339}.

(** The attributes of an audit line, in their order.
    Source: internal/logging/logging.go:202-216, [LogAuditEvent]. *)
Definition event_attrs (e : AuditEvent) : attrs :=
  [("timestamp", VStr (format_rfc3339 (ev_Timestamp e)));
   ("correlation_id", VStr (ev_CorrelationID e));
   ("event_type", VStr (ev_EventType e));
   ("tenant_id", VStr (ev_TenantID e));
   ("user_id", VStr (ev_UserID e));
   ("subject_did", VStr (ev_SubjectDID e));
   ("issuer_did", VStr (ev_IssuerDID e));
   ("resource", VStr (ev_Resource e));
   ("action", VStr (ev_Action e));
   ("outcome", VStr (ev_Outcome e));
   ("reason", VStr (ev_Reason e));
   ("ip_address", VStr (ev_IPAddress e));
   ("user_agent", VStr (ev_UserAgent e));
   ("metadata", VObj (ev_Metadata e))].

(** What an effect writes to the audit log.
    Source: internal/logging/logging.go:197-217, [LogAuditEvent]. *)
Definition audit_line (lo : loggers) (e : effect) : option log_line :=
  match e with
  | Logged e => write (lo_AuditLogger lo) LevelInfo "audit_event" (event_attrs e)
  | _ => None
  end.

Definition audit_log (lo : loggers) (es : list effect) : list log_line := omap (audit_line lo) es.
End lines.

(** ** The lines of the middlewares *)

Section middlewares.
Context `{Unicode} {B St R : Type}.

(** Source: internal/httpserver/middleware.go:129-137, [AuditMiddleware]. *)
Definition start_line (lo : loggers) (r : request B) : option log_line :=
  write (ContextLogger lo (r_Context r)) LevelInfo "http_request_start"
    [("method", VStr (r_Method r)); ("path", VStr (r_Path r)); ("query", VStr (r_RawQuery r));
     ("ip_address", VStr (getClientIP r)); ("user_agent", VStr (r_Header r "User-Agent"))].

(** Source: internal/httpserver/middleware.go:169-177, [AuditMiddleware]. *)
Definition complete_line (lo : loggers) (duration bytes : Z) (r : request B) (o : outcome St R) : option log_line :=
  let status := rs_Status (out_response o) in
  write (ContextLogger lo (r_Context r)) LevelInfo "http_request_complete"
    [("method", VStr (r_Method r)); ("path", VStr (r_Path r)); ("status_code", VInt status);
     ("duration_ms", VInt64 duration); ("content_length", VInt64 bytes);
     ("outcome", VStr (if (400 <=? status)%Z then "failure" else "success"))].

(** Source: internal/httpserver/middleware.go, [LoggingMiddleware]. *)
Definition LoggingMiddleware (lo : loggers) (duration : Z) (next : handler B St R) (r : request B) (s : St)
  : outcome St R * option log_line :=
  let o := next r s in
  (o, write (lo_Logger lo) LevelInfo "http_request"
        [("method", VStr (r_Method r)); ("path", VStr (r_Path r)); ("status", VInt (rs_Status (out_response o)));
         ("duration_ms", VInt64 duration); ("request_id", VStr (RequestIDFromContext (r_Context r)));
         ("tenant_id", VStr (TenantIDFromContext (r_Context r)))]).

(** Source: internal/httpserver/middleware.go, [RequestContext]. *)
Definition RequestContext (generated : string) : handler B St R -> handler B St R :=
  CorrelationIDMiddleware generated.
End middlewares.

(** The line of a decision of the gateway; [VInt64] carries [time.Since(started).Milliseconds()].
    Source: internal/httpserver/gateway_handlers.go, [logGatewayDecision]. *)
Definition logGatewayDecision (lo : loggers) (started now : time) (tenantID : string) (resp : GatewayAuthorizeResponse)
    (cacheHit : bool) : option log_line :=
  write
    (With (lo_Logger lo)
       [("tenant_id", VStr tenantID); ("subject", VStr (gd_Subject resp));
        ("acting_on_behalf_of", VStr (gd_ActingOnBehalfOf resp)); ("delegation_depth", VInt (gd_DelegationDepth resp));
        ("allowed", VBool (gd_Allowed resp)); ("cache_hit", VBool cacheHit);
        ("latency_ms", VInt64 (Z.quot (time_sub now started) 1000000))])
    LevelInfo "gateway_authorize" [].

(** ** Properties *)

(** The names tell the types apart. *)
Lemma event_name_inj t t' : event_name t = event_name t' -> t = t'.
Proof. destruct t, t'; done. Qed.

(** A correlation id of the service has 32 characters. *)
Lemma GenerateCorrelationID_length bytes :
  String.length bytes = 16%nat -> String.length (GenerateCorrelationID bytes) = 32%nat.
Proof. unfold GenerateCorrelationID. rewrite hex_string_length. lia. Qed.

(** A logger of a context writes what the context knows in front of its own attributes. *)
Lemma ContextLogger_write lo c level msg new :
  lg_Attrs (lo_Logger lo) = [] ->
  write (ContextLogger lo c) level msg new
  = if (lg_Level (lo_Logger lo) <=? level)%Z then
      Some (mkLine level msg (app (attr "correlation_id" (GetCorrelationID c))
              (app (attr "tenant_id" (GetTenantID c)) (app (attr "user_id" (GetUserID c)) new))))
    else None.
Proof. intros Ha. unfold write, ContextLogger, With. cbn. by rewrite Ha, <- !app_assoc. Qed.

Section properties.
Context `{Rfc3339, Unicode} {B St R : Type}.

(** The line of an event tells everything about it but the fractions of its second. *)
Lemma event_attrs_inj e e' :
  event_attrs e = event_attrs e' -> stamped (ev_Timestamp e) e' = e.
Proof. unfold event_attrs. intros Heq. destruct e, e'. cbn in Heq. injection Heq. intros. subst. reflexivity. Qed.

(** Whatever the log level of the process, before or after [Init], the audit log has one line
    for each audit event, in the order of the events. *)
Lemma audit_log_complete lo es :
  lg_Level (lo_AuditLogger lo) = LevelInfo -> lg_Attrs (lo_AuditLogger lo) = [] ->
  audit_log lo es
  = (fun e => mkLine LevelInfo "audit_event" (event_attrs e)) <$> omap (fun e => match e with Logged e => Some e | _ => None end) es.
Proof.
  intros Hl Ha. unfold audit_log. induction es as [|e es IH]; [done|]. cbn [omap list_omap].
  destruct e as [e| |]; cbn [audit_line]; [|exact IH..]. unfold write. rewrite Hl, Ha. cbn. by rewrite <- IH.
Qed.

Lemma audit_log_in level e es :
  Logged e ∈ es -> mkLine LevelInfo "audit_event" (event_attrs e) ∈ audit_log (Init level) es.
Proof. intros He. apply list_elem_of_omap. by exists (Logged e). Qed.

(** C27: The audit trail.  Whatever the log level a service was started with, a request to a
    sensitive endpoint that the standard middlewares pass on, and whose handler does not panic,
    leaves a line in the audit log that names the path, the method, the client, the correlation
    id the client is told, and whether the answer was a failure. *)
Theorem audit_trail level now generated duration bytes (h : handler B St R) (r : request B) (s : St) :
  isSensitiveEndpoint (r_Path r) = true ->
  rs_Header (out_response (h (seen_request generated r) s)) !! "X-Correlation-ID" = None ->
  let o := StandardMiddlewareChain now generated duration bytes h r s in
  exists e id, mkLine LevelInfo "audit_event" (event_attrs e) ∈ audit_log (Init level) (out_effects o)
    /\ ev_EventType e = event_name AuditEventDataAccess /\ ev_Resource e = r_Path r /\ ev_Action e = r_Method r
    /\ ev_IPAddress e = getClientIP r /\ ev_Timestamp e = now
    /\ rs_Header (out_response o) !! "X-Correlation-ID" = Some id /\ ev_CorrelationID e = id
    /\ (ev_Outcome e = "failure" <-> (400 <= rs_Status (out_response o))%Z).
Proof.
  intros Hs Hc. cbv zeta. unfold StandardMiddlewareChain. rewrite !MiddlewareChain_cons.
  unfold SecurityHeadersMiddleware, CorrelationIDMiddleware, AuditMiddleware, RateLimitAuditMiddleware.
  change (MiddlewareChain [] h) with h. change (with_context _ r) with (seen_request generated r).
  destruct (h (seen_request generated r) s) as [[resp s'] es] eqn:Hh. cbn [out_response fst] in Hc.
  change (r_Path (seen_request generated r)) with (r_Path r). rewrite Hs.
  change (getClientIP (seen_request generated r)) with (getClientIP r).
  change (r_Method (seen_request generated r)) with (r_Method r).
  cbn [set_headers out_effects out_response fst snd rs_Status rs_Header].
  set (c := r_Context (seen_request generated r)).
  assert (Hid : GetCorrelationID c
    = if bool_decide (r_Header r "X-Correlation-ID" = "") then
        if bool_decide (r_Header r "X-Request-ID" = "") then generated else r_Header r "X-Request-ID"
      else r_Header r "X-Correlation-ID")
    by (unfold c, seen_request; cbn; by case_bool_decide).
  eexists _, (GetCorrelationID c). split; [apply audit_log_in, elem_of_app; right; by left|].
  cbn [ev_EventType ev_Resource ev_Action ev_IPAddress ev_Timestamp ev_CorrelationID ev_Outcome].
  do 5 (split; [done|]). split; [|split; [done|]].
  - apply lookup_union_Some_l. rewrite lookup_union_r, lookup_insert_eq by done. f_equal. exact (eq_sym Hid).
  - destruct (400 <=? rs_Status resp)%Z eqn:E; breflect; split; (done || lia).
Qed.
End properties.

(** ** Instances *)

Definition refused_issue : request unit :=
  mkRequest "POST" "/v1/credentials/issue" "" (fun h => if bool_decide (h = "X-Request-ID") then "req-7" else "")
    "10.0.0.1:4711" (Some tt) background.

(** Even a service that logs errors only has the line of a request that was refused. *)
Lemma audit_trail_witness :
  let o := StandardMiddlewareChain 0%Z "cid" 3 12 (fun r (s : unit) => halt s (respond 401 tt)) refused_issue tt in
  exists e, mkLine LevelInfo "audit_event" (event_attrs e) ∈ audit_log (Init "error") (out_effects o)
    /\ ev_IPAddress e = "10.0.0.1" /\ ev_CorrelationID e = "req-7" /\ ev_Outcome e = "failure".
Proof.
  cbv zeta.
  destruct (audit_trail "error" 0%Z "cid" 3 12 (fun r (s : unit) => halt s (respond 401 tt)) refused_issue tt eq_refl eq_refl)
    as (e & id & Hin & _ & _ & _ & Hip & _ & Hh & Hid & Ho).
  exists e. split; [exact Hin|]. split; [exact Hip|]. split.
  - rewrite Hid. assert (Hreq : rs_Header (out_response (StandardMiddlewareChain 0%Z "cid" 3 12
      (fun r (s : unit) => halt s (respond 401 tt)) refused_issue tt)) !! "X-Correlation-ID" = Some "req-7")
      by (vm_compute; reflexivity). congruence.
  - apply Ho. vm_compute. discriminate.
Defined.
