(* ===== verification/Metrics.v ===== *)
(** * Metrics.

    Models internal/metrics: the collectors of the gateway and of the verifier, and the factory
    that makes them.  The Prometheus client is an argument (class [Prometheus]) with the laws it
    documents ([PrometheusLaws]): a name can be registered once, and a counter counts.  What a
    handler does to its collectors is in its list of effects; [record] carries that list out. *)

From S2P Require Import Prelude GoStrings Errors Policy Http Config.
From Stdlib Require Import ZArith QArith String Lia.
From stdpp Require Import gmap list strings.

Local Open Scope string_scope.

(** ** The Prometheus client *)

(** [prometheus.CounterOpts] and [prometheus.HistogramOpts], with the names of the labels. *)
Record metric_opts := mkMetric {
  mo_Namespace : string;
  mo_Name : string;
  mo_Buckets : option (list Q);  (** of a histogram *)
  mo_Labels : list string;
}.

(** A registry [R] and the vectors [V] registered in it; an observed value is an [F], a 64-bit
    float.  [must_register] panics instead of returning an error. *)
Class Prometheus (R V F : Type) := {
  must_register : R -> metric_opts -> result fault (V * R);
  vec_inc : V -> list string -> R -> R;            (** [WithLabelValues(...).Inc()] *)
  vec_observe : V -> list string -> F -> R -> R;   (** [WithLabelValues(...).Observe(x)] *)
  DefBuckets : list Q;
  float_of_int : Z -> F;
}.

(** [count r v ls] is the value of the counter of [v] with the label values [ls], which have to
    be valid UTF-8 ([label_ok]); it is kept in a float, which is exact up to 2^53. *)
Class PrometheusLaws (R V F : Type) `{Prometheus R V F} := {
  count : R -> V -> list string -> Z;
  label_ok : string -> Prop;
  registered : R -> V -> bool;
  taken : R -> string -> string -> bool;
  must_register_new r o v r' :
    must_register r o = Ok (v, r') ->
    registered r v = false /\ (forall ls, count r' v ls = 0%Z)
    /\ (forall w, registered r' w = true <-> w = v \/ registered r w = true)
    /\ (forall w ls, w <> v -> count r' w ls = count r w ls)
    /\ (forall ns n, taken r' ns n = true <-> (ns = mo_Namespace o /\ n = mo_Name o) \/ taken r ns n = true);
  must_register_twice r o :
    taken r (mo_Namespace o) (mo_Name o) = true -> must_register r o = Err Panic;
  vec_inc_count v ls r :
    Forall label_ok ls -> (count r v ls < 2 ^ 53)%Z ->
    count (vec_inc v ls r) v ls = (count r v ls + 1)%Z;
  vec_inc_other v ls r w ls' :
    Forall label_ok ls -> (w, ls') <> (v, ls) -> count (vec_inc v ls r) w ls' = count r w ls';
}.

(** ** The collectors *)

Section collectors.
Context {R V F : Type} `{Prometheus R V F}.

(** Source: internal/metrics/prometheus.go, [PrometheusGatewayMetrics]. *)
Record PrometheusGatewayMetrics := mkGatewayMetrics {
  authzRequests : V;
  authzAllowed : V;
  authzDenied : V;
  authzCacheHits : V;
  authzCacheMiss : V;
  authzDuration : V;
  rateLimitHits : V;
  delegationDepth : V;
}.

(** Source: internal/metrics/prometheus.go, [PrometheusVerifierMetrics]. *)
Record PrometheusVerifierMetrics := mkVerifierMetrics {
  verificationSuccess : V;
  verificationFailure : V;
  didResolutionTime : V;
  credentialAge : V;
}.

Definition counter_opts (namespace name : string) (labels : list string) : metric_opts :=
  mkMetric namespace name None labels.

Definition histogram_opts (namespace name : string) (buckets : list Q) (labels : list string) : metric_opts :=
  mkMetric namespace name (Some buckets) labels.

(** [if namespace == "" { namespace = "credential_service" }]
    Source: internal/metrics/prometheus.go:27-29, [NewPrometheusGatewayMetricsWithRegistry]. *)
Definition metrics_namespace (namespace : string) : string :=
  if bool_decide (namespace = "") then "credential_service" else namespace.

(** The metrics of a gateway, in the order of their registration.
    Source: internal/metrics/prometheus.go:33-100, [NewPrometheusGatewayMetricsWithRegistry]. *)
Definition gateway_opts (ns : string) : list metric_opts :=
  [counter_opts ns "gateway_authz_requests_total" ["tenant_id"];
   counter_opts ns "gateway_authz_allowed_total" ["tenant_id"];
   counter_opts ns "gateway_authz_denied_total" ["tenant_id"; "reason"];
   counter_opts ns "gateway_authz_cache_hits_total" ["tenant_id"];
   counter_opts ns "gateway_authz_cache_miss_total" ["tenant_id"];
   histogram_opts ns "gateway_authz_duration_seconds" DefBuckets ["tenant_id"; "result"];
   counter_opts ns "gateway_rate_limit_hits_total" ["tenant_id"];
   histogram_opts ns "gateway_delegation_depth" [0; 1; 2; 3; 4; 5; 10]%Q ["tenant_id"]].

(** The metrics of a verifier, in the order of their registration.
    Source: internal/metrics/prometheus.go:165-198, [NewPrometheusVerifierMetricsWithRegistry]. *)
Definition verifier_opts (ns : string) : list metric_opts :=
  [counter_opts ns "verifier_verification_success_total" ["reason"];
   counter_opts ns "verifier_verification_failure_total" ["reason"];
   histogram_opts ns "verifier_did_resolution_duration_seconds"
     [0.001; 0.005; 0.01; 0.025; 0.05; 0.1; 0.25; 0.5; 1; 2.5; 5; 10]%Q ["did_method"];
   histogram_opts ns "verifier_credential_age_seconds"
     [60; 300; 900; 1800; 3600; 7200; 14400; 28800; 86400]%Q ["tenant_id"]].

(** The registrations of a factory ([promauto.With]), one after the other. *)
Fixpoint register_all (r : R) (os : list metric_opts) : result fault (list V * R) :=
  match os with
  | [] => Ok ([], r)
  | o :: os =>
      let! (v, r) := must_register r o in
      let! (vs, r) := register_all r os in
      Ok (v :: vs, r)
  end.

(** Source: internal/metrics/prometheus.go, [NewPrometheusGatewayMetricsWithRegistry]. *)
Definition NewPrometheusGatewayMetricsWithRegistry (namespace : string) (registerer : R)
  : result fault (PrometheusGatewayMetrics * R) :=
  let! (vs, r) := register_all registerer (gateway_opts (metrics_namespace namespace)) in
  match vs with
  | [v1; v2; v3; v4; v5; v6; v7; v8] => Ok (mkGatewayMetrics v1 v2 v3 v4 v5 v6 v7 v8, r)
  | _ => Err Panic (* never: there is one vector for each metric *)
  end.

(** Source: internal/metrics/prometheus.go, [NewPrometheusVerifierMetricsWithRegistry]. *)
Definition NewPrometheusVerifierMetricsWithRegistry (namespace : string) (registerer : R)
  : result fault (PrometheusVerifierMetrics * R) :=
  let! (vs, r) := register_all registerer (verifier_opts (metrics_namespace namespace)) in
  match vs with
  | [v1; v2; v3; v4] => Ok (mkVerifierMetrics v1 v2 v3 v4, r)
  | _ => Err Panic (* never *)
  end.

(** *** What only the Prometheus collectors can record *)

(** Source: internal/metrics/prometheus.go, [PrometheusGatewayMetrics.RecordAuthzDuration]. *)
Definition RecordAuthzDuration (p : PrometheusGatewayMetrics) (tenantID res : string) (seconds : F) : R -> R :=
  vec_observe (authzDuration p) [tenantID; res] seconds.

(** Source: internal/metrics/prometheus.go, [PrometheusGatewayMetrics.IncRateLimitHit]. *)
Definition IncRateLimitHit (p : PrometheusGatewayMetrics) (tenantID : string) : R -> R :=
  vec_inc (rateLimitHits p) [tenantID].

(** Source: internal/metrics/prometheus.go, [PrometheusGatewayMetrics.RecordDelegationDepth]. *)
Definition RecordDelegationDepth (p : PrometheusGatewayMetrics) (tenantID : string) (depth : Z) : R -> R :=
  vec_observe (delegationDepth p) [tenantID] (float_of_int depth).

(** Source: internal/metrics/prometheus.go, [PrometheusVerifierMetrics.RecordDIDResolution]. *)
Definition RecordDIDResolution (p : PrometheusVerifierMetrics) (method : string) (seconds : F) : R -> R :=
  vec_observe (didResolutionTime p) [method] seconds.

(** Source: internal/metrics/prometheus.go, [PrometheusVerifierMetrics.RecordCredentialAge]. *)
Definition RecordCredentialAge (p : PrometheusVerifierMetrics) (tenantID : string) (ageSeconds : F) : R -> R :=
  vec_observe (credentialAge p) [tenantID] ageSeconds.

(** *** The interfaces *)

(** Source: internal/metrics/metrics.go, [NoopGatewayMetrics]. *)
Inductive GatewayMetrics :=
| NoopGatewayMetrics
| GatewayCollector (p : PrometheusGatewayMetrics).

(** Source: internal/metrics/metrics.go, [NoopVerifierMetrics]. *)
Inductive VerifierMetrics :=
| NoopVerifierMetrics
| VerifierCollector (p : PrometheusVerifierMetrics).

(** The global collector, which nothing replaces.
    Source: internal/metrics/metrics.go:19-19, [DefaultVerifierMetrics]. *)
Definition DefaultVerifierMetrics : VerifierMetrics := NoopVerifierMetrics.

(** The five methods of [GatewayMetrics].
    Source: internal/metrics/prometheus.go:103-126, [PrometheusGatewayMetrics.IncAuthzRequest]. *)
Definition gateway_call (p : PrometheusGatewayMetrics) (c : metric_call) (r : R) : R :=
  match c with
  | IncAuthzRequest tenantID => vec_inc (authzRequests p) [tenantID] r
  | IncAuthzAllow tenantID => vec_inc (authzAllowed p) [tenantID] r
  | IncAuthzDeny tenantID reason => vec_inc (authzDenied p) [tenantID; reason] r
  | IncAuthzCacheHit tenantID => vec_inc (authzCacheHits p) [tenantID] r
  | IncAuthzCacheMiss tenantID => vec_inc (authzCacheMiss p) [tenantID] r
  | _ => r
  end.

(** The two methods of [VerifierMetrics].
    Source: internal/metrics/prometheus.go:202-210, [PrometheusVerifierMetrics.IncVerificationSuccess]. *)
Definition verifier_call (p : PrometheusVerifierMetrics) (success : bool) (reason : string) (r : R) : R :=
  vec_inc (if success then verificationSuccess p else verificationFailure p) [reason] r.

Definition on_verifier (m : VerifierMetrics) (success : bool) (reason : string) (r : R) : R :=
  match m with
  | NoopVerifierMetrics => r
  | VerifierCollector p => verifier_call p success reason r
  end.

Definition collect (gm : GatewayMetrics) (vm : VerifierMetrics) (c : metric_call) (r : R) : R :=
  match c with
  | IncVerificationSuccess reason => on_verifier vm true reason r
  | IncVerificationFailure reason => on_verifier vm false reason r
  | DefaultIncVerificationSuccess reason => on_verifier DefaultVerifierMetrics true reason r
  | DefaultIncVerificationFailure reason => on_verifier DefaultVerifierMetrics false reason r
  | _ => match gm with NoopGatewayMetrics => r | GatewayCollector p => gateway_call p c r end
  end.

(** What the effects of a handler do to the registry. *)
Definition record1 (gm : GatewayMetrics) (vm : VerifierMetrics) (r : R) (e : effect) : R :=
  match e with Counted c => collect gm vm c r | _ => r end.

Definition record (gm : GatewayMetrics) (vm : VerifierMetrics) (es : list effect) (r : R) : R :=
  foldl (record1 gm vm) r es.

(** ** The factory *)

(** Source: internal/metrics/factory.go, [Factory]. *)
Record Factory := mkFactory { fa_metricsType : string; fa_namespace : string }.

(** Source: internal/metrics/factory.go:13-13, [NoopMetrics]. *)
Definition NoopMetrics : string := "noop".
(** Source: internal/metrics/factory.go:15-15, [PrometheusMetrics]. *)
Definition PrometheusMetrics : string := "prometheus".

(** Source: internal/metrics/factory.go, [NewFactory]. *)
Definition NewFactory (metricsType namespace : string) : Factory := mkFactory metricsType namespace.

(** Source: internal/metrics/factory.go, [NewFactoryFromEnv]. *)
Definition NewFactoryFromEnv (env : string -> string) : Factory :=
  NewFactory (getenv env "METRICS_TYPE" NoopMetrics) (getenv env "METRICS_NAMESPACE" "credential_service").

Definition unsupported (f : Factory) : fault := Failed (ErrText ("unsupported metrics type: " +:+ fa_metricsType f)).

(** Source: internal/metrics/factory.go, [Factory.CreateGatewayMetrics]. *)
Definition CreateGatewayMetrics (f : Factory) (r : R) : result fault (GatewayMetrics * R) :=
  if bool_decide (fa_metricsType f = NoopMetrics) then Ok (NoopGatewayMetrics, r)
  else if bool_decide (fa_metricsType f = PrometheusMetrics) then
    let! (p, r) := NewPrometheusGatewayMetricsWithRegistry (fa_namespace f) r in Ok (GatewayCollector p, r)
  else Err (unsupported f).

(** Source: internal/metrics/factory.go, [Factory.CreateVerifierMetrics]. *)
Definition CreateVerifierMetrics (f : Factory) (r : R) : result fault (VerifierMetrics * R) :=
  if bool_decide (fa_metricsType f = NoopMetrics) then Ok (NoopVerifierMetrics, r)
  else if bool_decide (fa_metricsType f = PrometheusMetrics) then
    let! (p, r) := NewPrometheusVerifierMetricsWithRegistry (fa_namespace f) r in Ok (VerifierCollector p, r)
  else Err (unsupported f).
End collectors.
Arguments PrometheusGatewayMetrics V : clear implicits.
Arguments PrometheusVerifierMetrics V : clear implicits.
Arguments GatewayMetrics V : clear implicits.
Arguments VerifierMetrics V : clear implicits.

(** ** An instance *)

(** A registry as a map of counters; floats are integers here. *)
Module MapRegistry.
Abbreviation registry := (gmap (string * string) (gmap (list string) Z)).

Definition value (r : registry) (v : string * string) (ls : list string) : Z := default 0%Z (default ∅ (r !! v) !! ls).

#[export] Instance ops : Prometheus registry (string * string) Z := {|
  must_register r o :=
    let v := (mo_Namespace o, mo_Name o) in
    match r !! v with Some _ => Err Panic | None => Ok (v, <[v := ∅]> r) end;
  vec_inc v ls r := <[v := <[ls := (value r v ls + 1)%Z]> (default ∅ (r !! v))]> r;
  vec_observe _ _ _ r := r;
  DefBuckets := [0.005; 0.01; 0.025; 0.05; 0.1; 0.25; 0.5; 1; 2.5; 5; 10]%Q;
  float_of_int z := z;
|}.

#[export] Instance laws : PrometheusLaws registry (string * string) Z.
Proof.
  refine {| count := value; label_ok := fun _ => True; registered := fun r v => bool_decide (is_Some (r !! v));
            taken := fun r ns n => bool_decide (is_Some (r !! (ns, n))) |}.
  - intros r o v r'. cbn. destruct (r !! _) as [|] eqn:E; [done|]. intros [= <- <-]. unfold value.
    split; [by apply bool_decide_eq_false_2; rewrite E; intros [? [=]]|].
    split; [intros ls; by rewrite lookup_insert_eq|].
    split; [intros w; rewrite !bool_decide_eq_true, lookup_insert_is_Some'; naive_solver|].
    split; [intros w ls Hw; by rewrite lookup_insert_ne by done|].
    intros ns n. rewrite !bool_decide_eq_true, lookup_insert_is_Some'. naive_solver.
  - intros r o. cbn. rewrite bool_decide_eq_true. by intros [x ->].
  - intros v ls r _ _. cbn. unfold value at 1. rewrite lookup_insert_eq. cbn [default from_option id].
    by rewrite lookup_insert_eq.
  - intros v ls r w ls' _ Hne. cbn. unfold value at 1. destruct (decide (v = w)) as [->|Hv].
    + rewrite lookup_insert_eq. cbn [default from_option id]. rewrite lookup_insert_ne; [done|congruence].
    + by rewrite lookup_insert_ne.
Defined.
End MapRegistry.
