(* ===== verification/MetricsProps.v ===== *)
(** * What the metrics say.

    The counters of internal/metrics, after a run of the gateway's handler. *)

From S2P Require Import Prelude GoStrings GoTime Errors Values Crypto Credential Instances.
From S2P Require Import Verify ChainExample AuthzBridge Policy Http Trust Gateway GatewayProps Config Metrics.
From Stdlib Require Import ZArith String Lia.
From stdpp Require Import gmap list strings.

Local Open Scope string_scope.

(** ** Registration *)

Section registration.
Context {R V F : Type} `{PrometheusLaws R V F}.

(** Vectors registered together are new, different, and at zero. *)
Lemma register_all_Ok os : forall r vs r',
  register_all r os = Ok (vs, r') ->
  length vs = length os /\ NoDup vs
  /\ Forall (fun v => registered r v = false /\ registered r' v = true /\ forall ls, count r' v ls = 0%Z) vs
  /\ (forall w, registered r w = true -> registered r' w = true)
  /\ (forall w ls, w ∉ vs -> count r' w ls = count r w ls)
  /\ (forall ns n, taken r ns n = true -> taken r' ns n = true)
  /\ (forall o, o ∈ os -> taken r' (mo_Namespace o) (mo_Name o) = true).
Proof.
  induction os as [|o os IH]; intros r vs r'; cbn [register_all].
  - intros [= <- <-]. split; [done|]. split; [constructor|]. split; [constructor|]. repeat (split; [done|]). intros o Ho. by apply not_elem_of_nil in Ho.
  - intros Hr. bind_inv Hr as [v r1] Hv. bind_inv Hr as [vs1 r2] Hvs. injection Hr as <- <-.
    apply must_register_new in Hv as (Hnew & Hzero & Hreg & Hcount & Htaken).
    apply IH in Hvs as (Hlen & Hnd & Hall & Hmono & Hother & Htmono & Htall).
    assert (Hv1 : registered r1 v = true) by (apply Hreg; by left).
    assert (Hvn : v ∉ vs1).
    { intros Hin. rewrite Forall_forall in Hall. destruct (Hall v Hin) as [Hf _]. congruence. }
    split; [cbn; by rewrite Hlen|]. split; [by constructor|]. split; [constructor|].
    + split; [done|]. split; [by apply Hmono|]. intros ls. by rewrite Hother.
    + eapply Forall_impl; [exact Hall|]. intros w (Hw & ? & ?). split; [|done].
      destruct (registered r w) eqn:E; [|done]. rewrite (proj2 (Hreg w)) in Hw; [done|by right].
    + split; [intros w Hw; apply Hmono, Hreg; by right|].
      split. { intros w ls Hw. rewrite not_elem_of_cons in Hw. rewrite Hother, Hcount by naive_solver. done. }
      split; [intros ns n Ht; apply Htmono, Htaken; by right|].
      intros o' [->|Ho]%elem_of_cons; [|by apply Htall]. apply Htmono, Htaken. by left.
Qed.

(** One taken name among those to register is a panic. *)
Lemma register_all_taken os : forall r o,
  o ∈ os -> taken r (mo_Namespace o) (mo_Name o) = true -> is_ok (register_all r os) = false.
Proof.
  induction os as [|o' os IH]; intros r o Hin Ht; [by apply not_elem_of_nil in Hin|]. cbn [register_all].
  apply elem_of_cons in Hin as [->|Hin]; [by rewrite must_register_twice|].
  destruct (must_register r o') as [[v r1]|] eqn:Hv; [|done]. cbn [rbind].
  apply must_register_new in Hv as (_ & _ & _ & _ & Htk). specialize (IH r1 o Hin).
  destruct (register_all r1 os) as [[vs r2]|]; [|done]. apply IH, Htk. by right.
Qed.

(** The vectors of a collector, in the order of their registration. *)
Definition vecs (p : PrometheusGatewayMetrics V) : list V :=
  [authzRequests p; authzAllowed p; authzDenied p; authzCacheHits p; authzCacheMiss p; authzDuration p;
   rateLimitHits p; delegationDepth p].

Definition verifier_vecs (p : PrometheusVerifierMetrics V) : list V :=
  [verificationSuccess p; verificationFailure p; didResolutionTime p; credentialAge p].

Lemma gateway_registered ns r p r' :
  NewPrometheusGatewayMetricsWithRegistry ns r = Ok (p, r') ->
  register_all r (gateway_opts (metrics_namespace ns)) = Ok (vecs p, r').
Proof.
  unfold NewPrometheusGatewayMetricsWithRegistry. intros Hr. bind_inv Hr as [vs r1] Hvs. rewrite Hvs.
  repeat (destruct vs as [|? vs]; [done|]). destruct vs; [|done]. by injection Hr as <- <-.
Qed.

Lemma verifier_registered ns r p r' :
  NewPrometheusVerifierMetricsWithRegistry ns r = Ok (p, r') ->
  register_all r (verifier_opts (metrics_namespace ns)) = Ok (verifier_vecs p, r').
Proof.
  unfold NewPrometheusVerifierMetricsWithRegistry. intros Hr. bind_inv Hr as [vs r1] Hvs. rewrite Hvs.
  repeat (destruct vs as [|? vs]; [done|]). destruct vs; [|done]. by injection Hr as <- <-.
Qed.

(** ** Counting *)

(** The counter a call increments. *)
Definition target (gm : GatewayMetrics V) (vm : VerifierMetrics V) (c : metric_call) : option (V * list string) :=
  match c, gm, vm with
  | IncVerificationSuccess reason, _, VerifierCollector q => Some (verificationSuccess q, [reason])
  | IncVerificationFailure reason, _, VerifierCollector q => Some (verificationFailure q, [reason])
  | IncAuthzRequest t, GatewayCollector p, _ => Some (authzRequests p, [t])
  | IncAuthzAllow t, GatewayCollector p, _ => Some (authzAllowed p, [t])
  | IncAuthzDeny t reason, GatewayCollector p, _ => Some (authzDenied p, [t; reason])
  | IncAuthzCacheHit t, GatewayCollector p, _ => Some (authzCacheHits p, [t])
  | IncAuthzCacheMiss t, GatewayCollector p, _ => Some (authzCacheMiss p, [t])
  | _, _, _ => None
  end.

Lemma collect_target gm vm c r :
  collect gm vm c r = match target gm vm c with Some (v, ls) => vec_inc v ls r | None => r end.
Proof. by destruct c, gm, vm. Qed.

Definition effect_target gm vm (e : effect) : option (V * list string) :=
  match e with Counted c => target gm vm c | _ => None end.

(** The label values of all the calls are valid. *)
Definition labels_ok gm vm (es : list effect) : Prop :=
  Forall (fun e => forall v ls, effect_target gm vm e = Some (v, ls) -> Forall label_ok ls) es.

Context `{EqDecision V}.

Definition hits gm vm (v : V) (ls : list string) (es : list effect) : nat :=
  length (filter (fun e => effect_target gm vm e = Some (v, ls)) es).

(** A counter counts the calls that are meant for it. *)
Lemma record_count gm vm v ls : forall es r,
  labels_ok gm vm es -> (count r v ls + Z.of_nat (length es) <= 2 ^ 53)%Z ->
  count (record gm vm es r) v ls = (count r v ls + Z.of_nat (hits gm vm v ls es))%Z.
Proof.
  unfold hits, record, labels_ok. induction es as [|e es IH]; intros r Hok Hb; [cbn; lia|].
  apply Forall_cons in Hok as [He Hok]. cbn [foldl length] in *. rewrite filter_cons.
  assert (Hstep : count (record1 gm vm r e) v ls
    = (count r v ls + if decide (effect_target gm vm e = Some (v, ls)) then 1 else 0)%Z).
  { unfold record1, effect_target in *. destruct e as [| |c]; try (rewrite decide_False by done; lia).
    rewrite collect_target. destruct (target gm vm c) as [[w ls']|]; [|rewrite decide_False by done; lia].
    specialize (He w ls' eq_refl). case_decide as Hd.
    - injection Hd as -> ->. rewrite vec_inc_count by (done || lia). done.
    - rewrite vec_inc_other by (done || congruence). lia. }
  rewrite IH, Hstep; [|done|rewrite Hstep; case_decide; lia].
  case_decide; cbn [length]; lia.
Qed.

Lemma hits_app gm vm v ls es es' : hits gm vm v ls (app es es') = (hits gm vm v ls es + hits gm vm v ls es')%nat.
Proof. unfold hits. by rewrite filter_app, length_app. Qed.
End registration.

(** ** Runs of the gateway *)

#[global] Instance metric_call_eq_dec : EqDecision metric_call.
Proof. solve_decision. Defined.

(** How often [c] was called. *)
Definition is_call (c : metric_call) (e : effect) : bool :=
  match e with Counted c' => bool_decide (c' = c) | _ => false end.

Definition calls (c : metric_call) (es : list effect) : nat := length (filter (fun e => is_call c e = true) es).

Lemma calls_app c es es' : calls c (app es es') = (calls c es + calls c es')%nat.
Proof. unfold calls. by rewrite filter_app, length_app. Qed.

(** The two collectors of a server. *)
Section collectors.
Context {R V F : Type} `{PrometheusLaws R V F, EqDecision V}.
Variables (p : PrometheusGatewayMetrics V) (q : PrometheusVerifierMetrics V).
Hypothesis Hnd : NoDup (app (vecs p) (verifier_vecs q)).

#[local] Abbreviation gm := (GatewayCollector p).
#[local] Abbreviation vm := (VerifierCollector q).

(** The place of a call's counter among the vectors, and its labels. *)
Definition slot (c : metric_call) : option (nat * list string) :=
  match c with
  | IncAuthzRequest t => Some (0%nat, [t])
  | IncAuthzAllow t => Some (1%nat, [t])
  | IncAuthzDeny t reason => Some (2%nat, [t; reason])
  | IncAuthzCacheHit t => Some (3%nat, [t])
  | IncAuthzCacheMiss t => Some (4%nat, [t])
  | IncVerificationSuccess reason => Some (8%nat, [reason])
  | IncVerificationFailure reason => Some (9%nat, [reason])
  | _ => None
  end.

Lemma target_slot c v ls :
  target gm vm c = Some (v, ls) ->
  exists i, slot c = Some (i, ls) /\ app (vecs p) (verifier_vecs q) !! i = Some v.
Proof. destruct c; cbn; try done; intros [= <- <-]; eauto. Qed.

Lemma slot_inj c c0 x : slot c0 = Some x -> slot c = Some x -> c = c0.
Proof. destruct x as [i ls]. destruct c0; try done; intros [= <- <-]; destruct c; try done; cbn; congruence. Qed.

(** No two calls increment the same counter. *)
Lemma target_inj c c0 x : target gm vm c0 = Some x -> target gm vm c = Some x -> c = c0.
Proof.
  destruct x as [v ls]. intros (i & Hi & Hv)%target_slot (j & Hj & Hw)%target_slot.
  rewrite (NoDup_lookup _ i j v Hnd Hv Hw) in Hi. by apply (slot_inj _ _ _ Hi).
Qed.

Lemma hits_calls c v ls es : target gm vm c = Some (v, ls) -> hits gm vm v ls es = calls c es.
Proof.
  intros Hc. unfold hits, calls. f_equal. apply list_filter_iff. intros [| |c']; cbn; try done.
  rewrite bool_decide_eq_true. split; [intros Hc'|intros ->; exact Hc].
  exact (target_inj _ _ _ Hc Hc').
Qed.

(** What a fresh counter shows after the effects [es]. *)
Lemma fresh_count c v ls es r :
  target gm vm c = Some (v, ls) -> count r v ls = 0%Z ->
  labels_ok gm vm es -> (Z.of_nat (length es) <= 2 ^ 53)%Z ->
  count (record gm vm es r) v ls = Z.of_nat (calls c es).
Proof. intros Hc Hz Hok Hb. rewrite record_count by (done || rewrite Hz; lia). by rewrite Hz, (hits_calls c). Qed.
End collectors.

(** *** One request *)

(** Calls that are no verdict. *)
Definition neutral (e : effect) : bool :=
  match e with
  | Counted (IncAuthzCacheHit _) | Counted (IncAuthzCacheMiss _)
  | Counted (DefaultIncVerificationSuccess _) | Counted (DefaultIncVerificationFailure _) => true
  | _ => false
  end.

(** What a handled request of tenant [t] records: nothing when it is not read, otherwise that
    it came and, unless the engine failed, what became of it. *)
Definition account (t : string) (allowed failed : bool) (es : list effect) : Prop :=
  (es = [] /\ allowed = false)
  \/ exists mid, Forall (fun e => neutral e = true) mid /\
       ((allowed = true /\ es = Counted (IncAuthzRequest t) :: app mid [Counted (IncAuthzAllow t)])
        \/ (allowed = false /\ exists reason,
              es = Counted (IncAuthzRequest t) :: app mid [Counted (IncAuthzDeny t reason)])
        \/ (allowed = false /\ failed = true /\ es = Counted (IncAuthzRequest t) :: mid)).

Section gateway.
Context `{Json (gmap string gval), Json (list gval), Json VCJWTPayload, Json VerifiableCredential,
  Json GatewayAuthorizeResponse, Sha256, Ed25519}.
Context {T C L : Type} `{TrustRegistry T, DecisionCache C, Limiter L}.

(** The engine answers with an error, which is not a panic. *)
Definition engine_fails (cfg : GatewayConfig) : Prop :=
  exists i e, default NoOpEngine_Evaluate (gw_PolicyEngine cfg) i = Err (Failed e).

Definition allowed_answer (resp : response GatewayAuthorizeResponse) : bool := (rs_Status resp =? 200)%Z.

Lemma refusal_not_allowed resp d :
  (400 <= rs_Status resp)%Z -> rs_Body resp = Body d -> allowed_answer resp = false.
Proof. unfold allowed_answer. intros ? _. apply Z.eqb_neq. lia. Qed.

Lemma account_deny t b reason mid :
  Forall (fun e => neutral e = true) mid ->
  account t false b (app [Counted (IncAuthzRequest t)] (app mid [Counted (IncAuthzDeny t reason)])).
Proof. intros Hm. right. exists mid. split; [done|]. right; left. eauto. Qed.

(** The refusals after a cache miss. *)
Lemma decide_account cfg reg ck t path tokens req resp es :
  decide_request cfg reg ck t path tokens req = Ok (inl (resp, es)) ->
  exists mid, Forall (fun e => neutral e = true) mid /\
    ((exists reason, es = app mid [Counted (IncAuthzDeny t reason)]) \/ (engine_fails cfg /\ es = mid)).
Proof.
  unfold decide_request. destruct (VerifyCredentialChain _ _ _ _) as [ch|e].
  2: { intros [= <- <-]. exists [Counted (DefaultIncVerificationFailure (ge_code (mapVerificationError e)))].
       split; [by repeat constructor|]. left. eauto. }
  destruct (default NoOpEngine_Evaluate _ _) as [pr|[]] eqn:He; try done.
  2: { intros [= <- <-]. exists []. split; [constructor|]. right. split; [|done]. unfold engine_fails. eauto. }
  destruct (er_Allow pr); cbn [negb].
  2: { intros [= <- <-]. exists []. split; [constructor|]. left. eauto. }
  destruct (if gr_WantSyntheticJWT req then _ else _) as [jwt|]; [done|].
  intros [= <- <-]. exists []. split; [constructor|]. left. eauto.
Qed.

(** Every handled request is accounted for. *)
Lemma authorize_account cfg ck r (s : gateway_state (T := T) (C := C) (L := L)) resp s' es :
  handleAuthorize cfg ck r s = Ok (resp, s', es) ->
  exists failed, (failed = true -> engine_fails cfg)
    /\ account (tenant_or_default r (gw_DefaultTenantID cfg)) (allowed_answer resp) failed es.
Proof.
  unfold handleAuthorize. cbv zeta. set (t := tenant_or_default r (gw_DefaultTenantID cfg)).
  destruct (bool_decide (r_Method r = "POST")); cbn [negb].
  2: { intros [= <- _ <-]. exists false. split; [done|]. by left. }
  destruct (r_Body r) as [req|].
  2: { intros [= <- _ <-]. exists false. split; [done|]. by left. }
  destruct (validateGatewayRequest req) as [?|msg].
  2: { intros [= <- _ <-]. exists false. split; [done|]. by apply (account_deny _ _ _ []). }
  destruct (limiter_allow _ _ _) as [[] lim]; cbn [negb].
  2: { intros [= <- _ <-]. exists false. split; [done|]. by apply (account_deny _ _ _ []). }
  destruct (readCachedDecision _ _ _) as [d|].
  { intros [= <- _ <-]. exists false. split; [done|]. unfold allowed_answer. cbn [rs_Status writeGatewayDecision respond].
    pose proof (status_of_decision d) as Hst. destruct (gd_Allowed d).
    - rewrite (proj2 Hst eq_refl). right. exists [Counted (IncAuthzCacheHit t)]. split; [by repeat constructor|]. by left.
    - rewrite (proj2 (Z.eqb_neq _ _)) by naive_solver.
      apply (account_deny t false _ [Counted (IncAuthzCacheHit t)]). by repeat constructor. }
  intros Hr. bind_inv Hr as o Ho. destruct o as [[resp' es']|[d chain]].
  - injection Hr as <- _ <-. pose proof (decide_request_inl _ _ _ _ _ _ _ _ _ Ho) as (d & Hb & _ & Hs).
    rewrite (refusal_not_allowed _ _ Hs Hb).
    apply decide_account in Ho as (mid & Hm & [[reason ->]|[Hf ->]]).
    + exists false. split; [done|]. apply (account_deny t false reason (Counted (IncAuthzCacheMiss t) :: mid)).
      by constructor.
    + exists true. split; [done|]. right. exists (Counted (IncAuthzCacheMiss t) :: mid).
      split; [by constructor|]. right; right. done.
  - injection Hr as <- _ <-. apply decide_request_inr in Ho as [Ha _]. exists false. split; [done|].
    unfold allowed_answer. cbn [rs_Status writeGatewayDecision respond]. rewrite (proj2 (status_of_decision d) Ha).
    right. exists [Counted (IncAuthzCacheMiss t); Counted (DefaultIncVerificationSuccess "ok")].
    split; [by repeat constructor|]. by left.
Qed.
End gateway.

(** *** A run *)

(** A refusal of a request of [t]. *)
Definition is_deny (t : string) (e : effect) : bool :=
  match e with Counted (IncAuthzDeny t' _) => bool_decide (t' = t) | _ => false end.

Definition denials (t : string) (es : list effect) : nat := length (filter (fun e => is_deny t e = true) es).

(** A call of the verifier's own collector. *)
Definition verifier_only (e : effect) : bool :=
  match e with Counted (IncVerificationSuccess _) | Counted (IncVerificationFailure _) => true | _ => false end.

Lemma neutral_silent mid :
  Forall (fun e => neutral e = true) mid ->
  Forall (fun e => verifier_only e = false) mid
  /\ forall t, calls (IncAuthzRequest t) mid = 0%nat /\ calls (IncAuthzAllow t) mid = 0%nat /\ denials t mid = 0%nat.
Proof.
  unfold calls, denials. induction 1 as [|e mid He _ [IH1 IH2]]; [by split; [constructor|]|].
  split; [constructor; [by destruct e as [| |[]]|done]|]. intros t. rewrite !filter_cons.
  destruct (IH2 t) as (? & ? & ?). by destruct e as [| |[]].
Qed.

Lemma calls_cons c e es : calls c (e :: es) = (Nat.b2n (is_call c e) + calls c es)%nat.
Proof. unfold calls. rewrite filter_cons. by destruct (is_call c e). Qed.

Lemma denials_cons t e es : denials t (e :: es) = (Nat.b2n (is_deny t e) + denials t es)%nat.
Proof. unfold denials. rewrite filter_cons. by destruct (is_deny t e). Qed.

Lemma denials_app t es es' : denials t (app es es') = (denials t es + denials t es')%nat.
Proof. unfold denials. by rewrite filter_app, length_app. Qed.

(** The balance of the effects [es] for tenant [t]: [n] requests allowed, and none counted as
    two things. *)
Definition balanced (failed : bool) (t : string) (n : nat) (es : list effect) : Prop :=
  calls (IncAuthzAllow t) es = n
  /\ (calls (IncAuthzAllow t) es + denials t es <= calls (IncAuthzRequest t) es)%nat
  /\ (failed = false -> calls (IncAuthzRequest t) es = calls (IncAuthzAllow t) es + denials t es)%nat.

Lemma balanced_app f t n m es es' :
  balanced f t n es -> balanced f t m es' -> balanced f t (n + m) (app es es').
Proof.
  unfold balanced. rewrite !calls_app, denials_app. intros (? & ? & E1) (? & ? & E2).
  split; [lia|]. split; [lia|]. intros Hf. specialize (E1 Hf). specialize (E2 Hf). lia.
Qed.

Lemma account_balance t b f es :
  account t b f es ->
  Forall (fun e => verifier_only e = false) es
  /\ forall t', balanced f t' (Nat.b2n (bool_decide (t = t') && b)) es.
Proof.
  intros [[-> ->]|(mid & Hm & Hes)].
  { split; [constructor|]. intros t'. rewrite andb_false_r. done. }
  apply neutral_silent in Hm as [Hv Hm].
  assert (Hsnoc : forall e, verifier_only e = false ->
    Forall (fun e => verifier_only e = false) (Counted (IncAuthzRequest t) :: app mid [e])).
  { intros e He. constructor; [done|]. apply Forall_app. by split; [|repeat constructor]. }
  assert (Hdec : forall t', bool_decide (IncAuthzRequest t = IncAuthzRequest t') = bool_decide (t = t')
    /\ bool_decide (IncAuthzAllow t = IncAuthzAllow t') = bool_decide (t = t')).
  { intros t'. split; apply bool_decide_ext; naive_solver. }
  destruct Hes as [[-> ->]|[(-> & reason & ->)|(-> & -> & ->)]];
    (split; [by apply Hsnoc || by constructor|]); intros t'; destruct (Hm t') as (Hr & Ha & Hd), (Hdec t') as [E1 E2];
    unfold balanced; rewrite !calls_cons, !denials_cons, ?calls_app, ?denials_app, ?calls_cons, ?denials_cons;
    cbn [is_call is_deny]; rewrite E1, ?E2, Hr, Ha, Hd;
    rewrite ?(bool_decide_eq_false_2 (IncAuthzRequest t = IncAuthzAllow t')) by done;
    rewrite ?(bool_decide_eq_false_2 (IncAuthzAllow t = IncAuthzRequest t')) by done;
    rewrite ?(bool_decide_eq_false_2 (IncAuthzDeny t _ = IncAuthzRequest t')) by done;
    rewrite ?(bool_decide_eq_false_2 (IncAuthzDeny t _ = IncAuthzAllow t')) by done;
    cbn; destruct (bool_decide (t = t')); cbn; lia.
Qed.

(** The refusals by reason add up. *)
Lemma denials_by_reason t reasons es :
  NoDup reasons -> (forall reason, Counted (IncAuthzDeny t reason) ∈ es -> reason ∈ reasons) ->
  denials t es = sum_list_with (fun reason => calls (IncAuthzDeny t reason) es) reasons.
Proof.
  intros Hnd. induction es as [|e es IH]; intros Hin.
  { clear. induction reasons as [|x l IHl]; [done|]. cbn [sum_list_with]. by rewrite <- IHl. }
  rewrite denials_cons, IH by (intros reason Hr; apply Hin; by right).
  assert (Hsum : sum_list_with (fun reason => calls (IncAuthzDeny t reason) (e :: es)) reasons
    = (sum_list_with (fun reason => Nat.b2n (is_call (IncAuthzDeny t reason) e)) reasons
       + sum_list_with (fun reason => calls (IncAuthzDeny t reason) es) reasons)%nat).
  { clear Hnd Hin IH. induction reasons as [|x l IHl]; [done|]. cbn [sum_list_with]. rewrite IHl, calls_cons. lia. }
  rewrite Hsum. f_equal. clear Hsum IH.
  destruct (is_deny t e) eqn:Hd; cbn [Nat.b2n].
  - destruct e as [| |[| |t' reason| | | | | |]]; try done. cbn in Hd. breflect. subst t'.
    specialize (Hin reason (list_elem_of_here _ _)). clear es. induction reasons as [|x l IHl]; [by apply not_elem_of_nil in Hin|].
    cbn [sum_list_with is_call]. apply NoDup_cons in Hnd as [Hx Hnd].
    apply elem_of_cons in Hin as [->|Hin].
    + rewrite bool_decide_eq_true_2 by done. cbn. f_equal. clear IHl Hnd. induction l as [|y l IHl]; [done|].
      cbn. rewrite not_elem_of_cons in Hx. rewrite bool_decide_eq_false_2 by naive_solver. apply IHl. naive_solver.
    + rewrite bool_decide_eq_false_2 by naive_solver. by apply IHl.
  - clear Hnd Hin. induction reasons as [|x l IHl]; [done|]. cbn [sum_list_with]. rewrite <- IHl.
    destruct e as [| |[]]; try done. cbn in Hd |- *. breflect. rewrite bool_decide_eq_false_2; [done|congruence].
Qed.

Section run.
Context `{Json (gmap string gval), Json (list gval), Json VCJWTPayload, Json VerifiableCredential,
  Json GatewayAuthorizeResponse, Sha256, Ed25519}.
Context {T C L : Type} `{TrustRegistry T, DecisionCache C, Limiter L}.

(** A run in which nothing panics: each answer with the tenant it was given for, and all that
    was recorded. *)
Fixpoint authorize_all (cfg : GatewayConfig) (s : gateway_state (T := T) (C := C) (L := L)) (xs : list (readings * request GatewayAuthorizeRequest))
  : result fault (list (string * response GatewayAuthorizeResponse) * gateway_state * list effect) :=
  match xs with
  | [] => Ok ([], s, [])
  | (ck, r) :: xs =>
      let! (resp, s, es) := handleAuthorize cfg ck r s in
      let! (answers, s, es') := authorize_all cfg s xs in
      Ok ((tenant_or_default r (gw_DefaultTenantID cfg), resp) :: answers, s, app es es')
  end.

(** How many requests of [t] were answered with 200. *)
Definition allowed_for (t : string) (answers : list (string * response GatewayAuthorizeResponse)) : nat :=
  length (filter (fun a => a.1 = t /\ rs_Status a.2 = 200%Z) answers).

Lemma run_balance cfg xs : forall s answers s' es,
  authorize_all cfg s xs = Ok (answers, s', es) ->
  Forall (fun e => verifier_only e = false) es
  /\ exists failed, (failed = true -> engine_fails cfg)
       /\ forall t, balanced failed t (allowed_for t answers) es.
Proof.
  induction xs as [|[ck r] xs IH]; intros s answers s' es; cbn [authorize_all].
  - intros [= <- _ <-]. split; [constructor|]. by exists false.
  - intros Hr. bind_inv Hr as [[resp s1] es1] Hh. bind_inv Hr as [[answers1 s2] es2] Hrun.
    injection Hr as <- _ <-. apply authorize_account in Hh as (f & Hf & [Hv Hb]%account_balance).
    apply IH in Hrun as (Hv' & f' & Hf' & Hb'). split; [by apply Forall_app|].
    exists (f || f'). split; [by intros [?|?]%orb_true_iff; auto|]. intros t.
    assert (Hw : forall f f' t n es, (f' = true -> f = true) -> balanced f' t n es -> balanced f t n es).
    { clear. intros f f' t n es Hff (? & ? & E). repeat split; [done..|]. intros ->. apply E.
      destruct f'; [by rewrite Hff|done]. }
    replace (allowed_for t _) with
      (Nat.b2n (bool_decide (tenant_or_default r (gw_DefaultTenantID cfg) = t) && allowed_answer resp)
       + allowed_for t answers1)%nat.
    + apply balanced_app; (eapply Hw; [|done]); intros ->; by rewrite ?orb_true_r.
    + unfold allowed_for, allowed_answer. rewrite filter_cons. cbn [fst snd].
      destruct (Z.eqb_spec (rs_Status resp) 200); case_bool_decide; case_decide; cbn; try done; naive_solver.
Qed.
End run.

(** ** Properties *)

Section properties.
Context `{Json (gmap string gval), Json (list gval), Json VCJWTPayload, Json VerifiableCredential,
  Json GatewayAuthorizeResponse, Sha256, Ed25519}.
Context {T C L : Type} `{TrustRegistry T, DecisionCache C, Limiter L}.
Context {R V F : Type} `{PrometheusLaws R V F, EqDecision V}.

Lemma create_gateway f (r : R) :
  fa_metricsType f = PrometheusMetrics ->
  CreateGatewayMetrics f r
  = let! (p, r) := NewPrometheusGatewayMetricsWithRegistry (fa_namespace f) r in Ok (GatewayCollector p, r).
Proof. unfold CreateGatewayMetrics. by intros ->. Qed.

Lemma create_verifier f (r : R) :
  fa_metricsType f = PrometheusMetrics ->
  CreateVerifierMetrics f r
  = let! (p, r) := NewPrometheusVerifierMetricsWithRegistry (fa_namespace f) r in Ok (VerifierCollector p, r).
Proof. unfold CreateVerifierMetrics. by intros ->. Qed.

(** The two collectors of a Prometheus factory share no counter, and start at zero. *)
Lemma factory_collectors f r0 gm r1 vm r2 :
  fa_metricsType f = PrometheusMetrics ->
  CreateGatewayMetrics f r0 = Ok (gm, r1) -> CreateVerifierMetrics f r1 = Ok (vm, r2) ->
  exists p q, gm = GatewayCollector p /\ vm = VerifierCollector q
    /\ NoDup (app (vecs p) (verifier_vecs q))
    /\ forall v ls, v ∈ app (vecs p) (verifier_vecs q) -> count r2 v ls = 0%Z.
Proof.
  intros Hf. rewrite create_gateway, create_verifier by done. intros Hg Hv. bind_inv Hg as [p r] Hp. injection Hg as <- <-. bind_inv Hv as [q r'] Hq. injection Hv as <- <-.
  exists p, q. split; [done|]. split; [done|].
  apply gateway_registered, register_all_Ok in Hp as (_ & Hnp & Hzp & _).
  apply verifier_registered, register_all_Ok in Hq as (_ & Hnq & Hzq & _ & Hother & _).
  rewrite Forall_forall in Hzp, Hzq.
  assert (Hdisj : forall v, v ∈ vecs p -> v ∉ verifier_vecs q).
  { intros v Hv Hv'. apply Hzp in Hv as (_ & Hreg & _). apply Hzq in Hv' as (Hreg' & _). congruence. }
  split; [by apply NoDup_app|]. intros v ls [Hv|Hv]%elem_of_app; [|by apply Hzq].
  rewrite Hother by by apply Hdisj. by apply Hzp.
Qed.

Lemma silent_calls es c :
  Forall (fun e => verifier_only e = false) es -> verifier_only (Counted c) = true -> calls c es = 0%nat.
Proof.
  unfold calls. intros Hes Hc. induction Hes as [|e es He _ IH]; [done|]. rewrite filter_cons.
  rewrite decide_False; [done|]. destruct e as [| |c']; try done. cbn. rewrite bool_decide_eq_true. congruence.
Qed.

(** C26: The books of the gateway.  With the collectors a Prometheus factory makes, after any run
    of requests in which nothing panics, whose labels are all valid UTF-8 and whose counts a
    float64 holds (2^53), the counter of allowed requests of a tenant is the
    number of its requests that were answered with 200; unless the policy engine failed, its
    counter of requests is that number plus its refusals, summed over the reasons; and the
    counters of the verifier have not moved, although every chain of the run was verified. *)
Theorem gateway_metrics_account f r0 gm r1 vm r2 cfg (s : gateway_state (T := T) (C := C) (L := L)) xs answers s' es :
  fa_metricsType f = PrometheusMetrics ->
  CreateGatewayMetrics f r0 = Ok (gm, r1) -> CreateVerifierMetrics f r1 = Ok (vm, r2) ->
  authorize_all cfg s xs = Ok (answers, s', es) ->
  labels_ok gm vm es -> (Z.of_nat (length es) <= 2 ^ 53)%Z ->
  exists p q, gm = GatewayCollector p /\ vm = VerifierCollector q /\
    let counter := count (record gm vm es r2) in
    (forall t, counter (authzAllowed p) [t] = Z.of_nat (allowed_for t answers))
    /\ (~ engine_fails cfg -> forall t reasons, NoDup reasons ->
          (forall reason, Counted (IncAuthzDeny t reason) ∈ es -> reason ∈ reasons) ->
          counter (authzRequests p) [t]
          = (counter (authzAllowed p) [t] + foldr (fun reason n => counter (authzDenied p) [t; reason] + n) 0 reasons)%Z)
    /\ (forall reason, counter (verificationSuccess q) [reason] = 0%Z /\ counter (verificationFailure q) [reason] = 0%Z).
Proof.
  intros Hf Hg Hv Hrun Hok Hlen. destruct (factory_collectors _ _ _ _ _ _ Hf Hg Hv) as (p & q & -> & -> & Hnd & Hz).
  exists p, q. split; [done|]. split; [done|]. apply run_balance in Hrun as (Hsil & failed & Hfail & Hbal). cbv zeta.
  assert (Hread : forall c v ls, target (GatewayCollector p) (VerifierCollector q) c = Some (v, ls) ->
    count (record (GatewayCollector p) (VerifierCollector q) es r2) v ls = Z.of_nat (calls c es)).
  { intros c v ls Hc. apply fresh_count; try done. apply Hz.
    destruct (target_slot _ _ _ _ _ Hc) as (i & _ & Hi). by eapply list_elem_of_lookup_2. }
  split; [|split].
  - intros t. rewrite (Hread (IncAuthzAllow t)) by done. by rewrite (proj1 (Hbal t)).
  - intros Hne t reasons Hr Hcov. destruct (Hbal t) as (_ & _ & Heq). rewrite (Hread (IncAuthzRequest t)) by done.
    rewrite (Hread (IncAuthzAllow t)) by done. rewrite Heq by (destruct failed; [by destruct Hne; auto|done]).
    rewrite (denials_by_reason t reasons es Hr Hcov), Nat2Z.inj_add. f_equal. clear Hr Hcov.
    induction reasons as [|x l IH]; [done|]. cbn [foldr sum_list_with].
    by rewrite Nat2Z.inj_add, IH, (Hread (IncAuthzDeny t x)).
  - intros reason. rewrite (Hread (IncVerificationSuccess reason)), (Hread (IncVerificationFailure reason)) by done.
    by rewrite !silent_calls.
Qed.

(** A process has one set of metrics: once a Prometheus factory has made the collectors of a
    gateway, any factory of the same namespace panics when it makes them again. *)
Theorem metrics_registered_once f f' r0 gm r1 :
  fa_metricsType f = PrometheusMetrics -> fa_metricsType f' = PrometheusMetrics ->
  metrics_namespace (fa_namespace f) = metrics_namespace (fa_namespace f') ->
  CreateGatewayMetrics f r0 = Ok (gm, r1) ->
  CreateGatewayMetrics f' r1 = Err Panic.
Proof.
  intros Hf Hf' Hns. rewrite !create_gateway by done. intros Hg. bind_inv Hg as [p r] Hp. injection Hg as _ <-.
  apply gateway_registered, register_all_Ok in Hp as (_ & _ & _ & _ & _ & _ & Htaken).
  unfold NewPrometheusGatewayMetricsWithRegistry. rewrite <- Hns.
  set (o := counter_opts (metrics_namespace (fa_namespace f)) "gateway_authz_requests_total" ["tenant_id"]).
  cbn [gateway_opts register_all]. fold o. rewrite must_register_twice; [done|]. apply Htaken. by left.
Qed.
End properties.

(** ** Instances *)

Import MapRegistry.

Definition scrape : Factory := mkFactory PrometheusMetrics "".

(** Three requests: two allowed (one from the cache), one refused. *)
Definition day : list (readings * request GatewayAuthorizeRequest) :=
  [(all_at t0, authorize "doc" "sread"); (all_at t0, authorize "doc" "sread"); (all_at t0, authorize "doc" "write")].

(** The collectors of the day and its run. *)
Definition opened : result fault (GatewayMetrics (string * string) * VerifierMetrics (string * string) * registry) :=
  let! (gm, r1) := CreateGatewayMetrics scrape (∅ : registry) in
  let! (vm, r2) := CreateVerifierMetrics scrape r1 in
  Ok (gm, vm, r2).

Definition books : option (list Z) :=
  to_option (
    let! (gm, vm, r2) := opened in
    let! (answers, s, es) := authorize_all gateway_cfg gateway0 day in
    let r := record gm vm es r2 in
    match gm with
    | GatewayCollector p =>
        Ok [Z.of_nat (allowed_for "acme" answers); count r (authzRequests p) ["acme"]; count r (authzAllowed p) ["acme"];
            count r (authzDenied p) ["acme"; "policy_denied"]; count r (authzCacheHits p) ["acme"]]
    | NoopGatewayMetrics => Ok []
    end).

Example books_day : books = Some [2; 3; 2; 1; 1]%Z.
Proof. vm_compute. reflexivity. Qed.

Lemma day_runs :
  exists answers s es, authorize_all gateway_cfg gateway0 day = Ok (answers, s, es)
    /\ (Z.of_nat (length es) <= 2 ^ 53)%Z /\ allowed_for "acme" answers = 2%nat.
Proof.
  assert (Hx : (let! (answers, _, es) := authorize_all gateway_cfg gateway0 day in
                Ok (length es, allowed_for "acme" answers)) = Ok (10%nat, 2%nat)) by (vm_compute; reflexivity).
  destruct (authorize_all gateway_cfg gateway0 day) as [[[answers s] es]|]; [|discriminate Hx].
  cbn [rbind] in Hx. assert (Hl : length es = 10%nat) by congruence. exists answers, s, es.
  split; [reflexivity|]. rewrite Hl. split; [vm_compute; congruence|congruence].
Qed.

Lemma opens :
  exists gm vm r1 r2, CreateGatewayMetrics scrape (∅ : registry) = Ok (gm, r1)
    /\ CreateVerifierMetrics scrape r1 = Ok (vm, r2).
Proof.
  assert (Hok : is_ok opened = true) by (vm_compute; reflexivity). unfold opened in Hok.
  destruct (CreateGatewayMetrics scrape (∅ : registry)) as [[gm r1]|]; [|discriminate Hok]. cbn [rbind] in Hok.
  destruct (CreateVerifierMetrics scrape r1) as [[vm r2]|] eqn:Hv; [|discriminate Hok].
  exists gm, vm, r1, r2. split; [reflexivity|exact Hv].
Qed.

Lemma gateway_metrics_account_witness :
  exists answers s es gm vm r2 p, authorize_all gateway_cfg gateway0 day = Ok (answers, s, es)
    /\ opened = Ok (gm, vm, r2) /\ gm = GatewayCollector p
    /\ count (record gm vm es r2) (authzAllowed p) ["acme"] = 2%Z.
Proof.
  destruct day_runs as (answers & s & es & Hrun & Hlen & Htwo).
  destruct opens as (gm & vm & r1 & r2 & Hg & Hv).
  destruct (gateway_metrics_account scrape ∅ gm r1 vm r2 gateway_cfg gateway0 day answers s es
    eq_refl Hg Hv Hrun) as (p & q & Hp & _ & Ha & _).
  - apply Forall_forall. intros e _ v ls _. apply Forall_forall. intros l _. exact I.
  - exact Hlen.
  - exists answers, s, es, gm, vm, r2, p. split; [exact Hrun|]. split; [|split; [exact Hp|]].
    + unfold opened. rewrite Hg. cbn [rbind]. rewrite Hv. reflexivity.
    + rewrite (Ha "acme"), Htwo. reflexivity.
Defined.

Lemma metrics_registered_once_witness :
  exists gm r1, CreateGatewayMetrics scrape (∅ : registry) = Ok (gm, r1)
    /\ CreateGatewayMetrics (mkFactory PrometheusMetrics "credential_service") r1 = Err Panic.
Proof.
  destruct opens as (gm & _ & r1 & _ & Hg & _).
  exists gm, r1. split; [exact Hg|].
  exact (metrics_registered_once scrape (mkFactory PrometheusMetrics "credential_service") ∅ gm r1
    eq_refl eq_refl eq_refl Hg).
Defined.
