(* ===== verification/RateLimit.v ===== *)
(** * The sliding-window rate limiter.

    Models [RedisLimiter.Allow] of internal/ratelimit/redis_limiter.go.  The script it sends
    is a sequence of four commands on a sorted set, which the server runs as one step.  The
    server is an argument (class [SortedSets]); the laws it is known by are the documented
    behaviour of the commands (class [SortedSetsLaws]), stated on what a reader of a key
    would see at a time.  A member is the decimal form of a time in nanoseconds, so members
    are kept as numbers; its score is the double that is read from it: the function [score],
    of which only monotonicity is known. *)

From S2P Require Import Prelude GoStrings GoTime Errors.
From Stdlib Require Import ZArith String Lia Sorted.
From stdpp Require Import gmap list strings.

Local Open Scope string_scope.

(** The commands of the script.  Each takes the time at which the server runs it. *)
Class SortedSets (D : Type) := {
  score : Z -> Z;
  zremrangebyscore : D -> Z -> string -> Z -> D;
  zcard : D -> Z -> string -> Z;
  zadd : D -> Z -> string -> Z -> D;
  expire : D -> Z -> string -> Z -> D;
  members : D -> Z -> string -> gset Z;
}.

Class SortedSetsLaws (D : Type) `{SortedSets D} := {
  score_mono a b : (a <= b)%Z -> (score a <= score b)%Z;
  zrem_members d now k s t :
    (now <= t)%Z ->
    members (zremrangebyscore d now k s) t k = filter (fun m => score s < score m)%Z (members d t k);
  zcard_members d now k : zcard d now k = Z.of_nat (size (members d now k));
  zadd_members d now k m : members (zadd d now k m) now k = {[m]} ∪ members d now k;
  expire_members d now k secs t :
    (now <= t)%Z ->
    members (expire d now k secs) t k
    = if (t <? now + secs * second)%Z then members d now k else ∅;
  other_members d now k k' s m secs t :
    k' <> k ->
    members (zremrangebyscore d now k s) t k' = members d t k'
    /\ members (zadd d now k m) t k' = members d t k'
    /\ members (expire d now k secs) t k' = members d t k';
}.

(** Source: internal/ratelimit/redis_limiter.go, [RedisLimiter]. *)
Record RedisLimiter := mkRedisLimiter {
  rl_connected : bool;
  rl_requests : Z;
  rl_window : duration;
}.

Section limiter.
Context {D : Type} `{SortedSets D}.

(** The script: the entries that left the window are removed whatever the verdict.
    Source: internal/ratelimit/redis_limiter.go:76-97, [script]. *)
Definition allow_script (d : D) (key : string) (window_start now limit : Z) : Z * D :=
  let d1 := zremrangebyscore d now key window_start in
  let current := zcard d1 now key in
  if (current <? limit)%Z then (1%Z, expire (zadd d1 now key now) now key 3600)
  else (0%Z, d1).

(** [now] is the clock in nanoseconds ([UnixNano], which wraps around), and [fault] the error of the connection, if any.  The server's clock, by which it expires a
    key, is taken to be the client's.
    Source: internal/ratelimit/redis_limiter.go, [RedisLimiter.Allow]. *)
Definition RedisLimiter_Allow (r : RedisLimiter) (now : Z) (fault : option string) (d : D)
    (key : string) : result error bool * D :=
  if negb (rl_connected r) then (Err (ErrText "redis client not configured"), d)
  else
    match fault with
    | Some e => (Err (ErrWrap "rate limit eval error: " (ErrText e) ""), d)
    | None =>
        let '(answer, d') := allow_script d key (wrap64 (now - rl_window r)) now (rl_requests r) in
        (Ok (answer =? 1)%Z, d')
    end.

(** The verdicts on a sequence of requests, each a time and a key. *)
Fixpoint verdicts (r : RedisLimiter) (d : D) (reqs : list (Z * string)) : list (result error bool) :=
  match reqs with
  | [] => []
  | (t, key) :: reqs =>
      let '(v, d') := RedisLimiter_Allow r t None d key in
      v :: verdicts r d' reqs
  end.
End limiter.

(** ** The specification: a log of the accepted requests *)

Section log.
Variable score' : Z -> Z.

(** The entries of a key that are inside the window that ends at [t]. *)
Definition recent (window : duration) (t : Z) (key : string) (log : list (Z * string)) : list (Z * string) :=
  filter (fun e => e.2 = key /\ (score' (t - window) < score' e.1)%Z) log.

Definition log_accepts (r : RedisLimiter) (t : Z) (key : string) (log : list (Z * string)) : bool :=
  (Z.of_nat (length (recent (rl_window r) t key log)) <? rl_requests r)%Z.

Fixpoint log_verdicts (r : RedisLimiter) (log : list (Z * string)) (reqs : list (Z * string))
  : list (result error bool) :=
  match reqs with
  | [] => []
  | (t, key) :: reqs =>
      let v := log_accepts r t key log in
      Ok v :: log_verdicts r (if v then (t, key) :: log else log) reqs
  end.
End log.

(** ** Refinement *)

Section refinement.
Context {D : Type} `{SortedSetsLaws D}.
Variable r : RedisLimiter.
Hypothesis Hconn : rl_connected r = true.
Hypothesis Hwindow : (0 <= rl_window r <= hour)%Z.

(** The server and the log agree from time [t] on: the log has no repetitions and is not
    ahead of the clock, a key has no entry the log has not, and every log entry is still
    there while it is inside the window. *)
Definition agrees (t : Z) (d : D) (log : list (Z * string)) : Prop :=
  NoDup log
  /\ Forall (fun e => e.1 <= t)%Z log
  /\ (forall t' k m, (t <= t')%Z -> m ∈ members d t' k -> (m, k) ∈ log)
  /\ (forall t' k m, (t <= t')%Z -> (m, k) ∈ log ->
        (score (t' - rl_window r) < score m)%Z -> m ∈ members d t' k).

(** What the script counts is the part of the log inside the window. *)
Lemma counted_recent t t' d log key :
  agrees t d log -> (t <= t')%Z ->
  Z.of_nat (length (recent score (rl_window r) t' key log))
  = zcard (zremrangebyscore d t' key (t' - rl_window r)) t' key.
Proof.
  intros (Hnd & _ & Hin & Hout) Ht. rewrite zcard_members, zrem_members by lia. f_equal.
  set (ms := filter _ _). assert (Hl : (recent score (rl_window r) t' key log).*1 ≡ₚ elements ms).
  { apply NoDup_Permutation.
    - assert (Hnr : NoDup (recent score (rl_window r) t' key log)) by by apply NoDup_filter.
      apply NoDup_fmap_2_strong; [|done]. intros [a k] [b k'] Ha Hb. cbn. intros <-.
      unfold recent in Ha, Hb. apply list_elem_of_filter in Ha as [[Hk _] _], Hb as [[Hk' _] _].
      cbn in *. by subst.
    - apply NoDup_elements.
    - intros m. rewrite elem_of_elements. unfold ms, recent. rewrite elem_of_filter, list_elem_of_fmap. split.
      + intros ([m' k] & -> & [[<- Hw] Hm]%list_elem_of_filter). split; [done|]. by apply Hout.
      + intros [Hw Hm]. exists (m, key). rewrite list_elem_of_filter. split_and!; [done..|]. by apply (Hin t'). }
  apply Permutation_length in Hl. by rewrite length_fmap in Hl.
Qed.

(** The commands of the other keys leave a key as it is. *)
Lemma script_other d key now s k t :
  k <> key ->
  members (expire (zadd (zremrangebyscore d now key s) now key now) now key 3600) t k = members d t k
  /\ members (zremrangebyscore d now key s) t k = members d t k.
Proof.
  intros Hk. split.
  - destruct (other_members (zadd (zremrangebyscore d now key s) now key now) now key k 0 0 3600 t Hk) as (_ & _ & ->).
    destruct (other_members (zremrangebyscore d now key s) now key k 0 now 0 t Hk) as (_ & -> & _).
    by destruct (other_members d now key k s 0 0 t Hk) as (-> & _ & _).
  - by destruct (other_members d now key k s 0 0 t Hk) as (-> & _ & _).
Qed.

(** An accepted request: the entry is added, and the key outlives the window. *)
Lemma accept_agrees t now d log key :
  agrees t d log -> (t < now)%Z ->
  agrees now
    (expire (zadd (zremrangebyscore d now key (now - rl_window r)) now key now) now key 3600)
    ((now, key) :: log).
Proof.
  intros (Hnd & Hle & Hin & Hout) Ht.
  assert (Hm : forall t', (now <= t')%Z ->
    members (expire (zadd (zremrangebyscore d now key (now - rl_window r)) now key now) now key 3600) t' key
    = if (t' <? now + hour)%Z
      then {[now]} ∪ filter (fun m => score (now - rl_window r) < score m)%Z (members d now key) else ∅).
  { intros t' Ht'. rewrite expire_members, zadd_members, zrem_members by lia. done. }
  rewrite Forall_forall in Hle. split_and!.
  - constructor; [|done]. intros Hnow. apply Hle in Hnow. cbn in Hnow. lia.
  - apply Forall_forall. intros e [->|He]%elem_of_cons; cbn; [lia|]. apply Hle in He. lia.
  - intros t' k m Ht' Hk. apply elem_of_cons. destruct (decide (k = key)) as [->|Hne].
    + rewrite Hm in Hk by done. destruct (t' <? now + hour)%Z; [|set_solver].
      apply elem_of_union in Hk as [->%elem_of_singleton|[_ Hk]%elem_of_filter]; [by left|].
      right. by apply (Hin now); [lia|].
    + rewrite (proj1 (script_other d key now _ k t' Hne)) in Hk. right. by apply (Hin t'); [lia|].
  - intros t' k m Ht' Hml Hw. destruct (decide (k = key)) as [->|Hne].
    + rewrite Hm by done.
      assert (Hmnow : (m <= now)%Z).
      { apply elem_of_cons in Hml as [[= ->]|Hml]; [lia|]. apply Hle in Hml. cbn in Hml. lia. }
      destruct (t' <? now + hour)%Z eqn:E; breflect.
      2: { assert (score m <= score (t' - rl_window r))%Z by (apply score_mono; lia). lia. }
      apply elem_of_union. apply elem_of_cons in Hml as [[= ->]|Hml]; [left; by apply elem_of_singleton|right].
      assert (score (now - rl_window r) <= score (t' - rl_window r))%Z by (apply score_mono; lia).
      apply elem_of_filter. split; [lia|]. apply Hout; [lia|done|lia].
    + rewrite (proj1 (script_other d key now _ k t' Hne)). apply elem_of_cons in Hml as [[= -> ->]|Hml]; [done|].
      apply Hout; [lia|done..].
Qed.

(** A refused request: only entries outside the window go. *)
Lemma refuse_agrees t now d log key :
  agrees t d log -> (t < now)%Z ->
  agrees now (zremrangebyscore d now key (now - rl_window r)) log.
Proof.
  intros (Hnd & Hle & Hin & Hout) Ht. split_and!; [done| | |].
  - eapply Forall_impl; [exact Hle|]. cbn. lia.
  - intros t' k m Ht' Hk. destruct (decide (k = key)) as [->|Hne].
    + rewrite zrem_members in Hk by done. apply elem_of_filter in Hk as [_ Hk]. by apply (Hin t'); [lia|].
    + rewrite (proj2 (script_other d key now _ k t' Hne)) in Hk. by apply (Hin t'); [lia|].
  - intros t' k m Ht' Hml Hw. destruct (decide (k = key)) as [->|Hne].
    + rewrite zrem_members by done.
      assert (score (now - rl_window r) <= score (t' - rl_window r))%Z by (apply score_mono; lia).
      apply elem_of_filter. split; [lia|]. apply Hout; [lia|done..].
    + rewrite (proj2 (script_other d key now _ k t' Hne)). apply Hout; [lia|done..].
Qed.

Lemma verdicts_log t d log reqs :
  agrees t d log -> StronglySorted Z.lt (t :: reqs.*1) ->
  Forall (fun e => 0 <= e.1 <= max_int64)%Z reqs ->
  verdicts r d reqs = log_verdicts score r log reqs.
Proof.
  revert t d log. induction reqs as [|[now key] reqs IH]; intros t d log Hag Hs Hb; [done|].
  apply Forall_cons in Hb as [Hnow Hb]. cbn in Hnow.
  assert (Hwrap : wrap64 (now - rl_window r) = (now - rl_window r)%Z).
  { apply wrap64_id. unfold in_int64, min_int64, max_int64, hour, minute, second in *. lia. }
  apply StronglySorted_inv in Hs as [Hs Hlt]. cbn in Hs, Hlt. apply Forall_cons in Hlt as [Hlt _].
  cbn [verdicts log_verdicts]. unfold RedisLimiter_Allow, allow_script, log_accepts. rewrite Hconn, Hwrap. cbn [negb].
  rewrite (counted_recent t now d log key) by (done || lia).
  destruct (_ <? rl_requests r)%Z; cbn; f_equal; apply (IH now); try done.
  - by apply (accept_agrees t).
  - by apply (refuse_agrees t).
Qed.
End refinement.

(** C36: The limiter is a sliding window.  On a server with no entries, and for requests at
    increasing times, the verdicts of [RedisLimiter.Allow] are those of a log of the accepted
    requests: a request is accepted exactly when fewer than [requests] accepted requests of its
    own key lie inside the window before it.  The window must be at most the hour after which
    the key expires. *)
Theorem limiter_is_sliding_window {D} `{SortedSetsLaws D} r (d : D) t reqs :
  rl_connected r = true -> (0 <= rl_window r <= hour)%Z ->
  (forall t' k, members d t' k = ∅) ->
  StronglySorted Z.lt (t :: reqs.*1) -> Forall (fun e => 0 <= e.1 <= max_int64)%Z reqs ->
  verdicts r d reqs = log_verdicts score r [] reqs.
Proof.
  intros Hc Hw Hd Hs Hb. apply (verdicts_log r Hc Hw t); [|done..].
  split_and!; [constructor..| |]; intros t' k m; [rewrite Hd; set_solver|intros _ ?%elem_of_nil; done].
Qed.

(** ** A server *)

(** A sorted set, with the time its key is dropped, if one was set. *)
Record zset := mkZset { z_members : gset Z; z_expires : option Z }.

Record redis := mkRedis { r_keys : gmap string zset }.

Definition live (z : zset) (now : Z) : bool :=
  match z_expires z with Some e => (now <? e)%Z | None => true end.

Definition redis_members (d : redis) (now : Z) (k : string) : gset Z :=
  match r_keys d !! k with Some z => if live z now then z_members z else ∅ | None => ∅ end.

(** Changes the set of a key, dropping an expired one first. *)
Definition redis_alter (f : gset Z -> gset Z) (g : option Z -> option Z) (d : redis) (now : Z) (k : string) : redis :=
  mkRedis
    (<[k := match r_keys d !! k with
            | Some z => if live z now then mkZset (f (z_members z)) (g (z_expires z)) else mkZset (f ∅) (g None)
            | None => mkZset (f ∅) (g None)
            end]> (r_keys d)).

#[global] Instance redis_sets : SortedSets redis := {|
  score := fun z => z;
  zremrangebyscore d now k s := redis_alter (filter (fun m => s < m)%Z) id d now k;
  zcard d now k := Z.of_nat (size (redis_members d now k));
  zadd d now k m := redis_alter (fun ms => {[m]} ∪ ms) id d now k;
  expire d now k secs := redis_alter id (fun _ => Some (now + secs * second)%Z) d now k;
  members := redis_members;
|}.

#[global] Instance redis_laws : SortedSetsLaws redis.
Proof.
  constructor; try (intros; cbn; lia).
  - intros d now k s t Ht. cbn. unfold redis_members, redis_alter, live. cbn. rewrite lookup_insert_eq.
    destruct (r_keys d !! k) as [[ms [e|]]|]; cbn; [|done..].
    destruct (now <? e)%Z eqn:E, (t <? e)%Z eqn:E'; cbn; rewrite ?E'; try done; breflect; lia.
  - intros d now k m. cbn. unfold redis_members, redis_alter, live. cbn. rewrite lookup_insert_eq.
    destruct (r_keys d !! k) as [[ms [e|]]|]; cbn; [|done..].
    destruct (now <? e)%Z eqn:E; cbn; rewrite ?E; done.
  - intros d now k secs t Ht. cbn. unfold redis_members, redis_alter, live. cbn. rewrite lookup_insert_eq.
    destruct (r_keys d !! k) as [[ms [e|]]|]; cbn; [|by destruct (t <? _)%Z..].
    destruct (now <? e)%Z eqn:E; cbn; by destruct (t <? now + _)%Z.
  - intros d now k k' s m secs t Hk. cbn. unfold redis_members, redis_alter. cbn. by rewrite !lookup_insert_ne by done.
Qed.

Definition empty_redis : redis := mkRedis ∅.

(** Two requests a minute. *)
Definition two_a_minute : RedisLimiter := mkRedisLimiter true 2 minute.

Definition five_requests : list (Z * string) :=
  [(1, "a"); (2, "a"); (3, "a"); (4, "b"); (minute + 2, "a")]%Z.

Lemma limiter_is_sliding_window_witness :
  StronglySorted Z.lt (0%Z :: five_requests.*1)
  /\ verdicts two_a_minute empty_redis five_requests = log_verdicts score two_a_minute [] five_requests
  /\ verdicts two_a_minute empty_redis five_requests = [Ok true; Ok true; Ok false; Ok true; Ok true].
Proof.
  assert (Hs : StronglySorted Z.lt (0%Z :: five_requests.*1)).
  { repeat constructor. }
  split; [exact Hs|]. split; [|reflexivity].
  apply (limiter_is_sliding_window two_a_minute empty_redis 0 five_requests); [reflexivity|vm_compute; split; discriminate| |exact Hs|].
  - intros t' k. cbn. unfold redis_members. cbn. rewrite lookup_empty. reflexivity.
  - repeat constructor; vm_compute; discriminate.
Defined.

(** A window longer than an hour is not kept.  The key expires an hour after the last
    accepted request, so with one request a day ([RATELIMIT_WINDOW=24h], an accepted setting)
    a second request is accepted after an hour, where the log of the accepted requests
    refuses it. *)
Theorem long_window_forgotten :
  let r := mkRedisLimiter true 1 (24 * hour)%Z in
  let reqs := [(1, "a"); (2 * hour, "a")]%Z in
  verdicts r empty_redis reqs = [Ok true; Ok true]
  /\ log_verdicts score r [] reqs = [Ok true; Ok false].
Proof. vm_compute. split; reflexivity. Qed.
