(* ===== verification/Redis.v ===== *)
(** * The gateway's cache and limiter behind Redis.

    Models internal/cache/redis_cache.go, the constructor of internal/ratelimit/redis_limiter.go
    and the part of services/verifier/server.go that chooses them.  The client and the server it
    is connected to are an argument (class [Redis]); [RedisLaws] is what the commands GET and
    SET promise.  The cache satisfies the laws the gateway relies on ([DecisionCacheLaws]). *)

From S2P Require Import Prelude GoStrings GoTime GoDuration Errors Crypto Config Policy Http Gateway RateLimit.
From Stdlib Require Import ZArith String Lia.
From stdpp Require Import gmap list strings.

Local Open Scope string_scope.

(** ** The client *)

(** [redis.Options] *)
Record redis_options := mkRedisOptions { ro_Addr : string; ro_Password : string; ro_DB : Z }.

(** A [D] is a client with its server.  Commands take the time at which the server runs them;
    [redis_get] is [Ok None] for [redis.Nil], and [eval_fault] the error of a script that is not
    run. *)
Class Redis (D : Type) := {
  redis_new_client : redis_options -> D;
  redis_ping : D -> result error unit;
  redis_get : D -> time -> string -> result error (option string);
  redis_set : D -> time -> string -> string -> duration -> result error D;
  eval_fault : D -> time -> option string;
}.

(** The client sends an expiry in milliseconds, rounded down, but not to nothing. *)
Definition redis_ttl (ttl : duration) : duration :=
  Z.max millisecond (ttl / millisecond * millisecond).

Class RedisLaws (D : Type) `{Redis D} := {
  entry : D -> string -> option (string * time);
  redis_get_law d now k v : redis_get d now k = Ok (Some v) ->
    exists e, entry d k = Some (v, e) /\ (now < e)%Z;
  redis_set_law d now k v ttl d' : (0 < ttl)%Z -> redis_set d now k v ttl = Ok d' ->
    forall k' v' e, entry d' k' = Some (v', e) ->
      (k' = k /\ v' = v /\ e = (now + redis_ttl ttl)%Z) \/ entry d k' = Some (v', e);
}.

Section redis.
Context {D : Type} `{Redis D, SortedSets D}.

(** [addr], [db] and [password] as both constructors read them, and a connection that answers;
    they wrap the same failures in different words.
    Source: internal/ratelimit/redis_limiter.go:41-59, [NewRedisLimiterFromEnv]. *)
Definition connect (env : string -> string) (bad_db no_ping : string) : result error D :=
  let! db := if bool_decide (env "REDIS_DB" = "") then Ok 0%Z
             else of_option (ErrWrap bad_db (ErrText ("strconv.Atoi: " +:+ env "REDIS_DB")) "") (parse_int (env "REDIS_DB")) in
  let client := redis_new_client (mkRedisOptions (env "REDIS_ADDR") (env "REDIS_PASSWORD") db) in
  let! _ := map_err (fun e => ErrWrap no_ping e "") (redis_ping client) in
  Ok client.

(** ** The cache *)

(** A client may be missing.
    Source: internal/cache/redis_cache.go, [RedisDecisionCache]. *)
Definition RedisDecisionCache : Type := option D.

(** Source: internal/cache/redis_cache.go, [NewRedisDecisionCacheFromEnv]. *)
Definition NewRedisDecisionCacheFromEnv (env : string -> string) : result error RedisDecisionCache :=
  stop! bool_decide (env "REDIS_ADDR" = "") with ErrText "REDIS_ADDR is required" in
  let! client := connect env "parse REDIS_DB: " "ping redis: " in
  Ok (Some client).

Definition not_configured : error := ErrText "redis client not configured".

(** Source: internal/cache/redis_cache.go, [RedisDecisionCache.Get]. *)
Definition RedisDecisionCache_Get (r : RedisDecisionCache) (now : time) (key : string) : result error (option string) :=
  let! client := of_option not_configured r in
  redis_get client now key.

(** Source: internal/cache/redis_cache.go, [RedisDecisionCache.Set]. *)
Definition RedisDecisionCache_Set (r : RedisDecisionCache) (now : time) (key value : string) (ttl : duration)
  : result error RedisDecisionCache :=
  let! client := of_option not_configured r in
  let! client := redis_set client now key value ttl in
  Ok (Some client).

(** The cache the server uses: none, or the one in Redis.
    Source: services/verifier/server.go:172-180, [NewServer]. *)
Inductive server_cache :=
| NoCache
| RedisCache (r : RedisDecisionCache).

#[global] Instance server_cache_ops : DecisionCache server_cache := {|
  cache_get c now k := match c with NoCache => Ok None | RedisCache r => RedisDecisionCache_Get r now k end;
  cache_set c now k v ttl :=
    match c with
    | NoCache => Ok NoCache
    | RedisCache r => let! r := RedisDecisionCache_Set r now k v ttl in Ok (RedisCache r)
    end;
|}.

(** A cache that cannot be made is one that is not used.
    Source: services/verifier/server.go:172-180, [NewServer]. *)
Definition select_cache (cfg : VerifierConfig) (env : string -> string) : server_cache :=
  if vf_GatewayCache cfg && negb (bool_decide (vf_RedisAddr cfg = "")) then
    match NewRedisDecisionCacheFromEnv env with
    | Ok r => RedisCache r
    | Err _ => NoCache
    end
  else NoCache.

(** ** The limiter *)

(** The limiter and the server its script runs on.
    Source: internal/ratelimit/redis_limiter.go, [NewRedisLimiterFromEnv]. *)
Definition NewRedisLimiterFromEnv (env : string -> string) : result error (RedisLimiter * D) :=
  stop! bool_decide (env "REDIS_ADDR" = "") with ErrText "REDIS_ADDR is required for rate limiting" in
  let! requests := of_option (ErrWrap "invalid RATELIMIT_REQUESTS: " (ErrText ("strconv.Atoi: " +:+ env "RATELIMIT_REQUESTS")) "")
                     (parse_int (getenv env "RATELIMIT_REQUESTS" "100")) in
  let! window := map_err (fun e => ErrWrap "invalid RATELIMIT_WINDOW: " e "")
                   (ParseDuration (getenv env "RATELIMIT_WINDOW" "1m")) in
  let! client := connect env "invalid REDIS_DB: " "redis ping failed: " in
  Ok (mkRedisLimiter true requests window, client).

(** The limiter the server uses.
    Source: services/verifier/server.go:182-190, [NewServer]. *)
Inductive server_limiter :=
| NoLimiter
| RateLimited (r : RedisLimiter) (d : D).

(** A script that fails is a refusal: the error is only logged.
    Source: internal/httpserver/gateway_handlers.go:129-132, [RegisterGatewayRoutes]. *)
#[global] Instance server_limiter_ops : Limiter server_limiter :=
  fun l now key =>
    match l with
    | NoLimiter => (true, NoLimiter)
    | RateLimited r d =>
        let '(v, d') := RedisLimiter_Allow r (unix_nano now) (eval_fault d now) d key in
        (default false (to_option v), RateLimited r d')
    end.

(** Source: services/verifier/server.go:182-190, [NewServer]. *)
Definition select_limiter (cfg : VerifierConfig) (env : string -> string) : server_limiter :=
  if vf_RateLimitEnabled cfg then
    match NewRedisLimiterFromEnv env with
    | Ok (r, d) => RateLimited r d
    | Err _ => NoLimiter
    end
  else NoLimiter.
End redis.
Arguments RedisDecisionCache D : clear implicits.
Arguments server_cache D : clear implicits.
Arguments server_limiter D : clear implicits.

(** ** What the gateway can rely on *)

Section laws.
Context {D : Type} `{RedisLaws D}.

Lemma redis_ttl_le ttl : (0 < ttl)%Z -> (0 < redis_ttl ttl <= Z.max ttl millisecond)%Z.
Proof.
  unfold redis_ttl, millisecond. intros Hpos. pose proof (Z.mul_div_le ttl 1000000 ltac:(lia)). lia.
Qed.

Definition server_entry (c : server_cache D) (k : string) : option (string * time) :=
  match c with RedisCache (Some d) => entry d k | _ => None end.

(** Whatever the configuration selects, the gateway has a cache as it needs it. *)
#[global] Instance server_cache_laws : DecisionCacheLaws (server_cache D).
Proof.
  refine {| cached_entry := server_entry |}.
  - intros [|[d|]] now k v; cbn; [done| |done]. by apply redis_get_law.
  - intros [|[d|]] now k v ttl c' Hpos; cbn; [by intros [= <-]| |done].
    intros Hs k' v' e. destruct (redis_set d now k v ttl) as [d'|] eqn:Hset; [|done]. cbn in Hs.
    injection Hs as <-. cbn. intros He.
    destruct (redis_set_law _ _ _ _ _ _ Hpos Hset _ _ _ He) as [(-> & -> & ->)|?]; [left|by right].
    pose proof (redis_ttl_le ttl Hpos). repeat split. lia.
Defined.
End laws.

(** ** Configuring *)

Section configuring.
Context {D : Type} `{Redis D, SortedSets D}.

(** The cache is used exactly when it is asked for, addressed, and answers. *)
Lemma select_cache_on cfg env r :
  select_cache (D := D) cfg env = RedisCache r <->
  vf_GatewayCache cfg = true /\ vf_RedisAddr cfg <> "" /\ env "REDIS_ADDR" <> ""
  /\ exists db d, r = Some d
       /\ (if bool_decide (env "REDIS_DB" = "") then Some 0%Z else parse_int (env "REDIS_DB")) = Some db
       /\ d = redis_new_client (mkRedisOptions (env "REDIS_ADDR") (env "REDIS_PASSWORD") db)
       /\ redis_ping d = Ok tt.
Proof.
  unfold select_cache, NewRedisDecisionCacheFromEnv, connect.
  destruct (vf_GatewayCache cfg); cbn; [|naive_solver].
  case_bool_decide; cbn; [naive_solver|]. case_bool_decide; cbn; [naive_solver|].
  destruct (if bool_decide (env "REDIS_DB" = "") then Ok 0%Z else _) as [db|e] eqn:Hdb; cbn.
  - assert (Hdb' : (if bool_decide (env "REDIS_DB" = "") then Some 0%Z else parse_int (env "REDIS_DB")) = Some db).
    { case_bool_decide; [congruence|]. by destruct (parse_int _); cbn in Hdb; simplify_eq. }
    rewrite Hdb'. destruct (redis_ping _) as [[]|] eqn:Hp; cbn.
    + split; [intros [= <-]|].
      * repeat (split; [done|]). eexists _, _. repeat (split; [done|]). done.
      * by intros (_ & _ & _ & db' & d & -> & [= <-] & -> & _).
    + split; [done|]. intros (_ & _ & _ & db' & d & _ & [= <-] & -> & ?). congruence.
  - split; [done|]. intros (_ & _ & _ & db & d & _ & Hdb' & _).
    case_bool_decide; [done|]. by destruct (parse_int _).
Qed.

(** A rate limiter that is switched on but cannot be made limits nothing. *)
Lemma select_limiter_open cfg env e now key :
  NewRedisLimiterFromEnv (D := D) env = Err e ->
  limiter_allow (select_limiter (D := D) cfg env) now key = (true, NoLimiter).
Proof. unfold select_limiter. intros ->. by destruct (vf_RateLimitEnabled cfg). Qed.

(** One that was made, but whose scripts fail, refuses everything. *)
Lemma limiter_down r (d : D) now key e :
  eval_fault d now = Some e -> limiter_allow (RateLimited r d) now key = (false, RateLimited r d).
Proof.
  intros He. unfold limiter_allow, server_limiter_ops, RedisLimiter_Allow. rewrite He.
  by destruct (negb (rl_connected r)).
Qed.

(** What the environment can make of a limiter: by default a hundred requests a minute. *)
Lemma NewRedisLimiterFromEnv_range env r (d : D) :
  NewRedisLimiterFromEnv env = Ok (r, d) ->
  rl_connected r = true /\ in_int64 (rl_requests r) /\ in_int64 (rl_window r)
  /\ (env "RATELIMIT_REQUESTS" = "" -> rl_requests r = 100%Z)
  /\ (env "RATELIMIT_WINDOW" = "" -> rl_window r = minute).
Proof.
  unfold NewRedisLimiterFromEnv, getenv. intros Hr. stop_inv Hr as Ha.
  bind_inv Hr as n Hn. bind_inv Hr as w Hw. bind_inv Hr as c Hc. injection Hr as <- <-. cbn.
  ok_simp Hn. ok_simp Hw. split; [done|]. split; [by eapply parse_int_range|].
  split; [by eapply ParseDuration_range|]. split; intros Hv; rewrite Hv in *; cbn in *.
  - vm_compute in Hn. congruence.
  - assert (Hm : @Ok error _ w = Ok minute) by (rewrite <- Hw; vm_compute; reflexivity). congruence.
Qed.
End configuring.

(** ** A server *)

(** The sorted sets and the strings of a server, and whether it answers. *)
Record redis_server := mkServer {
  sv_sets : redis;
  sv_strings : gmap string (string * time);
  sv_up : bool;
}.

Definition on_sets (f : redis -> redis) (d : redis_server) : redis_server :=
  mkServer (f (sv_sets d)) (sv_strings d) (sv_up d).

#[global] Instance server_sets : SortedSets redis_server := {|
  score := fun z => z;
  zremrangebyscore d now k s := on_sets (fun r => zremrangebyscore r now k s) d;
  zcard d now k := zcard (sv_sets d) now k;
  zadd d now k m := on_sets (fun r => zadd r now k m) d;
  expire d now k secs := on_sets (fun r => expire r now k secs) d;
  members d now k := members (sv_sets d) now k;
|}.

#[global] Instance server_sets_laws : SortedSetsLaws redis_server.
Proof.
  constructor.
  - done.
  - exact (fun d => zrem_members (sv_sets d)).
  - exact (fun d => zcard_members (sv_sets d)).
  - exact (fun d => zadd_members (sv_sets d)).
  - exact (fun d => expire_members (sv_sets d)).
  - exact (fun d => other_members (sv_sets d)).
Qed.

(** A server that refuses connections until it is addressed as [localhost:6379]. *)
#[global] Instance server_redis : Redis redis_server := {|
  redis_new_client o := mkServer empty_redis ∅ (bool_decide (ro_Addr o = "localhost:6379"));
  redis_ping d := if sv_up d then Ok tt else Err (ErrText "connection refused");
  redis_get d now k :=
    if sv_up d then
      Ok (match sv_strings d !! k with
          | Some (v, e) => if (now <? e)%Z then Some v else None
          | None => None
          end)
    else Err (ErrText "connection refused");
  redis_set d now k v ttl :=
    if sv_up d then Ok (mkServer (sv_sets d) (<[k := (v, (now + redis_ttl ttl)%Z)]> (sv_strings d)) true)
    else Err (ErrText "connection refused");
  eval_fault d now := if sv_up d then None else Some "connection refused";
|}.

#[global] Instance server_redis_laws : RedisLaws redis_server.
Proof.
  refine {| entry := fun d k => sv_strings d !! k |}.
  - intros d now k v. cbn. destruct (sv_up d); [|done]. destruct (sv_strings d !! k) as [[v' e]|]; [|done].
    destruct (now <? e)%Z eqn:E; [|done]. intros [= ->]. breflect. eauto.
  - intros d now k v ttl d' _. cbn. destruct (sv_up d); [|done]. intros [= <-] k' v' e. cbn [sv_strings].
    destruct (decide (k' = k)) as [->|Hne]; [rewrite lookup_insert_eq|rewrite lookup_insert_ne by done].
    + intros [= <- <-]. by left.
    + by right.
Defined.

(** The environment of a server with Redis. *)
Definition redis_env (key : string) : string :=
  if bool_decide (key = "REDIS_ADDR") then "localhost:6379"
  else if bool_decide (key = "REDIS_DB") then "2"
  else if bool_decide (key = "RATELIMIT_WINDOW") then "1m30s"
  else "".

Example limiter_from_env :
  NewRedisLimiterFromEnv (D := redis_server) redis_env
  = Ok (mkRedisLimiter true 100 (90 * second), mkServer empty_redis ∅ true).
Proof. vm_compute. reflexivity. Qed.
