(* ===== verification/Flags.v ===== *)
(** * Flags of the commands.

    Go's [flag] package, as cmd/idctl and cmd/keygen use it: the arguments of a command are
    read into the values of its flags, up to the first argument that is not one. *)

From S2P Require Import Prelude GoStrings Errors.
From Stdlib Require Import ZArith Ascii String Lia.
From stdpp Require Import gmap list strings.

Local Open Scope string_scope.

(** The value of the first [=] of a flag. *)
Fixpoint split_equal (s : string) : string * option string :=
  match s with
  | "" => ("", None)
  | String a s' =>
      if bool_decide (a = "="%char) then ("", Some s')
      else let '(n, v) := split_equal s' in (String a n, v)
  end.

(** [strconv.ParseInt(s, 0, 64)] *)
Class ParseInt0 := parse_int_0 : string -> option Z.

(** [strconv.ParseBool] *)
Definition parse_bool (s : string) : option bool :=
  if bool_decide (s ∈ ["1"; "t"; "T"; "TRUE"; "true"; "True"]) then Some true
  else if bool_decide (s ∈ ["0"; "f"; "F"; "FALSE"; "false"; "False"]) then Some false
  else None.

(** What the value of a flag is. *)
Inductive flag_kind := StringFlag | IntFlag | BoolFlag.

(** The flags of a command, by name. *)
Abbreviation flag_set := (gmap string flag_kind).

(** [Value.Set]; a boolean is kept as Go prints it. *)
Definition set_flag `{ParseInt0} (flags : flag_set) (name value : string) (vals : gmap string string)
  : result error (gmap string string) :=
  match flags !! name with
  | Some IntFlag =>
      stop! bool_decide (parse_int_0 value = None) with
        ErrText ("invalid value for flag -" +:+ name +:+ ": parse error") in
      Ok (<[name := value]> vals)
  | Some BoolFlag =>
      let! b := of_option (ErrText ("invalid boolean value for -" +:+ name +:+ ": parse error")) (parse_bool value) in
      Ok (<[name := if b then "true" else "false"]> vals)
  | _ => Ok (<[name := value]> vals)
  end.

(** [flag.ErrHelp] *)
Definition help_requested : error := ErrText "flag: help requested".

(** [FlagSet.Parse]: the flags that were set, with their values.  A boolean flag takes the next
    argument for its value only behind an equals sign. *)
Fixpoint parse_flags `{ParseInt0} (flags : flag_set) (args : list string) (vals : gmap string string)
  : result error (gmap string string) :=
  match args with
  | [] => Ok vals
  | s :: rest =>
      if (String.length s <? 2)%nat || negb (has_prefix s "-") then Ok vals
      else if bool_decide (s = "--") then Ok vals
      else
        let name := if has_prefix s "--" then drop_bytes 2 s else drop_bytes 1 s in
        stop! (bool_decide (name = "") || has_prefix name "-" || has_prefix name "=") with
          ErrText ("bad flag syntax: " +:+ s) in
        let '(name, value) := split_equal name in
        match flags !! name with
        | None =>
            Err (if bool_decide (name ∈ ["help"; "h"]) then help_requested
                 else ErrText ("flag provided but not defined: -" +:+ name))
        | Some BoolFlag =>
            let! vals := set_flag flags name (default "true" value) vals in parse_flags flags rest vals
        | Some _ =>
            match value, rest with
            | Some v, _ => let! vals := set_flag flags name v vals in parse_flags flags rest vals
            | None, v :: rest' => let! vals := set_flag flags name v vals in parse_flags flags rest' vals
            | None, [] => Err (ErrText ("flag needs an argument: -" +:+ name))
            end
        end
  end.

(** The value of a flag, or its default. *)
Definition flag_or (vals : gmap string string) (name fallback : string) : string := default fallback (vals !! name).
