(* ===== verification/Keys.v ===== *)
(** * Key documents and key stores.

    Models internal/crypto/did_keygen.go, internal/did (the DID document with its key
    history, the file store) and internal/keystore (the three key stores).  What a call
    draws (key pairs, the UUID) and what the world answers during it (the clock, the disk)
    is an argument, a [draw].  PKCS#8 and PEM are the class [Pkcs8], with the law that a
    key that was written reads back. *)

From S2P Require Import Prelude GoStrings Base64 GoTime Errors Values Crypto Credential Instances.
From S2P Require Import Did.
From Stdlib Require Import ZArith String Lia.
From stdpp Require Import countable gmap list strings.

Local Open Scope string_scope.

(** ** Key pairs *)

(** The private keys the service generates, each with its public half. *)
Inductive private_key :=
| PrivEd25519 (pub seed : string)
| PrivP256 (x y d : string).

#[global] Instance private_key_eq_dec : EqDecision private_key.
Proof. solve_decision. Defined.

(** [priv.Public()] *)
Definition public_of (k : private_key) : public_key :=
  match k with
  | PrivEd25519 pub _ => PubEd25519 pub
  | PrivP256 x y _ => PubECDSA "P-256" x y
  end.

(** Signing with a private key, [pem.EncodeToMemory] over [x509.MarshalPKCS8PrivateKey],
    [pem.Decode], and [x509.ParsePKCS8PrivateKey] with the type assertion to a signer
    ([Ok None] when it fails). *)
Class Pkcs8 := {
  private_sign : private_key -> string -> result error string;
  pem_encode : private_key -> result error string;
  pem_decode : string -> option string;
  parse_pkcs8 : string -> result error (option private_key);
}.

(** A key that was written is not the empty text and reads back. *)
Class Pkcs8Law `{Pkcs8} : Prop :=
  pkcs8_law : forall k t, pem_encode k = Ok t ->
    t <> "" /\ exists b, pem_decode t = Some b /\ parse_pkcs8 b = Ok (Some k).

Definition private_signer `{Pkcs8} (k : private_key) : Signer := mkSigner (public_of k) (private_sign k).

(** What one call draws and what it meets: the answers of the two key generators, a UUID,
    the clock, the error of the disk, if any, and what the two remote signing services
    answer for a key name. *)
Record draw := mkDraw {
  d_ed25519 : result error (string * string);
  d_p256 : result error (string * string * string);
  d_uuid : string;
  d_now : time;
  d_disk : option error;
  d_vault : string -> result error Signer;
  d_kms : string -> result error Signer;
}.

(** Source: internal/crypto/did_keygen.go, [DIDKeyPair]. *)
Record DIDKeyPair := mkKeyPair {
  kp_DID : string;
  kp_Algorithm : string;
  kp_PublicJWK : string;
  kp_PrivateKeyPEM : string;
  kp_PrivateKey : private_key;
}.

(** Source: internal/did/doc.go, [KeyEntry]. *)
Record KeyEntry := mkKeyEntry {
  ke_ID : string;
  ke_DID : string;
  ke_Algorithm : string;
  ke_PublicJWK : claims_map;
  ke_PrivateKeyPEM : string;
  ke_CreatedAt : time;
}.

(** Source: internal/did/doc.go, [DIDDocument]. *)
Record DIDDocument := mkDoc {
  doc_DID : string;
  doc_Method : string;
  doc_Keys : list KeyEntry;
  doc_CurrentKeyID : string;
}.

(** Source: internal/did/doc.go:18-18, [methodJWK]. *)
Definition methodJWK : string := "did:jwk".
(** Source: internal/did/doc.go:19-19, [maxKeyRecord]. *)
Definition maxKeyRecord : nat := 5.

Section documents.
Context `{Json (gmap string gval), Pkcs8}.

(** The part the two generators share: the JWK is written, the DID is its encoding, and
    the private key is written as PEM.
    Source: internal/crypto/did_keygen.go:87-120, [generateES256DID]. *)
Definition key_pair (alg : string) (jwk : gmap string gval) (priv : private_key) : result error DIDKeyPair :=
  let! publicJWKBytes := map_err (fun e => ErrWrap "marshal public jwk: " e "") (json_marshal jwk) in
  let did := "did:jwk:" +:+ b64_encode publicJWKBytes in
  let! privPEM := map_err (fun e => ErrWrap "marshal private key: " e "") (pem_encode priv) in
  Ok (mkKeyPair did alg publicJWKBytes privPEM priv).

(** Source: internal/crypto/did_keygen.go, [generateEd25519DID]. *)
Definition generateEd25519DID (d : draw) : result error DIDKeyPair :=
  let! ps := map_err (fun e => ErrWrap "generate ed25519 key: " e "") (d_ed25519 d) in
  let '(pub, seed) := ps in
  key_pair "EdDSA" {["kty" := VStr "OKP"; "crv" := VStr "Ed25519"; "x" := VStr (b64_encode pub)]}
    (PrivEd25519 pub seed).

(** Source: internal/crypto/did_keygen.go, [generateES256DID]. *)
Definition generateES256DID (d : draw) : result error DIDKeyPair :=
  let! xyd := map_err (fun e => ErrWrap "generate ecdsa key: " e "") (d_p256 d) in
  let '(x, y, s) := xyd in
  key_pair "ES256"
    {["kty" := VStr "EC"; "crv" := VStr "P-256"; "x" := VStr (b64_encode x); "y" := VStr (b64_encode y)]}
    (PrivP256 x y s).

(** Source: internal/crypto/did_keygen.go, [GenerateDIDJWK]. *)
Definition GenerateDIDJWK (d : draw) (algorithm : string) : result error DIDKeyPair :=
  if bool_decide (algorithm = "EdDSA") then generateEd25519DID d
  else if bool_decide (algorithm = "ES256") then generateES256DID d
  else Err (ErrText ("unsupported algorithm: " +:+ algorithm +:+ " (supported: EdDSA, ES256)")).

(** Source: internal/did/doc.go, [generateKey]. *)
Definition generateKey (d : draw) (algorithm : string) : result error KeyEntry :=
  let! kp := GenerateDIDJWK d algorithm in
  let! public := map_err (fun e => ErrWrap "decode public jwk: " e "") (json_unmarshal (kp_PublicJWK kp)) in
  Ok (mkKeyEntry (d_uuid d) (kp_DID kp) (kp_Algorithm kp) (Some public) (kp_PrivateKeyPEM kp) (d_now d)).

(** Source: internal/did/doc.go, [NewDIDJWKWithAlg]. *)
Definition NewDIDJWKWithAlg (d : draw) (algorithm : string) : result error DIDDocument :=
  let! keyEntry := generateKey d algorithm in
  Ok (mkDoc (ke_DID keyEntry) methodJWK [keyEntry] (ke_ID keyEntry)).

(** Source: internal/did/doc.go, [NewDIDJWK]. *)
Definition NewDIDJWK (d : draw) : result error DIDDocument := NewDIDJWKWithAlg d "EdDSA".

(** Source: internal/did/doc.go, [DIDDocument.CurrentKey]. *)
Definition CurrentKey (doc : DIDDocument) : result error KeyEntry :=
  of_option (ErrText ("current key " +:+ doc_CurrentKeyID doc +:+ " not found"))
    (snd <$> list_find (fun k => ke_ID k = doc_CurrentKeyID doc) (doc_Keys doc)).

(** Source: internal/did/doc.go, [RotateKeys]. *)
Definition RotateKeys (d : draw) (doc : DIDDocument) : result error DIDDocument :=
  let! current := CurrentKey doc in
  let! next := generateKey d (ke_Algorithm current) in
  let keys := (doc_Keys doc ++ [next])%list in
  let keys :=
    if (maxKeyRecord <? length keys)%nat then drop (length keys - maxKeyRecord) keys else keys in
  Ok (mkDoc (ke_DID next) (doc_Method doc) keys (ke_ID next)).

(** Source: internal/did/doc.go, [DIDDocument.CurrentSigner]. *)
Definition CurrentSigner (doc : DIDDocument) : result error Signer :=
  let! current := CurrentKey doc in
  stop! bool_decide (ke_PrivateKeyPEM current = "") with
    ErrText "current key is missing private key material" in
  let! block := of_option (ErrText "failed to decode PEM block") (pem_decode (ke_PrivateKeyPEM current)) in
  let! parsed := map_err (fun e => ErrWrap "parse private key: " e "") (parse_pkcs8 block) in
  let! key := of_option (ErrText "parsed private key does not implement crypto.Signer") parsed in
  Ok (private_signer key).
End documents.

Section serialized.
Context `{Json DIDDocument}.

(** Source: internal/did/doc.go, [ExportDID]. *)
Definition ExportDID (doc : DIDDocument) : result error string := json_marshal doc.

(** Source: internal/did/doc.go, [ImportDID]. *)
Definition ImportDID (data : string) : result error DIDDocument :=
  let! doc := json_unmarshal data in
  stop! (bool_decide (doc_CurrentKeyID doc = "") || (length (doc_Keys doc) =? 0)%nat) with
    ErrText "invalid DID document: missing keys" in
  Ok doc.
End serialized.

(** ** The file store *)

(** The documents in memory and the contents of the file, [None] when there is none.
    Source: internal/did/store.go, [FileStore]. *)
Record FileStore := mkFileStore {
  fs_docs : gmap string DIDDocument;
  fs_file : option string;
}.

Section filestore.
Context `{Json (gmap string gval), Pkcs8, Json (gmap string DIDDocument)}.

(** Source: internal/did/store.go, [FileStore.persist]. *)
Definition persist (d : draw) (s : FileStore) : result error unit * FileStore :=
  match json_marshal (fs_docs s) with
  | Err e => (Err (ErrWrap "encode store: " e ""), s)
  | Ok data =>
      match d_disk d with
      | Some e => (Err e, s)
      | None => (Ok tt, mkFileStore (fs_docs s) (Some data))
      end
  end.

(** [mkdir] and [read] are the errors of the two disk operations, if any.
    Source: internal/did/store.go, [FileStore.Load]. *)
Definition FileStore_Load (mkdir read : option error) (s : FileStore) : result error unit * FileStore :=
  match mkdir, read with
  | Some e, _ => (Err (ErrWrap "ensure store directory: " e ""), s)
  | _, Some e => (Err (ErrWrap "read store: " e ""), s)
  | None, None =>
      match fs_file s with
      | None => (Ok tt, mkFileStore ∅ None)
      | Some data =>
          match json_unmarshal data with
          | Err e => (Err (ErrWrap "decode store: " e ""), s)
          | Ok docs => (Ok tt, mkFileStore docs (Some data))
          end
      end
  end.

(** Source: internal/did/store.go, [FileStore.Save]. *)
Definition FileStore_Save (d : draw) (s : FileStore) (label : string) (doc : DIDDocument)
  : result error unit * FileStore :=
  let label := if bool_decide (label = "") then doc_DID doc else label in
  persist d (mkFileStore (<[label := doc]> (fs_docs s)) (fs_file s)).

(** Source: internal/did/store.go, [FileStore.Get]. *)
Definition FileStore_Get (s : FileStore) (label : string) : option DIDDocument := fs_docs s !! label.

(** Source: internal/did/store.go, [FileStore.List]. *)
Definition FileStore_List (s : FileStore) : gmap string DIDDocument := fs_docs s.

(** Source: internal/did/store.go, [FileStore.Rotate]. *)
Definition FileStore_Rotate (d : draw) (s : FileStore) (label : string)
  : result error DIDDocument * FileStore :=
  match fs_docs s !! label with
  | None => (Err (ErrText ("did not find entry for label " +:+ label)), s)
  | Some doc =>
      match RotateKeys d doc with
      | Err e => (Err e, s)
      | Ok rotated =>
          match persist d (mkFileStore (<[label := rotated]> (fs_docs s)) (fs_file s)) with
          | (Err e, s') => (Err e, s')
          | (Ok _, s') => (Ok rotated, s')
          end
      end
  end.
End filestore.

(** ** Key stores *)

(** What a handler asks of a key store.
    Source: internal/keystore/keystore.go, [KeyStore]. *)
Class KeyStore (S : Type) := GetSigningKey : S -> draw -> string -> result error Signer * S.

(** The key of a tenant is settled: every call gives it, whatever it draws, and changes
    nothing. *)
Definition holds {S} `{KeyStore S} (s : S) (tenant : string) (sg : Signer) : Prop :=
  forall d, GetSigningKey s d tenant = (Ok sg, s).

(** What it promises: no key without a tenant; a key that is handed out is the tenant's key
    from then on; and a call, for any tenant, leaves the settled keys as they are. *)
Class KeyStoreLaws (S : Type) `{KeyStore S} := {
  key_needs_tenant s d : exists e, GetSigningKey s d "" = (Err e, s);
  key_held s d t sg s' : GetSigningKey s d t = (Ok sg, s') -> holds s' t sg;
  key_frame s d t r s' t' sg : holds s t' sg -> GetSigningKey s d t = (r, s') -> holds s' t' sg;
}.

Definition tenant_required : error := ErrText "tenantID is required".

(** Source: internal/keystore/keystore.go, [MemoryKeyStore]. *)
Record MemoryKeyStore := mkMemory {
  mk_keys : gmap string Signer;
  mk_dids : gmap string DIDDocument;
}.

(** Source: internal/keystore/keystore.go, [NewMemoryKeyStore]. *)
Definition NewMemoryKeyStore : MemoryKeyStore := mkMemory ∅ ∅.

Section stores.
Context `{Json (gmap string gval), Pkcs8, Json (gmap string DIDDocument)}.

(** Source: internal/keystore/keystore.go, [MemoryKeyStore.GetSigningKey]. *)
Definition MemoryKeyStore_GetSigningKey (m : MemoryKeyStore) (d : draw) (tenantID : string)
  : result error Signer * MemoryKeyStore :=
  if bool_decide (tenantID = "") then (Err tenant_required, m)
  else
    match mk_keys m !! tenantID with
    | Some signer => (Ok signer, m)
    | None =>
        match NewDIDJWK d with
        | Err e => (Err (ErrWrap "generate did document: " e ""), m)
        | Ok doc =>
            match CurrentSigner doc with
            | Err e => (Err (ErrWrap "load signer from did: " e ""), m)
            | Ok signer =>
                (Ok signer, mkMemory (<[tenantID := signer]> (mk_keys m)) (<[tenantID := doc]> (mk_dids m)))
            end
        end
    end.

(** Source: internal/keystore/did_keystore.go, [FileBackedKeyStore.GetSigningKey]. *)
Definition FileBackedKeyStore_GetSigningKey (f : FileStore) (d : draw) (tenantID : string)
  : result error Signer * FileStore :=
  let load doc f :=
    match CurrentSigner doc with
    | Err e => (Err (ErrWrap "load signer: " e ""), f)
    | Ok signer => (Ok signer, f)
    end in
  if bool_decide (tenantID = "") then (Err tenant_required, f)
  else
    match FileStore_Get f tenantID with
    | Some doc => load doc f
    | None =>
        match NewDIDJWK d with
        | Err e => (Err (ErrWrap "generate did document: " e ""), f)
        | Ok doc =>
            match FileStore_Save d f tenantID doc with
            | (Err e, f') => (Err (ErrWrap "persist did document: " e ""), f')
            | (Ok _, f') => load doc f'
            end
        end
    end.

(** Source: internal/keystore/did_keystore.go, [NewFileBackedKeyStore]. *)
Definition NewFileBackedKeyStore (mkdir read : option error) (file : option string) : result error FileStore :=
  match FileStore_Load mkdir read (mkFileStore ∅ file) with
  | (Err e, _) => Err e
  | (Ok _, f) => Ok f
  end.

End stores.

(** ** The production key store *)

(** Source: internal/keystore/production.go, [ProductionKeyStore]. *)
Record ProductionKeyStore := mkProduction {
  pk_backend : string;
  pk_cache : gmap string Signer;
  pk_fallbackKS : MemoryKeyStore;
  pk_tenantPrefix : string;
}.

(** Source: internal/keystore/production.go:27-27, [BackendVault]. *)
Definition BackendVault : string := "vault".
(** Source: internal/keystore/production.go:28-28, [BackendGoogleKMS]. *)
Definition BackendGoogleKMS : string := "gcp-kms".
(** Source: internal/keystore/production.go:29-29, [BackendMemory]. *)
Definition BackendMemory : string := "memory".
(** Source: internal/keystore/production.go:30-30, [BackendAuto]. *)
Definition BackendAuto : string := "auto".

(** [env] is [os.Getenv]. *)
Section production.
Context `{Json (gmap string gval), Pkcs8}.
Variable env : string -> string.

Definition flag (name : string) : bool := bool_decide (env name = "true").
Definition unset (name : string) : bool := bool_decide (env name = "").

(** Source: internal/keystore/production.go, [detectBackend]. *)
Definition detectBackend : string :=
  if (flag "ENABLE_VAULT" || flag "VAULT_ENABLE") && negb (unset "VAULT_ADDR") && negb (unset "VAULT_TOKEN")
  then BackendVault
  else if flag "ENABLE_KMS" || flag "KMS_ENABLE" then BackendGoogleKMS
  else BackendMemory.

(** Source: internal/keystore/production.go, [ProductionKeyStore.validateVault]. *)
Definition validateVault : result error unit :=
  stop! (negb (flag "ENABLE_VAULT") && negb (flag "VAULT_ENABLE")) with ErrText "vault not enabled" in
  stop! unset "VAULT_ADDR" with ErrText "VAULT_ADDR not configured" in
  stop! unset "VAULT_TOKEN" with ErrText "VAULT_TOKEN not configured" in
  Ok tt.

(** Source: internal/keystore/production.go, [ProductionKeyStore.validateGCPKMS]. *)
Definition validateGCPKMS : result error unit :=
  stop! (negb (flag "ENABLE_KMS") && negb (flag "KMS_ENABLE")) with ErrText "gcp kms not enabled" in
  Ok tt.

(** Source: internal/keystore/production.go, [ProductionKeyStore.validateBackend]. *)
Definition validateBackend (backend : string) : result error unit :=
  if bool_decide (backend = BackendVault) then validateVault
  else if bool_decide (backend = BackendGoogleKMS) then validateGCPKMS
  else if bool_decide (backend = BackendMemory) then Ok tt
  else Err (ErrText ("unknown backend: " +:+ backend)).

(** Source: internal/keystore/production.go, [NewProductionKeyStore]. *)
Definition NewProductionKeyStore (backend tenantPrefix : string) : ProductionKeyStore :=
  let backend := if bool_decide (backend = BackendAuto) then detectBackend else backend in
  let tenantPrefix := if bool_decide (tenantPrefix = "") then "tenant-" else tenantPrefix in
  let backend :=
    match validateBackend backend with
    | Err _ => if negb (bool_decide (backend = BackendMemory)) then BackendMemory else backend
    | Ok _ => backend
    end in
  mkProduction backend ∅ NewMemoryKeyStore tenantPrefix.

(** Source: internal/keystore/production.go, [NewProductionKeyStoreFromEnv]. *)
Definition NewProductionKeyStoreFromEnv `{Unicode} : ProductionKeyStore :=
  let backendEnv := env "KEY_BACKEND" in
  NewProductionKeyStore (if bool_decide (backendEnv = "") then BackendAuto else to_lower backendEnv)
    (env "KEY_TENANT_PREFIX").

(** Source: internal/keystore/production.go, [ProductionKeyStore.getGCPKMSKey]. *)
Definition getGCPKMSKey (d : draw) (keyName : string) : result error Signer :=
  stop! unset "GCP_PROJECT" with ErrText "GCP_PROJECT is required for KMS backend" in
  let location := if unset "KMS_LOCATION" then "global" else env "KMS_LOCATION" in
  stop! unset "KMS_KEYRING" with ErrText "KMS_KEYRING is required for KMS backend" in
  stop! unset "KMS_KEY_ID" with ErrText "KMS_KEY_ID is required for KMS backend" in
  let cryptoKey := env "KMS_KEY_ID" +:+ "-" +:+ keyName in
  let version := if unset "KMS_KEY_VERSION" then "1" else env "KMS_KEY_VERSION" in
  let keyResource :=
    "projects/" +:+ env "GCP_PROJECT" +:+ "/locations/" +:+ location +:+ "/keyRings/" +:+ env "KMS_KEYRING"
    +:+ "/cryptoKeys/" +:+ cryptoKey +:+ "/cryptoKeyVersions/" +:+ version in
  map_err (fun e => ErrWrap "kms signer: " e "") (d_kms d keyResource).

(** Source: internal/keystore/production.go, [ProductionKeyStore.getVaultKey]. *)
Definition getVaultKey (d : draw) (keyName : string) : result error Signer :=
  map_err (fun e => ErrWrap "vault signer: " e "") (d_vault d keyName).

(** Source: internal/keystore/production.go, [ProductionKeyStore.getOrCreateKey]. *)
Definition getOrCreateKey (p : ProductionKeyStore) (d : draw) (keyName : string)
  : result error Signer * MemoryKeyStore :=
  let fallback := pk_fallbackKS p in
  if bool_decide (pk_backend p = BackendVault) then (getVaultKey d keyName, fallback)
  else if bool_decide (pk_backend p = BackendGoogleKMS) then (getGCPKMSKey d keyName, fallback)
  else if bool_decide (pk_backend p = BackendMemory) then MemoryKeyStore_GetSigningKey fallback d keyName
  else (Err (ErrText ("unsupported backend: " +:+ pk_backend p)), fallback).

(** Source: internal/keystore/production.go, [ProductionKeyStore.GetSigningKey]. *)
Definition ProductionKeyStore_GetSigningKey (p : ProductionKeyStore) (d : draw) (tenantID : string)
  : result error Signer * ProductionKeyStore :=
  if bool_decide (tenantID = "") then (Err tenant_required, p)
  else
    let cacheKey := pk_tenantPrefix p +:+ tenantID in
    match pk_cache p !! cacheKey with
    | Some signer => (Ok signer, p)
    | None =>
        match getOrCreateKey p d cacheKey with
        | (Err e, m) =>
            (Err (ErrWrap ("get signing key for tenant " +:+ tenantID +:+ ": ") e ""),
             mkProduction (pk_backend p) (pk_cache p) m (pk_tenantPrefix p))
        | (Ok signer, m) =>
            (Ok signer, mkProduction (pk_backend p) (<[cacheKey := signer]> (pk_cache p)) m (pk_tenantPrefix p))
        end
    end.

(** Source: internal/keystore/production.go, [ProductionKeyStore.GetBackend]. *)
Definition GetBackend (p : ProductionKeyStore) : string := pk_backend p.

(** Source: internal/keystore/production.go, [ProductionKeyStore.ClearCache]. *)
Definition ClearCache (p : ProductionKeyStore) : ProductionKeyStore :=
  mkProduction (pk_backend p) ∅ (pk_fallbackKS p) (pk_tenantPrefix p).
End production.
