(* ===== verification/KeysProps.v ===== *)
(** * Properties of the key documents and the key stores.

    Rotation keeps a bounded history and an active key; every key store hands out one key
    per tenant. *)

From S2P Require Import Prelude GoStrings Base64 GoTime Errors Values Crypto Credential Instances.
From S2P Require Import Did Keys.
From Stdlib Require Import ZArith Ascii String Lia.
From stdpp Require Import countable gmap list strings.

Local Open Scope string_scope.

(** ** The stores keep their promise *)

(** Case analysis on every test of a store operation. *)
Ltac key_cases :=
  repeat (first
    [ progress simplify_eq/=
    | case_bool_decide
    | match goal with
      | H : context [match ?x with _ => _ end] |- _ => destruct x eqn:?
      | |- context [match ?x with _ => _ end] => destruct x eqn:?
      end ]).

#[global] Instance memory_keystore `{Json (gmap string gval), Pkcs8} : KeyStore MemoryKeyStore :=
  MemoryKeyStore_GetSigningKey.
#[global] Instance file_keystore `{Json (gmap string gval), Pkcs8, Json (gmap string DIDDocument)}
  : KeyStore FileStore := FileBackedKeyStore_GetSigningKey.
Definition production_keystore `{Json (gmap string gval), Pkcs8} env : KeyStore ProductionKeyStore :=
  ProductionKeyStore_GetSigningKey env.

(** A draw with which nothing can be generated: a tenant that is served all the same has its key. *)
Definition no_draw : draw :=
  mkDraw (Err (ErrText "")) (Err (ErrText "")) "" 0 None (fun _ => Err (ErrText "")) (fun _ => Err (ErrText "")).

Section laws.
Context `{Json (gmap string gval), Pkcs8, Json (gmap string DIDDocument)}.

(** In each store a settled key is an entry of its table. *)
Lemma memory_holds m t sg : holds m t sg <-> t <> "" /\ mk_keys m !! t = Some sg.
Proof.
  unfold holds, GetSigningKey, memory_keystore, MemoryKeyStore_GetSigningKey. split.
  - intros Hh. specialize (Hh no_draw). key_cases; done.
  - intros [Ht Hk] d. by rewrite bool_decide_eq_false_2, Hk by done.
Qed.

#[global] Instance memory_keystore_laws : KeyStoreLaws MemoryKeyStore.
Proof.
  split.
  - intros s d. by eexists.
  - intros s d t sg s' Hg. apply memory_holds.
    unfold GetSigningKey, memory_keystore, MemoryKeyStore_GetSigningKey in Hg. key_cases; try done.
    by rewrite lookup_insert_eq.
  - intros s d t r s' t' sg [Ht Hk]%memory_holds Hg. apply memory_holds. split; [done|].
    unfold GetSigningKey, memory_keystore, MemoryKeyStore_GetSigningKey in Hg. key_cases; try done.
    by rewrite lookup_insert_ne by naive_solver.
Qed.

Lemma persist_docs d s r s' : persist d s = (r, s') -> fs_docs s' = fs_docs s.
Proof. unfold persist. intros Hp. key_cases; done. Qed.

Lemma save_docs d s label doc r s' :
  FileStore_Save d s label doc = (r, s') -> label <> "" -> fs_docs s' = <[label := doc]> (fs_docs s).
Proof.
  unfold FileStore_Save. intros Hs Hl. rewrite bool_decide_eq_false_2 in Hs by done.
  by apply persist_docs in Hs.
Qed.

Lemma file_holds f t sg :
  holds f t sg <-> t <> "" /\ exists doc, fs_docs f !! t = Some doc /\ CurrentSigner doc = Ok sg.
Proof.
  unfold holds, GetSigningKey, file_keystore, FileBackedKeyStore_GetSigningKey, FileStore_Get. split.
  - intros Hh. specialize (Hh no_draw). key_cases; try done; eauto.
  - intros (Ht & doc & Hk & Hs) d. by rewrite bool_decide_eq_false_2, Hk, Hs by done.
Qed.

#[global] Instance file_keystore_laws : KeyStoreLaws FileStore.
Proof.
  split.
  - intros s d. by eexists.
  - intros s d t sg s' Hg. apply file_holds.
    unfold GetSigningKey, file_keystore, FileBackedKeyStore_GetSigningKey, FileStore_Get in Hg.
    key_cases; eauto; try done. split; [done|].
    match goal with Hs : FileStore_Save _ _ _ _ = _ |- _ => apply save_docs in Hs as ->; [|done] end.
    rewrite lookup_insert_eq. eauto.
  - intros s d t r s' t' sg (Ht & doc & Hk & Hs)%file_holds Hg. apply file_holds. split; [done|]. exists doc.
    split; [|done]. unfold GetSigningKey, file_keystore, FileBackedKeyStore_GetSigningKey, FileStore_Get in Hg.
    key_cases; try done;
      match goal with Hs : FileStore_Save _ _ _ _ = _ |- _ => apply save_docs in Hs as ->; [|done] end;
      by rewrite lookup_insert_ne by naive_solver.
Qed.

Lemma prefix_inj (p t t' : string) : p +:+ t = p +:+ t' -> t = t'.
Proof. induction p as [|a p IH]; [done|]. intros [= ?]. auto. Qed.

(** Whatever backend is asked for, the store has one whose settings are there. *)
Lemma backend_available env backend prefix :
  validateBackend env (pk_backend (NewProductionKeyStore env backend prefix)) = Ok tt.
Proof.
  unfold NewProductionKeyStore. cbn. set (b := if bool_decide (backend = BackendAuto) then _ else _).
  destruct (validateBackend env b) as [[]|e] eqn:Hb; [done|].
  destruct (decide (b = BackendMemory)) as [->|Hn]; [discriminate Hb|].
  by rewrite bool_decide_eq_false_2 by done.
Qed.

(** The production store settles a key in its cache; with the in-memory backend, also in
    the store behind it. *)
Lemma production_cached env p t sg :
  t <> "" -> pk_cache p !! (pk_tenantPrefix p +:+ t) = Some sg -> @holds _ (production_keystore env) p t sg.
Proof.
  intros Ht Hk d. unfold GetSigningKey, production_keystore, ProductionKeyStore_GetSigningKey.
  by rewrite bool_decide_eq_false_2, Hk by done.
Qed.

Definition settled (p : ProductionKeyStore) (t : string) (sg : Signer) : Prop :=
  t <> "" /\ pk_cache p !! (pk_tenantPrefix p +:+ t) = Some sg.

Lemma production_holds env p t sg : @holds _ (production_keystore env) p t sg <-> settled p t sg.
Proof.
  split; [|intros [? ?]; by apply production_cached]. intros Hh. specialize (Hh no_draw).
  unfold GetSigningKey, production_keystore, ProductionKeyStore_GetSigningKey in Hh.
  case_bool_decide; [done|]. split; [done|].
  destruct (pk_cache p !! _) as [sg'|] eqn:Hc; [congruence|].
  destruct (getOrCreateKey env p no_draw _) as [[sg'|] m']; [|done]. injection Hh as -> Hp.
  rewrite <- Hp in Hc. cbn in Hc. by rewrite lookup_insert_eq in Hc.
Qed.

Lemma production_keystore_laws env : @KeyStoreLaws _ (production_keystore env).
Proof.
  split.
  - intros s d. by eexists.
  - intros s d t sg s' Hg. apply production_holds.
    unfold GetSigningKey, production_keystore, ProductionKeyStore_GetSigningKey in Hg.
    key_cases; try done. split; [done|]. cbn. by rewrite lookup_insert_eq.
  - intros s d t r s' t' sg [Ht Hk]%production_holds Hg. apply production_holds.
    unfold GetSigningKey, production_keystore, ProductionKeyStore_GetSigningKey in Hg.
    key_cases; try done; split; try done; cbn. rewrite lookup_insert_ne; [done|].
    intros Heq%prefix_inj. subst. congruence.
Qed.
End laws.

(** The store after further calls, whatever they answer. *)
Definition serve {S} (get : S -> draw -> string -> result error Signer * S) (s : S) (calls : list (draw * string)) : S :=
  foldl (fun s c => (get s c.1 c.2).2) s calls.

Lemma serve_holds {S} `{KeyStoreLaws S} s calls t sg : holds s t sg -> holds (serve GetSigningKey s calls) t sg.
Proof.
  revert s. induction calls as [|[d t'] calls IH]; intros s Hh; [done|]. cbn. apply IH.
  destruct (GetSigningKey s d t') as [r s'] eqn:Hg. by eapply key_frame.
Qed.

(** Every key store with the laws settles what it hands out. *)
Lemma served_again {S} `{KeyStoreLaws S} s d t sg s' calls d' :
  GetSigningKey s d t = (Ok sg, s') ->
  GetSigningKey (serve GetSigningKey s' calls) d' t = (Ok sg, serve GetSigningKey s' calls).
Proof. intros Hg. apply key_held in Hg. exact (serve_holds s' calls t sg Hg d'). Qed.

(** C25: A tenant has one signing key, in each of the three key stores.  Once the store has
    handed out a key for a tenant, it hands out that key for that tenant after any further
    calls, for whatever tenants, with whatever draws and whatever the disk and the signing
    services answer meanwhile, and without changing anything: the store in memory, the store
    in a file, and the production store with each of its backends. *)
Theorem keystore_one_key `{Json (gmap string gval), Pkcs8, Json (gmap string DIDDocument)} d t sg calls d' :
  (forall m m', MemoryKeyStore_GetSigningKey m d t = (Ok sg, m') ->
     let m'' := serve MemoryKeyStore_GetSigningKey m' calls in
     MemoryKeyStore_GetSigningKey m'' d' t = (Ok sg, m''))
  /\ (forall f f', FileBackedKeyStore_GetSigningKey f d t = (Ok sg, f') ->
        let f'' := serve FileBackedKeyStore_GetSigningKey f' calls in
        FileBackedKeyStore_GetSigningKey f'' d' t = (Ok sg, f''))
  /\ (forall env p p', ProductionKeyStore_GetSigningKey env p d t = (Ok sg, p') ->
        let p'' := serve (ProductionKeyStore_GetSigningKey env) p' calls in
        ProductionKeyStore_GetSigningKey env p'' d' t = (Ok sg, p'')).
Proof.
  split; [|split].
  - intros m m'. exact (served_again m d t sg m' calls d').
  - intros f f'. exact (served_again f d t sg f' calls d').
  - intros env p p'. exact (@served_again _ (production_keystore env) (production_keystore_laws env) p d t sg p' calls d').
Qed.

(** ** Rotation *)

Local Open Scope list_scope.

(** The last [n] items of a list. *)
Definition lastn {A} (n : nat) (l : list A) : list A := drop (length l - n) l.

Lemma lastn_all {A} n (l : list A) : (length l <= n)%nat -> lastn n l = l.
Proof. intros Hl. unfold lastn. by replace (length l - n)%nat with 0%nat by lia. Qed.

Lemma lastn_snoc {A} n (l : list A) x :
  lastn (S n) (lastn (S n) l ++ [x]) = lastn (S n) (l ++ [x]).
Proof.
  unfold lastn. rewrite !length_app, length_drop. cbn [length].
  destruct (Nat.le_gt_cases (length l) (S n)) as [Hl|Hl].
  - replace (length l - S n)%nat with 0%nat by lia. rewrite drop_0. f_equal. lia.
  - rewrite !drop_app_le by (rewrite ?length_drop; lia). rewrite drop_drop. f_equal. f_equal. lia.
Qed.

Section rotation.
Context `{Json (gmap string gval), Pkcs8}.

Definition rotate_all (doc : DIDDocument) (ds : list draw) : result error DIDDocument :=
  foldl (fun acc d => let! doc := acc in RotateKeys d doc) (Ok doc) ds.

Lemma generateKey_fields d alg k : generateKey d alg = Ok k -> ke_Algorithm k = alg /\ ke_ID k = d_uuid d.
Proof.
  unfold generateKey, GenerateDIDJWK, generateEd25519DID, generateES256DID, key_pair. intros Hg.
  bind_inv Hg as kp Hkp. bind_inv Hg as pub Hpub. injection Hg as <-. cbn. split; [|done].
  repeat case_bool_decide; subst; try done; bind_inv Hkp as x Hx; repeat destruct x as [x ?];
    bind_inv Hkp as j Hj; bind_inv Hkp as p Hp; injection Hkp as <-; done.
Qed.

(** The document that holds the history [keys], the newest key last. *)
Definition doc_of (keys : list KeyEntry) (cur : KeyEntry) : DIDDocument :=
  mkDoc (ke_DID cur) methodJWK (lastn maxKeyRecord keys) (ke_ID cur).

(** Its active key is the newest one. *)
Lemma doc_of_current keys cur :
  NoDup (ke_ID <$> keys ++ [cur]) -> CurrentKey (doc_of (keys ++ [cur]) cur) = Ok cur.
Proof.
  intros Hnd. unfold CurrentKey, doc_of, lastn. cbn [doc_Keys doc_CurrentKeyID].
  rewrite length_app. cbn [length]. rewrite drop_app_le by (unfold maxKeyRecord; lia).
  set (old := drop _ keys). rewrite list_find_app_r.
  - cbn. by rewrite decide_True.
  - apply list_find_None. apply Forall_forall. intros k Hk Hid.
    rewrite fmap_app in Hnd. apply NoDup_app in Hnd as (_ & Hdis & _). apply (Hdis (ke_ID k)).
    + apply list_elem_of_fmap_2. unfold old in Hk. rewrite list_elem_of_lookup in Hk.
      destruct Hk as [i Hi]. rewrite lookup_drop in Hi. by eapply list_elem_of_lookup_2.
    + cbn. rewrite Hid. by left.
Qed.

Lemma rotate_doc_of keys cur d next :
  NoDup (ke_ID <$> keys ++ [cur]) -> generateKey d (ke_Algorithm cur) = Ok next ->
  RotateKeys d (doc_of (keys ++ [cur]) cur) = Ok (doc_of ((keys ++ [cur]) ++ [next]) next).
Proof.
  intros Hnd Hg. unfold RotateKeys. rewrite doc_of_current by done. cbn [rbind]. rewrite Hg. cbn [rbind].
  unfold doc_of. cbn [doc_Keys doc_Method]. do 2 f_equal.
  change maxKeyRecord with (S 4). rewrite <- (lastn_snoc 4 (keys ++ [cur]) next). change (S 4) with maxKeyRecord.
  destruct (maxKeyRecord <? _)%nat eqn:E; [done|]. apply Nat.ltb_ge in E. symmetry. by apply lastn_all.
Qed.

Lemma rotate_all_doc_of keys cur alg ds news :
  ke_Algorithm cur = alg -> Forall2 (fun d k => generateKey d alg = Ok k) ds news ->
  NoDup (ke_ID <$> (keys ++ [cur]) ++ news) ->
  exists newest, last ((keys ++ [cur]) ++ news) = Some newest
    /\ rotate_all (doc_of (keys ++ [cur]) cur) ds = Ok (doc_of ((keys ++ [cur]) ++ news) newest)
    /\ CurrentKey (doc_of ((keys ++ [cur]) ++ news) newest) = Ok newest.
Proof.
  intros Halg Hds. revert keys cur Halg. induction Hds as [|d k ds news Hk _ IH]; intros keys cur Halg Hnd.
  - rewrite app_nil_r in *. exists cur. rewrite last_snoc. split; [done|]. split; [done|]. by apply doc_of_current.
  - assert (Hnd' : NoDup (ke_ID <$> keys ++ [cur])).
    { rewrite fmap_app in Hnd. by apply NoDup_app in Hnd as (? & _). }
    assert (Hassoc : (keys ++ [cur]) ++ k :: news = ((keys ++ [cur]) ++ [k]) ++ news)
      by by rewrite <- (app_assoc (keys ++ [cur]) [k] news).
    rewrite Hassoc in *. destruct (IH (keys ++ [cur]) k) as (newest & Hl & Hr & Hc); [|done|].
    + by apply (generateKey_fields d).
    + exists newest. split; [done|]. split; [|done]. unfold rotate_all in *. cbn [foldl rbind].
      rewrite (rotate_doc_of keys cur d k) by (rewrite ?Halg; done). exact Hr.
Qed.
End rotation.

Section signers.
Context `{Json (gmap string gval), Pkcs8Law}.

(** The key of an entry: its PEM reads back as a key whose DID is the entry's. *)
Lemma generated_signer d k :
  generateKey d "EdDSA" = Ok k ->
  exists priv, ke_PrivateKeyPEM k <> ""
    /\ (exists b, pem_decode (ke_PrivateKeyPEM k) = Some b /\ parse_pkcs8 b = Ok (Some priv))
    /\ DIDFromPublicKey (public_of priv) = Ok (ke_DID k).
Proof.
  unfold generateKey, GenerateDIDJWK, generateEd25519DID, key_pair. intros Hg.
  bind_inv Hg as kp Hkp. bind_inv Hg as pub Hpub. injection Hg as <-. cbn [ke_PrivateKeyPEM ke_DID].
  rewrite bool_decide_eq_true_2 in Hkp by done. bind_inv Hkp as ps Hps. destruct ps as [pub' seed].
  bind_inv Hkp as j Hj. bind_inv Hkp as p Hp. injection Hkp as <-. ok_simp Hj. ok_simp Hp. cbn [kp_PrivateKeyPEM kp_DID].
  exists (PrivEd25519 pub' seed). destruct (pkcs8_law _ _ Hp) as [Hne Hb]. split; [done|]. split; [done|].
  unfold DIDFromPublicKey, public_of, jwk_of_ed25519. by rewrite Hj.
Qed.

(** Rotation.  A document created with an algorithm and rotated any number of times,
    every key being generated and no identifier repeated, holds exactly the last five keys
    in the order they were made; its active key is the newest and its DID is that key's.
    With EdDSA it can sign, and its DID is the did:jwk of the signer's public key. *)
Theorem rotation_history d alg k ds news :
  generateKey d alg = Ok k -> Forall2 (fun d k => generateKey d alg = Ok k) ds news ->
  NoDup (d_uuid <$> d :: ds) ->
  exists doc0 doc newest,
    NewDIDJWKWithAlg d alg = Ok doc0 /\ rotate_all doc0 ds = Ok doc
    /\ doc_Keys doc = lastn 5 (k :: news) /\ last (k :: news) = Some newest
    /\ CurrentKey doc = Ok newest /\ doc_DID doc = ke_DID newest
    /\ (alg = "EdDSA" -> exists sg, CurrentSigner doc = Ok sg
          /\ DIDFromPublicKey (signer_Public sg) = Ok (doc_DID doc)).
Proof.
  intros Hk Hds Hnd. assert (Hall : Forall2 (fun d k => generateKey d alg = Ok k) (d :: ds) (k :: news))
    by by constructor.
  assert (Hids : ke_ID <$> k :: news = d_uuid <$> d :: ds).
  { clear -Hall. induction Hall as [|d' k' ? ? Hg _ IH]; [done|]. cbn. f_equal; [|done].
    by apply (generateKey_fields d'  alg). }
  destruct (rotate_all_doc_of [] k alg ds news) as (newest & Hl & Hr & Hc); [|done|by cbn in *; rewrite Hids|].
  { by apply (generateKey_fields d). }
  exists (doc_of [k] k), (doc_of (k :: news) newest), newest. cbn in Hl, Hr, Hc.
  split; [unfold NewDIDJWKWithAlg; by rewrite Hk|]. do 5 (split; [done|]). intros ->.
  assert (Hn : exists d', generateKey d' "EdDSA" = Ok newest).
  { rewrite last_lookup in Hl. destruct (Forall2_lookup_r _ _ _ _ _ Hall Hl) as (d' & _ & ?). eauto. }
  destruct Hn as [d' Hn]. apply generated_signer in Hn as (priv & Hne & (b & Hb & Hp) & Hdid).
  exists (private_signer priv). split; [|done]. unfold CurrentSigner. rewrite Hc. cbn [rbind].
  rewrite bool_decide_eq_false_2, Hb by done. cbn [of_option rbind]. by rewrite Hp.
Qed.
End signers.

(** ** Concrete keys *)

#[global] Instance private_key_countable : Countable private_key.
Proof.
  refine (inj_countable'
    (fun k => match k with PrivEd25519 p s => inl (p, s) | PrivP256 x y d => inr (x, y, d) end)
    (fun c => match c with inl (p, s) => PrivEd25519 p s | inr (x, y, d) => PrivP256 x y d end) _).
  by intros [].
Defined.

(** A key is written as a code of its contents, and signs like [plain_signer]. *)
#[export] Instance plain_pkcs8 : Pkcs8 := {|
  private_sign k m := match k with PrivEd25519 p _ => Ok (p +:+ m) | PrivP256 x _ _ => Ok (x +:+ m) end;
  pem_encode k := Ok ("-" +:+ pos_to_string (encode k));
  pem_decode t := if has_prefix t "-" then Some (drop_bytes 1 t) else None;
  parse_pkcs8 b := of_option (ErrText "x509: malformed") (Some <$> (decode (pos_of_string b) : option private_key));
|}.

#[export] Instance plain_pkcs8_law : Pkcs8Law.
Proof.
  intros k t Ht. change (@Ok error string ("-" +:+ pos_to_string (encode k)) = Ok t) in Ht.
  assert (t = "-" +:+ pos_to_string (encode k)) as -> by congruence.
  split; [done|]. exists (pos_to_string (encode k)). cbn [pem_decode plain_pkcs8 parse_pkcs8].
  rewrite has_prefix_app. change 1%nat with (String.length "-").
  by rewrite drop_bytes_app, pos_of_to_string, decode_encode.
Qed.

Definition draw_key (key uuid : string) : draw :=
  mkDraw (Ok (key, "seed")) (Ok ("x", "y", "d")) uuid t0 None (fun _ => Err (ErrText "sealed"))
    (fun _ => Err (ErrText "denied")).

Definition bob_key : string := "bob-bob-bob-bob-bob-bob-bob-bob-".

(** The production store with its in-memory backend, after its first key. *)
Definition first_key_store : ProductionKeyStore :=
  (ProductionKeyStore_GetSigningKey (fun _ => "") (NewProductionKeyStore (fun _ => "") BackendAuto "")
     (draw_key alice_key "1") "acme").2.

(** No file is written here. *)
#[local] Instance no_documents : Json (gmap string DIDDocument) :=
  {| json_marshal _ := Err (ErrText "not used"); json_unmarshal _ := Err (ErrText "not used") |}.

Definition more_calls : list (draw * string) := [(draw_key bob_key "2", "other"); (draw_key bob_key "3", "acme")].

Lemma keystore_one_key_witness :
  exists sg, signer_Public sg = PubEd25519 alice_key
    /\ (MemoryKeyStore_GetSigningKey
          (serve MemoryKeyStore_GetSigningKey
             (MemoryKeyStore_GetSigningKey NewMemoryKeyStore (draw_key alice_key "1") "acme").2 more_calls)
          (draw_key bob_key "4") "acme").1 = Ok sg
    /\ (ProductionKeyStore_GetSigningKey (fun _ => "")
          (serve (ProductionKeyStore_GetSigningKey (fun _ => "")) first_key_store more_calls)
          (draw_key bob_key "4") "acme").1 = Ok sg.
Proof.
  exists (private_signer (PrivEd25519 alice_key "seed")). split; [reflexivity|].
  destruct (keystore_one_key (draw_key alice_key "1") "acme" (private_signer (PrivEd25519 alice_key "seed")) more_calls
    (draw_key bob_key "4")) as (Hm & _ & Hp).
  split.
  - refine (f_equal fst (Hm NewMemoryKeyStore _ _)). vm_compute. reflexivity.
  - refine (f_equal fst (Hp (fun _ => "") (NewProductionKeyStore (fun _ => "") BackendAuto "") _ _)). vm_compute. reflexivity.
Defined.

Definition entry_of (d : draw) : KeyEntry :=
  match generateKey d "EdDSA" with Ok k => k | Err _ => mkKeyEntry "" "" "" None "" 0 end.

Definition six_draws : list draw := draw_key bob_key <$> ["2"; "3"; "4"; "5"; "6"; "7"].

Lemma rotation_history_witness :
  exists doc0 doc newest,
    NewDIDJWKWithAlg (draw_key alice_key "1") "EdDSA" = Ok doc0 /\ rotate_all doc0 six_draws = Ok doc
    /\ ke_ID <$> doc_Keys doc = ["3"; "4"; "5"; "6"; "7"] /\ CurrentKey doc = Ok newest /\ ke_ID newest = "7".
Proof.
  destruct (rotation_history (draw_key alice_key "1") "EdDSA" (entry_of (draw_key alice_key "1")) six_draws
    (entry_of <$> six_draws)) as (doc0 & doc & newest & H0 & Hr & Hk & Hl & Hc & _ & _).
  - vm_compute. reflexivity.
  - repeat constructor; vm_compute; reflexivity.
  - apply (bool_decide_unpack _). vm_compute. exact I.
  - exists doc0, doc, newest. split; [exact H0|]. split; [exact Hr|]. split; [|split; [exact Hc|]].
    + rewrite Hk. vm_compute. reflexivity.
    + assert (newest = entry_of (draw_key bob_key "7")) as ->.
      { apply (inj Some). rewrite <- Hl. reflexivity. }
      vm_compute. reflexivity.
Defined.
