(* ===== verification/Jwk.v ===== *)
(** * JWKs and key sets.

    Models internal/crypto/jwk.go, local_signer.go, rotation.go and utils.go: JWK thumbprints,
    the parsing of public JWKs, signers loaded from files, and the set of the current and the
    previous keys with the JWKS document it publishes.  The parsers of private keys are the
    class [KeyParsers], a directory is what reading it returns. *)

From S2P Require Import Prelude GoStrings Base64 GoTime Errors Values Crypto Credential Instances.
From S2P Require Import Did Keys.
From Stdlib Require Import ZArith Ascii String Lia.
From stdpp Require Import countable gmap list strings pretty.

Local Open Scope string_scope.

(** ** Numbers and points *)

(** [new(big.Int).SetBytes(b)] *)
Fixpoint big_of_bytes (acc : Z) (b : string) : Z :=
  match b with
  | "" => acc
  | String a b' => big_of_bytes (256 * acc + Z.of_nat (nat_of_ascii a)) b'
  end.

(** [x.Bytes()] of [SetBytes(b)]: the leading zero bytes are lost. *)
Fixpoint minimal_bytes (b : string) : string :=
  match b with
  | String a b' => if (nat_of_ascii a =? 0)%nat then minimal_bytes b' else b
  | "" => ""
  end.

Definition p256_p : Z := 115792089210356248762697446949407573530086143415290314195533631308867097853951.
Definition p256_b : Z := 41058363725152142129326129780047268409114441015993725554835256314039467401291.

(** [elliptic.P256().IsOnCurve] *)
Definition on_p256 (x y : Z) : bool :=
  ((0 <=? x) && (x <? p256_p) && (0 <=? y) && (y <? p256_p)
   && negb ((x =? 0) && (y =? 0))
   && ((y * y - (x * x * x - 3 * x + p256_b)) mod p256_p =? 0))%Z.

Lemma big_minimal b : big_of_bytes 0 (minimal_bytes b) = big_of_bytes 0 b.
Proof.
  induction b as [|a b IH]; [done|]. cbn [minimal_bytes].
  destruct (nat_of_ascii a =? 0)%nat eqn:E; [|done]. apply Nat.eqb_eq in E. rewrite IH. cbn [big_of_bytes].
  by rewrite E.
Qed.

Lemma minimal_idem b : minimal_bytes (minimal_bytes b) = minimal_bytes b.
Proof.
  induction b as [|a b IH]; [done|]. cbn [minimal_bytes].
  destruct (nat_of_ascii a =? 0)%nat eqn:E; [done|]. cbn [minimal_bytes]. by rewrite E.
Qed.

(** ** Signers *)

(** A private key as one of the parsers of crypto/x509 gives it. *)
Inductive key_material :=
| KeyEd25519 (pub seed : string)
| KeyECDSA (curve x y d : string)
| KeyRSA (bits : Z)
| KeyOther (type : string).

(** [key.Public()] *)
Definition material_public (k : key_material) : public_key :=
  match k with
  | KeyEd25519 pub _ => PubEd25519 pub
  | KeyECDSA curve x y _ => PubECDSA curve x y
  | KeyRSA bits => PubRSA bits
  | KeyOther _ => PubNil
  end.

(** The interface, with the two methods a signer may have besides.
    Source: internal/crypto/signer.go, [Signer]. *)
Record JwkSigner := mkJwkSigner {
  js_Public : public_key;
  js_Sign : string -> option bool -> result error string;  (** the payload; whether the options say SHA-256 *)
  js_PublicJWK : result error string;
  js_Algorithm : string;
  js_KeyID : option string;
  js_ValidityWindow : option (string * string);
}.

(** Source: internal/crypto/jwk.go, [KeyMetadata]. *)
Record KeyMetadata := mkKeyMetadata {
  km_Key : JwkSigner;
  km_PublicKey : public_key;
  km_KID : string;
  km_Alg : string;
  km_JWK : string;
  km_NotBefore : string;
  km_NotAfter : string;
}.

(** Source: internal/crypto/local_signer.go, [LocalSigner]. *)
Record LocalSigner := mkLocalSigner {
  ls_key : key_material;
  ls_alg : string;
  ls_jwk : string;
  ls_kid : string;
  ls_notBefore : string;
  ls_notAfter : string;
}.

(** [m[k].(string)] *)
Definition string_member (m : gmap string gval) (k : string) : option string :=
  match m !! k with Some (VStr s) => Some s | _ => None end.

Section jwk.
Context `{Json (gmap string gval), Sha256}.

(** A required member of a JWK of type [kty]. *)
Definition required_member (m : gmap string gval) (k kty : string) : result error string :=
  of_option (ErrText ("missing or invalid " +:+ k +:+ " for " +:+ kty +:+ " key")) (string_member m k).

(** The members RFC 7638 hashes.
    Source: internal/crypto/jwk.go:65-118, [computeJWKThumbprint]. *)
Definition canonical_members (payload : gmap string gval) (kty : string)
  : result error (gmap string gval) :=
  let get k := required_member payload k kty in
  if bool_decide (kty = "OKP") then
    let! crv := get "crv" in let! x := get "x" in
    Ok {["crv" := VStr crv; "kty" := VStr kty; "x" := VStr x]}
  else if bool_decide (kty = "EC") then
    let! crv := get "crv" in let! x := get "x" in let! y := get "y" in
    Ok {["crv" := VStr crv; "kty" := VStr kty; "x" := VStr x; "y" := VStr y]}
  else if bool_decide (kty = "RSA") then
    let! e := get "e" in let! n := get "n" in
    Ok {["e" := VStr e; "kty" := VStr kty; "n" := VStr n]}
  else Err (ErrText ("unsupported kty: " +:+ kty)).

(** Source: internal/crypto/jwk.go, [computeJWKThumbprint]. *)
Definition computeJWKThumbprint (jwk : string) : result error string :=
  let! payload := map_err (fun e => ErrWrap "unmarshal jwk: " e "") (json_unmarshal jwk : result error (gmap string gval)) in
  let! kty := of_option (ErrText "missing or invalid kty") (string_member payload "kty") in
  let! canonical := canonical_members payload kty in
  let! canonicalJSON := map_err (fun e => ErrWrap "marshal canonical jwk: " e "") (json_marshal canonical) in
  Ok (b64_encode (sha256 canonicalJSON)).

(** Source: internal/crypto/jwk.go, [KeyID]. *)
Definition KeyID (s : JwkSigner) : result error string :=
  let kid := default "" (js_KeyID s) in
  if negb (bool_decide (kid = "")) then Ok kid
  else
    let! jwk := js_PublicJWK s in
    map_err (fun e => ErrWrap "compute jwk thumbprint: " e "") (computeJWKThumbprint jwk).

(** What [json.Unmarshal] stores in a [map[string]string]: a member that is not a string
    is an error, [null] leaves the empty string. *)
Definition string_map_of (m : gmap string gval) : option (string -> string) :=
  if bool_decide (map_Forall (fun _ v => v = VNull \/ is_Some (as_string v)) m)
  then Some (fun k => default "" (string_member m k)) else None.

Definition decode_member (name value : string) : result error string :=
  of_option (ErrText ("decode " +:+ name +:+ ": illegal base64 data")) (b64_decode value).

(** Source: internal/crypto/jwk.go, [ParsePublicJWK]. *)
Definition ParsePublicJWK (jwk : string) : result error (public_key * string) :=
  let! m := map_err (fun e => ErrWrap "unmarshal jwk: " e "") (json_unmarshal jwk : result error (gmap string gval)) in
  let! payload := of_option (ErrText "unmarshal jwk: not a string") (string_map_of m) in
  let kty := payload "kty" in
  if bool_decide (kty = "OKP") then
    stop! negb (bool_decide (payload "crv" = "Ed25519")) with ErrText ("unsupported curve " +:+ payload "crv") in
    let! x := decode_member "x" (payload "x") in
    Ok (PubEd25519 x, "EdDSA")
  else if bool_decide (kty = "EC") then
    stop! negb (bool_decide (payload "crv" = "P-256")) with ErrText ("unsupported curve " +:+ payload "crv") in
    let! xBytes := decode_member "x" (payload "x") in
    let! yBytes := decode_member "y" (payload "y") in
    stop! negb (on_p256 (big_of_bytes 0 xBytes) (big_of_bytes 0 yBytes)) with ErrText "point not on curve" in
    Ok (PubECDSA "P-256" (minimal_bytes xBytes) (minimal_bytes yBytes), "ES256")
  else if bool_decide (kty = "RSA") then Err (ErrText "RSA keys are not supported")
  else Err (ErrText ("unsupported kty " +:+ kty)).

(** Source: internal/crypto/jwk.go, [BuildKeyMetadata]. *)
Definition BuildKeyMetadata (s : JwkSigner) : result error KeyMetadata :=
  let! jwk := js_PublicJWK s in
  let! kid := KeyID s in
  let! pa := ParsePublicJWK jwk in
  let '(pub, alg) := pa in
  let '(nb, na) := default ("", "") (js_ValidityWindow s) in
  Ok (mkKeyMetadata s pub kid alg jwk nb na).

(** Source: internal/crypto/jwk.go, [algorithmForPublicKey]. *)
Definition algorithmForPublicKey (pub : public_key) : result error string :=
  match pub with
  | PubEd25519 _ => Ok "EdDSA"
  | PubECDSA curve _ _ =>
      stop! negb (bool_decide (curve = "P-256")) with ErrText ("unsupported curve " +:+ curve) in Ok "ES256"
  | PubRSA bits => stop! (bits <? 2048)%Z with ErrText "rsa key too small" in Ok "RS256"
  | PubNil => Err (ErrText "unsupported key type <nil>")
  end.

(** ** Local signers *)

(** The JWK of an Ed25519 key.
    Source: internal/crypto/utils.go, [buildEd25519JWK]. *)
Definition ed25519_jwk (pub : string) : gmap string gval :=
  {["kty" := VStr "OKP"; "crv" := VStr "Ed25519"; "x" := VStr (b64_encode pub)]}.

(** The coordinates are written without their leading zero bytes.
    Source: internal/crypto/local_signer.go:151-156, [finalizeKey]. *)
Definition p256_jwk (x y : string) : gmap string gval :=
  {["kty" := VStr "EC"; "crv" := VStr "P-256"; "x" := VStr (b64_encode x); "y" := VStr (b64_encode y)]}.

(** The error of [json.Marshal] is ignored. *)
Definition marshal_or_empty (m : gmap string gval) : string := default "" (to_option (json_marshal m)).

(** Source: internal/crypto/local_signer.go, [finalizeKey]. *)
Definition finalizeKey (k : key_material) : result error (key_material * string * string) :=
  match k with
  | KeyEd25519 pub _ => Ok (k, marshal_or_empty (ed25519_jwk pub), "EdDSA")
  | KeyECDSA curve x y _ =>
      stop! negb (bool_decide (curve = "P-256")) with ErrText ("unsupported curve " +:+ curve) in
      Ok (k, marshal_or_empty (p256_jwk x y), "ES256")
  | KeyRSA bits =>
      stop! (bits <? 2048)%Z with ErrText "rsa key too small" in
      Err (ErrText "rsa keys are not permitted for signing")
  | KeyOther type => Err (ErrText ("unsupported key type " +:+ type))
  end.
End jwk.

(** ** Files *)

(** A parser of private keys: what a text in PEM decodes to, and the three formats.  The
    parsed value need not be a signer. *)
Class KeyParsers := {
  pem_block : string -> option string;
  parse_PKCS8 : string -> result error key_material;
  parse_EC : string -> result error key_material;
  parse_PKCS1 : string -> result error key_material;
  raw_sign : key_material -> string -> result error string;
}.

(** [_, ok := key.(crypto.Signer)] *)
Definition is_signer (k : key_material) : bool := match k with KeyOther _ => false | _ => true end.

Record io_error := mkIoError { io_Error : error; io_NotExist : bool }.

Record dir_entry := mkEntry { de_Name : string; de_IsDir : bool }.

(** The file system at the time of a call. *)
Class Files := {
  path_join : string -> string -> string;
  read_dir : string -> result io_error (list dir_entry);
  stat_perm : string -> result io_error Z;
  read_file : string -> result io_error string;
  stat_mtime : string -> result io_error time;
}.

Definition failed (msg : string) : io_error := mkIoError (ErrText msg) false.
Definition plain_io (e : error) : io_error := mkIoError e false.
Definition wrap_io (pre : string) (e : io_error) : io_error := mkIoError (ErrWrap pre (io_Error e) "") (io_NotExist e).

Section signers.
Context `{Json (gmap string gval), Sha256, KeyParsers, Unicode}.

(** Source: internal/crypto/local_signer.go, [parsePEMBlock]. *)
Definition parsePEMBlock (bytes : string) : result error (key_material * string * string) :=
  let! key :=
    match parse_PKCS8 bytes with
    | Ok k => Ok k
    | Err _ =>
        match parse_EC bytes with
        | Ok k => Ok k
        | Err _ => map_err (fun e => ErrWrap "parse pem: " e "") (parse_PKCS1 bytes)
        end
    end in
  stop! negb (is_signer key) with ErrText "key is not a signer" in
  finalizeKey key.

(** [ed25519.PrivateKey(b)]: the seed, then the public key. *)
Definition ed25519_private (b : string) : key_material := KeyEd25519 (drop_bytes 32 b) (take_bytes 32 b).

(** Source: internal/crypto/local_signer.go, [parseKeyMaterial]. *)
Definition parseKeyMaterial (data : string) : result error (key_material * string * string) :=
  let unsupported := Err (ErrText "unsupported key material") in
  match pem_block data with
  | Some bytes => parsePEMBlock bytes
  | None =>
      match b64std_decode (trim_space data) with
      | None => unsupported
      | Some decoded =>
          if (String.length decoded =? 64)%nat then finalizeKey (ed25519_private decoded)
          else match parse_PKCS8 decoded with
               | Ok key => if is_signer key then finalizeKey key else unsupported
               | Err _ => unsupported
               end
      end
  end.

(** Source: internal/crypto/local_signer.go, [LocalSigner.Sign]. *)
Definition LocalSigner_Sign (l : LocalSigner) (payload : string) (opts : option bool) : result error string :=
  match ls_key l with
  | KeyEd25519 _ _ => raw_sign (ls_key l) payload
  | KeyECDSA _ _ _ _ =>
      if bool_decide (opts = Some true) && (String.length payload =? 32)%nat then raw_sign (ls_key l) payload
      else raw_sign (ls_key l) (sha256 payload)
  | KeyRSA _ => Err (ErrText "unsupported key type *rsa.PrivateKey")
  | KeyOther type => Err (ErrText ("unsupported key type " +:+ type))
  end.

(** A local signer as a signer.
    Source: internal/crypto/local_signer.go:186-203, [LocalSigner]. *)
Definition local_signer (l : LocalSigner) : JwkSigner :=
  mkJwkSigner (material_public (ls_key l)) (LocalSigner_Sign l) (Ok (ls_jwk l)) (ls_alg l)
    (Some (ls_kid l)) (Some (ls_notBefore l, ls_notAfter l)).

(** A signer of which only the JWK is known.
    Source: internal/crypto/local_signer.go:47-47, [NewLocalSignerFromFile]. *)
Definition bare_signer (jwk : string) : JwkSigner :=
  mkJwkSigner PubNil (fun _ _ => Err (ErrText "unsupported key type <nil>")) (Ok jwk) "" (Some "") (Some ("", "")).

Context `{Rfc3339}.

(** Source: internal/crypto/local_signer.go, [NewEphemeralEd25519Signer]. *)
Definition NewEphemeralEd25519Signer (generated : result error (string * string)) : result error LocalSigner :=
  let! ps := map_err (fun e => ErrWrap "generate ed25519 key: " e "") generated in
  let jwkBytes := marshal_or_empty (ed25519_jwk ps.1) in
  let! kid := KeyID (bare_signer jwkBytes) in
  Ok (mkLocalSigner (KeyEd25519 ps.1 ps.2) "EdDSA" jwkBytes kid "" "").

Context `{Files}.

(** Source: internal/crypto/local_signer.go, [ensure0600]. *)
Definition ensure0600 (path : string) : result io_error unit :=
  let! perm := stat_perm path in
  stop! negb (Z.land perm 63 =? 0)%Z with failed ("insecure permissions on " +:+ path +:+ "; require 0600") in
  Ok tt.

(** Source: internal/crypto/local_signer.go, [NewLocalSignerFromFile]. *)
Definition NewLocalSignerFromFile (path : string) : result io_error LocalSigner :=
  let! _ := ensure0600 path in
  let! data := map_err (wrap_io "read key file: ") (read_file path) in
  let! parsed := map_err (fun e => plain_io (ErrWrap "parse key material: " e "")) (parseKeyMaterial data) in
  let '(signer, jwk, alg) := parsed in
  let! kid := map_err plain_io (KeyID (bare_signer jwk)) in
  let! mtime := map_err (wrap_io "stat key file: ") (stat_mtime path) in
  Ok (mkLocalSigner signer alg jwk kid (format_rfc3339 mtime) "").

(** The loop over the entries of a directory.
    Source: internal/crypto/rotation.go:82-91, [loadSignersFromDir]. *)
Fixpoint load_entries (dir : string) (entries : list dir_entry) : result io_error (list LocalSigner) :=
  match entries with
  | [] => Ok []
  | entry :: entries' =>
      if de_IsDir entry then load_entries dir entries'
      else
        let! signer := NewLocalSignerFromFile (path_join dir (de_Name entry)) in
        let! signers := load_entries dir entries' in
        Ok (signer :: signers)
  end.

Definition entry_less (a b : dir_entry) : bool := str_ltb (de_Name a) (de_Name b).

(** Source: internal/crypto/rotation.go, [loadSignersFromDir]. *)
Definition loadSignersFromDir (dir : string) : result io_error (list LocalSigner) :=
  let! entries := read_dir dir in
  load_entries dir (sort_by entry_less entries).

(** ** Key sets *)

(** Source: internal/crypto/rotation.go, [KeySet]. *)
Record KeySet := mkKeySet {
  ks_Current : JwkSigner;
  ks_Previous : list JwkSigner;
  ks_metadata : list KeyMetadata;
  ks_byKID : gmap string KeyMetadata;
}.

(** The loop that describes the signers.
    Source: internal/crypto/rotation.go:61-68, [LoadKeySet]. *)
Fixpoint index_signers (signers : list JwkSigner) (metadata : list KeyMetadata)
    (byKID : gmap string KeyMetadata) : result error (list KeyMetadata * gmap string KeyMetadata) :=
  match signers with
  | [] => Ok (metadata, byKID)
  | signer :: signers' =>
      let! meta := BuildKeyMetadata signer in
      index_signers signers' (app metadata [meta]) (<[km_KID meta := meta]> byKID)
  end.

(** [kms] is the signer of the key service, when the environment asks for one.
    Source: internal/crypto/rotation.go, [LoadKeySet]. *)
Definition LoadKeySet (env : string -> string) (kms : result error JwkSigner) (dir : string)
  : result error KeySet :=
  if bool_decide (env "ENABLE_KMS" = "true") || bool_decide (env "KMS_ENABLE" = "true") then
    let! signer := kms in
    let! meta := BuildKeyMetadata signer in
    Ok (mkKeySet signer [] [meta] {[km_KID meta := meta]})
  else
    let dir := if bool_decide (dir = "") then "./keys" else dir in
    let currentDir := path_join dir "current" in
    let! currentSigners := map_err io_Error (loadSignersFromDir currentDir) in
    let! current := of_option (ErrText ("no current keys found in " +:+ currentDir)) (head currentSigners) in
    let! previousSigners :=
      match loadSignersFromDir (path_join dir "previous") with
      | Ok l => Ok l
      | Err e => if io_NotExist e then Ok [] else Err (io_Error e)
      end in
    let previous := local_signer <$> previousSigners in
    let! idx := index_signers (local_signer current :: previous) [] ∅ in
    Ok (mkKeySet (local_signer current) previous idx.1 idx.2).

(** Source: internal/crypto/rotation.go, [KeySet.Resolve]. *)
Definition KeySet_Resolve (k : option KeySet) (kid : string) : option KeyMetadata :=
  ks ← k; ks_byKID ks !! kid.

(** Source: internal/crypto/rotation.go, [KeySet.Metadata]. *)
Definition KeySet_Metadata (k : option KeySet) : list KeyMetadata := from_option ks_metadata [] k.

(** An entry of the published document.
    Source: internal/crypto/rotation.go:125-133, [KeySet.JWKS]. *)
Definition published (meta : KeyMetadata) (m : gmap string gval) : gmap string gval :=
  let m := <["use" := VStr "sig"]> (<["alg" := VStr (km_Alg meta)]> (<["kid" := VStr (km_KID meta)]> m)) in
  let m := if bool_decide (km_NotBefore meta = "") then m else <["not_before" := VStr (km_NotBefore meta)]> m in
  if bool_decide (km_NotAfter meta = "") then m else <["not_after" := VStr (km_NotAfter meta)]> m.

(** Source: internal/crypto/rotation.go, [KeySet.JWKS]. *)
Definition JWKS (k : option KeySet) : result error string :=
  let! ks := of_option (ErrText "nil keyset") k in
  let! keys := traverse (fun meta => let! m := json_unmarshal (km_JWK meta) in Ok (VObj (published meta m)))
                 (ks_metadata ks) in
  json_marshal ({["keys" := VArr keys]} : gmap string gval).
End signers.
