(* ===== verification/JwkProps.v ===== *)
(** * Properties of JWKs and key sets. *)

From S2P Require Import Prelude GoStrings Base64 GoTime Errors Values Crypto Credential Instances.
From S2P Require Import Did Keys KeysProps Jwk.
From Stdlib Require Import ZArith Ascii String Lia.
From stdpp Require Import countable gmap list strings.

Local Open Scope string_scope.

Section facts.
Context `{Json (gmap string gval), Sha256}.

(** ** What a JWK says *)

(** The members of a JWK that name the key and its algorithm. *)
Record meta_ok (s : JwkSigner) (m : KeyMetadata) : Prop := {
  meta_key : km_Key m = s;
  meta_jwk : js_PublicJWK s = Ok (km_JWK m);
  meta_kid : KeyID s = Ok (km_KID m);
  meta_parsed : ParsePublicJWK (km_JWK m) = Ok (km_PublicKey m, km_Alg m);
  meta_alg : km_Alg m = "EdDSA" \/ km_Alg m = "ES256";
}.

Lemma ParsePublicJWK_alg jwk pub alg :
  ParsePublicJWK jwk = Ok (pub, alg) -> alg = "EdDSA" \/ alg = "ES256".
Proof.
  unfold ParsePublicJWK. intros Hp. bind_inv Hp as m Hm. bind_inv Hp as payload Hpl.
  case_bool_decide; [|case_bool_decide; [|by case_bool_decide]].
  - stop_inv Hp as _. bind_inv Hp as x Hx. injection Hp as <- <-. by left.
  - stop_inv Hp as _. bind_inv Hp as x Hx. bind_inv Hp as y Hy. stop_inv Hp as _. injection Hp as <- <-. by right.
Qed.

Lemma BuildKeyMetadata_ok s m : BuildKeyMetadata s = Ok m -> meta_ok s m.
Proof.
  unfold BuildKeyMetadata. intros Hb. bind_inv Hb as jwk Hj. bind_inv Hb as kid Hk. bind_inv Hb as [pub alg] Hp.
  destruct (default _ _) as [nb na]. injection Hb as <-. split; try done. by apply ParsePublicJWK_alg in Hp.
Qed.

(** The index of a list of descriptions: the last one of an identifier. *)
Definition indexes (byKID : gmap string KeyMetadata) (metadata : list KeyMetadata) : Prop :=
  (forall kid m, byKID !! kid = Some m -> m ∈ metadata /\ km_KID m = kid)
  /\ forall m, m ∈ metadata -> is_Some (byKID !! km_KID m).

Lemma index_signers_ok signers metadata byKID done_signers out :
  index_signers signers metadata byKID = Ok out ->
  Forall2 meta_ok done_signers metadata -> indexes byKID metadata ->
  Forall2 meta_ok (app done_signers signers) out.1 /\ indexes out.2 out.1.
Proof.
  revert metadata byKID done_signers. induction signers as [|s signers IH]; intros metadata byKID ds Hi Hm Hx; cbn in Hi.
  - injection Hi as <-. by rewrite app_nil_r.
  - bind_inv Hi as m Hb. apply BuildKeyMetadata_ok in Hb.
    rewrite cons_middle, app_assoc. apply (IH _ _ _ Hi); [by apply Forall2_app; [|constructor]|].
    destruct Hx as [H1 H2]. split.
    + intros kid m'. rewrite lookup_insert. case_decide as Hk.
      * intros [= <-]. split; [|done]. apply elem_of_app. right. by left.
      * intros [Hin Hid]%H1. split; [|done]. apply elem_of_app. by left.
    + intros m' [Hin|Hin]%elem_of_app.
      * rewrite lookup_insert. case_decide; [done|by apply H2].
      * apply list_elem_of_singleton in Hin as ->. by rewrite lookup_insert_eq.
Qed.
End facts.

(** ** Keys and their JWKs *)

Section keys.
Context `{Json (gmap string gval), Sha256}.
Context `{!JsonLaw (gmap string gval) (fun m => json_safe (VObj m)) (fmap json_image)}.

(** What a parser of private keys promises of an EC key: a point of the curve, its
    coordinates as [big.Int] holds them. *)
Definition material_wf (k : key_material) : Prop :=
  match k with
  | KeyECDSA curve x y _ =>
      curve = "P-256" -> minimal_bytes x = x /\ minimal_bytes y = y /\ on_p256 (big_of_bytes 0 x) (big_of_bytes 0 y) = true
  | _ => True
  end.

(** An object of safe strings, once written, reads back as it is. *)
Lemma strings_roundtrip (m : gmap string gval) :
  map_Forall (fun k v => utf8_valid k = true /\ exists t, v = VStr t /\ utf8_valid t = true) m ->
  json_unmarshal (marshal_or_empty m) = Ok m.
Proof.
  intros Hm. destruct (json_law (JsonLaw := JsonLaw0) m) as (s & Hs & Hu).
  - apply json_safe_obj. intros k v Hk. destruct (Hm k v Hk) as (Hv & t & -> & Ht). by split.
  - unfold marshal_or_empty. rewrite Hs. cbn. rewrite Hu. f_equal. apply map_eq. intros k. rewrite lookup_fmap.
    destruct (m !! k) as [v|] eqn:Hk; [|done]. by destruct (Hm k v Hk) as (_ & t & -> & _).
Qed.

Lemma utf8_b64 t : utf8_valid (b64_encode t) = true.
Proof. apply utf8_valid_ascii, b64_encode_ascii. Qed.

Lemma ed25519_jwk_text pub : json_unmarshal (marshal_or_empty (ed25519_jwk pub)) = Ok (ed25519_jwk pub).
Proof.
  apply strings_roundtrip. unfold ed25519_jwk. pose proof (utf8_b64 pub).
  repeat (apply map_Forall_insert_2; [by split; [|eexists]|]). apply map_Forall_empty.
Qed.

Lemma p256_jwk_text x y : json_unmarshal (marshal_or_empty (p256_jwk x y)) = Ok (p256_jwk x y).
Proof.
  apply strings_roundtrip. unfold p256_jwk. pose proof (utf8_b64 x). pose proof (utf8_b64 y).
  repeat (apply map_Forall_insert_2; [by split; [|eexists]|]). apply map_Forall_empty.
Qed.

Lemma string_map_of_strings (m : gmap string gval) :
  map_Forall (fun _ v => is_Some (as_string v)) m -> string_map_of m = Some (fun k => default "" (string_member m k)).
Proof.
  intros Hm. unfold string_map_of. rewrite bool_decide_eq_true_2; [done|]. intros k v Hk. right. by apply (Hm k v).
Qed.

Ltac all_strings := repeat (apply map_Forall_insert_2; [by eexists|]); apply map_Forall_empty.

Lemma ParsePublicJWK_ed25519 pub : ParsePublicJWK (marshal_or_empty (ed25519_jwk pub)) = Ok (PubEd25519 pub, "EdDSA").
Proof.
  unfold ParsePublicJWK. rewrite ed25519_jwk_text. cbn [map_err rbind]. rewrite string_map_of_strings by all_strings.
  cbn [of_option rbind]. unfold decode_member. change (default "" (string_member (ed25519_jwk pub) "x")) with (b64_encode pub).
  rewrite b64_roundtrip. reflexivity.
Qed.

Lemma ParsePublicJWK_p256 x y :
  minimal_bytes x = x -> minimal_bytes y = y -> on_p256 (big_of_bytes 0 x) (big_of_bytes 0 y) = true ->
  ParsePublicJWK (marshal_or_empty (p256_jwk x y)) = Ok (PubECDSA "P-256" x y, "ES256").
Proof.
  intros Hx Hy Hon. unfold ParsePublicJWK. rewrite p256_jwk_text. cbn [map_err rbind].
  rewrite string_map_of_strings by all_strings. cbn [of_option rbind]. unfold decode_member.
  change (default "" (string_member (p256_jwk x y) "x")) with (b64_encode x).
  change (default "" (string_member (p256_jwk x y) "y")) with (b64_encode y).
  rewrite !b64_roundtrip. cbn -[on_p256 big_of_bytes minimal_bytes]. by rewrite Hon, Hx, Hy.
Qed.

Lemma marshal_or_empty_Ok (m : gmap string gval) :
  json_safe (VObj m) = true -> json_marshal m = Ok (marshal_or_empty m).
Proof.
  intros Hm. destruct (json_law (JsonLaw := JsonLaw0) m Hm) as (s & Hs & _). unfold marshal_or_empty. by rewrite Hs.
Qed.

Lemma thumbprint_of_canonical (m : gmap string gval) kty :
  json_unmarshal (marshal_or_empty m) = Ok m -> json_safe (VObj m) = true -> string_member m "kty" = Some kty ->
  canonical_members m kty = Ok m ->
  computeJWKThumbprint (marshal_or_empty m) = Ok (b64_encode (sha256 (marshal_or_empty m))).
Proof.
  intros Hu Hsafe Hk Hc. unfold computeJWKThumbprint. rewrite Hu. cbn [map_err rbind]. rewrite Hk. cbn [of_option rbind].
  rewrite Hc. cbn [rbind]. by rewrite (marshal_or_empty_Ok m Hsafe).
Qed.

(** The identifier of a key that is accepted for signing. *)
Lemma finalized_thumbprint k k' jwk alg :
  finalizeKey k = Ok (k', jwk, alg) -> computeJWKThumbprint jwk = Ok (b64_encode (sha256 jwk)).
Proof.
  unfold finalizeKey. destruct k as [pub seed|curve x y d|bits|type]; intros Hf.
  - injection Hf as <- <- <-. pose proof (utf8_b64 pub).
    apply (thumbprint_of_canonical _ "OKP"); [apply ed25519_jwk_text| |done|reflexivity].
    apply json_safe_obj. repeat (apply map_Forall_insert_2; [by split|]). apply map_Forall_empty.
  - stop_inv Hf as Hc. injection Hf as <- <- <-. pose proof (utf8_b64 x). pose proof (utf8_b64 y).
    apply (thumbprint_of_canonical _ "EC"); [apply p256_jwk_text| |done|reflexivity].
    apply json_safe_obj. repeat (apply map_Forall_insert_2; [by split|]). apply map_Forall_empty.
  - by destruct (bits <? 2048)%Z.
  - done.
Qed.

(** What a key is published as reads back as the key.  When a private key is accepted for
    signing, the JWK made of it parses back to its public key and to the algorithm it signs
    with, the only two being EdDSA and ES256; and the thumbprint of that JWK, from which its
    identifier derives, is the digest of the JWK itself. *)
Theorem finalized_key_roundtrip k k' jwk alg :
  finalizeKey k = Ok (k', jwk, alg) -> material_wf k ->
  k' = k /\ ParsePublicJWK jwk = Ok (material_public k, alg) /\ algorithmForPublicKey (material_public k) = Ok alg
  /\ (alg = "EdDSA" \/ alg = "ES256") /\ computeJWKThumbprint jwk = Ok (b64_encode (sha256 jwk)).
Proof.
  intros Hf Hwf. pose proof (finalized_thumbprint _ _ _ _ Hf) as Ht. revert Hf.
  unfold finalizeKey. destruct k as [pub seed|curve x y d|bits|type]; intros Hf.
  - injection Hf as <- <- <-. split; [done|]. split; [apply ParsePublicJWK_ed25519|]. split; [done|]. split; [by left|done].
  - stop_inv Hf as Hc. injection Hf as <- <- <-. breflect. subst curve. destruct Hwf as (Hx & Hy & Hon); [done|].
    split; [done|]. split; [by apply ParsePublicJWK_p256|]. split; [done|]. split; [by right|done].
  - by destruct (bits <? 2048)%Z.
  - done.
Qed.
End keys.

(** ** Loading a key set *)

Section loading.
Context `{Json (gmap string gval), Sha256, KeyParsers, Unicode, Rfc3339, Files}.

(** Every key of the set is described: by itself, in order, and under its identifier. *)
Definition keyset_ok (ks : KeySet) : Prop :=
  Forall2 meta_ok (ks_Current ks :: ks_Previous ks) (ks_metadata ks) /\ indexes (ks_byKID ks) (ks_metadata ks).

(** A local signer agrees with its key: JWK, algorithm and identifier are the key's. *)
Definition local_ok (l : LocalSigner) : Prop :=
  finalizeKey (ls_key l) = Ok (ls_key l, ls_jwk l, ls_alg l) /\ computeJWKThumbprint (ls_jwk l) = Ok (ls_kid l).

(** It was read from a file that nobody but its owner can access. *)
Definition private_file (l : LocalSigner) : Prop :=
  exists path perm, NewLocalSignerFromFile path = Ok l /\ stat_perm path = Ok perm /\ Z.land perm 63 = 0%Z.

Lemma finalizeKey_same k k' jwk alg : finalizeKey k = Ok (k', jwk, alg) -> finalizeKey k' = Ok (k', jwk, alg).
Proof.
  intros Hf. assert (k' = k) as ->; [|done]. destruct k as [| |bits|]; cbn in Hf; [congruence| | |done].
  - stop_inv Hf as _. congruence.
  - by destruct (bits <? 2048)%Z.
Qed.

Lemma parseKeyMaterial_finalized data out : parseKeyMaterial data = Ok out -> exists k, finalizeKey k = Ok out.
Proof.
  unfold parseKeyMaterial, parsePEMBlock. destruct (pem_block data) as [bytes|].
  - intros Hp. bind_inv Hp as key Hk. stop_inv Hp as _. by exists key.
  - destruct (b64std_decode _) as [decoded|]; [|done]. destruct (_ =? 64)%nat; [eauto|].
    destruct (parse_PKCS8 decoded) as [key|]; [|done]. destruct (is_signer key); [eauto|done].
Qed.

Lemma NewLocalSignerFromFile_ok path l : NewLocalSignerFromFile path = Ok l -> local_ok l /\ private_file l.
Proof.
  intros Hn. pose proof Hn as Hn'. unfold NewLocalSignerFromFile in Hn. bind_inv Hn as u Hperm. bind_inv Hn as data Hd.
  bind_inv Hn as [[k jwk] alg] Hp. bind_inv Hn as kid Hk. bind_inv Hn as mtime Ht. injection Hn as <-.
  ok_simp Hp. ok_simp Hk. split.
  - apply parseKeyMaterial_finalized in Hp as (k0 & Hf). split; [by apply finalizeKey_same in Hf|].
    change (map_err (fun e => ErrWrap "compute jwk thumbprint: " e "") (computeJWKThumbprint jwk) = Ok kid) in Hk.
    by ok_simp Hk.
  - unfold ensure0600 in Hperm. bind_inv Hperm as perm Hst. stop_inv Hperm as Hz. exists path, perm.
    split; [done|]. split; [done|]. apply negb_false_iff, Z.eqb_eq in Hz. done.
Qed.

Lemma load_entries_ok dir entries ls :
  load_entries dir entries = Ok ls -> Forall (fun l => local_ok l /\ private_file l) ls.
Proof.
  revert ls. induction entries as [|entry entries IH]; intros ls; cbn; [by intros [= <-]|].
  destruct (de_IsDir entry); [apply IH|]. intros Hl. bind_inv Hl as l Hl1. bind_inv Hl as ls' Hl2. injection Hl as <-.
  constructor; [by apply NewLocalSignerFromFile_ok in Hl1|by apply IH].
Qed.

Lemma loadSignersFromDir_ok dir ls :
  loadSignersFromDir dir = Ok ls -> Forall (fun l => local_ok l /\ private_file l) ls.
Proof. unfold loadSignersFromDir. intros Hl. bind_inv Hl as es He. by apply load_entries_ok in Hl. Qed.

(** C37: A key set that was loaded is well formed.  Every signer, the current one first, has
    exactly one description, made of its own JWK: identifier, public key, and an algorithm that
    is EdDSA or ES256; resolving an identifier gives a description with that identifier, and
    every description's identifier resolves.  Without a key service, each signer was read from
    a file that only its owner can access, its JWK and algorithm are those of its key, and its
    identifier is the thumbprint of its JWK. *)
Theorem load_keyset_ok env kms dir ks :
  LoadKeySet env kms dir = Ok ks ->
  keyset_ok ks
  /\ (env "ENABLE_KMS" <> "true" -> env "KMS_ENABLE" <> "true" ->
      exists ls, ks_Current ks :: ks_Previous ks = local_signer <$> ls
        /\ Forall (fun l => local_ok l /\ private_file l) ls).
Proof.
  unfold LoadKeySet, keyset_ok. destruct (_ || _)%bool eqn:Hkms; intros Hl.
  - bind_inv Hl as signer Hs. bind_inv Hl as m Hm. injection Hl as <-. apply BuildKeyMetadata_ok in Hm. cbn. split.
    + split; [by constructor|]. split.
      * intros kid m' [<- <-]%lookup_singleton_Some. by split; [left|].
      * intros m' ->%list_elem_of_singleton. by rewrite lookup_singleton_eq.
    + intros Hk1 Hk2. by rewrite !bool_decide_eq_false_2 in Hkms by done.
  - bind_inv Hl as cur Hc. bind_inv Hl as current Hcur. bind_inv Hl as prev Hp. bind_inv Hl as idx Hi. injection Hl as <-.
    ok_simp Hc. ok_simp Hcur. cbn [ks_Current ks_Previous ks_metadata ks_byKID]. split.
    + apply (index_signers_ok _ _ _ []) in Hi; [done|constructor|]. split; [by intros kid m Hm|by intros m ?%not_elem_of_nil].
    + intros _ _. exists (current :: prev). split; [done|]. constructor.
      * apply loadSignersFromDir_ok in Hc. destruct cur as [|c cur]; [done|]. injection Hcur as ->. by apply Forall_cons in Hc as [? _].
      * destruct (loadSignersFromDir (path_join _ "previous")) as [l|e] eqn:Hd.
        -- injection Hp as <-. by apply loadSignersFromDir_ok in Hd.
        -- destruct (io_NotExist e); [injection Hp as <-; constructor|done].
Qed.
End loading.

(** ** Instances *)

Fixpoint bytes_of_big (n : nat) (z : Z) : string :=
  match n with
  | O => ""
  | S n => bytes_of_big n (z / 256) +:+ String (ascii_of_nat (Z.to_nat (z mod 256))) ""
  end.

(** The base point of P-256, the public key of the private key 1. *)
Definition base_point : key_material := Eval vm_compute in
  KeyECDSA "P-256"
    (bytes_of_big 32 48439561293906451759052585252797914202762949526041747995844080717082404635286)
    (bytes_of_big 32 36134250956749795798585127919587881956611106672985015071877198253568414405109) "1".

Lemma finalized_key_roundtrip_witness :
  exists jwk, finalizeKey base_point = Ok (base_point, jwk, "ES256")
    /\ ParsePublicJWK jwk = Ok (material_public base_point, "ES256").
Proof.
  destruct (finalizeKey base_point) as [[[k jwk] alg]|e] eqn:Hf; [|discriminate Hf].
  destruct (finalized_key_roundtrip base_point k jwk alg Hf) as (Hk & Hp & Ha & _).
  - intros _. repeat split; vm_compute; reflexivity.
  - injection Ha as <-. exists jwk. split; [by rewrite Hk|exact Hp].
Defined.

(** A directory with one private key, which is the base point's. *)
#[local] Instance one_parser : KeyParsers := {|
  pem_block s := if bool_decide (s = "pem") then Some "der" else None;
  parse_PKCS8 _ := Ok base_point;
  parse_EC _ := Err (ErrText "");
  parse_PKCS1 _ := Err (ErrText "");
  raw_sign _ p := Ok p;
|}.

#[local] Instance one_file : Files := {|
  path_join dir name := dir +:+ "/" +:+ name;
  read_dir dir := if bool_decide (dir = "./keys/current") then Ok [mkEntry "a.pem" false]
                  else Err (mkIoError (ErrText "file does not exist") true);
  stat_perm _ := Ok 384%Z;
  read_file _ := Ok "pem";
  stat_mtime _ := Ok t0;
|}.

Lemma load_keyset_ok_witness :
  exists ks, LoadKeySet (fun _ => "") (Err (ErrText "")) "" = Ok ks /\ keyset_ok ks
    /\ ks_Previous ks = [] /\ length (ks_metadata ks) = 1%nat.
Proof.
  assert (Hok : is_ok (LoadKeySet (fun _ => "") (Err (ErrText "")) "") = true) by (vm_compute; reflexivity).
  assert (Hp : (ks_Previous <$> to_option (LoadKeySet (fun _ => "") (Err (ErrText "")) "")) = Some [])
    by (vm_compute; reflexivity).
  destruct (LoadKeySet (fun _ => "") (Err (ErrText "")) "") as [ks|e] eqn:Hl; [|discriminate Hok].
  exists ks. split; [reflexivity|]. injection Hp as Hp.
  pose proof (proj1 (load_keyset_ok (fun _ => "") (Err (ErrText "")) "" ks Hl)) as Hks.
  split; [exact Hks|]. split; [exact Hp|].
  destruct Hks as [Hm _]. rewrite Hp in Hm. by apply Forall2_length in Hm.
Defined.
