(* ===== verification/KeyUtils.v ===== *)
(** * Helpers of the crypto package.

    Models the rest of internal/crypto/utils.go: names of keys, digests, the check of a signer
    and the signer of the tests.  [ed25519.Sign] is a parameter. *)

From S2P Require Import Prelude GoStrings Base64 Errors Crypto Instances.
From Stdlib Require Import ZArith Ascii String Lia.
From stdpp Require Import list strings.

Local Open Scope string_scope.

(** ** Names *)

(** A name made of the bytes that are kept; a character beyond ASCII is dropped byte by byte.
    Source: internal/crypto/utils.go, [SanitizeKeyName]. *)
Fixpoint SanitizeKeyName (input : string) : string :=
  match input with
  | "" => ""
  | String a s =>
      if byte_in 97 122 a || byte_in 65 90 a || byte_in 48 57 a || bool_decide (a ∈ ["-"; "_"; "."]%char)
      then String a (SanitizeKeyName s)
      else if bool_decide (a = " "%char) then String "-" (SanitizeKeyName s)
      else SanitizeKeyName s
  end.

Section utils.
Context `{Sha256}.

(** Source: internal/crypto/utils.go, [generateKeyID]. *)
Definition generateKeyID (pub : public_key) : result error string :=
  match pub with
  | PubEd25519 key => Ok (b64_encode (take_bytes 8 (sha256 key)))
  | _ => Err (ErrText "unsupported key type")
  end.
(** Source: internal/crypto/utils.go, [HashSHA256]. *)
Definition HashSHA256 (input : string) : string := hex_string (sha256 input).
End utils.

(** [randomBytes] are the 8 bytes that were drawn.
    Source: internal/crypto/utils.go, [GenerateSecureKeyName]. *)
Definition GenerateSecureKeyName (randomBytes tenant purpose : string) : string :=
  tenant +:+ "-" +:+ purpose +:+ "-" +:+ hex_string randomBytes.

(** ** Signers *)

(** Source: internal/crypto/utils.go, [ValidateSignerCompatibility]. *)
Definition ValidateSignerCompatibility (signer : option Signer) : result error unit :=
  let! signer := of_option (ErrText "signer cannot be nil") signer in
  stop! bool_decide (signer_Public signer = PubNil) with ErrText "signer public key cannot be nil" in
  let! _ := map_err (fun e => ErrWrap "signer failed compatibility test: " e "")
    (signer_Sign signer "compatibility test") in
  Ok tt.

(** The private key is kept as its two halves.
    Source: internal/crypto/utils.go, [testSigner]. *)
Record testSigner := mkTestSigner { ts_privateKey : string * string; ts_publicKey : string }.

(** Source: internal/crypto/utils.go, [SecureKeyGenerator.GenerateEd25519Key]. *)
Definition GenerateEd25519Key (drawn : result error (string * string)) : result error (string * (string * string)) :=
  let! ps := map_err (fun e => ErrWrap "generate ed25519 key: " e "") drawn in
  Ok (ps.1, ps).

(** Source: internal/crypto/utils.go, [NewLocalSigner]. *)
Definition NewLocalSigner (drawn : result error (string * string)) : result error testSigner :=
  let! ps := map_err (fun e => ErrWrap "generate ed25519 key: " e "") drawn in
  Ok (mkTestSigner ps ps.1).

(** [ed25519.Sign] *)
Class Ed25519Sign := ed25519_sign : string * string -> string -> string.

(** What it signs verifies under the public half of its key. *)
Class Ed25519SignLaw `{Ed25519, Ed25519Sign} : Prop :=
  ed25519_sign_law : forall key m, ed25519_verify key.1 m (ed25519_sign key m) = true.

(** Source: internal/crypto/utils.go:112-114, [testSigner.Sign]. *)
Definition testSigner_Sign `{Ed25519Sign} (t : testSigner) (digest : string) : result error string :=
  Ok (ed25519_sign (ts_privateKey t) digest).

(** The interface a [testSigner] implements.
    Source: internal/crypto/utils.go, [testSigner.Public]. *)
Definition test_signer `{Ed25519Sign} (t : testSigner) : Signer := mkSigner (PubEd25519 (ts_publicKey t)) (testSigner_Sign t).

(** ** Properties *)

(** The bytes of a sanitized name. *)
Definition name_byte (a : ascii) : bool :=
  byte_in 97 122 a || byte_in 65 90 a || byte_in 48 57 a || bool_decide (a ∈ ["-"; "_"; "."]%char).

Lemma SanitizeKeyName_alphabet s : string_forall name_byte (SanitizeKeyName s) = true.
Proof.
  induction s as [|a s IH]; [done|]. cbn [SanitizeKeyName]. fold (name_byte a).
  destruct (name_byte a) eqn:Ha; [cbn; by rewrite Ha|]. case_bool_decide; [|done]. cbn. by rewrite IH.
Qed.

(** A name that is clean is kept, so sanitizing twice is sanitizing once. *)
Lemma SanitizeKeyName_clean s : string_forall name_byte s = true -> SanitizeKeyName s = s.
Proof.
  induction s as [|a s IH]; [done|]. cbn [SanitizeKeyName string_forall]. fold (name_byte a).
  intros [-> Hs]%andb_true_iff. by rewrite IH.
Qed.

Lemma SanitizeKeyName_idempotent s : SanitizeKeyName (SanitizeKeyName s) = SanitizeKeyName s.
Proof. apply SanitizeKeyName_clean, SanitizeKeyName_alphabet. Qed.

(** Names of one tenant and purpose differ when the bytes drawn for them do. *)
Lemma GenerateSecureKeyName_inj b b' tenant purpose :
  GenerateSecureKeyName b tenant purpose = GenerateSecureKeyName b' tenant purpose -> b = b'.
Proof.
  unfold GenerateSecureKeyName. intros Hn.
  by apply (inj (String.append _)), (inj (String.append _)), (inj (String.append _)), (inj (String.append _)), hex_string_inj in Hn.
Qed.

(** The check accepts exactly the signers with a key that can sign. *)
Lemma ValidateSignerCompatibility_spec signer :
  ValidateSignerCompatibility signer = Ok tt
  <-> exists s sg, signer = Some s /\ signer_Public s <> PubNil /\ signer_Sign s "compatibility test" = Ok sg.
Proof.
  unfold ValidateSignerCompatibility. split.
  - intros Hv. bind_inv Hv as s Hs. stop_inv Hv as Hp. bind_inv Hv as sg Hsg. ok_simp Hs. ok_simp Hsg.
    breflect. eauto.
  - intros (s & sg & -> & Hp & Hsg). cbn [of_option rbind]. rewrite bool_decide_eq_false_2 by done. by rewrite Hsg.
Qed.

(** The signer of the tests signs, and the check accepts it. *)
Lemma NewLocalSigner_ok `{Ed25519SignLaw} drawn t :
  NewLocalSigner drawn = Ok t ->
  signer_ok (test_signer t) (ts_publicKey t) /\ ValidateSignerCompatibility (Some (test_signer t)) = Ok tt.
Proof.
  unfold NewLocalSigner. intros Hn. bind_inv Hn as ps Hps. injection Hn as <-. split.
  - split; [done|]. intros m. eexists. split; [done|]. apply ed25519_sign_law.
  - apply ValidateSignerCompatibility_spec. by do 2 eexists.
Qed.
