(* ===== verification/Keygen.v ===== *)
(** * The key generator.

    Models cmd/keygen/main.go, which draws a key, prints its DID, and writes the private key to
    a file or to the terminal.  Files have their permissions here, because the tool says which
    ones it gives them and internal/crypto/local_signer.go refuses a key file others can read. *)

From S2P Require Import Prelude GoStrings Base64 GoTime Errors Values Crypto Credential Instances.
From S2P Require Import Did Flags Keys KeysProps Jwk JwkProps.
From Stdlib Require Import ZArith Ascii String Lia.
From stdpp Require Import gmap list strings.

Local Open Scope string_scope.

(** ** Files with permissions *)

Record stored_file := mkStored { sf_Data : string; sf_Perm : Z }.

Abbreviation disk := (gmap string stored_file).

(** [os.WriteFile(path, data, perm)] of a process with the mask [umask]; [refused] is the error
    of opening the file.  A file that exists keeps its permissions. *)
Definition write_file (umask : Z) (refused : option error) (path data : string) (perm : Z) (fs : disk)
  : result error disk :=
  match refused with
  | Some e => Err e
  | None =>
      let perm := match fs !! path with Some f => sf_Perm f | None => Z.land perm (Z.lnot umask) end in
      Ok (<[path := mkStored data perm]> fs)
  end.

(** ** The command *)

(** The quotation mark. *)
Definition quote : string := String (ascii_of_nat 34) EmptyString.

(** What a run leaves: its exit code, the lines of both outputs, the files.  The usage text that
    the flag package prints after a mistake is left out. *)
Record run := mkRun {
  run_exit : Z;
  run_stdout : list string;
  run_stderr : list string;
  run_disk : disk;
}.

(** Source: cmd/keygen/main.go, [printUsage]. *)
Definition printUsage : list string :=
  ["keygen - Generate decentralized identifiers (DIDs) with embedded keys";
   "";
   "Usage:";
   "  keygen [flags]";
   "";
   "Flags:";
   "  -algorithm string";
   "        Signing algorithm: EdDSA (Ed25519) or ES256 (ECDSA P-256) (default " +:+ quote +:+ "EdDSA" +:+ quote +:+ ")";
   "  -output string";
   "        Output file path for private key PEM (e.g., alice-key.pem)";
   "  -did-only";
   "        Only output the DID, not the private key";
   "  -help";
   "        Show this usage information";
   "";
   "Examples:";
   "  # Generate EdDSA (Ed25519) key and save private key to file";
   "  keygen -output alice-key.pem";
   "";
   "  # Generate ES256 (ECDSA P-256) key";
   "  keygen -algorithm ES256 -output bob-key.pem";
   "";
   "  # Generate key and print to stdout";
   "  keygen";
   "";
   "  # Generate only the DID (no private key)";
   "  keygen -did-only";
   "";
   "Security:";
   "  - Private keys are saved with 0600 permissions (owner read/write only)";
   "  - Never share or commit private keys to version control";
   "  - The DID contains the public key and can be shared freely"].

(** The flags and their defaults.
    Source: cmd/keygen/main.go:13-16, [main]. *)
Definition keygen_flags : flag_set :=
  {["algorithm" := StringFlag; "output" := StringFlag; "did-only" := BoolFlag; "help" := BoolFlag]}.

Section keygen.
Context `{ParseInt0, Json (gmap string gval), Pkcs8}.
Variables (d : draw) (umask : Z) (refused : string -> option error).

(** The JWK as it is printed. *)
Definition public_text (key : KeyEntry) : result error string :=
  match ke_PublicJWK key with Some m => json_marshal m | None => Ok "null" end.

(** The document, its key and the text of the public half, or what is said on the way.
    Source: cmd/keygen/main.go:25-48, [main]. *)
Definition generated (algorithm : string) : result string (DIDDocument * KeyEntry * string) :=
  stop! negb (bool_decide (algorithm = "EdDSA")) && negb (bool_decide (algorithm = "ES256")) with
    "Error: Unsupported algorithm '" +:+ algorithm +:+ "'. Supported: EdDSA, ES256" in
  let! doc := map_err (fun e => "Error generating DID: " +:+ error_text e) (NewDIDJWKWithAlg d algorithm) in
  let! key := map_err (fun e => "Error extracting current key: " +:+ error_text e) (CurrentKey doc) in
  let! publicJWK := map_err (fun e => "Error encoding public JWK: " +:+ error_text e) (public_text key) in
  Ok (doc, key, publicJWK).

Definition announced (doc : DIDDocument) (key : KeyEntry) (publicJWK : string) : list string :=
  ["DID: " +:+ doc_DID doc; "Algorithm: " +:+ ke_Algorithm key; "Public JWK: " +:+ publicJWK].

Definition closing (doc : DIDDocument) : list string :=
  [""; "You can now use this DID in credential issuance requests:";
   "  subject_did: " +:+ quote +:+ doc_DID doc +:+ quote].

(** Source: cmd/keygen/main.go, [main]. *)
Definition keygen_main (args : list string) (fs : disk) : run :=
  match parse_flags keygen_flags args ∅ with
  | Err e => mkRun (if bool_decide (error_text e = error_text help_requested) then 0 else 2) [] [error_text e] fs
  | Ok vals =>
      let output := flag_or vals "output" "" in
      if bool_decide (flag_or vals "help" "false" = "true") then mkRun 0 printUsage [] fs
      else
        match generated (flag_or vals "algorithm" "EdDSA") with
        | Err msg => mkRun 1 [] [msg] fs
        | Ok (doc, key, publicJWK) =>
            let said := announced doc key publicJWK in
            if bool_decide (flag_or vals "did-only" "false" = "true") then
              mkRun 0 (app said (closing doc)) [] fs
            else if negb (bool_decide (output = "")) then
              match write_file umask (refused output) output (ke_PrivateKeyPEM key) 384 fs with
              | Err e => mkRun 1 said ["Error writing private key to file: " +:+ error_text e] fs
              | Ok fs' =>
                  mkRun 0 (app said (app
                    [""; "✓ Private key saved to: " +:+ output +:+ " (permissions: 0600)";
                     ""; "Keep this file secure! It can be used to sign credentials as this DID."]
                    (closing doc))) [] fs'
              end
            else
              mkRun 0 (app said (app
                [""; "Private Key (PEM format):"; ke_PrivateKeyPEM key;
                 "⚠️  Keep this private key secure! It can be used to sign credentials as this DID."]
                (closing doc))) [] fs
        end
  end.
End keygen.

(** ** The key a run leaves *)

(** A private key as the parser of internal/crypto/local_signer.go gives it. *)
Definition material_of (k : private_key) : key_material :=
  match k with
  | PrivEd25519 pub seed => KeyEd25519 pub seed
  | PrivP256 x y d => KeyECDSA "P-256" x y d
  end.

(** Both packages read PEM and PKCS#8 with the same functions of the standard library. *)
Class SameParsers `{Pkcs8, KeyParsers} : Prop := {
  same_block t b : pem_decode t = Some b -> pem_block t = Some b;
  same_key b k : parse_pkcs8 b = Ok (Some k) -> parse_PKCS8 b = Ok (material_of k);
}.

(** The file at [path], as the file system shows it. *)
Definition shows (F : Files) (fs : disk) (path : string) (mtime : time) : Prop :=
  exists f, fs !! path = Some f /\ @stat_perm F path = Ok (sf_Perm f) /\ @read_file F path = Ok (sf_Data f)
    /\ @stat_mtime F path = Ok mtime.

(** A file that exists and that others than its owner can access. *)
Definition exposed (fs : disk) (path : string) : bool :=
  match fs !! path with Some f => negb (Z.land (sf_Perm f) 63 =? 0)%Z | None => false end.

Section props.
Context `{ParseInt0, Json (gmap string gval), Pkcs8Law, KeyParsers, Sha256, Unicode, Rfc3339}.
Context `{!JsonLaw (gmap string gval) (fun m => json_safe (VObj m)) (fmap json_image), !SameParsers}.
Variables (d : draw) (umask : Z) (refused : string -> option error).

(** What is generated: a key whose PEM, JWK and DID belong together. *)
Lemma generateKey_key alg k :
  generateKey d alg = Ok k ->
  exists priv jwk, finalizeKey (material_of priv) = Ok (material_of priv, jwk, alg)
    /\ pem_encode priv = Ok (ke_PrivateKeyPEM k) /\ ke_DID k = "did:jwk:" +:+ b64_encode jwk
    /\ public_text k = Ok jwk /\ (alg = "EdDSA" \/ alg = "ES256").
Proof.
  unfold generateKey, GenerateDIDJWK, generateEd25519DID, generateES256DID. intros Hg. bind_inv Hg as kp Hkp.
  bind_inv Hg as pub Hpub. injection Hg as <-. ok_simp Hpub. cbn [ke_PrivateKeyPEM ke_DID].
  assert (Hpair : exists priv m, key_pair alg m priv = Ok kp
    /\ finalizeKey (material_of priv) = Ok (material_of priv, marshal_or_empty m, alg)
    /\ json_unmarshal (marshal_or_empty m) = Ok m /\ (alg = "EdDSA" \/ alg = "ES256")).
  { repeat case_bool_decide; subst; try done.
    - bind_inv Hkp as ps Hps. destruct ps as [p seed]. exists (PrivEd25519 p seed). eexists. split; [exact Hkp|].
      split; [done|]. split; [apply (ed25519_jwk_text p)|by left].
    - bind_inv Hkp as xyd Hxyd. destruct xyd as [[x y] s]. exists (PrivP256 x y s). eexists. split; [exact Hkp|].
      split; [done|]. split; [apply (p256_jwk_text x y)|by right]. }
  destruct Hpair as (priv & m & Hp & Hf & Hu & Ha). exists priv, (marshal_or_empty m). unfold key_pair in Hp.
  bind_inv Hp as j Hj. bind_inv Hp as pem Hpem. injection Hp as <-. ok_simp Hj. ok_simp Hpem.
  cbn [kp_PublicJWK kp_PrivateKeyPEM kp_DID] in *. assert (Hjm : marshal_or_empty m = j) by (unfold marshal_or_empty; by rewrite Hj).
  rewrite Hjm in *. repeat (split; [done|]). split; [|done]. unfold public_text. cbn. congruence.
Qed.

(** The document of one key. *)
Lemma new_doc_key alg doc :
  NewDIDJWKWithAlg d alg = Ok doc -> exists k, generateKey d alg = Ok k /\ CurrentKey doc = Ok k
    /\ doc_DID doc = ke_DID k /\ ke_Algorithm k = alg.
Proof.
  unfold NewDIDJWKWithAlg. intros Hn. bind_inv Hn as k Hk. injection Hn as <-. exists k. split; [done|].
  split; [|split; [done|by apply generateKey_fields in Hk as [? _]]].
  unfold CurrentKey. cbn. by rewrite decide_True.
Qed.

Lemma generated_ok alg doc :
  NewDIDJWKWithAlg d alg = Ok doc ->
  exists k priv jwk, generated d alg = Ok (doc, k, jwk) /\ ke_Algorithm k = alg /\ doc_DID doc = "did:jwk:" +:+ b64_encode jwk
    /\ finalizeKey (material_of priv) = Ok (material_of priv, jwk, alg) /\ pem_encode priv = Ok (ke_PrivateKeyPEM k).
Proof.
  intros Hn. destruct (new_doc_key _ _ Hn) as (k & Hk & Hc & Hd & Ha).
  destruct (generateKey_key _ _ Hk) as (priv & jwk & Hf & Hpem & Hdid & Ht & Halg).
  exists k, priv, jwk. split; [|by rewrite Hd]. unfold generated. rewrite Hn.
  replace (negb (bool_decide (alg = "EdDSA")) && negb (bool_decide (alg = "ES256")))%bool with false
    by (destruct Halg as [-> | ->]; done).
  cbn [map_err rbind]. rewrite Hc. cbn [map_err rbind]. by rewrite Ht.
Qed.

(** A PEM text loads from a private file. *)
Lemma pem_file_loads (F : Files) path priv pem jwk alg perm mtime :
  finalizeKey (material_of priv) = Ok (material_of priv, jwk, alg) -> pem_encode priv = Ok pem ->
  stat_perm path = Ok perm -> Z.land perm 63 = 0%Z -> read_file path = Ok pem -> stat_mtime path = Ok mtime ->
  NewLocalSignerFromFile path
    = Ok (mkLocalSigner (material_of priv) alg jwk (b64_encode (sha256 jwk)) (format_rfc3339 mtime) "").
Proof.
  intros Hf Hpem Hperm Hz Hread Hm. destruct (pkcs8_law _ _ Hpem) as (_ & b & Hb & Hparse).
  unfold NewLocalSignerFromFile, ensure0600. rewrite Hperm. cbn [rbind]. rewrite Hz. cbn [Z.eqb negb rbind].
  rewrite Hread. cbn [map_err rbind]. unfold parseKeyMaterial, parsePEMBlock. rewrite (same_block _ _ Hb).
  rewrite (same_key _ _ Hparse). cbn [rbind]. replace (is_signer (material_of priv)) with true by by destruct priv.
  cbn [negb]. rewrite Hf. cbn [map_err rbind]. unfold KeyID. cbn. rewrite (finalized_thumbprint _ _ _ _ Hf).
  cbn [map_err rbind]. by rewrite Hm.
Qed.

(** C31: The file the key generator writes.  With an algorithm and a file to write, a run that
    gets a key exits with 0, prints the DID, says that the file has the permissions 0600 and
    changes no other file.  When the file is new, or was private before, the services load it
    as a signer of that algorithm whose DID is the one that was printed.  When others could
    access the file before, they still can, whatever was printed, and the services refuse it. *)
Theorem keygen_key_loads alg path fs doc :
  NewDIDJWKWithAlg d alg = Ok doc -> path <> "" -> refused path = None ->
  let out := keygen_main d umask refused ["-algorithm"; alg; "-output"; path] fs in
  run_exit out = 0%Z /\ ("DID: " +:+ doc_DID doc) ∈ run_stdout out
  /\ ("✓ Private key saved to: " +:+ path +:+ " (permissions: 0600)") ∈ run_stdout out
  /\ (forall p, p <> path -> run_disk out !! p = fs !! p)
  /\ forall F mtime, shows F (run_disk out) path mtime ->
       if exposed fs path then
         NewLocalSignerFromFile path = Err (failed ("insecure permissions on " +:+ path +:+ "; require 0600"))
       else exists l, NewLocalSignerFromFile path = Ok l /\ ls_alg l = alg
              /\ doc_DID doc = "did:jwk:" +:+ b64_encode (ls_jwk l) /\ ls_kid l = b64_encode (sha256 (ls_jwk l)).
Proof.
  intros Hn Hp Hr. destruct (generated_ok _ _ Hn) as (k & priv & jwk & Hg & Ha & Hdid & Hf & Hpem). cbv zeta.
  set (perm := match fs !! path with Some f => sf_Perm f | None => Z.land 384 (Z.lnot umask) end).
  assert (Hrun : exists before after, keygen_main d umask refused ["-algorithm"; alg; "-output"; path] fs
    = mkRun 0 (app (announced doc k jwk) (app (before :: ("✓ Private key saved to: " +:+ path +:+ " (permissions: 0600)") :: after) (closing doc))) []
        (<[path := mkStored (ke_PrivateKeyPEM k) perm]> fs)).
  { unfold keygen_main.
    change (parse_flags _ _ _) with (@Ok error _ (<["output" := path]> ({["algorithm" := alg]} : gmap string string))).
    cbv iota. change (flag_or _ "algorithm" _) with alg. change (flag_or _ "output" _) with path.
    change (flag_or _ "help" _) with "false". change (flag_or _ "did-only" _) with "false".
    rewrite Hg. cbv iota zeta. rewrite !bool_decide_eq_false_2 by done. cbn [negb]. unfold write_file.
    rewrite Hr. eexists _, _. reflexivity. }
  destruct Hrun as (before & after & ->). cbn [run_exit run_stdout run_disk]. split; [done|]. split; [by left|]. split.
  { apply elem_of_app. right. apply elem_of_app. left. right. by left. }
  split; [intros p Hne; by rewrite lookup_insert_ne|]. intros F mtime (f & Hf' & Hst & Hrd & Hmt).
  rewrite lookup_insert_eq in Hf'. injection Hf' as <-. cbn [sf_Perm sf_Data] in *.
  assert (Hexp : exposed fs path = negb (Z.land perm 63 =? 0)%Z).
  { unfold exposed, perm. destruct (fs !! path) as [f|]; [done|]. symmetry. apply negb_false_iff, Z.eqb_eq.
    rewrite <- Z.land_assoc, (Z.land_comm (Z.lnot umask)), Z.land_assoc. change (Z.land 384 63) with 0%Z.
    apply Z.land_0_l. }
  rewrite Hexp. destruct (Z.land perm 63 =? 0)%Z eqn:Hz; cbn [negb].
  - apply Z.eqb_eq in Hz. eexists. split; [by eapply pem_file_loads|]. by repeat split.
  - unfold NewLocalSignerFromFile, ensure0600. rewrite Hst. cbn [rbind]. by rewrite Hz.
Qed.
End props.

(** ** Instances *)

#[local] Instance decimal_flags : ParseInt0 := parse_int.

#[local] Instance same_files : KeyParsers := {|
  pem_block t := pem_decode t;
  parse_PKCS8 b :=
    match parse_pkcs8 b with
    | Ok (Some k) => Ok (material_of k)
    | Ok None => Ok (KeyOther "unknown")
    | Err e => Err e
    end;
  parse_EC _ := Err (ErrText "x509: failed to parse EC private key");
  parse_PKCS1 _ := Err (ErrText "x509: failed to parse private key");
  raw_sign _ p := Ok p;
|}.

#[local] Instance same_parsers : SameParsers.
Proof. split; [done|]. intros b k Hb. cbn [parse_PKCS8 same_files]. by rewrite Hb. Qed.

(** The file system over a disk. *)
Definition files_of (fs : disk) : Files := {|
  path_join dir name := dir +:+ "/" +:+ name;
  read_dir _ := Err (failed "not a directory");
  stat_perm path := of_option (mkIoError (ErrText "file does not exist") true) (sf_Perm <$> fs !! path);
  read_file path := of_option (mkIoError (ErrText "file does not exist") true) (sf_Data <$> fs !! path);
  stat_mtime _ := Ok t0;
|}.

(** A disk with a file that everybody may read. *)
Definition shared_disk : disk := {["old.pem" := mkStored "something" 420]}.

Definition keygen_at (path : string) : run :=
  keygen_main (draw_key alice_key "1") 18 (fun _ => None) ["-algorithm"; "EdDSA"; "-output"; path] shared_disk.

Lemma keygen_key_loads_witness :
  (exists l, @NewLocalSignerFromFile _ _ _ _ _ (files_of (run_disk (keygen_at "new.pem"))) "new.pem" = Ok l
     /\ ls_alg l = "EdDSA" /\ ls_key l = KeyEd25519 alice_key "seed")
  /\ @NewLocalSignerFromFile _ _ _ _ _ (files_of (run_disk (keygen_at "old.pem"))) "old.pem"
     = Err (failed "insecure permissions on old.pem; require 0600").
Proof.
  destruct (NewDIDJWKWithAlg (draw_key alice_key "1") "EdDSA") as [doc|e] eqn:Hn.
  2: { assert (Hok : is_ok (NewDIDJWKWithAlg (draw_key alice_key "1") "EdDSA") = true) by (vm_compute; reflexivity).
       rewrite Hn in Hok. discriminate Hok. }
  assert (Hshows : forall path, is_Some (run_disk (keygen_at path) !! path) ->
    shows (files_of (run_disk (keygen_at path))) (run_disk (keygen_at path)) path t0).
  { intros path [f Hf]. exists f. split; [exact Hf|]. cbn [stat_perm read_file stat_mtime files_of]. rewrite Hf.
    repeat split. }
  split.
  - pose proof (keygen_key_loads (draw_key alice_key "1") 18 (fun _ => None) "EdDSA" "new.pem" shared_disk doc Hn) as H.
    destruct H as (_ & _ & _ & _ & H); [discriminate|reflexivity|].
    assert (Hex : is_Some (run_disk (keygen_at "new.pem") !! "new.pem")) by (vm_compute; by eexists).
    destruct (H _ _ (Hshows "new.pem" Hex)) as (l & Hl & Ha & _). exists l. split; [exact Hl|]. split; [exact Ha|].
    assert (Hk : (ls_key <$> to_option (@NewLocalSignerFromFile _ _ _ _ _ (files_of (run_disk (keygen_at "new.pem"))) "new.pem"))
      = Some (KeyEd25519 alice_key "seed")) by (vm_compute; reflexivity).
    unfold keygen_at in Hk. unfold keygen_at in Hl. rewrite Hl in Hk. by injection Hk as Hk.
  - pose proof (keygen_key_loads (draw_key alice_key "1") 18 (fun _ => None) "EdDSA" "old.pem" shared_disk doc Hn) as H.
    destruct H as (_ & _ & _ & _ & H); [discriminate|reflexivity|].
    assert (Hex : is_Some (run_disk (keygen_at "old.pem") !! "old.pem")) by (vm_compute; by eexists).
    exact (H _ _ (Hshows "old.pem" Hex)).
Defined.
