(* ===== verification/Issuer.v ===== *)
(** * The issuer's endpoints.

    Models internal/httpserver/issuer_handlers.go and keygen_handlers.go.  The state of the
    handlers is a key store, known by its interface ([KeyStore]).  What a request draws and
    the clock readings it makes, in their order, are the record [issuance]; [decode_error] is
    the text of the decoder's error for a body that is not valid. *)

From S2P Require Import Prelude GoStrings Base64 GoTime Errors Values Crypto Credential Delegation.
From S2P Require Import SDJwt Verify Issue IssuancePolicy Config Http Did Keys.
From Stdlib Require Import ZArith String Lia.
From stdpp Require Import gmap list strings.

Local Open Scope string_scope.

(** Source: internal/httpserver/issuer_handlers.go, [IssueRequest]. *)
Record IssueRequest := mkIssueRequest {
  iq_SubjectDID : string;
  iq_TTLSeconds : Z;
  iq_Claims : claims_map;
  iq_Format : string;
}.

(** Source: internal/httpserver/issuer_handlers.go, [IssueResponse]. *)
Record IssueResponse := mkIssueResponse {
  is_Credential : string;
  is_Disclosures : list string;
  is_Format : string;
  is_APIVersion : string;
}.

(** Source: internal/httpserver/issuer_handlers.go, [DelegateRequest]. *)
Record DelegateRequest := mkDelegateRequest {
  dq_ParentCredential : string;
  dq_DelegateDID : string;
  dq_Scope : list string;
  dq_TTLSeconds : Z;
}.

(** What a request draws: what the key store needs, the time the parent of a delegation is
    verified at, the time and the identifier of the credential, the time of the event; and
    the claims in the order the iteration over the map visits them, each with its salt. *)
Record issuance := mkIssuance {
  i_keys : draw;
  i_verify : time;
  i_now : time;
  i_uuid : string;
  i_event : time;
  i_entries : gmap string gval -> list (string * (string * gval));
}.

(** Source: internal/httpserver/issuer_handlers.go, [claimKeys]. *)
Definition claimKeys (claims : gmap string gval) : list string := sort_by str_ltb (map_to_list claims).*1.

Definition field_error (field message : string) : error := ErrValidation (NewFieldValidationError field message).

(** The longest lifetime a request may ask for.
    Source: internal/httpserver/issuer_handlers.go:78-84, [RegisterIssuerRoutes]. *)
Definition max_ttl (p : IssuancePolicy) : duration :=
  if (0 <? MaxTTLSeconds p)%Z then Z.min (24 * hour)%Z (seconds (MaxTTLSeconds p)) else (24 * hour)%Z.

(** The checks that come before the signing key: the lifetime and the claims to issue.
    Source: internal/httpserver/issuer_handlers.go:66-102, [RegisterIssuerRoutes]. *)
Definition issue_checks {R} (cfg : IssuerConfig) (req : IssueRequest)
  : result (response R) (duration * gmap string gval) :=
  let! _ := map_err WriteDIDError (ValidateDID (iq_SubjectDID req)) in
  let ttl := seconds (iq_TTLSeconds req) in
  stop! (ttl <=? 0)%Z with WriteValidationError (field_error "ttl_seconds" "must be positive") in
  stop! (max_ttl (ic_Policy cfg) <? ttl)%Z with
    WriteValidationError (field_error "ttl_seconds" "exceeds policy limit") in
  let! claims :=
    match iq_Claims req with
    | Some m => let! _ := map_err WriteValidationError (ValidateCredentialSubject (Some m)) in Ok m
    | None => Ok ∅
    end in
  let! _ := map_err (fun e => WriteAPIError 400 "policy_violation" (error_text e))
              (ValidateRequest (ic_Policy cfg) (iq_TTLSeconds req) (Some claims)) in
  Ok (ttl, claims).

(** Source: internal/httpserver/issuer_handlers.go:191-214, [RegisterIssuerRoutes]. *)
Definition delegate_checks {R} (req : DelegateRequest) : result (response R) duration :=
  stop! bool_decide (dq_ParentCredential req = "") with
    WriteValidationError (field_error "parent_credential" "is required") in
  let! _ := map_err WriteDIDError (ValidateDID (dq_DelegateDID req)) in
  stop! bool_decide (dq_Scope req = []) with
    WriteValidationError (field_error "scope" "at least one scope is required") in
  let ttl := seconds (dq_TTLSeconds req) in
  stop! (ttl <=? 0)%Z with WriteValidationError (field_error "ttl_seconds" "must be positive") in
  Ok ttl.

Section issuer.
Context `{Json (gmap string gval), Json (list gval), Json VCJWTPayload, Json VerifiableCredential,
  Sha256, Ed25519, Rfc3339}.
Context {St : Type} `{KeyStore St}.
Variables (cfg : IssuerConfig) (auditStore : bool) (decode_error : string).

(** The event of a success: a row of the audit store, when there is one, and a line of the log. *)
Definition record_event (c : context) (now : time) (e : AuditEvent) : list effect :=
  app (if auditStore then [Stored (stamped now e)] else []) [LogAuditEvent c now (stamped now e)].

(** The signing key of the request's tenant and the DID it signs as.
    Source: internal/httpserver/issuer_handlers.go:109-125, [RegisterIssuerRoutes]. *)
Definition signing_identity {B R} (r : request B) (s : St) (d : draw)
  : result (response R) (Signer * string) * St :=
  match GetSigningKey s d (tenant_or_default r (ic_DefaultTenantID cfg)) with
  | (Err err, s) => (Err (WriteAPIError 500 "keystore_error" (error_text err)), s)
  | (Ok signer, s) =>
      match DIDFromPublicKey (signer_Public signer) with
      | Err err => (Err (WriteAPIError 500 "did_error" (error_text err)), s)
      | Ok issuerDID => (Ok (signer, issuerDID), s)
      end
  end.

(** The credential, as a plain or as a selective-disclosure token.
    Source: internal/httpserver/issuer_handlers.go:126-155, [RegisterIssuerRoutes]. *)
Definition issue_token {R} (i : issuance) (signer : Signer) (issuerDID subjectDID format : string)
    (ttl : duration) (claims : gmap string gval) : result (response R) (string * list string) :=
  if bool_decide (format = "sd-jwt") then
    match IssueSDJWTCredential (i_now i) (i_uuid i) issuerDID subjectDID (Some signer) ttl (i_entries i claims) with
    | Err _ => Err (WriteInternalError "Failed to issue SD-JWT credential")
    | Ok sdjwt => Ok (sdjwt_Token sdjwt, sdjwt_Disclosures sdjwt)
    end
  else
    match IssueBasicCredentialWithFormat (i_now i) (i_uuid i) issuerDID subjectDID (Some signer) ttl
            (Some claims) format with
    | Err err =>
        Err match error_as_validation err with
            | Some _ => WriteValidationError err
            | None => WriteInternalError "Failed to issue credential"
            end
    | Ok token => Ok (token, [])
    end.

(** The answer to [POST /v1/credentials/issue].
    Source: internal/httpserver/issuer_handlers.go:54-177, [RegisterIssuerRoutes]. *)
Definition handleIssue (i : issuance) : handler IssueRequest St IssueResponse :=
  fun r s =>
    if negb (bool_decide (r_Method r = "POST")) then
      halt s (WriteAPIError 405 "method_not_allowed" "Only POST method is allowed")
    else
      match r_Body r with
      | None => halt s (WriteAPIError 400 "bad_request" ("Invalid JSON payload: " +:+ decode_error))
      | Some req =>
          match issue_checks cfg req with
          | Err resp => halt s resp
          | Ok (ttl, claims) =>
              let format := if bool_decide (iq_Format req = "") then "jwt-vc" else iq_Format req in
              match signing_identity r s (i_keys i) with
              | (Err resp, s) => halt s resp
              | (Ok (signer, issuerDID), s) =>
                  match issue_token i signer issuerDID (iq_SubjectDID req) format ttl claims with
                  | Err resp =>
                      (resp, s, [LogCredentialEvent (r_Context r) (i_event i) "credential.issued"
                                   (iq_SubjectDID req) issuerDID "failure"])
                  | Ok (token, disclosures) =>
                      (respond 200 (mkIssueResponse token disclosures format APIVersion), s,
                       record_event (r_Context r) (i_event i)
                         (event "credential.issued" (iq_SubjectDID req) issuerDID "success" ""
                            {["format" := VStr format; "ttl_seconds" := VInt64 (iq_TTLSeconds req);
                              "claims_keys" := VStrs (claimKeys claims);
                              "policy_max_ttl_seconds" := VInt64 (MaxTTLSeconds (ic_Policy cfg))]}))
                  end
              end
          end
      end.

(** The issuer delegates only what it issued: the key lookup for the parent.
    Source: internal/httpserver/issuer_handlers.go:233-238, [RegisterIssuerRoutes]. *)
Definition own_resolver (signer : Signer) (issuerDID issuer : string) : result error public_key :=
  if negb (bool_decide (issuer = issuerDID)) then Err (ErrVar ErrUntrustedIssuer)
  else Ok (signer_Public signer).

(** Source: internal/httpserver/issuer_handlers.go:243-251, [RegisterIssuerRoutes]. *)
Definition parent_status (err : error) : Z :=
  if error_is err ErrUntrustedIssuer then 403
  else if error_is err ErrExpiredCredential || error_is err ErrInvalidSignature then 401
  else 400.

(** The claims of a delegated credential, from the parent.
    Source: internal/httpserver/issuer_handlers.go:267-273, [RegisterIssuerRoutes]. *)
Definition delegated_claims (parent : VerifiableCredential) (scope : list string) : gmap string gval :=
  let claims : gmap string gval := {["scope" := VStrs scope; "parent_id" := VStr (vc_ID parent)]} in
  match claim (vc_Claims parent) "aud" with
  | Some aud => <["aud" := aud]> claims
  | None => claims
  end.

(** The checks on the parent: the claims of the credential to issue.
    Source: internal/httpserver/issuer_handlers.go:240-278, [RegisterIssuerRoutes]. *)
Definition check_parent {R} (now : time) (signer : Signer) (issuerDID : string) (ttl : duration)
    (req : DelegateRequest) : result (response R) (VerifiableCredential * gmap string gval) :=
  let! parentResult :=
    map_err (fun err => WriteAPIError (parent_status err) "invalid_parent" (error_text err))
      (VerifyCredentialChain [dq_ParentCredential req] (mkDeps (Some (own_resolver signer issuerDID)))
         (mkOptions "" 1) now) in
  let parentCred := default zero_vc (head (cr_Credentials parentResult)) in
  stop! negb (IsScopeSubset (ScopeFromClaims (vc_Claims parentCred)) (dq_Scope req)) with
    WriteAPIError 400 "invalid_scope" "delegated scope must be within parent scope" in
  let expiresAt := time_add now ttl in
  stop! negb (IsTTLWithinParent (vc_ExpiresAt parentCred) expiresAt) with
    WriteAPIError 400 "invalid_ttl" "delegated credential must expire before parent" in
  let claims := delegated_claims parentCred (dq_Scope req) in
  let! _ := map_err (fun e => WriteAPIError 400 "policy_violation" (error_text e))
              (ValidateRequest (ic_Policy cfg) (dq_TTLSeconds req) (Some claims)) in
  Ok (parentCred, claims).

(** The answer to [POST /v1/credentials/delegate].
    Source: internal/httpserver/issuer_handlers.go:179-319, [RegisterIssuerRoutes]. *)
Definition handleDelegate (i : issuance) : handler DelegateRequest St IssueResponse :=
  fun r s =>
    if negb (bool_decide (r_Method r = "POST")) then
      halt s (WriteAPIError 405 "method_not_allowed" "Only POST method is allowed")
    else
      match r_Body r with
      | None => halt s (WriteAPIError 400 "bad_request" ("Invalid JSON payload: " +:+ decode_error))
      | Some req =>
          match delegate_checks req with
          | Err resp => halt s resp
          | Ok ttl =>
              match signing_identity r s (i_keys i) with
              | (Err resp, s) => halt s resp
              | (Ok (signer, issuerDID), s) =>
                  match check_parent (i_verify i) signer issuerDID ttl req with
                  | Err resp => halt s resp
                  | Ok (parentCred, claims) =>
                      let metadata : gmap string gval :=
                        {["scope" := VStrs (dq_Scope req); "parent_id" := VStr (vc_ID parentCred);
                          "ttl_seconds" := VInt64 (dq_TTLSeconds req)]} in
                      match IssueBasicCredentialWithFormat (i_now i) (i_uuid i) issuerDID (dq_DelegateDID req)
                              (Some signer) ttl (Some claims) "jwt-vc" with
                      | Err err =>
                          (WriteAPIError 500 "issuance_error" (error_text err), s,
                           [LogAuditEvent (r_Context r) (i_event i)
                              (event "credential.delegation_created" (dq_DelegateDID req) issuerDID
                                 "failure" "" metadata)])
                      | Ok token =>
                          (respond 200 (mkIssueResponse token [] "" APIVersion), s,
                           record_event (r_Context r) (i_event i)
                             (event "credential.delegation_created" (dq_DelegateDID req) issuerDID
                                "success" "" (<["format" := VStr "jwt-vc"]> metadata)))
                      end
                  end
              end
          end
      end.
End issuer.

(** ** Key generation *)

(** Source: internal/httpserver/keygen_handlers.go, [KeygenRequest]. *)
Record KeygenRequest := mkKeygenRequest { kg_Algorithm : string; kg_ReturnPrivateKey : bool }.

(** Source: internal/httpserver/keygen_handlers.go, [KeygenResponse]. *)
Record KeygenResponse := mkKeygenResponse {
  kr_DID : string;
  kr_Algorithm : string;
  kr_PublicJWK : string;
  kr_PrivateKeyPEM : string;
}.

Section keygen.
Context `{Json (gmap string gval), Pkcs8}.

(** Source: internal/httpserver/keygen_handlers.go, [HandleKeygeneration]. *)
Definition HandleKeygeneration (d : draw) : handler KeygenRequest unit KeygenResponse :=
  fun r s =>
    match r_Body r with
    | None => halt s (http_error 400 "invalid request body")
    | Some req =>
        let algorithm := if bool_decide (kg_Algorithm req = "") then "EdDSA" else kg_Algorithm req in
        if negb (bool_decide (algorithm = "EdDSA")) && negb (bool_decide (algorithm = "ES256")) then
          halt s (http_error 400 "unsupported algorithm, use EdDSA or ES256")
        else
          match NewDIDJWKWithAlg d algorithm with
          | Err _ => halt s (http_error 500 "failed to generate DID")
          | Ok doc =>
              match CurrentKey doc with
              | Err _ => halt s (http_error 500 "failed to generate DID")
              | Ok key =>
                  match json_marshal (default ∅ (ke_PublicJWK key)) with
                  | Err _ => halt s (http_error 500 "failed to generate DID")
                  | Ok publicJWK =>
                      halt s (respond 201
                        (mkKeygenResponse (doc_DID doc) (ke_Algorithm key) publicJWK
                           (if kg_ReturnPrivateKey req then ke_PrivateKeyPEM key else "")))
                  end
              end
          end
    end.

(** Source: internal/httpserver/issuer_handlers.go:46-52, [RegisterIssuerRoutes]. *)
Definition handleKeygen (d : draw) : handler KeygenRequest unit KeygenResponse :=
  fun r s =>
    if negb (bool_decide (r_Method r = "POST")) then
      halt s (WriteAPIError 405 "method_not_allowed" "Only POST method is allowed")
    else HandleKeygeneration d r s.
End keygen.
