(* ===== verification/IssuerProps.v ===== *)
(** * Properties of the issuer's endpoints.

    What the issue and the delegate endpoint answer with is accepted by the verifier; the
    limits of the issuance policy bind; and the lifetime that slips through. *)

From S2P Require Import Prelude GoStrings Base64 GoTime Errors Values Crypto Credential Delegation.
From S2P Require Import SDJwt Verify VerifyFacts Issue IssueFacts IssuancePolicy Config Http Did Instances.
From S2P Require Import Keys KeysProps Issuer.
From Stdlib Require Import ZArith Ascii String Lia.
From stdpp Require Import gmap list strings.

Local Open Scope string_scope.

(** ** Tokens with a format *)

Lemma w3c_claims_format p f :
  vc_Claims (pl_VC p) = vc_CredentialSubject (pl_VC p) ->
  vc_Claims (w3c_credential (payload_image (with_format (payload_image p) f))).1 = map_image (vc_Claims (pl_VC p)).
Proof.
  destruct p as [? ? ? iat exp ? [? ? ? ? ? ? cs ? ? ? ? ? ? ? ? ? ? ? ? cl ? ? ?]]; cbn. intros <-.
  unfold w3c_credential, payload_image, with_format, vc_image. cbn.
  destruct cl as [m|]; cbn.
  2: { by destruct (0 <? iat)%Z; cbn; destruct (0 <? exp)%Z. }
  pose proof (map_image_idem (Some m)) as Hi. cbn in Hi. injection Hi as Hi.
  destruct (0 <? iat)%Z; cbn; destruct (0 <? exp)%Z; cbn;
    (case_bool_decide as Hm; cbn; [subst; by rewrite !fmap_empty|]);
    (case_bool_decide as Hm'; cbn; [by apply fmap_empty_inv in Hm'|by rewrite Hi]).
Qed.

Section tokens.
Context `{Json (gmap string gval), Json VCJWTPayload, Json VerifiableCredential,
  Json (list gval), Sha256, Ed25519, Rfc3339}.
Context `{!JsonLaw (gmap string gval) (fun m => json_safe (VObj m)) (fmap json_image)}.
Context `{!JsonLaw VCJWTPayload payload_safe payload_image}.

(** A credential issued with a format verifies for its life. *)
Lemma formatted_token_verifies now uuid iss sub s k ttl m f :
  let p := basic_payload now uuid iss sub ttl (Some m) in
  signer_ok s k -> issuable now uuid iss sub ttl (Some m) ->
  payload_safe (with_format (payload_image p) f) = true ->
  exists token c,
    IssueBasicCredentialWithFormat now uuid iss sub (Some s) ttl (Some m) f = Ok token
    /\ parseSDJWTPayload token = (token, [])
    /\ (forall resolve now', resolve iss = Ok (PubEd25519 k) -> within_life now ttl now' ->
          verifySingleCredential token [] resolve "" now' = Ok c
          /\ vc_ExpiresAt c = (sec_of (now + ttl) * second)%Z)
    /\ vc_Issuer c = iss /\ vc_Subject c = sub /\ vc_Claims c = map_image (Some m) /\ utf8_valid token = true.
Proof.
  cbv zeta. intros Hk Hiss Hsafe.
  destruct (IssueBasicCredentialWithFormat_returns now uuid iss sub s k ttl (Some m) f Hk Hiss Hsafe)
    as (ht & pt & sg & Ht & Hu & Hv).
  set (p := basic_payload now uuid iss sub ttl (Some m)) in *.
  set (q := with_format (payload_image p) f) in *.
  exists (jwt_token ht pt sg), (w3c_credential (payload_image q)).1.
  split; [exact Ht|]. split; [apply parse_jwt_token|].
  pose proof (w3c_credential_fields (payload_image q)) as (Hi & _ & _ & Hs & _ & _ & Hx & _). split.
  - intros resolve now' Hr Hl. split.
    + exact (verify_issued_token ht pt sg k now uuid iss sub ttl (Some m) (Some f) [] resolve now' Hu Hv Hr Hl).
    + pose proof (within_life_dates _ _ _ Hl) as ((_ & _ & _ & Hpos) & Hc & Hadd).
      rewrite Hx; [|exact Hpos].
      change (pl_EXP (payload_image q)) with (to_unix (time_add now ttl)). by rewrite Hadd, unix_to_unix.
  - split; [rewrite Hi; done|]. split; [rewrite Hs; done|]. split; [by apply (w3c_claims_format p f)|apply jwt_token_text].
Qed.

(** What a token is read as does not depend on who reads it, for whom and when. *)
Lemma verifySingleCredential_det token ds resolve resolve' aud aud' now now' c c' :
  verifySingleCredential token ds resolve aud now = Ok c ->
  verifySingleCredential token ds resolve' aud' now' = Ok c' -> c = c'.
Proof.
  unfold verifySingleCredential, verify_w3c, verify_legacy.
  destruct (split_on "."%char token) as [|p0 [|p1 [|p2 [|]]]]; try done.
  intros Hc Hc'. bind_inv Hc as payload Hp. bind_inv Hc' as payload' Hp'.
  rewrite Hp in Hp'. injection Hp' as <-.
  assert (Hflat : forall flat a a' n n' x x',
    verify_legacy flat p0 p1 p2 ds resolve a n = Ok x -> verify_legacy flat p0 p1 p2 ds resolve' a' n' = Ok x' ->
    x = x').
  { intros flat a a' n n' x x' Hx Hx'. unfold verify_legacy in Hx, Hx'.
    bind_inv Hx as [] _. stop_inv Hx as _. stop_inv Hx as _. bind_inv Hx as y Hy. stop_inv Hx as _.
    bind_inv Hx' as [] _. stop_inv Hx' as _. stop_inv Hx' as _. bind_inv Hx' as y' Hy'. stop_inv Hx' as _.
    congruence. }
  destruct (json_unmarshal payload) as [q|]; [case_bool_decide|].
  - bind_inv Hc as flat Hf. bind_inv Hc' as flat' Hf'. rewrite Hf in Hf'. injection Hf' as <-. by eapply Hflat.
  - destruct (w3c_credential q) as [c0 al].
    bind_inv Hc as [] _. stop_inv Hc as _. stop_inv Hc as _. bind_inv Hc as y Hy. stop_inv Hc as _.
    bind_inv Hc' as [] _. stop_inv Hc' as _. stop_inv Hc' as _. bind_inv Hc' as y' Hy'. stop_inv Hc' as _.
    congruence.
  - bind_inv Hc as flat Hf. bind_inv Hc' as flat' Hf'. rewrite Hf in Hf'. injection Hf' as <-. by eapply Hflat.
Qed.
End tokens.

(** ** The checks before the key *)

Lemma issue_checks_Ok {R} cfg req ttl m :
  issue_checks (R := R) cfg req = Ok (ttl, m) <->
  ValidateDID (iq_SubjectDID req) = Ok tt /\ ttl = seconds (iq_TTLSeconds req)
  /\ (0 < ttl <= max_ttl (ic_Policy cfg))%Z /\ m = default ∅ (iq_Claims req)
  /\ (iq_Claims req <> None -> ValidateCredentialSubject (iq_Claims req) = Ok tt)
  /\ ValidateRequest (ic_Policy cfg) (iq_TTLSeconds req) (Some m) = Ok tt.
Proof.
  unfold issue_checks. split.
  - intros Hc. bind_inv Hc as [] Hd. stop_inv Hc as Hp. stop_inv Hc as Hm. bind_inv Hc as m' Hcl.
    bind_inv Hc as [] Hv. injection Hc as <- <-. ok_simp Hd. ok_simp Hv. breflect.
    split; [done|]. split; [done|]. split; [lia|]. destruct (iq_Claims req) as [c|].
    + bind_inv Hcl as [] Hs. injection Hcl as <-. ok_simp Hs. done.
    + injection Hcl as <-. done.
  - intros (-> & -> & Ht & -> & Hs & Hv). cbn [map_err rbind].
    rewrite (proj2 (Z.leb_gt _ _)), (proj2 (Z.ltb_ge _ _)) by lia. destruct (iq_Claims req) as [c|].
    + rewrite Hs by done. cbn [map_err rbind default]. cbn in Hv. by rewrite Hv.
    + cbn [rbind]. cbn in Hv. by rewrite Hv.
Qed.

Lemma validation_status {R} e : rs_Status (R := R) (WriteValidationError e) = 400%Z.
Proof. unfold WriteValidationError. by destruct (error_as_validation e). Qed.

Lemma issue_checks_Err {R} cfg req (resp : response R) :
  issue_checks cfg req = Err resp -> rs_Status resp = 400%Z.
Proof.
  unfold issue_checks. destruct (ValidateDID _); cbn [map_err rbind]; [|by intros [= <-]].
  destruct (_ <=? 0)%Z; [intros [= <-]; apply validation_status|].
  destruct (_ <? _)%Z; [intros [= <-]; apply validation_status|].
  destruct (iq_Claims req) as [m|].
  - destruct (ValidateCredentialSubject _); cbn [map_err rbind]; [|intros [= <-]; apply validation_status].
    destruct (ValidateRequest _ _ _); by intros [= <-].
  - cbn [rbind]. destruct (ValidateRequest _ _ _); by intros [= <-].
Qed.

Section endpoints.
Context `{Json (gmap string gval), Json (list gval), Json VCJWTPayload, Json VerifiableCredential,
  Sha256, Ed25519, Rfc3339}.
Context {St : Type} `{KeyStore St}.
Variables (cfg : IssuerConfig) (audit : bool) (bad : string).

(** The key and the DID of the request's tenant. *)
Lemma signing_identity_Ok {B R} (r : request B) s d sg did s' :
  signing_identity (R := R) cfg r s d = (Ok (sg, did), s') <->
  GetSigningKey s d (tenant_or_default r (ic_DefaultTenantID cfg)) = (Ok sg, s')
  /\ DIDFromPublicKey (signer_Public sg) = Ok did.
Proof.
  unfold signing_identity. destruct (GetSigningKey s d _) as [[sg'|] s'']; [|split; [done|by intros [? _]]].
  destruct (DIDFromPublicKey (signer_Public sg')) eqn:Hd; split.
  - by intros [= <- <- <-].
  - intros [[= <- <-] Hd']. congruence.
  - done.
  - intros [[= <- <-] Hd']. congruence.
Qed.

Definition issue_format (req : IssueRequest) : string :=
  if bool_decide (iq_Format req = "") then "jwt-vc" else iq_Format req.

Lemma handleIssue_200 i r s resp s' es :
  handleIssue cfg audit bad i r s = (resp, s', es) -> rs_Status resp = 200%Z ->
  exists req ttl m sg did token ds,
    r_Method r = "POST" /\ r_Body r = Some req /\ issue_checks (R := IssueResponse) cfg req = Ok (ttl, m)
    /\ signing_identity (R := IssueResponse) cfg r s (i_keys i) = (Ok (sg, did), s')
    /\ issue_token (R := IssueResponse) i sg did (iq_SubjectDID req) (issue_format req) ttl m = Ok (token, ds)
    /\ resp = respond 200 (mkIssueResponse token ds (issue_format req) APIVersion)
    /\ exists e, es = record_event audit (r_Context r) (i_event i) e
         /\ ev_EventType e = "credential.issued"
         /\ ev_SubjectDID e = iq_SubjectDID req /\ ev_IssuerDID e = did /\ ev_Outcome e = "success".
Proof.
  unfold handleIssue, halt. case_bool_decide as Hm; cbn [negb]; [|by intros [= <- <- <-]].
  destruct (r_Body r) as [req|]; [|by intros [= <- <- <-]].
  destruct (issue_checks cfg req) as [[ttl m]|resp'] eqn:Hc.
  2: { intros [= <- <- <-] Hst. apply issue_checks_Err in Hc. congruence. }
  destruct (signing_identity cfg r s (i_keys i)) as [[[sg did]|resp'] s1] eqn:Hs.
  2: { intros [= <- <- <-] Hst. unfold signing_identity in Hs. by repeat case_match; simplify_eq. }
  fold (issue_format req).
  destruct (issue_token i sg did _ _ ttl m) as [[token ds]|resp'] eqn:Ht.
  2: { intros [= <- <- <-] Hst. unfold issue_token, WriteValidationError in Ht. by repeat case_match; simplify_eq. }
  intros [= <- <- <-] _. exists req, ttl, m, sg, did, token, ds. do 6 (split; [done|]). eexists. done.
Qed.

(** C6: Whatever the issue endpoint signs is within the policy.  When it answers 200, the
    request had a valid subject DID; the lifetime it signed for is positive, at most a day
    and at most the policy's maximum; every required claim is there and every scope is
    allowed; the signature is by the key of the request's own tenant, under that key's DID;
    and exactly one success event was logged for the subject and the issuer (and stored,
    with an audit store). *)
Theorem issue_endpoint_sound i r s resp s' es :
  handleIssue cfg audit bad i r s = (resp, s', es) -> rs_Status resp = 200%Z ->
  exists req ttl sg did token ds e,
    let m := default ∅ (iq_Claims req) in let p := ic_Policy cfg in
    r_Body r = Some req /\ ValidateDID (iq_SubjectDID req) = Ok tt
    /\ (0 < ttl <= 24 * hour)%Z /\ (0 < MaxTTLSeconds p -> ttl <= seconds (MaxTTLSeconds p))%Z
    /\ has_required p (Some m) /\ scopes_allowed p (Some m)
    /\ GetSigningKey s (i_keys i) (tenant_or_default r (ic_DefaultTenantID cfg)) = (Ok sg, s')
    /\ DIDFromPublicKey (signer_Public sg) = Ok did
    /\ issue_token (R := IssueResponse) i sg did (iq_SubjectDID req) (issue_format req) ttl m = Ok (token, ds)
    /\ resp = respond 200 (mkIssueResponse token ds (issue_format req) APIVersion)
    /\ es = record_event audit (r_Context r) (i_event i) e
    /\ ev_SubjectDID e = iq_SubjectDID req /\ ev_IssuerDID e = did /\ ev_Outcome e = "success".
Proof.
  intros Hh Hst. destruct (handleIssue_200 _ _ _ _ _ _ Hh Hst)
    as (req & ttl & m & sg & did & token & ds & _ & Hb & Hc & Hs & Ht & Hr & e & He & _ & He1 & He2 & He3).
  apply issue_checks_Ok in Hc as (Hd & _ & Hl & -> & _ & Hv%ValidateRequest_Ok).
  apply signing_identity_Ok in Hs as [Hk Hdid]. exists req, ttl, sg, did, token, ds, e. cbv zeta.
  destruct Hv as (_ & Hreq & Hsc). unfold max_ttl, hour, minute, second in *.
  split; [done|]. split; [done|]. split; [destruct (0 <? MaxTTLSeconds (ic_Policy cfg))%Z; lia|].
  split; [|done]. intros Hp%Z.ltb_lt. rewrite Hp in Hl. lia.
Qed.
End endpoints.

Section signed.
Context `{Json (gmap string gval), Json (list gval), Json VCJWTPayload, Json VerifiableCredential,
  Sha256, Ed25519, Rfc3339}.
Context `{!JsonLaw (gmap string gval) (fun m => json_safe (VObj m)) (fmap json_image)}.
Context `{!JsonLaw VCJWTPayload payload_safe payload_image}.
Context {St : Type} `{KeyStore St}.
Variables (cfg : IssuerConfig) (audit : bool) (bad : string).

(** What is signed for the claims of a request, and the disclosures handed out with it: the
    claims themselves or, for an SD-JWT, the digests of their disclosures. *)
Definition signs (i : issuance) (format : string) (claims signed : gmap string gval) (ds : list string) : Prop :=
  if decide (format = "sd-jwt") then
    exists dds, build_disclosures (i_entries i claims) = Ok dds /\ ds = dds.*1
      /\ signed = {["_sd" := VStrs dds.*2; "_sd_alg" := VStr "sha256"]}
  else signed = claims /\ ds = [].

Lemma issue_token_signs {R} i sg did sub format ttl claims signed ds token :
  signs i format claims signed ds ->
  IssueBasicCredentialWithFormat (i_now i) (i_uuid i) did sub (Some sg) ttl (Some signed) format = Ok token ->
  issue_token (R := R) i sg did sub format ttl claims = Ok (token, ds).
Proof.
  unfold signs, issue_token, IssueSDJWTCredential. case_decide as Hf.
  - intros (dds & Hd & -> & ->) Ht. rewrite bool_decide_eq_true_2, Hd by done. cbn [rbind]. subst format.
    cbv zeta in *. by rewrite Ht.
  - intros [-> ->] Ht. by rewrite bool_decide_eq_false_2, Ht by done.
Qed.

(** A request that passes the checks, whose claims can be disclosed when it asks for an SD-JWT,
    is answered 200 with a token when the key signs; at any instant of its life the verifier
    that resolves the issuer to the tenant's key accepts it, and reads back the issuer, the
    subject and what was signed for the claims of the request. *)
Theorem issue_endpoint_roundtrip i r s req ttl m signed ds sg k did s' resolve now' :
  let p := basic_payload (i_now i) (i_uuid i) did (iq_SubjectDID req) ttl (Some signed) in
  r_Method r = "POST" -> r_Body r = Some req -> issue_checks (R := IssueResponse) cfg req = Ok (ttl, m) ->
  signs i (issue_format req) m signed ds ->
  GetSigningKey s (i_keys i) (tenant_or_default r (ic_DefaultTenantID cfg)) = (Ok sg, s') ->
  signer_ok sg k -> DIDFromPublicKey (PubEd25519 k) = Ok did -> ValidateDID did = Ok tt ->
  payload_safe p = true -> payload_safe (with_format (payload_image p) (issue_format req)) = true ->
  resolve did = Ok (PubEd25519 k) -> within_life (i_now i) ttl now' ->
  exists token c es,
    handleIssue cfg audit bad i r s
      = (respond 200 (mkIssueResponse token ds (issue_format req) APIVersion), s', es)
    /\ VerifyCredential token (mkDeps (Some resolve)) "" now' = Ok c
    /\ vc_Issuer c = did /\ vc_Subject c = iq_SubjectDID req /\ vc_Claims c = map_image (Some signed)
    /\ utf8_valid token = true.
Proof.
  cbv zeta. intros Hpost Hb Hc Hf Hg Hk Hdid Hvd Hsafe Hsafe' Hr Hl.
  pose proof (proj1 (issue_checks_Ok (R := IssueResponse) cfg req ttl m) Hc) as (Hsub & _ & Ht & _).
  destruct (formatted_token_verifies (i_now i) (i_uuid i) did (iq_SubjectDID req) sg k ttl signed
    (issue_format req) Hk) as (token & c & Hi & Hps & Hv & Hci & Hcs & Hcc);
    [split; [done|]; split; [done|]; split; [lia|done]|done|].
  destruct (Hv resolve now' Hr Hl) as [Hver _].
  assert (Hs : signing_identity (R := IssueResponse) cfg r s (i_keys i) = (Ok (sg, did), s')).
  { apply signing_identity_Ok. split; [done|]. by rewrite (proj1 Hk). }
  exists token, c. eexists. split; [|split; [|done]].
  - unfold handleIssue. rewrite bool_decide_eq_true_2 by done. cbn [negb].
    rewrite Hb, Hc, Hs. fold (issue_format req). by rewrite (issue_token_signs _ _ _ _ _ _ _ _ _ _ Hf Hi).
  - unfold VerifyCredential, VerifyCredentialChain. cbn. rewrite Hps, Hver. done.
Qed.

(** ** Delegation *)

Lemma delegate_checks_Err {R} req (resp : response R) :
  delegate_checks req = Err resp -> rs_Status resp = 400%Z.
Proof.
  unfold delegate_checks. case_bool_decide; [intros [= <-]; apply validation_status|].
  destruct (ValidateDID _); cbn [map_err rbind]; [|by intros [= <-]].
  case_bool_decide; [intros [= <-]; apply validation_status|].
  by destruct (_ <=? 0)%Z; [intros [= <-]; apply validation_status|].
Qed.

Lemma delegate_checks_Ok {R} req ttl :
  delegate_checks (R := R) req = Ok ttl ->
  ValidateDID (dq_DelegateDID req) = Ok tt /\ (0 < ttl)%Z /\ ttl = seconds (dq_TTLSeconds req).
Proof.
  unfold delegate_checks. intros Hc. stop_inv Hc as _. bind_inv Hc as [] Hd. stop_inv Hc as _. stop_inv Hc as Ht.
  injection Hc as <-. ok_simp Hd. breflect. split; [done|]. split; [lia|done].
Qed.

Lemma check_parent_Err now sg did ttl req (resp : response IssueResponse) :
  check_parent cfg now sg did ttl req = Err resp -> rs_Status resp <> 200%Z.
Proof.
  unfold check_parent. destruct (VerifyCredentialChain _ _ _ _) as [pr|err]; cbn [map_err rbind].
  - case_match; [by intros [= <-]|]. case_match; [by intros [= <-]|].
    destruct (ValidateRequest _ _ _); by intros [= <-].
  - intros [= <-]. cbn. unfold parent_status. by repeat case_match.
Qed.

(** What the check of the parent establishes. *)
Lemma check_parent_Ok now sg did ttl req c m :
  check_parent (R := IssueResponse) cfg now sg did ttl req = Ok (c, m) ->
  let t := dq_ParentCredential req in
  verifySingleCredential (parseSDJWTPayload t).1 (parseSDJWTPayload t).2 (own_resolver sg did) "" now = Ok c
  /\ IsScopeSubset (ScopeFromClaims (vc_Claims c)) (dq_Scope req) = true
  /\ IsTTLWithinParent (vc_ExpiresAt c) (time_add now ttl) = true
  /\ m = delegated_claims c (dq_Scope req)
  /\ ValidateRequest (ic_Policy cfg) (dq_TTLSeconds req) (Some m) = Ok tt.
Proof.
  cbv zeta. unfold check_parent. intros Hp. bind_inv Hp as pr Hv. stop_inv Hp as Hs. stop_inv Hp as Ht.
  bind_inv Hp as [] Hval. injection Hp as <- <-. ok_simp Hv. ok_simp Hval.
  apply VerifyCredentialChain_Ok in Hv as (cs & _ & Hall & _ & _ & ->).
  destruct cs as [|c [|]]; cbn in Hall; [done| |by destruct Hall as [_ []]]. destruct Hall as [Hc _].
  apply negb_false_iff in Hs, Ht. cbn in *. done.
Qed.

Lemma handleDelegate_200 i r s resp s' es :
  handleDelegate cfg audit bad i r s = (resp, s', es) -> rs_Status resp = 200%Z ->
  exists req ttl sg did c m token,
    r_Body r = Some req /\ delegate_checks (R := IssueResponse) req = Ok ttl
    /\ signing_identity (R := IssueResponse) cfg r s (i_keys i) = (Ok (sg, did), s')
    /\ check_parent (R := IssueResponse) cfg (i_verify i) sg did ttl req = Ok (c, m)
    /\ IssueBasicCredentialWithFormat (i_now i) (i_uuid i) did (dq_DelegateDID req) (Some sg) ttl (Some m) "jwt-vc"
       = Ok token
    /\ resp = respond 200 (mkIssueResponse token [] "" APIVersion).
Proof.
  unfold handleDelegate, halt. case_bool_decide as Hm; cbn [negb]; [|by intros [= <- <- <-]].
  destruct (r_Body r) as [req|]; [|by intros [= <- <- <-]].
  destruct (delegate_checks req) as [ttl|resp'] eqn:Hc.
  2: { intros [= <- <- <-] Hst. apply delegate_checks_Err in Hc. congruence. }
  destruct (signing_identity cfg r s (i_keys i)) as [[[sg did]|resp'] s1] eqn:Hs.
  2: { intros [= <- <- <-] Hst. unfold signing_identity in Hs. by repeat case_match; simplify_eq. }
  destruct (check_parent cfg (i_verify i) sg did ttl req) as [[c m]|resp'] eqn:Hp.
  2: { intros [= <- <- <-] Hst. by apply check_parent_Err in Hp. }
  destruct (IssueBasicCredentialWithFormat _ _ _ _ _ _ _ _) as [token|] eqn:Ht; [|by intros [= <- <- <-]].
  intros [= <- <- <-] _. by exists req, ttl, sg, did, c, m, token.
Qed.

Lemma delegated_scope c scope : ScopeFromClaims (Some (delegated_claims c scope)) = scope.
Proof. unfold delegated_claims. by destruct (claim (vc_Claims c) "aud"). Qed.

(** C5: What the delegate endpoint signs completes a chain.  When it answers 200, the parent
    followed by the new token is accepted as a delegation chain, by any verifier that resolves
    the issuer to the tenant's key, at any instant at which the parent is accepted and the
    new credential lives; the chain ends at the requested delegate with exactly the requested
    scope.  (The parent's lifetime is checked before the credential is dated: the two clock
    readings must agree on the second in which it expires.) *)
Theorem delegate_endpoint_completes_chain i r s resp s' es req sg k did c resolve now' :
  let ttl := seconds (dq_TTLSeconds req) in
  let p := basic_payload (i_now i) (i_uuid i) did (dq_DelegateDID req) ttl
             (Some (delegated_claims c (dq_Scope req))) in
  handleDelegate cfg audit bad i r s = (resp, s', es) -> rs_Status resp = 200%Z ->
  r_Body r = Some req ->
  GetSigningKey s (i_keys i) (tenant_or_default r (ic_DefaultTenantID cfg)) = (Ok sg, s') ->
  signer_ok sg k -> DIDFromPublicKey (PubEd25519 k) = Ok did -> ValidateDID did = Ok tt ->
  resolve did = Ok (PubEd25519 k) ->
  VerifyCredential (dq_ParentCredential req) (mkDeps (Some resolve)) "" now' = Ok c ->
  payload_safe p = true -> payload_safe (with_format (payload_image p) "jwt-vc") = true ->
  within_life (i_now i) ttl now' ->
  (sec_of (i_now i + ttl) <= sec_of (time_add (i_verify i) ttl))%Z ->
  exists token leaf,
    resp = respond 200 (mkIssueResponse token [] "" APIVersion)
    /\ VerifyCredentialChain [dq_ParentCredential req; token] (mkDeps (Some resolve)) (mkOptions "" 0) now'
       = Ok (chain_result [c; leaf])
    /\ vc_Subject leaf = dq_DelegateDID req /\ ScopeFromClaims (vc_Claims leaf) = dq_Scope req.
Proof.
  cbv zeta. intros Hh Hst Hb Hg Hk Hdid Hvd Hr Hpar Hsafe Hsafe' Hl Hsec.
  destruct (handleDelegate_200 _ _ _ _ _ _ Hh Hst) as (req' & ttl & sg' & did' & c' & m & token & Hb' & Hc & Hs & Hp & Ht & ->).
  rewrite Hb in Hb'. injection Hb' as <-. apply signing_identity_Ok in Hs as [Hg' Hdid'].
  rewrite Hg in Hg'. injection Hg' as <-. rewrite (proj1 Hk), Hdid in Hdid'. injection Hdid' as <-.
  apply delegate_checks_Ok in Hc as (Hsub & Hpos & ->). apply check_parent_Ok in Hp as (Hpv & Hps & Hpt & -> & _).
  unfold VerifyCredential in Hpar. bind_inv Hpar as pr Hpr.
  apply VerifyCredentialChain_Ok in Hpr as (cs & _ & Hall & _ & _ & ->).
  destruct cs as [|c0 [|]]; cbn in Hall; [done| |by destruct Hall as [_ []]]. destruct Hall as [Hc0 _].
  cbn in Hpar. injection Hpar as ->. pose proof (verifySingleCredential_det _ _ _ _ _ _ _ _ _ _ Hc0 Hpv) as <-.
  destruct (formatted_token_verifies (i_now i) (i_uuid i) did (dq_DelegateDID req) sg k
    (seconds (dq_TTLSeconds req)) (delegated_claims c (dq_Scope req)) "jwt-vc" Hk)
    as (token' & leaf & Ht' & Hparse & Hv & _ & Hleaf & Hcl & _); [done|done|].
  rewrite Ht in Ht'. injection Ht' as <-. destruct (Hv resolve now' Hr Hl) as [Hver Hexp].
  exists token, leaf. split; [done|]. split; [|by rewrite Hcl, ScopeFromClaims_image, delegated_scope].
  apply VerifyCredentialChain_Ok. exists [c; leaf]. split; [done|]. split; [cbn; by rewrite Hparse|].
  split; [|split; [right; cbn; lia|done]]. cbn [linked]. split; [|done]. split.
  - by rewrite Hcl, ScopeFromClaims_image, delegated_scope.
  - apply IsTTLWithinParent_spec in Hpt. apply IsTTLWithinParent_spec. rewrite Hexp.
    unfold within_life, unix_to_internal in Hl.
    assert (Hle : (sec_of (time_add (i_verify i) (seconds (dq_TTLSeconds req))) * second
                   <= time_add (i_verify i) (seconds (dq_TTLSeconds req)))%Z).
    { pose proof (time_split (time_add (i_verify i) (seconds (dq_TTLSeconds req)))) as He.
      pose proof (nsec_bound (time_add (i_verify i) (seconds (dq_TTLSeconds req)))). lia. }
    assert (Hnz : (0 < sec_of (i_now i + seconds (dq_TTLSeconds req)))%Z).
    { unfold sec_of. apply Z.div_str_pos. unfold second in *. lia. }
    revert Hpt. unfold expiry, expires_within, is_zero, second in *.
    destruct (vc_ExpiresAt c =? 0)%Z; [done|].
    destruct (time_add (i_verify i) (seconds (dq_TTLSeconds req)) =? 0)%Z; [done|].
    rewrite (proj2 (Z.eqb_neq _ _)) by lia. lia.
Qed.
End signed.

(** ** The lifetime that wraps around *)

(** A negative lifetime is accepted.  The seconds of the request are multiplied into
    nanoseconds before they are compared, and the product wraps around: a request for
    -18446744073 seconds passes the check that the lifetime be positive and every limit of
    the policy, and is signed for 709551616 nanoseconds. *)
Theorem negative_ttl_accepted {R} cfg req :
  iq_TTLSeconds req = (-18446744073)%Z -> ValidateDID (iq_SubjectDID req) = Ok tt ->
  (iq_Claims req <> None -> ValidateCredentialSubject (iq_Claims req) = Ok tt) ->
  (MaxTTLSeconds (ic_Policy cfg) <= 86400)%Z ->
  has_required (ic_Policy cfg) (Some (default ∅ (iq_Claims req))) ->
  scopes_allowed (ic_Policy cfg) (Some (default ∅ (iq_Claims req))) ->
  issue_checks (R := R) cfg req = Ok (709551616%Z, default ∅ (iq_Claims req)).
Proof.
  intros Ht Hd Hc Hmax Hreq Hsc. apply issue_checks_Ok. rewrite Ht.
  split; [done|]. split; [by vm_compute|]. split.
  - unfold max_ttl. destruct (0 <? MaxTTLSeconds (ic_Policy cfg))%Z eqn:Hp; [|by vm_compute]. breflect.
    rewrite seconds_exact by (unfold in_int64, min_int64, max_int64, second; lia).
    unfold hour, minute, second. lia.
  - split; [done|]. split; [done|]. apply ValidateRequest_Ok. split; [|done]. unfold ttl_within. lia.
Qed.

(** ** Instances *)

Definition day_policy : IssuerConfig := mkIssuerConfig "" "acme" "" "" "" (mkIssuancePolicy 86400 ["read"; "write"] ["scope"]).

Definition scope_claims : gmap string gval := {["scope" := VArr [VStr "read"; VStr "write"]]}.

Definition bob_request (ttl : Z) : IssueRequest := mkIssueRequest "did:ex:bob" ttl (Some scope_claims) "".

Definition post {B} (b : B) : request B := mkRequest "POST" "/" "" (fun _ => "") "" (Some b) background.

Definition issuance_at (t : time) : issuance := mkIssuance no_draw t t "id" t (fun _ => []).

(** A store that holds alice's key. *)
Definition alice_store : MemoryKeyStore := mkMemory {["acme" := alice]} ∅.

Definition alice_did : string := Eval vm_compute in
  default "" (to_option (DIDFromPublicKey (PubEd25519 alice_key))).

Lemma alice_store_key d : GetSigningKey alice_store d "acme" = (Ok alice, alice_store).
Proof. reflexivity. Qed.

Lemma alice_did_eq : DIDFromPublicKey (PubEd25519 alice_key) = Ok alice_did.
Proof. vm_compute. reflexivity. Qed.

Definition issued (b : outcome MemoryKeyStore IssueResponse) : string :=
  match rs_Body (out_response b) with Body b => is_Credential b | _ => "" end.

Definition bob_issue : outcome MemoryKeyStore IssueResponse :=
  handleIssue day_policy true "" (issuance_at t0) (post (bob_request 60)) alice_store.

Lemma negative_ttl_accepted_witness :
  iq_TTLSeconds (bob_request (-18446744073)) = (-18446744073)%Z
  /\ issue_checks (R := IssueResponse) day_policy (bob_request (-18446744073)) = Ok (709551616%Z, scope_claims).
Proof.
  split; [reflexivity|].
  apply (negative_ttl_accepted day_policy (bob_request (-18446744073))); try (vm_compute; reflexivity).
  - vm_compute. discriminate.
  - intros key Hk. apply list_elem_of_singleton in Hk as ->. eexists. reflexivity.
  - right. intros s0 Hs. exact Hs.
Defined.

Lemma issue_endpoint_sound_witness :
  rs_Status (out_response bob_issue) = 200%Z
  /\ exists ttl, (0 < ttl <= 24 * hour)%Z /\ (ttl <= seconds 86400)%Z.
Proof.
  assert (Hst : rs_Status (out_response bob_issue) = 200%Z) by (vm_compute; reflexivity).
  split; [exact Hst|].
  destruct (issue_endpoint_sound day_policy true "" (issuance_at t0) (post (bob_request 60)) alice_store
    (out_response bob_issue) (out_state bob_issue) (out_effects bob_issue))
    as (req & ttl & sg & did & token & ds & e & _ & _ & Ht & Hm & _).
  - apply outcome_eta.
  - exact Hst.
  - exists ttl. split; [exact Ht|apply Hm; reflexivity].
Defined.

Lemma issue_endpoint_roundtrip_witness :
  exists token c es,
    handleIssue day_policy true "" (issuance_at t0) (post (bob_request 60)) alice_store
      = (respond 200 (mkIssueResponse token [] "jwt-vc" APIVersion), alice_store, es)
    /\ VerifyCredential token (mkDeps (Some resolve_alice)) "" (t0 + 5 * second)%Z = Ok c
    /\ vc_Subject c = "did:ex:bob".
Proof.
  destruct (issue_endpoint_roundtrip day_policy true "" (issuance_at t0) (post (bob_request 60)) alice_store
    (bob_request 60) minute scope_claims scope_claims [] alice alice_key alice_did alice_store resolve_alice (t0 + 5 * second)%Z)
    as (token & c & es & Hh & Hv & _ & Hs & _).
  1, 2: reflexivity.
  1: vm_compute; reflexivity.
  1: by split.
  1: reflexivity.
  1: apply plain_signer_ok.
  1: apply alice_did_eq.
  1-3: vm_compute; reflexivity.
  1: reflexivity.
  1: unfold within_life, civil_time; repeat split; vm_compute; congruence.
  exists token, c, es. split; [exact Hh|]. split; [exact Hv|exact Hs].
Defined.

Definition parent_token : string := Eval vm_compute in
  issued (handleIssue day_policy true "" (issuance_at t0) (post (bob_request 3600)) alice_store).

Definition carol_request : DelegateRequest := mkDelegateRequest parent_token "did:ex:carol" ["read"] 60.

Definition carol_delegate : outcome MemoryKeyStore IssueResponse :=
  handleDelegate day_policy true "" (issuance_at t0) (post carol_request) alice_store.

Definition parent_credential : VerifiableCredential :=
  default zero_vc (to_option (VerifyCredential parent_token (mkDeps (Some resolve_alice)) "" (t0 + second)%Z)).

Lemma parent_verifies :
  VerifyCredential parent_token (mkDeps (Some resolve_alice)) "" (t0 + second)%Z = Ok parent_credential.
Proof. vm_compute. reflexivity. Qed.

Lemma carol_state : out_state carol_delegate = alice_store.
Proof. vm_compute. reflexivity. Qed.

Lemma carol_outcome :
  handleDelegate day_policy true "" (issuance_at t0) (post carol_request) alice_store
  = (out_response carol_delegate, alice_store, out_effects carol_delegate).
Proof. pose proof (outcome_eta carol_delegate) as He. rewrite carol_state in He. exact He. Qed.

Lemma delegate_endpoint_completes_chain_witness :
  rs_Status (out_response carol_delegate) = 200%Z
  /\ exists token leaf,
       VerifyCredentialChain [parent_token; token] (mkDeps (Some resolve_alice)) (mkOptions "" 0) (t0 + second)%Z
         = Ok (chain_result [parent_credential; leaf])
       /\ vc_Subject leaf = "did:ex:carol" /\ ScopeFromClaims (vc_Claims leaf) = ["read"].
Proof.
  assert (Hst : rs_Status (out_response carol_delegate) = 200%Z) by (vm_compute; reflexivity).
  split; [exact Hst|].
  destruct (delegate_endpoint_completes_chain day_policy true "" (issuance_at t0) (post carol_request) alice_store
    (out_response carol_delegate) alice_store (out_effects carol_delegate) carol_request alice alice_key alice_did
    parent_credential resolve_alice (t0 + second)%Z) as (token & leaf & _ & Hv & Hs & Hsc).
  1: exact carol_outcome.
  1: exact Hst.
  1, 2: reflexivity.
  1: apply plain_signer_ok.
  1: apply alice_did_eq.
  1: vm_compute; reflexivity.
  1: reflexivity.
  1: exact parent_verifies.
  1, 2: vm_compute; reflexivity.
  1: unfold within_life, civil_time; repeat split; vm_compute; congruence.
  1: vm_compute; congruence.
  exists token, leaf. split; [exact Hv|]. split; [exact Hs|exact Hsc].
Defined.
