(* ===== verification/Admin.v ===== *)
(** * Admin access, bootstrap, verification and policy administration over HTTP.

    Models internal/httpserver/admin_middleware.go, bootstrap_handlers.go,
    verifier_handlers.go, policy_admin_handlers.go and health_handlers.go.  The clock
    readings of a handler are arguments, in the order it makes them. *)

From S2P Require Import Prelude GoStrings Base64 GoTime Errors Values Crypto Credential Delegation.
From S2P Require Import SDJwt Verify Issue Policy PolicyStore Http Trust Did Keys Issuer.
From Stdlib Require Import ZArith Ascii String Lia.
From stdpp Require Import gmap list strings.

Local Open Scope string_scope.

(** ** Who is an administrator *)

Section admin.
Context `{Json (list gval), Json VCJWTPayload, Json VerifiableCredential, Sha256, Ed25519}.
Context {T : Type} `{TrustRegistry T}.

(** The key lookup of the middleware.
    Source: internal/httpserver/admin_middleware.go:42-55, [AdminAuthMiddleware]. *)
Definition admin_resolver (resolver : string -> result error public_key) (trustRegistry : option T)
    (tenantID issuer : string) : result error public_key :=
  let! _ :=
    match trustRegistry with
    | None => Ok tt
    | Some s =>
        let! trusted := IsTrustedIssuer s tenantID issuer in
        stop! negb trusted with ErrVar ErrUntrustedIssuer in Ok tt
    end in
  resolver issuer.

(** The credential of the request's bearer token, or the refusal.
    Source: internal/httpserver/admin_middleware.go:18-80, [AdminAuthMiddleware]. *)
Definition admin_credential {B R} (resolver : string -> result error public_key) (trustRegistry : option T)
    (defaultTenantID : string) (now : time) (r : request B) : result (response R) VerifiableCredential :=
  let authHeader := r_Header r "Authorization" in
  stop! bool_decide (authHeader = "") with
    WriteAPIError 401 "missing_authorization" "Authorization header required" in
  stop! negb (has_prefix authHeader "Bearer ") with
    WriteAPIError 401 "invalid_authorization" "Authorization must be Bearer token" in
  let credential := trim_prefix authHeader "Bearer " in
  stop! bool_decide (credential = "") with
    WriteAPIError 401 "missing_credential" "Bearer token is empty" in
  let tenantID := tenant_or_default r defaultTenantID in
  let deps := mkDeps (Some (admin_resolver resolver trustRegistry tenantID)) in
  let! chainResult := map_err (fun err => WriteAPIError 401 "invalid_credential" (error_text err))
                        (VerifyCredentialChain [credential] deps (mkOptions "" 1) now) in
  let! leafCredential := of_option (WriteAPIError 401 "no_credentials" "No valid credentials found")
                           (last (cr_Credentials chainResult)) in
  let! _ := map_err (fun err =>
              if bool_decide (err = ErrVar ErrNotAdminVC)
              then WriteAPIError 403 "admin_credential_required" "Admin credential required"
              else WriteAPIError 403 "insufficient_privileges" (error_text err))
            (ValidateAdminVC (vc_Claims leafCredential) SuperAdminRole) in
  Ok leafCredential.

(** Source: internal/httpserver/admin_middleware.go, [AdminAuthMiddleware]. *)
Definition AdminAuthMiddleware {B St R} (resolver : string -> result error public_key)
    (trustRegistry : option T) (defaultTenantID : string) (now : time) (next : handler B St R)
  : handler B St R :=
  fun r s =>
    match admin_credential resolver trustRegistry defaultTenantID now r with
    | Err resp => halt s resp
    | Ok leaf => next (with_context (with_admin (vc_Subject leaf) (vc_Claims leaf) (r_Context r)) r) s
    end.
End admin.

(** Source: internal/httpserver/admin_middleware.go, [AdminSubjectFromContext]. *)
Definition AdminSubjectFromContext (c : context) : string := default "" (ctx_AdminSubject c).

(** Source: internal/httpserver/admin_middleware.go, [AdminClaimsFromContext]. *)
Definition AdminClaimsFromContext (c : context) : claims_map := default None (ctx_AdminClaims c).

(** ** Bootstrap *)

(** Source: internal/httpserver/bootstrap_handlers.go, [BootstrapRequest]. *)
Record BootstrapRequest := mkBootstrapRequest { bq_RootAdminDID : string }.

(** Source: internal/httpserver/bootstrap_handlers.go, [BootstrapResponse]. *)
Record BootstrapResponse := mkBootstrapResponse {
  bs_IssuerDID : string;
  bs_RootAdminCredential : string;
  bs_ExpiresAt : time;
  bs_APIVersion : string;
}.

(** The claims of the root administrator.
    Source: internal/httpserver/bootstrap_handlers.go:72-75, [RegisterBootstrapRoutes]. *)
Definition root_claims `{Rfc3339} (now : time) : gmap string gval :=
  CreateAdminClaims [SuperAdminRole] (Some {["bootstrap" := VBool true; "created_at" := VStr (format_rfc3339 now)]}).

Section bootstrap.
Context `{Json (gmap string gval), Json VCJWTPayload, Rfc3339}.
Context {K T : Type} `{KeyStore K, TrustRegistry T}.

(** [created], [expiry] and [now] are the clock readings for the claim, for the response
    and for the credential; [d] and [uuid] are what the key store and the issuer draw.
    Source: internal/httpserver/bootstrap_handlers.go:32-102, [RegisterBootstrapRoutes]. *)
Definition handleBootstrap (defaultTenantID : string) (d : draw) (created expiry now : time) (uuid : string)
  : handler BootstrapRequest (K * option T) BootstrapResponse :=
  fun r s =>
    let '(store, trustRegistry) := s in
    if negb (bool_decide (r_Method r = "POST")) then
      halt s (WriteAPIError 405 "method_not_allowed" "method not allowed")
    else
      match r_Body r with
      | None => halt s (WriteAPIError 400 "bad_request" "invalid request payload")
      | Some req =>
          if bool_decide (bq_RootAdminDID req = "") then
            halt s (WriteAPIError 400 "invalid_request" "root_admin_did is required")
          else
            match GetSigningKey store d defaultTenantID with
            | (Err err, store) => halt (store, trustRegistry) (WriteAPIError 500 "keystore_error" (error_text err))
            | (Ok signer, store) =>
                match DIDFromPublicKey (signer_Public signer) with
                | Err err => halt (store, trustRegistry) (WriteAPIError 500 "did_error" (error_text err))
                | Ok issuerDID =>
                    let trustRegistry :=
                      match trustRegistry with
                      | None => None
                      | Some reg =>
                          match AddTrustedIssuer reg defaultTenantID issuerDID with
                          | Ok reg' => Some reg'
                          | Err _ => Some reg
                          end
                      end in
                    match IssueBasicCredential now uuid issuerDID (bq_RootAdminDID req) (Some signer)
                            AdminVCTTL (Some (root_claims created)) with
                    | Err err => halt (store, trustRegistry) (WriteAPIError 500 "issuance_error" (error_text err))
                    | Ok rootAdminCredential =>
                        halt (store, trustRegistry)
                          (respond 200 (mkBootstrapResponse issuerDID rootAdminCredential
                                          (time_add expiry AdminVCTTL) APIVersion))
                    end
                end
            end
      end.
End bootstrap.

(** ** The verify endpoint *)

(** Source: internal/httpserver/verifier_handlers.go, [VerifyRequest]. *)
Record VerifyRequest := mkVerifyRequest {
  vq_Credential : string;
  vq_Credentials : list string;
  vq_ExpectedAudience : string;
  vq_Disclosures : list string;
  vq_Format : string;
}.

(** Source: internal/httpserver/verifier_handlers.go, [VerifyResponse]. *)
Record VerifyResponse := mkVerifyResponse {
  vs_Valid : bool;
  vs_Subject : string;
  vs_Issuer : string;
  vs_ExpiresAt : time;
  vs_ActingOnBehalfOf : string;
  vs_DelegationDepth : Z;
  vs_APIVersion : string;
}.

(** The tokens a request presents.
    Source: internal/httpserver/verifier_handlers.go:60-80, [RegisterVerifierRoutes]. *)
Definition presented_tokens {R} (req : VerifyRequest) : result (response R) (list string) :=
  let tokens :=
    if bool_decide (vq_Credentials req = []) && negb (bool_decide (vq_Credential req = ""))
    then [vq_Credential req] else vq_Credentials req in
  let! tokens :=
    if bool_decide (vq_Format req = "sd-jwt") || negb (bool_decide (vq_Disclosures req = [])) then
      stop! bool_decide (vq_Credential req = "") with
        WriteAPIError 400 "invalid_request" "credential is required for sd-jwt verification" in
      Ok [if bool_decide (vq_Disclosures req = []) then vq_Credential req
          else vq_Credential req +:+ "~" +:+ str_join "~" (vq_Disclosures req)]
    else Ok tokens in
  stop! bool_decide (tokens = []) with WriteAPIError 400 "invalid_request" "credential is required" in
  Ok tokens.

(** Source: internal/httpserver/verifier_handlers.go:105-118, [RegisterVerifierRoutes]. *)
Definition verify_refusal (err : error) : Z * string :=
  if error_is err ErrUntrustedIssuer then (403%Z, "untrusted_issuer")
  else if error_is err ErrExpiredCredential || error_is err ErrInvalidSignature
          || error_is err ErrUnexpectedAudience || error_is err ErrIssuedInFuture
  then (401%Z, "invalid_credential")
  else if error_is err ErrInvalidDisclosure || error_is err ErrMissingDisclosure then (400%Z, "invalid_disclosure")
  else (400%Z, "verification_failed").

Section verifier.
Context `{Json (list gval), Json VCJWTPayload, Json VerifiableCredential, Sha256, Ed25519, Rfc3339}.
Context {T : Type} `{TrustRegistry T}.

(** Source: internal/httpserver/verifier_handlers.go:48-170, [RegisterVerifierRoutes]. *)
Definition handleVerify (resolver : option (string -> result error public_key)) (defaultTenantID : string)
    (now logged : time) : handler VerifyRequest (option T) VerifyResponse :=
  fun r registry =>
    if negb (bool_decide (r_Method r = "POST")) then
      halt registry (WriteAPIError 405 "method_not_allowed" "method not allowed")
    else
      match r_Body r with
      | None => halt registry (WriteAPIError 400 "bad_request" "invalid request payload")
      | Some req =>
          match presented_tokens req with
          | Err resp => halt registry resp
          | Ok tokens =>
              let tenantID := tenant_or_default r defaultTenantID in
              let deps := mkDeps (Some (trusted_resolver registry tenantID resolver)) in
              let count := VInt (Z.of_nat (length tokens)) in
              match VerifyCredentialChain tokens deps (mkOptions (vq_ExpectedAudience req) 3) now with
              | Err err =>
                  let '(status, reason) := verify_refusal err in
                  (WriteAPIError status reason (error_text err), registry,
                   [LogAuditEvent (r_Context r) logged
                      (event "credential.verified" "" "" "failure" reason
                         {["expected_audience" := VStr (vq_ExpectedAudience req); "credential_count" := count;
                           "error" := VStr (error_text err)]});
                    Counted (IncVerificationFailure reason)])
              | Ok chainResult =>
                  let leaf := default zero_vc (last (cr_Credentials chainResult)) in
                  let actingOnBehalfOf :=
                    if (0 <? cr_DelegationDepth chainResult)%Z then cr_RootDelegator chainResult
                    else vc_Subject leaf in
                  (respond 200
                     (mkVerifyResponse true (vc_Subject leaf) (vc_Issuer leaf) (vc_ExpiresAt leaf)
                        actingOnBehalfOf (cr_DelegationDepth chainResult) APIVersion), registry,
                   [LogAuditEvent (r_Context r) logged
                      (event "credential.verified" (vc_Subject leaf) (vc_Issuer leaf) "success" ""
                         {["expected_audience" := VStr (vq_ExpectedAudience req); "credential_count" := count;
                           "delegation_depth" := VInt (cr_DelegationDepth chainResult);
                           "acting_on_behalf_of" := VStr actingOnBehalfOf;
                           "expires_at" := VStr (format_rfc3339 (vc_ExpiresAt leaf));
                           "format" := VStr (vc_Format leaf)]});
                    Counted (IncVerificationSuccess "ok")])
              end
          end
      end.
End verifier.
