(* ===== verification/AdminProps.v ===== *)
(** * Properties of the admin gate, the bootstrap and the verify endpoint. *)

From S2P Require Import Prelude GoStrings Base64 GoTime Errors Values Crypto Credential Instances.
From S2P Require Import Delegation SDJwt Verify VerifyFacts Issue IssueFacts Http Trust Did Keys.
From S2P Require Import KeysProps Issuer IssuerProps Admin ChainExample.
From Stdlib Require Import ZArith Ascii String Lia.
From stdpp Require Import gmap list strings.

Local Open Scope string_scope.

Section gate.
Context `{Json (list gval), Json VCJWTPayload, Json VerifiableCredential, Sha256, Ed25519}.
Context {T : Type} `{TrustRegistryLaws T}.

Lemma admin_resolver_Ok resolver reg t issuer key :
  admin_resolver resolver (Some reg) t issuer = Ok key <-> issuer ∈ trusted_set reg t /\ resolver issuer = Ok key.
Proof.
  unfold admin_resolver. rewrite is_trusted_law. cbn [rbind]. case_bool_decide as Hi; cbn.
  - naive_solver.
  - split; [done|]. naive_solver.
Qed.

(** The credential a bearer token stands for when the gate opens. *)
Definition admin_token {B} (r : request B) (token : string) : Prop :=
  r_Header r "Authorization" = "Bearer " +:+ token /\ token <> "".

Lemma admin_credential_Ok {B R} resolver reg dflt now (r : request B) c :
  admin_credential (R := R) resolver reg dflt now r = Ok c <->
  exists token, admin_token r token
    /\ verifySingleCredential (parseSDJWTPayload token).1 (parseSDJWTPayload token).2
         (admin_resolver resolver reg (tenant_or_default r dflt)) "" now = Ok c
    /\ IsAdminVC (vc_Claims c) = true /\ HasAdminRole (vc_Claims c) SuperAdminRole = true.
Proof.
  unfold admin_credential, admin_token. split.
  - intros Hc. stop_inv Hc as _. stop_inv Hc as Hp. stop_inv Hc as Ht. bind_inv Hc as cr Hv.
    bind_inv Hc as leaf Hl. bind_inv Hc as [] Ha. injection Hc as ->. ok_simp Hv. ok_simp Hl. ok_simp Ha.
    apply negb_false_iff, has_prefix_spec in Hp as [token Hp].
    exists token. rewrite Hp, trim_prefix_app in *. breflect.
    apply VerifyCredentialChain_Ok in Hv as (cs & _ & Hall & _ & _ & ->).
    destruct cs as [|c0 [|]]; cbn in Hall; [done| |by destruct Hall as [_ []]]. destruct Hall as [Hc0 _].
    cbn in Hl. injection Hl as ->. apply ValidateAdminVC_Ok in Ha. done.
  - intros (token & [Hh Hne] & Hv & Ha). rewrite Hh, trim_prefix_app, has_prefix_app.
    rewrite !bool_decide_eq_false_2 by done. cbn [negb].
    assert (VerifyCredentialChain [token]
      (mkDeps (Some (admin_resolver resolver reg (tenant_or_default r dflt)))) (mkOptions "" 1) now
      = Ok (chain_result [c])) as ->.
    { apply VerifyCredentialChain_Ok. exists [c]. split; [done|]. split; [done|].
      split; [done|]. split; [right; cbn; lia|done]. }
    cbn [map_err rbind of_option last chain_result cr_Credentials].
    by rewrite (proj2 (ValidateAdminVC_Ok _ _) Ha).
Qed.

Lemma admin_credential_Err {B R} resolver reg dflt now (r : request B) (resp : response R) :
  admin_credential resolver reg dflt now r = Err resp -> rs_Status resp = 401%Z \/ rs_Status resp = 403%Z.
Proof.
  unfold admin_credential.
  destruct (bool_decide (r_Header r "Authorization" = "")); [by intros [= <-]; left|].
  destruct (negb _); [by intros [= <-]; left|]. destruct (bool_decide (trim_prefix _ _ = "")); [by intros [= <-]; left|].
  destruct (VerifyCredentialChain _ _ _ _) as [cr|]; cbn [map_err rbind]; [|by intros [= <-]; left].
  destruct (last _) as [c|]; cbn [of_option rbind]; [|by intros [= <-]; left].
  destruct (ValidateAdminVC _ _); cbn [map_err rbind]; [done|].
  case_bool_decide; intros [= <-]; by right.
Qed.

(** A token the gate verifies is genuine, and its issuer trusted by the tenant. *)
Lemma admin_genuine resolver reg tenant audience now token c :
  verifySingleCredential (parseSDJWTPayload token).1 (parseSDJWTPayload token).2
    (admin_resolver resolver (Some reg) tenant) audience now = Ok c ->
  genuine resolver now token c /\ vc_Issuer c ∈ trusted_set reg tenant.
Proof.
  intros Hg%verified_genuine.
  pose proof (genuine_signed _ _ _ _ Hg) as (p0 & p1 & p2 & key & sg & _ & [Htr _]%admin_resolver_Ok & _).
  split; [|done]. eapply genuine_mono; [|exact Hg]. by intros k [_ ?]%admin_resolver_Ok.
Qed.

(** C8: The admin gate.  A request reaches the handler behind the gate exactly when its bearer
    token verifies to an admin credential with the super-admin role.  The credential that is
    asked for its role is then the token's own: what the token's payload says, signed by the
    key its issuer resolves to, unexpired at the gate's clock, its issuer trusted by the
    request's tenant; and the handler sees its subject.  Otherwise the answer is 401 or 403,
    with nothing changed and nothing recorded. *)
Theorem admin_gate {B St R} resolver reg dflt now (next : handler B St R) r s :
  (exists token c, admin_token r token
     /\ verifySingleCredential (parseSDJWTPayload token).1 (parseSDJWTPayload token).2
          (admin_resolver resolver (Some reg) (tenant_or_default r dflt)) "" now = Ok c
     /\ genuine resolver now token c
     /\ vc_Issuer c ∈ trusted_set reg (tenant_or_default r dflt)
     /\ IsAdminVC (vc_Claims c) = true /\ HasAdminRole (vc_Claims c) SuperAdminRole = true
     /\ exists r', AdminSubjectFromContext (r_Context r') = vc_Subject c
          /\ AdminAuthMiddleware resolver (Some reg) dflt now next r s = next r' s)
  \/ (~ (exists token c, admin_token r token
           /\ verifySingleCredential (parseSDJWTPayload token).1 (parseSDJWTPayload token).2
                (admin_resolver resolver (Some reg) (tenant_or_default r dflt)) "" now = Ok c
           /\ IsAdminVC (vc_Claims c) = true /\ HasAdminRole (vc_Claims c) SuperAdminRole = true)
      /\ exists resp, AdminAuthMiddleware resolver (Some reg) dflt now next r s = halt s resp
           /\ (rs_Status resp = 401%Z \/ rs_Status resp = 403%Z)).
Proof.
  unfold AdminAuthMiddleware.
  destruct (admin_credential resolver (Some reg) dflt now r) as [c|resp] eqn:Hc; [left|right].
  - apply admin_credential_Ok in Hc as (token & Ht & Hv & Ha & Hr). exists token, c. split; [done|]. split; [done|].
    destruct (admin_genuine _ _ _ _ _ _ _ Hv) as [Hg Htr]. do 4 (split; [done|]).
    exists (with_context (with_admin (vc_Subject c) (vc_Claims c) (r_Context r)) r). by split.
  - split; [|exists resp; split; [done|by eapply admin_credential_Err]].
    intros (token & c & Ht & Hv & Ha & Hr).
    assert (Hok : admin_credential (R := R) resolver (Some reg) dflt now r = Ok c)
      by (apply admin_credential_Ok; eauto 10).
    congruence.
Qed.
End gate.

(** ** Bootstrap *)

Lemma root_claims_admin `{Rfc3339} now :
  IsAdminVC (map_image (Some (root_claims now))) = true
  /\ HasAdminRole (map_image (Some (root_claims now))) SuperAdminRole = true.
Proof. split; reflexivity. Qed.

Lemma jwt_token_nonempty h p sg : jwt_token h p sg <> "".
Proof. unfold jwt_token. by destruct (b64_encode h). Qed.

Section bootstrap.
Context `{Json (gmap string gval), Json VCJWTPayload, Json VerifiableCredential,
  Json (list gval), Sha256, Ed25519, Rfc3339}.
Context `{!JsonLaw (gmap string gval) (fun m => json_safe (VObj m)) (fmap json_image)}.
Context `{!JsonLaw VCJWTPayload payload_safe payload_image}.
Context {K T : Type} `{KeyStore K, TrustRegistryLaws T}.

(** The credential the bootstrap signs is one the admin gate accepts. *)
Lemma root_credential_verifies created now uuid did root sg k :
  signer_ok sg k -> issuable now uuid did root AdminVCTTL (Some (root_claims created)) ->
  exists token c,
    IssueBasicCredential now uuid did root (Some sg) AdminVCTTL (Some (root_claims created)) = Ok token
    /\ token <> "" /\ parseSDJWTPayload token = (token, [])
    /\ (forall resolve now', resolve did = Ok (PubEd25519 k) -> within_life now AdminVCTTL now' ->
          verifySingleCredential token [] resolve "" now' = Ok c)
    /\ vc_Subject c = root /\ IsAdminVC (vc_Claims c) = true /\ HasAdminRole (vc_Claims c) SuperAdminRole = true.
Proof.
  intros Hk Hiss. destruct (IssueBasicCredential_returns _ _ _ _ _ _ _ _ Hk Hiss) as (ht & pt & sg' & Ht & Hu & Hv).
  set (q := basic_payload now uuid did root AdminVCTTL (Some (root_claims created))) in *.
  exists (jwt_token ht pt sg'), (w3c_credential (payload_image q)).1.
  split; [done|]. split; [apply jwt_token_nonempty|]. split; [apply parse_jwt_token|]. split.
  - intros resolve now' Hr Hl.
    exact (verify_issued_token ht pt sg' k now uuid did root AdminVCTTL (Some (root_claims created)) None []
             resolve now' Hu Hv Hr Hl).
  - pose proof (w3c_credential_fields (payload_image q)) as (_ & _ & _ & Hs & _).
    split; [exact Hs|]. rewrite (proj1 (w3c_claims_image q eq_refl)). apply root_claims_admin.
Qed.

(** C9: Bootstrapping makes an administrator.  With a key that signs and a valid DID for the
    root administrator, the bootstrap endpoint answers 200 with the issuer's DID and a
    credential; and for six months that credential opens the admin gate of the tenant, with
    the registry the bootstrap left behind, for the root administrator. *)
Theorem bootstrap_opens_gate tenant d created expiry now uuid r req store store' reg sg k did resolver now' :
  r_Method r = "POST" -> r_Body r = Some req -> ValidateDID (bq_RootAdminDID req) = Ok tt ->
  GetSigningKey store d tenant = (Ok sg, store') -> signer_ok sg k ->
  DIDFromPublicKey (PubEd25519 k) = Ok did -> ValidateDID did = Ok tt ->
  payload_safe (basic_payload now uuid did (bq_RootAdminDID req) AdminVCTTL (Some (root_claims created))) = true ->
  resolver did = Ok (PubEd25519 k) -> within_life now AdminVCTTL now' ->
  exists token reg',
    handleBootstrap tenant d created expiry now uuid r (store, Some reg)
    = halt (store', Some reg')
        (respond 200 (mkBootstrapResponse did token (time_add expiry AdminVCTTL) APIVersion))
    /\ forall B St R (next : handler B St R) r' s,
         r_Header r' "Authorization" = "Bearer " +:+ token -> tenant_or_default r' tenant = tenant ->
         exists r'', AdminSubjectFromContext (r_Context r'') = bq_RootAdminDID req
           /\ AdminAuthMiddleware resolver (Some reg') tenant now' next r' s = next r'' s.
Proof.
  intros Hpost Hb Hroot Hg Hk Hdid Hvd Hsafe Hr Hl.
  destruct (root_credential_verifies created now uuid did (bq_RootAdminDID req) sg k Hk)
    as (token & c & Hi & Hne & Hp & Hv & Hs & Ha & Hrole); [by split; [|split; [|split]]|].
  destruct (add_trusted_law reg tenant did) as (reg' & Hadd & Hset). exists token, reg'. split.
  - unfold handleBootstrap. rewrite bool_decide_eq_true_2 by done. cbn [negb]. rewrite Hb.
    rewrite bool_decide_eq_false_2 by (intros He; by rewrite He in Hroot).
    rewrite Hg, (proj1 Hk), Hdid, Hadd, Hi. done.
  - intros B St R next r' s Hh Ht. unfold AdminAuthMiddleware.
    assert (admin_credential (R := R) resolver (Some reg') tenant now' r' = Ok c) as ->.
    { apply admin_credential_Ok. exists token. split; [done|]. rewrite Hp. cbn. split; [|done].
      apply Hv; [|done]. apply admin_resolver_Ok. rewrite Ht, Hset, decide_True by done.
      split; [set_solver|done]. }
    eexists (with_context (with_admin (vc_Subject c) (vc_Claims c) (r_Context r')) r'). split; [|done].
    exact Hs.
Qed.
End bootstrap.

(** ** Instances *)

Definition empty_trust : MemoryTrust.MemoryTrustRegistry := MemoryTrust.NewMemoryTrustRegistry.

Definition show_admin : handler unit unit string :=
  fun r s => halt s (respond 200 (AdminSubjectFromContext (r_Context r))).

Definition bearer (token : string) : request unit :=
  mkRequest "GET" "/v1/admin/policies" "" (fun h => if bool_decide (h = "Authorization") then "Bearer " +:+ token else "")
    "" None background.

Lemma bootstrap_opens_gate_witness :
  exists token reg',
    handleBootstrap "acme" no_draw t0 t0 t0 "id" (post (mkBootstrapRequest "did:ex:root")) (alice_store, Some empty_trust)
    = halt (alice_store, Some reg')
        (respond 200 (mkBootstrapResponse alice_did token (time_add t0 AdminVCTTL) APIVersion))
    /\ AdminAuthMiddleware resolve_alice (Some reg') "acme" (t0 + hour)%Z show_admin (bearer token) tt
       = halt tt (respond 200 "did:ex:root").
Proof.
  destruct (bootstrap_opens_gate "acme" no_draw t0 t0 t0 "id" (post (mkBootstrapRequest "did:ex:root"))
    (mkBootstrapRequest "did:ex:root") alice_store alice_store empty_trust alice alice_key alice_did resolve_alice
    (t0 + hour)%Z) as (token & reg' & Hh & Hgate).
  1, 2: reflexivity.
  1: vm_compute; reflexivity.
  1: reflexivity.
  1: apply plain_signer_ok.
  1: apply alice_did_eq.
  1, 2: vm_compute; reflexivity.
  1: reflexivity.
  1: unfold within_life, civil_time; repeat split; vm_compute; congruence.
  exists token, reg'. split; [exact Hh|].
  destruct (Hgate unit unit string show_admin (bearer token) tt) as (r'' & Hs & Hm); [reflexivity..|].
  rewrite Hm. unfold show_admin. rewrite Hs. reflexivity.
Defined.

(** ** The verify endpoint *)

Section verify.
Context `{Json (list gval), Json VCJWTPayload, Json VerifiableCredential, Sha256, Ed25519, Rfc3339}.
Context {T : Type} `{TrustRegistryLaws T}.

Lemma presented_tokens_Err {R} req (resp : response R) :
  presented_tokens req = Err resp -> rs_Status resp = 400%Z.
Proof.
  unfold presented_tokens. destruct (_ || negb _)%bool; cbn [rbind].
  - destruct (bool_decide (vq_Credential req = "")); cbn [rbind]; [by intros [= <-]|].
    case_bool_decide; [by intros [= <-]|done].
  - case_bool_decide; [by intros [= <-]|done].
Qed.

Lemma verify_refusal_status err : (verify_refusal err).1 <> 200%Z.
Proof. unfold verify_refusal. by repeat case_match. Qed.

Lemma chain_trusted reg t resolver opts now tokens r :
  VerifyCredentialChain tokens (mkDeps (Some (trusted_resolver (Some reg) t resolver))) opts now = Ok r ->
  Forall (fun c => vc_Issuer c ∈ trusted_set reg t) (cr_Credentials r).
Proof.
  intros Hr. apply VerifyCredentialChain_Ok in Hr as (cs & _ & Hall & _ & _ & ->). cbn.
  apply verifies_all_sound in Hall. apply Forall_forall. intros c [n Hn]%list_elem_of_lookup_1.
  destruct (Forall2_lookup_r _ _ _ _ _ Hall Hn) as (tok & _ & Hsig%genuine_signed).
  destruct Hsig as (p0 & p1 & p2 & key & sg & _ & Hres & _).
  unfold trusted_resolver in Hres. rewrite is_trusted_law in Hres. cbn in Hres. by case_bool_decide.
Qed.

(** An answer 200 of the verify endpoint, read backwards. *)
Lemma handleVerify_200 resolver dflt now logged r reg resp reg' es :
  handleVerify resolver dflt now logged r (Some reg) = (resp, reg', es) -> rs_Status resp = 200%Z ->
  exists req tokens cs root leaf e,
    r_Body r = Some req /\ presented_tokens (R := VerifyResponse) req = Ok tokens
    /\ verifies_all (trusted_resolver (Some reg) (tenant_or_default r dflt) resolver)
         (vq_ExpectedAudience req) now tokens cs
    /\ linked delegates cs /\ (length cs <= 4)%nat
    /\ Forall (fun c => vc_Issuer c ∈ trusted_set reg (tenant_or_default r dflt)) cs
    /\ head cs = Some root /\ last cs = Some leaf
    /\ resp = respond 200 (mkVerifyResponse true (vc_Subject leaf) (vc_Issuer leaf) (vc_ExpiresAt leaf)
                (vc_Subject root) (Z.of_nat (length cs) - 1) APIVersion)
    /\ reg' = Some reg /\ es = [Logged e; Counted (IncVerificationSuccess "ok")]
    /\ ev_SubjectDID e = vc_Subject leaf /\ ev_Outcome e = "success".
Proof.
  unfold handleVerify, halt. case_bool_decide; cbn [negb]; [|by intros [= <- <- <-]].
  destruct (r_Body r) as [req|]; [|by intros [= <- <- <-]].
  destruct (presented_tokens req) as [tokens|resp'] eqn:Ht.
  2: { intros [= <- <- <-] Hst. apply presented_tokens_Err in Ht. congruence. }
  destruct (VerifyCredentialChain _ _ _ now) as [cr|err] eqn:Hv.
  2: { pose proof (verify_refusal_status err) as Hs. destruct (verify_refusal err). by intros [= <- <- <-]. }
  pose proof (chain_trusted _ _ _ _ _ _ _ Hv) as Htr.
  apply VerifyCredentialChain_Ok in Hv as (cs & Hne & Hall & Hlk & Hd & ->).
  assert (Hlen := verifies_all_length _ _ _ _ _ Hall).
  destruct cs as [|root cs]; [by destruct tokens|].
  destruct (last (root :: cs)) as [leaf|] eqn:Hl; [|by apply last_None in Hl].
  intros Heq _. exists req, tokens, (root :: cs), root, leaf. eexists. do 4 (split; [done|]).
  split; [unfold depth_within, max_depth in Hd; cbn -[length] in Hd; lia|].
  split; [done|]. split; [done|]. split; [done|].
  cbn -[last length] in Heq. rewrite Hl in Heq.
  assert (Hact : (if (0 <? Z.of_nat (length (root :: cs)) - 1)%Z then vc_Subject root else vc_Subject leaf)
    = vc_Subject root).
  { destruct cs as [|c cs]; [by injection Hl as ->|]. by rewrite (proj2 (Z.ltb_lt _ _)) by (cbn [length]; lia). }
  unfold default, from_option, id in Heq. rewrite Hact in Heq. injection Heq as <- <- <-. repeat split.
Qed.

(** C13: The verify endpoint says a credential is valid only when it is.  When it answers 200,
    the tokens presented form a chain of at most three delegations that verifies at that time
    and for the expected audience, every issuer of which is trusted by the request's tenant;
    the answer names the last credential's subject, issuer and expiry, the first one's
    subject as the one acted for, and the number of delegations.  Exactly one audit event and
    one counter are recorded, and the registry is only read. *)
Theorem verify_endpoint_sound resolver dflt now logged r reg resp reg' es :
  handleVerify resolver dflt now logged r (Some reg) = (resp, reg', es) -> rs_Status resp = 200%Z ->
  exists req tokens cs root leaf e,
    r_Body r = Some req /\ presented_tokens (R := VerifyResponse) req = Ok tokens
    /\ verifies_all (trusted_resolver (Some reg) (tenant_or_default r dflt) resolver)
         (vq_ExpectedAudience req) now tokens cs
    /\ linked delegates cs /\ (length cs <= 4)%nat
    /\ Forall (fun c => vc_Issuer c ∈ trusted_set reg (tenant_or_default r dflt)) cs
    /\ head cs = Some root /\ last cs = Some leaf
    /\ resp = respond 200 (mkVerifyResponse true (vc_Subject leaf) (vc_Issuer leaf) (vc_ExpiresAt leaf)
                (vc_Subject root) (Z.of_nat (length cs) - 1) APIVersion)
    /\ reg' = Some reg /\ es = [Logged e; Counted (IncVerificationSuccess "ok")]
    /\ ev_SubjectDID e = vc_Subject leaf /\ ev_Outcome e = "success".
Proof. apply handleVerify_200. Qed.
End verify.

Lemma verify_endpoint_sound_witness :
  let o := handleVerify (Some resolve_alice) "acme" t0 t0
    (post (mkVerifyRequest "" [root_token; leaf_token] "" [] "")) (Some alice_trusted) in
  rs_Status (out_response o) = 200%Z
  /\ exists cs, length cs = 2%nat /\ Forall (fun c => vc_Issuer c ∈ trusted_set alice_trusted "acme") cs.
Proof.
  cbv zeta. set (o := handleVerify _ _ _ _ _ _).
  assert (Hst : rs_Status (out_response o) = 200%Z) by (vm_compute; reflexivity). split; [exact Hst|].
  destruct (verify_endpoint_sound (Some resolve_alice) "acme" t0 t0
    (post (mkVerifyRequest "" [root_token; leaf_token] "" [] "")) alice_trusted (out_response o) (out_state o)
    (out_effects o) (outcome_eta o) Hst) as (req & tokens & cs & root & leaf & e & Hb & Ht & Hall & _ & _ & Htr & _).
  injection Hb as <-. injection Ht as <-. exists cs. split; [|exact Htr].
  symmetry. exact (verifies_all_length _ _ _ _ _ Hall).
Defined.
