(* ===== verification/PolicyAdmin.v ===== *)
(** * Policy administration over HTTP.

    Models internal/httpserver/policy_admin_handlers.go over any policy store (the class
    [PolicyStore]); the properties are proved against the laws of that interface. *)

From S2P Require Import Prelude GoStrings GoTime Errors Values Crypto Credential Instances Policy.
From S2P Require Import PolicyFacts PolicyStore Http.
From Stdlib Require Import ZArith Ascii String Lia.
From stdpp Require Import gmap list strings.

Local Open Scope string_scope.

(** Source: internal/httpserver/policy_admin_handlers.go, [PolicyRequest]. *)
Record PolicyRequest := mkPolicyRequest {
  pq_Name : string;
  pq_Description : string;
  pq_Effect : string;
  pq_Actions : slice;
  pq_Resources : slice;
  pq_Subjects : slice;
  pq_Conditions : claims_map;
  pq_Priority : option Z;
  pq_Enabled : option bool;
}.

(** The two bodies of a success.
    Source: internal/httpserver/policy_admin_handlers.go:25-33, [PolicyResponse]. *)
Inductive policy_body :=
| OnePolicy (p : Policy) (version : string)
| ManyPolicies (ps : list Policy) (version : string).

(** Source: internal/httpserver/policy_admin_handlers.go, [buildPolicyFromRequest]. *)
Definition buildPolicyFromRequest `{Unicode} (req : PolicyRequest) (tenantID defaultTenant : string)
  : result error Policy :=
  let tenantID := if bool_decide (tenantID = "") then defaultTenant else tenantID in
  stop! bool_decide (pq_Name req = "") with ErrText "name is required" in
  let eff := to_lower (pq_Effect req) in
  stop! (negb (bool_decide (eff = EffectAllow)) && negb (bool_decide (eff = EffectDeny))) with
    ErrText "effect must be allow or deny" in
  stop! (bool_decide (elems (pq_Actions req) = []) || bool_decide (elems (pq_Resources req) = [])
         || bool_decide (elems (pq_Subjects req) = [])) with
    ErrText "actions, resources, and subjects are required" in
  Ok (mkPolicy 0 tenantID (pq_Name req) (pq_Description req) eff (pq_Actions req) (pq_Resources req)
        (pq_Subjects req) (default ∅ (pq_Conditions req)) (default 100%Z (pq_Priority req))
        (default true (pq_Enabled req)) zero_time zero_time).

Section handlers.
Context `{Unicode}.
Context {St : Type} `{PolicyStore St}.
Variable defaultTenantID : string.

Definition policy_handler : Type := handler PolicyRequest St policy_body.

(** The answer to an error of the store.
    Source: internal/httpserver/policy_admin_handlers.go:122-131, [handleGetPolicy]. *)
Definition store_refusal (err : error) : response policy_body :=
  if bool_decide (err = ErrVar ErrPolicyNotFound) then WriteAPIError 404 "not_found" "policy not found"
  else WriteAPIError 500 "policy_error" (error_text err).

(** Source: internal/httpserver/policy_admin_handlers.go, [writePolicyResponse]. *)
Definition writePolicyResponse (p : Policy) : response policy_body := respond 200 (OnePolicy p APIVersion).

(** Source: internal/httpserver/policy_admin_handlers.go, [handleCreatePolicy]. *)
Definition handleCreatePolicy (now : time) : policy_handler :=
  fun r s =>
    match r_Body r with
    | None => halt s (WriteAPIError 400 "bad_request" "invalid request payload")
    | Some req =>
        match buildPolicyFromRequest req (TenantIDFromContext (r_Context r)) defaultTenantID with
        | Err err => halt s (WriteAPIError 400 "invalid_request" (error_text err))
        | Ok p =>
            match CreatePolicy s now (Some p) with
            | Err err => halt s (WriteAPIError 500 "policy_error" (error_text err))
            | Ok (p, s) => halt s (writePolicyResponse p)
            end
        end
    end.

(** Source: internal/httpserver/policy_admin_handlers.go, [handleListPolicies]. *)
Definition handleListPolicies : policy_handler :=
  fun r s =>
    match ListPoliciesForTenant s (tenant_or_default r defaultTenantID) with
    | Err err => halt s (WriteAPIError 500 "policy_error" (error_text err))
    | Ok policies => halt s (respond 200 (ManyPolicies policies APIVersion))
    end.

(** Source: internal/httpserver/policy_admin_handlers.go, [handleGetPolicy]. *)
Definition handleGetPolicy (id : Z) : policy_handler :=
  fun r s =>
    match GetPolicy s (tenant_or_default r defaultTenantID) id with
    | Err err => halt s (store_refusal err)
    | Ok p => halt s (writePolicyResponse p)
    end.

(** Source: internal/httpserver/policy_admin_handlers.go, [handleUpdatePolicy]. *)
Definition handleUpdatePolicy (now : time) (id : Z) : policy_handler :=
  fun r s =>
    match r_Body r with
    | None => halt s (WriteAPIError 400 "bad_request" "invalid request payload")
    | Some req =>
        match buildPolicyFromRequest req (TenantIDFromContext (r_Context r)) defaultTenantID with
        | Err err => halt s (WriteAPIError 400 "invalid_request" (error_text err))
        | Ok p =>
            match UpdatePolicy s now (Some (with_stamp id (p_CreatedAt p) (p_UpdatedAt p) p)) with
            | Err err => halt s (store_refusal err)
            | Ok (p, s) => halt s (writePolicyResponse p)
            end
        end
    end.

(** Source: internal/httpserver/policy_admin_handlers.go, [handleDeletePolicy]. *)
Definition handleDeletePolicy (id : Z) : policy_handler :=
  fun r s =>
    match DeletePolicy s (tenant_or_default r defaultTenantID) id with
    | Err err => halt s (store_refusal err)
    | Ok s => halt s (mkResponse 204 ∅ NoBody)
    end.

Definition not_allowed : response policy_body := WriteAPIError 405 "method_not_allowed" "method not allowed".

(** The answer at "/v1/admin/policies".
    Source: internal/httpserver/policy_admin_handlers.go:37-51, [RegisterPolicyAdminRoutes]. *)
Definition handlePolicies (now : time) : policy_handler :=
  fun r s =>
    if negb (bool_decide (r_Path r = "/v1/admin/policies")) then
      halt s (WriteAPIError 404 "not_found" "not found")
    else if bool_decide (r_Method r = "POST") then handleCreatePolicy now r s
    else if bool_decide (r_Method r = "GET") then handleListPolicies r s
    else halt s not_allowed.

(** The answer below "/v1/admin/policies/".
    Source: internal/httpserver/policy_admin_handlers.go:53-75, [RegisterPolicyAdminRoutes]. *)
Definition handlePolicyByID (now : time) : policy_handler :=
  fun r s =>
    let idStr := trim_prefix (r_Path r) "/v1/admin/policies/" in
    if bool_decide (idStr = "") then halt s (WriteAPIError 404 "not_found" "not found")
    else
      match parse_int idStr with
      | Some id =>
          if (id <=? 0)%Z then halt s (WriteAPIError 400 "invalid_request" "invalid policy id")
          else if bool_decide (r_Method r = "GET") then handleGetPolicy id r s
          else if bool_decide (r_Method r = "PUT") then handleUpdatePolicy now id r s
          else if bool_decide (r_Method r = "DELETE") then handleDeletePolicy id r s
          else halt s not_allowed
      | None => halt s (WriteAPIError 400 "invalid_request" "invalid policy id")
      end.

(** The two routes; [None] when the path is of neither.
    Source: internal/httpserver/policy_admin_handlers.go, [RegisterPolicyAdminRoutes]. *)
Definition policy_routes (now : time) (r : request PolicyRequest) (s : St) : option (outcome St policy_body) :=
  let path := r_Path r in
  if bool_decide (path = "/v1/admin/policies") then Some (handlePolicies now r s)
  else if has_prefix path "/v1/admin/policies/" then Some (handlePolicyByID now r s)
  else None.
End handlers.

(** ** Tenants *)

Lemma buildPolicyFromRequest_tenant `{Unicode} {B} (r : request B) req dflt p :
  buildPolicyFromRequest req (TenantIDFromContext (r_Context r)) dflt = Ok p ->
  p_TenantID p = tenant_or_default r dflt /\ p_CreatedAt p = zero_time
  /\ (p_Effect p = EffectAllow \/ p_Effect p = EffectDeny)
  /\ p_Name p <> "" /\ elems (p_Actions p) <> [] /\ elems (p_Resources p) <> [] /\ elems (p_Subjects p) <> [].
Proof.
  unfold buildPolicyFromRequest. intros Hp. stop_inv Hp as Hn. stop_inv Hp as He. stop_inv Hp as Ha.
  injection Hp as <-. cbn. split; [done|]. split; [done|].
  repeat case_bool_decide; try done; eauto 10.
Qed.

(** Every policy of a store can be evaluated: it has an effect and something to match. *)
Definition policy_wf (p : Policy) : Prop :=
  (p_Effect p = EffectAllow \/ p_Effect p = EffectDeny)
  /\ p_Name p <> "" /\ elems (p_Actions p) <> [] /\ elems (p_Resources p) <> [] /\ elems (p_Subjects p) <> [].

Section tenancy.
Context `{Unicode}.
Context {St : Type} `{PolicyStoreLaws St}.

Definition all_wf (s : St) : Prop := forall t id p, table s t !! id = Some p -> policy_wf p.

(** What a request may show: nothing, or policies of the tenant that the new state holds. *)
Definition shows_only (s : St) (t : string) (resp : response policy_body) : Prop :=
  match rs_Body resp with
  | Body (OnePolicy p _) => table s t !! p_ID p = Some p
  | Body (ManyPolicies ps _) => forall p, p ∈ ps <-> table s t !! p_ID p = Some p
  | _ => True
  end.

(** The effect of an outcome on the store, seen from tenant [t]. *)
Definition confined (s : St) (t : string) (o : outcome St policy_body) : Prop :=
  store_ok (out_state o) /\ all_wf (out_state o)
  /\ (forall t', t' <> t -> table (out_state o) t' = table s t')
  /\ shows_only (out_state o) t (out_response o).

Lemma confined_halt s t resp : store_ok s -> all_wf s -> shows_only s t resp -> confined s t (halt s resp).
Proof. done. Qed.

(** A write of one policy to the table of [t]. *)
Lemma confined_write s t s' id p' :
  all_wf s -> store_ok s' -> policy_wf p' -> p_ID p' = id ->
  (forall t', table s' t' = if decide (t' = t) then <[id := p']> (table s t') else table s t') ->
  confined s t (halt s' (writePolicyResponse p')).
Proof.
  intros Hwf Hok Hp Hid Htab. split; [done|]. split; [|split].
  - intros t' i q. cbn. rewrite Htab. case_decide; [|apply Hwf].
    rewrite lookup_insert. case_decide; [by intros [= <-]|apply Hwf].
  - intros t' Hne. cbn. by rewrite Htab, decide_False.
  - cbn. rewrite Htab, decide_True, Hid by done. apply lookup_insert_eq.
Qed.

Lemma handleCreatePolicy_confined dflt now r s :
  store_ok s -> store_room s -> all_wf s -> tenant_or_default r dflt <> "" ->
  confined s (tenant_or_default r dflt) (handleCreatePolicy dflt now r s).
Proof.
  intros Hok Hroom Hwf Ht. unfold handleCreatePolicy.
  destruct (r_Body r) as [req|]; [|by apply confined_halt].
  destruct (buildPolicyFromRequest _ _ _) as [p|] eqn:Hp; [|by apply confined_halt].
  apply buildPolicyFromRequest_tenant in Hp as (Hten & _ & Hpw). rewrite <- Hten in *.
  destruct (create_law s now p Hok Hroom Ht) as (id & s' & _ & Hc & Hok' & Htab). rewrite Hc.
  by apply (confined_write s _ s' id).
Qed.

Lemma handleUpdatePolicy_confined dflt now id r s :
  store_ok s -> all_wf s -> tenant_or_default r dflt <> "" ->
  confined s (tenant_or_default r dflt) (handleUpdatePolicy dflt now id r s).
Proof.
  intros Hok Hwf Ht. unfold handleUpdatePolicy.
  destruct (r_Body r) as [req|]; [|by apply confined_halt].
  destruct (buildPolicyFromRequest _ _ _) as [p|] eqn:Hp; [|by apply confined_halt].
  apply buildPolicyFromRequest_tenant in Hp as (Hten & _ & Hpw). rewrite <- Hten in *.
  pose proof (update_law s now (with_stamp id (p_CreatedAt p) (p_UpdatedAt p) p) Hok Ht) as Hu.
  cbn [p_TenantID p_ID with_stamp] in Hu. destruct (table s (p_TenantID p) !! id) as [old|].
  - destruct Hu as (s' & -> & Hok' & Htab). by apply (confined_write s _ s' id).
  - rewrite Hu. by apply confined_halt.
Qed.

Lemma handleDeletePolicy_confined dflt id r s :
  store_ok s -> all_wf s ->
  confined s (tenant_or_default r dflt) (handleDeletePolicy dflt id r s).
Proof.
  intros Hok Hwf. unfold handleDeletePolicy.
  pose proof (delete_law s (tenant_or_default r dflt) id Hok) as Hd.
  destruct (table s (tenant_or_default r dflt) !! id) as [old|].
  - destruct Hd as (s' & -> & Hok' & Htab). split; [done|]. split; [|split; [|done]].
    + intros t' i q. cbn. rewrite Htab. case_decide; [|apply Hwf].
      intros [_ Hq]%lookup_delete_Some. by eapply Hwf.
    + intros t' Hne. cbn. by rewrite Htab, decide_False.
  - rewrite Hd. by apply confined_halt.
Qed.

Lemma reads_confined dflt id r s :
  store_ok s -> all_wf s ->
  confined s (tenant_or_default r dflt) (handleListPolicies dflt r s)
  /\ confined s (tenant_or_default r dflt) (handleGetPolicy dflt id r s).
Proof.
  intros Hok Hwf. unfold handleListPolicies, handleGetPolicy. split.
  - destruct (list_spec s (tenant_or_default r dflt) Hok) as (l & -> & _ & _ & Hin & _).
    by apply confined_halt.
  - rewrite get_law by done. destruct (table s _ !! id) as [p|] eqn:Hp; cbn [of_option].
    + apply confined_halt; [done..|]. cbn. by destruct (table_keys s _ id p Hok Hp) as [-> _].
    + by apply confined_halt.
Qed.

Lemma handlePolicies_confined dflt now r s :
  store_ok s -> store_room s -> all_wf s -> tenant_or_default r dflt <> "" ->
  confined s (tenant_or_default r dflt) (handlePolicies dflt now r s).
Proof.
  intros Hok Hroom Hwf Ht. unfold handlePolicies.
  destruct (negb _); [by apply confined_halt|].
  destruct (bool_decide (r_Method r = "POST")); [by apply handleCreatePolicy_confined|].
  destruct (bool_decide (r_Method r = "GET")); [by apply (reads_confined dflt 0)|by apply confined_halt].
Qed.

Lemma handlePolicyByID_confined dflt now r s :
  store_ok s -> all_wf s -> tenant_or_default r dflt <> "" ->
  confined s (tenant_or_default r dflt) (handlePolicyByID dflt now r s).
Proof.
  intros Hok Hwf Ht. unfold handlePolicyByID.
  destruct (bool_decide (trim_prefix _ _ = "")); [by apply confined_halt|].
  destruct (parse_int _) as [id|]; [|by apply confined_halt].
  destruct (id <=? 0)%Z; [by apply confined_halt|].
  destruct (bool_decide (r_Method r = "GET")); [by apply reads_confined|].
  destruct (bool_decide (r_Method r = "PUT")); [by apply handleUpdatePolicy_confined|].
  destruct (bool_decide (r_Method r = "DELETE")); [by apply handleDeletePolicy_confined|by apply confined_halt].
Qed.

(** Policy administration is confined to the request's tenant.  Whatever request reaches
    the two routes, the policies of every other tenant stay as they are; what the response
    shows are policies of the tenant, as the store holds them afterwards; and the store keeps
    holding only policies with a name, a known effect, and actions, resources and subjects. *)
Theorem policy_admin_confined dflt now r s o :
  store_ok s -> store_room s -> all_wf s -> tenant_or_default r dflt <> "" ->
  policy_routes dflt now r s = Some o -> confined s (tenant_or_default r dflt) o.
Proof.
  intros Hok Hroom Hwf Ht. unfold policy_routes.
  destruct (bool_decide (r_Path r = _)); [intros [= <-]|destruct (has_prefix _ _); [intros [= <-]|done]].
  - by apply handlePolicies_confined.
  - by apply handlePolicyByID_confined.
Qed.
End tenancy.

#[local] Existing Instances Memory.memory_ops Memory.memory_laws.

Definition create_request : request PolicyRequest :=
  mkRequest "POST" "/v1/admin/policies" "" (fun _ => "") ""
    (Some (mkPolicyRequest "readers" "" "Allow" (Some ["read"]) (Some ["docs/*"]) (Some ["any"]) None None None))
    (with_tenant_key "acme" background).

Lemma policy_admin_confined_witness :
  exists o, policy_routes "default" t0 create_request Memory.NewMemoryStore = Some o
    /\ rs_Status (out_response o) = 200%Z
    /\ confined Memory.NewMemoryStore "acme" o.
Proof.
  destruct (policy_routes "default" t0 create_request Memory.NewMemoryStore) as [o|] eqn:Ho.
  - exists o. split; [reflexivity|]. split.
    + vm_compute in Ho. injection Ho as <-. reflexivity.
    + apply (policy_admin_confined "default" t0 create_request Memory.NewMemoryStore o).
      * apply Memory.new_ok.
      * reflexivity.
      * intros t id p. cbn. unfold Memory.tenant_table. cbn. rewrite lookup_empty. discriminate.
      * discriminate.
      * exact Ho.
  - discriminate (eq_sym Ho).
Defined.
