(* ===== verification/Postgres.v ===== *)
(** * The stores in PostgreSQL.

    Models internal/policy/store_pg.go, internal/storage (trust_registry_pg.go, audit_store.go)
    and the PostgreSQL parts of internal/tenant/store.go and internal/trust/tenant_registry.go.
    The tables are maps by primary key, as migrations/ declares them, and a statement is the
    change it makes to them.  [fails] is the error a statement meets, if any: the connection's,
    the driver's, or that of a value the server refuses; what it refuses of a policy and of JSON
    is written out, but for sizes.  Times are held as they are given,
    to the microsecond and beyond. *)

From S2P Require Import Prelude GoStrings GoTime Errors Values Crypto Credential Instances.
From S2P Require Import Policy PolicyFacts PolicyStore Http Tenant Trust.
From Stdlib Require Import ZArith Ascii String Sorted Lia Floats.SpecFloat.
From stdpp Require Import gmap list strings.

Local Open Scope string_scope.

(** ** Tables *)

(** A row of [policies]: its [conditions] column is the text of a JSON value, the rest is a
    policy without any. *)
Record policy_row := mkRow { pr_policy : Policy; pr_conditions : string }.

(** [tb_next] is the sequence of [policies.id]; an issuer is keyed by tenant and DID, its row
    is the metadata. *)
Record Database := mkDatabase {
  tb_tenants : gmap string Tenant;
  tb_issuers : gmap (string * string) string;
  tb_policies : gmap Z policy_row;
  tb_next : Z;
  tb_audit : list (AuditEvent * option string);
}.

Definition empty_database : Database := mkDatabase ∅ ∅ ∅ 1 [].

Definition with_tenants (db : Database) (x : gmap string Tenant) : Database :=
  mkDatabase x (tb_issuers db) (tb_policies db) (tb_next db) (tb_audit db).
Definition with_issuers (db : Database) (x : gmap (string * string) string) : Database :=
  mkDatabase (tb_tenants db) x (tb_policies db) (tb_next db) (tb_audit db).
Definition with_policies (db : Database) (x : gmap Z policy_row) (n : Z) : Database :=
  mkDatabase (tb_tenants db) (tb_issuers db) x n (tb_audit db).

(** A statement that fails stops the operation. *)
Definition sql (fails : option error) : result error unit := match fails with Some e => Err e | None => Ok tt end.

Definition max_int32 : Z := 2147483647.

(** Text columns hold valid UTF-8 without zero bytes. *)
Definition sql_text (s : string) : bool := utf8_valid s && no_byte "000"%char s.

(** The parameters of a statement that writes a policy are values of the columns' types, as
    migrations/0003_create_policies.sql has them; NULL, which [pq.Array] makes of a nil slice,
    is one. *)
Definition storable (p : Policy) : bool :=
  ((- max_int32 - 1 <=? p_Priority p) && (p_Priority p <=? max_int32))%Z
  && forallb sql_text ([p_TenantID p; p_Name p; p_Description p; p_Effect p]
                         ++ elems (p_Actions p) ++ elems (p_Resources p) ++ elems (p_Subjects p))%list.

(** The columns that are arrays are NOT NULL. *)
Definition no_null (p : Policy) : bool :=
  bool_decide (is_Some (p_Actions p) /\ is_Some (p_Resources p) /\ is_Some (p_Subjects p)).

Definition pq_error : error := ErrText "pq: invalid input".

(** A JSONB column refuses an escaped zero byte, in a string or a key. *)
Fixpoint jsonb_ok (v : gval) : bool :=
  match v with
  | VStr s => no_byte "000"%char s
  | VStrs l => forallb (no_byte "000"%char) l
  | VArr l => forallb jsonb_ok l
  | VObj m => map_fold (fun k v b => no_byte "000"%char k && jsonb_ok v && b) true m
  | _ => true
  end.

(** Its numbers are decimal numbers, which have one zero. *)
Fixpoint jsonb_image (v : gval) : gval :=
  match v with
  | VFloat (S754_zero _) => VFloat (S754_zero false)
  | VArr l => VArr (jsonb_image <$> l)
  | VObj m => VObj (jsonb_image <$> m)
  | v => v
  end.

(** A JSONB column keeps the value of the text it is given and writes it anew.  The server's
    spelling of a value and that of Go differ in spaces and digits only, so the text here is Go's. *)
Definition jsonb_input `{Json (gmap string gval)} (text : string) : result error string :=
  let! m := json_unmarshal text in
  stop! negb (jsonb_ok (VObj m)) with pq_error in
  json_marshal (jsonb_image <$> (m : gmap string gval)).

Definition with_conditions (c : gmap string gval) (p : Policy) : Policy :=
  mkPolicy (p_ID p) (p_TenantID p) (p_Name p) (p_Description p) (p_Effect p) (p_Actions p) (p_Resources p)
    (p_Subjects p) c (p_Priority p) (p_Enabled p) (p_CreatedAt p) (p_UpdatedAt p).

(** ** Policies *)

Module PGStore.
Section ops.
Context `{Json (gmap string gval)}.
Variable fails : option error.

(** Scanning a row.
    Source: internal/policy/store_pg.go:33-44, [PGStore.ListPoliciesForTenant]. *)
Definition read_row (r : policy_row) : result error Policy :=
  if bool_decide (pr_conditions r = "") then Ok (pr_policy r)
  else let! c := json_unmarshal (pr_conditions r) in Ok (with_conditions c (pr_policy r)).

(** The rows of a tenant. *)
Definition tenant_rows (db : Database) (tenantID : string) : gmap Z policy_row :=
  filter (fun kv => p_TenantID (pr_policy kv.2) = tenantID) (tb_policies db).

(** [ORDER BY priority ASC, id ASC] *)
Definition row_less (a b : policy_row) : bool := policy_less (pr_policy a) (pr_policy b).

(** Source: internal/policy/store_pg.go, [PGStore.ListPoliciesForTenant]. *)
Definition ListPoliciesForTenant (db : Database) (tenantID : string) : result error (list Policy) :=
  let! _ := sql fails in
  traverse read_row (sort_by row_less (map_to_list (tenant_rows db tenantID)).*2).

(** The parameters of a statement that writes a policy reach the server; the result is the text
    of its [conditions] column.
    Source: internal/policy/store_pg.go:52-62, [PGStore.CreatePolicy]. *)
Definition send_policy (p : option Policy) : result error (Policy * string) :=
  let! p := of_option (ErrText "policy is nil") p in
  let! condJSON := json_marshal (p_Conditions p) in
  let! _ := sql fails in
  stop! negb (storable p) with pq_error in
  let! column := jsonb_input condJSON in
  Ok (p, column).

(** [now] is the clock of the database.  A row that is refused for a NULL has taken its number
    from the sequence.
    Source: internal/policy/store_pg.go, [PGStore.CreatePolicy]. *)
Definition CreatePolicy (db : Database) (now : time) (p : option Policy) : result error Policy * Database :=
  match send_policy p with
  | Err e => (Err e, db)
  | Ok (p, column) =>
      if (max_int32 <? tb_next db)%Z then (Err pq_error, db)
      else if negb (no_null p) then (Err pq_error, with_policies db (tb_policies db) (tb_next db + 1))
      else
        let p' := with_stamp (tb_next db) now now p in
        (Ok p', with_policies db (<[tb_next db := mkRow (with_conditions ∅ p') column]> (tb_policies db)) (tb_next db + 1))
  end.

(** The row a statement finds by tenant and id.
    Source: internal/policy/store_pg.go:87-97, [PGStore.GetPolicy]. *)
Definition find_row (db : Database) (tenantID : string) (id : Z) : option policy_row :=
  r ← tb_policies db !! id; if bool_decide (p_TenantID (pr_policy r) = tenantID) then Some r else None.

(** The policy that is passed gets the new [updated_at] only; a NULL is refused in a row that
    is there.
    Source: internal/policy/store_pg.go, [PGStore.UpdatePolicy]. *)
Definition UpdatePolicy (db : Database) (now : time) (p : option Policy) : result error (Policy * Database) :=
  let! (p, column) := send_policy p in
  let! old := of_option (ErrVar ErrPolicyNotFound) (find_row db (p_TenantID p) (p_ID p)) in
  stop! negb (no_null p) with pq_error in
  let row := mkRow (with_conditions ∅ (with_stamp (p_ID p) (p_CreatedAt (pr_policy old)) now p)) column in
  Ok (with_stamp (p_ID p) (p_CreatedAt p) now p, with_policies db (<[p_ID p := row]> (tb_policies db)) (tb_next db)).

(** Source: internal/policy/store_pg.go, [PGStore.GetPolicy]. *)
Definition GetPolicy (db : Database) (tenantID : string) (id : Z) : result error Policy :=
  let! _ := sql fails in
  let! r := of_option (ErrVar ErrPolicyNotFound) (find_row db tenantID id) in
  read_row r.

(** Source: internal/policy/store_pg.go, [PGStore.DeletePolicy]. *)
Definition DeletePolicy (db : Database) (tenantID : string) (id : Z) : result error Database :=
  let! _ := sql fails in
  let! _ := of_option (ErrVar ErrPolicyNotFound) (find_row db tenantID id) in
  Ok (with_policies db (delete id (tb_policies db)) (tb_next db)).
End ops.

(** The store on a database whose statements do not fail, for clients that give it no nil slice
    (the admin endpoint refuses one): what a refused insertion does to the sequence is left out. *)
#[export] Instance pg_ops `{Json (gmap string gval)} : PolicyStore Database := {|
  PolicyStore.ListPoliciesForTenant := ListPoliciesForTenant None;
  PolicyStore.CreatePolicy db now p :=
    match CreatePolicy None db now p with (Ok p, db) => Ok (p, db) | (Err e, _) => Err e end;
  PolicyStore.UpdatePolicy := UpdatePolicy None;
  PolicyStore.GetPolicy := GetPolicy None;
  PolicyStore.DeletePolicy := DeletePolicy None;
|}.
End PGStore.

(** ** Trusted issuers *)

Module PGTrustRegistry.
Section ops.
Variable fails : option error.

(** Source: internal/storage/trust_registry_pg.go, [PGTrustRegistry.IsTrustedIssuer]. *)
Definition IsTrustedIssuer (db : Database) (tenantID issuerDID : string) : result error bool :=
  let! _ := sql fails in Ok (bool_decide (is_Some (tb_issuers db !! (tenantID, issuerDID)))).

(** Source: internal/storage/trust_registry_pg.go, [PGTrustRegistry.AddTrustedIssuer]. *)
Definition AddTrustedIssuer (db : Database) (tenantID issuerDID : string) : result error Database :=
  let! _ := sql fails in Ok (with_issuers db (<[(tenantID, issuerDID) := "{}"]> (tb_issuers db))).

(** Source: internal/storage/trust_registry_pg.go, [PGTrustRegistry.RemoveTrustedIssuer]. *)
Definition RemoveTrustedIssuer (db : Database) (tenantID issuerDID : string) : result error Database :=
  let! _ := sql fails in Ok (with_issuers db (delete (tenantID, issuerDID) (tb_issuers db))).
End ops.

#[export] Instance pg_trust : TrustRegistry Database := {|
  Trust.IsTrustedIssuer := IsTrustedIssuer None;
  Trust.AddTrustedIssuer := AddTrustedIssuer None;
  Trust.RemoveTrustedIssuer := RemoveTrustedIssuer None;
|}.

(** The issuers of a tenant. *)
Definition issuers_of (db : Database) (t : string) : gset string :=
  set_map snd (filter (fun k => k.1 = t) (dom (tb_issuers db))).

Lemma elem_of_issuers db t i : i ∈ issuers_of db t <-> is_Some (tb_issuers db !! (t, i)).
Proof.
  unfold issuers_of. rewrite elem_of_map. split.
  - intros ([t' i'] & -> & [Ht Hd]%elem_of_filter). cbn in *. subst. by apply elem_of_dom.
  - intros Hd%elem_of_dom. exists (t, i). split; [done|]. by apply elem_of_filter.
Qed.

(** The registry in the database keeps the promises of a registry, which the endpoints and the
    server rely on. *)
#[export] Instance pg_trust_laws : TrustRegistryLaws Database.
Proof.
  refine {| trusted_set := issuers_of |}.
  - intros db t i. cbn. unfold IsTrustedIssuer. cbn. f_equal. apply bool_decide_ext. by rewrite elem_of_issuers.
  - intros db t i. eexists. split; [done|]. intros t'. apply set_eq. intros j. rewrite elem_of_issuers. cbn [tb_issuers with_issuers].
    case_decide as Ht; [subst|].
    + rewrite elem_of_union, elem_of_singleton, elem_of_issuers. destruct (decide (j = i)) as [->|Hj].
      * rewrite lookup_insert_eq. split; [by left|by eexists].
      * rewrite lookup_insert_ne by congruence. split; [by right|by intros [?|?]].
    + rewrite lookup_insert_ne by congruence. by rewrite elem_of_issuers.
  - intros db t i. eexists. split; [done|]. intros t'. apply set_eq. intros j. rewrite elem_of_issuers. cbn [tb_issuers with_issuers].
    case_decide as Ht; [subst|].
    + rewrite elem_of_difference, elem_of_singleton, elem_of_issuers. destruct (decide (j = i)) as [->|Hj].
      * rewrite lookup_delete_eq. split; [by intros [? ?]|by intros [_ ?]].
      * rewrite lookup_delete_ne by congruence. split; [by split|by intros [? _]].
    + rewrite lookup_delete_ne by congruence. by rewrite elem_of_issuers.
Defined.
End PGTrustRegistry.

(** With metadata, on the same table. *)
Module PGTenantTrust.
Section ops.
Context `{Json (gmap string gval)}.
Variable fails : option error.

(** Source: internal/trust/tenant_registry.go, [PGTenantTrustRegistry.IsTrusted]. *)
Definition IsTrusted (db : Database) (tenantID issuerDID : string) : result error bool :=
  let! _ := sql fails in Ok (bool_decide (is_Some (tb_issuers db !! (tenantID, issuerDID)))).

(** Source: internal/trust/tenant_registry.go, [PGTenantTrustRegistry.AddTrustedIssuer]. *)
Definition AddTrustedIssuer (db : Database) (tenantID issuerDID : string) (md : claims_map) : result error Database :=
  let! metaBytes := match md with None => Ok "null" | Some m => json_marshal m end in
  let! _ := sql fails in
  let! metaBytes := if bool_decide (md = None) then Ok metaBytes else jsonb_input metaBytes in
  Ok (with_issuers db (<[(tenantID, issuerDID) := metaBytes]> (tb_issuers db))).

(** Source: internal/trust/tenant_registry.go, [PGTenantTrustRegistry.ListTrustedIssuers]. *)
Definition ListTrustedIssuers (db : Database) (tenantID : string) : result error (list string) :=
  let! _ := sql fails in
  Ok (snd <$> filter (fun k => k.1 = tenantID) (map_to_list (tb_issuers db)).*1).
End ops.
End PGTenantTrust.

(** ** Tenants *)

Module PGTenantStore.
Section ops.
Variable fails : option error.

(** Source: internal/tenant/store.go, [PGTenantStore.GetTenant]. *)
Definition GetTenant (db : Database) (id : string) : result error Tenant :=
  let! _ := sql fails in of_option (ErrVar ErrTenantNotFound) (tb_tenants db !! id).

(** Source: internal/tenant/store.go, [PGTenantStore.UpsertTenant]. *)
Definition UpsertTenant (db : Database) (now : time) (t : Tenant) : result error Database :=
  stop! bool_decide (t_ID t = "") with ErrText "tenant id is required" in
  let created := if is_zero (t_CreatedAt t) then now else t_CreatedAt t in
  let! _ := sql fails in
  let created := match tb_tenants db !! t_ID t with Some old => t_CreatedAt old | None => created end in
  Ok (with_tenants db (<[t_ID t := mkTenant (t_ID t) (t_Name t) (t_Enabled t) created now]> (tb_tenants db))).

(** Source: internal/tenant/store.go, [PGTenantStore.ListTenants]. *)
Definition ListTenants (db : Database) : result error (list Tenant) :=
  let! _ := sql fails in Ok (map_to_list (tb_tenants db)).*2.
End ops.
End PGTenantStore.

(** ** Audit *)

(** Source: internal/storage/audit_store.go, [PGAuditStore.InsertAuditEvent]. *)
Definition InsertAuditEvent `{Json (gmap string gval)} (fails : option error) (db : Database) (event : AuditEvent)
  : result error Database :=
  let metadataBytes := to_option (json_marshal (ev_Metadata event)) in
  let! _ := sql fails in
  let! metadataBytes := match metadataBytes with None => Ok None | Some text => let! text := jsonb_input text in Ok (Some text) end in
  Ok (mkDatabase (tb_tenants db) (tb_issuers db) (tb_policies db) (tb_next db)
        (app (tb_audit db) [(event, metadataBytes)])).

(** ** The two policy stores are the same store *)

(** A policy but for its dates. *)
Definition undated (p : Policy) : Policy := with_stamp (p_ID p) 0 0 p.

Lemma policy_less_undated p q : policy_less (undated p) (undated q) = policy_less p q.
Proof. done. Qed.

(** A map that keeps the order moves through sorting. *)
Lemma insert_by_fmap {A B} (f : A -> B) (lessA : A -> A -> bool) (lessB : B -> B -> bool) x l :
  (forall a b, lessB (f a) (f b) = lessA a b) -> insert_by lessB (f x) (f <$> l) = f <$> insert_by lessA x l.
Proof. intros Hf. induction l as [|y l IH]; cbn; [done|]. rewrite Hf. destruct (lessA y x); cbn; [by rewrite <- IH|done]. Qed.

Lemma sort_by_fmap {A B} (f : A -> B) (lessA : A -> A -> bool) (lessB : B -> B -> bool) l :
  (forall a b, lessB (f a) (f b) = lessA a b) -> sort_by lessB (f <$> l) = f <$> sort_by lessA l.
Proof. intros Hf. unfold sort_by. induction l as [|y l IH]; cbn; [done|]. rewrite IH. by apply insert_by_fmap. Qed.

#[local] Existing Instances PGStore.pg_ops Memory.memory_ops.

Section same_store.
Context `{Json (gmap string gval)}.
Context `{!JsonLaw (gmap string gval) (fun m => json_safe (VObj m)) (fmap json_image)}.
(** JSON of an object is some text. *)
Context (Htext : forall m s, json_marshal (m : gmap string gval) = Ok s -> s <> "").

(** A policy as a request body gives one: it fits the columns, without NULL, and its conditions
    are values that JSON and JSONB carry as they are, without zero bytes. *)
Definition portable (p : Policy) : Prop :=
  p_TenantID p <> "" /\ storable p = true /\ no_null p = true
  /\ json_safe (VObj (p_Conditions p)) = true /\ jsonb_ok (VObj (p_Conditions p)) = true
  /\ json_image <$> p_Conditions p = p_Conditions p /\ jsonb_image <$> p_Conditions p = p_Conditions p.

Definition cmd_portable (c : store_cmd) : Prop :=
  match c with CmdCreate _ p | CmdUpdate _ p => portable p | CmdDelete t _ => t <> "" end.

(** The policy a row is read as. *)
Definition row_policy (r : policy_row) : Policy := default (pr_policy r) (to_option (PGStore.read_row r)).

Definition row_ok (id : Z) (r : policy_row) : Prop :=
  PGStore.read_row r = Ok (row_policy r) /\ p_ID (pr_policy r) = id /\ p_TenantID (pr_policy r) <> "".

(** The policies of a tenant, in the database and in memory, but for their dates. *)
Definition pg_table (db : Database) (t : string) : gmap Z Policy := undated ∘ row_policy <$> PGStore.tenant_rows db t.
Definition memory_table (m : Memory.MemoryStore) (t : string) : gmap Z Policy := undated <$> Memory.tenant_table m t.

Record same (db : Database) (m : Memory.MemoryStore) : Prop := {
  same_next : tb_next db = Memory.nextID m;
  same_rows : map_Forall row_ok (tb_policies db);
  same_memory : Memory.memory_ok m;
  same_tables : forall t, pg_table db t = memory_table m t;
  same_room : forall id, is_Some (tb_policies db !! id) -> (id < tb_next db)%Z;
}.

Lemma read_row_fields r p : PGStore.read_row r = Ok p ->
  p_ID p = p_ID (pr_policy r) /\ p_TenantID p = p_TenantID (pr_policy r) /\ p_Priority p = p_Priority (pr_policy r).
Proof.
  unfold PGStore.read_row. destruct (bool_decide _); [by intros [= <-]|]. intros Hr. bind_inv Hr as c Hc. by injection Hr as <-.
Qed.

(** A policy that was sent reads back from its row. *)
Lemma read_written p c u id : portable p ->
  exists text, PGStore.send_policy None (Some p) = Ok (p, text)
    /\ PGStore.read_row (mkRow (with_conditions ∅ (with_stamp id c u p)) text) = Ok (with_stamp id c u p).
Proof.
  intros (_ & Hst & _ & Hs & Hj & Hi & Hn). destruct (json_law (p_Conditions p) Hs) as (text & Hm & Hu). exists text. split.
  { unfold PGStore.send_policy. cbn [of_option rbind sql]. rewrite Hm. cbn [rbind]. rewrite Hst. cbn [negb].
    unfold jsonb_input. rewrite Hu, Hi. cbn [rbind]. by rewrite Hj, Hn, Hm. }
  unfold PGStore.read_row. cbn [pr_conditions]. rewrite bool_decide_eq_false_2 by (by eapply Htext). rewrite Hu, Hi. by destruct p.
Qed.

(** The rows of a tenant in the order they are listed. *)
Definition sorted_rows (db : Database) (t : string) : list policy_row :=
  sort_by PGStore.row_less (map_to_list (PGStore.tenant_rows db t)).*2.

Lemma elem_of_sorted_rows db t r :
  r ∈ sorted_rows db t <-> exists id, tb_policies db !! id = Some r /\ p_TenantID (pr_policy r) = t.
Proof.
  unfold sorted_rows. rewrite sort_by_perm. split.
  - intros ([id r'] & -> & Hr%elem_of_map_to_list)%list_elem_of_fmap. apply map_lookup_filter_Some in Hr. by exists id.
  - intros (id & Hr & Ht). apply list_elem_of_fmap. exists (id, r). split; [done|].
    by apply elem_of_map_to_list, map_lookup_filter_Some.
Qed.

Lemma pg_list_rows db t :
  map_Forall row_ok (tb_policies db) -> PGStore.ListPoliciesForTenant None db t = Ok (row_policy <$> sorted_rows db t).
Proof.
  intros Hrows. unfold PGStore.ListPoliciesForTenant. cbn [sql rbind]. fold (sorted_rows db t).
  assert (Hall : Forall (fun r => PGStore.read_row r = Ok (row_policy r)) (sorted_rows db t)).
  { apply Forall_forall. intros r (id & Hr & _)%elem_of_sorted_rows. by destruct (Hrows _ _ Hr). }
  induction Hall as [|r rows' Hr _ IH]; cbn; [done|]. by rewrite Hr, IH.
Qed.

(** The list of a table. *)
Lemma pg_list db m t : same db m ->
  exists l, PGStore.ListPoliciesForTenant None db t = Ok l
    /\ undated <$> l = sort_by policy_less (map_to_list (pg_table db t)).*2.
Proof.
  intros Hs. eexists. split; [apply pg_list_rows, Hs|].
  unfold pg_table, sorted_rows. rewrite map_to_list_fmap, <- list_fmap_compose.
  rewrite <- (sort_by_fmap (undated ∘ row_policy) PGStore.row_less policy_less).
  - f_equal. rewrite <- !list_fmap_compose. by apply list_fmap_ext.
  - intros a b. unfold compose. rewrite policy_less_undated. unfold PGStore.row_less, policy_less, row_policy.
    destruct (PGStore.read_row a) as [p|] eqn:Ha, (PGStore.read_row b) as [q|] eqn:Hb; cbn;
      try apply read_row_fields in Ha as (-> & _ & ->); try apply read_row_fields in Hb as (-> & _ & ->); done.
Qed.

Lemma memory_list_undated m t :
  exists l, Memory.ListPoliciesForTenant m t = Ok l /\ undated <$> l = sort_by policy_less (map_to_list (memory_table m t)).*2.
Proof.
  eexists. split; [apply Memory.memory_list|]. unfold memory_table. rewrite map_to_list_fmap.
  rewrite <- (sort_by_fmap undated policy_less policy_less) by done. f_equal. rewrite <- !list_fmap_compose. by apply list_fmap_ext.
Qed.

Lemma pg_lookup db t id :
  pg_table db t !! id =
  r ← tb_policies db !! id; if bool_decide (p_TenantID (pr_policy r) = t) then Some (undated (row_policy r)) else None.
Proof.
  unfold pg_table, PGStore.tenant_rows. rewrite lookup_fmap, map_lookup_filter. destruct (tb_policies db !! id) as [r|]; [|done]. cbn.
  case_bool_decide as Ht; [by rewrite option_guard_True|by rewrite option_guard_False].
Qed.

Lemma memory_lookup m t id : memory_table m t !! id = undated <$> Memory.tenant_table m t !! id.
Proof. apply lookup_fmap. Qed.

(** A row is found exactly when the policy is in memory. *)
Lemma find_row_same db m t id : same db m ->
  match PGStore.find_row db t id with
  | Some r => tb_policies db !! id = Some r /\ p_TenantID (pr_policy r) = t
      /\ exists old, Memory.tenant_table m t !! id = Some old /\ undated old = undated (row_policy r)
  | None => Memory.tenant_table m t !! id = None
  end.
Proof.
  intros Hs. pose proof (same_tables _ _ Hs t) as Ht. apply (f_equal (fun x => x !! id)) in Ht.
  rewrite pg_lookup, memory_lookup in Ht. unfold PGStore.find_row. destruct (tb_policies db !! id) as [r|] eqn:Hr; cbn in *.
  - case_bool_decide as Hten; cbn.
    + split; [done|]. split; [done|]. destruct (Memory.tenant_table m t !! id) as [old|]; [|done]. exists old. split; [done|]. cbn in Ht. congruence.
    + by destruct (Memory.tenant_table m t !! id).
  - by destruct (Memory.tenant_table m t !! id).
Qed.

(** The two tables once a row and a policy, the same but for dates, are put at the same place. *)
Lemma tables_put db m m' p q text id n t :
  same db m -> PGStore.read_row (mkRow (with_conditions ∅ p) text) = Ok p -> undated p = undated q ->
  (forall t', t' <> p_TenantID p -> Memory.tenant_table m t' !! id = None) ->
  (forall t', Memory.tenant_table m' t' = if decide (t' = p_TenantID p) then <[id := q]> (Memory.tenant_table m t')
                                          else Memory.tenant_table m t') ->
  pg_table (with_policies db (<[id := mkRow (with_conditions ∅ p) text]> (tb_policies db)) n) t = memory_table m' t.
Proof.
  intros Hs Hr Hu Hfresh Hm'. apply map_eq. intros id'. rewrite pg_lookup, memory_lookup, Hm'. cbn [tb_policies with_policies].
  assert (Hrow : row_policy (mkRow (with_conditions ∅ p) text) = p) by (unfold row_policy; by rewrite Hr).
  destruct (decide (id' = id)) as [->|Hne].
  - rewrite lookup_insert_eq. cbn [mbind option_bind pr_policy with_conditions p_TenantID]. rewrite Hrow.
    case_bool_decide as Ht; case_decide as Ht'; try congruence.
    + by rewrite lookup_insert_eq, Hu.
    + by rewrite Hfresh.
  - rewrite lookup_insert_ne by done. pose proof (same_tables _ _ Hs t) as Ht. apply (f_equal (fun x => x !! id')) in Ht.
    rewrite pg_lookup, memory_lookup in Ht. rewrite Ht. case_decide; [by rewrite lookup_insert_ne|done].
Qed.

Lemma rows_put db id p text : map_Forall row_ok (tb_policies db) ->
  PGStore.read_row (mkRow (with_conditions ∅ p) text) = Ok p -> p_ID p = id -> p_TenantID p <> "" ->
  map_Forall row_ok (<[id := mkRow (with_conditions ∅ p) text]> (tb_policies db)).
Proof.
  intros Hall Hr Hid Ht. apply map_Forall_insert_2; [|done]. split; [|by split]. unfold row_policy. by rewrite Hr.
Qed.

Lemma same_create db m now p : same db m -> portable p -> (tb_next db < max_int32)%Z ->
  same (exec db (CmdCreate now p)) (exec m (CmdCreate now p)) /\ tb_next (exec db (CmdCreate now p)) = (tb_next db + 1)%Z.
Proof.
  intros Hs Hp Hroom. pose proof Hp as (Hten & _ & Hnn & _).
  destruct (read_written p now now (tb_next db) Hp) as (text & Hm & Hr).
  assert (Hmroom : Memory.memory_room m)
    by (unfold Memory.memory_room; rewrite <- (same_next _ _ Hs); unfold max_int32, max_int64 in *; lia).
  destruct (Memory.memory_create m now p (same_memory _ _ Hs) Hmroom Hten) as (id & m' & Hfresh & Hc & Hok & Htab).
  assert (Hdb : exec db (CmdCreate now p) = with_policies db
    (<[tb_next db := mkRow (with_conditions ∅ (with_stamp (tb_next db) now now p)) text]> (tb_policies db)) (tb_next db + 1)).
  { cbn. unfold PGStore.CreatePolicy. rewrite Hm. by rewrite (proj2 (Z.ltb_ge _ _)), Hnn by lia. }
  assert (Hmem : exec m (CmdCreate now p) = m') by (unfold exec; change (CreatePolicy m now (Some p)) with (Memory.CreatePolicy m now (Some p)); by rewrite Hc).
  assert (Hid : id = tb_next db /\ Memory.nextID m' = (tb_next db + 1)%Z).
  { unfold Memory.CreatePolicy in Hc. cbn [of_option rbind] in Hc. rewrite bool_decide_eq_false_2 in Hc by done.
    injection Hc as Hid <-. rewrite (same_next _ _ Hs). split; [done|]. cbn [Memory.nextID]. apply wrap64_id.
    pose proof (same_memory _ _ Hs) as [? _]. unfold Memory.memory_room in Hmroom. unfold in_int64, min_int64, max_int64 in *. lia. }
  destruct Hid as [-> Hnext]. rewrite Hdb, Hmem. split; [|done]. split.
  - done.
  - by apply rows_put; [apply (same_rows _ _ Hs)| | |].
  - done.
  - intros t. eapply (tables_put db m); [done|exact Hr| |by intros t' _|exact Htab]. done.
  - intros id' [r Hid']. cbn [tb_policies with_policies tb_next] in *. apply lookup_insert_Some in Hid' as [[<- _]|[_ Hid']]; [lia|].
    pose proof (same_room _ _ Hs id' ltac:(by eexists)). lia.
Qed.

(** A row belongs to one tenant. *)
Lemma row_elsewhere db m r id t : same db m -> tb_policies db !! id = Some r -> t <> p_TenantID (pr_policy r) ->
  Memory.tenant_table m t !! id = None.
Proof.
  intros Hs Hr Ht. pose proof (find_row_same db m t id Hs) as Hf. unfold PGStore.find_row in Hf. rewrite Hr in Hf. cbn in Hf.
  by rewrite bool_decide_eq_false_2 in Hf by congruence.
Qed.

Lemma same_update db m now p : same db m -> portable p ->
  same (exec db (CmdUpdate now p)) (exec m (CmdUpdate now p)) /\ tb_next (exec db (CmdUpdate now p)) = tb_next db.
Proof.
  intros Hs Hp. pose proof Hp as (Hten & _ & Hnn & _).
  pose proof (Memory.memory_update m now p (same_memory _ _ Hs) Hten) as Hmem.
  pose proof (find_row_same db m (p_TenantID p) (p_ID p) Hs) as Hf.
  destruct (PGStore.find_row db (p_TenantID p) (p_ID p)) as [r|] eqn:Hfind.
  - destruct Hf as (Hr & Hrt & old & Hold & _). rewrite Hold in Hmem. destruct Hmem as (m' & Hu & Hok & Htab).
    destruct (read_written p (p_CreatedAt (pr_policy r)) now (p_ID p) Hp) as (text & Hm & Hread).
    assert (Hdb : exec db (CmdUpdate now p) = with_policies db
      (<[p_ID p := mkRow (with_conditions ∅ (with_stamp (p_ID p) (p_CreatedAt (pr_policy r)) now p)) text]> (tb_policies db)) (tb_next db)).
    { unfold exec. change (UpdatePolicy db now (Some p)) with (PGStore.UpdatePolicy None db now (Some p)).
      unfold PGStore.UpdatePolicy. rewrite Hm. cbn [rbind]. rewrite Hfind. cbn [of_option rbind]. by rewrite Hnn. }
    assert (Hmm : exec m (CmdUpdate now p) = m')
      by (unfold exec; change (UpdatePolicy m now (Some p)) with (Memory.UpdatePolicy m now (Some p)); by rewrite Hu).
    assert (Hnext : Memory.nextID m' = Memory.nextID m).
    { unfold Memory.UpdatePolicy in Hu. cbn [of_option rbind] in Hu. rewrite bool_decide_eq_false_2 in Hu by done.
      destruct (_ !! p_ID p); [|done]. cbn in Hu. by injection Hu as _ <-. }
    rewrite Hdb, Hmm. split; [|done]. split.
    + rewrite Hnext. apply Hs.
    + apply rows_put; [apply (same_rows _ _ Hs)|exact Hread|done|done].
    + done.
    + intros t. eapply (tables_put db m); [done|exact Hread| | |exact Htab]; [done|]. intros t' Ht'. cbn in Ht'.
      by apply (row_elsewhere db m r); [| |congruence].
    + intros id [r' Hid]. cbn [tb_policies with_policies tb_next] in *. apply (same_room _ _ Hs).
      apply lookup_insert_Some in Hid as [[<- _]|[_ Hid]]; by eexists.
  - rewrite Hf in Hmem. assert (Hm' : exec m (CmdUpdate now p) = m).
    { unfold exec. change (UpdatePolicy m now (Some p)) with (Memory.UpdatePolicy m now (Some p)). by rewrite Hmem. }
    assert (Hdb : exec db (CmdUpdate now p) = db).
    { destruct (read_written p 0 0 0 Hp) as (text & Hm & _). unfold exec.
      change (UpdatePolicy db now (Some p)) with (PGStore.UpdatePolicy None db now (Some p)).
      unfold PGStore.UpdatePolicy. rewrite Hm. cbn [rbind]. by rewrite Hfind. }
    by rewrite Hm', Hdb.
Qed.

Lemma same_delete db m t id : same db m ->
  same (exec db (CmdDelete t id)) (exec m (CmdDelete t id)) /\ tb_next (exec db (CmdDelete t id)) = tb_next db.
Proof.
  intros Hs. pose proof (Memory.memory_delete m t id (same_memory _ _ Hs)) as Hmem.
  pose proof (find_row_same db m t id Hs) as Hf. unfold exec.
  change (DeletePolicy m t id) with (Memory.DeletePolicy m t id). change (DeletePolicy db t id) with (PGStore.DeletePolicy None db t id).
  unfold PGStore.DeletePolicy. cbn [sql rbind].
  destruct (PGStore.find_row db t id) as [r|] eqn:Hfind; cbn [of_option rbind to_option default].
  - destruct Hf as (Hr & Hrt & old & Hold & _). rewrite Hold in Hmem. destruct Hmem as (m' & Hd & Hok & Htab). rewrite Hd. cbn.
    assert (Hnext : Memory.nextID m' = Memory.nextID m).
    { unfold Memory.DeletePolicy in Hd. destruct (Memory.policies m !! t); [|done]. cbn in Hd. destruct (_ !! id); [|done].
      by injection Hd as <-. }
    split; [|done]. split.
    + rewrite Hnext. apply Hs.
    + apply map_Forall_delete, Hs.
    + done.
    + intros t'. apply map_eq. intros id'. rewrite pg_lookup, memory_lookup, Htab. cbn [tb_policies with_policies].
      pose proof (same_tables _ _ Hs t') as Ht. apply (f_equal (fun x => x !! id')) in Ht. rewrite pg_lookup, memory_lookup in Ht.
      destruct (decide (id' = id)) as [->|Hne].
      * rewrite lookup_delete_eq. case_decide as Htt; [by rewrite lookup_delete_eq|].
        by rewrite (row_elsewhere db m r) by (done || congruence).
      * rewrite lookup_delete_ne by done. rewrite Ht. case_decide; [by rewrite lookup_delete_ne|done].
    + intros id' [r' Hid]. cbn [tb_policies with_policies tb_next] in *. apply (same_room _ _ Hs).
      apply lookup_delete_Some in Hid as [_ Hid]. by eexists.
  - rewrite Hf in Hmem. rewrite Hmem. cbn. by split.
Qed.

Lemma same_run cs db m :
  same db m -> Forall cmd_portable cs -> (tb_next db + Z.of_nat (length cs) <= max_int32)%Z ->
  same (run db cs) (run m cs).
Proof.
  revert db m. induction cs as [|c cs IH]; intros db m Hs Hcs Hlen; [done|]. apply Forall_cons in Hcs as [Hc Hcs].
  cbn [length] in Hlen. cbn [run foldl].
  assert (Hstep : same (exec db c) (exec m c) /\ (tb_next (exec db c) <= tb_next db + 1)%Z).
  { destruct c as [now p|now p|t id].
    - destruct (same_create db m now p Hs Hc ltac:(lia)) as [? ->]. split; [done|lia].
    - destruct (same_update db m now p Hs Hc) as [? ->]. split; [done|lia].
    - destruct (same_delete db m t id Hs) as [? ->]. split; [done|lia]. }
  destruct Hstep as [Hs' Hn]. apply IH; [done|done|lia].
Qed.

Lemma same_empty : same empty_database Memory.NewMemoryStore.
Proof.
  split.
  - done.
  - apply map_Forall_empty.
  - apply Memory.new_ok.
  - intros t. apply map_eq. intros id. rewrite pg_lookup, memory_lookup. unfold Memory.tenant_table. cbn. by rewrite !lookup_empty.
  - intros id [r Hr]. cbn in Hr. by rewrite lookup_empty in Hr.
Qed.

(** C35: The two policy stores are interchangeable.  After any run of creations, updates and
    deletions of policies that fit the columns (no slice is nil, no text holds a zero byte, a
    priority has 32 bits, a condition is a value that JSONB keeps), from empty stores and up to
    the 2^31 ids of the sequence, the store in PostgreSQL lists for every tenant the policies the store in
    memory lists, in the same order, and finds the same policy under every id; only dates can
    differ. *)
Theorem pg_store_is_memory cs t :
  Forall cmd_portable cs -> (1 + Z.of_nat (length cs) <= max_int32)%Z ->
  let db := run empty_database cs in
  let m := run Memory.NewMemoryStore cs in
  (exists l l', PGStore.ListPoliciesForTenant None db t = Ok l /\ Memory.ListPoliciesForTenant m t = Ok l'
    /\ undated <$> l = undated <$> l')
  /\ forall id, match PGStore.GetPolicy None db t id, Memory.GetPolicy m t id with
                | Ok p, Ok q => undated p = undated q
                | Err e, Err e' => e = e'
                | _, _ => False
                end.
Proof.
  intros Hcs Hlen db m. assert (Hs : same db m) by (apply same_run; [apply same_empty|done|done]). split.
  - destruct (pg_list db m t Hs) as (l & Hl & Hu), (memory_list_undated m t) as (l' & Hl' & Hu').
    exists l, l'. split; [done|]. split; [done|]. by rewrite Hu, Hu', (same_tables _ _ Hs).
  - intros id. unfold PGStore.GetPolicy. cbn [sql rbind]. pose proof (find_row_same db m t id Hs) as Hf.
    assert (Hg : Memory.GetPolicy m t id = of_option (ErrVar ErrPolicyNotFound) (Memory.tenant_table m t !! id))
      by (unfold Memory.GetPolicy, Memory.tenant_table; by destruct (Memory.policies m !! t)).
    rewrite Hg. destruct (PGStore.find_row db t id) as [r|]; [|by rewrite Hf].
    destruct Hf as (Hr & _ & old & -> & Hu). destruct (same_rows _ _ Hs _ _ Hr) as [Hread _]. cbn [of_option rbind].
    by rewrite Hread.
Qed.
End same_store.

(** ** Tenants keep the date they were created *)

(** What is upserted is found under its id, with the date of its first insertion; no other
    tenant changes. *)
Lemma pg_tenant_upsert db now t db' :
  PGTenantStore.UpsertTenant None db now t = Ok db' ->
  PGTenantStore.GetTenant None db' (t_ID t)
    = Ok (mkTenant (t_ID t) (t_Name t) (t_Enabled t)
            (match tb_tenants db !! t_ID t with
             | Some old => t_CreatedAt old
             | None => if is_zero (t_CreatedAt t) then now else t_CreatedAt t
             end) now)
  /\ forall id, id <> t_ID t -> PGTenantStore.GetTenant None db' id = PGTenantStore.GetTenant None db id.
Proof.
  unfold PGTenantStore.UpsertTenant, PGTenantStore.GetTenant. intros Hu. stop_inv Hu as _. cbn [sql rbind] in Hu. injection Hu as <-.
  cbn [tb_tenants with_tenants sql rbind]. split; [by rewrite lookup_insert_eq|]. intros id Hid. by rewrite lookup_insert_ne.
Qed.

(** A statement that fails changes nothing: it ends the operation with its error. *)
Lemma pg_failure e db t i :
  PGTrustRegistry.IsTrustedIssuer (Some e) db t i = Err e /\ PGTrustRegistry.AddTrustedIssuer (Some e) db t i = Err e
  /\ PGTrustRegistry.RemoveTrustedIssuer (Some e) db t i = Err e /\ PGTenantStore.GetTenant (Some e) db t = Err e.
Proof. done. Qed.

(** ** Instances *)

Definition reads : Policy :=
  mkPolicy 1 "acme" "reads" "" "allow" (Some ["read"]) (Some ["orders"]) (Some ["any"])
    {["scope_contains" := VArr [VStr "orders:read"]]} 100 true zero_time zero_time.
Definition writes : Policy :=
  mkPolicy 1 "acme" "writes" "" "deny" (Some ["write"]) (Some ["orders"]) (Some [])
    {["claim_equals" := VObj {["level" := VFloat (float_of_Z 2)]}]} 10 true zero_time zero_time.

Lemma reads_portable : portable reads /\ portable writes.
Proof.
  split; (split; [discriminate|]; do 5 (split; [vm_compute; reflexivity|]); vm_compute; reflexivity).
Qed.

(** What the columns refuse: a zero byte in a condition changes nothing, a nil slice takes a
    number of the sequence. *)
Definition zero_condition : Policy := with_conditions {["claim_equals" := VObj {["id" := VStr (String "000" "")]}]} reads.
Definition no_subjects : Policy :=
  mkPolicy 1 "acme" "none" "" "allow" (Some ["read"]) (Some ["orders"]) None ∅ 100 true zero_time zero_time.

Lemma pg_refuses :
  PGStore.CreatePolicy None empty_database t0 (Some zero_condition) = (Err pq_error, empty_database)
  /\ PGStore.CreatePolicy None empty_database t0 (Some no_subjects) = (Err pq_error, with_policies empty_database ∅ 2)
  /\ is_ok (Memory.CreatePolicy Memory.NewMemoryStore t0 (Some zero_condition)) = true
  /\ is_ok (Memory.CreatePolicy Memory.NewMemoryStore t0 (Some no_subjects)) = true.
Proof. vm_compute. by repeat split. Qed.

Lemma pg_store_is_memory_witness :
  let cs := [CmdCreate t0 reads; CmdCreate t0 writes; CmdUpdate t0 writes; CmdDelete "acme" 2] in
  exists l l', PGStore.ListPoliciesForTenant None (run empty_database cs) "acme" = Ok l
    /\ Memory.ListPoliciesForTenant (run Memory.NewMemoryStore cs) "acme" = Ok l' /\ undated <$> l = undated <$> l'.
Proof.
  cbv zeta.
  refine (proj1 (pg_store_is_memory _ [CmdCreate t0 reads; CmdCreate t0 writes; CmdUpdate t0 writes; CmdDelete "acme" 2] "acme" _ _)).
  - intros m s Hm Hs. rewrite Hs in Hm. discriminate Hm.
  - destruct reads_portable as [Hr Hw]. repeat constructor; try exact Hr; try exact Hw; discriminate.
  - vm_compute. discriminate.
Defined.
