(* ===== verification/Oidc4vp.v ===== *)
(** * OIDC4VP: authorization requests and the validation of responses.

    Models internal/oidc4vp/types.go, store.go and validation.go.  A response is a JSON object
    from credential query ids to presentations; Go visits it in an order that changes from
    run to run, which is the argument [walk]: [walk n] is the order of the [n]-th loop over
    it.  Clock readings are an argument too, one for each presentation and credential. *)

From S2P Require Import Prelude GoStrings Base64 GoTime Errors Values GoFmt Crypto Credential.
From S2P Require Import Delegation SDJwt Verify Http Trust.
From Stdlib Require Import ZArith Ascii String Lia.
From stdpp Require Import gmap list strings.

Local Open Scope string_scope.

(** ** Authorization requests *)

(** Source: internal/oidc4vp/types.go:11-11, [FormatJWTVCJSON]. *)
Definition FormatJWTVCJSON : string := "jwt_vc_json".
(** Source: internal/oidc4vp/types.go:12-12, [FormatSDJWTVC]. *)
Definition FormatSDJWTVC : string := "dc+sd-jwt".

(** Source: internal/oidc4vp/types.go, [TrustedAuthority]. *)
Record TrustedAuthority := mkAuthority { ta_Name : string; ta_Format : string }.

(** Source: internal/oidc4vp/types.go, [ClaimQuery]. *)
Record ClaimQuery := mkClaimQuery {
  cl_ID : string;
  cl_Path : list string;
  cl_Values : list gval;
}.

(** Source: internal/oidc4vp/types.go, [CredentialSetQuery]. *)
Record CredentialSetQuery := mkSetQuery {
  cs_Options : list (list string);
  cs_Required : option bool;
}.

(** Source: internal/oidc4vp/types.go, [CredentialQuery]. *)
Record CredentialQuery := mkQuery {
  cq_ID : string;
  cq_Format : string;
  cq_Multiple : bool;
  cq_Meta : claims_map;
  cq_TrustedAuthorities : list TrustedAuthority;
  cq_RequireHolderBinding : option bool;
  cq_Claims : list ClaimQuery;
  cq_ClaimSets : list (list string);
}.

(** The zero value, which a map gives for a missing key. *)
Definition zero_query : CredentialQuery := mkQuery "" "" false None [] None [] [].

(** Source: internal/oidc4vp/types.go, [DCQLQuery]. *)
Record DCQLQuery := mkDCQL {
  dq_Credentials : list CredentialQuery;
  dq_CredentialSets : list CredentialSetQuery;
  dq_TransactionData : list gval;
}.

(** Source: internal/oidc4vp/types.go, [AuthorizationRequest]. *)
Record AuthorizationRequest := mkAuthRequest {
  aq_ClientID : string;
  aq_ResponseURI : string;
  aq_State : string;
  aq_Nonce : string;
  aq_ResponseType : string;
  aq_ResponseMode : string;
  aq_DCQLQuery : DCQLQuery;
  aq_CreatedAt : time;
  aq_ExpiresAt : time;
}.

(** Source: internal/oidc4vp/types.go:25-25, [queryIDPattern]. *)
Definition query_id_ok (id : string) : bool :=
  negb (bool_decide (id = ""))
  && string_forall (fun a => byte_in 65 90 a || byte_in 97 122 a || byte_in 48 57 a
                             || bool_decide (a = "_"%char) || bool_decide (a = "-"%char)) id.

(** Source: internal/oidc4vp/types.go, [CredentialQuery.HolderBindingRequired]. *)
Definition HolderBindingRequired (q : CredentialQuery) : bool :=
  match cq_RequireHolderBinding q with None => true | Some b => b end.

(** Source: internal/oidc4vp/types.go, [CredentialQuery.ValidateClaims]. *)
Definition ValidateClaims (q : CredentialQuery) : result error unit :=
  stop! existsb (fun c => bool_decide (cl_Path c = [])) (cq_Claims q)
    with ErrText "claim path is required" in
  Ok tt.

(** The loop over the credential queries, with the ids seen so far.
    Source: internal/oidc4vp/types.go:100-121, [DCQLQuery.Validate]. *)
Fixpoint validate_queries (seen : gset string) (creds : list CredentialQuery) : result error unit :=
  match creds with
  | [] => Ok tt
  | cred :: creds' =>
      stop! bool_decide (cq_ID cred = "") with ErrText "credential query id is required" in
      stop! negb (query_id_ok (cq_ID cred)) with ErrText "credential query id format is invalid" in
      stop! bool_decide (cq_ID cred ∈ seen) with ErrText "duplicate credential query id" in
      stop! bool_decide (cq_Format cred = "") with ErrText "credential query format is required" in
      stop! bool_decide (cq_Meta cred = None) with ErrText "credential query meta is required" in
      let! _ := ValidateClaims cred in
      validate_queries ({[cq_ID cred]} ∪ seen) creds'
  end.

(** Source: internal/oidc4vp/types.go, [DCQLQuery.Validate]. *)
Definition DCQLQuery_Validate (q : DCQLQuery) : result error unit :=
  stop! bool_decide (dq_Credentials q = []) with ErrText "credentials are required" in
  let! _ := validate_queries ∅ (dq_Credentials q) in
  stop! existsb (fun set => bool_decide (cs_Options set = [])
                            || existsb (fun option => bool_decide (option = [])) (cs_Options set))
          (dq_CredentialSets q) with ErrText "credential set options are required" in
  Ok tt.

(** Source: internal/oidc4vp/types.go, [AuthorizationRequest.Validate]. *)
Definition AuthorizationRequest_Validate (r : AuthorizationRequest) : result error unit :=
  stop! bool_decide (aq_ClientID r = "") with ErrText "client_id is required" in
  stop! bool_decide (aq_State r = "") with ErrText "state is required" in
  stop! bool_decide (aq_ResponseType r = "") with ErrText "response_type is required" in
  map_err (fun err => ErrWrap "dcql_query: " err "") (DCQLQuery_Validate (aq_DCQLQuery r)).

(** ** The request store *)

Definition set_ExpiresAt (t : time) (r : AuthorizationRequest) : AuthorizationRequest :=
  mkAuthRequest (aq_ClientID r) (aq_ResponseURI r) (aq_State r) (aq_Nonce r) (aq_ResponseType r)
    (aq_ResponseMode r) (aq_DCQLQuery r) (aq_CreatedAt r) t.

(** The store, as the endpoint sees it; the clock reading is an argument.
    Source: internal/oidc4vp/store.go, [RequestStore]. *)
Class RequestStore (St : Type) := {
  Save : time -> St -> AuthorizationRequest -> result error St;
  Get : time -> St -> string -> result error AuthorizationRequest;
  MarkUsed : St -> string -> result error St;
}.

(** A request as it is kept: five minutes long, unless it says when it expires. *)
Definition stamped (now : time) (req : AuthorizationRequest) : AuthorizationRequest :=
  if is_zero (aq_ExpiresAt req) then set_ExpiresAt (time_add now (5 * minute)) req else req.

(** Not expired at [now]. *)
Definition live (now : time) (req : AuthorizationRequest) : Prop :=
  aq_ExpiresAt req = zero_time \/ (now <= aq_ExpiresAt req)%Z.

(** What the endpoint relies on: the store holds requests by their state, some of them open;
    saving opens a request, a request is returned exactly when it is held and has not expired,
    and exactly the open ones can be marked as used, once. *)
Class RequestStoreLaws (St : Type) `{RequestStore St} := {
  requests : St -> gmap string AuthorizationRequest;
  open_states : St -> gset string;
  save_law now s req s' : Save now s req = Ok s' ->
    requests s' = <[aq_State req := stamped now req]> (requests s)
    /\ open_states s' = {[aq_State req]} ∪ open_states s;
  get_law now s state req : Get now s state = Ok req <-> requests s !! state = Some req /\ live now req;
  mark_law s state s' : MarkUsed s state = Ok s' ->
    state ∈ open_states s /\ requests s' = requests s /\ open_states s' = open_states s ∖ {[state]};
  mark_open s state : state ∈ open_states s -> exists s', MarkUsed s state = Ok s';
}.

Module MemoryRequests.

(** Source: internal/oidc4vp/store.go, [requestRecord]. *)
Record requestRecord := mkRecord { rr_request : AuthorizationRequest; rr_used : bool }.

(** Source: internal/oidc4vp/store.go, [MemoryRequestStore]. *)
Record MemoryRequestStore := mkStore { records : gmap string requestRecord }.

(** Source: internal/oidc4vp/store.go, [NewMemoryRequestStore]. *)
Definition NewMemoryRequestStore : MemoryRequestStore := mkStore ∅.

(** Source: internal/oidc4vp/store.go, [MemoryRequestStore.Save]. *)
Definition Save (now : time) (s : MemoryRequestStore) (req : AuthorizationRequest)
  : result error MemoryRequestStore :=
  stop! bool_decide (aq_State req = "") with ErrText "state is required" in
  let req := if is_zero (aq_ExpiresAt req) then set_ExpiresAt (time_add now (5 * minute)) req else req in
  Ok (mkStore (<[aq_State req := mkRecord req false]> (records s))).

(** Source: internal/oidc4vp/store.go, [MemoryRequestStore.Get]. *)
Definition Get (now : time) (s : MemoryRequestStore) (state : string) : result error AuthorizationRequest :=
  let! record := of_option (ErrText "request not found") (records s !! state) in
  stop! (negb (is_zero (aq_ExpiresAt (rr_request record))) && after now (aq_ExpiresAt (rr_request record)))
    with ErrText "request expired" in
  Ok (rr_request record).

(** Source: internal/oidc4vp/store.go, [MemoryRequestStore.MarkUsed]. *)
Definition MarkUsed (s : MemoryRequestStore) (state : string) : result error MemoryRequestStore :=
  let! record := of_option (ErrText "request not found") (records s !! state) in
  stop! rr_used record with ErrText "request already used" in
  Ok (mkStore (<[state := mkRecord (rr_request record) true]> (records s))).

#[global] Instance memory_requests : RequestStore MemoryRequestStore := {|
  Oidc4vp.Save := Save; Oidc4vp.Get := Get; Oidc4vp.MarkUsed := MarkUsed;
|}.

End MemoryRequests.

(** ** Presentations *)

(** Source: internal/oidc4vp/validation.go, [isJWT]. *)
Definition isJWT (value : string) : bool := (count_byte "."%char value =? 2)%nat.

(** [m[k].(string)] of a decoded object. *)
Definition string_at (m : gmap string gval) (k : string) : string := claim_string (Some m) k.

(** Source: internal/oidc4vp/validation.go, [validateJWTTimeClaims]. *)
Definition validateJWTTimeClaims (payload : gmap string gval) (now : time) : result error unit :=
  stop! match payload !! "exp" with
        | Some (VFloat exp) => (int_of_float exp <=? to_unix now)%Z
        | _ => false
        end with ErrText "presentation has expired" in
  stop! match payload !! "iat" with
        | Some (VFloat iat) => (to_unix (time_add now minute) <? int_of_float iat)%Z
        | _ => false
        end with ErrText "presentation issued in the future" in
  Ok tt.

(** Source: internal/oidc4vp/validation.go, [validateAudience]. *)
Definition validateAudience (aud : option gval) (expected : string) : result error unit :=
  if bool_decide (expected = "") then Ok tt
  else match aud with
  | Some (VStr v) => stop! negb (bool_decide (v = expected)) with ErrText "audience mismatch" in Ok tt
  | Some (VArr l) =>
      guard! existsb (fun item => bool_decide (item = VStr expected)) l
        else ErrText "audience mismatch" in
      Ok tt
  | _ => Err (ErrText "audience missing")
  end.

(** Source: internal/oidc4vp/validation.go, [extractCredentials]. *)
Definition extractCredentials (value : option gval) : result error (list string) :=
  match value with
  | Some (VStr v) => Ok [v]
  | Some (VArr l) => of_option (ErrText "credential must be a string") (mapM as_string l)
  | _ => Err (ErrText "verifiableCredential must be a string or array")
  end.

Section validation.
Context `{Json (gmap string gval), Json (gmap string (list string)), Json (list gval), Json VCJWTPayload,
  Json VerifiableCredential, Sha256, Ed25519, FloatFormat}.

(** Source: internal/oidc4vp/validation.go, [parseAndVerifyJWT]. *)
Definition parseAndVerifyJWT (token : string) (resolveKey : string -> result error public_key)
  : result error (gmap string gval) :=
  match split_on "."%char token with
  | [part0; part1; part2] =>
      let! headerBytes := of_option (ErrText "invalid jwt header") (b64_decode part0) in
      let! header := map_err (fun _ => ErrText "invalid jwt header")
                       (json_unmarshal (T := gmap string gval) headerBytes) in
      stop! negb (bool_decide (string_at header "alg" = "EdDSA")) with
        ErrText ("unsupported jwt algorithm: " +:+ format_v (default VNull (header !! "alg"))) in
      let! payloadBytes := of_option (ErrText "invalid jwt payload") (b64_decode part1) in
      let! payload := map_err (fun _ => ErrText "invalid jwt payload")
                        (json_unmarshal (T := gmap string gval) payloadBytes) in
      let issuer := string_at payload "iss" in
      stop! bool_decide (issuer = "") with ErrText "issuer missing" in
      let! publicKey := resolveKey issuer in
      let! edKey := of_option (ErrText "unsupported holder key type") (as_ed25519 publicKey) in
      let signingInput := part0 +:+ "." +:+ part1 in
      let! sigBytes := of_option (ErrText "invalid jwt signature") (b64_decode part2) in
      stop! negb (ed25519_verify edKey signingInput sigBytes) with ErrText "invalid jwt signature" in
      Ok payload
  | _ => Err (ErrText "invalid jwt")
  end.

(** The holder of a presentation, empty when it has none, and its credentials.
    Source: internal/oidc4vp/validation.go, [validateJWTPresentation]. *)
Definition validateJWTPresentation (req : AuthorizationRequest) (holderBindingRequired : bool)
    (presentation : string) (resolveHolder : string -> result error public_key) (now : time)
  : result error (string * list string) :=
  if negb (isJWT presentation) then
    stop! holderBindingRequired with
      ErrText "holder binding required but presentation is not a JWT VP" in
    Ok ("", [presentation])
  else
    let! payload := parseAndVerifyJWT presentation resolveHolder in
    let! _ := validateJWTTimeClaims payload now in
    let holder := string_at payload "iss" in
    let! _ :=
      if holderBindingRequired then
        let! _ := validateAudience (payload !! "aud") (aq_ClientID req) in
        let nonce := string_at payload "nonce" in
        stop! (bool_decide (nonce = "") || negb (bool_decide (nonce = aq_Nonce req)))
          with ErrText "nonce mismatch" in
        Ok tt
      else Ok tt in
    match payload !! "vp" with
    | Some (VObj vp) =>
        let! credentials := extractCredentials (vp !! "verifiableCredential") in
        stop! bool_decide (credentials = []) with ErrText "verifiableCredential is empty" in
        Ok (holder, credentials)
    | _ => Err (ErrText "vp claim missing")
    end.

(** Source: internal/oidc4vp/validation.go, [validatePresentation]. *)
Definition validatePresentation (req : AuthorizationRequest) (query : CredentialQuery)
    (presentation : string) (resolveHolder : string -> result error public_key) (now : time)
  : result error (string * list string) :=
  let holderBinding := HolderBindingRequired query in
  if bool_decide (cq_Format query = FormatJWTVCJSON) then
    validateJWTPresentation req holderBinding presentation resolveHolder now
  else if bool_decide (cq_Format query = FormatSDJWTVC) then
    stop! holderBinding with ErrText "holder binding required but not supported for dc+sd-jwt" in
    Ok ("", [presentation])
  else Err (ErrText ("unsupported credential format: " +:+ cq_Format query)).

(** ** Credentials *)

(** Source: internal/oidc4vp/validation.go, [credentialIDForRevocation]. *)
Definition credentialIDForRevocation (credential : VerifiableCredential) : string :=
  if negb (bool_decide (vc_ID credential = "")) then vc_ID credential
  else if negb (bool_decide (vc_JTI credential = "")) then vc_JTI credential
  else "".

(** Source: internal/oidc4vp/validation.go, [containsAll]. *)
Definition containsAll (actual : list string) (required : list gval) : bool :=
  forallb (fun item => match item with
                       | VStr needle => negb (bool_decide (needle = "")) && bool_decide (needle ∈ actual)
                       | _ => false
                       end) required.

(** Source: internal/oidc4vp/validation.go, [validateTypeValues]. *)
Definition validateTypeValues (meta : claims_map) (types : list string) : result error unit :=
  let! raw := of_option (ErrText "type_values is required for jwt_vc_json") (claim meta "type_values") in
  match raw with
  | VArr options =>
      guard! existsb (fun option => match option with
                                    | VArr ((_ :: _) as requiredTypes) => containsAll types requiredTypes
                                    | _ => false
                                    end) options
        else ErrText "credential type does not match request" in
      Ok tt
  | _ => Err (ErrText "type_values must be an array")
  end.

(** Source: internal/oidc4vp/validation.go, [validateVCTValues]. *)
Definition validateVCTValues (meta claims : claims_map) : result error unit :=
  let! raw := of_option (ErrText "vct_values is required for dc+sd-jwt") (claim meta "vct_values") in
  match raw with
  | VArr ((_ :: _) as values) =>
      let vct := claim_string claims "vct" in
      stop! bool_decide (vct = "") with ErrText "vct claim missing" in
      guard! existsb (fun value => bool_decide (value = VStr vct)) values
        else ErrText "vct claim does not match request" in
      Ok tt
  | _ => Err (ErrText "vct_values must be a non-empty array")
  end.

(** Source: internal/oidc4vp/validation.go, [validateCredentialMetadata]. *)
Definition validateCredentialMetadata (query : CredentialQuery) (credential : VerifiableCredential)
  : result error unit :=
  if bool_decide (cq_Format query = FormatJWTVCJSON) then
    validateTypeValues (cq_Meta query) (vc_Type credential)
  else if bool_decide (cq_Format query = FormatSDJWTVC) then
    validateVCTValues (cq_Meta query) (vc_Claims credential)
  else Ok tt.

(** The loop over the segments, from a value.
    Source: internal/oidc4vp/validation.go:489-501, [lookupClaimPath]. *)
Fixpoint lookup_path (current : gval) (path : list string) : option gval :=
  match path with
  | [] => Some current
  | segment :: path' =>
      match current with
      | VObj asMap => value ← asMap !! segment; lookup_path value path'
      | _ => None
      end
  end.

(** A nil claims map has no keys (a query with an empty path does not get here).
    Source: internal/oidc4vp/validation.go, [lookupClaimPath]. *)
Definition lookupClaimPath (claims : claims_map) (path : list string) : option gval :=
  lookup_path (VObj (default ∅ claims)) path.

(** Source: internal/oidc4vp/validation.go, [validateClaimQueries]. *)
Fixpoint validateClaimQueries (queries : list ClaimQuery) (claims : claims_map) : result error unit :=
  match queries with
  | [] => Ok tt
  | claim :: queries' =>
      let! value := of_option (ErrText ("claim not found: " +:+ format_strings (cl_Path claim)))
                      (lookupClaimPath claims (cl_Path claim)) in
      stop! (negb (bool_decide (cl_Values claim = [])) && negb (existsb (deep_equal value) (cl_Values claim)))
        with ErrText ("claim value mismatch: " +:+ format_strings (cl_Path claim)) in
      validateClaimQueries queries' claims
  end.

(** ** The response *)

(** [rd_Now id p c] is the reading for the [p]-th presentation under [id]: [c = 0] for the
    presentation itself, [S c] for its [c]-th credential.
    Source: internal/oidc4vp/validation.go, [ResponseDependencies]. *)
Record ResponseDependencies := mkResponseDeps {
  ResolveIssuerKey : option (string -> result error public_key);
  ResolveHolderKey : option (string -> result error public_key);
  rd_Now : string -> nat -> nat -> time;
  RevocationStrict : bool;
}.

(** Source: internal/oidc4vp/validation.go, [ValidationResult]. *)
Record ValidationResult := mkValidation {
  va_HolderDID : string;
  va_Credentials : list VerifiableCredential;
  va_PresentationIDs : list string;
}.

(** Source: internal/oidc4vp/validation.go, [toStringSlice]. *)
Definition toStringSlice (value : gval) : result error (list string) :=
  match value with
  | VStr v => Ok [v]
  | VArr l =>
      of_option (ErrText "presentation value must be a string")
        (mapM (fun item => match item with
                           | VStr str => if bool_decide (str = "") then None else Some str
                           | _ => None
                           end) l)
  | _ => Err (ErrText "presentations must be string or array")
  end.

(** Source: internal/oidc4vp/validation.go:142-148, [parseVPToken]. *)
Fixpoint parse_entries (entries : list (string * gval)) (parsed : gmap string (list string))
  : result error (gmap string (list string)) :=
  match entries with
  | [] => Ok parsed
  | (key, value) :: entries' =>
      let! values := map_err (fun err => ErrWrap ("vp_token entry " +:+ key +:+ ": ") err "")
                       (toStringSlice value) in
      parse_entries entries' (<[key := values]> parsed)
  end.

(** The order of one loop over a map, and a lawful one. *)
Definition map_order : Type := forall V, gmap string V -> list (string * V).
Definition walk_ok (walk : nat -> map_order) : Prop :=
  forall n V (m : gmap string V), walk n V m ≡ₚ map_to_list m.

(** Source: internal/oidc4vp/validation.go, [parseVPToken]. *)
Definition parseVPToken (order : map_order) (raw : string) : result error (gmap string (list string)) :=
  match json_unmarshal (T := gmap string (list string)) raw with
  | Ok token => Ok token
  | Err _ =>
      let! generic := map_err (fun _ => ErrText "vp_token must be a JSON object")
                        (json_unmarshal (T := gmap string gval) raw) in
      parse_entries (order gval generic) ∅
  end.

(** [len(vpToken[id]) != 0] *)
Definition answered (vpToken : gmap string (list string)) (id : string) : bool :=
  negb (bool_decide (default [] (vpToken !! id) = [])).

(** Source: internal/oidc4vp/validation.go, [verifyCredentialSetRequirements]. *)
Definition verifyCredentialSetRequirements (query : DCQLQuery) (vpToken : gmap string (list string))
  : result error unit :=
  if bool_decide (dq_CredentialSets query = []) then
    match find (fun cred => negb (answered vpToken (cq_ID cred))) (dq_Credentials query) with
    | Some cred => Err (ErrText ("missing required credential query id: " +:+ cq_ID cred))
    | None => Ok tt
    end
  else
    guard! forallb (fun set =>
             negb (default true (cs_Required set))
             || existsb (fun option => negb (bool_decide (option = [])) && forallb (answered vpToken) option)
                  (cs_Options set)) (dq_CredentialSets query)
      else ErrText "required credential set not satisfied" in
    Ok tt.

(** The queries by id; a query that binds to a holder needs a nonce.
    Source: internal/oidc4vp/validation.go:62-68, [ValidateResponse]. *)
Fixpoint index_queries (nonce : string) (creds : list CredentialQuery) (queries : gmap string CredentialQuery)
  : result error (gmap string CredentialQuery) :=
  match creds with
  | [] => Ok queries
  | query :: creds' =>
      stop! (HolderBindingRequired query && bool_decide (nonce = ""))
        with ErrText "nonce required for holder binding" in
      index_queries nonce creds' (<[cq_ID query := query]> queries)
  end.

Section response.
Context (revoked : revocations) (req : AuthorizationRequest) (resolveIssuer resolveHolder : string -> result error public_key)
  (Now : string -> nat -> nat -> time) (strict : bool).

(** Source: internal/oidc4vp/validation.go:104-115, [ValidateResponse]. *)
Definition check_revocation (leaf : VerifiableCredential) : result error unit :=
  let id := credentialIDForRevocation leaf in
  stop! bool_decide (id = "") with ErrText "credential id missing for revocation check" in
  let '(is_revoked, reason) := IsRevoked revoked id in
  let reason := if bool_decide (reason = "") then "revoked" else reason in
  stop! is_revoked with ErrText ("credential revoked: " +:+ reason) in
  Ok tt.

(** The checks of one credential.
    Source: internal/oidc4vp/validation.go:99-122, [ValidateResponse]. *)
Definition check_credential (query : CredentialQuery) (now : time) (credentialToken : string)
  : result error VerifiableCredential :=
  let! verified := VerifyCredentialChain [credentialToken] (mkDeps (Some resolveIssuer)) (mkOptions "" 0) now in
  let leaf := default zero_vc (last (cr_Credentials verified)) in
  let! _ := if strict then check_revocation leaf else Ok tt in
  let! _ := validateCredentialMetadata query leaf in
  let! _ := validateClaimQueries (cq_Claims query) (vc_Claims leaf) in
  Ok leaf.

(** Source: internal/oidc4vp/validation.go:98-125, [ValidateResponse]. *)
Fixpoint check_credentials (query : CredentialQuery) (id : string) (p c : nat) (credentials : list string)
    (result_ : ValidationResult) : result error ValidationResult :=
  match credentials with
  | [] => Ok result_
  | credentialToken :: credentials' =>
      let! leaf := check_credential query (Now id p (S c)) credentialToken in
      check_credentials query id p (S c) credentials'
        (mkValidation (va_HolderDID result_) (app (va_Credentials result_) [leaf])
           (app (va_PresentationIDs result_) [id]))
  end.

(** Source: internal/oidc4vp/validation.go:89-126, [ValidateResponse]. *)
Fixpoint check_presentations (query : CredentialQuery) (id : string) (p : nat) (presentations : list string)
    (result_ : ValidationResult) : result error ValidationResult :=
  match presentations with
  | [] => Ok result_
  | presentation :: presentations' =>
      let! (holder, credentials) := validatePresentation req query presentation resolveHolder (Now id p 0) in
      let result_ :=
        if negb (bool_decide (holder = ""))
        then mkValidation holder (va_Credentials result_) (va_PresentationIDs result_) else result_ in
      let! result_ := check_credentials query id p 0 credentials result_ in
      check_presentations query id (S p) presentations' result_
  end.

(** Source: internal/oidc4vp/validation.go:83-127, [ValidateResponse]. *)
Fixpoint check_entries (queries : gmap string CredentialQuery) (entries : list (string * list string))
    (result_ : ValidationResult) : result error ValidationResult :=
  match entries with
  | [] => Ok result_
  | (id, presentations) :: entries' =>
      let query := default zero_query (queries !! id) in
      stop! (negb (cq_Multiple query) && (1 <? length presentations)%nat)
        with ErrText ("credential query " +:+ id +:+ " does not allow multiple presentations") in
      let! result_ := check_presentations query id 0 presentations result_ in
      check_entries queries entries' result_
  end.
End response.

(** [128 * 1024].
    Source: internal/oidc4vp/validation.go:18-18, [maxVPTokenSize]. *)
Definition maxVPTokenSize : Z := 131072.

(** Source: internal/oidc4vp/validation.go:36-129, [ValidateResponse]. *)
Definition ValidateResponse (walk : nat -> map_order) (revoked : revocations) (req : AuthorizationRequest)
    (vpTokenRaw : string) (deps : ResponseDependencies) : result error ValidationResult :=
  let! _ := AuthorizationRequest_Validate req in
  stop! negb (bool_decide (aq_ResponseType req = "vp_token")) with ErrText "unsupported response_type" in
  stop! bool_decide (vpTokenRaw = "") with ErrText "vp_token is required" in
  stop! (maxVPTokenSize <? Z.of_nat (String.length vpTokenRaw))%Z with ErrText "vp_token too large" in
  match ResolveIssuerKey deps, ResolveHolderKey deps with
  | Some resolveIssuer, Some resolveHolder =>
      let! vpToken := parseVPToken (walk O) vpTokenRaw in
      let! queries := index_queries (aq_Nonce req) (dq_Credentials (aq_DCQLQuery req)) ∅ in
      let! _ :=
        match find (fun e => bool_decide (queries !! e.1 = None)) (walk 1%nat _ vpToken) with
        | Some (id, _) => Err (ErrText ("unexpected credential query id: " +:+ id))
        | None => Ok tt
        end in
      let! _ := verifyCredentialSetRequirements (aq_DCQLQuery req) vpToken in
      check_entries revoked req resolveIssuer resolveHolder (rd_Now deps) (RevocationStrict deps)
        queries (walk 2%nat _ vpToken) (mkValidation "" [] [])
  | _, _ => Err (ErrText "missing key resolvers")
  end.
End validation.
