(* ===== verification/Oidc4vpFacts.v ===== *)
(** * What an accepted OIDC4VP response means.

    Specifications of the checks of Oidc4vp as propositions, the equivalences between both,
    and the properties of [ValidateResponse]. *)

From S2P Require Import Prelude GoStrings Base64 GoTime Errors Values GoFmt Crypto Credential.
From S2P Require Import Instances Delegation SDJwt Verify VerifyFacts Issue IssueFacts ChainExample Http.
From S2P Require Import Trust Oidc4vp.
From Stdlib Require Import ZArith Ascii String Lia.
From stdpp Require Import gmap list strings.

Local Open Scope string_scope.

(** ** The in-memory store is a store *)

#[global] Instance memory_requests_laws : RequestStoreLaws MemoryRequests.MemoryRequestStore.
Proof.
  refine {| requests := fun s => MemoryRequests.rr_request <$> MemoryRequests.records s;
            open_states := fun s => dom (filter (fun kv => MemoryRequests.rr_used kv.2 = false)
                                           (MemoryRequests.records s)) |}.
  - intros now s req s' Hs. cbn in Hs. unfold MemoryRequests.Save in Hs. stop_inv Hs as _.
    injection Hs as <-. cbn [MemoryRequests.records]. fold (stamped now req).
    assert (Hid : aq_State (stamped now req) = aq_State req) by (unfold stamped; by destruct (is_zero _)).
    split; [by rewrite fmap_insert, Hid|]. apply set_eq. intros k.
    rewrite Hid, elem_of_union, elem_of_singleton, !elem_of_dom.
    rewrite map_filter_insert_True by done. destruct (decide (k = aq_State req)) as [->|Hk].
    + rewrite lookup_insert_eq. split; [by left|]. intros _. by eexists.
    + rewrite lookup_insert_ne by done. naive_solver.
  - intros now s state req. cbn. unfold MemoryRequests.Get, live. rewrite lookup_fmap.
    destruct (MemoryRequests.records s !! state) as [r|]; cbn [of_option rbind fmap option_fmap option_map];
      [|naive_solver].
    rewrite stop_Ok. unfold is_zero, after, zero_time. split.
    + intros [Hl [= <-]]. split; [done|]. apply andb_false_iff in Hl as [Hl|Hl]; breflect; lia.
    + intros [[= <-] Hl]. split; [|done]. apply andb_false_iff.
      destruct Hl as [->|Hl]; [by left|right; apply Z.ltb_ge; lia].
  - intros s state s' Hs. cbn in Hs. unfold MemoryRequests.MarkUsed in Hs. bind_inv Hs as r Hr.
    stop_inv Hs as Hu. injection Hs as <-. ok_simp Hr. cbn [MemoryRequests.records]. split; [|split].
    + apply elem_of_dom. exists r. by apply map_lookup_filter_Some.
    + rewrite fmap_insert. apply insert_id. by rewrite lookup_fmap, Hr.
    + rewrite map_filter_insert_False by done. apply set_eq. intros k.
      rewrite elem_of_difference, elem_of_singleton, !elem_of_dom.
      rewrite map_filter_delete. destruct (decide (k = state)) as [->|Hk].
      * rewrite lookup_delete_eq. split; [by intros []|naive_solver].
      * rewrite lookup_delete_ne by done. naive_solver.
  - intros s state Hs. apply elem_of_dom in Hs as [r Hr]. apply map_lookup_filter_Some in Hr as [Hr Hu].
    cbn. unfold MemoryRequests.MarkUsed. rewrite Hr. cbn [of_option rbind]. cbn in Hu. rewrite Hu. by eexists.
Defined.

(** ** Presentations *)

Section presentations.
Context `{Json (gmap string gval), Json (gmap string (list string)), Json (list gval), Json VCJWTPayload,
  Json VerifiableCredential, Sha256, Ed25519, FloatFormat}.

(** The JWT was signed with EdDSA by the key of the holder its payload names. *)
Definition holder_signed (resolve : string -> result error public_key) (token : string)
    (payload : gmap string gval) : Prop :=
  exists p0 p1 p2 hb pb header key sg,
    split_on "."%char token = [p0; p1; p2]
    /\ b64_decode p0 = Some hb /\ json_unmarshal hb = Ok header /\ header !! "alg" = Some (VStr "EdDSA")
    /\ b64_decode p1 = Some pb /\ json_unmarshal pb = Ok payload
    /\ string_at payload "iss" <> "" /\ resolve (string_at payload "iss") = Ok (PubEd25519 key)
    /\ b64_decode p2 = Some sg /\ ed25519_verify key (p0 +:+ "." +:+ p1) sg = true.

(** The audience claim names the client. *)
Definition audience_names (aud : option gval) (client : string) : Prop :=
  client = "" \/ aud = Some (VStr client) \/ exists l, aud = Some (VArr l) /\ VStr client ∈ l.

(** The dates of the payload, if it has any, allow the instant. *)
Definition payload_live (payload : gmap string gval) (now : time) : Prop :=
  (forall exp, payload !! "exp" = Some (VFloat exp) -> (to_unix now < int_of_float exp)%Z)
  /\ (forall iat, payload !! "iat" = Some (VFloat iat) ->
        (int_of_float iat <= to_unix (time_add now minute))%Z).

(** The credentials a [vp] object carries. *)
Definition carries (vp : gmap string gval) (credentials : list string) : Prop :=
  credentials <> [] /\
  (exists s, vp !! "verifiableCredential" = Some (VStr s) /\ credentials = [s]
   \/ vp !! "verifiableCredential" = Some (VArr (VStr <$> credentials))).

(** A presentation answers a query, for the request: either it is a JWT the holder signed,
    or, when no holder needs to be bound, a bare credential. *)
Inductive presents (req : AuthorizationRequest) (query : CredentialQuery)
    (resolve : string -> result error public_key) (now : time) (presentation : string)
  : string -> list string -> Prop :=
| presents_vp payload vp credentials :
    cq_Format query = FormatJWTVCJSON -> holder_signed resolve presentation payload ->
    payload_live payload now ->
    (HolderBindingRequired query = true ->
       audience_names (payload !! "aud") (aq_ClientID req)
       /\ string_at payload "nonce" = aq_Nonce req /\ aq_Nonce req <> "") ->
    payload !! "vp" = Some (VObj vp) -> carries vp credentials ->
    presents req query resolve now presentation (string_at payload "iss") credentials
| presents_bare :
    HolderBindingRequired query = false ->
    cq_Format query = FormatSDJWTVC \/ (cq_Format query = FormatJWTVCJSON /\ isJWT presentation = false) ->
    presents req query resolve now presentation "" [presentation].

Lemma string_at_Some m k s : s <> "" -> string_at m k = s <-> m !! k = Some (VStr s).
Proof.
  intros Hs. unfold string_at, claim_string, claim. cbn. split; [|by intros ->].
  destruct (m !! k) as [[]|]; cbn; congruence.
Qed.

Lemma parseAndVerifyJWT_Ok token resolve payload :
  parseAndVerifyJWT token resolve = Ok payload <-> holder_signed resolve token payload.
Proof.
  unfold parseAndVerifyJWT, holder_signed. split.
  - intros Hp. destruct (split_on "."%char token) as [|p0 [|p1 [|p2 [|]]]]; try done.
    bind_inv Hp as hb Hhb. bind_inv Hp as header Hh. stop_inv Hp as Ha. bind_inv Hp as pb Hpb.
    bind_inv Hp as pl Hpl. stop_inv Hp as Hi. bind_inv Hp as pk Hpk. bind_inv Hp as key Hkey.
    bind_inv Hp as sg Hsg. stop_inv Hp as Hv. injection Hp as <-. ok_simp Hhb. ok_simp Hh. ok_simp Hpb.
    ok_simp Hpl. ok_simp Hkey. ok_simp Hsg. breflect. destruct pk; try done. injection Hkey as ->.
    apply string_at_Some in Ha; [|done].
    exists p0, p1, p2, hb, pb, header, key, sg. done.
  - intros (p0 & p1 & p2 & hb & pb & header & key & sg & -> & -> & Hh & Ha & -> & Hpl & Hi & Hr & -> & Hv).
    cbn [of_option rbind]. rewrite Hh. cbn [map_err rbind].
    rewrite (proj2 (string_at_Some header "alg" "EdDSA" ltac:(done)) Ha), bool_decide_eq_true_2 by done.
    cbn [negb]. rewrite Hpl. cbn [map_err rbind]. rewrite bool_decide_eq_false_2 by done.
    rewrite Hr. cbn [rbind as_ed25519 of_option]. by rewrite Hv.
Qed.

Lemma validateJWTTimeClaims_Ok payload now :
  validateJWTTimeClaims payload now = Ok tt <-> payload_live payload now.
Proof.
  unfold validateJWTTimeClaims, payload_live. rewrite !stop_Ok.
  assert (Htest : forall (k : string) (test : gval -> bool) (P : _ -> Prop),
    (forall f, test (VFloat f) = false <-> P f) ->
    (match payload !! k with Some (VFloat f) => test (VFloat f) | _ => false end) = false <->
    forall f, payload !! k = Some (VFloat f) -> P f).
  { intros k test P HP. destruct (payload !! k) as [[]|]; split; try done.
    - intros Hf f' [= <-]. by apply HP.
    - intros Hf. apply HP. by apply Hf. }
  rewrite (Htest "exp" (fun v => match v with VFloat f => (int_of_float f <=? to_unix now)%Z | _ => false end)
    (fun f => (to_unix now < int_of_float f)%Z)) by (intros f; apply Z.leb_gt).
  rewrite (Htest "iat" (fun v => match v with VFloat f => (to_unix (time_add now minute) <? int_of_float f)%Z
      | _ => false end)
    (fun f => (int_of_float f <= to_unix (time_add now minute))%Z)) by (intros f; apply Z.ltb_ge).
  tauto.
Qed.

Lemma existsb_is {A} `{EqDecision A} (x : A) l : existsb (fun y => bool_decide (y = x)) l = true <-> x ∈ l.
Proof.
  rewrite existsb_exists. setoid_rewrite bool_decide_eq_true. split.
  - intros (y & Hy & ->). by apply list_elem_of_In.
  - intros Hx. exists x. split; [by apply list_elem_of_In|done].
Qed.

Lemma validateAudience_Ok aud client : validateAudience aud client = Ok tt <-> audience_names aud client.
Proof.
  unfold validateAudience, audience_names. case_bool_decide as He; [by split; [left|]|].
  destruct aud as [[]|].
  all: try (split; [done|]; intros [?|[?|(? & ? & ?)]]; congruence).
  - rewrite stop_Ok, negb_false_iff, bool_decide_eq_true. split.
    + intros [-> _]. by right; left.
    + intros [?|[[= ->]|(? & ? & ?)]]; done.
  - rewrite guard_Ok, existsb_is. split.
    + intros [Hin _]. right. right. by eexists.
    + intros [?|[?|(l' & [= ->] & ?)]]; done.
Qed.

Lemma mapM_as_string l ss : mapM as_string l = Some ss <-> l = VStr <$> ss.
Proof.
  rewrite mapM_Some. split.
  - induction 1 as [|v s l ss Hv _ ->]; [done|]. by destruct v; simplify_eq/=.
  - intros ->. induction ss as [|s ss IH]; constructor; done.
Qed.

Lemma extractCredentials_Ok vp credentials :
  (extractCredentials (vp !! "verifiableCredential") = Ok credentials /\ credentials <> []) <->
  carries vp credentials.
Proof.
  unfold extractCredentials, carries. destruct (vp !! "verifiableCredential") as [v|].
  2: { split; [by intros []|]. by intros (_ & s & [[? _]|?]). }
  destruct v; try (split; [by intros []|]; by intros (_ & s' & [[? _]|?])).
  - split.
    + intros [[= <-] _]. split; [done|]. exists s. by left.
    + intros (Hne & s' & [[[= ->] ->]|?]); done.
  - rewrite of_option_Ok, mapM_as_string. split.
    + intros [-> Hne]. split; [done|]. exists "". by right.
    + intros (Hne & s' & [[? _]|[= ->]]); done.
Qed.
Lemma validateJWTPresentation_Ok req query resolve now presentation holder credentials :
  cq_Format query = FormatJWTVCJSON ->
  validateJWTPresentation req (HolderBindingRequired query) presentation resolve now = Ok (holder, credentials)
  <-> presents req query resolve now presentation holder credentials.
Proof.
  intros Hf. unfold validateJWTPresentation. destruct (isJWT presentation) eqn:Hj; cbn [negb].
  2: { rewrite stop_Ok. split.
    - intros [Hb [= <- <-]]. apply presents_bare; [done|by right].
    - inversion 1 as [payload vp ? _ Hs|Hb _]; subst; [|done]. exfalso.
      destruct Hs as (p0 & p1 & p2 & ? & ? & ? & ? & ? & Hs & _).
      unfold isJWT in Hj. apply Nat.eqb_neq in Hj. pose proof (length_split_on "."%char presentation) as Hl.
      rewrite Hs in Hl. cbn in Hl. lia. }
  split.
  - intros Hp. bind_inv Hp as payload Hs. bind_inv Hp as [] Hl. bind_inv Hp as [] Hb.
    destruct (payload !! "vp") as [[| | | | | | | |vp]|] eqn:Hvp; try done.
    bind_inv Hp as cs Hc. stop_inv Hp as Hne. injection Hp as <- <-. breflect.
    apply presents_vp with (vp := vp); [done|by apply parseAndVerifyJWT_Ok|by apply validateJWTTimeClaims_Ok
      | |done|by apply extractCredentials_Ok].
    intros Hbind. rewrite Hbind in Hb. bind_inv Hb as [] Ha. stop_inv Hb as Hn. breflect.
    apply validateAudience_Ok in Ha. split; [done|]. split; [done|congruence].
  - inversion 1 as [payload vp ? _ Hs Hl Hb Hvp Hc|Hb Hor]; subst.
    2: { exfalso. destruct Hor as [Hor|[_ Hor]]; [by rewrite Hor in Hf|congruence]. }
    apply parseAndVerifyJWT_Ok in Hs as ->. apply validateJWTTimeClaims_Ok in Hl.
    apply extractCredentials_Ok in Hc as [Hc Hne]. cbn [rbind]. rewrite Hl, Hvp, Hc. cbn [rbind].
    destruct (HolderBindingRequired query); [|by rewrite bool_decide_eq_false_2].
    destruct Hb as (Ha & Hn & Hnn); [done|]. apply validateAudience_Ok in Ha. rewrite Ha, Hn. cbn [rbind].
    rewrite (bool_decide_eq_false_2 (aq_Nonce req = "")), bool_decide_eq_true_2 by done. cbn.
    by rewrite bool_decide_eq_false_2.
Qed.

Lemma validatePresentation_Ok req query resolve now presentation holder credentials :
  validatePresentation req query presentation resolve now = Ok (holder, credentials) <->
  presents req query resolve now presentation holder credentials.
Proof.
  unfold validatePresentation. case_bool_decide as Hj; [by apply validateJWTPresentation_Ok|].
  case_bool_decide as Hsd.
  - rewrite stop_Ok. split.
    + intros [Hb [= <- <-]]. apply presents_bare; [done|by left].
    + by inversion 1.
  - split; [done|]. inversion 1 as [? ? ? Hf|_ [?|[? _]]]; congruence.
Qed.

(** ** Credentials *)

(** The credential has all the types of one of the alternatives of the query. *)
Definition type_matches (meta : claims_map) (types : list string) : Prop :=
  exists options required, claim meta "type_values" = Some (VArr options) /\ VArr (VStr <$> required) ∈ options
    /\ required <> [] /\ forall t, t ∈ required -> t <> "" /\ t ∈ types.

(** The [vct] claim is one of the values of the query. *)
Definition vct_matches (meta claims : claims_map) : Prop :=
  exists values vct, claim meta "vct_values" = Some (VArr values) /\ VStr vct ∈ values
    /\ claim claims "vct" = Some (VStr vct) /\ vct <> "".

Definition metadata_matches (query : CredentialQuery) (c : VerifiableCredential) : Prop :=
  (cq_Format query = FormatJWTVCJSON -> type_matches (cq_Meta query) (vc_Type c))
  /\ (cq_Format query = FormatSDJWTVC -> vct_matches (cq_Meta query) (vc_Claims c)).

(** The value at a path of nested objects. *)
Inductive value_at : gval -> list string -> gval -> Prop :=
| value_here v : value_at v [] v
| value_in m k v path w : m !! k = Some v -> value_at v path w -> value_at (VObj m) (k :: path) w.

(** The claim a query asks for is there, with one of the values it lists. *)
Definition claim_matches (claims : claims_map) (q : ClaimQuery) : Prop :=
  exists v, value_at (VObj (default ∅ claims)) (cl_Path q) v
    /\ (cl_Values q <> [] -> exists w, w ∈ cl_Values q /\ deep_equal v w = true).

Lemma lookup_path_Some v path w : lookup_path v path = Some w <-> value_at v path w.
Proof.
  revert v. induction path as [|k path IH]; intros v; cbn.
  - split; [intros [= <-]; constructor|by inversion 1].
  - split.
    + destruct v; try done. intros (v' & Hk & Hw)%bind_Some. econstructor; [done|by apply IH].
    + inversion 1 as [|m ? v' ? ? Hk Hw]; subst. apply bind_Some. exists v'. by rewrite IH.
Qed.

Lemma containsAll_spec types required :
  containsAll types required = true <->
  exists ss, required = VStr <$> ss /\ forall t, t ∈ ss -> t <> "" /\ t ∈ types.
Proof.
  unfold containsAll. rewrite forallb_forall. split.
  - induction required as [|v l IH]; intros Hall; [by exists []; split; [|set_solver]|].
    destruct IH as (ss & -> & Hss); [intros x Hx; apply Hall; by right|].
    specialize (Hall v (or_introl eq_refl)). destruct v; try done. breflect. exists (s :: ss).
    split; [done|]. intros t [->|Ht]%elem_of_cons; [done|by apply Hss].
  - intros (ss & -> & Hss) v Hv%list_elem_of_In. apply list_elem_of_fmap in Hv as (t & -> & Ht).
    apply andb_true_iff. rewrite negb_true_iff, bool_decide_eq_false, bool_decide_eq_true. by apply Hss.
Qed.

Lemma validateTypeValues_Ok meta types : validateTypeValues meta types = Ok tt <-> type_matches meta types.
Proof.
  unfold validateTypeValues, type_matches. rewrite rbind_Ok. setoid_rewrite of_option_Ok. split.
  - intros (raw & Hm & Hraw). destruct raw as [| | | | | | |options|]; try done.
    stop_inv Hraw as Hex. apply existsb_exists in Hex as (v & Hv%list_elem_of_In & Ht).
    destruct v as [| | | | | | |req|]; try done. destruct req as [|x req]; [done|].
    apply containsAll_spec in Ht as (ss & Hss & Hall). exists options, ss. rewrite <- Hss.
    split; [done|]. split; [done|]. split; [by destruct ss|done].
  - intros (options & ss & Hm & Hin & Hne & Hall). exists (VArr options). split; [done|].
    apply guard_Ok. split; [|done]. apply existsb_exists. eexists. split; [by apply list_elem_of_In|].
    assert (Hc : containsAll types (VStr <$> ss) = true) by (apply containsAll_spec; by eexists).
    by destruct ss.
Qed.

Lemma validateVCTValues_Ok meta claims : validateVCTValues meta claims = Ok tt <-> vct_matches meta claims.
Proof.
  unfold validateVCTValues, vct_matches. rewrite rbind_Ok. setoid_rewrite of_option_Ok. split.
  - intros (raw & Hm & Hraw). destruct raw as [| | | | | | |values|]; try done.
    destruct values as [|x values]; [done|]. stop_inv Hraw as Hne. stop_inv Hraw as Hex. breflect.
    apply existsb_is in Hex. exists (x :: values), (claim_string claims "vct").
    split; [done|]. split; [done|]. split; [|done]. unfold claim_string in *.
    by destruct (claim claims "vct") as [[]|].
  - intros (values & vct & Hm & Hin & Hc & Hne). exists (VArr values). split; [done|].
    unfold claim_string. rewrite Hc. destruct values as [|x values]; [by apply not_elem_of_nil in Hin|].
    rewrite stop_Ok, guard_Ok, bool_decide_eq_false, existsb_is. done.
Qed.

Lemma validateCredentialMetadata_Ok query c :
  validateCredentialMetadata query c = Ok tt <-> metadata_matches query c.
Proof.
  unfold validateCredentialMetadata, metadata_matches. case_bool_decide as Hj.
  - rewrite validateTypeValues_Ok, Hj. split; [|by intros [? _]; auto]. intros Ht. by split.
  - case_bool_decide as Hs; [rewrite validateVCTValues_Ok, Hs|].
    + split; [|by intros [_ ?]; auto]. intros Ht. by split.
    + by split.
Qed.

Lemma validateClaimQueries_Ok queries claims :
  validateClaimQueries queries claims = Ok tt <-> Forall (claim_matches claims) queries.
Proof.
  induction queries as [|q queries IH]; cbn [validateClaimQueries]; [by split; [constructor|]|].
  rewrite Forall_cons, <- IH. unfold claim_matches at 1, lookupClaimPath.
  assert (Hv : forall v, (negb (bool_decide (cl_Values q = [])) && negb (existsb (deep_equal v) (cl_Values q)))%bool
    = false <-> (cl_Values q <> [] -> exists w, w ∈ cl_Values q /\ deep_equal v w = true)).
  { intros v. rewrite andb_false_iff, !negb_false_iff, bool_decide_eq_true, existsb_exists.
    setoid_rewrite list_elem_of_In. destruct (cl_Values q) as [|w ws]; [naive_solver|].
    split; [intros [|]; naive_solver|]. intros Hw. right. by apply Hw. }
  split.
  - intros Hq. bind_inv Hq as v Hl. stop_inv Hq as Hb. ok_simp Hl. apply lookup_path_Some in Hl.
    pose proof (proj1 (Hv v) Hb). split; [by exists v|done].
  - intros ((v & Hl & Hb) & Hq). apply lookup_path_Some in Hl. rewrite Hl. cbn [of_option rbind].
    by rewrite (proj2 (Hv v) Hb).
Qed.

(** A credential token that answers a query: it verifies under a key of its issuer, is not
    revoked when that is checked, and is what the query asks for. *)
Record answers (revoked : revocations) (resolve : string -> result error public_key) (strict : bool)
    (query : CredentialQuery) (now : time) (token : string) (c : VerifiableCredential) : Prop := {
  an_verified : verifySingleCredential (parseSDJWTPayload token).1 (parseSDJWTPayload token).2 resolve "" now
                = Ok c;
  an_not_revoked : strict = true ->
    credentialIDForRevocation c <> "" /\ revoked !! credentialIDForRevocation c = None;
  an_metadata : metadata_matches query c;
  an_claims : Forall (claim_matches (vc_Claims c)) (cq_Claims query);
}.

Lemma single_chain resolve token now r :
  VerifyCredentialChain [token] (mkDeps (Some resolve)) (mkOptions "" 0) now = Ok r <->
  exists c, verifySingleCredential (parseSDJWTPayload token).1 (parseSDJWTPayload token).2 resolve "" now = Ok c
    /\ r = chain_result [c].
Proof.
  rewrite VerifyCredentialChain_Ok. split.
  - intros (cs & _ & Hall & _ & _ & ->). destruct cs as [|c [|]]; [done| |by destruct Hall].
    exists c. by destruct Hall.
  - intros (c & Hc & ->). exists [c]. split; [done|]. split; [done|]. split; [done|].
    split; [right; cbn; lia|done].
Qed.

Lemma check_credential_Ok revoked resolve strict query now token c :
  check_credential revoked resolve strict query now token = Ok c <->
  answers revoked resolve strict query now token c.
Proof.
  unfold check_credential. rewrite rbind_Ok. setoid_rewrite single_chain.
  assert (Hrev : forall leaf, (if strict then check_revocation revoked leaf else Ok tt) = Ok tt <->
    (strict = true -> credentialIDForRevocation leaf <> ""
      /\ revoked !! credentialIDForRevocation leaf = None)).
  { intros leaf. destruct strict; [|by split]. unfold check_revocation, IsRevoked.
    rewrite stop_Ok, bool_decide_eq_false. destruct (revoked !! _) as [reason|]; naive_solver. }
  split.
  - intros (r & (leaf & Hv & ->) & Hc). cbn [chain_result cr_Credentials last default from_option id] in Hc.
    bind_inv Hc as [] Hr. bind_inv Hc as [] Hm. bind_inv Hc as [] Hq. injection Hc as <-.
    split; [done|by apply Hrev|by apply validateCredentialMetadata_Ok|by apply validateClaimQueries_Ok].
  - intros [Hv Hr Hm Hq]. exists (chain_result [c]). split; [by exists c|].
    cbn [chain_result cr_Credentials last default from_option id].
    apply Hrev in Hr. rewrite Hr. cbn [rbind].
    rewrite (proj2 (validateCredentialMetadata_Ok _ _) Hm). cbn [rbind].
    by rewrite (proj2 (validateClaimQueries_Ok _ _) Hq).
Qed.
(** ** The loops *)

Section loops.
Context (revoked : revocations) (req : AuthorizationRequest)
  (resolveIssuer resolveHolder : string -> result error public_key)
  (Now : string -> nat -> nat -> time) (strict : bool).

(** What one presentation adds to the result. *)
Definition presentation_outcome (query : CredentialQuery) (id : string) (pp : nat * string)
  : result error (string * list VerifiableCredential) :=
  let! (holder, credentials) := validatePresentation req query pp.2 resolveHolder (Now id pp.1 0) in
  let! leaves := traverse (fun ct => check_credential revoked resolveIssuer strict query (Now id pp.1 (S ct.1)) ct.2)
                   (zip (seq 0 (length credentials)) credentials) in
  Ok (holder, leaves).

(** ... and one entry of the response. *)
Definition entry_outcome (queries : gmap string CredentialQuery) (e : string * list string)
  : result error (string * list (string * list VerifiableCredential)) :=
  let query := default zero_query (queries !! e.1) in
  stop! (negb (cq_Multiple query) && (1 <? length e.2)%nat)
    with ErrText ("credential query " +:+ e.1 +:+ " does not allow multiple presentations") in
  let! os := traverse (presentation_outcome query e.1) (zip (seq 0 (length e.2)) e.2) in
  Ok (e.1, os).

(** The result of a response's outcomes: the last holder named, and all credentials with
    the query each one answers. *)
Definition add_outcome (id : string) (r : ValidationResult) (o : string * list VerifiableCredential)
  : ValidationResult :=
  mkValidation (if bool_decide (o.1 = "") then va_HolderDID r else o.1) (app (va_Credentials r) o.2)
    (app (va_PresentationIDs r) (replicate (length o.2) id)).

Definition add_entry (r : ValidationResult) (e : string * list (string * list VerifiableCredential))
  : ValidationResult := foldl (add_outcome e.1) r e.2.

Lemma check_credentials_eq query id p credentials : forall c r,
  check_credentials revoked resolveIssuer Now strict query id p c credentials r =
  (let! leaves := traverse (fun ct => check_credential revoked resolveIssuer strict query (Now id p (S ct.1)) ct.2)
                    (zip (seq c (length credentials)) credentials) in
   Ok (mkValidation (va_HolderDID r) (app (va_Credentials r) leaves)
         (app (va_PresentationIDs r) (replicate (length leaves) id)))).
Proof.
  induction credentials as [|tok credentials IH]; intros c r; cbn [check_credentials length seq zip zip_with traverse].
  - cbn. rewrite !app_nil_r. by destruct r.
  - cbn [fst snd]. destruct (check_credential _ _ _ _ _ _) as [leaf|err]; cbn [rbind]; [|done].
    rewrite IH. fold (zip (seq (S c) (length credentials)) credentials).
    destruct (traverse _ _) as [leaves|err]; cbn [rbind]; [|done].
    cbn [va_HolderDID va_Credentials va_PresentationIDs length replicate]. by rewrite <- !app_assoc.
Qed.

Lemma check_presentations_eq query id presentations : forall p r,
  check_presentations revoked req resolveIssuer resolveHolder Now strict query id p presentations r =
  (let! os := traverse (presentation_outcome query id) (zip (seq p (length presentations)) presentations) in
   Ok (foldl (add_outcome id) r os)).
Proof.
  induction presentations as [|pr presentations IH]; intros p r;
    cbn [check_presentations length seq zip zip_with traverse]; [done|].
  fold (zip (seq (S p) (length presentations)) presentations). unfold presentation_outcome at 1. cbn [fst snd].
  destruct (validatePresentation _ _ _ _ _) as [[holder credentials]|err]; cbn [rbind]; [|done].
  rewrite check_credentials_eq. destruct (traverse _ _) as [leaves|err]; cbn [rbind]; [|done].
  rewrite IH. destruct (traverse _ _) as [os|err]; cbn [rbind]; [|done]. cbn [foldl]. do 3 f_equal.
  unfold add_outcome. cbn [fst snd]. by case_bool_decide.
Qed.

Lemma check_entries_eq queries entries : forall r,
  check_entries revoked req resolveIssuer resolveHolder Now strict queries entries r =
  (let! es := traverse (entry_outcome queries) entries in Ok (foldl add_entry r es)).
Proof.
  induction entries as [|[id ps] entries IH]; intros r; cbn [check_entries traverse]; [done|].
  unfold entry_outcome at 1. cbn [fst snd]. destruct (_ && _)%bool; [done|].
  rewrite check_presentations_eq.
  destruct (traverse (presentation_outcome _ _) _) as [os|err]; cbn [rbind]; [|done].
  rewrite IH. by destruct (traverse _ _).
Qed.

(** The credentials of a result, each with its query, and the holders named. *)
Definition result_pairs (r : ValidationResult) : list (string * VerifiableCredential) :=
  zip (va_PresentationIDs r) (va_Credentials r).

Definition entry_pairs (e : string * list (string * list VerifiableCredential))
  : list (string * VerifiableCredential) := o ← e.2; pair e.1 <$> o.2.

Lemma add_entry_pairs e : forall r, length (va_PresentationIDs r) = length (va_Credentials r) ->
  length (va_PresentationIDs (add_entry r e)) = length (va_Credentials (add_entry r e))
  /\ result_pairs (add_entry r e) = app (result_pairs r) (entry_pairs e).
Proof.
  destruct e as [id os]. unfold add_entry, entry_pairs. cbn [fst snd].
  induction os as [|[h leaves] os IH]; intros r Hr; cbn [foldl mbind list_bind fst snd]; [by rewrite app_nil_r|].
  destruct (IH (add_outcome id r (h, leaves))) as [Hl ->].
  { cbn [add_outcome va_PresentationIDs va_Credentials snd]. by rewrite !length_app, length_replicate, Hr. }
  split; [done|]. unfold result_pairs. cbn [add_outcome va_PresentationIDs va_Credentials snd].
  rewrite zip_with_app by done. rewrite <- app_assoc. do 2 f_equal.
  clear. induction leaves as [|c leaves IH]; cbn; [done|]. by f_equal.
Qed.

Lemma add_entries_pairs es : forall r, length (va_PresentationIDs r) = length (va_Credentials r) ->
  length (va_PresentationIDs (foldl add_entry r es)) = length (va_Credentials (foldl add_entry r es))
  /\ result_pairs (foldl add_entry r es) = app (result_pairs r) (es ≫= entry_pairs).
Proof.
  induction es as [|e es IH]; intros r Hr; cbn [foldl mbind list_bind]; [by rewrite app_nil_r|].
  destruct (add_entry_pairs e r Hr) as [Hl Hp]. destruct (IH _ Hl) as [? ->].
  by rewrite Hp, <- app_assoc.
Qed.
End loops.

(** ** The response *)

(** The response presents something for the id. *)
Definition answered_for (tok : gmap string (list string)) (id : string) : Prop :=
  exists ps, tok !! id = Some ps /\ ps <> [].

(** Every query is answered or, when the request has credential sets, one option of every
    required set is. *)
Definition requirements_met (query : DCQLQuery) (tok : gmap string (list string)) : Prop :=
  if decide (dq_CredentialSets query = []) then Forall (fun q => answered_for tok (cq_ID q)) (dq_Credentials query)
  else Forall (fun set => cs_Required set <> Some false ->
         exists option, option ∈ cs_Options set /\ option <> [] /\ Forall (answered_for tok) option)
         (dq_CredentialSets query).

Lemma answered_spec tok id : answered tok id = true <-> answered_for tok id.
Proof.
  unfold answered, answered_for. rewrite negb_true_iff, bool_decide_eq_false.
  destruct (tok !! id) as [ps|]; cbn; [|naive_solver]. split; [by exists ps|by intros (? & [= ->] & ?)].
Qed.

Lemma requirements_Ok query tok :
  verifyCredentialSetRequirements query tok = Ok tt <-> requirements_met query tok.
Proof.
  unfold verifyCredentialSetRequirements, requirements_met. case_decide as Hs.
  - rewrite bool_decide_eq_true_2 by done. split.
    + destruct (find _ _) as [|] eqn:Hf; [done|]. intros _. apply Forall_forall. intros q Hq%list_elem_of_In.
      apply answered_spec, negb_false_iff. by apply (find_none _ _ Hf).
    + intros Hall. destruct (find _ _) as [q|] eqn:Hf; [|done]. exfalso. apply find_some in Hf as [Hq Hn].
      apply list_elem_of_In in Hq. eapply Forall_forall in Hall; [|done]. apply answered_spec in Hall.
      by rewrite Hall in Hn.
  - rewrite bool_decide_eq_false_2 by done. rewrite guard_Ok, forallb_forall, Forall_forall.
    setoid_rewrite list_elem_of_In. split.
    + intros [Hall _] set Hset Hreq. specialize (Hall set Hset). apply orb_true_iff in Hall as [Hn|Hex].
      { destruct (cs_Required set) as [[]|]; cbn in Hn; congruence. }
      apply existsb_exists in Hex as (option & Ho & Hc). breflect. exists option. split; [done|]. split; [done|].
      apply Forall_forall. intros id Hid%list_elem_of_In. apply answered_spec.
      match goal with Hf : forallb _ _ = true |- _ => by apply (proj1 (forallb_forall _ _) Hf) end.
    + intros Hall. split; [|done]. intros set Hset. apply orb_true_iff.
      destruct (decide (cs_Required set = Some false)) as [Hr|Hr]; [left; by rewrite Hr|right].
      destruct (Hall set Hset Hr) as (option & Ho & Hne & Hopt). apply existsb_exists. exists option.
      split; [done|]. rewrite bool_decide_eq_false_2 by done. apply forallb_forall.
      intros id Hid%list_elem_of_In. apply answered_spec. by eapply Forall_forall in Hopt.
Qed.

(** The table of the queries. *)
Lemma index_queries_Ok nonce creds : forall acc queries id q,
  index_queries nonce creds acc = Ok queries -> queries !! id = Some q ->
  acc !! id = Some q \/ (q ∈ creds /\ cq_ID q = id).
Proof.
  induction creds as [|q0 creds IH]; intros acc queries id q; cbn [index_queries].
  - intros [= ->]. by left.
  - intros Hi Hq. stop_inv Hi as _. destruct (IH _ _ _ _ Hi Hq) as [Ha|[Hin Hid]].
    + destruct (decide (cq_ID q0 = id)) as [He|He].
      * subst id. rewrite lookup_insert_eq in Ha. injection Ha as ->. right. by split; [left|].
      * rewrite lookup_insert_ne in Ha by done. by left.
    + right. by split; [right|].
Qed.

(** A response, once parsed, is accepted when nothing unexpected is in it, what is required
    is, and every entry passes. *)
Lemma ValidateResponse_Ok walk revoked req raw ri rh now strict r :
  ValidateResponse walk revoked req raw (mkResponseDeps (Some ri) (Some rh) now strict) = Ok r <->
  AuthorizationRequest_Validate req = Ok tt /\ aq_ResponseType req = "vp_token" /\ raw <> ""
  /\ (Z.of_nat (String.length raw) <= maxVPTokenSize)%Z
  /\ exists tok (queries : gmap string CredentialQuery) es, parseVPToken (walk O) raw = Ok tok
       /\ index_queries (aq_Nonce req) (dq_Credentials (aq_DCQLQuery req)) ∅ = Ok queries
       /\ Forall (fun e => is_Some (queries !! e.1)) (walk 1%nat _ tok)
       /\ requirements_met (aq_DCQLQuery req) tok
       /\ traverse (entry_outcome revoked req ri rh now strict queries) (walk 2%nat _ tok) = Ok es
       /\ r = foldl add_entry (mkValidation "" [] []) es.
Proof.
  unfold ValidateResponse. cbn [ResolveIssuerKey ResolveHolderKey rd_Now RevocationStrict].
  assert (Hfind : forall (queries : gmap string CredentialQuery) (l : list (string * list string)),
    match find (fun e => bool_decide (queries !! e.1 = None)) l with
    | Some (id, _) => Err (ErrText ("unexpected credential query id: " +:+ id))
    | None => Ok tt
    end = Ok tt <-> Forall (fun e => is_Some (queries !! e.1)) l).
  { intros queries l. destruct (find _ l) as [[id ps]|] eqn:Hf.
    - apply find_some in Hf as [Hin%list_elem_of_In Hb]. breflect. split; [done|]. intros Hall.
      eapply Forall_forall in Hall as [? Ha]; [|done]. congruence.
    - split; [|done]. intros _. apply Forall_forall. intros e He%list_elem_of_In.
      apply (find_none _ _ Hf) in He. breflect. by apply not_eq_None_Some. }
  split.
  - intros Hv. bind_inv Hv as [] Hreq. stop_inv Hv as Ht. stop_inv Hv as Hr. stop_inv Hv as Hl.
    bind_inv Hv as tok Htok. bind_inv Hv as queries Hq. bind_inv Hv as [] Hf. bind_inv Hv as [] Hs.
    rewrite check_entries_eq in Hv. bind_inv Hv as es Hes. injection Hv as <-. breflect.
    do 4 (split; [done|]). exists tok, queries, es. apply requirements_Ok in Hs. apply Hfind in Hf.
    do 5 (split; [done|]). done.
  - intros (Hreq & Ht & Hr & Hl & tok & queries & es & Htok & Hq & Hf & Hs & Hes & ->).
    rewrite Hreq, Ht. cbn [rbind]. rewrite bool_decide_eq_true_2, bool_decide_eq_false_2 by done. cbn [negb].
    rewrite (proj2 (Z.ltb_ge _ _)) by done. rewrite Htok. cbn [rbind]. rewrite Hq. cbn [rbind].
    rewrite (proj2 (Hfind _ _) Hf). cbn [rbind]. rewrite (proj2 (requirements_Ok _ _) Hs). cbn [rbind].
    by rewrite check_entries_eq, Hes.
Qed.

Lemma zip_seq_lookup {A} (l : list A) k n x : (n, x) ∈ zip (seq k (length l)) l -> l !! (n - k)%nat = Some x.
Proof.
  intros [i Hi]%list_elem_of_lookup_1. apply lookup_zip_Some in Hi as [Hn Hx].
  apply lookup_seq in Hn as [-> _]. by replace (k + i - k)%nat with i by lia.
Qed.

Lemma elem_zip_seq {A} (l : list A) x : forall k, x ∈ l -> exists n, (n, x) ∈ zip (seq k (length l)) l.
Proof.
  induction l as [|y l IH]; intros k; cbn; [by intros ?%not_elem_of_nil|].
  intros [->|Hx]%elem_of_cons; [eexists; left|]. destruct (IH (S k) Hx) as [n Hn]. exists n. by right.
Qed.

(** The outcome of an entry, both ways between its presentations and its credentials. *)
Lemma entry_outcome_sound revoked req ri rh now strict queries id ps e :
  entry_outcome revoked req ri rh now strict queries (id, ps) = Ok e ->
  let q := default zero_query (queries !! id) in
  e.1 = id /\ (cq_Multiple q = true \/ (length ps <= 1)%nat)
  /\ Forall2 (fun np o => exists credentials, presents req q rh (now id np.1 O) np.2 o.1 credentials
       /\ Forall2 (fun ct c => answers revoked ri strict q (now id np.1 (S ct.1)) ct.2 c)
            (zip (seq 0 (length credentials)) credentials) o.2) (zip (seq 0 (length ps)) ps) e.2.
Proof.
  intros He. unfold entry_outcome in He. cbn [fst snd] in He. stop_inv He as Hm. bind_inv He as os Hos.
  injection He as <-. cbn [fst snd]. split; [done|]. split.
  { apply andb_false_iff in Hm as [Hm|Hm]; breflect; [by left|right; lia]. }
  apply traverse_Ok in Hos. eapply Forall2_impl; [exact Hos|]. clear. intros [n p] [h leaves] Ho.
  unfold presentation_outcome in Ho. cbn [fst snd] in *. bind_inv Ho as [h' credentials] Hp.
  bind_inv Ho as ls Hls. injection Ho as <- <-. exists credentials.
  split; [by apply validatePresentation_Ok|]. apply traverse_Ok in Hls.
  eapply Forall2_impl; [exact Hls|]. clear. intros [c tok] leaf Hl. by apply check_credential_Ok.
Qed.
End presentations.
