(* ===== verification/Oidc4vpProps.v ===== *)
(** * Properties of OIDC4VP response validation. *)

From S2P Require Import Prelude GoStrings Base64 GoTime Errors Values GoFmt Crypto Credential.
From S2P Require Import Instances Delegation SDJwt Verify VerifyFacts Issue IssueFacts ChainExample Http.
From S2P Require Import Trust Oidc4vp Oidc4vpFacts.
From Stdlib Require Import ZArith Ascii String Lia.
From stdpp Require Import countable gmap list strings.

Local Open Scope string_scope.

Lemma forall2_elem_l {A B} (P : A -> B -> Prop) l k x : Forall2 P l k -> x ∈ l -> exists y, y ∈ k /\ P x y.
Proof.
  intros Hf [i Hi]%list_elem_of_lookup_1. destruct (Forall2_lookup_l _ _ _ _ _ Hf Hi) as (y & Hy & HP).
  exists y. split; [by eapply list_elem_of_lookup_2|done].
Qed.

Lemma forall2_elem_r {A B} (P : A -> B -> Prop) l k y : Forall2 P l k -> y ∈ k -> exists x, x ∈ l /\ P x y.
Proof.
  intros Hf [i Hi]%list_elem_of_lookup_1. destruct (Forall2_lookup_r _ _ _ _ _ Hf Hi) as (x & Hx & HP).
  exists x. split; [by eapply list_elem_of_lookup_2|done].
Qed.

Section props.
Context `{Json (gmap string gval), Json (gmap string (list string)), Json (list gval), Json VCJWTPayload,
  Json VerifiableCredential, Sha256, Ed25519, FloatFormat}.
Context (walk : nat -> map_order) (Hwalk : walk_ok walk).
Context (revoked : revocations) (req : AuthorizationRequest).
Context (resolveIssuer resolveHolder : string -> result error public_key).
Context (now : string -> nat -> nat -> time) (strict : bool).

(** The dependencies of a validation that has its resolvers. *)
Definition deps : ResponseDependencies :=
  mkResponseDeps (Some resolveIssuer) (Some resolveHolder) now strict.

(** A presentation that answers the query with this id of the request. *)
Definition answers_query (q : CredentialQuery) (id : string) (ps : list string) : Prop :=
  q ∈ dq_Credentials (aq_DCQLQuery req) /\ cq_ID q = id /\ (cq_Multiple q = true \/ (length ps <= 1)%nat).

(** The entries of an accepted response, with the credentials that come out of each. *)
Lemma accepted_entry raw r tok id ps :
  ValidateResponse walk revoked req raw deps = Ok r -> parseVPToken (walk O) raw = Ok tok ->
  tok !! id = Some ps ->
  exists q os, answers_query q id ps
    /\ Forall2 (fun np o => exists credentials, presents req q resolveHolder (now id np.1 O) np.2 o.1 credentials
         /\ Forall2 (fun ct c => answers revoked resolveIssuer strict q (now id np.1 (S ct.1)) ct.2 c)
              (zip (seq 0 (length credentials)) credentials) o.2) (zip (seq 0 (length ps)) ps) os
    /\ forall o c, o ∈ os -> c ∈ o.2 -> (id, c) ∈ result_pairs r.
Proof.
  intros (_ & _ & _ & _ & tok' & queries & es & Htok & Hq & Hf & _ & Hes & ->)%ValidateResponse_Ok Htok' Hid.
  rewrite Htok in Htok'. injection Htok' as ->.
  assert (Hin : forall n, (id, ps) ∈ walk n _ tok) by (intros n; rewrite (Hwalk n _ tok); by apply elem_of_map_to_list).
  eapply Forall_forall in Hf as [q Hqid]; [|apply (Hin 1%nat)]. cbn in Hqid.
  apply traverse_Ok in Hes. destruct (forall2_elem_l _ _ _ _ Hes (Hin 2%nat)) as (e & He & Ho).
  apply entry_outcome_sound in Ho as (Heid & Hm & Hos). rewrite Hqid in Hm, Hos. cbn in Hm, Hos.
  exists q, e.2. split; [|split; [done|]].
  - destruct (index_queries_Ok _ _ _ _ _ _ Hq Hqid) as [He'|[Hqin Hqe]]; [by rewrite lookup_empty in He'|].
    by split; [|split].
  - intros o c Ho Hc. destruct (add_entries_pairs es (mkValidation "" [] []) eq_refl) as [_ ->].
    apply elem_of_app. right. apply list_elem_of_bind. exists e. split; [|done].
    unfold entry_pairs. apply list_elem_of_bind. exists o. split; [|done].
    rewrite <- Heid. by apply list_elem_of_fmap_2.
Qed.

(** ... and every credential of the result comes out of one. *)
Lemma accepted_pair raw r tok id c :
  ValidateResponse walk revoked req raw deps = Ok r -> parseVPToken (walk O) raw = Ok tok ->
  (id, c) ∈ result_pairs r ->
  exists ps q n p holder credentials m token, tok !! id = Some ps /\ ps !! n = Some p /\ answers_query q id ps
    /\ presents req q resolveHolder (now id n O) p holder credentials /\ credentials !! m = Some token
    /\ answers revoked resolveIssuer strict q (now id n (S m)) token c.
Proof.
  intros Hv Htok Hc. pose proof Hv as Hv'.
  apply ValidateResponse_Ok in Hv' as (_ & _ & _ & _ & tok' & queries & es & Htok' & Hq & Hf & _ & Hes & ->).
  rewrite Htok in Htok'. injection Htok' as <-.
  destruct (add_entries_pairs es (mkValidation "" [] []) eq_refl) as [_ Hp]. rewrite Hp in Hc. clear Hp.
  cbn [result_pairs va_PresentationIDs zip zip_with app] in Hc.
  apply list_elem_of_bind in Hc as (e & Hc & He). unfold entry_pairs in Hc.
  apply list_elem_of_bind in Hc as (o & Hc & Ho). apply list_elem_of_fmap in Hc as (c' & [= Hid <-] & Hc).
  apply traverse_Ok in Hes. destruct (forall2_elem_r _ _ _ _ Hes He) as ([id' ps] & Hin & Hoc).
  rewrite (Hwalk 2%nat _ tok) in Hin. apply elem_of_map_to_list in Hin.
  apply entry_outcome_sound in Hoc as (Heid & Hm & Hos). rewrite Heid in Hid. subst id'.
  assert (Hin1 : (id, ps) ∈ walk 1%nat _ tok) by (rewrite (Hwalk 1%nat _ tok); by apply elem_of_map_to_list).
  eapply Forall_forall in Hf as [q Hqid]; [|done]. cbn in Hqid. rewrite Hqid in Hm, Hos. cbn in Hm, Hos.
  destruct (forall2_elem_r _ _ _ _ Hos Ho) as ([n p] & Hp%zip_seq_lookup & credentials & Hpr & Hcs).
  destruct (forall2_elem_r _ _ _ _ Hcs Hc) as ([m token] & Ht%zip_seq_lookup & Han). cbn [fst snd] in *.
  rewrite Nat.sub_0_r in Hp, Ht.
  exists ps, q, n, p, o.1, credentials, m, token. do 2 (split; [done|]). split; [|done].
  destruct (index_queries_Ok _ _ _ _ _ _ Hq Hqid) as [He'|[Hqin Hqe]]; [by rewrite lookup_empty in He'|].
  by split; [|split].
Qed.

(** C10: An OIDC4VP response is accepted only when it answers the request.  The request is
    well formed, everything it requires is presented and nothing else is; every presentation
    is, when its query asks for holder binding, a JWT signed by the key of the holder it
    names, for the client and with the request's nonce, and every credential in it is in
    the result; every credential of the result came in a presentation for the query it is
    listed under, is what its token says, signed by a key of its issuer and not past its
    expiry, is not revoked (in strict mode), and has the type and the claims that query asks
    for.  Dates are compared with the clock of the validation: the reading made for the n-th
    presentation under an id, and the one made for the m-th credential in it. *)
Theorem oidc4vp_response_sound raw r :
  ValidateResponse walk revoked req raw deps = Ok r ->
  AuthorizationRequest_Validate req = Ok tt
  /\ va_Credentials r = (result_pairs r).*2
  /\ exists tok, parseVPToken (walk O) raw = Ok tok /\ requirements_met (aq_DCQLQuery req) tok
  /\ (forall id ps p, tok !! id = Some ps -> p ∈ ps ->
        exists q n holder credentials, answers_query q id ps /\ ps !! n = Some p
          /\ presents req q resolveHolder (now id n O) p holder credentials
          /\ forall token, token ∈ credentials -> exists m c, credentials !! m = Some token
               /\ (id, c) ∈ result_pairs r
               /\ answers revoked resolveIssuer strict q (now id n (S m)) token c)
  /\ (forall id c, (id, c) ∈ result_pairs r ->
        exists ps q n p holder credentials m token, tok !! id = Some ps /\ ps !! n = Some p
          /\ answers_query q id ps
          /\ presents req q resolveHolder (now id n O) p holder credentials /\ credentials !! m = Some token
          /\ answers revoked resolveIssuer strict q (now id n (S m)) token c
          /\ genuine resolveIssuer (now id n (S m)) token c).
Proof.
  intros Hv. pose proof Hv as Hv'.
  apply ValidateResponse_Ok in Hv' as (Hreq & _ & _ & _ & tok & queries & es & Htok & _ & _ & Hs & _ & Hr).
  split; [done|]. split.
  { destruct (add_entries_pairs es (mkValidation "" [] []) eq_refl) as [Hl _]. rewrite <- Hr in Hl.
    unfold result_pairs. by rewrite snd_zip by lia. }
  exists tok. split; [done|]. split; [done|]. split.
  - intros id ps p Hid Hp. destruct (accepted_entry _ _ _ _ _ Hv Htok Hid) as (q & os & Hq & Hos & Hin).
    destruct (elem_zip_seq ps p 0 Hp) as [n Hn]. pose proof (zip_seq_lookup _ _ _ _ Hn) as Hnp.
    rewrite Nat.sub_0_r in Hnp.
    destruct (forall2_elem_l _ _ _ _ Hos Hn) as (o & Ho & credentials & Hpr & Hcs). cbn [fst snd] in *.
    exists q, n, o.1, credentials. split; [done|]. split; [done|]. split; [done|].
    intros token Ht. destruct (elem_zip_seq credentials token 0 Ht) as [m Hm].
    destruct (forall2_elem_l _ _ _ _ Hcs Hm) as (c & Hc & Han). exists m, c.
    apply zip_seq_lookup in Hm. rewrite Nat.sub_0_r in Hm. eauto.
  - intros id c Hc. destruct (accepted_pair _ _ _ _ _ Hv Htok Hc)
      as (ps & q & n & p & holder & credentials & m & token & Hid & Hp & Hq & Hpr & Ht & Han).
    exists ps, q, n, p, holder, credentials, m, token. do 6 (split; [done|]).
    eapply verified_genuine, an_verified, Han.
Qed.
End props.

(** ** The order of the loops *)

Section order.
Context `{Json (gmap string gval), Json (gmap string (list string)), Json (list gval), Json VCJWTPayload,
  Json VerifiableCredential, Sha256, Ed25519, FloatFormat}.

Definition slice_entry (kv : string * gval) : result error (string * list string) :=
  let! values := map_err (fun err => ErrWrap ("vp_token entry " +:+ kv.1 +:+ ": ") err "") (toStringSlice kv.2) in
  Ok (kv.1, values).

Definition insert_entry (m : gmap string (list string)) (kv : string * list string) : gmap string (list string) :=
  <[kv.1 := kv.2]> m.

Lemma parse_entries_eq entries : forall acc,
  parse_entries entries acc = (let! vs := traverse slice_entry entries in Ok (foldl insert_entry acc vs)).
Proof.
  induction entries as [|[k v] entries IH]; intros acc; cbn [parse_entries traverse]; [done|].
  unfold slice_entry at 1. cbn [fst snd]. destruct (map_err _ _) as [values|err]; cbn [rbind]; [|done].
  rewrite IH. by destruct (traverse _ _).
Qed.

Lemma traverse_keys entries vs : traverse slice_entry entries = Ok vs -> vs.*1 = entries.*1.
Proof.
  intros Hf%traverse_Ok. induction Hf as [|[k v] [k' w] entries vs Hkv _ IH]; cbn; [done|].
  rewrite IH. f_equal. unfold slice_entry in Hkv. bind_inv Hkv as u Hu. by injection Hkv as -> _.
Qed.

Lemma foldl_insert_perm l l' : l ≡ₚ l' -> forall acc, NoDup l.*1 ->
  foldl insert_entry acc l = foldl insert_entry acc l'.
Proof.
  induction 1 as [|x l l' _ IH|x y l|l1 l2 l3 H12 IH12 _ IH23]; intros acc Hn; cbn; [done| | |].
  - apply IH. by apply NoDup_cons in Hn as [_ ?].
  - f_equal. apply insert_insert_ne. apply NoDup_cons in Hn as [Hx _]. cbn in Hx. set_solver.
  - rewrite IH12 by done. apply IH23. by rewrite <- H12.
Qed.

(** The order in which the parser meets the entries does not show. *)
Lemma parseVPToken_order (o o' : map_order) raw tok :
  (forall V m, o V m ≡ₚ map_to_list m) -> (forall V m, o' V m ≡ₚ map_to_list m) ->
  parseVPToken o raw = Ok tok -> parseVPToken o' raw = Ok tok.
Proof.
  intros Ho Ho'. unfold parseVPToken. destruct (json_unmarshal raw) as [tok'|]; [done|].
  destruct (map_err _ _) as [generic|]; cbn [rbind]; [|done]. rewrite !parse_entries_eq.
  intros Hp. bind_inv Hp as vs Hvs. injection Hp as <-.
  assert (Hperm : o gval generic ≡ₚ o' gval generic) by by rewrite Ho, Ho'.
  destruct (traverse_perm _ _ _ _ Hperm Hvs) as (vs' & Hvs' & Hpv). rewrite Hvs'. cbn [rbind].
  f_equal. symmetry. apply foldl_insert_perm; [done|]. rewrite (traverse_keys _ _ Hvs), Ho.
  apply NoDup_fst_map_to_list.
Qed.

(** C23: Whether an OIDC4VP response is accepted, and for which credentials under which queries,
    does not depend on the order in which Go happens to visit the maps. *)
Theorem oidc4vp_order_independent walk walk' revoked req raw resolveIssuer resolveHolder now strict r :
  walk_ok walk -> walk_ok walk' ->
  ValidateResponse walk revoked req raw (deps resolveIssuer resolveHolder now strict) = Ok r ->
  exists r', ValidateResponse walk' revoked req raw (deps resolveIssuer resolveHolder now strict) = Ok r'
    /\ result_pairs r ≡ₚ result_pairs r'.
Proof.
  intros Hw Hw' (Hreq & Ht & Hr & Hl & tok & queries & es & Htok & Hq & Hf & Hs & Hes & ->)%ValidateResponse_Ok.
  assert (Hp : forall n, walk n _ tok ≡ₚ walk' n _ tok) by (intros n; by rewrite (Hw n _ tok), (Hw' n _ tok)).
  destruct (traverse_perm _ _ _ _ (Hp 2%nat) Hes) as (es' & Hes' & Hpe).
  exists (foldl add_entry (mkValidation "" [] []) es'). split.
  - apply ValidateResponse_Ok. do 4 (split; [done|]). exists tok, queries, es'.
    split; [by apply (parseVPToken_order (walk O)); [intros; apply Hw|intros; apply Hw'|]|].
    split; [done|]. split; [by rewrite <- (Hp 1%nat)|]. done.
  - destruct (add_entries_pairs es (mkValidation "" [] []) eq_refl) as [_ ->].
    destruct (add_entries_pairs es' (mkValidation "" [] []) eq_refl) as [_ ->].
    by rewrite Hpe.
Qed.
End order.

(** A presentation for a [jwt_vc_json] query with two dots in it is read as a presentation JWT,
    whether or not the query asks for holder binding: a bare JWT credential, which has no
    [vp] claim, does not answer it. *)
Lemma bare_jwt_refused `{Json (gmap string gval), Json (gmap string (list string)), Json (list gval),
    Json VCJWTPayload, Json VerifiableCredential, Sha256, Ed25519, FloatFormat}
    req query resolve now presentation holder credentials :
  cq_Format query = FormatJWTVCJSON -> isJWT presentation = true ->
  validatePresentation req query presentation resolve now = Ok (holder, credentials) ->
  exists payload vp, holder_signed resolve presentation payload /\ payload !! "vp" = Some (VObj vp)
    /\ carries vp credentials.
Proof.
  intros Hf Hj Hp%validatePresentation_Ok. inversion Hp as [payload vp ? _ Hs _ _ Hvp Hc|_ [He|[_ He]]]; subst.
  - by exists payload, vp.
  - by rewrite He in Hf.
  - congruence.
Qed.

(** ** A request and two responses *)

(** The holders sign with keys the resolver knows. *)
Definition bob_key : string := "fedcba9876543210fedcba9876543210".
Definition carol_key : string := "00112233445566778899aabbccddeeff".
Definition holder_keys (holder : string) : result error public_key :=
  if bool_decide (holder = "did:ex:bob") then Ok (PubEd25519 bob_key)
  else if bool_decide (holder = "did:ex:carol") then Ok (PubEd25519 carol_key)
  else Err (ErrVar ErrUntrustedIssuer).

(** A compact notation for the objects of the example: headers, presentations and responses. *)
Definition short_object (s : string) : gmap string gval :=
  match split_on "|"%char s with
  | [holder; audience; nonce; credential] =>
      {["iss" := VStr holder; "aud" := VStr audience; "nonce" := VStr nonce;
        "vp" := VObj {["verifiableCredential" := VArr [VStr credential]]}]}
  | _ => {["alg" := VStr s]}
  end.

Definition short_json : Json (gmap string gval) :=
  {| json_marshal _ := Err (ErrText "not used"); json_unmarshal s := Ok (short_object s) |}.

Definition short_response : Json (gmap string (list string)) := {|
  json_marshal _ := Err (ErrText "not used");
  json_unmarshal s :=
    match split_on "|"%char s with
    | [a; p; b; q] => Ok {[a := [p]; b := [q]]}
    | _ => Err (ErrText "not an object of arrays of strings")
    end |}.

#[local] Existing Instances short_json short_response.

Definition presentation_of (holder key credential : string) : string :=
  let input := b64_encode "EdDSA" +:+ "." +:+ b64_encode (str_join "|" [holder; "client"; "n-1"; credential]) in
  input +:+ "." +:+ b64_encode (key +:+ input).

Definition bob_vp : string := Eval vm_compute in presentation_of "did:ex:bob" bob_key root_token.
Definition carol_vp : string := Eval vm_compute in presentation_of "did:ex:carol" carol_key root_token.

Definition any_query (id : string) : CredentialQuery :=
  mkQuery id FormatJWTVCJSON false
    (Some {["type_values" := VArr [VArr [VStr "VerifiableCredential"]]]}) [] None [] [].

Definition two_queries : AuthorizationRequest :=
  mkAuthRequest "client" "" "state-1" "n-1" "vp_token" "direct_post"
    (mkDCQL [any_query "a"; any_query "b"] [] []) 0 0.

Definition two_answers : string := str_join "|" ["a"; bob_vp; "b"; carol_vp].

Definition in_order : nat -> map_order := fun _ V m => map_to_list m.
Definition in_reverse : nat -> map_order := fun _ V m => reverse (map_to_list m).

Definition validated (walk : nat -> map_order) : result error ValidationResult :=
  ValidateResponse walk ∅ two_queries two_answers (deps resolve_alice holder_keys (fun _ _ _ => t0) true).

Definition result_of (walk : nat -> map_order) : ValidationResult :=
  default (mkValidation "" [] []) (to_option (validated walk)).

Lemma in_order_ok : walk_ok in_order.
Proof. by intros n V m. Qed.

Lemma in_reverse_ok : walk_ok in_reverse.
Proof. intros n V m. apply reverse_Permutation. Qed.

Lemma validated_in_order : validated in_order = Ok (result_of in_order).
Proof. vm_compute. reflexivity. Qed.

Lemma validated_in_reverse : validated in_reverse = Ok (result_of in_reverse).
Proof. vm_compute. reflexivity. Qed.

Lemma oidc4vp_response_sound_witness :
  validated in_order = Ok (result_of in_order)
  /\ va_Credentials (result_of in_order) = (result_pairs (result_of in_order)).*2.
Proof.
  split; [exact validated_in_order|].
  destruct (oidc4vp_response_sound in_order in_order_ok ∅ two_queries resolve_alice holder_keys
    (fun _ _ _ => t0) true two_answers (result_of in_order) validated_in_order) as (_ & Hp & _).
  exact Hp.
Defined.

Lemma oidc4vp_order_independent_witness :
  exists r', validated in_reverse = Ok r' /\ result_pairs (result_of in_order) ≡ₚ result_pairs r'.
Proof.
  exact (oidc4vp_order_independent in_order in_reverse ∅ two_queries two_answers resolve_alice holder_keys
    (fun _ _ _ => t0) true (result_of in_order) in_order_ok in_reverse_ok validated_in_order).
Defined.

(** The holder an accepted response is attributed to depends on the order in which Go visits
    the response: one and the same response, with presentations by two holders, is accepted
    as coming from either.  It is also accepted when a presentation by one holder carries the
    credential of another subject: the key that signed the presentation is not compared with
    the credential's subject. *)
Theorem oidc4vp_holder_ambiguous :
  exists walk walk' revoked req raw resolveIssuer resolveHolder now r r',
    walk_ok walk /\ walk_ok walk'
    /\ ValidateResponse walk revoked req raw (deps resolveIssuer resolveHolder now true) = Ok r
    /\ ValidateResponse walk' revoked req raw (deps resolveIssuer resolveHolder now true) = Ok r'
    /\ va_HolderDID r <> va_HolderDID r'
    /\ Forall (fun q => HolderBindingRequired q = true) (dq_Credentials (aq_DCQLQuery req))
    /\ Forall (fun c => vc_Subject c <> va_HolderDID r) (va_Credentials r).
Proof.
  exists in_order, in_reverse, ∅, two_queries, two_answers, resolve_alice, holder_keys, (fun _ _ _ => t0),
    (result_of in_order), (result_of in_reverse).
  split; [exact in_order_ok|]. split; [exact in_reverse_ok|]. split; [exact validated_in_order|].
  split; [exact validated_in_reverse|]. split; [vm_compute; congruence|]. split; [by repeat constructor|].
  assert (Hs : vc_Subject <$> va_Credentials (result_of in_order) = ["did:ex:bob"; "did:ex:bob"])
    by (vm_compute; reflexivity).
  assert (Hh : va_HolderDID (result_of in_order) = "did:ex:carol") by (vm_compute; reflexivity).
  rewrite Hh. apply (Forall_fmap vc_Subject (fun sub => sub <> "did:ex:carol")). rewrite Hs.
  by repeat constructor.
Qed.
