(* ===== verification/Oidc4vpEndpoint.v ===== *)
(** * The OIDC4VP response endpoint.

    Models internal/httpserver/oidc4vp_handlers.go.  Between reading the stored request and
    marking it as used the handler holds no lock, so it is modelled in two parts,
    [begin_response] and [end_response]; other requests may run in between.  The handler is
    their composition.  A request body is what [ParseForm] makes of it: [None] when it fails
    (an oversized body included), a lookup of form values otherwise. *)

From S2P Require Import Prelude GoStrings Base64 GoTime Errors Values GoFmt Crypto Credential.
From S2P Require Import Delegation SDJwt Verify Http Trust Oidc4vp.
From Stdlib Require Import ZArith Ascii String Lia.
From stdpp Require Import gmap list strings.

Local Open Scope string_scope.

(** [PostFormValue], empty for a missing key. *)
Definition form : Type := string -> string.

(** The function fields of the configuration that do not change; the registry and the store
    are state.
    Source: internal/httpserver/oidc4vp_handlers.go, [OIDC4VPConfig]. *)
Record OIDC4VPConfig := mkOidcConfig {
  oc_IssuerResolver : option (string -> result error public_key);
  oc_HolderResolver : option (string -> result error public_key);
  oc_DefaultTenantID : string;
  oc_RevocationStrict : bool;
}.

(** Source: internal/httpserver/oidc4vp_handlers.go, [OIDC4VPResponse]. *)
Record OIDC4VPResponse := mkOidcResponse {
  os_Verified : bool;
  os_HolderDID : string;
  os_CredentialCount : Z;
  os_APIVersion : string;
}.

(** Source: internal/httpserver/oidc4vp_handlers.go, [mapOIDC4VPError]. *)
Definition mapOIDC4VPError (err : error) : Z * string :=
  if error_is err ErrUntrustedIssuer then (403%Z, "access_denied") else (400%Z, "invalid_request").

(** What the environment does during one request: the orders of the loops, the clock readings
    of the store, of the validation and of the log. *)
Record surroundings := mkSurroundings {
  su_walk : nat -> map_order;
  su_get : time;
  su_now : string -> nat -> nat -> time;
  su_logged : time;
}.

Section endpoint.
Context `{Json (gmap string gval), Json (gmap string (list string)), Json (list gval), Json VCJWTPayload,
  Json VerifiableCredential, Sha256, Ed25519, FloatFormat}.
Context {St : Type} `{RequestStore St} {T : Type} `{TrustRegistry T}.

(** Source: internal/httpserver/oidc4vp_handlers.go:84-95, [RegisterOIDC4VPRoutes]. *)
Definition issuer_lookup (trustRegistry : option T) (tenantID : string)
    (resolver : string -> result error public_key) (issuer : string) : result error public_key :=
  let! _ :=
    match trustRegistry with
    | None => Ok tt
    | Some reg =>
        let! trusted := IsTrustedIssuer reg tenantID issuer in
        stop! negb trusted with ErrVar ErrUntrustedIssuer in Ok tt
    end in
  resolver issuer.

(** The key lookups and the clock of a validation.
    Source: internal/httpserver/oidc4vp_handlers.go:97-102, [RegisterOIDC4VPRoutes]. *)
Definition response_deps (cfg : OIDC4VPConfig) (registry : option T) (tenantID : string)
    (now : string -> nat -> nat -> time) : ResponseDependencies :=
  mkResponseDeps (issuer_lookup registry tenantID <$> oc_IssuerResolver cfg) (oc_HolderResolver cfg) now
    (oc_RevocationStrict cfg).

(** Up to the validation: the refusal with what it recorded, or the store, the state and the
    result.
    Source: internal/httpserver/oidc4vp_handlers.go:46-116, [RegisterOIDC4VPRoutes]. *)
Definition begin_response (cfg : OIDC4VPConfig) (registry : option T) (revoked : revocations)
    (su : surroundings) (r : request form) (store : option St)
  : result (response OIDC4VPResponse * list effect) (St * string * ValidationResult) :=
  stop! negb (bool_decide (r_Method r = "POST")) with
    (WriteAPIError 405 "method_not_allowed" "method not allowed", []) in
  stop! negb (has_prefix (r_Header r "Content-Type") "application/x-www-form-urlencoded") with
    (WriteAPIError 400 "invalid_request" "content-type must be application/x-www-form-urlencoded", []) in
  let! values := of_option (WriteAPIError 400 "invalid_request" "invalid form payload", []) (r_Body r) in
  let state := values "state" in
  let vpToken := values "vp_token" in
  stop! (bool_decide (state = "") || bool_decide (vpToken = "")) with
    (WriteAPIError 400 "invalid_request" "state and vp_token are required", []) in
  match store, oc_IssuerResolver cfg, oc_HolderResolver cfg with
  | Some s, Some _, Some _ =>
      let! req := map_err (fun _ => (WriteAPIError 400 "invalid_request" "unknown or expired state", []))
                    (Get (su_get su) s state) in
      let tenantID := tenant_or_default r (oc_DefaultTenantID cfg) in
      let! result := map_err (fun err =>
          let '(status, code) := mapOIDC4VPError err in
          (WriteAPIError status code (error_text err),
           [LogAuditEvent (r_Context r) (su_logged su)
              (event "oidc4vp.verified" "" "" "failure" code
                 {["state" := VStr state; "error" := VStr (error_text err)]})]))
        (ValidateResponse (su_walk su) revoked req vpToken (response_deps cfg registry tenantID (su_now su))) in
      Ok (s, state, result)
  | _, _, _ => Err (WriteAPIError 500 "server_error" "request store not configured", [])
  end.

(** Marking the request as used, and the answer.
    Source: internal/httpserver/oidc4vp_handlers.go:118-140, [RegisterOIDC4VPRoutes]. *)
Definition end_response (logged : time) (r : request form) (state : string) (result : ValidationResult) (s : St)
  : outcome St OIDC4VPResponse :=
  match MarkUsed s state with
  | Err _ => halt s (WriteAPIError 400 "invalid_request" "state already used")
  | Ok s' =>
      let count := Z.of_nat (length (va_Credentials result)) in
      (respond 200 (mkOidcResponse true (va_HolderDID result) count APIVersion), s',
       [LogAuditEvent (r_Context r) logged
          (event "oidc4vp.verified" (va_HolderDID result) "" "success" ""
             {["state" := VStr state; "credential_count" := VInt count]})])
  end.

(** Source: internal/httpserver/oidc4vp_handlers.go:38-142, [RegisterOIDC4VPRoutes]. *)
Definition handleOIDC4VPResponse (cfg : OIDC4VPConfig) (registry : option T) (revoked : revocations)
    (su : surroundings) : handler form (option St) OIDC4VPResponse :=
  fun r store =>
    match begin_response cfg registry revoked su r store with
    | Err (resp, es) => (resp, store, es)
    | Ok (s, state, result) =>
        let '(resp, s', es) := end_response (su_logged su) r state result s in
        (resp, Some s', es)
    end.
End endpoint.

(** ** Runs *)

(** The specification: the set of open states.  An answer to a state closes it. *)
Inductive label := Opened (state : string) | Accepted (state : string) | Silent.

#[global] Instance label_eq_dec : EqDecision label.
Proof. solve_decision. Defined.

Inductive spec_step : gset string -> label -> gset string -> Prop :=
| spec_open X state : spec_step X (Opened state) ({[state]} ∪ X)
| spec_accept X state : state ∈ X -> spec_step X (Accepted state) (X ∖ {[state]})
| spec_silent X : spec_step X Silent X.

(** Runs of a labelled relation. *)
Inductive run {A} (step : A -> label -> A -> Prop) : A -> list label -> A -> Prop :=
| run_nil x : run step x [] x
| run_snoc x ls y l z : run step x ls y -> step y l z -> run step x (app ls [l]) z.

Definition count (l : label) (ls : list label) : nat := length (filter (fun l' => l' = l) ls).

Definition is_open (state : string) (X : gset string) : nat := if decide (state ∈ X) then 1 else 0.

Section runs.
Context `{Json (gmap string gval), Json (gmap string (list string)), Json (list gval), Json VCJWTPayload,
  Json VerifiableCredential, Sha256, Ed25519, FloatFormat}.
Context {St : Type} `{RequestStoreLaws St} {T : Type} `{TrustRegistry T}.

(** A request whose response was validated and not yet answered: the HTTP request, the
    state and the result. *)
Record pending := mkPending {
  pd_request : request form;
  pd_state : string;
  pd_result : ValidationResult;
}.

(** The store, and the requests in flight. *)
Definition system : Type := St * gmap nat pending.

(** Steps of the endpoint with any number of requests in flight: the verifier saves an
    authorization request; a response is validated or refused; a validated one is answered.
    The configuration, the registry, the revocations and the surroundings may change from
    step to step. *)
Inductive endpoint_step : system -> label -> system -> Prop :=
| step_save now s req s' P :
    Save now s req = Ok s' -> endpoint_step (s, P) (Opened (aq_State req)) (s', P)
| step_validate cfg (registry : option T) revoked su r s state result P i :
    P !! i = None -> begin_response cfg registry revoked su r (Some s) = Ok (s, state, result) ->
    endpoint_step (s, P) Silent (s, <[i := mkPending r state result]> P)
| step_refuse cfg (registry : option T) revoked su r s e P :
    begin_response cfg registry revoked su r (Some s) = Err e -> endpoint_step (s, P) Silent (s, P)
| step_answer logged s P i p resp s' es :
    P !! i = Some p -> end_response logged (pd_request p) (pd_state p) (pd_result p) s = (resp, s', es) ->
    endpoint_step (s, P) (if (rs_Status resp =? 200)%Z then Accepted (pd_state p) else Silent) (s', delete i P).

(** Every step of the endpoint is a step of the specification. *)
Lemma endpoint_refines s P l s' P' :
  endpoint_step (s, P) l (s', P') -> spec_step (open_states s) l (open_states s').
Proof.
  inversion 1 as [now ? req ? ? Hs|? ? ? ? ? ? ? ? ? ? ? Hb|? ? ? ? ? ? ? ? Hb|logged ? ? i p resp ? es Hp He];
    subst; try constructor.
  - apply save_law in Hs as [_ ->]. constructor.
  - unfold end_response in He. destruct (MarkUsed s (pd_state p)) as [s1|err] eqn:Hm.
    + injection He as <- <- _. apply mark_law in Hm as (Ho & _ & ->). by constructor.
    + injection He as <- <- _. constructor.
Qed.

Lemma run_refines x ls y :
  run endpoint_step x ls y -> run spec_step (open_states x.1) ls (open_states y.1).
Proof.
  induction 1 as [|x ls [s P] l [s' P'] _ IH Hs]; [constructor|].
  econstructor; [exact IH|]. by apply endpoint_refines in Hs.
Qed.
End runs.

Lemma count_snoc l ls l' : count l (app ls [l']) = (count l ls + (if decide (l' = l) then 1 else 0))%nat.
Proof. unfold count. rewrite filter_app, length_app. cbn. by case_decide. Qed.

(** In the specification a state is accepted as often as it was opened, less one if it is
    still open. *)
Lemma spec_accepts X ls Y state :
  run spec_step X ls Y ->
  (count (Accepted state) ls + is_open state Y <= count (Opened state) ls + is_open state X)%nat.
Proof.
  induction 1 as [|X ls Y l Z _ IH Hs]; [cbn; lia|]. rewrite !count_snoc.
  destruct Hs as [Y st|Y st Hin|Y]; unfold is_open in *.
  - rewrite (decide_False (P := Opened st = Accepted state)) by done.
    destruct (decide (st = state)) as [->|Hne].
    + rewrite (decide_True (P := Opened state = Opened state)) by done.
      rewrite (decide_True (P := state ∈ {[state]} ∪ Y)) by set_solver.
      destruct (decide (state ∈ Y)); lia.
    + rewrite (decide_False (P := Opened st = Opened state)) by congruence.
      destruct (decide (state ∈ {[st]} ∪ Y)), (decide (state ∈ Y)); try lia; set_solver.
  - rewrite (decide_False (P := Accepted st = Opened state)) by done.
    destruct (decide (st = state)) as [->|Hne].
    + rewrite (decide_True (P := Accepted state = Accepted state)) by done.
      rewrite (decide_False (P := state ∈ Y ∖ {[state]})) by set_solver.
      rewrite (decide_True (P := state ∈ Y)) in IH by done. lia.
    + rewrite (decide_False (P := Accepted st = Accepted state)) by congruence.
      destruct (decide (state ∈ Y ∖ {[st]})), (decide (state ∈ Y)); try lia; set_solver.
  - rewrite !decide_False by done. lia.
Qed.
