(* ===== verification/Oidc4vpEndpointProps.v ===== *)
(** * Properties of the OIDC4VP response endpoint. *)

From S2P Require Import Prelude GoStrings Base64 GoTime Errors Values GoFmt Crypto Credential.
From S2P Require Import Instances Delegation SDJwt Verify VerifyFacts Issue ChainExample Http Trust.
From S2P Require Import Oidc4vp Oidc4vpFacts Oidc4vpProps Oidc4vpEndpoint.
From Stdlib Require Import ZArith Ascii String Lia.
From stdpp Require Import countable gmap list strings.

Local Open Scope string_scope.

Section endpoint.
Context `{Json (gmap string gval), Json (gmap string (list string)), Json (list gval), Json VCJWTPayload,
  Json VerifiableCredential, Sha256, Ed25519, FloatFormat}.
Context {St : Type} `{RequestStoreLaws St} {T : Type} `{TrustRegistryLaws T}.

(** The HTTP request is a form post that carries a valid answer to a request that is stored
    under its state and has not expired when it is looked up. *)
Record acceptable (cfg : OIDC4VPConfig) (reg : T) (revoked : revocations) (su : surroundings) (r : request form)
    (s : St) (state : string) (req : AuthorizationRequest) (result : ValidationResult) : Prop := {
  ac_method : r_Method r = "POST";
  ac_type : has_prefix (r_Header r "Content-Type") "application/x-www-form-urlencoded" = true;
  ac_stored : requests s !! state = Some req;
  ac_live : live (su_get su) req;
  ac_valid : exists values ri rh, r_Body r = Some values /\ values "state" = state /\ state <> ""
    /\ values "vp_token" <> "" /\ oc_IssuerResolver cfg = Some ri /\ oc_HolderResolver cfg = Some rh
    /\ ValidateResponse (su_walk su) revoked req (values "vp_token")
         (deps (issuer_lookup (Some reg) (tenant_or_default r (oc_DefaultTenantID cfg)) ri) rh (su_now su)
            (oc_RevocationStrict cfg)) = Ok result;
}.

Lemma begin_response_Ok cfg reg revoked su r (s s' : St) state result :
  begin_response cfg (Some reg) revoked su r (Some s) = Ok (s', state, result) <->
  s' = s /\ exists req, acceptable cfg reg revoked su r s state req result.
Proof.
  unfold begin_response. split.
  - intros Hb. stop_inv Hb as Hm. stop_inv Hb as Ht. bind_inv Hb as values Hv. stop_inv Hb as Hf. ok_simp Hv.
    destruct (oc_IssuerResolver cfg) as [ri|] eqn:Hri; [|done].
    destruct (oc_HolderResolver cfg) as [rh|] eqn:Hrh; [|done].
    bind_inv Hb as req Hg. bind_inv Hb as res Hres. injection Hb as <- <- <-. ok_simp Hg. ok_simp Hres. breflect.
    apply get_law in Hg as [Hst Hl].
    split; [done|]. exists req. split; [done|done|done|done|]. exists values, ri, rh.
    do 6 (split; [done|]). unfold response_deps in Hres. by rewrite Hri, Hrh in Hres.
  - intros (-> & req & [Hm Ht Hst Hl (values & ri & rh & Hb & <- & Hs & Hv & Hri & Hrh & Hres)]).
    pose proof (proj2 (get_law _ _ _ _) (conj Hst Hl)) as Hg.
    rewrite Hm, Ht, Hb. cbn [of_option rbind negb]. rewrite bool_decide_eq_true_2 by done. cbn [negb].
    rewrite !bool_decide_eq_false_2 by done. cbn [orb]. rewrite Hri, Hrh, Hg. cbn [map_err rbind].
    unfold response_deps. rewrite Hri, Hrh. cbn [fmap option_fmap option_map].
    by change (mkResponseDeps (Some (issuer_lookup (Some reg) (tenant_or_default r (oc_DefaultTenantID cfg)) ri))
      (Some rh) (su_now su) (oc_RevocationStrict cfg))
      with (deps (issuer_lookup (Some reg) (tenant_or_default r (oc_DefaultTenantID cfg)) ri) rh (su_now su)
        (oc_RevocationStrict cfg)); rewrite Hres.
Qed.

Lemma begin_response_refuses cfg (reg : option T) revoked su r (s : option St) resp es :
  begin_response cfg reg revoked su r s = Err (resp, es) -> rs_Status resp <> 200%Z.
Proof.
  unfold begin_response. intros Hb.
  destruct (negb _); [by injection Hb as <- <-|]. destruct (negb _); [by injection Hb as <- <-|].
  destruct (r_Body r) as [values|]; cbn [of_option rbind] in Hb; [|by injection Hb as <- <-].
  destruct (_ || _)%bool; [by injection Hb as <- <-|].
  destruct s as [s|], (oc_IssuerResolver cfg), (oc_HolderResolver cfg); try by injection Hb as <- <-.
  destruct (Get _ _ _) as [req|]; cbn [map_err rbind] in Hb; [|by injection Hb as <- <-].
  destruct (ValidateResponse _ _ _ _ _) as [res|err]; cbn [map_err rbind] in Hb; [done|].
  unfold mapOIDC4VPError in Hb. by destruct (error_is _ _); injection Hb as <- <-.
Qed.

Lemma issuer_lookup_trusted (reg : T) t resolver issuer key :
  issuer_lookup (Some reg) t resolver issuer = Ok key -> issuer ∈ trusted_set reg t.
Proof.
  unfold issuer_lookup. rewrite is_trusted_law. cbn [rbind]. by case_bool_decide.
Qed.

Lemma result_trusted walk revoked req reg t ri rh now strict raw r :
  walk_ok walk -> ValidateResponse walk revoked req raw (deps (issuer_lookup (Some reg) t ri) rh now strict) = Ok r ->
  Forall (fun c => vc_Issuer c ∈ trusted_set reg t) (va_Credentials r).
Proof.
  intros Hw Hv. pose proof Hv as Hv'. apply ValidateResponse_Ok in Hv' as (_ & _ & _ & _ & tok & queries & es & Htok & _ & _ & _ & _ & Hr).
  destruct (add_entries_pairs es (mkValidation "" [] []) eq_refl) as [Hl _].
  rewrite <- Hr in Hl. replace (va_Credentials r) with (result_pairs r).*2 by (unfold result_pairs; by rewrite snd_zip by lia).
  apply Forall_fmap, Forall_forall. intros [id c] Hc. cbn.
  destruct (accepted_pair walk Hw revoked req _ rh now strict raw r tok id c Hv Htok Hc)
    as (ps & q & n & p & holder & credentials & m & token & _ & _ & _ & _ & _ & Han).
  destruct (genuine_signed _ _ _ _ (verified_genuine _ _ _ _ _ (an_verified _ _ _ _ _ _ _ Han))) as (p0 & p1 & p2 & key & sg & _ & Hres & _). by eapply issuer_lookup_trusted.
Qed.

(** C11: The OIDC4VP endpoint answers 200 exactly when the request is a form post with a response
    that is valid for a request the store holds under the posted state, which has not expired
    when it is looked up and is still open.  It then answers with
    the holder and the number of credentials of the validation, every one of which is from an
    issuer the tenant trusts, records one audit event that names the holder, and closes the
    state, and only that one; in every other case the store is left as it was. *)
Theorem oidc4vp_endpoint_spec cfg reg revoked su r (s : St) :
  walk_ok (su_walk su) ->
  let o := handleOIDC4VPResponse cfg (Some reg) revoked su r (Some s) in
  (rs_Status (out_response o) = 200%Z <->
     exists state req result, acceptable cfg reg revoked su r s state req result /\ state ∈ open_states s)
  /\ (forall state req result, acceptable cfg reg revoked su r s state req result -> state ∈ open_states s ->
        exists s' e, o = (respond 200 (mkOidcResponse true (va_HolderDID result)
                            (Z.of_nat (length (va_Credentials result))) APIVersion), Some s', [Logged e])
        /\ ev_SubjectDID e = va_HolderDID result /\ ev_Outcome e = "success"
        /\ requests s !! state = Some req /\ open_states s' = open_states s ∖ {[state]}
        /\ Forall (fun c => vc_Issuer c ∈ trusted_set reg (tenant_or_default r (oc_DefaultTenantID cfg)))
             (va_Credentials result))
  /\ (rs_Status (out_response o) <> 200%Z -> out_state o = Some s).
Proof.
  intros Hw. cbv zeta. unfold handleOIDC4VPResponse.
  destruct (begin_response cfg (Some reg) revoked su r (Some s)) as [[[s1 state] result]|[resp es]] eqn:Hb.
  - apply begin_response_Ok in Hb as (-> & req & Hacc).
    assert (Huniq : forall state' req' result', acceptable cfg reg revoked su r s state' req' result' ->
      state' = state /\ req' = req /\ result' = result).
    { intros state' req' result' Hacc'. destruct Hacc as [_ _ Hg _ (v & ri & rh & Hb & Hs & _ & _ & Hri & Hrh & Hv)].
      destruct Hacc' as [_ _ Hg' _ (v' & ri' & rh' & Hb' & Hs' & _ & _ & Hri' & Hrh' & Hv')].
      rewrite Hb in Hb'. injection Hb' as <-. rewrite Hs in Hs'. subst state'. rewrite Hg in Hg'. injection Hg' as <-.
      rewrite Hri in Hri'. injection Hri' as <-. rewrite Hrh in Hrh'. injection Hrh' as <-.
      rewrite Hv in Hv'. by injection Hv' as <-. }
    unfold end_response. destruct (MarkUsed s state) as [s'|err] eqn:Hm.
    + apply mark_law in Hm as (Ho & _ & Hcl). split; [|split; [|done]].
      * split; [intros _; by exists state, req, result|done].
      * intros state' req' result' Hacc' _. destruct (Huniq _ _ _ Hacc') as (-> & -> & ->).
        eexists s', _. split; [done|]. split; [done|]. split; [done|].
        destruct Hacc as [_ _ Hg _ (v & ri & rh & _ & _ & _ & _ & _ & _ & Hv)].
        split; [done|]. split; [done|]. by eapply result_trusted.
    + assert (Hno : ~ state ∈ open_states s) by (intros [s' Hs']%mark_open; congruence).
      split; [|split; [|done]].
      * split; [done|]. intros (state' & req' & result' & Hacc' & Ho).
        by destruct (Huniq _ _ _ Hacc') as (-> & _ & _).
      * intros state' req' result' Hacc' Ho. by destruct (Huniq _ _ _ Hacc') as (-> & _ & _).
  - pose proof (begin_response_refuses _ _ _ _ _ _ _ _ Hb) as Hst.
    assert (Hno : forall state req result, ~ acceptable cfg reg revoked su r s state req result).
    { intros state req result Hacc. assert (begin_response cfg (Some reg) revoked su r (Some s) = Ok (s, state, result))
        as Hb' by (apply begin_response_Ok; split; [done|by exists req]). by rewrite Hb in Hb'. }
    split; [|split; [|done]].
    + split; [done|]. intros (state & req & result & Hacc & _). by apply Hno in Hacc.
    + intros state req result Hacc. by apply Hno in Hacc.
Qed.

(** C12: An authorization request is answered at most once, however the endpoint's requests are
    interleaved: over any run, with any number of responses validated before any of them is
    answered, a state is accepted no more often than requests were saved under it. *)
Theorem oidc4vp_single_use (s0 : St) ls s P state :
  run (endpoint_step (T := T)) (s0, ∅) ls (s, P) ->
  (count (Accepted state) ls <= count (Opened state) ls + is_open state (open_states s0))%nat.
Proof. intros Hr%run_refines. apply (spec_accepts _ _ _ state) in Hr. cbn in Hr. lia. Qed.
End endpoint.

(** ** Instances *)

#[local] Existing Instances short_json short_response.

Definition saved : MemoryRequests.MemoryRequestStore :=
  MemoryRequests.mkStore {["state-1" := MemoryRequests.mkRecord (set_ExpiresAt (t0 + 5 * minute)%Z two_queries) false]}.

Definition oidc_config : OIDC4VPConfig := mkOidcConfig (Some resolve_alice) (Some holder_keys) "acme" true.

Definition quiet : surroundings := mkSurroundings in_order t0 (fun _ _ _ => t0) t0.

Definition form_post : request form :=
  mkRequest "POST" "/v1/oidc4vp/response" "" (fun _ => "application/x-www-form-urlencoded") ""
    (Some (fun k => if bool_decide (k = "state") then "state-1" else two_answers)) background.

Lemma oidc4vp_endpoint_spec_witness :
  let o := handleOIDC4VPResponse oidc_config (Some alice_trusted) ∅ quiet form_post (Some saved) in
  rs_Status (out_response o) = 200%Z
  /\ exists state req result, acceptable oidc_config alice_trusted ∅ quiet form_post saved state req result
       /\ state ∈ open_states saved.
Proof.
  cbv zeta. set (o := handleOIDC4VPResponse _ _ _ _ _ _).
  assert (Hst : rs_Status (out_response o) = 200%Z) by (vm_compute; reflexivity). split; [exact Hst|].
  destruct (oidc4vp_endpoint_spec oidc_config alice_trusted ∅ quiet form_post saved in_order_ok) as ([Hex _] & _ & _).
  exact (Hex Hst).
Defined.

Lemma saved_Save : Save t0 MemoryRequests.NewMemoryRequestStore two_queries = Ok saved.
Proof. vm_compute. reflexivity. Qed.

(** Two copies of one response, both validated before either is answered. *)
Definition validated_twice : result (response OIDC4VPResponse * list effect)
    (MemoryRequests.MemoryRequestStore * string * ValidationResult) :=
  begin_response oidc_config (Some alice_trusted) ∅ quiet form_post (Some saved).

Definition the_result : ValidationResult :=
  default (mkValidation "" [] []) (snd <$> to_option validated_twice).

Lemma validated_twice_Ok : validated_twice = Ok (saved, "state-1", the_result).
Proof. vm_compute. reflexivity. Qed.

Definition one_pending : pending := mkPending form_post "state-1" the_result.

Definition answer_to (s : MemoryRequests.MemoryRequestStore) : outcome MemoryRequests.MemoryRequestStore OIDC4VPResponse :=
  end_response t0 form_post "state-1" the_result s.

Definition used : MemoryRequests.MemoryRequestStore := out_state (answer_to saved).

Definition one_in_flight : gmap nat pending := {[0%nat := one_pending]}.
Definition two_in_flight : gmap nat pending := <[1%nat := one_pending]> one_in_flight.
Definition last_in_flight : gmap nat pending := delete 0%nat two_in_flight.

Lemma answered_first : rs_Status (out_response (answer_to saved)) = 200%Z.
Proof. vm_compute. reflexivity. Qed.

Lemma answered_second : rs_Status (out_response (answer_to used)) = 400%Z /\ out_state (answer_to used) = used.
Proof. vm_compute. split; reflexivity. Qed.

Definition replay : list label := [Opened "state-1"; Silent; Silent; Accepted "state-1"; Silent].

Lemma replay_run :
  run (endpoint_step (T := MemoryTrust.MemoryTrustRegistry)) (MemoryRequests.NewMemoryRequestStore, ∅) replay
    (used, delete 1%nat last_in_flight).
Proof.
  apply (run_snoc _ _ [Opened "state-1"; Silent; Silent; Accepted "state-1"] (used, last_in_flight)).
  2: { pose proof (step_answer (T := MemoryTrust.MemoryTrustRegistry) t0 used last_in_flight 1%nat one_pending _ _ _
      ltac:(reflexivity) (outcome_eta (answer_to used))) as Hs.
    destruct answered_second as [Hst Hsame]. rewrite Hst, Hsame in Hs. exact Hs. }
  apply (run_snoc _ _ [Opened "state-1"; Silent; Silent] (saved, two_in_flight)).
  2: { pose proof (step_answer (T := MemoryTrust.MemoryTrustRegistry) t0 saved two_in_flight 0%nat one_pending _ _ _
      ltac:(reflexivity) (outcome_eta (answer_to saved))) as Hs.
    rewrite answered_first in Hs. exact Hs. }
  apply (run_snoc _ _ [Opened "state-1"; Silent] (saved, one_in_flight)).
  2: exact (step_validate oidc_config (Some alice_trusted) ∅ quiet form_post saved "state-1" the_result
      one_in_flight 1%nat ltac:(reflexivity) validated_twice_Ok).
  apply (run_snoc _ _ [Opened "state-1"] (saved, ∅)).
  2: exact (step_validate oidc_config (Some alice_trusted) ∅ quiet form_post saved "state-1" the_result
      ∅ 0%nat (lookup_empty 0%nat) validated_twice_Ok).
  apply (run_snoc _ _ [] (MemoryRequests.NewMemoryRequestStore, ∅)); [constructor|].
  exact (step_save t0 _ two_queries saved ∅ saved_Save).
Qed.

Lemma oidc4vp_single_use_witness :
  (count (Accepted "state-1") replay
   <= count (Opened "state-1") replay
      + is_open "state-1" (open_states MemoryRequests.NewMemoryRequestStore))%nat.
Proof.
  exact (oidc4vp_single_use MemoryRequests.NewMemoryRequestStore
    replay used _ "state-1" replay_run).
Defined.
