(* ===== verification/VerifierServer.v ===== *)
(** * The verifier service.

    Models services/verifier/server.go, [NewServer] and the handler it serves: the state the
    handlers share, every route on its part of that state, the admin mux behind its gate, and
    the shell of middlewares.  The stores are interfaces; [NewServer] is modelled for the
    configuration without a database.  What a request draws from its environment (clock
    readings, answers of the DID resolver, orders of map iteration) is a [visit].  The
    revocations are those of the process, which no route of this server changes. *)

From S2P Require Import Prelude GoStrings Base64 GoTime Errors Values GoFmt Crypto Credential Delegation.
From S2P Require Import SDJwt Verify Policy PolicyStore Config Http Mux Tenant Server Trust Did Gateway.
From S2P Require Import RateLimit Redis Metrics Keys Admin PolicyAdmin Oidc4vp Oidc4vpEndpoint.
From Stdlib Require Import ZArith Ascii String Lia.
From stdpp Require Import gmap list strings.

Local Open Scope string_scope.

(** ** The parts of the service *)

(** The answers of the routes; [Aborted] is a connection closed by a panic. *)
Inductive answer :=
| Verified (a : VerifyResponse)
| Presented (a : OIDC4VPResponse)
| Authorized (a : GatewayAuthorizeResponse)
| IssuerAdded (a : AddTrustedIssuerResponse)
| PolicyAnswer (a : policy_body)
| HealthAnswer (a : HealthResponse)
| Text (text : string)
| Aborted.

(** What [NewServer] fixes.
    Source: services/verifier/server.go:37-153, [NewServer]. *)
Record Verifier := mkVerifier {
  ve_cfg : VerifierConfig;
  ve_tenants : string -> result error Tenant;
  ve_signer : Signer;
  ve_issuerDID : string;
  ve_prometheus : bool;
}.

(** What the handlers share. *)
Record VerifierState (T P Q C L : Type) := mkVerifierState {
  v_trust : T;
  v_policies : P;
  v_requests : Q;
  v_cache : C;
  v_limiter : L;
}.
Arguments mkVerifierState {T P Q C L}. Arguments v_trust {T P Q C L}. Arguments v_policies {T P Q C L}.
Arguments v_requests {T P Q C L}. Arguments v_cache {T P Q C L}. Arguments v_limiter {T P Q C L}.

(** What one request draws from its environment. *)
Record visit := mkVisit {
  vi_arrival : arrival;
  vi_resolve : string -> result error public_key;
  vi_verify : time;
  vi_logged : time;
  vi_oidc : surroundings;
  vi_gateway : readings;
  vi_order : map_order;
  vi_admin : time;
  vi_policy : time;
  vi_ready : result error unit;
  vi_metrics : string;
}.

(** [tenant.Mode(cfg.TenancyMode)]
    Source: services/verifier/server.go:46-46, [NewServer]. *)
Definition tenancy_mode (s : string) : Mode := if bool_decide (s = "single") then ModeSingle else ModeMulti.

(** A body that is not read. *)
#[global] Instance unread : BodyDecoder unit := fun _ => Some tt.

(** [http.MaxBytesReader] under [ParseForm].
    Source: internal/httpserver/oidc4vp_handlers.go:42-59, [RegisterOIDC4VPRoutes]. *)
Definition limited_form `{BodyDecoder form} (max : Z) : BodyDecoder form :=
  fun body =>
    let max := if (max =? 0)%Z then (256 * 1024)%Z else Z.max 0 max in
    if (max <? Z.of_nat (String.length body))%Z then None else decode_body body.

Section server.
Context `{Json (gmap string gval), Json (gmap string (list string)), Json (list gval), Json VCJWTPayload,
  Json VerifiableCredential, Json GatewayAuthorizeResponse, Sha256, Ed25519, Rfc3339, FloatFormat, Unicode}.
Context `{BodyDecoder VerifyRequest, BodyDecoder form, BodyDecoder GatewayAuthorizeRequest,
  BodyDecoder AddTrustedIssuerRequest, BodyDecoder PolicyRequest}.
Context {T P Q C L : Type} `{TrustRegistry T, PolicyStore P, RequestStore Q, DecisionCache C, Limiter L}.

#[local] Abbreviation state := (VerifierState T P Q C L).

Definition set_trust (t : T) (s : state) : state :=
  mkVerifierState t (v_policies s) (v_requests s) (v_cache s) (v_limiter s).
Definition set_policies (p : P) (s : state) : state :=
  mkVerifierState (v_trust s) p (v_requests s) (v_cache s) (v_limiter s).
Definition set_requests (q : Q) (s : state) : state :=
  mkVerifierState (v_trust s) (v_policies s) q (v_cache s) (v_limiter s).
Definition set_gateway (g : gateway_state (T := T) (C := C) (L := L)) (s : state) : state :=
  mkVerifierState (default (v_trust s) (gs_registry g)) (v_policies s) (v_requests s) (gs_cache g) (gs_limiter g).

Definition route : Type := handler string state answer.

Section routes.
Variables (v : Verifier) (a : visit).

(** The tenant of a request that names none. *)
Definition default_tenant : string := vf_DefaultTenantID (ve_cfg v).

(** The key lookup of every route: the issuer must be trusted by the default tenant.
    Source: services/verifier/server.go:93-103, [NewServer]. *)
Definition server_resolver (trustRegistry : T) (issuer : string) : result error public_key :=
  let! trusted := map_err (fun e => ErrWrap "trust registry check failed: " e "")
                    (IsTrustedIssuer trustRegistry default_tenant issuer) in
  stop! negb trusted with ErrVar ErrUntrustedIssuer in
  vi_resolve a issuer.

(** Source: services/verifier/server.go:158-158, [NewServer]. *)
Definition verify_route : route :=
  fun r s =>
    mount (fun s => Some (v_trust s)) (fun reg s => set_trust (default (v_trust s) reg) s) Verified
      (handleVerify (Some (server_resolver (v_trust s))) default_tenant (vi_verify a) (vi_logged a)) r s.

(** Source: services/verifier/server.go:160-170, [NewServer]. *)
Definition oidc4vp_route : route :=
  fun r s =>
    let cfg := mkOidcConfig (Some (server_resolver (v_trust s))) (Some (vi_resolve a)) default_tenant
                 (vf_OIDC4VPRevocationStrict (ve_cfg v)) in
    let H := limited_form (vf_OIDC4VPMaxRequestSize (ve_cfg v)) in
    mount (fun s => Some (v_requests s)) (fun q s => set_requests (default (v_requests s) q) s) Presented
      (handleOIDC4VPResponse cfg (Some (v_trust s)) ∅ (vi_oidc a)) r s.

(** Source: services/verifier/server.go:192-204, [NewServer]. *)
Definition gateway_config (s : state) : GatewayConfig :=
  mkGatewayConfig (Some (server_resolver (v_trust s)))
    (Some (EngineV1_Evaluate (vi_order a _) (Some (ListPoliciesForTenant (v_policies s)))))
    default_tenant (Some (ve_signer v)) (ve_issuerDID v).

(** The gateway, with [None] for a panic: the limiter has counted the request by then. *)
Definition authorize_or_panic (cfg : GatewayConfig)
  : handler GatewayAuthorizeRequest gateway_state (option GatewayAuthorizeResponse) :=
  fun r g =>
    match handleAuthorize cfg (vi_gateway a) r g with
    | Ok (resp, g', es) => (map_response Some resp, g', es)
    | Err _ =>
        let key := buildRateLimitKey (r_RemoteAddr r) (tenant_or_default r (gw_DefaultTenantID cfg)) in
        (mkResponse 0 ∅ (Body None),
         mkGateway (gs_registry g) (gs_cache g) (limiter_allow (gs_limiter g) (at_limit (vi_gateway a)) key).2, [])
    end.

(** Source: services/verifier/server.go:193-204, [NewServer]. *)
Definition gateway_route : route :=
  fun r s =>
    mount (fun s => mkGateway (Some (v_trust s)) (v_cache s) (v_limiter s)) set_gateway
      (from_option Authorized Aborted) (authorize_or_panic (gateway_config s)) r s.

(** Source: services/verifier/server.go:206-206, [NewServer]. *)
Definition trust_route : route := mount v_trust set_trust IssuerAdded (handleAddTrustedIssuer default_tenant).
(** Source: services/verifier/server.go:206-206, [NewServer]. *)
Definition trust_list_route : route := mount v_trust set_trust Text handleListTrustedIssuers.

(** Source: services/verifier/server.go:208-209, [NewServer]. *)
Definition adminMux : ServeMux :=
  [("/v1/admin/policies", mount v_policies set_policies PolicyAnswer (handlePolicies default_tenant (vi_policy a)));
   ("/v1/admin/policies/", mount v_policies set_policies PolicyAnswer (handlePolicyByID default_tenant (vi_policy a)))].

(** Source: services/verifier/server.go:211-212, [NewServer]. *)
Definition admin_route : route :=
  fun r s =>
    AdminAuthMiddleware (server_resolver (v_trust s)) (Some (v_trust s)) default_tenant (vi_admin a)
      (mux_serve adminMux) r s.

(** Source: services/verifier/server.go:138-143, [NewServer]. *)
Definition readiness : option (result error unit) :=
  Some (if bool_decide (vf_DB_DSN (ve_cfg v) = "") then Ok tt else vi_ready a).

(** Source: services/verifier/server.go:157-219, [NewServer]. *)
Definition mux : ServeMux :=
  app [("/v1/credentials/verify", verify_route);
       ("/v1/oidc4vp/response", oidc4vp_route);
       ("/v1/gateway/authorize", gateway_route);
       ("/v1/trust/issuers", trust_route);
       ("/v1/trust/issuers/list", trust_list_route);
       ("/v1/admin/", admin_route)]
  (app (if ve_prometheus v then [("/metrics", fun r s => halt s (mkResponse 200 ∅ (Body (Text (vi_metrics a)))))] else [])
       [("/healthz", mount (B := unit) id (fun s _ => s) HealthAnswer handleHealth);
        ("/readyz", mount (B := unit) id (fun s _ => s) HealthAnswer (handleReady readiness))]).

(** Source: services/verifier/server.go:83-83, [NewServer]. *)
Definition tenantResolver : Resolver :=
  mkResolver (tenancy_mode (vf_TenancyMode (ve_cfg v))) default_tenant (Some (ve_tenants v)).

(** The handler of the server.
    Source: services/verifier/server.go:221-221, [NewServer]. *)
Definition server_handler : route := shell (vi_arrival a) tenantResolver (mux_serve mux).
End routes.

(** One request, in a fresh context.  There is no response when its handler panics, which
    [net/http] recovers from by closing the connection; what such a request recorded is left
    out.
    Source: services/verifier/server.go:221-228, [NewServer]. *)
Definition ServeHTTP (v : Verifier) (a : visit) (r : request string) (s : state)
  : option (response answer) * state * list effect :=
  let o := server_handler v a (with_context background r) s in
  match rs_Body (out_response o) with
  | Body Aborted => (None, out_state o, [])
  | _ => (Some (out_response o), out_state o, out_effects o)
  end.
End server.

(** ** Starting up *)

(** Source: services/verifier/server.go:66-76, [NewServer]. *)
Definition default_policy (tenantID : string) : Policy :=
  mkPolicy 0 tenantID "demo-read-orders" "Allow reading orders for demo" EffectAllow (Some ["read"]) (Some ["orders"]) (Some ["any"])
    ∅ 100 true zero_time zero_time.

Section start.
Context `{Json (gmap string gval)} {K : Type} `{KeyStore K}.
Context {R V F : Type} `{Prometheus R V F} {D : Type} `{Redis D, SortedSets D}.

(** Without a database: the stores in memory, seeded.  [env] is the environment, [seeded] and
    [created] are the clock readings, [d] what the key store draws, [registerer] the metrics of
    the process so far; a name that is taken there makes it panic.  Besides the server and its
    state there are the collectors of the metrics with their registry, and the key store.
    Source: services/verifier/server.go, [NewServer]. *)
Definition NewServer (cfg : VerifierConfig) (env : string -> string) (seeded created : time) (store : K)
    (d : draw) (registerer : R)
  : result fault (Verifier * VerifierState MemoryTrust.MemoryTrustRegistry Memory.MemoryStore
                               MemoryRequests.MemoryRequestStore (server_cache D) (server_limiter D)
                  * (GatewayMetrics V * VerifierMetrics V * R) * K) :=
  let tenant := vf_DefaultTenantID cfg in
  let fails {A} text := map_err (A := A) (fun e => Failed (ErrWrap text e "")) in
  let! tenants := fails "seed default tenant: "
                    (UpsertTenant ∅ seeded (mkTenant tenant "default" true zero_time zero_time)) in
  let policies :=
    match Memory.CreatePolicy Memory.NewMemoryStore created (Some (default_policy tenant)) with
    | Ok (_, s) => s
    | Err _ => Memory.NewMemoryStore
    end in
  let '(signer, store) := GetSigningKey store d tenant in
  let! signer := fails "get signing key: " signer in
  let! issuerDID := fails "derive issuer did: " (DIDFromPublicKey (signer_Public signer)) in
  let! trust := fails "seed trust registry: "
                  (MemoryTrust.AddTrustedIssuer MemoryTrust.NewMemoryTrustRegistry tenant issuerDID) in
  let metricsFactory := NewFactoryFromEnv env in
  let wrap text f := match f with Failed e => Failed (ErrWrap text e "") | Panic => Panic end in
  let! (gatewayMetrics, registerer) :=
    map_err (wrap "create gateway metrics: ") (CreateGatewayMetrics metricsFactory registerer) in
  let! (verifierMetrics, registerer) :=
    map_err (wrap "create verifier metrics: ") (CreateVerifierMetrics metricsFactory registerer) in
  Ok (mkVerifier cfg (GetTenant tenants) signer issuerDID
        (bool_decide (fa_metricsType metricsFactory = PrometheusMetrics)),
      mkVerifierState trust policies MemoryRequests.NewMemoryRequestStore (select_cache cfg env) (select_limiter cfg env),
      (gatewayMetrics, verifierMetrics, registerer), store).
End start.
