(* ===== verification/IssuerServer.v ===== *)
(** * The issuer service.

    Models services/issuer/server.go: the routes of the issuer over one key store, the
    bootstrap without a trust registry, and the shell of middlewares for the one tenant the
    server seeds. *)

From S2P Require Import Prelude GoStrings Base64 GoTime Errors Values Crypto Credential Delegation.
From S2P Require Import SDJwt Verify IssuancePolicy Config Http Mux Tenant Server Trust Did.
From S2P Require Import Keys Issuer Admin VerifierServer.
From Stdlib Require Import ZArith Ascii String Lia.
From stdpp Require Import gmap list strings.

Local Open Scope string_scope.

(** The answers of the routes. *)
Inductive issuer_answer :=
| KeyGenerated (a : KeygenResponse)
| Issued (a : IssueResponse)
| Bootstrapped (a : BootstrapResponse)
| IssuerHealth (a : HealthResponse).

(** What one request draws from its environment. *)
Record issuer_visit := mkIssuerVisit {
  iv_arrival : arrival;
  iv_draw : draw;
  iv_issuance : issuance;
  iv_decode_error : string;
  iv_created : time;
  iv_expiry : time;
  iv_now : time;
  iv_uuid : string;
}.

Section server.
Context `{Json (gmap string gval), Json (list gval), Json VCJWTPayload, Json VerifiableCredential,
  Sha256, Ed25519, Rfc3339, Unicode, Pkcs8}.
Context `{BodyDecoder KeygenRequest, BodyDecoder IssueRequest, BodyDecoder DelegateRequest,
  BodyDecoder BootstrapRequest}.
Context {K : Type} `{KeyStore K}.
Variables (cfg : IssuerConfig) (tenants : TenantStore).

Definition issuer_route : Type := handler string K issuer_answer.

(** Source: services/issuer/server.go:31-39, [NewServer]. *)
Definition audited : bool := negb (bool_decide (ic_AuditDB_DSN cfg = "")).

(** The bootstrap has no trust registry to update.
    Source: services/issuer/server.go:66-66, [NewServer]. *)
Definition bootstrap_route (a : issuer_visit) : issuer_route :=
  mount (fun s => (s, None : option MemoryTrust.MemoryTrustRegistry)) (fun st _ => st.1) Bootstrapped
    (handleBootstrap (ic_DefaultTenantID cfg) (iv_draw a) (iv_created a) (iv_expiry a) (iv_now a) (iv_uuid a)).

(** Source: services/issuer/server.go:64-67, [NewServer]. *)
Definition issuer_mux (a : issuer_visit) : ServeMux :=
  [("/v1/keys/generate", mount (fun _ => tt) (fun _ s => s) KeyGenerated (handleKeygen (iv_draw a)));
   ("/v1/credentials/issue",
      mount id (fun s _ => s) Issued (handleIssue cfg audited (iv_decode_error a) (iv_issuance a)));
   ("/v1/credentials/delegate",
      mount id (fun s _ => s) Issued (handleDelegate cfg audited (iv_decode_error a) (iv_issuance a)));
   ("/v1/setup/bootstrap", bootstrap_route a);
   ("/healthz", mount (B := unit) id (fun s _ => s) IssuerHealth handleHealth);
   ("/readyz", mount (B := unit) id (fun s _ => s) IssuerHealth (handleReady None))].

(** Source: services/issuer/server.go:62-62, [NewServer]. *)
Definition issuer_resolver : Resolver :=
  mkResolver (tenancy_mode (ic_TenancyMode cfg)) (ic_DefaultTenantID cfg) (Some (GetTenant tenants)).

(** Source: services/issuer/server.go:69-69, [NewServer]. *)
Definition issuer_handler (a : issuer_visit) : issuer_route :=
  shell (iv_arrival a) issuer_resolver (mux_serve (issuer_mux a)).
End server.

(** The tenants of the server: a failure to seed the default one is ignored.
    Source: services/issuer/server.go:60-61, [NewServer]. *)
Definition issuer_tenants (cfg : IssuerConfig) (seeded : time) : TenantStore :=
  default ∅ (to_option (UpsertTenant ∅ seeded
    (mkTenant (ic_DefaultTenantID cfg) "default" true zero_time zero_time))).
