(* ===== verification/Router.v ===== *)
(** * The router of the package.

    Models internal/httpserver/router.go: [NewRouter] mounts each group of routes when what it
    needs is there.  No service calls it; it is the mux an embedding program would serve, with
    neither the tenant middleware nor the gate the services put around their routes. *)

From S2P Require Import Prelude GoStrings Base64 GoTime Errors Values GoFmt Crypto Credential Delegation.
From S2P Require Import SDJwt Verify Policy PolicyStore IssuancePolicy Config Http Mux Tenant Server Trust Did Gateway.
From S2P Require Import Keys Issuer Admin PolicyAdmin VerifierServer IssuerServer.
From Stdlib Require Import ZArith Ascii String Lia.
From stdpp Require Import gmap list strings.

Local Open Scope string_scope.

(** The answers of the routes. *)
Inductive router_answer :=
| FromIssuer (a : issuer_answer)
| FromGateway (a : option GatewayAuthorizeResponse)
| FromPolicies (a : policy_body)
| FromTrust (a : AddTrustedIssuerResponse)
| TrustList (text : string)
| Revoked (text : string)
| FromHealth (a : HealthResponse).

(** What is configured: which of the shared objects are there, and the rest.
    Source: internal/httpserver/router.go, [RouterConfig]. *)
Record RouterConfig := mkRouterConfig {
  rc_KeyStore : bool;
  rc_IssuerConfig : IssuerConfig;
  rc_TrustRegistry : bool;
  rc_PolicyStore : bool;
  rc_AuditStore : bool;
  rc_GatewayCfg : option GatewayConfig;
  rc_DefaultTenantID : string;
  rc_ReadinessCheck : option (result error unit);
}.

(** The shared objects; the gateway reads the registry of the router. *)
Record RouterState (K T P C L : Type) := mkRouterState {
  rt_keys : K;
  rt_trust : T;
  rt_policies : P;
  rt_cache : C;
  rt_limiter : L;
  rt_revocations : revocations;
}.
Arguments mkRouterState {K T P C L}. Arguments rt_keys {K T P C L}. Arguments rt_trust {K T P C L}.
Arguments rt_policies {K T P C L}. Arguments rt_cache {K T P C L}. Arguments rt_limiter {K T P C L}.
Arguments rt_revocations {K T P C L}.

Section router.
Context `{Json (gmap string gval), Json (list gval), Json VCJWTPayload, Json VerifiableCredential,
  Json GatewayAuthorizeResponse, Sha256, Ed25519, Rfc3339, Unicode, Pkcs8}.
Context `{BodyDecoder KeygenRequest, BodyDecoder IssueRequest, BodyDecoder DelegateRequest,
  BodyDecoder BootstrapRequest, BodyDecoder GatewayAuthorizeRequest, BodyDecoder AddTrustedIssuerRequest,
  BodyDecoder PolicyRequest, BodyDecoder RevocationRequest}.
Context {K T P C L : Type} `{KeyStore K, TrustRegistry T, PolicyStore P, DecisionCache C, Limiter L}.

#[local] Abbreviation state := (RouterState K T P C L).
#[local] Abbreviation routes := (ServeMux (B := string) (St := state) (R := router_answer)).

Definition with_keys (k : K) (s : state) : state :=
  mkRouterState k (rt_trust s) (rt_policies s) (rt_cache s) (rt_limiter s) (rt_revocations s).
Definition with_trust (t : T) (s : state) : state :=
  mkRouterState (rt_keys s) t (rt_policies s) (rt_cache s) (rt_limiter s) (rt_revocations s).
Definition with_policies (p : P) (s : state) : state :=
  mkRouterState (rt_keys s) (rt_trust s) p (rt_cache s) (rt_limiter s) (rt_revocations s).
Definition with_revocations (m : revocations) (s : state) : state :=
  mkRouterState (rt_keys s) (rt_trust s) (rt_policies s) (rt_cache s) (rt_limiter s) m.

Variables (cfg : RouterConfig) (iv : issuer_visit) (vi : visit).

(** Source: internal/httpserver/router.go:31-35, [NewRouter]. *)
Definition always_routes : routes :=
  [("/healthz", mount (B := unit) id (fun s _ => s) FromHealth handleHealth);
   ("/readyz", mount (B := unit) id (fun s _ => s) FromHealth (handleReady (rc_ReadinessCheck cfg)));
   ("/admin/revocations", mount rt_revocations with_revocations Revoked handleRevocation)].

(** Source: internal/httpserver/router.go:37-40, [NewRouter]. *)
Definition gateway_routes : routes :=
  match rc_GatewayCfg cfg with
  | None => []
  | Some g =>
      [("/v1/gateway/authorize",
        mount (fun s => mkGateway (if rc_TrustRegistry cfg then Some (rt_trust s) else None) (rt_cache s) (rt_limiter s))
          (fun g s => mkRouterState (rt_keys s) (default (rt_trust s) (gs_registry g)) (rt_policies s)
                        (gs_cache g) (gs_limiter g) (rt_revocations s))
          FromGateway (authorize_or_panic vi g))]
  end.

(** Source: internal/httpserver/router.go:42-45, [NewRouter]. *)
Definition bootstrap_routes : routes :=
  if rc_KeyStore cfg && negb (bool_decide (ic_DefaultTenantID (rc_IssuerConfig cfg) = "")) && rc_TrustRegistry cfg then
    [("/v1/setup/bootstrap",
      mount (fun s => (rt_keys s, Some (rt_trust s)))
        (fun st s => with_trust (default (rt_trust s) st.2) (with_keys st.1 s)) (fun a => FromIssuer (Bootstrapped a))
        (handleBootstrap (ic_DefaultTenantID (rc_IssuerConfig cfg)) (iv_draw iv) (iv_created iv) (iv_expiry iv)
           (iv_now iv) (iv_uuid iv)))]
  else [].

(** Source: internal/httpserver/router.go:46-48, [NewRouter]. *)
Definition issuer_routes : routes :=
  if rc_KeyStore cfg && negb (bool_decide (ic_DefaultTenantID (rc_IssuerConfig cfg) = "")) && rc_AuditStore cfg then
    [("/v1/keys/generate",
      mount (fun _ => tt) (fun _ s => s) (fun a => FromIssuer (KeyGenerated a)) (handleKeygen (iv_draw iv)));
     ("/v1/credentials/issue",
      mount rt_keys with_keys (fun a => FromIssuer (Issued a))
        (handleIssue (rc_IssuerConfig cfg) true (iv_decode_error iv) (iv_issuance iv)));
     ("/v1/credentials/delegate",
      mount rt_keys with_keys (fun a => FromIssuer (Issued a))
        (handleDelegate (rc_IssuerConfig cfg) true (iv_decode_error iv) (iv_issuance iv)))]
  else [].

(** Source: internal/httpserver/router.go:50-53, [NewRouter]. *)
Definition policy_admin_routes : routes :=
  if rc_PolicyStore cfg then
    [("/v1/admin/policies", mount rt_policies with_policies FromPolicies (handlePolicies (rc_DefaultTenantID cfg) (vi_policy vi)));
     ("/v1/admin/policies/", mount rt_policies with_policies FromPolicies (handlePolicyByID (rc_DefaultTenantID cfg) (vi_policy vi)))]
  else [].

(** Source: internal/httpserver/router.go:55-58, [NewRouter]. *)
Definition trust_routes : routes :=
  if rc_TrustRegistry cfg then
    [("/v1/trust/issuers", mount rt_trust with_trust FromTrust (handleAddTrustedIssuer (rc_DefaultTenantID cfg)));
     ("/v1/trust/issuers/list", mount rt_trust with_trust TrustList handleListTrustedIssuers)]
  else [].

(** Source: internal/httpserver/router.go, [NewRouter]. *)
Definition NewRouter : routes :=
  app always_routes (app gateway_routes (app bootstrap_routes (app issuer_routes (app policy_admin_routes trust_routes)))).
End router.

(** ** Properties *)

Section props.
Context `{Json (gmap string gval), Json (list gval), Json VCJWTPayload, Json VerifiableCredential,
  Json GatewayAuthorizeResponse, Sha256, Ed25519, Rfc3339, Unicode, Pkcs8}.
Context `{BodyDecoder KeygenRequest, BodyDecoder IssueRequest, BodyDecoder DelegateRequest,
  BodyDecoder BootstrapRequest, BodyDecoder GatewayAuthorizeRequest, BodyDecoder AddTrustedIssuerRequest,
  BodyDecoder PolicyRequest, BodyDecoder RevocationRequest}.
Context {K T P C L : Type} `{KeyStore K, TrustRegistry T, PolicyStore P, DecisionCache C, Limiter L}.
Variables (cfg : RouterConfig) (iv : issuer_visit) (vi : visit).

#[local] Abbreviation state := (RouterState K T P C L).
#[local] Abbreviation router := (NewRouter (K := K) (T := T) (P := P) (C := C) (L := L) cfg iv vi).

(** The patterns that can be mounted, with what each group needs. *)
Definition route_table : list (bool * list string) :=
  let bootstrap := rc_KeyStore cfg && negb (bool_decide (ic_DefaultTenantID (rc_IssuerConfig cfg) = "")) in
  [(true, ["/healthz"; "/readyz"; "/admin/revocations"]);
   (bool_decide (is_Some (rc_GatewayCfg cfg)), ["/v1/gateway/authorize"]);
   (bootstrap && rc_TrustRegistry cfg, ["/v1/setup/bootstrap"]);
   (bootstrap && rc_AuditStore cfg, ["/v1/keys/generate"; "/v1/credentials/issue"; "/v1/credentials/delegate"]);
   (rc_PolicyStore cfg, ["/v1/admin/policies"; "/v1/admin/policies/"]);
   (rc_TrustRegistry cfg, ["/v1/trust/issuers"; "/v1/trust/issuers/list"])].

Definition mounted : list string :=
  concat ((fun g : bool * list string => if g.1 then g.2 else []) <$> route_table).

Lemma router_patterns : router.*1 = mounted.
Proof.
  unfold mounted, route_table, NewRouter, always_routes, gateway_routes, bootstrap_routes, issuer_routes,
    policy_admin_routes, trust_routes.
  destruct (rc_GatewayCfg cfg) as [g|]; [rewrite (bool_decide_eq_true_2 (is_Some _)) by done|
    rewrite (bool_decide_eq_false_2 (is_Some _)) by (by intros [? ?])];
  destruct (rc_KeyStore cfg), (rc_TrustRegistry cfg), (rc_PolicyStore cfg), (rc_AuditStore cfg),
    (negb (bool_decide (ic_DefaultTenantID (rc_IssuerConfig cfg) = ""))); reflexivity.
Qed.

(** Which of the groups are there does not matter: no pattern is registered twice, on which
    [http.ServeMux] would panic. *)
Lemma router_patterns_unique : NoDup router.*1.
Proof.
  rewrite router_patterns. apply (sublist_NoDup _ (concat (snd <$> route_table))).
  - apply (bool_decide_unpack _). vm_compute. exact I.
  - unfold mounted. generalize route_table. intros t. induction t as [|[[] l] t IH]; [constructor|by apply sublist_app|].
    cbn. by apply sublist_inserts_l.
Qed.

(** What is not configured is not served: a request below none of the mounted patterns is
    answered 404 or redirected, and changes nothing. *)
Theorem router_unmounted r (s : state) :
  (forall p, p ∈ mounted -> pattern_matches p (r_Path r) = false) ->
  exists resp, mux_serve router r s = halt s resp /\ (rs_Status resp = 301%Z \/ rs_Status resp = 404%Z).
Proof.
  intros Hn. destruct (mux_serve_cases router r s) as [(p & h & Hin & Hp & _)|(resp & He & Hs)].
  - rewrite (Hn p) in Hp; [done|]. rewrite <- router_patterns. by apply (list_elem_of_fmap_2' fst router (p, h)).
  - exists resp. split; [done|]. destruct Hs as [[? _]|[-> _]]; auto.
Qed.

(** Policies without a gate.  A router that has a policy store lets anybody create a policy:
    every request that names one is answered 200 and the policy is stored for the tenant of its
    context, the default one where no middleware set a tenant; its headers are not looked at. *)
Theorem router_policies_open r (s : state) req p p' st :
  rc_PolicyStore cfg = true -> r_Path r = "/v1/admin/policies" -> r_Method r = "POST" ->
  r_Body r ≫= decode_body = Some req ->
  buildPolicyFromRequest req (TenantIDFromContext (r_Context r)) (rc_DefaultTenantID cfg) = Ok p ->
  CreatePolicy (rt_policies s) (vi_policy vi) (Some p) = Ok (p', st) ->
  mux_serve router r s = halt (with_policies st s) (respond 200 (FromPolicies (OnePolicy p' APIVersion))).
Proof.
  intros Hc Hpath Hm Hb Hbuild Hcreate.
  rewrite (mux_serve_exact _ r s "/v1/admin/policies"
    (mount rt_policies with_policies FromPolicies (handlePolicies (rc_DefaultTenantID cfg) (vi_policy vi)))
    router_patterns_unique); [| |done|vm_compute; reflexivity].
  - unfold mount, handlePolicies, decoded, handleCreatePolicy. cbn [r_Path r_Method r_Body r_Context with_body].
    rewrite Hpath, Hm. cbn -[buildPolicyFromRequest]. rewrite Hb, Hbuild, Hcreate. reflexivity.
  - unfold NewRouter, policy_admin_routes. rewrite Hc. rewrite !elem_of_app. do 4 right. left. left.
Qed.
End props.
