(* ===== verification/VerifierServerProps.v ===== *)
(** * Properties of the verifier service.

    What one request can do to the state the routes share ([change], the specification the
    server refines), and what follows for every state the server can reach. *)

From S2P Require Import Prelude GoStrings Base64 GoTime Errors Values GoFmt Crypto Credential Instances.
From S2P Require Import Delegation SDJwt Verify VerifyFacts Issue IssueFacts ChainExample Policy PolicyFacts.
From S2P Require Import PolicyStore Config Http Mux Tenant Server Trust Did Gateway GatewayProps.
From S2P Require Import Keys KeysProps Admin AdminProps PolicyAdmin Oidc4vp Oidc4vpEndpoint Oidc4vpEndpointProps.
From S2P Require Import VerifierServer.
From Stdlib Require Import ZArith Ascii String Lia.
From stdpp Require Import gmap list strings.

Local Open Scope string_scope.

(** ** The tenant of a request *)

Lemma trim_right_slash_app s t : t <> "" -> no_byte "/"%char t = true -> trim_right_slash (s +:+ t) = s +:+ t.
Proof.
  intros Hne Ht. assert (Hid : trim_right_slash t = t).
  { clear Hne. unfold no_byte in Ht. induction t as [|a t IH]; [done|]. cbn in Ht.
    apply andb_true_iff in Ht as [Ha Ht]. cbn [trim_right_slash]. rewrite (IH Ht).
    destruct t; [|done]. by destruct (bool_decide (a = "/"%char)). }
  induction s as [|a s IH]; [done|]. cbn [String.append trim_right_slash]. rewrite IH.
  destruct s; [|done]. by destruct t.
Qed.

Lemma digits_no_slash acc s z : digits_value acc s = Some z -> no_byte "/"%char s = true.
Proof.
  unfold no_byte. revert acc. induction s as [|a s IH]; intros acc; cbn; [done|].
  destruct (digit_value a) as [d|] eqn:Hd; [|done]. intros Hs. rewrite (IH _ Hs), andb_true_r.
  rewrite bool_decide_eq_false_2; [done|]. intros ->. by vm_compute in Hd.
Qed.

Lemma parse_int_no_slash s z : parse_int s = Some z -> s <> "" /\ no_byte "/"%char s = true.
Proof.
  intros Hp. split; [by intros ->|]. unfold parse_int in Hp.
  destruct (match s with "" => _ | String _ _ => _ end) as [neg digits] eqn:E.
  destruct (bool_decide (digits = "")); [done|].
  destruct (digits_value 0 digits) as [v|] eqn:Hd; [|done]. apply digits_no_slash in Hd. clear Hp.
  destruct s as [|b s]; [done|]. destruct b as [[] [] [] [] [] [] [] []]; injection E as <- <-; exact Hd.
Qed.

Lemma admin_path_tenant idStr z :
  parse_int idStr = Some z ->
  after_tenants (split_on "/"%char (trim_right_slash (trim_left_slash ("/v1/admin/policies/" +:+ idStr)))) = "".
Proof.
  intros [Hne Hns]%parse_int_no_slash.
  change (trim_left_slash ("/v1/admin/policies/" +:+ idStr)) with ("v1/admin/policies/" +:+ idStr).
  rewrite trim_right_slash_app by done.
  change ("v1/admin/policies/" +:+ idStr) with ("v1" +:+ String "/" ("admin" +:+ String "/" ("policies" +:+ String "/" idStr))).
  rewrite !split_on_app, split_on_single by done. reflexivity.
Qed.

(** A store of tenants: what it finds has the id that was asked for. *)
Definition lookup_ok (get : string -> result error Tenant) : Prop :=
  forall id t, get id = Ok t -> t_ID t = id /\ id <> "".

Lemma GetTenant_ok m : tenants_ok m -> lookup_ok (GetTenant m).
Proof.
  intros Hm id t Ht. unfold GetTenant in Ht. apply of_option_Ok in Ht. by destruct (Hm id t Ht).
Qed.

Section tenant_of.
Context (a : arrival) (res : Resolver) (r : request string) (t : Tenant).
Hypothesis Hget : forall get, res_Store res = Some get -> lookup_ok get.
Hypothesis Hres : resolves_to res a r t.
Hypothesis Hfresh : r_Context r = background.

(** Behind the shell, the tenant of a request is the one it resolved to, unless its path
    names another and its header does not. *)
Lemma admitted_tenant dflt :
  extractTenantID r = r_Header r "X-Tenant-ID" ->
  tenant_or_default (admitted a (t_ID t) r) dflt = t_ID t.
Proof.
  intros Hpath. apply Resolve_Ok in Hres as (get & id & Hs & Ht & _ & Hid).
  destruct (Hget get Hs id t Ht) as [<- Hne].
  change (r_Header (seen_request (ar_generated a) r)) with (r_Header r) in Hid.
  assert (HL : GetTenantID (r_Context (admitted a (t_ID t) r)) = extractTenantID r).
  { unfold admitted, seen_request. rewrite Hfresh.
    destruct (bool_decide (extractTenantID r = "")) eqn:He; [|done]. breflect. by rewrite He. }
  unfold tenant_or_default, TenantIDFromContext. rewrite HL.
  destruct (bool_decide (r_Header r "X-Tenant-ID" = "")) eqn:Hh; breflect.
  - rewrite Hpath, Hh. by rewrite bool_decide_eq_false_2.
  - rewrite Hpath. rewrite <- Hid.
    by rewrite !(bool_decide_eq_false_2 _ Hne).
Qed.
End tenant_of.

(** ** What a request can change *)

Section server.
Context `{Json (gmap string gval), Json (gmap string (list string)), Json (list gval), Json VCJWTPayload,
  Json VerifiableCredential, Json GatewayAuthorizeResponse, Sha256, Ed25519, Rfc3339, FloatFormat, Unicode}.
Context `{BodyDecoder VerifyRequest, BodyDecoder form, BodyDecoder GatewayAuthorizeRequest,
  BodyDecoder AddTrustedIssuerRequest, BodyDecoder PolicyRequest}.
Context {T P Q C L : Type} `{TrustRegistry T, PolicyStore P, RequestStore Q, DecisionCache C, Limiter L}.

#[local] Abbreviation state := (VerifierState T P Q C L).

(** The request as the policy handlers see it, behind the gate that admitted [c]. *)
Definition policy_request (c : VerifiableCredential) (r : request string) : request PolicyRequest :=
  decoded (with_context (with_admin (vc_Subject c) (vc_Claims c) (r_Context r)) r).

(** The specification: the five things an admitted request can do. *)
Inductive change (v : Verifier) (a : visit) (r : request string) (s : state) : state -> Prop :=
| change_none : change v a r s s
| change_trust i t :
    r_Path r = "/v1/trust/issuers" -> r_Method r = "POST" -> r_Body r ≫= decode_body = Some (mkAddTrusted i) ->
    AddTrustedIssuer (v_trust s) (default_tenant v) i = Ok t ->
    change v a r s (set_trust t s)
| change_policies c o :
    has_prefix (r_Path r) "/v1/admin/policies" = true ->
    admin_credential (R := answer) (server_resolver v a (v_trust s)) (Some (v_trust s)) (default_tenant v)
      (vi_admin a) r = Ok c ->
    policy_routes (default_tenant v) (vi_policy a) (policy_request c r) (v_policies s) = Some o ->
    change v a r s (set_policies (out_state o) s)
| change_requests req q state :
    r_Path r = "/v1/oidc4vp/response" -> Get (su_get (vi_oidc a)) (v_requests s) state = Ok req ->
    MarkUsed (v_requests s) state = Ok q ->
    change v a r s (set_requests q s)
| change_gateway c l :
    r_Path r = "/v1/gateway/authorize" ->
    change v a r s (mkVerifierState (v_trust s) (v_policies s) (v_requests s) c l).

Lemma handleVerify_state resolver dflt now logged r (reg : option T) :
  out_state (handleVerify resolver dflt now logged r reg) = reg.
Proof.
  unfold handleVerify, halt. destruct (negb _); [done|]. destruct (r_Body r) as [req|]; [|done].
  destruct (presented_tokens req); [|done]. destruct (VerifyCredentialChain _ _ _ _); [done|].
  by destruct (verify_refusal _).
Qed.

Lemma handleOIDC_state cfg reg revoked su r (q : Q) :
  let o := handleOIDC4VPResponse cfg reg revoked su r (Some q) in
  (out_state o = Some q /\ rs_Status (out_response o) <> 200%Z)
  \/ exists req state q', Get (su_get su) q state = Ok req /\ MarkUsed q state = Ok q' /\ out_state o = Some q'.
Proof.
  cbv zeta. unfold handleOIDC4VPResponse.
  destruct (begin_response _ _ _ _ _ _) as [[[q' state] res]|[resp es]] eqn:Hb.
  - assert (Hq : q' = q /\ exists req, Get (su_get su) q state = Ok req).
    { unfold begin_response in Hb. stop_inv Hb as _. stop_inv Hb as _. bind_inv Hb as vals Hv. stop_inv Hb as _.
      destruct (oc_IssuerResolver cfg), (oc_HolderResolver cfg); try done.
      bind_inv Hb as req Hreq. bind_inv Hb as res' Hres. ok_simp Hreq. injection Hb as <- <- <-. eauto. }
    destruct Hq as [-> [req Hreq]]. unfold end_response.
    destruct (MarkUsed q state) as [q'|] eqn:Hm; cbn; [right|left; done]. by exists req, state, q'.
  - left. split; [done|]. by apply begin_response_refuses in Hb.
Qed.

Lemma handleAuthorize_registry cfg a r g :
  gs_registry (out_state (authorize_or_panic (T := T) (C := C) (L := L) a cfg r g)) = gs_registry g.
Proof.
  unfold authorize_or_panic. destruct (handleAuthorize _ _ _ _) as [[[resp g'] es]|] eqn:Hh; [|done].
  by apply handleAuthorize_Ok in Hh as [? _].
Qed.

Lemma pattern_exact p path : is_subtree p = false -> pattern_matches p path = true -> path = p.
Proof. unfold pattern_matches. intros ->. by intros <-%bool_decide_eq_true. Qed.

Section routes.
Context (v : Verifier) (a : visit) (r : request string) (s : state).

Lemma verify_route_change : change v a r s (out_state (verify_route v a r s)).
Proof.
  unfold verify_route. rewrite mount_eq. cbn [out_state fst snd]. rewrite handleVerify_state.
  destruct s. constructor.
Qed.

Lemma oidc4vp_route_change : r_Path r = "/v1/oidc4vp/response" -> change v a r s (out_state (oidc4vp_route v a r s)).
Proof.
  intros Hp. unfold oidc4vp_route. rewrite mount_eq. cbn [out_state fst snd].
  match goal with |- context [handleOIDC4VPResponse ?c ?g ?k ?u ?q (Some ?d)] =>
    destruct (handleOIDC_state c g k u q d) as [[-> _]|(req & st & q' & Hg & Hm & ->)] end; cbn.
  - destruct s. constructor.
  - by apply (change_requests v a r s req q' st).
Qed.

Lemma gateway_route_change : r_Path r = "/v1/gateway/authorize" -> change v a r s (out_state (gateway_route v a r s)).
Proof.
  intros Hp. unfold gateway_route. rewrite mount_eq. cbn [out_state fst snd]. unfold set_gateway at 1.
  rewrite handleAuthorize_registry. cbn [gs_registry default]. by apply change_gateway.
Qed.

Lemma trust_route_change : r_Path r = "/v1/trust/issuers" -> change v a r s (out_state (trust_route v r s)).
Proof.
  intros Hp. unfold trust_route. rewrite mount_eq. cbn [out_state fst snd]. unfold handleAddTrustedIssuer.
  assert (Hn : change v a r s (set_trust (v_trust s) s)) by (destruct s; constructor).
  change (r_Method (decoded r)) with (r_Method r). change (r_Body (decoded r)) with (r_Body r ≫= decode_body (T := AddTrustedIssuerRequest)).
  case_bool_decide as Hm; cbn [negb]; [|done].
  destruct (r_Body r ≫= decode_body) as [[i]|] eqn:Hb; [|done]. cbn [ati_IssuerDID].
  case_bool_decide; [done|]. destruct (AddTrustedIssuer _ _ _) as [t|] eqn:Ht; [|done].
  by apply (change_trust v a r s i t).
Qed.

Lemma trust_list_route_change : change v a r s (out_state (trust_list_route r s)).
Proof.
  unfold trust_list_route, handleListTrustedIssuers. rewrite mount_eq. cbn [out_state fst snd].
  destruct (negb _); destruct s; constructor.
Qed.

(** Behind the gate, the routes of the admin mux are those of the policy handlers. *)
Lemma adminMux_routes r' :
  out_state (mux_serve (adminMux v a) r' s) = s
  \/ exists o, policy_routes (default_tenant v) (vi_policy a) (decoded r') (v_policies s) = Some o
       /\ out_state (mux_serve (adminMux v a) r' s) = set_policies (out_state o) s
       /\ has_prefix (r_Path r') "/v1/admin/policies" = true.
Proof.
  destruct (mux_serve_cases (adminMux v a) r' s) as [(p & h & Hin & Hp & _ & _ & ->)|(resp & -> & _)]; [|by left].
  right. apply elem_of_cons in Hin as [[= -> ->]|Hin].
  - apply pattern_exact in Hp; [|done]. eexists. rewrite mount_eq. cbn [out_state fst snd].
    unfold policy_routes. change (r_Path (decoded r')) with (r_Path r'). rewrite Hp. done.
  - apply elem_of_cons in Hin as [[= -> ->]|[]%not_elem_of_nil].
    apply pattern_matches_prefix in Hp. eexists. rewrite mount_eq. cbn [out_state fst snd].
    unfold policy_routes. change (r_Path (decoded r')) with (r_Path r'). rewrite Hp.
    rewrite bool_decide_eq_false_2; [|by intros Hq; rewrite Hq in Hp]. split; [done|]. split; [done|].
    apply has_prefix_spec in Hp as [t ->]. reflexivity.
Qed.

Lemma admin_route_change : change v a r s (out_state (admin_route v a r s)).
Proof.
  unfold admin_route, AdminAuthMiddleware.
  destruct (admin_credential _ _ _ _ r) as [c|resp] eqn:Hc; [|constructor].
  match goal with |- context [mux_serve _ ?r' _] => destruct (adminMux_routes r') as [->|(o & Ho & -> & Hp)] end;
    [constructor|].
  by apply (change_policies v a r s c o).
Qed.

(** Every route refines the specification. *)
Lemma mux_change : change v a r s (out_state (mux_serve (mux v a) r s)).
Proof.
  destruct (mux_serve_cases (mux v a) r s) as [(p & h & Hin & Hp & _ & _ & ->)|(resp & -> & _)]; [|constructor].
  apply elem_of_app in Hin as [Hin|[Hin|Hin]%elem_of_app].
  - repeat (apply elem_of_cons in Hin as [[= -> ->]|Hin]; [try (apply pattern_exact in Hp; [|done])|]);
      [..|by apply not_elem_of_nil in Hin].
    + apply verify_route_change.
    + by apply oidc4vp_route_change.
    + by apply gateway_route_change.
    + by apply trust_route_change.
    + apply trust_list_route_change.
    + apply admin_route_change.
  - destruct (ve_prometheus v); [|by apply not_elem_of_nil in Hin].
    apply list_elem_of_singleton in Hin as [= -> ->]. constructor.
  - repeat (apply elem_of_cons in Hin as [[= -> ->]|Hin]); [| |by apply not_elem_of_nil in Hin].
    all: rewrite mount_eq; unfold handleHealth, handleReady; repeat case_match; constructor.
Qed.
End routes.

(** The request as a route sees it, for tenant [t]. *)
Definition tenant_view (a : visit) (r : request string) (t : Tenant) : request string :=
  admitted (vi_arrival a) (t_ID t) (with_context background r).

Definition admits (v : Verifier) (a : visit) (r : request string) (t : Tenant) : Prop :=
  resolves_to (tenantResolver v) (vi_arrival a) (with_context background r) t.

(** The state after a request. *)
Definition after_request (v : Verifier) (a : visit) (r : request string) (s : state) : state :=
  (ServeHTTP v a r s).1.2.

(** The body and the status of the answer, if there is one. *)
Definition answers (v : Verifier) (a : visit) (r : request string) (s : state) (status : Z) (b : body answer) : Prop :=
  exists resp, (ServeHTTP v a r s).1.1 = Some resp /\ rs_Status resp = status /\ rs_Body resp = b.

(** Every request is one of the changes, or none. *)
Lemma request_change v a r s :
  after_request v a r s = s
  \/ exists t, admits v a r t /\ t_Enabled t = true /\ change v a (tenant_view a r t) s (after_request v a r s).
Proof.
  assert (Hs : after_request v a r s = out_state (server_handler v a (with_context background r) s)).
  { unfold after_request, ServeHTTP. by destruct (rs_Body _) as [[]| |]. }
  rewrite Hs. unfold server_handler.
  destruct (shell_cases (vi_arrival a) (tenantResolver v) (mux_serve (mux v a)) (with_context background r) s)
    as [(t & Ht & -> & _)|(_ & -> & _)]; [right|by left].
  exists t. split; [done|]. split; [|apply mux_change].
  apply Resolve_Ok in Ht as (get & id & _ & _ & He & _). exact He.
Qed.

(** C15: What a request can do.  Whatever arrives, either the state the routes share stays as
    it is, or the request is served for an enabled tenant and makes at most one change: it
    adds an issuer to the default tenant's trust, it runs a policy operation behind the admin
    gate, it closes a presentation request that was open, or it moves the gateway's cache and
    limiter; each only on its own route. *)
Theorem verifier_refines v a r s :
  after_request v a r s = s
  \/ exists t, admits v a r t /\ t_Enabled t = true /\ change v a (tenant_view a r t) s (after_request v a r s).
Proof. apply request_change. Qed.
End server.

(** ** Who passes the gate *)

Section guarded.
Context `{Json (gmap string gval), Json (gmap string (list string)), Json (list gval), Json VCJWTPayload,
  Json VerifiableCredential, Json GatewayAuthorizeResponse, Sha256, Ed25519, Rfc3339, FloatFormat, Unicode}.
Context `{BodyDecoder VerifyRequest, BodyDecoder form, BodyDecoder GatewayAuthorizeRequest,
  BodyDecoder AddTrustedIssuerRequest, BodyDecoder PolicyRequest}.
Context {T P Q C L : Type} `{TrustRegistryLaws T, PolicyStoreLaws P, RequestStore Q, DecisionCache C, Limiter L}.

#[local] Abbreviation state := (VerifierState T P Q C L).

Lemma server_resolver_Ok v a (reg : T) issuer key :
  server_resolver v a reg issuer = Ok key <->
  issuer ∈ trusted_set reg (default_tenant v) /\ vi_resolve a issuer = Ok key.
Proof.
  unfold server_resolver. rewrite is_trusted_law. cbn [map_err rbind]. case_bool_decide; cbn; naive_solver.
Qed.

(** A request that bears a super-admin credential for tenant [t]: its bearer token verifies, at
    the gate's clock and with the keys of the issuers trusted by the default tenant and by [t],
    to a credential of an admin with the role; so it is what the token says, and unexpired. *)
Definition super_admin (v : Verifier) (a : visit) (reg : T) (t : string) {B} (r : request B) : Prop :=
  exists token c, admin_token r token
    /\ verifySingleCredential (parseSDJWTPayload token).1 (parseSDJWTPayload token).2
         (admin_resolver (server_resolver v a reg) (Some reg) t) "" (vi_admin a) = Ok c
    /\ genuine (vi_resolve a) (vi_admin a) token c
    /\ IsAdminVC (vc_Claims c) = true /\ HasAdminRole (vc_Claims c) SuperAdminRole = true
    /\ vc_Issuer c ∈ trusted_set reg (default_tenant v) /\ vc_Issuer c ∈ trusted_set reg t.

Lemma gate_super_admin v a (reg : T) r c :
  admin_credential (B := string) (R := answer) (server_resolver v a reg) (Some reg) (default_tenant v)
    (vi_admin a) r = Ok c ->
  super_admin v a reg (tenant_or_default r (default_tenant v)) r.
Proof.
  intros (token & Ht & Hv & Ha & Hr)%admin_credential_Ok. exists token, c. split; [done|]. split; [done|].
  destruct (admin_genuine _ _ _ _ _ _ _ Hv) as [Hg Htr].
  pose proof (genuine_signed _ _ _ _ Hg) as (p0 & p1 & p2 & key & sg & _ & [Hdef _]%server_resolver_Ok & _).
  split; [|done]. eapply genuine_mono; [|exact Hg]. by intros k [_ ?]%server_resolver_Ok.
Qed.

Lemma super_admin_admit v a reg r t tenant :
  super_admin v a reg tenant (tenant_view a r t) -> super_admin v a reg tenant r.
Proof. done. Qed.

(** A policy route that does something is on a path that names no tenant. *)
Lemma policy_change_path v a c r (p : P) o :
  policy_routes (default_tenant v) (vi_policy a) (policy_request c r) p = Some o ->
  out_state o = p \/ extractTenantID r = r_Header r "X-Tenant-ID".
Proof.
  intros Ho. unfold extractTenantID. case_bool_decide as Hh; [|by right]. rewrite Hh.
  unfold policy_routes in Ho. change (r_Path (policy_request c r)) with (r_Path r) in Ho.
  case_bool_decide as Hp; [right; by rewrite Hp|].
  destruct (has_prefix (r_Path r) "/v1/admin/policies/") eqn:Hpre; [|done]. injection Ho as <-.
  unfold handlePolicyByID. change (r_Path (policy_request c r)) with (r_Path r).
  apply has_prefix_spec in Hpre as [idStr Hid]. rewrite Hid, trim_prefix_app.
  case_bool_decide; [by left|]. destruct (parse_int idStr) as [z|] eqn:Hz; [right|by left].
   by apply (admin_path_tenant idStr z).
Qed.
End guarded.

(** ** Routes by path *)

Section paths.
Context `{Json (gmap string gval), Json (gmap string (list string)), Json (list gval), Json VCJWTPayload,
  Json VerifiableCredential, Json GatewayAuthorizeResponse, Sha256, Ed25519, Rfc3339, FloatFormat, Unicode}.
Context `{BodyDecoder VerifyRequest, BodyDecoder form, BodyDecoder GatewayAuthorizeRequest,
  BodyDecoder AddTrustedIssuerRequest, BodyDecoder PolicyRequest}.
Context {T P Q C L : Type} `{TrustRegistry T, PolicyStore P, RequestStore Q, DecisionCache C, Limiter L}.

#[local] Abbreviation state := (VerifierState T P Q C L).
Context (v : Verifier) (a : visit).

Lemma mux_at path p (h : route) r (s : state) :
  cleanPath path = path -> lacks_slash (mux v a) path = false ->
  mux_match (mux v a) path = Some (p, h) -> r_Path r = path -> mux_serve (mux v a) r s = h r s.
Proof.
  intros Hc Hl Hm Hp. rewrite mux_serve_found; rewrite Hp.
  - by rewrite Hm.
  - unfold routed_path. rewrite Hp. by case_bool_decide.
  - done.
Qed.

Ltac at_path :=
  intros Hp; refine (mux_at _ _ _ _ _ _ _ _ Hp); [vm_compute; reflexivity|..];
  unfold mux; destruct (ve_prometheus v); reflexivity.

Lemma at_verify r (s : state) : r_Path r = "/v1/credentials/verify" -> mux_serve (mux v a) r s = verify_route v a r s.
Proof. at_path. Qed.

Lemma at_oidc4vp r (s : state) : r_Path r = "/v1/oidc4vp/response" -> mux_serve (mux v a) r s = oidc4vp_route v a r s.
Proof. at_path. Qed.

Lemma at_gateway r (s : state) : r_Path r = "/v1/gateway/authorize" -> mux_serve (mux v a) r s = gateway_route v a r s.
Proof. at_path. Qed.

Lemma at_trust r (s : state) : r_Path r = "/v1/trust/issuers" -> mux_serve (mux v a) r s = trust_route v r s.
Proof. at_path. Qed.

Lemma at_admin r (s : state) : r_Path r = "/v1/admin/policies" -> mux_serve (mux v a) r s = admin_route v a r s.
Proof. at_path. Qed.

Lemma at_health r (s : state) :
  r_Path r = "/healthz" -> mux_serve (mux v a) r s = mount (B := unit) id (fun s _ => s) HealthAnswer handleHealth r s.
Proof. at_path. Qed.

(** The answer to an admitted request is that of the mux. *)
Lemma ServeHTTP_admitted r (s : state) t :
  admits v a r t ->
  let o := mux_serve (mux v a) (tenant_view a r t) s in
  after_request v a r s = out_state o
  /\ (rs_Body (out_response o) <> Body Aborted ->
      answers v a r s (rs_Status (out_response o)) (rs_Body (out_response o))).
Proof.
  intros Ht. cbv zeta. unfold after_request, answers, ServeHTTP, server_handler.
  destruct (shell_cases (vi_arrival a) (tenantResolver v) (mux_serve (mux v a)) (with_context background r) s)
    as [(t' & Ht' & Hs & Hst & Hb)|(Hn & _)]; [|by destruct (Hn t)].
  assert (t' = t) as -> by (unfold admits, resolves_to in *; congruence).
  unfold tenant_view. split; [rewrite <- Hs; by destruct (rs_Body _) as [[]| |]|]. rewrite <- Hst, <- Hb. intros Hne.
  exists (out_response (shell (vi_arrival a) (tenantResolver v) (mux_serve (mux v a)) (with_context background r) s)).
  by destruct (rs_Body _) as [[]| |].
Qed.

(** A successful answer is that of the mux to an admitted request. *)
Lemma answers_admitted r (s : state) b :
  answers v a r s 200 b ->
  exists t, admits v a r t /\ let o := mux_serve (mux v a) (tenant_view a r t) s in
    rs_Status (out_response o) = 200%Z /\ rs_Body (out_response o) = b.
Proof.
  unfold answers, ServeHTTP, server_handler. intros (resp & Hr & Hs & Hb).
  assert (resp = out_response (shell (vi_arrival a) (tenantResolver v) (mux_serve (mux v a)) (with_context background r) s))
    as -> by (revert Hr; destruct (rs_Body (out_response _)) as [[]| |]; cbn; congruence).
  clear Hr. destruct (shell_cases (vi_arrival a) (tenantResolver v) (mux_serve (mux v a)) (with_context background r) s)
    as [(t & Ht & _ & Hst & Hbd)|(_ & _ & Hst & e & Hbd)].
  - exists t. split; [done|]. fold (tenant_view a r t) in Hst, Hbd. cbv zeta. by rewrite <- Hst, <- Hbd.
  - lia.
Qed.
End paths.
