(* ===== verification/VerifierServerRuns.v ===== *)
(** * Runs of the verifier service.

    Every state the server reaches from its start: who is trusted, what can be answered; and
    the runs the documented setup relies on. *)

From S2P Require Import RateLimit Redis Metrics MetricsProps.
From S2P Require Import Prelude GoStrings Base64 GoTime Errors Values GoFmt Crypto Credential Instances.
From S2P Require Import Delegation SDJwt Verify VerifyFacts Issue IssueFacts ChainExample Policy PolicyFacts.
From S2P Require Import PolicyStore Config Http Mux Tenant Server Trust Did Gateway GatewayProps.
From S2P Require Import Keys KeysProps IssuerProps Admin AdminProps PolicyAdmin Oidc4vp Oidc4vpEndpoint.
From S2P Require Import Oidc4vpEndpointProps.
From S2P Require Import VerifierServer VerifierServerProps.
From Stdlib Require Import ZArith Ascii String Lia.
From stdpp Require Import gmap list strings.

Local Open Scope string_scope.

Section runs.
Context `{Json (gmap string gval), Json (gmap string (list string)), Json (list gval), Json VCJWTPayload,
  Json VerifiableCredential, Json GatewayAuthorizeResponse, Sha256, Ed25519, Rfc3339, FloatFormat, Unicode}.
Context `{BodyDecoder VerifyRequest, BodyDecoder form, BodyDecoder GatewayAuthorizeRequest,
  BodyDecoder AddTrustedIssuerRequest, BodyDecoder PolicyRequest}.
Context {T P Q C L : Type}
  `{TrustRegistryLaws T, PolicyStore P, RequestStoreLaws Q, DecisionCache C, Limiter L}.

#[local] Abbreviation state := (VerifierState T P Q C L).

(** The states a server can be in after any requests, in any environment. *)
Inductive reachable (v : Verifier) (s0 : state) : state -> Prop :=
| reached_start : reachable v s0 s0
| reached_request a r s : reachable v s0 s -> reachable v s0 (after_request v a r s).

(** Only the default tenant trusts issuers, and no presentation has been requested. *)
Definition seeded (v : Verifier) (s : state) : Prop :=
  (forall t, t <> default_tenant v -> trusted_set (v_trust s) t = ∅) /\ requests (v_requests s) = ∅.

Lemma change_seeded v a r s s' : seeded v s -> change v a r s s' -> seeded v s'.
Proof.
  intros [Ht Hq] Hc. destruct Hc as [|i t Hp Hm Hb Ha|c o|req q state Hp Hg Hm|c l]; try done.
  - split; [|done]. intros t' Hne. cbn. destruct (add_trusted_law (v_trust s) (default_tenant v) i) as (t0 & Ht0 & Hset).
    assert (t0 = t) as -> by congruence. rewrite Hset, decide_False by done. by apply Ht.
  - apply get_law in Hg as [Hg _]. by rewrite Hq, lookup_empty in Hg.
Qed.

Lemma reachable_seeded v s0 s : seeded v s0 -> reachable v s0 s -> seeded v s.
Proof.
  intros Hs0. induction 1 as [|a r s _ IH]; [done|].
  destruct (request_change v a r s) as [->|(t & _ & _ & Hc)]; [done|by eapply change_seeded].
Qed.

Context (v : Verifier) (a : visit) (r : request string) (s : state) (t : Tenant).
Hypothesis Hlk : lookup_ok (ve_tenants v).
Hypothesis Hadm : admits v a r t.

Lemma exact_path_tenant :
  extractTenantID r = r_Header r "X-Tenant-ID" -> tenant_or_default (tenant_view a r t) (default_tenant v) = t_ID t.
Proof.
  intros He. apply (admitted_tenant _ (tenantResolver v)); [|done|done|].
  - cbn. intros get [= <-]. exact Hlk.
  - exact He.
Qed.

Lemma header_or_path path :
  r_Path r = path ->
  after_tenants (split_on "/"%char (trim_right_slash (trim_left_slash path))) = "" ->
  extractTenantID r = r_Header r "X-Tenant-ID".
Proof. intros Hp Ha. unfold extractTenantID. rewrite Hp, Ha. by case_bool_decide as Hb. Qed.

(** A credential that the verify route accepts has a trusted issuer, which the answer names. *)
Lemma verify_trusted b :
  r_Path r = "/v1/credentials/verify" -> answers v a r s 200 b ->
  exists resp, b = Body (Verified resp) /\ vs_Issuer resp ∈ trusted_set (v_trust s) (t_ID t).
Proof.
  intros Hp (t' & Ht' & Hs & Hb)%answers_admitted. assert (t' = t) as -> by (unfold admits, resolves_to in *; congruence).
  rewrite (at_verify v a (tenant_view a r t) s Hp) in Hs, Hb. unfold verify_route in Hs, Hb.
  rewrite mount_eq in Hs, Hb. cbn [out_response fst map_response rs_Status rs_Body] in Hs, Hb.
  match type of Hs with rs_Status (out_response ?o) = _ =>
    destruct (handleVerify_200 _ _ _ _ _ _ (out_response o) (out_state o) (out_effects o) (outcome_eta o) Hs)
      as (req & tokens & cs & root & leaf & e & _ & _ & _ & _ & _ & Htr & _ & Hleaf & Hresp & _) end.
  change (tenant_or_default (decoded ?r') ?d) with (tenant_or_default r' d) in Htr.
  rewrite exact_path_tenant in Htr by (by apply (header_or_path _ Hp)). rewrite Forall_forall in Htr.
  rewrite Hresp in Hb. cbn in Hb. eexists. split; [by rewrite <- Hb|]. cbn.
  apply Htr. rewrite last_lookup in Hleaf. by eapply list_elem_of_lookup_2.
Qed.

Hypothesis Hempty : trusted_set (v_trust s) (t_ID t) = ∅.

Lemma verify_locked b : r_Path r = "/v1/credentials/verify" -> ~ answers v a r s 200 b.
Proof. intros Hp (resp & _ & Hin)%verify_trusted; [|done]. rewrite Hempty in Hin. set_solver. Qed.

Lemma policies_locked : v_policies (after_request v a r s) = v_policies s.
Proof.
  destruct (request_change v a r s) as [->|(t' & Ht' & _ & Hc)]; [done|].
  assert (t' = t) as -> by (unfold admits, resolves_to in *; congruence).
  revert Hc. generalize (after_request v a r s) as s'. intros s'. destruct 1 as [| |c o Hp Hg Ho| |]; try done.
  destruct (policy_change_path v a c (tenant_view a r t) _ o Ho) as [?|Hx]; [done|].
  apply gate_super_admin in Hg. change (extractTenantID r = r_Header r "X-Tenant-ID") in Hx.
  rewrite (exact_path_tenant Hx) in Hg. destruct Hg as (token & c' & _ & _ & _ & _ & _ & _ & Hin). set_solver.
Qed.

Lemma gateway_locked d :
  r_Path r = "/v1/gateway/authorize" -> answers v a r s 200 (Body (Authorized d)) ->
  exists req, r_Body r ≫= decode_body = Some req
    /\ readCachedDecision (v_cache s) (at_lookup (vi_gateway a)) (request_key (t_ID t) req) = Some d.
Proof.
  intros Hp (t' & Ht' & Hs & Hb)%answers_admitted. assert (t' = t) as -> by (unfold admits, resolves_to in *; congruence).
  rewrite (at_gateway v a (tenant_view a r t) s Hp) in Hs, Hb. unfold gateway_route, authorize_or_panic in Hs, Hb.
  rewrite mount_eq in Hs, Hb. destruct (handleAuthorize _ _ _ _) as [[[resp g] es]|] eqn:Hh; [|done].
  apply handleAuthorize_Ok in Hh as [_ [(d' & Hd & Ha & Hst & _)|(req & d' & Hreq & -> & Hd)]].
  { cbn in Hs. lia. }
  cbn in Hb. injection Hb as ->. exists req. split; [exact Hreq|].
  change (tenant_or_default (decoded ?r') ?d) with (tenant_or_default r' d) in Hd.
  cbn [gw_DefaultTenantID gateway_config] in Hd.
  rewrite exact_path_tenant in Hd by (by apply (header_or_path _ Hp)).
  destruct Hd as [[Hc _]|(chain & _ & [Hv _] & _)]; [done|].
  pose proof Hv as Hv'. apply chain_trusted in Hv. rewrite Hempty in Hv.
  apply VerifyCredentialChain_Ok in Hv' as (cs & Hne & Hall & _ & _ & ->). apply verifies_all_length in Hall.
  destruct cs as [|c cs]; [by destruct (request_tokens _ _)|]. apply Forall_cons in Hv as [Hc _]. set_solver.
Qed.

Lemma oidc4vp_locked b :
  requests (v_requests s) = ∅ -> r_Path r = "/v1/oidc4vp/response" -> ~ answers v a r s 200 b.
Proof.
  intros Hq Hp (t' & _ & Hs & _)%answers_admitted.
  rewrite (at_oidc4vp v a (tenant_view a r t') s Hp) in Hs. unfold oidc4vp_route in Hs. rewrite mount_eq in Hs. cbn in Hs.
  match type of Hs with context [handleOIDC4VPResponse ?c ?g ?k ?u ?q (Some ?d)] =>
    destruct (handleOIDC_state c g k u q d) as [[_ Hn]|(req & st & q' & Hg & _)] end; [done|].
  apply get_law in Hg as [Hg _]. by rewrite Hq, lookup_empty in Hg.
Qed.
End runs.

Section lockout.
Context `{Json (gmap string gval), Json (gmap string (list string)), Json (list gval), Json VCJWTPayload,
  Json VerifiableCredential, Json GatewayAuthorizeResponse, Sha256, Ed25519, Rfc3339, FloatFormat, Unicode}.
Context `{BodyDecoder VerifyRequest, BodyDecoder form, BodyDecoder GatewayAuthorizeRequest,
  BodyDecoder AddTrustedIssuerRequest, BodyDecoder PolicyRequest}.
Context {T P Q C L : Type}
  `{TrustRegistryLaws T, PolicyStore P, RequestStoreLaws Q, DecisionCache C, Limiter L}.

(** C16: What the routes of the server can and cannot reach.  Trusted issuers are only ever
    added to the default tenant, and nothing creates a presentation request.  So in every
    state the server reaches from its start, no response to a presentation request is ever
    accepted; and for an enabled tenant other than the default one no credential verifies, no
    request changes a policy, and the gateway allows nothing but what its cache holds. *)
Theorem other_tenants_locked_out v (s0 s : VerifierState T P Q C L) a r t :
  lookup_ok (ve_tenants v) -> seeded v s0 -> reachable v s0 s -> admits v a r t ->
  (r_Path r = "/v1/oidc4vp/response" -> forall b, ~ answers v a r s 200 b)
  /\ (t_ID t <> default_tenant v ->
       (r_Path r = "/v1/credentials/verify" -> forall b, ~ answers v a r s 200 b)
       /\ v_policies (after_request v a r s) = v_policies s
       /\ (r_Path r = "/v1/gateway/authorize" -> forall d, answers v a r s 200 (Body (Authorized d)) ->
             exists req, r_Body r ≫= decode_body = Some req
               /\ readCachedDecision (v_cache s) (at_lookup (vi_gateway a)) (request_key (t_ID t) req) = Some d)).
Proof.
  intros Hlk Hs0 Hr Ha. destruct (reachable_seeded v s0 s Hs0 Hr) as [Htr Hq]. split.
  - intros Hp b. by eapply oidc4vp_locked.
  - intros Hne. specialize (Htr _ Hne). split; [|split].
    + intros Hp b. by eapply verify_locked.
    + by eapply policies_locked.
    + intros Hp d. by eapply gateway_locked.
Qed.
End lockout.

(** ** Taking the server over *)

Section takeover.
Context `{Json (gmap string gval), Json (gmap string (list string)), Json (list gval), Json VCJWTPayload,
  Json VerifiableCredential, Json GatewayAuthorizeResponse, Sha256, Ed25519, Rfc3339, FloatFormat, Unicode}.
Context `{!JsonLaw (gmap string gval) (fun m => json_safe (VObj m)) (fmap json_image)}.
Context `{!JsonLaw VCJWTPayload payload_safe payload_image}.
Context `{BodyDecoder VerifyRequest, BodyDecoder form, BodyDecoder GatewayAuthorizeRequest,
  BodyDecoder AddTrustedIssuerRequest, BodyDecoder PolicyRequest}.
Context {T P Q C L : Type}
  `{TrustRegistryLaws T, PolicyStoreLaws P, RequestStore Q, DecisionCache C, Limiter L}.

#[local] Abbreviation state := (VerifierState T P Q C L).

(** A request that adds [did] to the trusted issuers; it need not bear any credential. *)
Definition asks_trust (r : request string) (did : string) : Prop :=
  r_Path r = "/v1/trust/issuers" /\ r_Method r = "POST" /\ r_Body r ≫= decode_body = Some (mkAddTrusted did).

(** A request that creates the policy of [req], bearing [token]. *)
Definition asks_policy (r : request string) (token : string) (req : PolicyRequest) : Prop :=
  r_Path r = "/v1/admin/policies" /\ r_Method r = "POST" /\ r_Body r ≫= decode_body = Some req
  /\ r_Header r "Authorization" = "Bearer " +:+ token.

Lemma trust_added v a r (s : state) t did :
  admits v a r t -> asks_trust r did -> did <> "" ->
  exists reg, after_request v a r s = set_trust reg s /\
    forall t', trusted_set reg t' = if decide (t' = default_tenant v) then {[did]} ∪ trusted_set (v_trust s) t'
                                    else trusted_set (v_trust s) t'.
Proof.
  intros Ha (Hp & Hm & Hb) Hne. destruct (ServeHTTP_admitted v a r s t Ha) as [-> _].
  rewrite (at_trust v a (tenant_view a r t) s Hp). unfold trust_route. rewrite mount_eq. cbn [out_state fst snd].
  destruct (add_trusted_law (v_trust s) (default_tenant v) did) as (reg & Hadd & Hset).
  exists reg. split; [|done]. unfold handleAddTrustedIssuer.
  change (r_Method (decoded (tenant_view a r t))) with (r_Method r).
  change (r_Body (decoded (tenant_view a r t))) with (r_Body r ≫= decode_body (T := AddTrustedIssuerRequest)).
  rewrite Hm, Hb, bool_decide_eq_true_2 by done. cbn [negb ati_IssuerDID].
  by rewrite bool_decide_eq_false_2, Hadd by done.
Qed.

Lemma build_effective_tenant {B} req (r : request B) dflt :
  buildPolicyFromRequest req (TenantIDFromContext (r_Context r)) dflt
  = buildPolicyFromRequest req (tenant_or_default r dflt) dflt.
Proof.
  unfold buildPolicyFromRequest, tenant_or_default.
  destruct (bool_decide (TenantIDFromContext (r_Context r) = "")) eqn:Hb; [|by rewrite Hb].
  by destruct (bool_decide (dflt = "")).
Qed.

Lemma policy_created v a r (s : state) t token req p c :
  lookup_ok (ve_tenants v) -> admits v a r t -> asks_policy r token req ->
  store_ok (v_policies s) -> store_room (v_policies s) ->
  buildPolicyFromRequest req (t_ID t) (default_tenant v) = Ok p ->
  admin_credential (R := answer) (server_resolver v a (v_trust s)) (Some (v_trust s)) (default_tenant v)
    (vi_admin a) (tenant_view a r t) = Ok c ->
  exists id created, table (v_policies (after_request v a r s)) (t_ID t) !! id = Some (with_stamp id created (vi_policy a) p).
Proof.
  intros Hlk Ha (Hp & Hm & Hb & _) Hok Hroom Hbuild Hc.
  destruct (ServeHTTP_admitted v a r s t Ha) as [-> _]. rewrite (at_admin v a (tenant_view a r t) s Hp).
  unfold admin_route, AdminAuthMiddleware. rewrite Hc.
  set (r' := with_context (with_admin (vc_Subject c) (vc_Claims c) (r_Context (tenant_view a r t))) (tenant_view a r t)).
  assert (Hten : tenant_or_default (policy_request c (tenant_view a r t)) (default_tenant v) = t_ID t).
  { by apply (exact_path_tenant v a r t Hlk Ha), (header_or_path _ _ Hp). }
  assert (mux_serve (adminMux v a) r' s
    = mount v_policies set_policies PolicyAnswer (handlePolicies (default_tenant v) (vi_policy a)) r' s) as ->.
  { rewrite mux_serve_found; change (r_Path r') with (r_Path r); rewrite Hp; [reflexivity| |reflexivity].
    unfold routed_path. change (r_Path r') with (r_Path r). rewrite Hp. by destruct (bool_decide _). }
  rewrite mount_eq. cbn [out_state fst snd]. change (decoded r') with (policy_request c (tenant_view a r t)).
  unfold handlePolicies, handleCreatePolicy.
  change (r_Path (policy_request c (tenant_view a r t))) with (r_Path r).
  change (r_Method (policy_request c (tenant_view a r t))) with (r_Method r).
  change (r_Body (policy_request c (tenant_view a r t))) with (r_Body r ≫= decode_body (T := PolicyRequest)).
  rewrite Hp, Hm, Hb, !bool_decide_eq_true_2 by done. cbn [negb].
  rewrite build_effective_tenant, Hten, Hbuild.
  assert (Hpt : p_TenantID p = t_ID t).
  { rewrite <- Hten, <- build_effective_tenant in Hbuild.
    apply buildPolicyFromRequest_tenant in Hbuild as [-> _]. exact Hten. }
  assert (Hid : t_ID t <> "").
  { apply Resolve_Ok in Ha as (get & id & [= <-] & Hl & _). by destruct (Hlk id t Hl) as [-> ?]. }
  destruct (create_law (v_policies s) (vi_policy a) p Hok Hroom) as (id & p' & _ & -> & _ & Htab); [congruence|].
  exists id. eexists. cbn. rewrite Htab, decide_True by done. apply lookup_insert_eq.
Qed.

(** C14: The policies of the server change only at the hands of an administrator.  If a
    request leaves the policies other than they were, it bears a token that its issuer signed,
    unexpired, with the super-admin role; the issuer is trusted by the default tenant and by
    the tenant the request resolved to, which is enabled; and the policies of every other
    tenant are what they were, as are all the other parts of the state. *)
Theorem policies_guarded v a r (s : state) :
  lookup_ok (ve_tenants v) -> store_ok (v_policies s) -> store_room (v_policies s) -> all_wf (v_policies s) ->
  v_policies (after_request v a r s) <> v_policies s ->
  exists t p, admits v a r t /\ t_Enabled t = true /\ super_admin v a (v_trust s) (t_ID t) r
    /\ after_request v a r s = set_policies p s /\ store_ok p /\ all_wf p
    /\ forall t', t' <> t_ID t -> table p t' = table (v_policies s) t'.
Proof.
  intros Hlk Hok Hroom Hwf Hne. destruct (request_change v a r s) as [He|(t & Ht & Hen & Hc)]; [by rewrite He in Hne|].
  revert Hne Hc. generalize (after_request v a r s) as s'. intros s' Hne.
  destruct 1 as [| |c o Hp Hg Ho| |]; try done.
  cbn in Hne. exists t, (out_state o). split; [done|]. split; [done|].
  assert (Hten : tenant_or_default (tenant_view a r t) (default_tenant v) = t_ID t).
  { apply (admitted_tenant _ (tenantResolver v)); [|done|done|].
    - cbn. intros get [= <-]. exact Hlk.
    - by destruct (policy_change_path v a c (tenant_view a r t) _ o Ho) as [?|?]. }
  assert (Hid : t_ID t <> "").
  { apply Resolve_Ok in Ht as (get & id & [= <-] & Hl & _). by destruct (Hlk id t Hl) as [-> ?]. }
  split; [by apply gate_super_admin in Hg; rewrite Hten in Hg|]. split; [done|].
  change (tenant_or_default (tenant_view a r t) (default_tenant v))
    with (tenant_or_default (policy_request c (tenant_view a r t)) (default_tenant v)) in Hten.
  apply policy_admin_confined in Ho as (Hok' & Hwf' & Hconf & _); [|done|done|done|by rewrite Hten].
  rewrite Hten in Hconf. done.
Qed.
(** C17: Anyone can take the server over.  Adding a trusted issuer needs no credential, and a
    trusted issuer makes administrators.  So whoever holds a key pair can send two requests
    that the default tenant admits, the first to add the DID of the key to the trusted issuers
    and the second, with a super-admin credential signed by that very key, to create any
    policy; afterwards the default tenant's table holds it. *)
Theorem anyone_becomes_admin v (s : state) t a1 r1 a2 sg k did created now uuid :
  lookup_ok (ve_tenants v) -> t_ID t = default_tenant v ->
  store_ok (v_policies s) -> store_room (v_policies s) ->
  signer_ok sg k -> issuable now uuid did did AdminVCTTL (Some (root_claims created)) ->
  admits v a1 r1 t -> asks_trust r1 did ->
  vi_resolve a2 did = Ok (PubEd25519 k) -> within_life now AdminVCTTL (vi_admin a2) ->
  exists token, IssueBasicCredential now uuid did did (Some sg) AdminVCTTL (Some (root_claims created)) = Ok token
    /\ forall r2 req p, admits v a2 r2 t -> asks_policy r2 token req ->
         buildPolicyFromRequest req (t_ID t) (default_tenant v) = Ok p ->
         exists id created', table (v_policies (after_request v a2 r2 (after_request v a1 r1 s))) (t_ID t) !! id
           = Some (with_stamp id created' (vi_policy a2) p).
Proof.
  intros Hlk Hdef Hok Hroom Hsg Hiss Ha1 Ht1 Hres Hl.
  destruct (root_credential_verifies created now uuid did did sg k Hsg Hiss)
    as (token & c & Hi & Hne & Hparse & Hv & _ & Hadm & Hrole).
  exists token. split; [done|]. intros r2 req p Ha2 Hask Hbuild.
  destruct (trust_added v a1 r1 s t did Ha1 Ht1) as (reg & -> & Hset).
  { destruct Hiss as [Hd _]. by intros ->. }
  apply (policy_created v a2 r2 (set_trust reg s) t token req p c Hlk Ha2 Hask Hok Hroom Hbuild).
  apply admin_credential_Ok. exists token. destruct Hask as (Hp & _ & _ & Hh).
  split; [by split|]. split; [|done]. rewrite Hparse. cbn [fst snd]. apply Hv; [|done].
  rewrite (exact_path_tenant v a2 r2 t Hlk Ha2 (header_or_path _ _ Hp eq_refl)), Hdef.
  apply admin_resolver_Ok. cbn [v_trust set_trust]. rewrite Hset, decide_True by done.
  split; [set_solver|]. apply server_resolver_Ok. rewrite Hset, decide_True by done. split; [set_solver|done].
Qed.
End takeover.

(** ** Starting up *)

#[local] Existing Instances Memory.memory_ops Memory.memory_laws.

Definition demo_policy (tenant : string) (created : time) : Policy :=
  with_stamp 1 created created (default_policy tenant).

Definition demo_policies (tenant : string) (created : time) : Memory.MemoryStore :=
  Memory.mkMemory {[tenant := {[1%Z := demo_policy tenant created]}]} 2.

Lemma demo_created tenant created :
  tenant <> "" ->
  Memory.CreatePolicy Memory.NewMemoryStore created (Some (default_policy tenant))
  = Ok (demo_policy tenant created, demo_policies tenant created).
Proof.
  intros Hne. unfold Memory.CreatePolicy. cbn [of_option rbind default_policy p_TenantID].
  rewrite (bool_decide_eq_false_2 _ Hne). cbn [Memory.NewMemoryStore Memory.policies]. by rewrite lookup_empty.
Qed.

Lemma demo_table tenant created t id p :
  table (demo_policies tenant created) t !! id = Some p <-> t = tenant /\ id = 1%Z /\ p = demo_policy tenant created.
Proof.
  cbn. unfold Memory.tenant_table. cbn [Memory.policies demo_policies].
  destruct (decide (t = tenant)) as [->|Hne].
  - rewrite lookup_singleton_eq. change (default ∅ (Some ?x)) with x. rewrite lookup_singleton_Some. naive_solver.
  - rewrite lookup_singleton_ne by done. cbn. rewrite lookup_empty. naive_solver.
Qed.

Lemma demo_ok tenant created :
  tenant <> "" -> store_ok (demo_policies tenant created) /\ store_room (demo_policies tenant created)
  /\ all_wf (demo_policies tenant created).
Proof.
  intros Hne. split; [split; [done|]|split; [by vm_compute|]].
  - intros t id p (-> & -> & ->)%demo_table. done.
  - intros t id p (-> & -> & ->)%demo_table. by split; [left|].
Qed.

(** The demonstration policy, being the only one, allows whoever reads orders. *)
Lemma demo_evaluates `{Unicode, PolicyStoreLaws P} order (store : P) tenant created input :
  store_ok store -> (forall id p, table store tenant !! id = Some p <-> id = 1%Z /\ p = demo_policy tenant created) ->
  order ∅ = [] -> in_TenantID input = tenant -> in_Action input = "read" -> in_Resource input = "orders" ->
  EngineV1_Evaluate order (Some (ListPoliciesForTenant store)) input = Ok (mkResult true "policy_allow" (Some 1%Z)).
Proof.
  intros Hok Htab Ho Ht Ha Hr. unfold EngineV1_Evaluate. rewrite Ht.
  destruct (list_law store tenant Hok) as (l & Hl & Hp & _). rewrite Hl. cbn [map_err rbind].
  assert (Htable : table store tenant = {[1%Z := demo_policy tenant created]}).
  { apply map_eq. intros id. apply option_eq. intros p. rewrite Htab, lookup_singleton_Some. naive_solver. }
  rewrite Htable, map_to_list_singleton in Hp. cbn in Hp. apply Permutation_singleton_r in Hp as ->.
  cbn [filterMatchingPolicies]. unfold applies. rewrite Ha, Hr.
  change (p_Enabled (demo_policy tenant created) && matchesAction (demo_policy tenant created) "read"
    && matchesResource (demo_policy tenant created) "orders"
    && matchesSubject (demo_policy tenant created) (in_Subject input) (in_Claims input)) with true.
  cbv iota. unfold matchesConditions. change (p_Conditions (demo_policy tenant created)) with (∅ : gmap string gval).
  rewrite Ho. reflexivity.
Qed.

Section start.
Context `{Json (gmap string gval)} {K : Type} `{KeyStore K}.
Context {R V F : Type} `{Prometheus R V F} {D : Type} `{Redis D, SortedSets D}.

(** Starting up.  When the server starts without a database, its key is the one the key
    store holds for the default tenant; the default tenant, which has a name, is enabled and
    the only one; it trusts exactly the DID of that key, and has exactly one policy, the
    demonstration one; there is no presentation request; its cache and its limiter are those
    the configuration selects, and its metrics are mounted when they are Prometheus'. *)
Theorem startup_spec cfg env seededAt created (store : K) d (reg : R) v (s : VerifierState _ _ _ (server_cache D) _)
    (ms : GatewayMetrics V * VerifierMetrics V * R) store' :
  NewServer cfg env seededAt created store d reg = Ok (v, s, ms, store') ->
  let tenant := vf_DefaultTenantID cfg in
  default_tenant v = tenant /\ tenant <> ""
  /\ GetSigningKey store d tenant = (Ok (ve_signer v), store')
  /\ DIDFromPublicKey (signer_Public (ve_signer v)) = Ok (ve_issuerDID v)
  /\ (forall id t, ve_tenants v id = Ok t <-> id = tenant /\ t = mkTenant tenant "default" true seededAt seededAt)
  /\ (forall t i, IsTrustedIssuer (v_trust s) t i = Ok true <-> t = tenant /\ i = ve_issuerDID v)
  /\ (forall t id p, table (v_policies s) t !! id = Some p <->
        t = tenant /\ id = 1%Z /\ p = demo_policy tenant created)
  /\ store_ok (v_policies s) /\ all_wf (v_policies s) /\ requests (v_requests s) = ∅
  /\ v_cache s = select_cache cfg env /\ v_limiter s = select_limiter cfg env
  /\ (ve_prometheus v = true <-> env "METRICS_TYPE" = "prometheus").
Proof.
  unfold NewServer. cbv zeta. set (tenant := vf_DefaultTenantID cfg). intros Hn.
  bind_inv Hn as tenants Hten. destruct (GetSigningKey store d tenant) as [key store1] eqn:Hkey.
  bind_inv Hn as signer Hs. bind_inv Hn as did Hd. bind_inv Hn as trust Hr.
  bind_inv Hn as [gm r1] Hgm. bind_inv Hn as [vm r2] Hvm. injection Hn as <- <- _ <-.
  ok_simp Hten. ok_simp Hs. ok_simp Hd. ok_simp Hr. subst key.
  unfold UpsertTenant in Hten. stop_inv Hten as Hne. injection Hten as <-. cbn [t_ID] in *. breflect.
  injection Hr as <-. rewrite demo_created by done.
  destruct (demo_ok tenant created) as (Hok & _ & Hwf); [done|].
  split; [done|]. split; [done|]. split; [done|]. split; [done|]. split; [|split; [|split]].
  - intros id t. unfold GetTenant. cbn [ve_tenants]. rewrite of_option_Ok.
    etransitivity; [apply (lookup_insert_Some (M := gmap string))|].
    split; [intros [?|[_ Hx]]; [naive_solver|by apply (lookup_empty_Some (M := gmap string)) in Hx]|naive_solver].
  - intros t i. cbn -[MemoryTrust.IsTrustedIssuer]. unfold MemoryTrust.IsTrustedIssuer. cbn [MemoryTrust.trusted].
    rewrite lookup_empty. destruct (decide (t = tenant)) as [->|Ht].
    + rewrite lookup_insert_eq. split; [intros [= Hi]; breflect; set_solver|].
      intros [_ ->]. by rewrite bool_decide_eq_true_2 by set_solver.
    + rewrite lookup_insert_ne, lookup_empty by done. naive_solver.
  - apply demo_table.
  - repeat (split; [done|]). cbn [ve_prometheus]. rewrite bool_decide_eq_true. unfold getenv.
    case_bool_decide as He; [by rewrite He|done].
Qed.
End start.

(** ** Instances *)

(** A decoder that knows one body. *)
Definition only {X} (s : string) (x : X) : BodyDecoder X := fun b => if bool_decide (b = s) then Some x else None.

Definition mallory_policy : PolicyRequest := mkPolicyRequest "all" "" "allow" (Some ["*"]) (Some ["*"]) (Some ["any"]) None None None.

#[local] Instance verify_decoder : BodyDecoder VerifyRequest := only "verify" (mkVerifyRequest root_token [] "" [] "").
#[local] Instance form_decoder : BodyDecoder form := only "form" (fun _ => "").
#[local] Instance gateway_decoder : BodyDecoder GatewayAuthorizeRequest :=
  only "authorize" (mkAuthorize "" [root_token] "" false "orders" "read").
#[local] Instance trust_decoder : BodyDecoder AddTrustedIssuerRequest := only "trust" (mkAddTrusted "did:ex:mallory").
#[local] Instance policy_decoder : BodyDecoder PolicyRequest := only "policy" mallory_policy.

Definition acme_config (mode : string) : VerifierConfig :=
  mkVerifierConfig "8081" "acme" "" false mode "info" false false "" "" 0 262144 true 5 2048 false.

Definition acme_tenants : TenantStore :=
  {["acme" := mkTenant "acme" "default" true 0 0; "beta" := mkTenant "beta" "Beta" true 0 0]}.

Definition acme_server (mode : string) : Verifier :=
  mkVerifier (acme_config mode) (GetTenant acme_tenants) alice "did:ex:alice" false.

(** The default tenant trusts alice; nothing else has happened. *)
Definition acme_state : VerifierState MemoryTrust.MemoryTrustRegistry Memory.MemoryStore
    MemoryRequests.MemoryRequestStore unit unit :=
  mkVerifierState alice_trusted Memory.NewMemoryStore MemoryRequests.NewMemoryRequestStore tt tt.

Definition calm (t : time) : visit :=
  mkVisit (mkArrival "cid" t 0 0) resolve_alice t t quiet (all_at t) (fun _ => map_to_list) t t (Ok tt) "".

Definition acme_request (path body auth tenant : string) : request string :=
  mkRequest "POST" path "" (fun h => if bool_decide (h = "Authorization") then auth
                                     else if bool_decide (h = "X-Tenant-ID") then tenant else "")
    "10.0.0.1:4711" (Some body) background.

Lemma acme_lookup mode : lookup_ok (ve_tenants (acme_server mode)).
Proof.
  apply GetTenant_ok. apply map_Forall_insert_2; [done|]. apply map_Forall_insert_2; [done|apply map_Forall_empty].
Qed.

Lemma acme_seeded mode : seeded (acme_server mode) acme_state.
Proof.
  split; [|done]. intros t Ht. change (default_tenant (acme_server mode)) with "acme" in Ht.
  cbn. by rewrite lookup_singleton_ne.
Qed.

Lemma other_tenants_locked_out_witness :
  let r := acme_request "/v1/credentials/verify" "verify" "" "beta" in
  admits (acme_server "multi") (calm t0) r (mkTenant "beta" "Beta" true 0 0)
  /\ forall b, ~ answers (acme_server "multi") (calm t0) r acme_state 200 b.
Proof.
  cbv zeta. assert (Ha : admits (acme_server "multi") (calm t0)
    (acme_request "/v1/credentials/verify" "verify" "" "beta") (mkTenant "beta" "Beta" true 0 0))
    by (vm_compute; reflexivity).
  split; [exact Ha|].
  refine (proj1 (proj2 (other_tenants_locked_out (acme_server "multi") acme_state acme_state (calm t0) _ _
    (acme_lookup "multi") (acme_seeded "multi") (reached_start _ _) Ha) _) _).
  - discriminate.
  - reflexivity.
Defined.

Definition acme_tenant : Tenant := mkTenant "acme" "default" true 0 0.

Definition mallory_asks : request string := acme_request "/v1/trust/issuers" "trust" "" "".

(** The policy mallory's request stands for. *)
Definition mallory_built : Policy :=
  default (default_policy "") (to_option (buildPolicyFromRequest mallory_policy "acme" "acme")).

Lemma anyone_becomes_admin_witness :
  exists token id created,
    r_Header mallory_asks "Authorization" = ""
    /\ table (v_policies (after_request (acme_server "single") (calm (t0 + hour)%Z)
               (acme_request "/v1/admin/policies" "policy" ("Bearer " +:+ token) "")
               (after_request (acme_server "single") (calm t0) mallory_asks acme_state))) "acme" !! id
       = Some (with_stamp id created (t0 + hour)%Z mallory_built).
Proof.
  destruct (anyone_becomes_admin (acme_server "single") acme_state acme_tenant (calm t0) mallory_asks
    (calm (t0 + hour)%Z) alice alice_key "did:ex:mallory" t0 t0 "id") as (token & _ & Hall).
  1: apply acme_lookup.
  1: reflexivity.
  1: apply Memory.new_ok.
  1: reflexivity.
  1: apply plain_signer_ok.
  1: unfold issuable; repeat split; vm_compute; reflexivity.
  1: vm_compute; reflexivity.
  1: repeat split; reflexivity.
  1: reflexivity.
  1: unfold within_life, civil_time; repeat split; vm_compute; congruence.
  destruct (Hall (acme_request "/v1/admin/policies" "policy" ("Bearer " +:+ token) "") mallory_policy mallory_built)
    as (id & created & Ht).
  1: vm_compute; reflexivity.
  1: repeat split; reflexivity.
  1: vm_compute; reflexivity.
  exists token, id, created. split; [reflexivity|exact Ht].
Defined.

Import MapRegistry.

(** A start in the environment of a Redis server. *)
Definition acme_start :=
  NewServer (R := registry) (V := string * string) (F := Z) (D := redis_server) (acme_config "single") redis_env
    t0 t0 alice_store no_draw ∅.

Lemma startup_spec_witness :
  exists v s ms store, acme_start = Ok (v, s, ms, store)
    /\ (forall t i, IsTrustedIssuer (v_trust s) t i = Ok true <-> t = "acme" /\ i = ve_issuerDID v).
Proof.
  assert (Hok : is_ok acme_start = true) by (vm_compute; reflexivity).
  destruct acme_start as [[[[v s] ms] store]|e] eqn:Hn.
  - exists v, s, ms, store. split; [reflexivity|].
    exact (proj1 (proj2 (proj2 (proj2 (proj2 (proj2
      (startup_spec (acme_config "single") redis_env t0 t0 alice_store no_draw ∅ v s ms store Hn))))))).
  - discriminate Hok.
Defined.

(** A token that makes its bearer an administrator of a server that trusts alice. *)
Lemma alice_admin_token :
  exists token, exists c, admin_credential (R := answer)
    (server_resolver (acme_server "single") (calm (t0 + hour)%Z) alice_trusted) (Some alice_trusted) "acme" (t0 + hour)%Z
    (tenant_view (calm (t0 + hour)%Z) (acme_request "/v1/admin/policies" "policy" ("Bearer " +:+ token) "") acme_tenant) = Ok c.
Proof.
  destruct (root_credential_verifies t0 t0 "id" "did:ex:alice" "did:ex:root" alice alice_key)
    as (token & c & _ & Hne & Hp & Hv & _ & Ha & Hr).
  { apply plain_signer_ok. }
  { unfold issuable; repeat split; vm_compute; reflexivity. }
  exists token, c. apply admin_credential_Ok. exists token. split; [by split|]. rewrite Hp. split; [|done].
  apply Hv; [|unfold within_life, civil_time; repeat split; vm_compute; congruence].
  apply admin_resolver_Ok. split; [|apply server_resolver_Ok; split; [|done]].
  all: cbn; set_solver.
Qed.

Lemma policies_guarded_witness :
  exists token, let r := acme_request "/v1/admin/policies" "policy" ("Bearer " +:+ token) "" in
    let v := acme_server "single" in let a := calm (t0 + hour)%Z in
    v_policies (after_request v a r acme_state) <> v_policies acme_state
    /\ super_admin v a alice_trusted "acme" r.
Proof.
  destruct alice_admin_token as (token & c & Hc). exists token. cbv zeta.
  set (r := acme_request "/v1/admin/policies" "policy" ("Bearer " +:+ token) "").
  assert (Hne : v_policies (after_request (acme_server "single") (calm (t0 + hour)%Z) r acme_state)
    <> v_policies acme_state).
  { destruct (policy_created (acme_server "single") (calm (t0 + hour)%Z) r acme_state acme_tenant token
      mallory_policy mallory_built c) as (id & created & Ht).
    - apply acme_lookup.
    - vm_compute; reflexivity.
    - repeat split; reflexivity.
    - apply Memory.new_ok.
    - reflexivity.
    - vm_compute; reflexivity.
    - exact Hc.
    - intros He. rewrite He in Ht. discriminate Ht. }
  split; [exact Hne|].
  destruct (policies_guarded (acme_server "single") (calm (t0 + hour)%Z) r acme_state)
    as (t & p & Ht & _ & Hs & _).
  { apply acme_lookup. }
  { apply Memory.new_ok. }
  { reflexivity. }
  { intros t id p. cbn. unfold Memory.tenant_table. cbn. rewrite lookup_empty. discriminate. }
  { exact Hne. }
  assert (He : t_ID t = "acme").
  { unfold admits, resolves_to in Ht.
    assert (Hq : Resolve (tenantResolver (acme_server "single"))
      (seen_request (ar_generated (vi_arrival (calm (t0 + hour)%Z))) (with_context background r)) = Ok acme_tenant)
      by (vm_compute; reflexivity).
    rewrite Hq in Ht. by injection Ht as <-. }
  rewrite He in Hs. exact Hs.
Defined.
