(* ===== verification/DatabaseServer.v ===== *)
(** * The verifier on a database.

    Models services/verifier/server.go, [NewServer], for a configuration that names a database:
    the tenants and the policies are its tables, and the trusted issuers too when the
    configuration asks for it.  The properties say what a start changes in the tables: what is
    kept, and what every start adds again. *)

From S2P Require Import Prelude GoStrings Base64 GoTime Errors Values GoFmt Crypto Credential Instances.
From S2P Require Import Policy PolicyFacts PolicyStore Config Http Mux Tenant Server Trust Did Gateway.
From S2P Require Import RateLimit Redis Metrics MetricsProps Keys KeysProps Postgres Oidc4vp VerifierServer VerifierServerRuns.
From Stdlib Require Import ZArith Ascii String Lia.
From stdpp Require Import gmap list strings.

Local Open Scope string_scope.

(** ** Trust in memory or in the database *)

(** Source: services/verifier/server.go:41-41, [NewServer]. *)
Inductive trust_store :=
| TrustInMemory (m : MemoryTrust.MemoryTrustRegistry)
| TrustInDatabase (db : Database).

#[local] Existing Instances PGTrustRegistry.pg_trust PGTrustRegistry.pg_trust_laws.

#[export] Instance either_trust : TrustRegistry trust_store := {|
  IsTrustedIssuer s t i :=
    match s with TrustInMemory m => IsTrustedIssuer m t i | TrustInDatabase db => IsTrustedIssuer db t i end;
  AddTrustedIssuer s t i :=
    match s with
    | TrustInMemory m => let! m := AddTrustedIssuer m t i in Ok (TrustInMemory m)
    | TrustInDatabase db => let! db := AddTrustedIssuer db t i in Ok (TrustInDatabase db)
    end;
  RemoveTrustedIssuer s t i :=
    match s with
    | TrustInMemory m => let! m := RemoveTrustedIssuer m t i in Ok (TrustInMemory m)
    | TrustInDatabase db => let! db := RemoveTrustedIssuer db t i in Ok (TrustInDatabase db)
    end;
|}.

(** Either is a registry, so every property of the server's handlers holds of both. *)
#[export] Instance either_trust_laws : TrustRegistryLaws trust_store.
Proof.
  refine {| trusted_set s t := match s with TrustInMemory m => trusted_set m t | TrustInDatabase db => trusted_set db t end |}.
  - intros [m|db] t i; [exact (is_trusted_law m t i)|exact (is_trusted_law db t i)].
  - intros [m|db] t i; cbn [AddTrustedIssuer either_trust].
    + destruct (add_trusted_law m t i) as (m' & -> & Hs). by eexists.
    + destruct (add_trusted_law db t i) as (db' & -> & Hs). by eexists.
  - intros [m|db] t i; cbn [RemoveTrustedIssuer either_trust].
    + destruct (remove_trusted_law m t i) as (m' & -> & Hs). by eexists.
    + destruct (remove_trusted_law db t i) as (db' & -> & Hs). by eexists.
Defined.

(** ** Starting up *)

#[local] Existing Instances PGStore.pg_ops.

Section start.
Context `{Json (gmap string gval)} {K : Type} `{KeyStore K}.
Context {R V F : Type} `{Prometheus R V F} {D : Type} `{Redis D, SortedSets D}.

Definition fails_with {A} (text : string) (r : result error A) : result fault A :=
  map_err (fun e => Failed (ErrWrap text e "")) r.

(** The DID of the service becomes a trusted issuer.
    Source: services/verifier/server.go:134-136, [NewServer]. *)
Definition seed_trust (cfg : VerifierConfig) (fails : option error) (did : string) (db : Database)
  : result error trust_store * Database :=
  let tenant := vf_DefaultTenantID cfg in
  if vf_UseDBTrustRegistry cfg then
    match PGTrustRegistry.AddTrustedIssuer fails db tenant did with
    | Ok db => (Ok (TrustInDatabase db), db)
    | Err e => (Err e, db)
    end
  else
    (let! m := MemoryTrust.AddTrustedIssuer MemoryTrust.NewMemoryTrustRegistry tenant did in Ok (TrustInMemory m), db).

(** The signing key and the DID of the service.
    Source: services/verifier/server.go:124-132, [NewServer]. *)
Definition service_identity (tenant : string) (store : K) (d : draw) : result fault (Signer * string) * K :=
  let '(signer, store) := GetSigningKey store d tenant in
  (let! signer := fails_with "get signing key: " signer in
   let! did := fails_with "derive issuer did: " (DIDFromPublicKey (signer_Public signer)) in
   Ok (signer, did), store).

(** The collectors.
    Source: services/verifier/server.go:145-153, [NewServer]. *)
Definition create_metrics (env : string -> string) (registerer : R)
  : result fault (GatewayMetrics V * VerifierMetrics V * R) :=
  let metricsFactory := NewFactoryFromEnv env in
  let wrap text f := match f with Failed e => Failed (ErrWrap text e "") | Panic => Panic end in
  let! (gm, registerer) := map_err (wrap "create gateway metrics: ") (CreateGatewayMetrics metricsFactory registerer) in
  let! (vm, registerer) := map_err (wrap "create verifier metrics: ") (CreateVerifierMetrics metricsFactory registerer) in
  Ok (gm, vm, registerer).

(** The server and the tables as it leaves them, when it fails too.  [opened] is the answer of
    [sql.Open], [fails n] the error the n-th statement meets.  The tables the routes work on are
    disjoint; each has the database as it was after the start.
    Source: services/verifier/server.go, [NewServer]. *)
Definition NewDatabaseServer (cfg : VerifierConfig) (env : string -> string) (opened : result error unit)
    (fails : nat -> option error) (seeded created : time) (store : K) (d : draw) (registerer : R) (db : Database)
  : result fault (Verifier * VerifierState trust_store Database MemoryRequests.MemoryRequestStore
                               (server_cache D) (server_limiter D)
                  * (GatewayMetrics V * VerifierMetrics V * R) * K) * Database :=
  let tenant := vf_DefaultTenantID cfg in
  match fails_with "connect to database: " opened,
        fails_with "seed default tenant: "
          (PGTenantStore.UpsertTenant (fails 0%nat) db seeded (mkTenant tenant "default" true zero_time zero_time)) with
  | Err f, _ | _, Err f => (Err f, db)
  | Ok _, Ok db =>
      let db := (PGStore.CreatePolicy (fails 1%nat) db created (Some (default_policy tenant))).2 in
      match service_identity tenant store d with
      | (Err f, _) => (Err f, db)
      | (Ok (signer, did), store) =>
          let '(trust, db) := seed_trust cfg (fails 2%nat) did db in
          (let! trust := fails_with "seed trust registry: " trust in
           let! (gm, vm, registerer) := create_metrics env registerer in
           Ok (mkVerifier cfg (PGTenantStore.GetTenant None db) signer did
                 (bool_decide (fa_metricsType (NewFactoryFromEnv env) = PrometheusMetrics)),
               mkVerifierState trust db MemoryRequests.NewMemoryRequestStore (select_cache cfg env) (select_limiter cfg env),
               (gm, vm, registerer), store), db)
      end
  end.
End start.

(** ** What a start changes *)

Section starts.
Context `{Json (gmap string gval)} `{!JsonLaw (gmap string gval) (fun m => json_safe (VObj m)) (fmap json_image)}.
Context (Htext : forall m s, json_marshal (m : gmap string gval) = Ok s -> s <> "").
Context {K : Type} `{KeyStore K}.
Context {R V F : Type} `{Prometheus R V F} {D : Type} `{Redis D, SortedSets D}.

#[local] Abbreviation state := (VerifierState trust_store Database MemoryRequests.MemoryRequestStore
  (server_cache D) (server_limiter D)).

(** No statement fails. *)
Definition works (_ : nat) : option error := None.

(** The demonstration policy under the id it gets. *)
Definition demo_copy (tenant : string) (id : Z) (created : time) : Policy := with_stamp id created created (default_policy tenant).

(** The id that comes next is free. *)
Definition database_ok (db : Database) : Prop :=
  map_Forall row_ok (tb_policies db) /\ forall id, is_Some (tb_policies db !! id) -> (id < tb_next db)%Z.

Lemma demo_portable tenant : tenant <> "" -> sql_text tenant = true -> portable (default_policy tenant).
Proof.
  intros Hne Ht. split; [done|]. split; [|do 3 (split; [done|]); split; apply fmap_empty].
  unfold storable. cbn [default_policy p_TenantID p_Name p_Description p_Effect p_Actions p_Resources p_Subjects p_Priority elems default app forallb].
  by rewrite Ht.
Qed.

(** The row that is added reads back as the policy. *)
Lemma demo_inserted db created tenant :
  tenant <> "" -> sql_text tenant = true -> (tb_next db <= max_int32)%Z ->
  exists text, PGStore.CreatePolicy None db created (Some (default_policy tenant))
      = (Ok (demo_copy tenant (tb_next db) created),
         with_policies db (<[tb_next db := mkRow (demo_copy tenant (tb_next db) created) text]> (tb_policies db)) (tb_next db + 1))
    /\ PGStore.read_row (mkRow (demo_copy tenant (tb_next db) created) text) = Ok (demo_copy tenant (tb_next db) created).
Proof.
  intros Hne Ht Hroom. destruct (read_written Htext (default_policy tenant) created created (tb_next db) (demo_portable _ Hne Ht))
    as (text & Hm & Hr). exists text. split; [|exact Hr].
  unfold PGStore.CreatePolicy. rewrite Hm. by rewrite (proj2 (Z.ltb_ge _ _)) by lia.
Qed.

(** A start that succeeds, on a database that works. *)
Theorem database_start cfg env seeded created (store : K) d (reg : R) db v (s : state)
    (ms : GatewayMetrics V * VerifierMetrics V * R) store' db' :
  sql_text (vf_DefaultTenantID cfg) = true -> (tb_next db <= max_int32)%Z ->
  NewDatabaseServer cfg env (Ok tt) works seeded created store d reg db = (Ok (v, s, ms, store'), db') ->
  let tenant := vf_DefaultTenantID cfg in
  tenant <> "" /\ v_policies s = db'
  /\ GetSigningKey store d tenant = (Ok (ve_signer v), store')
  /\ DIDFromPublicKey (signer_Public (ve_signer v)) = Ok (ve_issuerDID v)
  /\ tb_tenants db' = <[tenant := mkTenant tenant "default" true
       (match tb_tenants db !! tenant with Some old => t_CreatedAt old | None => seeded end) seeded]> (tb_tenants db)
  /\ (exists text, tb_policies db' = <[tb_next db := mkRow (demo_copy tenant (tb_next db) created) text]> (tb_policies db)
        /\ PGStore.read_row (mkRow (demo_copy tenant (tb_next db) created) text) = Ok (demo_copy tenant (tb_next db) created))
  /\ tb_next db' = (tb_next db + 1)%Z
  /\ tb_issuers db' = (if vf_UseDBTrustRegistry cfg then <[(tenant, ve_issuerDID v) := "{}"]> (tb_issuers db) else tb_issuers db)
  /\ tb_audit db' = tb_audit db
  /\ (forall t i, IsTrustedIssuer (v_trust s) t i = Ok true <->
        (t = tenant /\ i = ve_issuerDID v) \/ (vf_UseDBTrustRegistry cfg = true /\ is_Some (tb_issuers db !! (t, i)))).
Proof.
  unfold NewDatabaseServer, works. intros Hsql Hroom. cbv zeta. set (tenant := vf_DefaultTenantID cfg) in *.
  unfold PGTenantStore.UpsertTenant. cbn [t_ID t_CreatedAt t_Name t_Enabled fails_with map_err sql rbind].
  destruct (decide (tenant = "")) as [->|Hne]; [done|]. rewrite bool_decide_eq_false_2 by done. cbn [map_err rbind].
  set (db1 := with_tenants db _). cbn [fails_with map_err]. destruct (demo_inserted db1 created tenant Hne Hsql Hroom) as (text & -> & Hread).
  cbn [snd]. set (db2 := with_policies db1 _ _). destruct (service_identity tenant store d) as [[[signer did]|f] store1] eqn:Hid; [|done].
  unfold service_identity in Hid. destruct (GetSigningKey store d tenant) as [key store2] eqn:Hkey. injection Hid as Hid <-.
  bind_inv Hid as sg Hsg. bind_inv Hid as di Hdi. injection Hid as <- <-. unfold fails_with in Hsg, Hdi. ok_simp Hsg. ok_simp Hdi. subst key.
  destruct (seed_trust cfg None di db2) as [trust db3] eqn:Hseed. intros [= Hok Hdb]. subst db'.
  bind_inv Hok as trust' Htr. bind_inv Hok as [[gm vm] r'] Hms. injection Hok as <- <- _ <-. cbn [ve_signer ve_issuerDID v_trust v_policies].
  unfold fails_with in Htr. ok_simp Htr. subst trust.
  split; [done|]. split; [done|]. split; [done|]. split; [done|].
  unfold seed_trust in Hseed. fold tenant in Hseed. destruct (vf_UseDBTrustRegistry cfg).
  - cbn in Hseed. injection Hseed as <- <-. cbn [tb_tenants tb_policies tb_next tb_issuers tb_audit with_issuers db2 db1 with_policies with_tenants].
    split; [done|]. split; [by exists text|]. split; [done|]. split; [done|]. split; [done|].
    intros t i. cbn [IsTrustedIssuer either_trust]. cbn. unfold PGTrustRegistry.IsTrustedIssuer. cbn.
    split.
    + intros [= Hb]. apply bool_decide_eq_true in Hb. destruct (decide ((tenant, di) = (t, i))) as [[= <- <-]|Hn]; [by left|].
      rewrite lookup_insert_ne in Hb by done. by right.
    + intros Hor. f_equal. apply bool_decide_eq_true. destruct (decide ((tenant, di) = (t, i))) as [[= <- <-]|Hn].
      * rewrite lookup_insert_eq. by eexists.
      * rewrite lookup_insert_ne by done. destruct Hor as [[-> ->]|[_ ?]]; done.
  - injection Hseed as Hm <-. cbn [tb_tenants tb_policies tb_next tb_issuers tb_audit db2 db1 with_policies with_tenants].
    split; [done|]. split; [by exists text|]. split; [done|]. split; [done|]. split; [done|].
    intros t i. destruct (add_trusted_law MemoryTrust.NewMemoryTrustRegistry tenant di) as (m' & Hadd & Hset).
    injection Hadd as Hm'. rewrite Hm' in Hm. subst trust'. cbn [IsTrustedIssuer either_trust].
    change (IsTrustedIssuer (TrustInMemory m') t i) with (IsTrustedIssuer m' t i). rewrite (is_trusted_law m' t i), Hset.
    split.
    + intros [= Hb]. apply bool_decide_eq_true in Hb. left. case_decide as Ht.
      * split; [done|]. apply elem_of_union in Hb as [Hb|Hb]; [by apply elem_of_singleton in Hb|exfalso].
        exact (not_elem_of_empty (C := gset string) _ Hb).
      * exfalso. exact (not_elem_of_empty (C := gset string) _ Hb).
    + intros [[-> ->]|[? _]]; [|done]. rewrite decide_True by done. f_equal. apply bool_decide_eq_true, elem_of_union_l.
      by apply elem_of_singleton.
Qed.

(** ** What comes back *)

(** A successful start. *)
Definition started (cfg : VerifierConfig) (db db' : Database) : Prop :=
  exists env seeded created (store : K) d (reg : R) v (s : state) (ms : GatewayMetrics V * VerifierMetrics V * R) store',
    NewDatabaseServer cfg env (Ok tt) works seeded created store d reg db = (Ok (v, s, ms, store'), db').

(** The demonstration policies of a tenant. *)
Definition copies (tenant : string) (db : Database) : nat :=
  size (filter (fun kv : Z * policy_row => p_TenantID (pr_policy kv.2) = tenant /\ p_Name (pr_policy kv.2) = "demo-read-orders")
          (tb_policies db)).

Lemma free_id db : database_ok db -> tb_policies db !! tb_next db = None.
Proof. intros [_ Hn]. destruct (tb_policies db !! tb_next db) eqn:Hr; [|done]. pose proof (Hn _ (mk_is_Some _ _ Hr)). lia. Qed.

Lemma database_ok_start cfg db db' :
  sql_text (vf_DefaultTenantID cfg) = true -> (tb_next db <= max_int32)%Z -> database_ok db -> started cfg db db' ->
  database_ok db' /\ tb_next db' = (tb_next db + 1)%Z /\ copies (vf_DefaultTenantID cfg) db' = S (copies (vf_DefaultTenantID cfg) db).
Proof.
  intros Hsql Hroom Hok (env & seeded & created & store & d & reg & v & s & ms & store' & Hs).
  pose proof (free_id _ Hok) as Hfree.
  destruct (database_start _ _ _ _ _ _ _ _ _ _ _ _ _ Hsql Hroom Hs) as (Hne & _ & _ & _ & _ & (text & Hp & Hread) & Hn & _).
  split; [|split; [done|]].
  - split.
    + rewrite Hp. apply map_Forall_insert_2; [|apply Hok]. split; [|by split]. unfold row_policy. by rewrite Hread.
    + intros id [r Hr]. rewrite Hp in Hr. rewrite Hn. apply lookup_insert_Some in Hr as [[<- _]|[_ Hr]]; [lia|].
      pose proof (proj2 Hok _ (mk_is_Some _ _ Hr)). lia.
  - unfold copies. rewrite Hp, map_filter_insert_True by done. rewrite map_size_insert_None; [done|].
    apply map_lookup_filter_None. by left.
Qed.

(** Every start adds a copy of the demonstration policy: after n of them there are n more. *)
Theorem starts_pile_up cfg n db db' :
  sql_text (vf_DefaultTenantID cfg) = true -> database_ok db -> nsteps (started cfg) n db db' ->
  (tb_next db + Z.of_nat n <= max_int32 + 1)%Z ->
  copies (vf_DefaultTenantID cfg) db' = (n + copies (vf_DefaultTenantID cfg) db)%nat.
Proof.
  intros Hsql Hok Hn. induction Hn as [db|n db db1 db' Hstep _ IH]; intros Hroom; [done|].
  destruct (database_ok_start cfg db db1 Hsql ltac:(lia) Hok Hstep) as (Hok1 & Hnext & Hc). rewrite IH by (done || lia). lia.
Qed.

(** The policies the tenant has after a start. *)
Lemma listed_after cfg env seeded created (store : K) d (reg : R) db v (s : state)
    (ms : GatewayMetrics V * VerifierMetrics V * R) store' db' :
  sql_text (vf_DefaultTenantID cfg) = true -> (tb_next db <= max_int32)%Z -> database_ok db ->
  NewDatabaseServer cfg env (Ok tt) works seeded created store d reg db = (Ok (v, s, ms, store'), db') ->
  let tenant := vf_DefaultTenantID cfg in
  exists old new, PGStore.ListPoliciesForTenant None db tenant = Ok old
    /\ ListPoliciesForTenant (v_policies s) tenant = Ok new
    /\ forall p, p ∈ new <-> p ∈ old \/ p = demo_copy tenant (tb_next db) created.
Proof.
  cbv zeta. intros Hsql Hroom Hok Hs. pose proof (free_id _ Hok) as Hfree.
  assert (Hok' : database_ok db') by (eapply database_ok_start; [done..|do 10 eexists; exact Hs]).
  destruct (database_start _ _ _ _ _ _ _ _ _ _ _ _ _ Hsql Hroom Hs) as (Hne & -> & _ & _ & _ & (text & Hp & Hread) & _).
  do 2 eexists. split; [apply pg_list_rows, Hok|]. split; [apply (pg_list_rows db'), Hok'|]. intros p.
  rewrite !list_elem_of_fmap. setoid_rewrite elem_of_sorted_rows. rewrite Hp. split.
  - intros (r & -> & id & Hr & Ht). apply lookup_insert_Some in Hr as [[_ <-]|[_ Hr]]; [right|left].
    + unfold row_policy. by rewrite Hread.
    + exists r. split; [done|]. by exists id.
  - intros [(r & -> & id & Hr & Ht)| ->].
    + exists r. split; [done|]. exists id. split; [|done]. rewrite lookup_insert_ne; [done|]. congruence.
    + eexists. split; [|exists (tb_next db); rewrite lookup_insert_eq; by split]. unfold row_policy. by rewrite Hread.
Qed.

Context `{Unicode}.

Lemma demo_applies tenant id created input :
  in_Action input = "read" -> in_Resource input = "orders" -> applicable input (demo_copy tenant id created).
Proof.
  intros Ha Hr. split; [unfold applies; by rewrite Ha, Hr|]. intros key val Hk. change ((∅ : gmap string gval) !! key = Some val) in Hk. by apply lookup_empty_Some in Hk.
Qed.

(** C19: A start opens the orders again.  A verifier on a database adds the demonstration policy
    whenever it starts, whatever an administrator did before: afterwards reading orders is
    allowed to every subject unless some policy of the tenant denies it, so deleting or
    disabling the policy, or deleting every policy there is, lasts until the next start. *)
Theorem restart_reopens order cfg env seeded created (store : K) d (reg : R) db v (s : state)
    (ms : GatewayMetrics V * VerifierMetrics V * R) store' db' input r :
  sql_text (vf_DefaultTenantID cfg) = true -> (tb_next db <= max_int32)%Z -> database_ok db ->
  NewDatabaseServer cfg env (Ok tt) works seeded created store d reg db = (Ok (v, s, ms, store'), db') ->
  iterates order -> in_TenantID input = vf_DefaultTenantID cfg -> in_Action input = "read" -> in_Resource input = "orders" ->
  EngineV1_Evaluate order (Some (ListPoliciesForTenant (v_policies s))) input = Ok r ->
  exists old, PGStore.ListPoliciesForTenant None db (vf_DefaultTenantID cfg) = Ok old
    /\ (er_Allow r = true <-> forall p, p ∈ old -> applicable input p -> Policy.is_deny p = false)
    /\ (old = [] -> r = mkResult true "policy_allow" (Some (tb_next db))).
Proof.
  intros Hsql Hroom Hok Hs Ho Ht Ha Hr He.
  destruct (listed_after _ _ _ _ _ _ _ _ _ _ _ _ _ Hsql Hroom Hok Hs) as (old & new & Hold & Hnew & Hin).
  exists old. split; [done|]. unfold EngineV1_Evaluate in He. rewrite Ht, Hnew in He. cbn [map_err rbind] in He.
  bind_inv He as matching Hm. injection He as <-. apply filterMatchingPolicies_Ok in Hm as ->.
  set (demo := demo_copy (vf_DefaultTenantID cfg) (tb_next db) created) in *.
  set (matching := filter _ new). pose proof (decide_matching_decided matching) as Hd.
  assert (Helem : forall p, p ∈ matching <-> (p ∈ old \/ p = demo) /\ applicable input p).
  { intros p. unfold matching. rewrite list_elem_of_filter, match_policy_true, Hin by done. tauto. }
  assert (Hdemo : demo ∈ matching) by (apply Helem; split; [by right|by apply demo_applies]).
  split.
  - rewrite (decided_allows _ _ Hd). split.
    + intros [_ Hno] p Hp Happ. apply Hno, Helem. by split; [left|].
    + intros Hno. split; [by exists demo|]. intros p [[Hp| ->] Happ]%Helem; [by apply Hno|done].
  - intros ->. change (tb_next db) with (p_ID demo). eapply decided_unique; [exact Hd|]. apply decided_allow; [|done|done|].
    + intros q [[Hq%not_elem_of_nil| ->] _]%Helem; done.
    + intros q [[Hq%not_elem_of_nil| ->] _]%Helem _; [done|]. right. split; [done|lia].
Qed.
End starts.

(** ** Instances *)

Import MapRegistry.

Definition db_config : VerifierConfig :=
  mkVerifierConfig "8081" "acme" "postgres://db" true "single" "info" false false "" "" 0 262144 true 5 2048 false.

(** An administrator has deleted the policies. *)
Definition emptied : Database := mkDatabase ∅ ∅ ∅ 3 [].

Definition second_start :=
  NewDatabaseServer (R := registry) (V := string * string) (F := Z) (D := redis_server) db_config (fun _ => "") (Ok tt) works
    t0 t0 NewMemoryKeyStore (draw_key bob_key "1") ∅ emptied.

Definition read_orders : EvaluationInput := mkInput "acme" "did:ex:anybody" "" [] None "orders" "read" None.

Lemma object_text (m : gmap string gval) s : json_marshal m = Ok s -> s <> "".
Proof. intros Hm Hs. rewrite Hs in Hm. discriminate Hm. Qed.

Lemma emptied_ok : database_ok emptied.
Proof. split; [apply map_Forall_empty|]. intros id [r Hr]. discriminate Hr. Qed.

Lemma restart_reopens_witness :
  (exists v s ms store db', second_start = (Ok (v, s, ms, store), db')
    /\ EngineV1_Evaluate map_to_list (Some (ListPoliciesForTenant (v_policies s))) read_orders
       = Ok (mkResult true "policy_allow" (Some 3%Z)))
  /\ PGStore.ListPoliciesForTenant None emptied "acme" = Ok [].
Proof.
  split; [|reflexivity].
  assert (Hx : match second_start with
    | (Ok (_, s, _, _), _) =>
        is_ok (EngineV1_Evaluate map_to_list (Some (ListPoliciesForTenant (v_policies s))) read_orders)
    | _ => false
    end = true) by (vm_compute; reflexivity).
  destruct second_start as [[[[[v s] ms] store]|e] db'] eqn:Hs; [|discriminate Hx].
  destruct (EngineV1_Evaluate map_to_list (Some (ListPoliciesForTenant (v_policies s))) read_orders) as [r|e] eqn:He;
    [|discriminate Hx].
  destruct (restart_reopens object_text map_to_list db_config (fun _ => "") t0 t0 NewMemoryKeyStore (draw_key bob_key "1")
    (∅ : registry) emptied v s ms store db' read_orders r) as (old & Hold & _ & Hr).
  - reflexivity.
  - vm_compute. discriminate.
  - apply emptied_ok.
  - exact Hs.
  - apply iterates_map_to_list.
  - reflexivity.
  - reflexivity.
  - reflexivity.
  - exact He.
  - exists v, s, ms, store, db'. split; [reflexivity|].
    cbn in Hold. injection Hold as <-. rewrite He, (Hr eq_refl). reflexivity.
Defined.
