(* ===== verification/EndToEnd.v ===== *)
(** * From the issuer to the verifier.

    The two services together: a credential that the issuer service hands out is accepted by
    the verifier service, request to request. *)

From S2P Require Import Prelude GoStrings Base64 GoTime Errors Values GoFmt Crypto Credential Instances.
From S2P Require Import Delegation SDJwt Verify VerifyFacts Issue IssueFacts ChainExample IssuancePolicy.
From S2P Require Import Policy PolicyStore Config Http Mux Tenant Server Trust Did Gateway GatewayProps Keys.
From S2P Require Import KeysProps Issuer IssuerProps Admin AdminProps PolicyAdmin Oidc4vp Oidc4vpEndpoint.
From S2P Require Import VerifierServer VerifierServerProps VerifierServerRuns IssuerServer.
From Stdlib Require Import ZArith Ascii String Lia.
From stdpp Require Import gmap list strings.

Local Open Scope string_scope.

Section issuer.
Context `{Json (gmap string gval), Json (list gval), Json VCJWTPayload, Json VerifiableCredential,
  Sha256, Ed25519, Rfc3339, Unicode, Pkcs8}.
Context `{BodyDecoder KeygenRequest, BodyDecoder IssueRequest, BodyDecoder DelegateRequest,
  BodyDecoder BootstrapRequest}.
Context {K : Type} `{KeyStore K}.
Context (cfg : IssuerConfig) (tenants : TenantStore) (a : issuer_visit) (r : request string) (s : K) (t : Tenant).

Definition issuer_admits : Prop :=
  resolves_to (issuer_resolver cfg tenants) (iv_arrival a) (with_context background r) t.

(** The request as a route of the issuer sees it. *)
Definition issuer_view : request string := admitted (iv_arrival a) (t_ID t) (with_context background r).

Hypothesis Hadm : issuer_admits.
Hypothesis Hok : tenants_ok tenants.

Lemma issuer_exact_tenant :
  extractTenantID r = r_Header r "X-Tenant-ID" ->
  tenant_or_default issuer_view (ic_DefaultTenantID cfg) = t_ID t.
Proof.
  intros He. apply (admitted_tenant _ (issuer_resolver cfg tenants)); [|done|done|exact He].
  cbn. intros get [= <-]. by apply GetTenant_ok.
Qed.

Lemma issuer_admitted (route : issuer_route) :
  mux_serve (issuer_mux cfg a) issuer_view s = route issuer_view s ->
  let o := issuer_handler cfg tenants a (with_context background r) s in
  out_state o = out_state (route issuer_view s)
  /\ rs_Status (out_response o) = rs_Status (out_response (route issuer_view s))
  /\ rs_Body (out_response o) = rs_Body (out_response (route issuer_view s)).
Proof.
  intros <-. unfold issuer_handler. cbv zeta.
  destruct (shell_cases (iv_arrival a) (issuer_resolver cfg tenants) (mux_serve (issuer_mux cfg a))
    (with_context background r) s) as [(t' & Ht' & Hs)|(Hn & _)]; [|by destruct (Hn t)].
  assert (t' = t) as -> by (unfold issuer_admits, resolves_to in *; congruence). exact Hs.
Qed.

Lemma at_issue :
  r_Path r = "/v1/credentials/issue" ->
  mux_serve (issuer_mux cfg a) issuer_view s
  = mount id (fun s _ => s) Issued (handleIssue cfg (audited cfg) (iv_decode_error a) (iv_issuance a)) issuer_view s.
Proof.
  intros Hp. rewrite mux_serve_found; change (r_Path issuer_view) with (r_Path r); rewrite Hp; [reflexivity| |reflexivity].
  unfold routed_path. change (r_Path issuer_view) with (r_Path r). rewrite Hp. by destruct (bool_decide _).
Qed.
End issuer.

Section verifier.
Context `{Json (gmap string gval), Json (gmap string (list string)), Json (list gval), Json VCJWTPayload,
  Json VerifiableCredential, Json GatewayAuthorizeResponse, Sha256, Ed25519, Rfc3339, FloatFormat, Unicode, Pkcs8}.
Context `{!JsonLaw (gmap string gval) (fun m => json_safe (VObj m)) (fmap json_image)}.
Context `{!JsonLaw VCJWTPayload payload_safe payload_image}.
Context `{BodyDecoder VerifyRequest, BodyDecoder form, BodyDecoder GatewayAuthorizeRequest,
  BodyDecoder AddTrustedIssuerRequest, BodyDecoder PolicyRequest}.
Context `{BodyDecoder KeygenRequest, BodyDecoder IssueRequest, BodyDecoder DelegateRequest,
  BodyDecoder BootstrapRequest}.
Context {T P Q C L : Type}
  `{TrustRegistryLaws T, PolicyStore P, RequestStore Q, DecisionCache C, Limiter L}.
Context {K : Type} `{KeyStore K}.

(** A request that presents [token], and nothing else, for verification. *)
Definition presents (r : request string) (token : string) : Prop :=
  r_Path r = "/v1/credentials/verify" /\ r_Method r = "POST"
  /\ r_Body r ≫= decode_body = Some (mkVerifyRequest token [] "" [] "").

Lemma presented_single {R} token :
  token <> "" -> presented_tokens (R := R) (mkVerifyRequest token [] "" [] "") = Ok [token].
Proof. intros Hne. unfold presented_tokens. cbn. by rewrite (bool_decide_eq_false_2 (token = "") Hne). Qed.

(** A credential that verifies alone is a chain of one, also for the audience it names. *)
Lemma VerifyCredential_chain token resolve now c audience d :
  VerifyCredential token (mkDeps (Some resolve)) "" now = Ok c -> for_audience audience c -> (0 <= d)%Z ->
  token <> "" /\ VerifyCredentialChain [token] (mkDeps (Some resolve)) (mkOptions audience d) now = Ok (chain_result [c]).
Proof.
  intros Hv Ha Hd. split; [intros ->; by vm_compute in Hv|]. unfold VerifyCredential in Hv. bind_inv Hv as cr Hcr. ok_simp Hv.
  apply VerifyCredentialChain_Ok in Hcr as (cs & Hne & Hall & Hlk & _ & ->).
  destruct cs as [|c' [|]]; cbn in Hall; [done| |by destruct Hall as [_ []]]. cbn in Hv. injection Hv as ->.
  apply VerifyCredentialChain_Ok. exists [c]. split; [done|]. split.
  { cbn. destruct Hall as [Hc _]. split; [|done]. by apply verifySingleCredential_audience. }
  split; [done|]. split; [|done].
  unfold depth_within, max_depth. right. cbn [MaxDelegationDepth length]. destruct (d =? 0)%Z; lia.
Qed.

Lemma handleVerify_accepts resolver dflt now logged r (reg : T) token c :
  r_Method r = "POST" -> r_Body r = Some (mkVerifyRequest token [] "" [] "") ->
  VerifyCredential token (mkDeps (Some (trusted_resolver (Some reg) (tenant_or_default r dflt) resolver))) "" now = Ok c ->
  out_response (handleVerify resolver dflt now logged r (Some reg))
  = respond 200 (mkVerifyResponse true (vc_Subject c) (vc_Issuer c) (vc_ExpiresAt c) (vc_Subject c) 0 APIVersion).
Proof.
  intros Hm Hb Hv. destruct (VerifyCredential_chain _ _ _ _ "" 3 Hv) as [Hne Hc]; [by intros []|lia|].
  unfold handleVerify. rewrite Hm, Hb, bool_decide_eq_true_2 by done. cbn [negb].
  rewrite presented_single by done. cbn [vq_ExpectedAudience]. rewrite Hc. reflexivity.
Qed.

(** The answer to a credential that verifies. *)
Lemma verify_accepts v a r (s : VerifierState T P Q C L) t token c :
  lookup_ok (ve_tenants v) -> admits v a r t -> presents r token ->
  VerifyCredential token
    (mkDeps (Some (trusted_resolver (Some (v_trust s)) (t_ID t) (Some (server_resolver v a (v_trust s))))))
    "" (vi_verify a) = Ok c ->
  answers v a r s 200 (Body (Verified (mkVerifyResponse true (vc_Subject c) (vc_Issuer c) (vc_ExpiresAt c)
                                         (vc_Subject c) 0 APIVersion))).
Proof.
  intros Hlk Ha (Hp & Hm & Hb) Hv. destruct (ServeHTTP_admitted v a r s t Ha) as [_ Hans].
  rewrite (at_verify v a (tenant_view a r t) s Hp) in Hans. unfold verify_route in Hans. rewrite mount_eq in Hans.
  cbn [out_response out_state fst snd] in Hans.
  rewrite (handleVerify_accepts _ _ _ _ (decoded (tenant_view a r t)) _ token c Hm Hb) in Hans; [by apply Hans|].
  change (tenant_or_default (decoded ?r') ?d) with (tenant_or_default r' d).
  by rewrite (exact_path_tenant v a r t Hlk Ha (header_or_path _ _ Hp eq_refl)).
Qed.

(** What the issuer service hands out for a request that passes its checks, with a key that
    signs: a credential that verifies wherever that key is the issuer's. *)
Lemma issued_credential cfg tenants ai ri (k0 : K) ti req ttl m signed ds sg k did s' resolve now :
  let p := basic_payload (i_now (iv_issuance ai)) (i_uuid (iv_issuance ai)) did (iq_SubjectDID req) ttl (Some signed) in
  tenants_ok tenants -> issuer_admits cfg tenants ai ri ti ->
  r_Path ri = "/v1/credentials/issue" -> r_Method ri = "POST" -> r_Body ri ≫= decode_body = Some req ->
  issue_checks (R := IssueResponse) cfg req = Ok (ttl, m) -> signs (iv_issuance ai) (issue_format req) m signed ds ->
  GetSigningKey k0 (i_keys (iv_issuance ai)) (t_ID ti) = (Ok sg, s') -> signer_ok sg k ->
  DIDFromPublicKey (PubEd25519 k) = Ok did -> ValidateDID did = Ok tt ->
  payload_safe p = true -> payload_safe (with_format (payload_image p) (issue_format req)) = true ->
  resolve did = Ok (PubEd25519 k) -> within_life (i_now (iv_issuance ai)) ttl now ->
  exists token c, (let o := issuer_handler cfg tenants ai (with_context background ri) k0 in
      rs_Status (out_response o) = 200%Z /\ out_state o = s'
      /\ rs_Body (out_response o) = Body (Issued (mkIssueResponse token ds (issue_format req) APIVersion)))
    /\ VerifyCredential token (mkDeps (Some resolve)) "" now = Ok c
    /\ vc_Issuer c = did /\ vc_Subject c = iq_SubjectDID req /\ vc_Claims c = map_image (Some signed)
    /\ utf8_valid token = true.
Proof.
  cbv zeta. intros Htn Hai Hp Hm Hb Hc Hf Hg Hsg Hdid Hvd Hsafe Hsafe' Hres Hl.
  pose proof (issuer_exact_tenant cfg tenants ai ri ti Hai Htn (header_or_path _ _ Hp eq_refl)) as Hten.
  destruct (issue_endpoint_roundtrip cfg (audited cfg) (iv_decode_error ai) (iv_issuance ai)
    (decoded (issuer_view ai ri ti)) k0 req ttl m signed ds sg k did s' resolve now)
    as (token & c & es & Hh & Hv & Hrest); try done.
  { by rewrite <- Hten in Hg. }
  exists token, c. split; [|done].
  destruct (issuer_admitted cfg tenants ai ri k0 ti Hai _ (at_issue cfg ai ri k0 ti Hp)) as (-> & -> & ->).
  rewrite mount_eq. cbn [out_response out_state fst snd id]. by rewrite Hh.
Qed.

(** A key that is trusted, for the default tenant and for that of a request, is found. *)
Lemma trusted_key v a (reg : T) t did k :
  did ∈ trusted_set reg (default_tenant v) -> did ∈ trusted_set reg t -> vi_resolve a did = Ok (PubEd25519 k) ->
  trusted_resolver (Some reg) t (Some (server_resolver v a reg)) did = Ok (PubEd25519 k).
Proof.
  intros Htr Htr' Hres. unfold trusted_resolver. rewrite is_trusted_law. cbn [map_err rbind].
  rewrite bool_decide_eq_true_2 by done. cbn [negb of_option rbind]. by apply server_resolver_Ok.
Qed.

(** From one service to the other.  A request to the issuer service that passes its
    checks, for a tenant whose key signs, is answered with a token; and whenever the verifier
    service trusts the key's DID, for the default tenant and for the tenant of the request,
    it answers a request that presents the token, during the life of the credential, that it
    is valid, for the subject the issuer was asked for. *)
Theorem issued_then_verified cfg tenants ai ri (k0 : K) ti req ttl m signed ds sg k did s' v a t (s : VerifierState T P Q C L) :
  let p := basic_payload (i_now (iv_issuance ai)) (i_uuid (iv_issuance ai)) did (iq_SubjectDID req) ttl (Some signed) in
  tenants_ok tenants -> issuer_admits cfg tenants ai ri ti ->
  r_Path ri = "/v1/credentials/issue" -> r_Method ri = "POST" -> r_Body ri ≫= decode_body = Some req ->
  issue_checks (R := IssueResponse) cfg req = Ok (ttl, m) -> signs (iv_issuance ai) (issue_format req) m signed ds ->
  GetSigningKey k0 (i_keys (iv_issuance ai)) (t_ID ti) = (Ok sg, s') -> signer_ok sg k ->
  DIDFromPublicKey (PubEd25519 k) = Ok did -> ValidateDID did = Ok tt ->
  payload_safe p = true -> payload_safe (with_format (payload_image p) (issue_format req)) = true ->
  lookup_ok (ve_tenants v) -> did ∈ trusted_set (v_trust s) (default_tenant v) -> did ∈ trusted_set (v_trust s) (t_ID t) ->
  vi_resolve a did = Ok (PubEd25519 k) -> within_life (i_now (iv_issuance ai)) ttl (vi_verify a) ->
  exists token, (let o := issuer_handler cfg tenants ai (with_context background ri) k0 in
      rs_Status (out_response o) = 200%Z /\ out_state o = s'
      /\ rs_Body (out_response o) = Body (Issued (mkIssueResponse token ds (issue_format req) APIVersion)))
    /\ forall r, admits v a r t -> presents r token ->
         exists exp, answers v a r s 200 (Body (Verified (mkVerifyResponse true (iq_SubjectDID req) did exp
                                                            (iq_SubjectDID req) 0 APIVersion))).
Proof.
  cbv zeta. intros Htn Hai Hp Hm Hb Hc Hf Hg Hsg Hdid Hvd Hsafe Hsafe' Hlk Htr Htr' Hres Hl.
  destruct (issued_credential cfg tenants ai ri k0 ti req ttl m signed ds sg k did s'
    (trusted_resolver (Some (v_trust s)) (t_ID t) (Some (server_resolver v a (v_trust s)))) (vi_verify a))
    as (token & c & Hh & Hv & Hci & Hcs & _); try done.
  { by apply trusted_key. }
  exists token. split; [exact Hh|].
  intros r Ha Hpr. exists (vc_ExpiresAt c). rewrite <- Hci, <- Hcs. by eapply verify_accepts.
Qed.
End verifier.

(** ** Instances *)

(** A verify request whose body is the token. *)
#[local] Instance raw_decoder : BodyDecoder VerifyRequest := fun b => Some (mkVerifyRequest b [] "" [] "").
#[local] Existing Instances form_decoder gateway_decoder trust_decoder policy_decoder.
#[local] Existing Instances Memory.memory_ops Memory.memory_laws.
#[local] Instance keygen_decoder : BodyDecoder KeygenRequest := only "keygen" (mkKeygenRequest "" false).
#[local] Instance issue_decoder : BodyDecoder IssueRequest := fun text =>
  if bool_decide (text = "issue") then Some (bob_request 60)
  else if bool_decide (text = "issue sd-jwt") then Some (mkIssueRequest "did:ex:bob" 60 (Some scope_claims) "sd-jwt")
  else None.
#[local] Instance delegate_decoder : BodyDecoder DelegateRequest := only "delegate" (mkDelegateRequest "" "" [] 0).
#[local] Instance bootstrap_decoder : BodyDecoder BootstrapRequest := only "bootstrap" (mkBootstrapRequest "").

(** The verifier trusts the DID of alice's key. *)
Definition trusts_alice : VerifierState MemoryTrust.MemoryTrustRegistry Memory.MemoryStore
    MemoryRequests.MemoryRequestStore unit unit :=
  mkVerifierState (MemoryTrust.mkRegistry {["acme" := {[alice_did]}]}) Memory.NewMemoryStore
    MemoryRequests.NewMemoryRequestStore tt tt.

Definition calm_issuer (t : time) : issuer_visit :=
  mkIssuerVisit (mkArrival "cid" t 0 0) no_draw (issuance_at t) "" t t t "id".

Definition issuer_config : IssuerConfig :=
  mkIssuerConfig "8080" "acme" "single" "info" "" (mkIssuancePolicy 86400 ["read"; "write"] ["scope"]).

Definition issue_bob : request string := acme_request "/v1/credentials/issue" "issue" "" "".

Lemma issued_then_verified_witness :
  exists token exp, rs_Body (out_response (issuer_handler issuer_config acme_tenants (calm_issuer t0)
                      (with_context background issue_bob) alice_store))
                    = Body (Issued (mkIssueResponse token [] "jwt-vc" APIVersion))
    /\ answers (acme_server "single") (calm (t0 + 5 * second)%Z)
         (acme_request "/v1/credentials/verify" token "" "") trusts_alice 200
         (Body (Verified (mkVerifyResponse true "did:ex:bob" alice_did exp "did:ex:bob" 0 APIVersion))).
Proof.
  destruct (issued_then_verified issuer_config acme_tenants (calm_issuer t0) issue_bob alice_store acme_tenant
    (bob_request 60) minute scope_claims scope_claims [] alice alice_key alice_did alice_store (acme_server "single")
    (calm (t0 + 5 * second)%Z) acme_tenant trusts_alice) as (token & (_ & _ & Hb) & Hv).
  1: apply map_Forall_insert_2; [done|]; apply map_Forall_insert_2; [done|apply map_Forall_empty].
  1: vm_compute; reflexivity.
  1-3: reflexivity.
  1: vm_compute; reflexivity.
  1: by split.
  1: reflexivity.
  1: apply plain_signer_ok.
  1: apply alice_did_eq.
  1-3: vm_compute; reflexivity.
  1: apply acme_lookup.
  1, 2: cbn; set_solver.
  1: reflexivity.
  1: unfold within_life, civil_time; repeat split; vm_compute; congruence.
  destruct (Hv (acme_request "/v1/credentials/verify" token "" "")) as [exp He].
  1: vm_compute; reflexivity.
  1: repeat split; reflexivity.
  exists token, exp. split; [exact Hb|exact He].
Defined.
