(* ===== verification/RemoteSigners.v ===== *)
(** * Signers behind a service.

    Models internal/crypto/vault_signer.go (HashiCorp Vault over HTTP) and kms_signer.go
    (Google Cloud KMS, through its client interface).  What Vault answers to the n-th request
    of a call is an argument, the KMS client is a class; map iteration takes its order as an
    argument. *)

From S2P Require Import Prelude GoStrings Base64 GoTime Errors Values Crypto Credential Instances.
From S2P Require Import Did Keys KeysProps Server Jwk JwkProps Oidc4vp.
From Stdlib Require Import ZArith Ascii String Lia.
From stdpp Require Import countable gmap list strings pretty.

Local Open Scope string_scope.

(** ** Vault *)

(** Source: internal/crypto/vault_signer.go, [VaultSigner]. *)
Record VaultSigner := mkVault {
  vt_vaultAddr : string;
  vt_vaultToken : string;
  vt_keyName : string;
  vt_mountPath : string;
  vt_keyVersion : Z;
  vt_publicKey : public_key;
  vt_initialized : bool;
}.

Record vault_request := mkVaultRequest {
  vr_Method : string;
  vr_URL : string;
  vr_Token : string;
  vr_Body : option string;
}.

(** The answer to a request: a status and a body. *)
Definition exchange : Type := vault_request -> result error (Z * string).

(** [data[k].(map[string]interface{})] *)
Definition object_member (m : gmap string gval) (k : string) : option (gmap string gval) :=
  match m !! k with Some (VObj o) => Some o | _ => None end.

Section vault.
Context `{Json (gmap string gval), BodyDecoder (gmap string gval), NewRequest}.
Variable order : map_order.

Definition key_url (v : VaultSigner) (verb : string) : string :=
  vt_vaultAddr v +:+ "/v1/" +:+ vt_mountPath v +:+ "/" +:+ verb +:+ "/" +:+ vt_keyName v.

(** [result] says whether the caller wants the answer.
    Source: internal/crypto/vault_signer.go, [VaultSigner.makeVaultRequest]. *)
Definition makeVaultRequest (v : VaultSigner) (net : exchange) (method url : string)
    (payload : option (gmap string gval)) (result_wanted : bool) : result error (gmap string gval) :=
  let! body :=
    match payload with
    | None => Ok None
    | Some p => let! s := map_err (fun e => ErrWrap "failed to marshal payload: " e "") (json_marshal p) in Ok (Some s)
    end in
  let! _ := map_err (fun e => ErrWrap "failed to create request: " e "") (new_request method url) in
  let! resp := map_err (fun e => ErrWrap "request failed: " e "") (net (mkVaultRequest method url (vt_vaultToken v) body)) in
  let '(status, text) := resp in
  stop! (400 <=? status)%Z with
    ErrText ("vault API error (status " +:+ pretty status +:+ "): " +:+ text) in
  if result_wanted then of_option (ErrText "failed to decode response") (decode_body text) else Ok ∅.

(** Source: internal/crypto/vault_signer.go, [VaultSigner.createKey]. *)
Definition createKey (v : VaultSigner) (net : exchange) : result error unit :=
  let! _ := makeVaultRequest v net "POST" (key_url v "keys") (Some {["type" := VStr "ed25519"]}) false in Ok tt.

(** Source: internal/crypto/vault_signer.go, [VaultSigner.getKeyInfo]. *)
Definition getKeyInfo (v : VaultSigner) (net : exchange) : result error (gmap string gval) :=
  let! response := makeVaultRequest v net "GET" (key_url v "keys") None true in
  of_option (ErrText "invalid response format") (object_member response "data").

(** The loop over the versions: the first one visited that has a public key.
    Source: internal/crypto/vault_signer.go:144-153, [VaultSigner.extractPublicKey]. *)
Definition first_public_key (keys : gmap string gval) : string :=
  default "" (head (omap (fun kv => match kv.2 with VObj o => string_member o "public_key" | _ => None end)
                      (order _ keys))).

(** Source: internal/crypto/vault_signer.go, [VaultSigner.extractPublicKey]. *)
Definition extractPublicKey (keyInfo : gmap string gval) : result error (public_key * Z) :=
  let! keys := of_option (ErrText "invalid key data structure") (object_member keyInfo "keys") in
  let publicKeyB64 := first_public_key keys in
  stop! bool_decide (publicKeyB64 = "") with ErrText "no public key found in key data" in
  let! publicKeyBytes := of_option (ErrText "failed to decode public key: illegal base64 data") (b64std_decode publicKeyB64) in
  stop! negb (String.length publicKeyBytes =? ed25519_public_key_size)%nat with
    ErrText ("invalid public key size: expected 32, got " +:+ pretty (String.length publicKeyBytes)) in
  Ok (PubEd25519 publicKeyBytes, 1%Z).

(** The three requests it can make, in their order, meet the answers of [net].
    Source: internal/crypto/vault_signer.go, [VaultSigner.initialize]. *)
Definition initialize (v : VaultSigner) (net : nat -> exchange) : result error VaultSigner :=
  if vt_initialized v then Ok v
  else
    let! keyInfo :=
      match getKeyInfo v (net 0%nat) with
      | Ok info => Ok info
      | Err err =>
          if contains_str (error_text err) "no key found" || contains_str (error_text err) "404" then
            let! _ := map_err (fun e => ErrWrap "failed to create Vault key: " e "") (createKey v (net 1%nat)) in
            map_err (fun e => ErrWrap "failed to get key info after creation: " e "") (getKeyInfo v (net 2%nat))
          else Err (ErrWrap "failed to get key info: " err "")
      end in
    let! pv := map_err (fun e => ErrWrap "failed to extract public key: " e "") (extractPublicKey keyInfo) in
    Ok (mkVault (vt_vaultAddr v) (vt_vaultToken v) (vt_keyName v) (vt_mountPath v) pv.2 pv.1 true).

(** Source: internal/crypto/vault_signer.go, [NewVaultSignerFromEnv]. *)
Definition NewVaultSignerFromEnv (env : string -> string) (net : nat -> exchange) : result error VaultSigner :=
  let required k := (bool_decide (env k = ""), ErrText (k +:+ " environment variable is required")) in
  stop! (required "VAULT_ADDR").1 with (required "VAULT_ADDR").2 in
  stop! (required "VAULT_TOKEN").1 with (required "VAULT_TOKEN").2 in
  stop! (required "VAULT_KEY_NAME").1 with (required "VAULT_KEY_NAME").2 in
  let mountPath := if bool_decide (env "VAULT_MOUNT_PATH" = "") then "transit" else env "VAULT_MOUNT_PATH" in
  map_err (fun e => ErrWrap "failed to initialize Vault signer: " e "")
    (initialize (mkVault (trim_suffix (env "VAULT_ADDR") "/") (env "VAULT_TOKEN") (env "VAULT_KEY_NAME") mountPath
                   0 PubNil false) net).

(** Source: internal/crypto/vault_signer.go, [VaultSigner.Public]. *)
Definition VaultSigner_Public (v : VaultSigner) : public_key :=
  if vt_initialized v then vt_publicKey v else PubNil.

(** Source: internal/crypto/vault_signer.go, [VaultSigner.Sign]. *)
Definition VaultSigner_Sign (v : VaultSigner) (net : exchange) (payload : string) : result error string :=
  stop! negb (vt_initialized v) with ErrText "vault signer not initialized" in
  let! response := map_err (fun e => ErrWrap "vault sign request failed: " e "")
    (makeVaultRequest v net "POST" (key_url v "sign") (Some {["input" := VStr (b64_std_encode payload)]}) true) in
  let! data := of_option (ErrText "invalid sign response format") (object_member response "data") in
  let! signature := of_option (ErrText "no signature in response") (string_member data "signature") in
  match split_on ":"%char signature with
  | _ :: _ :: part :: _ =>
      of_option (ErrText "failed to decode signature: illegal base64 data") (b64std_decode part)
  | _ => Err (ErrText "invalid signature format")
  end.
End vault.

(** ** Google Cloud KMS *)

(** What is signed: the data itself, or its SHA-256 digest. *)
Inductive sign_request := SignData (data : string) | SignDigest (digest : string).

(** Source: internal/crypto/kms_signer.go, [KMSClient]. *)
Class KMSClient := {
  GetPublicKey : string -> result error string;
  AsymmetricSign : string -> sign_request -> result error string;
}.

(** [pem.Decode] and [x509.ParsePKIXPublicKey] *)
Class PublicKeyParser := {
  public_pem_block : string -> option string;
  parse_PKIX : string -> result error public_key;
}.

(** Source: internal/crypto/kms_signer.go, [KMSSigner]. *)
Record KMSSigner := mkKMS {
  km_keyID : string;
  km_jwk : string;
  km_alg : string;
  km_kid : string;
  km_pubKey : public_key;
}.

Section kms.
Context `{Json (gmap string gval), Sha256, KMSClient, PublicKeyParser}.

(** Source: internal/crypto/kms_signer.go, [jwkFromPublicKey]. *)
Definition jwkFromPublicKey (pub : public_key) : result error (string * string) :=
  match pub with
  | PubEd25519 k => Ok (marshal_or_empty (ed25519_jwk k), "EdDSA")
  | PubECDSA curve x y =>
      stop! negb (bool_decide (curve = "P-256")) with ErrText ("unsupported curve " +:+ curve) in
      Ok (marshal_or_empty (p256_jwk x y), "ES256")
  | _ => Err (ErrText "unsupported kms key type")
  end.

(** Source: internal/crypto/kms_signer.go, [newKMSSigner]. *)
Definition newKMSSigner (client : bool) (keyID : string) : result error KMSSigner :=
  stop! negb client with ErrText "kms client is nil" in
  stop! bool_decide (keyID = "") with ErrText "kms key id is required" in
  let! pem := map_err (fun e => ErrWrap "get kms public key: " e "") (GetPublicKey keyID) in
  let! block := of_option (ErrText "decode kms public key pem") (public_pem_block pem) in
  let! pubKey := map_err (fun e => ErrWrap "parse kms public key: " e "") (parse_PKIX block) in
  let! ja := jwkFromPublicKey pubKey in
  let! kid := KeyID (bare_signer ja.1) in
  Ok (mkKMS keyID ja.1 ja.2 kid pubKey).

(** Source: internal/crypto/kms_signer.go, [NewKMSSignerWithKeyID]. *)
Definition NewKMSSignerWithKeyID (connect : result error unit) (keyID : string) : result error KMSSigner :=
  let! _ := map_err (fun e => ErrWrap "kms client: " e "") connect in
  newKMSSigner true keyID.

(** Source: internal/crypto/kms_signer.go, [NewKMSSignerFromEnv]. *)
Definition NewKMSSignerFromEnv (env : string -> string) (connect : result error unit) : result error KMSSigner :=
  stop! negb (bool_decide (env "ENABLE_KMS" = "true") || bool_decide (env "KMS_ENABLE" = "true")) with
    ErrVar ErrKMSSigningDisabled in
  stop! bool_decide (env "KMS_KEY_ID" = "") with ErrText "KMS_KEY_ID is required when KMS is enabled" in
  NewKMSSignerWithKeyID connect (env "KMS_KEY_ID").

(** What is sent to be signed.
    Source: internal/crypto/kms_signer.go:144-157, [KMSSigner.Sign]. *)
Definition kms_request (alg payload : string) (opts : option bool) : result error sign_request :=
  if bool_decide (alg = "EdDSA") then Ok (SignData payload)
  else if bool_decide (alg = "ES256") then
    if bool_decide (opts = Some true) && (String.length payload =? 32)%nat then Ok (SignDigest payload)
    else Ok (SignDigest (sha256 payload))
  else Err (ErrText ("unsupported alg " +:+ alg)).

(** Source: internal/crypto/kms_signer.go, [KMSSigner.Sign]. *)
Definition KMSSigner_Sign (k : KMSSigner) (payload : string) (opts : option bool) : result error string :=
  let! req := kms_request (km_alg k) payload opts in
  map_err (fun e => ErrWrap "kms sign: " e "") (AsymmetricSign (km_keyID k) req).

(** Source: internal/crypto/kms_signer.go:166-176, [KMSSigner]. *)
Definition kms_signer (k : KMSSigner) : JwkSigner :=
  mkJwkSigner (km_pubKey k) (KMSSigner_Sign k) (Ok (km_jwk k)) (km_alg k) (Some (km_kid k)) (Some ("", "")).
End kms.

(** ** A KMS key is a local key elsewhere *)

Section kms_props.
Context `{Json (gmap string gval), Sha256, KMSClient, PublicKeyParser, KeyParsers}.

(** The service holds [k] under [keyID]: it publishes its public key, and signs with it what it
    is sent. *)
Definition holds (keyID : string) (k : key_material) : Prop :=
  (exists pem block, GetPublicKey keyID = Ok pem /\ public_pem_block pem = Some block
     /\ parse_PKIX block = Ok (material_public k))
  /\ forall req, AsymmetricSign keyID req = raw_sign k (match req with SignData d => d | SignDigest h => h end).

(** The JWK the service's key gets is the one the key itself gets. *)
Lemma jwkFromPublicKey_finalized k k' jwk alg :
  finalizeKey k = Ok (k', jwk, alg) -> jwkFromPublicKey (material_public k) = Ok (jwk, alg).
Proof.
  destruct k as [pub seed|curve x y d|bits|ty]; cbn; [by intros [= _ <- <-]| | |done].
  - intros Hf. stop_inv Hf as Hc. injection Hf as _ <- <-. by rewrite Hc.
  - by destruct (bits <? 2048)%Z.
Qed.

Lemma kms_signs_like_local (s : KMSSigner) (l : LocalSigner) payload opts :
  finalizeKey (ls_key l) = Ok (ls_key l, ls_jwk l, ls_alg l) -> km_alg s = ls_alg l ->
  (forall req, AsymmetricSign (km_keyID s) req
     = raw_sign (ls_key l) (match req with SignData d => d | SignDigest h => h end)) ->
  to_option (KMSSigner_Sign s payload opts) = to_option (LocalSigner_Sign l payload opts).
Proof.
  intros Hf Ha Hs. unfold KMSSigner_Sign, kms_request, LocalSigner_Sign. rewrite Ha.
  destruct (ls_key l) as [pub seed|curve x y d|bits|ty]; cbn in Hf.
  - injection Hf as _ <-. rewrite bool_decide_eq_true_2 by done. cbn. rewrite Hs. by destruct (raw_sign _ _).
  - stop_inv Hf as Hc. injection Hf as _ <-. rewrite bool_decide_eq_false_2, bool_decide_eq_true_2 by done. cbn.
    destruct (_ && _)%bool; cbn; rewrite Hs; by destruct (raw_sign _ _).
  - by destruct (bits <? 2048)%Z.
  - done.
Qed.

(** C28: A key behind the key service is indistinguishable from the same key in a file.  When the
    service holds the key of a local signer that was loaded, the KMS signer is built, with the
    same public key, JWK, algorithm and identifier, and it signs every payload, under every
    signing options, with the same outcome. *)
Theorem kms_is_local keyID (l : LocalSigner) :
  keyID <> "" -> local_ok l -> holds keyID (ls_key l) ->
  exists s, newKMSSigner true keyID = Ok s
    /\ km_pubKey s = material_public (ls_key l) /\ km_jwk s = ls_jwk l
    /\ km_alg s = ls_alg l /\ km_kid s = ls_kid l
    /\ forall payload opts, to_option (KMSSigner_Sign s payload opts) = to_option (LocalSigner_Sign l payload opts).
Proof.
  intros Hid [Hf Hkid] [(pem & block & Hget & Hblock & Hparse) Hsign].
  exists (mkKMS keyID (ls_jwk l) (ls_alg l) (ls_kid l) (material_public (ls_key l))). split.
  - unfold newKMSSigner. rewrite (bool_decide_eq_false_2 _ Hid), Hget. cbn. rewrite Hblock. cbn. rewrite Hparse. cbn.
    rewrite (jwkFromPublicKey_finalized _ _ _ _ Hf). cbn. unfold KeyID. cbn. by rewrite Hkid.
  - do 4 (split; [done|]). intros payload opts. by apply kms_signs_like_local.
Qed.
End kms_props.

(** ** Which key a Vault signer has *)

Definition order_ok (order : map_order) : Prop := forall V (m : gmap string V), order V m ≡ₚ map_to_list m.

(** A version of a key, described with its public key. *)
Definition version_key (keys : gmap string gval) (k : string) : Prop :=
  exists name o b64, keys !! name = Some (VObj o) /\ string_member o "public_key" = Some b64
    /\ b64std_decode b64 = Some k /\ String.length k = ed25519_public_key_size.

(** The order that visits [name] first. *)
Definition name_first (name : string) : map_order := fun V m =>
  match m !! name with
  | Some x => (name, x) :: map_to_list (delete name m)
  | None => map_to_list m
  end.

Lemma name_first_ok name : order_ok (name_first name).
Proof. intros V m. unfold name_first. destruct (m !! name) as [x|] eqn:E; [|done]. by apply map_to_list_delete. Qed.

Lemma head_omap_elem {A B} (f : A -> option B) l b : head (omap f l) = Some b -> exists a, a ∈ l /\ f a = Some b.
Proof.
  intros Hh. assert (Hin : b ∈ omap f l) by (destruct (omap f l); [done|injection Hh as ->; by left]).
  by apply list_elem_of_omap in Hin.
Qed.

Lemma extractPublicKey_version order keyInfo keys pub n :
  order_ok order -> object_member keyInfo "keys" = Some keys ->
  extractPublicKey order keyInfo = Ok (pub, n) -> n = 1%Z /\ exists k, pub = PubEd25519 k /\ version_key keys k.
Proof.
  intros Ho Hk He. unfold extractPublicKey in He. rewrite Hk in He. cbn [of_option rbind] in He.
  stop_inv He as Hne. bind_inv He as k Hd. ok_simp Hd. stop_inv He as Hl. injection He as <- <-. split; [done|]. exists k.
  split; [done|]. unfold first_public_key in Hd, Hne. destruct (head _) as [b64|] eqn:Hh; [|by apply bool_decide_eq_false in Hne].
  apply head_omap_elem in Hh as ([name v] & Hin & Hf). cbn in Hf. destruct v as [| | | | | | | |o]; try done.
  rewrite (Ho _ keys) in Hin. apply elem_of_map_to_list in Hin. exists name, o, b64.
  do 3 (split; [done|]). by apply negb_false_iff, Nat.eqb_eq in Hl.
Qed.

(** After a rotation, chance decides which version's key a Vault signer publishes.  The
    signer takes the first version it visits, and Go visits them in any order: the keys it may
    end up with are exactly those of all versions, the old ones included, and the version
    number it reports is always 1. *)
Theorem vault_key_any_version keyInfo keys pub n :
  object_member keyInfo "keys" = Some keys ->
  (exists order, order_ok order /\ extractPublicKey order keyInfo = Ok (pub, n))
  <-> n = 1%Z /\ exists k, pub = PubEd25519 k /\ version_key keys k.
Proof.
  intros Hk. split.
  - intros (order & Ho & He). by eapply extractPublicKey_version.
  - intros (-> & k & -> & name & o & b64 & Hn & Hp & Hd & Hl). exists (name_first name). split; [apply name_first_ok|].
    unfold extractPublicKey. rewrite Hk. cbn [of_option rbind]. unfold first_public_key, name_first. rewrite Hn.
    cbn [omap list_omap head default]. cbn. rewrite Hp. cbn. rewrite bool_decide_eq_false_2, Hd; cbn.
    + by rewrite Hl.
    + intros ->. vm_compute in Hd. injection Hd as <-. discriminate Hl.
Qed.

(** ** A Vault that works *)

Section vault_props.
Context `{Json (gmap string gval), BodyDecoder (gmap string gval), NewRequest}.
Context `{!JsonLaw (gmap string gval) (fun m => json_safe (VObj m)) (fmap json_image)}.
Context (order : map_order) (Horder : order_ok order).

Lemma utf8_b64_std s : utf8_valid (b64_std_encode s) = true.
Proof.
  apply utf8_valid_ascii. eapply string_forall_impl; [|apply b64_std_alphabet].
  intros [[] [] [] [] [] [] [] []]; vm_compute; congruence.
Qed.

(** The request can be made, and is answered. *)
Definition answers (net : exchange) (r : vault_request) (status : Z) (text : string) : Prop :=
  new_request (vr_Method r) (vr_URL r) = Ok tt /\ net r = Ok (status, text).

(** The request is answered with success and [resp]. *)
Definition replies (net : exchange) (r : vault_request) (resp : gmap string gval) : Prop :=
  exists status text, answers net r status text /\ (status < 400)%Z /\ decode_body text = Some resp.

Definition get_key (v : VaultSigner) : vault_request := mkVaultRequest "GET" (key_url v "keys") (vt_vaultToken v) None.
Definition post (v : VaultSigner) (verb : string) (payload : gmap string gval) : vault_request :=
  mkVaultRequest "POST" (key_url v verb) (vt_vaultToken v) (Some (marshal_or_empty payload)).

(** Its answer describes a key with the one public key [k]. *)
Definition describes (resp : gmap string gval) (k : string) : Prop :=
  exists info keys, object_member resp "data" = Some info /\ object_member info "keys" = Some keys
    /\ (exists name o b64, keys = {[name := VObj o]} /\ string_member o "public_key" = Some b64
          /\ b64std_decode b64 = Some k).

(** Vault holds the key, or makes it when it is told to. *)
Definition provides (v : VaultSigner) (net : nat -> exchange) (k : string) : Prop :=
  (exists resp, replies (net 0%nat) (get_key v) resp /\ describes resp k)
  \/ (exists text, answers (net 0%nat) (get_key v) 404 text)
     /\ (exists status text, answers (net 1%nat) (post v "keys" {["type" := VStr "ed25519"]}) status text /\ (status < 400)%Z)
     /\ (exists resp, replies (net 2%nat) (get_key v) resp /\ describes resp k).

(** It signs what it is sent, and answers in its format. *)
Definition signs (v : VaultSigner) (net : exchange) (sign : string -> string) : Prop :=
  forall payload, exists resp data version,
    replies net (post v "sign" {["input" := VStr (b64_std_encode payload)]}) resp
    /\ object_member resp "data" = Some data /\ no_byte ":" version = true
    /\ string_member data "signature" = Some ("vault:" +:+ version +:+ ":" +:+ b64_std_encode (sign payload)).

Lemma request_replies v net verb payload resp :
  json_safe (VObj payload) = true -> replies net (post v verb payload) resp ->
  makeVaultRequest v net "POST" (key_url v verb) (Some payload) true = Ok resp.
Proof.
  intros Hs (status & text & [Hurl Hnet] & Hst & Hd). unfold makeVaultRequest. rewrite (marshal_or_empty_Ok _ Hs). cbn [map_err rbind].
  cbn in Hurl. rewrite Hurl. cbn [map_err rbind]. fold (post v verb payload). rewrite Hnet. cbn [map_err rbind]. rewrite (proj2 (Z.leb_gt _ _) Hst), Hd. done.
Qed.

Lemma getKeyInfo_replies v net resp info :
  replies net (get_key v) resp -> object_member resp "data" = Some info -> getKeyInfo v net = Ok info.
Proof.
  intros (status & text & [Hurl Hnet] & Hst & Hd) Hi. unfold getKeyInfo, makeVaultRequest. cbn in Hurl. rewrite Hurl.
  cbn [map_err rbind]. fold (get_key v). rewrite Hnet. cbn [map_err rbind]. rewrite (proj2 (Z.leb_gt _ _) Hst), Hd. cbn. by rewrite Hi.
Qed.

(** With a single version there is a single order. *)
Lemma extractPublicKey_single keyInfo name o b64 k :
  object_member keyInfo "keys" = Some {[name := VObj o]} -> string_member o "public_key" = Some b64 ->
  b64std_decode b64 = Some k -> String.length k = ed25519_public_key_size ->
  extractPublicKey order keyInfo = Ok (PubEd25519 k, 1%Z).
Proof.
  intros Hk Hp Hd Hl. unfold extractPublicKey. rewrite Hk. cbn [of_option rbind]. unfold first_public_key.
  pose proof (Horder _ ({[name := VObj o]} : gmap string gval)) as Hperm. rewrite map_to_list_singleton in Hperm.
  apply Permutation_singleton_r in Hperm. rewrite Hperm. cbn. rewrite Hp. cbn. rewrite bool_decide_eq_false_2, Hd; cbn.
  - by rewrite Hl.
  - intros ->. vm_compute in Hd. injection Hd as <-. discriminate Hl.
Qed.

Lemma getKeyInfo_missing v net text :
  answers net (get_key v) 404 text ->
  exists e, getKeyInfo v net = Err e /\ contains_str (error_text e) "404" = true.
Proof.
  intros [Hurl Hnet]. unfold getKeyInfo, makeVaultRequest. cbn in Hurl. rewrite Hurl. cbn [map_err rbind]. fold (get_key v). rewrite Hnet. cbn [map_err rbind].
  eexists. split; [reflexivity|]. reflexivity.
Qed.

(** The signer the environment describes, before its first request. *)
Definition configured (env : string -> string) : VaultSigner :=
  mkVault (trim_suffix (env "VAULT_ADDR") "/") (env "VAULT_TOKEN") (env "VAULT_KEY_NAME")
    (if bool_decide (env "VAULT_MOUNT_PATH" = "") then "transit" else env "VAULT_MOUNT_PATH") 0 PubNil false.

Lemma initialize_provides v net k :
  vt_initialized v = false -> String.length k = ed25519_public_key_size -> provides v net k ->
  initialize order v net
  = Ok (mkVault (vt_vaultAddr v) (vt_vaultToken v) (vt_keyName v) (vt_mountPath v) 1 (PubEd25519 k) true).
Proof.
  intros Hi Hl Hp. unfold initialize. rewrite Hi. destruct Hp as [(resp & Hr & Hd)|((text & H404) & Hc & resp & Hr & Hd)].
  - destruct Hd as (info & keys & Hdata & Hk & name & o & b64 & -> & Hpk & Hdec).
    rewrite (getKeyInfo_replies _ _ _ _ Hr Hdata). cbn [rbind]. by rewrite (extractPublicKey_single _ _ _ _ _ Hk Hpk Hdec Hl).
  - destruct Hd as (info & keys & Hdata & Hk & name & o & b64 & -> & Hpk & Hdec).
    destruct (getKeyInfo_missing _ _ _ H404) as (e & -> & ->). rewrite orb_true_r.
    assert (Hmade : createKey v (net 1%nat) = Ok tt).
    { destruct Hc as (status & body & [Hurl Hnet] & Hst). unfold createKey, makeVaultRequest.
      rewrite marshal_or_empty_Ok by done. cbn in Hurl. rewrite Hurl. cbn [map_err rbind]. fold (post v "keys" {["type" := VStr "ed25519"]}).
      rewrite Hnet. cbn [map_err rbind]. by rewrite (proj2 (Z.leb_gt _ _) Hst). }
    rewrite Hmade. cbn [map_err rbind]. rewrite (getKeyInfo_replies _ _ _ _ Hr Hdata). cbn [map_err rbind].
    by rewrite (extractPublicKey_single _ _ _ _ _ Hk Hpk Hdec Hl).
Qed.

Lemma VaultSigner_Sign_signs v v' net sign payload :
  vt_initialized v' = true -> vt_vaultToken v' = vt_vaultToken v -> key_url v' "sign" = key_url v "sign" ->
  signs v net sign -> VaultSigner_Sign v' net payload = Ok (sign payload).
Proof.
  intros Hi Ht Hu Hs. destruct (Hs payload) as (resp & data & version & Hr & Hd & Hver & Hsig).
  unfold VaultSigner_Sign. rewrite Hi. cbn [negb].
  assert (Hr' : replies net (post v' "sign" {["input" := VStr (b64_std_encode payload)]}) resp)
    by (unfold post; by rewrite Ht, Hu).
  rewrite (request_replies v' _ _ _ resp); [|apply json_safe_obj; apply map_Forall_singleton; split; [done|]|done].
  - cbn [map_err rbind]. rewrite Hd. cbn [of_option rbind]. rewrite Hsig. cbn [of_option rbind].
    change ("vault:" +:+ version +:+ ":" +:+ b64_std_encode (sign payload))
      with ("vault" +:+ String ":" (version +:+ String ":" (b64_std_encode (sign payload)))).
    rewrite split_on_app by done. rewrite split_on_app by done.
    destruct (split_on ":" (b64_std_encode (sign payload))) as [|part rest] eqn:Hsp; [by apply split_on_nonempty in Hsp|].
    rewrite split_on_single in Hsp by (by apply b64_std_no_byte). injection Hsp as <- _. by rewrite b64_std_roundtrip.
  - apply utf8_b64_std.
Qed.

(** With a Vault that works, a Vault signer works.  From a complete environment, and a Vault
    that holds the key with one version or, answering 404, creates it when it is told to, the
    signer is built and publishes the key; every payload then reaches Vault as it is, and the
    signature that comes back is the one Vault made. *)
Theorem vault_signer_works env net snet k sign :
  env "VAULT_ADDR" <> "" -> env "VAULT_TOKEN" <> "" -> env "VAULT_KEY_NAME" <> "" ->
  String.length k = ed25519_public_key_size ->
  provides (configured env) net k -> signs (configured env) snet sign ->
  exists v, NewVaultSignerFromEnv order env net = Ok v
    /\ VaultSigner_Public v = PubEd25519 k
    /\ forall payload, VaultSigner_Sign v snet payload = Ok (sign payload).
Proof.
  intros Ha Ht Hn Hl Hp Hs.
  pose proof (initialize_provides _ net k (eq_refl : vt_initialized (configured env) = false) Hl Hp) as Hi.
  eexists. split.
  - unfold NewVaultSignerFromEnv. cbn [fst snd]. rewrite !bool_decide_eq_false_2 by done. cbn zeta.
    fold (configured env). by rewrite Hi.
  - split; [done|]. intros payload. by apply (VaultSigner_Sign_signs (configured env)).
Qed.
End vault_props.

(** ** Instances *)

(** A service that holds the private key 1 of P-256. *)
#[local] Instance echo_parsers : KeyParsers := {|
  pem_block _ := None;
  parse_PKCS8 _ := Err (ErrText "");
  parse_EC _ := Err (ErrText "");
  parse_PKCS1 _ := Err (ErrText "");
  raw_sign _ p := Ok ("signed " +:+ p);
|}.

#[local] Instance one_key_client : KMSClient := {|
  GetPublicKey name := if bool_decide (name = "k") then Ok "pem" else Err (ErrText "no such key");
  AsymmetricSign _ req := Ok ("signed " +:+ match req with SignData d => d | SignDigest h => h end);
|}.

#[local] Instance one_key_parser : PublicKeyParser := {|
  public_pem_block s := if bool_decide (s = "pem") then Some "der" else None;
  parse_PKIX _ := Ok (material_public base_point);
|}.

Lemma kms_is_local_witness :
  exists l s, ls_key l = base_point /\ newKMSSigner true "k" = Ok s
    /\ km_alg s = "ES256" /\ km_kid s = ls_kid l
    /\ to_option (KMSSigner_Sign s "payload" None) = to_option (LocalSigner_Sign l "payload" None).
Proof.
  destruct (finalizeKey base_point) as [[[k jwk] alg]|e] eqn:Hf; [|discriminate Hf].
  assert (Hok : is_ok (let! out := finalizeKey base_point in computeJWKThumbprint out.1.2) = true) by (vm_compute; reflexivity).
  rewrite Hf in Hok. cbn [rbind fst snd] in Hok.
  destruct (computeJWKThumbprint jwk) as [kid|e] eqn:Ht; [|discriminate Hok].
  assert (Hk : k = base_point /\ alg = "ES256").
  { assert (Ha : (fun o => (o.1.1, o.2)) <$> to_option (finalizeKey base_point) = Some (base_point, "ES256")) by (vm_compute; reflexivity).
    rewrite Hf in Ha. injection Ha as -> ->. split; reflexivity. }
  destruct Hk as [-> ->].
  destruct (kms_is_local "k" (mkLocalSigner base_point "ES256" jwk kid "" "")) as (s & Hs & _ & _ & Ha & Hkid & Hsig).
  - discriminate.
  - split; [exact Hf|exact Ht].
  - split; [exists "pem", "der"; repeat split; reflexivity|intros req; reflexivity].
  - exists (mkLocalSigner base_point "ES256" jwk kid "" ""), s. split; [reflexivity|]. split; [exact Hs|]. split; [exact Ha|].
    split; [exact Hkid|exact (Hsig "payload" None)].
Defined.

(** A key with two versions. *)
Definition old_pub : string := "0123456789abcdef0123456789abcdef".
Definition new_pub : string := "fedcba9876543210fedcba9876543210".
Definition version_of (k : string) : gval := VObj {["public_key" := VStr (b64_std_encode k)]}.
Definition two_versions : gmap string gval := {["1" := version_of old_pub; "2" := version_of new_pub]}.
Definition rotated : gmap string gval := {["keys" := VObj two_versions]}.

Lemma vault_key_any_version_witness :
  exists order, order_ok order /\ extractPublicKey order rotated = Ok (PubEd25519 old_pub, 1%Z).
Proof.
  refine (proj2 (vault_key_any_version rotated two_versions (PubEd25519 old_pub) 1%Z eq_refl) _).
  split; [reflexivity|]. exists old_pub. split; [reflexivity|].
  exists "1", {["public_key" := VStr (b64_std_encode old_pub)]}, (b64_std_encode old_pub).
  split; [vm_compute; reflexivity|]. split; [reflexivity|]. split; [apply b64_std_roundtrip|vm_compute; reflexivity].
Defined.

(** A Vault that makes the key when it is told to, and signs by repeating the payload. *)
#[local] Instance vault_bodies : BodyDecoder (gmap string gval) := fun text =>
  if bool_decide (text = "key")
  then Some {["data" := VObj {["keys" := VObj {["1" := version_of old_pub]}]}]}
  else Some {["data" := VObj {["signature" := VStr ("vault:v1:" +:+ text)]}]}.

#[local] Instance any_url : NewRequest := fun _ _ => Ok tt.

Definition vault_net (n : nat) : exchange := fun r =>
  if bool_decide (vr_Method r = "GET")
  then match n with O => Ok (404%Z, "no handler") | _ => Ok (200%Z, "key") end
  else Ok (204%Z, "").

Definition sign_net : exchange := fun r =>
  match vr_Body r with
  | Some b =>
      match json_unmarshal (T := gmap string gval) b with
      | Ok m => of_option (ErrText "") ((fun i => (200%Z, i)) <$> string_member m "input")
      | Err e => Err e
      end
  | None => Err (ErrText "")
  end.

Definition vault_env (k : string) : string :=
  if bool_decide (k = "VAULT_MOUNT_PATH") then "" else "https://vault".

Lemma b64_std_not_key s : b64_std_encode s <> "key".
Proof. intros Hs. pose proof (b64_std_roundtrip s) as Hr. by rewrite Hs in Hr. Qed.

Lemma vault_signer_works_witness :
  exists v, NewVaultSignerFromEnv (fun _ m => map_to_list m) vault_env vault_net = Ok v
    /\ VaultSigner_Public v = PubEd25519 old_pub
    /\ forall payload, VaultSigner_Sign v sign_net payload = Ok payload.
Proof.
  refine (vault_signer_works (fun _ m => map_to_list m) _ vault_env vault_net sign_net old_pub (fun p => p) _ _ _ _ _ _).
  - intros V m. reflexivity.
  - discriminate.
  - discriminate.
  - discriminate.
  - reflexivity.
  - right. split; [exists "no handler"; split; reflexivity|]. split; [exists 204%Z, ""; split; [split; reflexivity|lia]|].
    eexists. split; [exists 200%Z, "key"; split; [split; reflexivity|split; [lia|reflexivity]]|].
    eexists _, _. split; [reflexivity|]. split; [reflexivity|]. eexists _, _, _. split; [reflexivity|].
    split; [reflexivity|apply b64_std_roundtrip].
  - intros payload. eexists {["data" := VObj {["signature" := VStr ("vault:v1:" +:+ b64_std_encode payload)]}]}, _, "v1".
    split; [|split; [reflexivity|split; [reflexivity|reflexivity]]].
    exists 200%Z, (b64_std_encode payload). split; [|split; [lia|]].
    + split; [reflexivity|]. unfold sign_net, post. cbn [vr_Body]. rewrite strings_roundtrip.
      * reflexivity.
      * apply map_Forall_singleton. split; [reflexivity|]. eexists. split; [reflexivity|].
        apply utf8_b64_std.
    + unfold decode_body, vault_bodies. rewrite bool_decide_eq_false_2 by apply b64_std_not_key. reflexivity.
Defined.
