(* ===== verification/Jwtutil.v ===== *)
(** * Validating synthetic JWTs downstream.

    Models internal/jwtutil/jwtutil.go, and states what becomes there of the tokens that
    internal/domain/authz_bridge.go mints.  go-jose is the class [GoJose], its documented
    behaviour the class [GoJoseLaws]; the network is an argument. *)

From S2P Require Import Prelude GoStrings Base64 GoTime Errors Values Crypto Credential Instances.
From S2P Require Import Delegation SDJwt Verify Issue IssueFacts AuthzBridge Server.
From Stdlib Require Import ZArith Ascii String Lia.
From stdpp Require Import gmap list strings.

Local Open Scope string_scope.

(** Source: internal/jwtutil/jwtutil.go, [ValidationConfig]. *)
Record ValidationConfig := mkValidation {
  vd_Issuer : string;
  vd_Audience : string;
  vd_AllowedAlgs : list string;
  vd_JWKSURL : string;
}.

(** Source: internal/jwtutil/jwtutil.go, [Claims]. *)
Record Claims := mkClaims {
  cm_Subject : string;
  cm_OnBehalfOf : string;
  cm_Scope : list string;
  cm_DelegationDepth : Z;
  cm_Raw : gmap string gval;
}.

(** ** go-jose *)

Record jwt_header := mkJwtHeader { jh_Algorithm : string; jh_KeyID : string }.
Record JSONWebKey := mkJSONWebKey { jk_KeyID : string; jk_Key : public_key }.

(** The registered claims of a token; a date that is absent is [None]. *)
Record jwt_claims := mkJwtClaims {
  jc_Issuer : string;
  jc_Subject : string;
  jc_Audience : list string;
  jc_Expiry : option Z;
  jc_NotBefore : option Z;
  jc_IssuedAt : option Z;
}.

(** The claims the validator reads besides.
    Source: internal/jwtutil/jwtutil.go:64-68, [ValidateSyntheticJWT]. *)
Record custom_claims := mkCustom { cu_OnBehalfOf : string; cu_Scope : gval; cu_DelegationDepth : Z }.

(** What is expected of the claims. *)
Record expected := mkExpected { ex_Issuer : string; ex_AnyAudience : list string }.

Class GoJose := {
  jose_ParseSigned : string -> list string -> result error (list jwt_header);
  jose_Claims : string -> public_key -> result error (jwt_claims * custom_claims * gmap string gval);
  jose_Valid : JSONWebKey -> bool;
  jose_Key : list JSONWebKey -> string -> list JSONWebKey;
  jose_ValidateWithLeeway : jwt_claims -> expected -> time -> duration -> result error unit;
}.

(** ** The validator *)

(** Source: internal/jwtutil/jwtutil.go, [isAlgAllowed]. *)
Definition isAlgAllowed (alg : string) (allowed : list string) : bool :=
  if bool_decide (alg = "") then false
  else if bool_decide (allowed = []) then true
  else existsb (fun a => bool_decide (a = alg)) allowed.

(** Source: internal/jwtutil/jwtutil.go, [normalizeScope]. *)
Definition normalizeScope (val : gval) : list string :=
  match val with
  | VNull => []
  | VStr v => if bool_decide (v = "") then [] else [v]
  | VStrs v => filter (fun item => item <> "") v
  | VArr v => filter (fun item => item <> "") (string_items v)
  | _ => []
  end.

(** Source: internal/jwtutil/jwtutil.go, [parseAllowedAlgorithms]. *)
Definition parseAllowedAlgorithms (algs : list string) : list string := algs.

Section validator.
Context `{GoJose, BodyDecoder (list JSONWebKey)}.

(** Source: internal/jwtutil/jwtutil.go, [fetchJWKS]. *)
Definition fetchJWKS (get : string -> result error string) (url : string) : result error (option (list JSONWebKey)) :=
  let! body := get url in
  let! jwks := of_option (ErrText "decode jwks") (decode_body body) in
  Ok (Some jwks).

(** Source: internal/jwtutil/jwtutil.go, [selectVerificationKey]. *)
Definition selectVerificationKey (set : option (list JSONWebKey)) (kid : string) : result error public_key :=
  let! set := of_option (ErrText "jwks not provided") set in
  let keys := jose_Key set kid in
  let keys := if bool_decide (keys = []) && bool_decide (kid = "") then set else keys in
  let! key := of_option (ErrText ("no valid key found for kid " +:+ kid)) (List.find jose_Valid keys) in
  Ok (jk_Key key).

(** Source: internal/jwtutil/jwtutil.go, [ValidateSyntheticJWT]. *)
Definition ValidateSyntheticJWT (get : string -> result error string) (now : time)
    (token : string) (cfg : ValidationConfig) : result error Claims :=
  stop! bool_decide (token = "") with ErrText "token is required" in
  stop! bool_decide (vd_JWKSURL cfg = "") with ErrText "jwks url is required" in
  let algs := parseAllowedAlgorithms (vd_AllowedAlgs cfg) in
  let! headers := map_err (fun e => ErrWrap "parse token: " e "") (jose_ParseSigned token algs) in
  let! header := of_option (ErrText "missing token header") (head headers) in
  let alg := jh_Algorithm header in
  stop! negb (isAlgAllowed alg (vd_AllowedAlgs cfg)) with ErrText ("algorithm not allowed: " +:+ alg) in
  let! jwks := map_err (fun e => ErrWrap "load jwks: " e "") (fetchJWKS get (vd_JWKSURL cfg)) in
  let! key := selectVerificationKey jwks (jh_KeyID header) in
  let! parsed := map_err (fun e => ErrWrap "verify token: " e "") (jose_Claims token key) in
  let '(stdClaims, custom, raw) := parsed in
  let expected := mkExpected (vd_Issuer cfg) (if bool_decide (vd_Audience cfg = "") then [] else [vd_Audience cfg]) in
  let! _ := map_err (fun e => ErrWrap "claim validation: " e "")
    (jose_ValidateWithLeeway stdClaims expected now minute) in
  Ok (mkClaims (jc_Subject stdClaims) (cu_OnBehalfOf custom) (normalizeScope (cu_Scope custom))
        (cu_DelegationDepth custom) raw).
End validator.

(** ** What go-jose documents *)

(** A date in the past or the future, give or take the leeway, in whole seconds. *)
Definition within_leeway (c : jwt_claims) (now : time) (leeway : duration) : Prop :=
  (forall e, jc_Expiry c = Some e -> (time_add now (- leeway) <= unix_time e)%Z)
  /\ (forall b, jc_NotBefore c = Some b -> (unix_time b <= time_add now leeway)%Z)
  /\ (forall i, jc_IssuedAt c = Some i -> (unix_time i <= time_add now leeway)%Z).

Definition date_claim (m : gmap string gval) (k : string) : option Z :=
  match m !! k with Some (VInt64 z) => Some z | _ => None end.

(** Claims as a Go program writes them: the names strings, the dates numbers that a float64
    holds, no audience. *)
Definition claims_typed (m : gmap string gval) : Prop :=
  (forall k v, k ∈ ["iss"; "sub"; "obo"] -> m !! k = Some v -> exists s, v = VStr s)
  /\ (forall k v, k ∈ ["exp"; "nbf"; "iat"] -> m !! k = Some v -> exists z, v = VInt64 z /\ (Z.abs z <= 2 ^ 53)%Z)
  /\ (forall v, m !! "delegation_depth" = Some v -> exists z, v = VInt z)
  /\ m !! "aud" = None.

Definition registered (m : gmap string gval) : jwt_claims :=
  mkJwtClaims (claim_string (Some m) "iss") (claim_string (Some m) "sub") []
    (date_claim m "exp") (date_claim m "nbf") (date_claim m "iat").

Definition custom (m : gmap string gval) : custom_claims :=
  mkCustom (claim_string (Some m) "obo") (default VNull (json_image <$> m !! "scope"))
    (match m !! "delegation_depth" with Some (VInt z) => z | _ => 0%Z end).

(** A compact token whose three parts decode to a header, a payload and a signature of these. *)
Definition signed_token `{Ed25519} (k token : string) : Prop :=
  exists p0 p1 p2 ht pt sg, split_on "."%char token = [p0; p1; p2]
    /\ b64_decode p0 = Some ht /\ b64_decode p1 = Some pt /\ b64_decode p2 = Some sg
    /\ ed25519_verify k (signing_input ht pt) sg = true.

Class GoJoseLaws `{GoJose, Json (gmap string gval), Ed25519} : Prop := {
  (** A token is parsed with the algorithms that are listed only. *)
  jose_parse_listed : forall token algs hs,
    jose_ParseSigned token algs = Ok hs -> Forall (fun h => jh_Algorithm h ∈ algs) hs;
  (** A compact token has the header that was written. *)
  jose_parse_compact : forall ht pt sg typ algs,
    json_marshal (jose_header typ) = Ok ht -> "EdDSA" ∈ algs ->
    jose_ParseSigned (jwt_token ht pt sg) algs = Ok [mkJwtHeader "EdDSA" ""];
  (** The keys with an identifier. *)
  jose_key_by_id : forall set kid, jose_Key set kid = filter (fun k => jk_KeyID k = kid) set;
  (** Claims are given out when the signature verifies over what the parts decode to, not
      otherwise.  Decoding skips newlines and unused bits: the parts need not be the ones a
      signer writes. *)
  jose_claims_signed : forall token k out, jose_Claims token (PubEd25519 k) = Ok out -> signed_token k token;
  (** They are the ones that were written. *)
  jose_claims_read : forall ht pt sg k m,
    json_marshal m = Ok pt -> json_safe (VObj m) = true -> claims_typed m ->
    ed25519_verify k (signing_input ht pt) sg = true ->
    jose_Claims (jwt_token ht pt sg) (PubEd25519 k) = Ok (registered m, custom m, json_image <$> m);
  (** What is expected must be there, and the dates must hold. *)
  jose_validate : forall c e now leeway,
    is_ok (jose_ValidateWithLeeway c e now leeway) = true <->
    (ex_Issuer e = "" \/ ex_Issuer e = jc_Issuer c)
    /\ (ex_AnyAudience e = [] \/ exists a, a ∈ ex_AnyAudience e /\ a ∈ jc_Audience c)
    /\ within_leeway c now leeway;
}.

(** ** Properties *)

(** Every scope that is not empty, and nothing else. *)
Lemma normalizeScope_spec v s :
  s ∈ normalizeScope (json_image v) <-> s <> "" /\ s ∈ ScopeFromClaims (Some {["scope" := v]}).
Proof.
  unfold ScopeFromClaims. rewrite lookup_singleton_eq.
  assert (Hnil : s ∈ ([] : list string) <-> s <> "" /\ s ∈ ([] : list string)) by (rewrite elem_of_nil; tauto).
  destruct v as [| | | | |t|l|l|m]; cbn [json_image normalizeScope]; try done.
  - case_bool_decide as Ht; rewrite ?elem_of_nil, ?list_elem_of_singleton; [naive_solver|]. split; [by intros ->|tauto].
  - rewrite list_elem_of_filter, string_items_strs. done.
  - rewrite list_elem_of_filter, string_items_image. done.
Qed.

Section props.
Context `{GoJoseLaws, BodyDecoder (list JSONWebKey)}.

Lemma isAlgAllowed_listed alg allowed : allowed <> [] -> isAlgAllowed alg allowed = true -> alg ∈ allowed.
Proof.
  intros Hne. unfold isAlgAllowed. case_bool_decide; [done|]. rewrite bool_decide_eq_false_2 by done.
  intros (a & Ha & Heq)%existsb_exists. apply bool_decide_eq_true in Heq as ->. by apply list_elem_of_In.
Qed.

Lemma selectVerificationKey_Ok set kid pub :
  selectVerificationKey (Some set) kid = Ok pub ->
  exists key, key ∈ set /\ jose_Valid key = true /\ jk_Key key = pub /\ (kid <> "" -> jk_KeyID key = kid).
Proof.
  unfold selectVerificationKey. cbn [of_option rbind]. intros Hk. bind_inv Hk as key Hf. ok_simp Hf. injection Hk as <-.
  apply find_some in Hf as [Hin Hv]. exists key. apply list_elem_of_In in Hin. rewrite jose_key_by_id in Hin.
  destruct (bool_decide _ && bool_decide _)%bool eqn:Hb.
  - breflect. done.
  - apply list_elem_of_filter in Hin as [Hid Hin]. done.
Qed.

(** C34: Only a token that is genuine, meant for the service and current is accepted.  The
    token's first header names an algorithm of the list, none being allowed by default; its
    signature verifies under a valid key of the set that was fetched, the one the header names
    when it names one; the claims that key gives out for the token have the configured issuer
    and audience and dates that hold up to a minute, and the result is made of them.  For a
    token whose payload was written from claims, they are those claims. *)
Theorem ValidateSyntheticJWT_sound get now token cfg c :
  ValidateSyntheticJWT get now token cfg = Ok c ->
  exists headers header body set key std cu raw,
    jose_ParseSigned token (vd_AllowedAlgs cfg) = Ok headers /\ head headers = Some header
    /\ jh_Algorithm header ∈ vd_AllowedAlgs cfg
    /\ get (vd_JWKSURL cfg) = Ok body /\ decode_body body = Some set
    /\ key ∈ set /\ jose_Valid key = true /\ (jh_KeyID header <> "" -> jk_KeyID key = jh_KeyID header)
    /\ jose_Claims token (jk_Key key) = Ok (std, cu, raw)
    /\ (forall k, jk_Key key = PubEd25519 k -> signed_token k token
         /\ forall ht pt sg m, token = jwt_token ht pt sg -> json_marshal m = Ok pt -> json_safe (VObj m) = true ->
              claims_typed m -> std = registered m /\ cu = custom m /\ raw = json_image <$> m)
    /\ (vd_Issuer cfg <> "" -> jc_Issuer std = vd_Issuer cfg)
    /\ (vd_Audience cfg <> "" -> vd_Audience cfg ∈ jc_Audience std)
    /\ within_leeway std now minute
    /\ c = mkClaims (jc_Subject std) (cu_OnBehalfOf cu) (normalizeScope (cu_Scope cu)) (cu_DelegationDepth cu) raw.
Proof.
  unfold ValidateSyntheticJWT. intros Hv. stop_inv Hv as _. stop_inv Hv as _. bind_inv Hv as headers Hp. ok_simp Hp.
  bind_inv Hv as header Hh. ok_simp Hh. stop_inv Hv as _. bind_inv Hv as jwks Hj. ok_simp Hj.
  bind_inv Hv as key Hk. bind_inv Hv as [[std cu] raw] Hc. ok_simp Hc. bind_inv Hv as u Hval. ok_simp Hval. injection Hv as <-.
  unfold fetchJWKS in Hj. bind_inv Hj as body Hget. bind_inv Hj as set Hset. ok_simp Hset. injection Hj as <-.
  apply selectVerificationKey_Ok in Hk as (k & Hin & Hval_k & <- & Hkid).
  pose proof (jose_parse_listed _ _ _ Hp) as Halg. destruct headers as [|h headers]; [done|]. injection Hh as ->.
  apply Forall_cons in Halg as [Halg _].
  assert (Hok : is_ok (jose_ValidateWithLeeway std (mkExpected (vd_Issuer cfg)
    (if bool_decide (vd_Audience cfg = "") then [] else [vd_Audience cfg])) now minute) = true) by (by rewrite Hval).
  apply jose_validate in Hok as (Hiss & Haud & Hdates). cbn in Hiss, Haud.
  exists (header :: headers), header, body, set, k, std, cu, raw. do 9 (split; [done|]). split.
  - intros ed Hed. rewrite Hed in Hc. split; [by apply jose_claims_signed in Hc|].
    intros ht pt sg m -> Hm Hs Ht. pose proof (jose_claims_signed _ _ _ Hc) as (p0 & p1 & p2 & ht' & pt' & sg' & Hsp & Hb0 & Hb1 & Hb2 & Hver).
    rewrite split_jwt_token in Hsp. injection Hsp as <- <- <-. rewrite b64_roundtrip in Hb0, Hb1, Hb2.
    injection Hb0 as <-. injection Hb1 as <-. injection Hb2 as <-.
    rewrite (jose_claims_read _ _ _ _ _ Hm Hs Ht Hver) in Hc. by injection Hc as <- <- <-.
  - split; [naive_solver|]. split; [|done]. intros Ha. rewrite bool_decide_eq_false_2 in Haud by done.
    destruct Haud as [?|(a & ->%list_elem_of_singleton & Hin')]; done.
Qed.

(** *** The gateway's tokens *)

Context `{!JsonLaw (gmap string gval) (fun m => json_safe (VObj m)) (fmap json_image)}.

Lemma to_unix_small t : civil_time t -> (Z.abs (to_unix t) <= 2 ^ 53)%Z.
Proof.
  intros Ht. rewrite to_unix_civil by done. unfold civil_time, sec_of, unix_to_internal, second in *.
  pose proof (Z.div_pos t 1000000000 ltac:(lia) ltac:(lia)).
  assert (t / 1000000000 < 315537897600)%Z by (apply Z.div_lt_upper_bound; lia). lia.
Qed.

Lemma synthetic_lookup now d issuer ttl k v :
  k <> "scope" -> synthetic_payload now d issuer ttl !! k = Some v ->
  (k = "iss" /\ v = VStr issuer) \/ (k = "sub" /\ v = VStr (ad_SubjectDID d))
  \/ (k = "iat" /\ v = VInt64 (to_unix now)) \/ (k = "exp" /\ v = VInt64 (to_unix (time_add now ttl)))
  \/ (k = "delegation_depth" /\ v = VInt (ad_DelegationDepth d))
  \/ (k = "obo" /\ v = VStr (ad_ActingOnBehalfOf d) /\ ad_ActingOnBehalfOf d <> "").
Proof.
  intros Hk Hl. unfold synthetic_payload in Hl.
  assert (Hl' : (if bool_decide (ad_ActingOnBehalfOf d = "")
     then {["iss" := VStr issuer; "sub" := VStr (ad_SubjectDID d); "iat" := VInt64 (to_unix now);
      "exp" := VInt64 (to_unix (time_add now ttl)); "delegation_depth" := VInt (ad_DelegationDepth d)]}
     else <["obo" := VStr (ad_ActingOnBehalfOf d)]> ({["iss" := VStr issuer; "sub" := VStr (ad_SubjectDID d);
      "iat" := VInt64 (to_unix now); "exp" := VInt64 (to_unix (time_add now ttl));
      "delegation_depth" := VInt (ad_DelegationDepth d)]} : gmap string gval)) !! k = Some v).
  { destruct (claim (ad_Claims d) "scope"); [|done]. by rewrite lookup_insert_ne in Hl. }
  clear Hl. case_bool_decide as Ho.
  - repeat (apply lookup_insert_Some in Hl' as [[<- <-]|[_ Hl']]; [tauto|]). by apply lookup_singleton_Some in Hl' as [<- <-]; tauto.
  - repeat (apply lookup_insert_Some in Hl' as [[<- <-]|[_ Hl']]; [tauto|]). by apply lookup_singleton_Some in Hl' as [<- <-]; tauto.
Qed.

Lemma synthetic_typed now d issuer ttl :
  civil_time now -> civil_time (time_add now ttl) -> claims_typed (synthetic_payload now d issuer ttl).
Proof.
  intros Hn He. pose proof (to_unix_small _ Hn) as Hn'. pose proof (to_unix_small _ He) as He'. repeat split.
  - intros k v Hk Hl. apply synthetic_lookup in Hl; [|by intros ->; set_solver].
    destruct Hl as [[-> ->]|[[-> ->]|[[-> ->]|[[-> ->]|[[-> ->]|(-> & -> & _)]]]]]; eauto; set_solver.
  - intros k v Hk Hl. apply synthetic_lookup in Hl; [|by intros ->; set_solver].
    destruct Hl as [[-> ->]|[[-> ->]|[[-> ->]|[[-> ->]|[[-> ->]|(-> & -> & _)]]]]]; eauto; set_solver.
  - intros v Hl. apply synthetic_lookup in Hl; [|done].
    destruct Hl as [[? ->]|[[? ->]|[[? ->]|[[? ->]|[[? ->]|(? & -> & _)]]]]]; by eauto.
  - destruct (_ !! "aud") as [v|] eqn:Hl; [|done]. apply synthetic_lookup in Hl; [|done].
    by destruct Hl as [[? ->]|[[? ->]|[[? ->]|[[? ->]|[[? ->]|(? & -> & _)]]]]].
Qed.

Lemma synthetic_registered now d issuer ttl :
  registered (synthetic_payload now d issuer ttl)
  = mkJwtClaims issuer (ad_SubjectDID d) [] (Some (to_unix (time_add now ttl))) None (Some (to_unix now)).
Proof. unfold registered, synthetic_payload. destruct (claim (ad_Claims d) "scope"); by case_bool_decide. Qed.

Lemma synthetic_custom now d issuer ttl :
  custom (synthetic_payload now d issuer ttl)
  = mkCustom (ad_ActingOnBehalfOf d) (default VNull (json_image <$> claim (ad_Claims d) "scope")) (ad_DelegationDepth d).
Proof.
  unfold custom, synthetic_payload. destruct (claim (ad_Claims d) "scope") as [v|].
  - case_bool_decide as Ho; [by rewrite Ho|done].
  - case_bool_decide as Ho; [by rewrite Ho|done].
Qed.

Lemma scopes_validated c s :
  s ∈ normalizeScope (default VNull (json_image <$> claim c "scope")) <-> s <> "" /\ s ∈ ScopeFromClaims c.
Proof.
  destruct c as [m|]; [|by cbn; rewrite elem_of_nil; tauto]. unfold claim. cbn [mbind option_bind].
  destruct (m !! "scope") as [v|] eqn:Hs; cbn [fmap option_fmap option_map default].
  - pose proof (normalizeScope_spec v s) as Hv. unfold ScopeFromClaims in *. rewrite lookup_singleton_eq in Hv. by rewrite Hs.
  - unfold ScopeFromClaims. rewrite Hs. cbn. rewrite elem_of_nil. tauto.
Qed.

(** The dates of a token are in order from the minute before it is minted to a minute after it
    expires, less the fraction of a second. *)
Lemma synthetic_dates now d issuer ttl now' :
  civil_time now -> civil_time (now + ttl)%Z ->
  civil_time now' -> civil_time (now' + minute)%Z -> civil_time (now' - minute)%Z ->
  (now - minute <= now')%Z -> (now' <= now + ttl + minute - second)%Z ->
  within_leeway (registered (synthetic_payload now d issuer ttl)) now' minute.
Proof.
  intros Hn Hx Hn' Hp Hm Hlo Hhi. rewrite synthetic_registered. unfold within_leeway. cbn [jc_Expiry jc_NotBefore jc_IssuedAt].
  assert (Hs : forall t, (t - second < sec_of t * second <= t)%Z)
    by (intros t; pose proof (time_split t); pose proof (nsec_bound t); lia).
  split; [|split; [by intros b Hb|]].
  - intros e [= <-]. rewrite time_add_civil by done. rewrite (time_add_civil now ttl) by done. rewrite unix_to_unix by done.
    specialize (Hs (now + ttl)%Z). lia.
  - intros i [= <-]. rewrite time_add_civil by done. rewrite unix_to_unix by done. specialize (Hs now). lia.
Qed.

(** Up to the claims, the validation of a minted token goes through. *)
Lemma ValidateSyntheticJWT_minted now d s k issuer ttl token get body set now' cfg :
  signer_ok s k -> BuildSyntheticJWT now d (Some s) issuer ttl = Ok token ->
  json_safe (VObj (synthetic_payload now d issuer ttl)) = true ->
  claims_typed (synthetic_payload now d issuer ttl) ->
  "EdDSA" ∈ vd_AllowedAlgs cfg -> vd_JWKSURL cfg <> "" -> get (vd_JWKSURL cfg) = Ok body ->
  decode_body body = Some set -> selectVerificationKey (Some set) "" = Ok (PubEd25519 k) ->
  ValidateSyntheticJWT get now' token cfg
  = let! _ := map_err (fun e => ErrWrap "claim validation: " e "")
      (jose_ValidateWithLeeway (registered (synthetic_payload now d issuer ttl))
         (mkExpected (vd_Issuer cfg) (if bool_decide (vd_Audience cfg = "") then [] else [vd_Audience cfg])) now' minute) in
    let cu := custom (synthetic_payload now d issuer ttl) in
    Ok (mkClaims (ad_SubjectDID d) (cu_OnBehalfOf cu) (normalizeScope (cu_Scope cu)) (cu_DelegationDepth cu)
          (json_image <$> synthetic_payload now d issuer ttl)).
Proof.
  intros [_ Hsig] Hb Hsafe Hty Halg Hurl Hget Hset Hkey.
  apply BuildSyntheticJWT_Ok in Hb as (_ & _ & _ & ht & pt & sg & Hh & Hpt & Hsg & ->).
  destruct (Hsig (signing_input ht pt)) as (sg' & Hsg' & Hver). rewrite Hsg in Hsg'. injection Hsg' as <-.
  unfold ValidateSyntheticJWT, parseAllowedAlgorithms.
  rewrite (bool_decide_eq_false_2 (jwt_token ht pt sg = "")) by (unfold jwt_token; by destruct (b64_encode ht)).
  rewrite (bool_decide_eq_false_2 (vd_JWKSURL cfg = "")) by done.
  rewrite (jose_parse_compact _ _ _ _ _ Hh Halg). cbn [map_err rbind head of_option jh_Algorithm jh_KeyID].
  assert (Hal : isAlgAllowed "EdDSA" (vd_AllowedAlgs cfg) = true).
  { unfold isAlgAllowed. rewrite bool_decide_eq_false_2 by done. case_bool_decide; [done|].
    apply existsb_exists. exists "EdDSA". by rewrite bool_decide_eq_true_2, list_elem_of_In in *. }
  rewrite Hal. unfold fetchJWKS. rewrite Hget. cbn [negb rbind map_err]. rewrite Hset. cbn [of_option rbind map_err].
  rewrite Hkey. cbn [rbind]. rewrite (jose_claims_read _ _ _ _ _ Hpt Hsafe Hty Hver). cbn [map_err rbind].
  by rewrite (synthetic_registered now d issuer ttl).
Qed.

(** C38: What the gateway mints is what a downstream service reads, unless it expects an
    audience.  A synthetic token, checked with the key it was signed with while its dates hold,
    is accepted with the decision's subject, delegator, depth and scopes; but the gateway writes
    no audience, so a service that expects any refuses every token of the gateway. *)
Theorem gateway_token_validates now d s k issuer ttl token get body set now' cfg :
  signer_ok s k -> BuildSyntheticJWT now d (Some s) issuer ttl = Ok token ->
  json_safe (VObj (synthetic_payload now d issuer ttl)) = true ->
  civil_time now -> civil_time (now + ttl)%Z ->
  civil_time now' -> civil_time (now' + minute)%Z -> civil_time (now' - minute)%Z ->
  (now - minute <= now')%Z -> (now' <= now + ttl + minute - second)%Z ->
  "EdDSA" ∈ vd_AllowedAlgs cfg -> vd_Issuer cfg = issuer ->
  vd_JWKSURL cfg <> "" -> get (vd_JWKSURL cfg) = Ok body -> decode_body body = Some set ->
  selectVerificationKey (Some set) "" = Ok (PubEd25519 k) ->
  (vd_Audience cfg = "" -> exists c, ValidateSyntheticJWT get now' token cfg = Ok c
     /\ cm_Subject c = ad_SubjectDID d /\ cm_OnBehalfOf c = ad_ActingOnBehalfOf d
     /\ cm_DelegationDepth c = ad_DelegationDepth d
     /\ forall sc, sc ∈ cm_Scope c <-> sc <> "" /\ sc ∈ ScopeFromClaims (ad_Claims d))
  /\ (vd_Audience cfg <> "" -> is_ok (ValidateSyntheticJWT get now' token cfg) = false).
Proof.
  intros Hs Hb Hsafe Hn Hx Hn' Hp Hm Hlo Hhi Halg Hiss Hurl Hget Hset Hkey.
  assert (Hty : claims_typed (synthetic_payload now d issuer ttl))
    by (apply synthetic_typed; [done|by rewrite time_add_civil]).
  rewrite (ValidateSyntheticJWT_minted now d s k issuer ttl token get body set now' cfg) by done.
  set (cfg_aud := if bool_decide (vd_Audience cfg = "") then _ else _).
  pose proof (jose_validate (registered (synthetic_payload now d issuer ttl)) (mkExpected (vd_Issuer cfg) cfg_aud) now' minute) as Hval.
  cbn [ex_Issuer ex_AnyAudience] in Hval. split.
  - intros Ha. subst cfg_aud. rewrite bool_decide_eq_true_2 in * by done.
    destruct (jose_ValidateWithLeeway _ _ _ _) as [[]|e].
    + cbn [map_err rbind]. rewrite synthetic_custom. eexists. split; [done|]. cbn.
      do 3 (split; [done|]). apply scopes_validated.
    + exfalso. assert (false = true) as [=]. apply Hval. split; [right; by rewrite synthetic_registered|].
      split; [by left|by apply synthetic_dates].
  - intros Ha. subst cfg_aud. rewrite bool_decide_eq_false_2 in * by done.
    destruct (jose_ValidateWithLeeway _ _ _ _) as [[]|e]; [|done]. exfalso.
    destruct (proj1 Hval eq_refl) as (_ & [[=]|(a & _ & Hin)] & _). rewrite synthetic_registered in Hin. by apply elem_of_nil in Hin.
Qed.
End props.

(** ** Instances *)

(** Objects are written with their integers. *)
#[local] Instance exact_json : Json (gmap string gval) := {|
  json_marshal m := Ok ("o" +:+ pos_to_string (@encode _ _ object_countable m));
  json_unmarshal s :=
    if has_prefix s "o" then
      of_option (ErrText "invalid character")
        ((fun m : gmap string gval => json_image <$> m) <$> @decode _ _ object_countable (pos_of_string (drop_bytes 1 s)))
    else Err (ErrText "cannot unmarshal");
|}.

Lemma exact_read m : json_marshal m = Ok ("o" +:+ pos_to_string (@encode _ _ object_countable m)).
Proof. reflexivity. Qed.

#[local] Instance exact_json_law safe : JsonLaw (gmap string gval) safe (fmap json_image).
Proof.
  intros m _. eexists. split; [apply exact_read|]. cbn [json_unmarshal exact_json].
  rewrite has_prefix_app. change 1%nat with (String.length "o"). by rewrite drop_bytes_app, pos_of_to_string, decode_encode.
Qed.

Definition exact_object (s : string) : option (gmap string gval) :=
  @decode _ _ object_countable (pos_of_string (drop_bytes 1 s)).

Definition dates_hold (c : jwt_claims) (now : time) (leeway : duration) : bool :=
  from_option (fun e => (time_add now (- leeway) <=? unix_time e)%Z) true (jc_Expiry c)
  && from_option (fun b => (unix_time b <=? time_add now leeway)%Z) true (jc_NotBefore c)
  && from_option (fun i => (unix_time i <=? time_add now leeway)%Z) true (jc_IssuedAt c).

#[local] Instance plain_jose : GoJose := {|
  jose_ParseSigned token algs :=
    if bool_decide ("EdDSA" ∈ algs) then Ok [mkJwtHeader "EdDSA" ""] else Err (ErrText "unexpected signature algorithm");
  jose_Claims token key :=
    match split_on "."%char token, key with
    | [h; p; s], PubEd25519 k =>
        let! ht := of_option (ErrText "") (b64_decode h) in
        let! pt := of_option (ErrText "") (b64_decode p) in
        let! sg := of_option (ErrText "") (b64_decode s) in
        stop! negb (ed25519_verify k (signing_input ht pt) sg) with ErrText "" in
        let! m := of_option (ErrText "") (exact_object pt) in
        Ok (registered m, custom m, json_image <$> m)
    | _, _ => Err (ErrText "")
    end;
  jose_Valid _ := true;
  jose_Key set kid := filter (fun k => jk_KeyID k = kid) set;
  jose_ValidateWithLeeway c e now leeway :=
    if (bool_decide (ex_Issuer e = "") || bool_decide (ex_Issuer e = jc_Issuer c))
       && (bool_decide (ex_AnyAudience e = []) || existsb (fun a => bool_decide (a ∈ jc_Audience c)) (ex_AnyAudience e))
       && dates_hold c now leeway
    then Ok tt else Err (ErrText "");
|}.

Lemma dates_hold_spec c now leeway : dates_hold c now leeway = true <-> within_leeway c now leeway.
Proof.
  unfold dates_hold, within_leeway.
  destruct (jc_Expiry c), (jc_NotBefore c), (jc_IssuedAt c); cbn; rewrite ?andb_true_iff, ?Z.leb_le; naive_solver.
Qed.

#[local] Instance plain_jose_laws : GoJoseLaws.
Proof.
  split.
  - intros token algs hs Hp. cbn in Hp. case_bool_decide; [|done]. injection Hp as <-. by repeat constructor.
  - intros ht pt sg typ algs _ Ha. cbn. by rewrite bool_decide_eq_true_2.
  - done.
  - intros token k out Hc. cbn in Hc. destruct (split_on _ _) as [|h [|p [|s [|? ?]]]] eqn:Hsp; try done.
    bind_inv Hc as ht Hh. bind_inv Hc as pt Hp. bind_inv Hc as sg Hs. stop_inv Hc as Hv. ok_simp Hh. ok_simp Hp.
    ok_simp Hs. apply negb_false_iff in Hv. exists h, p, s, ht, pt, sg. done.
  - intros ht pt sg k m Hm _ _ Hv. injection Hm as <-. cbn. rewrite split_jwt_token, !b64_roundtrip. cbn [of_option rbind].
    rewrite Hv. unfold exact_object. cbn [negb andb drop_bytes String.append].
    by rewrite pos_of_to_string, decode_encode.
  - intros c e now leeway. cbn. rewrite <- dates_hold_spec.
    assert (Ha : existsb (fun a => bool_decide (a ∈ jc_Audience c)) (ex_AnyAudience e) = true
      <-> exists a, a ∈ ex_AnyAudience e /\ a ∈ jc_Audience c).
    { rewrite existsb_exists. split; intros (a & Hin & Hau); exists a.
      - apply bool_decide_eq_true in Hau. by apply list_elem_of_In in Hin.
      - rewrite bool_decide_eq_true, <- list_elem_of_In. done. }
    rewrite <- Ha. destruct (_ && _ && _)%bool eqn:Hb.
    + rewrite !andb_true_iff, !orb_true_iff, !bool_decide_eq_true in Hb. cbn. tauto.
    + split; [done|]. intros (H1 & H2 & H3). apply not_true_iff_false in Hb. destruct Hb.
      rewrite !andb_true_iff, !orb_true_iff, !bool_decide_eq_true. done.
Qed.

#[local] Instance one_jwk : BodyDecoder (list JSONWebKey) := fun _ => Some [mkJSONWebKey "k" (PubEd25519 alice_key)].

Definition downstream (audience : string) : ValidationConfig :=
  mkValidation "did:ex:gw" audience ["EdDSA"] "https://gw/jwks".

Definition bob_decision : AuthzDecision :=
  mkDecision true "did:ex:bob" "did:ex:alice" 1 (Some {["scope" := VStrs ["read"]]}) "".

Lemma gateway_token_validates_witness :
  exists token, BuildSyntheticJWT t0 bob_decision (Some alice) "did:ex:gw" minute = Ok token
    /\ (exists c, ValidateSyntheticJWT (fun _ => Ok "") t0 token (downstream "") = Ok c
          /\ cm_Subject c = "did:ex:bob" /\ cm_OnBehalfOf c = "did:ex:alice")
    /\ is_ok (ValidateSyntheticJWT (fun _ => Ok "") t0 token (downstream "api")) = false.
Proof.
  destruct (BuildSyntheticJWT t0 bob_decision (Some alice) "did:ex:gw" minute) as [token|e] eqn:Hb;
    [|assert (Hok : is_ok (BuildSyntheticJWT t0 bob_decision (Some alice) "did:ex:gw" minute) = true)
        by (vm_compute; reflexivity); rewrite Hb in Hok; discriminate Hok].
  exists token. split; [reflexivity|].
  assert (Hv : forall aud,
    (vd_Audience (downstream aud) = "" -> exists c, ValidateSyntheticJWT (fun _ => Ok "") t0 token (downstream aud) = Ok c
       /\ cm_Subject c = "did:ex:bob" /\ cm_OnBehalfOf c = "did:ex:alice" /\ cm_DelegationDepth c = 1%Z
       /\ forall sc, sc ∈ cm_Scope c <-> sc <> "" /\ sc ∈ ScopeFromClaims (ad_Claims bob_decision))
    /\ (vd_Audience (downstream aud) <> "" -> is_ok (ValidateSyntheticJWT (fun _ => Ok "") t0 token (downstream aud)) = false)).
  { intros aud. apply (gateway_token_validates t0 bob_decision alice alice_key "did:ex:gw" minute token (fun _ => Ok "") ""
      [mkJSONWebKey "k" (PubEd25519 alice_key)] t0 (downstream aud)); try reflexivity; try exact Hb.
    - apply plain_signer_ok.
    - split; vm_compute; [discriminate|reflexivity].
    - split; vm_compute; [discriminate|reflexivity].
    - split; vm_compute; [discriminate|reflexivity].
    - split; vm_compute; [discriminate|reflexivity].
    - split; vm_compute; [discriminate|reflexivity].
    - vm_compute. discriminate.
    - vm_compute. discriminate.
    - left.
    - discriminate. }
  split.
  - destruct (proj1 (Hv "") eq_refl) as (c & Hc & Hsub & Hobo & _). exists c. split; [exact Hc|]. split; [exact Hsub|exact Hobo].
  - apply (proj2 (Hv "api")). discriminate.
Defined.

Lemma ValidateSyntheticJWT_sound_witness :
  exists token c std cu raw, ValidateSyntheticJWT (fun _ => Ok "") t0 token (downstream "") = Ok c
    /\ jose_Claims token (PubEd25519 alice_key) = Ok (std, cu, raw)
    /\ jc_Issuer std = "did:ex:gw" /\ within_leeway std t0 minute.
Proof.
  destruct (BuildSyntheticJWT t0 bob_decision (Some alice) "did:ex:gw" minute) as [token|e] eqn:Hb;
    [|assert (Hok : is_ok (BuildSyntheticJWT t0 bob_decision (Some alice) "did:ex:gw" minute) = true)
        by (vm_compute; reflexivity); rewrite Hb in Hok; discriminate Hok].
  assert (Hok : is_ok (let! token := BuildSyntheticJWT t0 bob_decision (Some alice) "did:ex:gw" minute in
    ValidateSyntheticJWT (fun _ => Ok "") t0 token (downstream "")) = true) by (vm_compute; reflexivity).
  rewrite Hb in Hok. cbn [rbind] in Hok.
  destruct (ValidateSyntheticJWT (fun _ => Ok "") t0 token (downstream "")) as [c|e] eqn:Hc; [|discriminate Hok].
  destruct (ValidateSyntheticJWT_sound (fun _ => Ok "") t0 token (downstream "") c Hc)
    as (hs & h & body & set & key & std & cu & raw & _ & _ & _ & _ & Hset & Hin & _ & _ & Hcl & _ & Hiss & _ & Hd & _).
  injection Hset as <-. apply list_elem_of_singleton in Hin as ->.
  exists token, c, std, cu, raw. split; [exact Hc|]. split; [exact Hcl|]. split; [apply Hiss; discriminate|exact Hd].
Defined.
