(* ===== verification/Sdk.v ===== *)
(** * The Go SDK.

    Models sdk/go: the client of the two services, its agent helpers and its small facade.
    What comes back for the n-th request of a call is an argument, and so are the readings of
    the clock; requests and responses are written and read by [Json] and [BodyDecoder]. *)

From S2P Require Import Prelude GoStrings Base64 GoTime Errors Values Crypto Credential.
From S2P Require Import Delegation Config Server.
From Stdlib Require Import ZArith Ascii String SpecFloat Lia.
From stdpp Require Import gmap list strings.

Local Open Scope string_scope.

(** ** Types *)

(** Source: sdk/go/types.go, [IssueRequest]. *)
Record IssueRequest := mkIssue {
  ir_SubjectDID : string;
  ir_TTLSeconds : Z;
  ir_Claims : claims_map;
  ir_Format : string;
}.

(** Source: sdk/go/types.go, [IssueResponse]. *)
Record IssueResponse := mkIssued {
  is_Credential : string;
  is_Disclosures : list string;
  is_Format : string;
  is_APIVersion : string;
}.

(** Source: sdk/go/types.go, [DelegateRequest]. *)
Record DelegateRequest := mkDelegate {
  dr_ParentCredential : string;
  dr_DelegateDID : string;
  dr_Scope : list string;
  dr_TTLSeconds : Z;
  dr_Claims : claims_map;
}.

(** Source: sdk/go/types.go, [DelegateResponse]. *)
Record DelegateResponse := mkDelegated {
  dl_Credential : string;
  dl_APIVersion : string;
}.

(** Source: sdk/go/types.go, [VerifyRequest]. *)
Record VerifyRequest := mkVerify {
  vq_Credential : string;
  vq_Credentials : list string;
  vq_ExpectedAudience : string;
  vq_Disclosures : list string;
  vq_Format : string;
}.

(** Source: sdk/go/types.go, [VerifyResponse]. *)
Record VerifyResponse := mkVerified {
  vp_Valid : bool;
  vp_Subject : string;
  vp_Issuer : string;
  vp_ExpiresAt : time;
  vp_ActingOnBehalfOf : string;
  vp_DelegationDepth : Z;
  vp_Claims : claims_map;
  vp_SyntheticJWT : string;
  vp_APIVersion : string;
}.

(** Source: sdk/go/types.go, [AuthorizeRequest]. *)
Record AuthorizeRequest := mkAuthorize {
  aq_Credential : string;
  aq_Credentials : list string;
  aq_ExpectedAudience : string;
  aq_Resource : string;
  aq_Action : string;
  aq_WantSyntheticJWT : bool;
}.

(** Source: sdk/go/types.go, [GatewayAgentContext]. *)
Record GatewayAgentContext := mkAgentContext {
  gc_ActingOnBehalfOf : string;
  gc_DelegationDepth : Z;
  gc_Scope : list string;
}.

(** Source: sdk/go/types.go, [AuthorizeResponse]. *)
Record AuthorizeResponse := mkAuthorized {
  ap_Allowed : bool;
  ap_Subject : string;
  ap_ActingOnBehalfOf : string;
  ap_DelegationDepth : Z;
  ap_Claims : claims_map;
  ap_Reason : string;
  ap_SyntheticJWT : string;
  ap_Agent : option GatewayAgentContext;
  ap_APIVersion : string;
}.

(** Source: sdk/go/types.go, [APIError]. *)
Record APIError := mkAPIError {
  ae_Error : string;
  ae_Description : string;
  ae_Code : string;
  ae_APIVersion : string;
}.

(** ** The client *)

(** Source: sdk/go/client.go, [Client]. *)
Record Client := mkClient { cl_IssuerURL : string; cl_VerifierURL : string; cl_GatewayURL : string }.

(** Source: sdk/go/client.go, [NewClientFromEnv]. *)
Definition NewClientFromEnv (env : string -> string) : Client :=
  mkClient (env "ISSUER_URL") (env "VERIFIER_URL") (env "GATEWAY_URL").

(** Source: sdk/go/client.go, [NewLocalDevClient]. *)
Definition NewLocalDevClient : Client :=
  mkClient "http://localhost:8080" "http://localhost:8081" "http://localhost:8081".

(** Source: sdk/go/errors.go, [mapStatusToError]. *)
Definition mapStatusToError (status : Z) : sentinel :=
  if (status =? 400)%Z then ErrInvalidCredential
  else if (status =? 401)%Z || (status =? 403)%Z then ErrUnauthorized
  else if (500 <=? status)%Z then ErrServerError
  else ErrNetwork.

(** Source: sdk/go/client.go, [buildURL]. *)
Definition buildURL (base path : string) : result error string :=
  stop! bool_decide (base = "") with ErrText "base URL is required" in
  let trimmed := trim_suffix base "/" in
  Ok (if has_prefix path "/" then trimmed +:+ path else trimmed +:+ "/" +:+ path).

Record http_request := mkHttpRequest {
  hq_Method : string;
  hq_URL : string;
  hq_Header : gmap string string;
  hq_Body : string;
}.

Record http_reply := mkHttpReply { hp_Status : Z; hp_Body : string }.

(** [httpClient().Do]: the client that is configured, or one with a timeout. *)
Definition network : Type := http_request -> result error http_reply.

Section client.
Context `{NewRequest, BodyDecoder APIError}.

(** Source: sdk/go/client.go, [decodeAPIError]. *)
Definition decodeAPIError (resp : http_reply) : error :=
  let sentinel := ErrVar (mapStatusToError (hp_Status resp)) in
  match (decode_body (hp_Body resp) : option APIError) with
  | Some apiErr =>
      if bool_decide (ae_Error apiErr = "") then sentinel else ErrWrap "" sentinel (": " +:+ ae_Error apiErr)
  | None => sentinel
  end.

(** The headers of a call.
    Source: sdk/go/client.go:138-139, [Client.post]. *)
Definition call_headers : gmap string string :=
  {["Content-Type" := "application/json"; "Accept" := "application/json"]}.

(** Every caller asks for the answer: [out] is never nil.
    Source: sdk/go/client.go, [Client.post]. *)
Definition post {Req Resp} `{Json Req, BodyDecoder Resp} (net : network) (baseURL path : string)
    (payload : Req) : result error Resp :=
  let! fullURL := buildURL baseURL path in
  let! bodyBytes := map_err (fun e => ErrWrap "marshal request: " e "") (json_marshal payload) in
  let! _ := map_err (fun e => ErrWrap "create request: " e "") (new_request "POST" fullURL) in
  let! resp := map_err (fun e => ErrWrap "" (ErrVar ErrNetwork) (": " +:+ error_text e))
                 (net (mkHttpRequest "POST" fullURL call_headers bodyBytes)) in
  stop! (300 <=? hp_Status resp)%Z with decodeAPIError resp in
  of_option (ErrText "decode response") (decode_body (hp_Body resp)).

Context `{Json IssueRequest, Json DelegateRequest, Json VerifyRequest, Json AuthorizeRequest}.
Context `{BodyDecoder IssueResponse, BodyDecoder DelegateResponse, BodyDecoder VerifyResponse,
  BodyDecoder AuthorizeResponse}.

(** Source: sdk/go/client.go, [Client.issue]. *)
Definition issue (c : Client) (net : network) (req : IssueRequest) : result error IssueResponse :=
  post net (cl_IssuerURL c) "/v1/credentials/issue" req.

Definition with_format (req : IssueRequest) (format : string) : IssueRequest :=
  mkIssue (ir_SubjectDID req) (ir_TTLSeconds req) (ir_Claims req) format.

(** Source: sdk/go/client.go, [Client.IssueVC]. *)
Definition IssueVC (c : Client) (net : network) (req : IssueRequest) : result error IssueResponse :=
  issue c net (with_format req "jwt-vc").

(** Source: sdk/go/client.go, [Client.IssueSDJWT]. *)
Definition IssueSDJWT (c : Client) (net : network) (req : IssueRequest) : result error IssueResponse :=
  issue c net (with_format req "sd-jwt").

(** Source: sdk/go/issuer.go, [Client.IssueCredential]. *)
Definition IssueCredential (c : Client) (net : network) (req : IssueRequest) : result error IssueResponse :=
  post net (cl_IssuerURL c) "/v1/credentials/issue" req.

(** Source: sdk/go/client.go, [Client.VerifyWithOptions]. *)
Definition VerifyWithOptions (c : Client) (net : network) (req : VerifyRequest) : result error VerifyResponse :=
  post net (cl_VerifierURL c) "/v1/credentials/verify" req.

(** Source: sdk/go/client.go, [Client.Verify]. *)
Definition Verify (c : Client) (net : network) (credential : string) : result error VerifyResponse :=
  VerifyWithOptions c net (mkVerify credential [] "" [] "").

(** Source: sdk/go/client.go, [Client.Authorize]. *)
Definition Authorize (c : Client) (net : network) (req : AuthorizeRequest) : result error AuthorizeResponse :=
  let base := if bool_decide (cl_GatewayURL c = "") then cl_VerifierURL c else cl_GatewayURL c in
  post net base "/v1/gateway/authorize" req.

(** Source: sdk/go/client.go, [Client.DelegateCredential]. *)
Definition DelegateCredential (c : Client) (net : network) (req : DelegateRequest) : result error DelegateResponse :=
  post net (cl_IssuerURL c) "/v1/credentials/delegate" req.

(** ** The facade *)

(** Source: sdk/go/magic.go, [MagicClient]. *)
Record MagicClient := mkMagic { mg_core : Client }.

(** Source: sdk/go/magic.go, [NewMagicClient]. *)
Definition NewMagicClient (issuerURL verifierURL gatewayURL : string) : MagicClient :=
  mkMagic (mkClient issuerURL verifierURL gatewayURL).

(** Source: sdk/go/magic.go, [NewMagicLocalClient]. *)
Definition NewMagicLocalClient : MagicClient :=
  NewMagicClient "http://localhost:8080" "http://localhost:8081" "http://localhost:8081".

(** Source: sdk/go/magic.go, [NewMagicClientFromEnv]. *)
Definition NewMagicClientFromEnv (env : string -> string) : MagicClient :=
  let base := NewClientFromEnv env in
  let or s d := if bool_decide (s = "") then d else s in
  let verifierURL := or (cl_VerifierURL base) "http://localhost:8081" in
  mkMagic (mkClient (or (cl_IssuerURL base) "http://localhost:8080") verifierURL (or (cl_GatewayURL base) verifierURL)).

(** Source: sdk/go/magic.go, [MagicClient.IssueVC]. *)
Definition MagicClient_IssueVC (m : MagicClient) (net : network) (subjectDID : string) (ttlSeconds : Z)
    (claims : claims_map) : result error string :=
  let! resp := IssueVC (mg_core m) net (mkIssue subjectDID ttlSeconds claims "") in
  Ok (is_Credential resp).

(** Source: sdk/go/magic.go, [MagicClient.SpawnAgent]. *)
Definition SpawnAgent (m : MagicClient) (net : network) (parentCredential agentDID : string)
    (scope : list string) (ttlSeconds : Z) (claims : claims_map) : result error string :=
  let! resp := DelegateCredential (mg_core m) net (mkDelegate parentCredential agentDID scope ttlSeconds claims) in
  Ok (dl_Credential resp).

(** Source: sdk/go/magic.go, [MagicClient.Verify]. *)
Definition MagicClient_Verify (m : MagicClient) (net : network) (credential expectedAudience : string)
  : result error VerifyResponse :=
  VerifyWithOptions (mg_core m) net (mkVerify credential [] expectedAudience [] "").

(** Source: sdk/go/magic.go, [MagicClient.Authorize]. *)
Definition MagicClient_Authorize (m : MagicClient) (net : network) (credentials : list string)
    (resource action expectedAudience : string) (wantSyntheticJWT : bool) : result error AuthorizeResponse :=
  Authorize (mg_core m) net (mkAuthorize "" credentials expectedAudience resource action wantSyntheticJWT).
End client.

(** ** Properties *)

Section props.
Context `{NewRequest, BodyDecoder APIError}.
Context {Req Resp : Type} `{Json Req, BodyDecoder Resp}.

Lemma decodeAPIError_is resp v : error_is (decodeAPIError resp) v = bool_decide (mapStatusToError (hp_Status resp) = v).
Proof. unfold decodeAPIError. destruct (decode_body _) as [e|]; [|done]. by destruct (bool_decide _). Qed.

(** What a caller of the SDK can tell from an error.  Once a request can be made, the answer
    decides: no answer is a network error; a status of 300 and above is an error of exactly one
    kind, which its status determines; any other answer is the decoded body or, when it cannot
    be decoded, an error of none of the four kinds. *)
Theorem post_classifies (net : network) base path (payload : Req) url text :
  buildURL base path = Ok url -> new_request "POST" url = Ok tt -> json_marshal payload = Ok text ->
  match net (mkHttpRequest "POST" url call_headers text) with
  | Err _ => exists e, post net base path payload = (Err e : result error Resp) /\ error_is e ErrNetwork = true
  | Ok reply =>
      if (300 <=? hp_Status reply)%Z
      then exists e, post net base path payload = (Err e : result error Resp)
             /\ forall v, error_is e v = bool_decide (mapStatusToError (hp_Status reply) = v)
      else match decode_body (hp_Body reply) with
           | Some out => post net base path payload = Ok (out : Resp)
           | None => exists e, post net base path payload = (Err e : result error Resp) /\ forall v, error_is e v = false
           end
  end.
Proof.
  intros Hu Hn Hm. unfold post. rewrite Hu. cbn [rbind]. rewrite Hm. cbn [map_err rbind]. rewrite Hn. cbn [map_err rbind].
  destruct (net _) as [reply|e]; cbn [map_err rbind].
  - destruct (300 <=? hp_Status reply)%Z.
    + eexists. split; [done|]. intros v. apply decodeAPIError_is.
    + destruct (decode_body _) as [out|]; cbn; [done|]. by eexists.
  - eexists. by split.
Qed.

(** The error of an answer that refuses. *)
Lemma post_refused net base path (payload : Req) url text reply :
  buildURL base path = Ok url -> new_request "POST" url = Ok tt -> json_marshal payload = Ok text ->
  net (mkHttpRequest "POST" url call_headers text) = Ok reply -> (300 <= hp_Status reply)%Z ->
  post net base path payload = (Err (decodeAPIError reply) : result error Resp).
Proof.
  intros Hu Hn Hm Hr Hs. unfold post. rewrite Hu. cbn [rbind]. rewrite Hm. cbn [map_err rbind]. rewrite Hn. cbn [map_err rbind].
  rewrite Hr. cbn [map_err rbind]. by rewrite (proj2 (Z.leb_le _ _) Hs).
Qed.

(** What it takes for a call to succeed. *)
Lemma post_Ok net base path (payload : Req) (out : Resp) :
  post net base path payload = Ok out ->
  exists url text reply, buildURL base path = Ok url /\ new_request "POST" url = Ok tt /\ json_marshal payload = Ok text
    /\ net (mkHttpRequest "POST" url call_headers text) = Ok reply /\ (hp_Status reply < 300)%Z
    /\ decode_body (hp_Body reply) = Some out.
Proof.
  unfold post. intros Hp. bind_inv Hp as url Hu. bind_inv Hp as text Hm. ok_simp Hm. bind_inv Hp as u Hn. ok_simp Hn. destruct u.
  bind_inv Hp as reply Hr. ok_simp Hr. stop_inv Hp as Hs. ok_simp Hp. exists url, text, reply. repeat split; try done. lia.
Qed.
End props.

(** ** Instances *)

#[local] Instance any_url : NewRequest := fun _ _ => Ok tt.
#[local] Instance bare_error : BodyDecoder APIError := fun text => Some (mkAPIError text "" "" "").
#[local] Instance bare_verify : Json VerifyRequest := {|
  json_marshal r := Ok (vq_Credential r);
  json_unmarshal s := Ok (mkVerify s [] "" [] "");
|}.
#[local] Instance no_response : BodyDecoder VerifyResponse := fun _ => None.

(** A rate-limited request passes for a failure of the network. *)
Lemma post_classifies_witness :
  exists e, VerifyWithOptions NewLocalDevClient (fun _ => Ok (mkHttpReply 429 "rate_limited")) (mkVerify "token" [] "" [] "")
    = Err e /\ error_is e ErrNetwork = true.
Proof.
  assert (Hm : json_marshal (mkVerify "token" [] "" [] "") = Ok "token") by reflexivity.
  destruct (post_classifies (Resp := VerifyResponse) (fun _ => Ok (mkHttpReply 429 "rate_limited"))
    "http://localhost:8081" "/v1/credentials/verify"
    (mkVerify "token" [] "" [] "") "http://localhost:8081/v1/credentials/verify" "token" eq_refl eq_refl Hm)
    as (e & He & Hv).
  exists e. split; [exact He|]. exact (Hv ErrNetwork).
Defined.
