(* ===== verification/SdkAgent.v ===== *)
(** * Agent sessions.

    Models sdk/go/agent.go: a session is a delegated credential, refreshed when it has expired
    and spent at the gateway before each call. *)

From S2P Require Import Prelude GoStrings Base64 GoTime Errors Values Crypto Credential Instances.
From S2P Require Import Delegation SDJwt Verify Issue IssueFacts Policy Config Http Trust Gateway GatewayProps ChainExample Server Sdk.
From Stdlib Require Import ZArith Ascii String SpecFloat Lia.
From stdpp Require Import gmap list strings.

Local Open Scope string_scope.

(** Source: sdk/go/agent.go, [AgentSession]. *)
Record AgentSession := mkSession {
  se_AgentDID : string;
  se_AccessToken : string;
  se_ExpiresAt : time;
  se_ParentToken : string;
  se_Scope : list string;
}.

(** The members of a payload the SDK looks for.
    Source: sdk/go/agent.go, [credentialPayload]. *)
Record credentialPayload := mkCredentialPayload {
  cp_Subject : string;
  cp_ExpiresAt : time;
  cp_Claims : claims_map;
  cp_Scope : list string;
}.

(** The client inside, unless it is nil.
    Source: sdk/go/agent.go, [AgentClient]. *)
Record AgentClient := mkAgentClient { agent_SDK : option Client }.

(** Source: sdk/go/agent.go, [scopeFromClaims]. *)
Definition scopeFromClaims (claims : claims_map) : list string :=
  match claims with
  | None => []
  | Some m =>
      match m !! "scope" with
      | Some (VStrs v) => v
      | Some (VArr v) => string_items v
      | Some (VStr v) => [v]
      | _ => []
      end
  end.

(** Source: sdk/go/agent.go, [isScopeSubset]. *)
Definition isScopeSubset (parentScope childScope : list string) : bool :=
  if bool_decide (childScope = []) then true
  else
    let parentSet : gset string := list_to_set parentScope in
    forallb (fun s => bool_decide (s ∈ parentSet)) childScope.

(** Source: sdk/go/agent.go, [clampTTL]. *)
Definition clampTTL (now : time) (requested : duration) (parentExpiry : time) : duration :=
  if is_zero parentExpiry then requested
  else
    let remaining := time_sub parentExpiry now in
    if (remaining <=? 0)%Z then 0%Z
    else if (requested <=? 0)%Z || (remaining <? requested)%Z then remaining
    else requested.

(** [d.Seconds()] *)
Definition duration_seconds (d : duration) : spec_float :=
  SFadd 53 1024 (float_of_Z (Z.quot d second))
    (SFdiv 53 1024 (float_of_Z (Z.rem d second)) (float_of_Z second)).

Section agent.
Context `{NewRequest, BodyDecoder APIError}.
Context `{Json DelegateRequest, Json AuthorizeRequest, BodyDecoder DelegateResponse, BodyDecoder AuthorizeResponse}.
Context `{Json credentialPayload}.

(** Source: sdk/go/agent.go, [decodeCredentialPayload]. *)
Definition decodeCredentialPayload (token : string) : result error credentialPayload :=
  match split_on "."%char token with
  | _ :: part :: _ =>
      let! payloadBytes := of_option (ErrText "decode payload: illegal base64 data") (b64_decode part) in
      let! payload := map_err (fun e => ErrWrap "unmarshal payload: " e "") (json_unmarshal payloadBytes) in
      Ok (mkCredentialPayload (cp_Subject payload) (cp_ExpiresAt payload) (cp_Claims payload)
            (scopeFromClaims (cp_Claims payload)))
  | _ => Err (ErrText "invalid token format")
  end.

(** Source: sdk/go/agent.go, [AgentClient.StartAgentSession]. *)
Definition StartAgentSession (a : AgentClient) (now : time) (net : network) (parentToken agentDID : string)
    (scope : list string) (ttl : duration) : result error AgentSession :=
  let! sdk := of_option (ErrText "sdk client is required") (agent_SDK a) in
  stop! bool_decide (parentToken = "") with ErrText "parent token is required" in
  stop! bool_decide (agentDID = "") with ErrText "agent did is required" in
  let! parent := map_err (fun e => ErrWrap "parse parent token: " e "") (decodeCredentialPayload parentToken) in
  stop! negb (isScopeSubset (cp_Scope parent) scope) with ErrText "scope must be subset of parent" in
  let ttl := clampTTL now ttl (cp_ExpiresAt parent) in
  stop! (ttl <=? 0)%Z with ErrText "ttl must be positive and within parent" in
  let! resp := DelegateCredential sdk net
    (mkDelegate parentToken agentDID scope (int_of_float (duration_seconds ttl)) None) in
  let! child := map_err (fun e => ErrWrap "parse delegated credential: " e "") (decodeCredentialPayload (dl_Credential resp)) in
  Ok (mkSession agentDID (dl_Credential resp) (cp_ExpiresAt child) parentToken scope).

(** [at_expired], [at_refresh] and [at_clamp] are three readings of the clock, in this order. *)
Record moments := mkMoments { at_expired : time; at_refresh : time; at_clamp : time }.

(** The session, refreshed in place.
    Source: sdk/go/agent.go, [AgentClient.RefreshAgentSession]. *)
Definition RefreshAgentSession (a : AgentClient) (ck : moments) (net : network) (session : option AgentSession)
  : result error AgentSession :=
  let! session := of_option (ErrText "session is required") session in
  let! newSession := StartAgentSession a (at_clamp ck) net (se_ParentToken session) (se_AgentDID session)
    (se_Scope session) (time_sub (se_ExpiresAt session) (at_refresh ck)) in
  Ok (mkSession (se_AgentDID session) (se_AccessToken newSession) (se_ExpiresAt newSession)
        (se_ParentToken session) (se_Scope session)).

(** The call itself, with the token of the gateway.
    Source: sdk/go/agent.go:114-134, [AgentClient.CallAuthorized]. *)
Definition call_service {B} `{Json B} (net : network) (method url : string) (body : option B)
    (decision : AuthorizeResponse) : result error http_reply :=
  let! bodyReader :=
    match body with
    | Some b => map_err (fun e => ErrWrap "marshal body: " e "") (json_marshal b)
    | None => Ok ""
    end in
  let! _ := new_request method url in
  let header : gmap string string := {["Authorization" := "Bearer " +:+ ap_SyntheticJWT decision]} in
  let header := match body with Some _ => <["Content-Type" := "application/json"]> header | None => header end in
  net (mkHttpRequest method url header bodyReader).

(** What is asked of the gateway.
    Source: sdk/go/agent.go:105-105, [AgentClient.CallAuthorized]. *)
Definition gateway_request (session : AgentSession) : AuthorizeRequest :=
  mkAuthorize "" [se_ParentToken session; se_AccessToken session] "" "" "" true.

(** With the session as it is left.  [net] answers the calls in their order: delegation when the
    session is refreshed, authorization, the service.  Without a client inside it panics.
    Source: sdk/go/agent.go, [AgentClient.CallAuthorized]. *)
Definition CallAuthorized {B} `{Json B} (a : AgentClient) (ck : moments) (net : nat -> network)
    (session : option AgentSession) (method url : string) (body : option B)
  : result fault (result error http_reply * option AgentSession) :=
  match session with
  | None => Ok (Err (ErrText "session is required"), None)
  | Some s =>
      let refreshed := if after (at_expired ck) (se_ExpiresAt s)
                       then RefreshAgentSession a ck (net 0%nat) session else Ok s in
      match refreshed with
      | Err e => Ok (Err e, session)
      | Ok s =>
          let! sdk := of_option Panic (agent_SDK a) in
          Ok (let! decision := Authorize sdk (net 1%nat) (gateway_request s) in
              stop! negb (ap_Allowed decision) with ErrText ("authorization denied: " +:+ ap_Reason decision) in
              call_service (net 2%nat) method url body decision, Some s)
      end
  end.
End agent.

(** ** Properties *)

Lemma isScopeSubset_spec p c : isScopeSubset p c = true <-> (forall s, s ∈ c -> s ∈ p).
Proof. apply IsScopeSubset_spec. Qed.

Lemma scopeFromClaims_same claims : scopeFromClaims claims = ScopeFromClaims claims.
Proof. unfold scopeFromClaims, ScopeFromClaims. destruct claims as [m|]; [|done]. by destruct (m !! "scope") as [[]|]. Qed.

(** A lifetime that is left: the one asked for, within the parent's. *)
Lemma clampTTL_spec now requested expiry :
  let ttl := clampTTL now requested expiry in
  (0 < ttl)%Z ->
  ttl = (if is_zero expiry then requested
         else if (0 <? requested)%Z then Z.min requested (time_sub expiry now) else time_sub expiry now).
Proof.
  cbv zeta. unfold clampTTL. destruct (is_zero expiry); [done|].
  destruct (time_sub expiry now <=? 0)%Z eqn:Hr; [done|]. apply Z.leb_gt in Hr. intros _.
  destruct (0 <? requested)%Z eqn:Hp; breflect.
  - rewrite (proj2 (Z.leb_gt requested 0)) by lia. cbn [orb].
    destruct (time_sub expiry now <? requested)%Z eqn:Hq; breflect; lia.
  - by rewrite (proj2 (Z.leb_le requested 0)) by lia.
Qed.

Section props.
Context `{NewRequest, BodyDecoder APIError}.
Context `{Json DelegateRequest, Json AuthorizeRequest, BodyDecoder DelegateResponse, BodyDecoder AuthorizeResponse}.
Context `{Json credentialPayload}.

(** C29: An agent session asks for no more than the parent has.  When a session is started, the
    one request that was sent named the parent and the agent, scopes the parent carries, and
    the seconds of a positive lifetime: what is left of the parent's, or what was asked for
    when that is positive and less; and exactly what was asked for when the parent tells no
    expiry.  The session holds the credential that came back and its expiry. *)
Theorem agent_session_within_parent a now net parentToken agentDID scope ttl s :
  StartAgentSession a now net parentToken agentDID scope ttl = Ok s ->
  exists sdk parent ttl' resp child,
    agent_SDK a = Some sdk /\ decodeCredentialPayload parentToken = Ok parent
    /\ (forall sc, sc ∈ scope -> sc ∈ ScopeFromClaims (cp_Claims parent))
    /\ (0 < ttl')%Z
    /\ ttl' = (if is_zero (cp_ExpiresAt parent) then ttl
               else if (0 <? ttl)%Z then Z.min ttl (time_sub (cp_ExpiresAt parent) now)
               else time_sub (cp_ExpiresAt parent) now)
    /\ DelegateCredential sdk net
         (mkDelegate parentToken agentDID scope (int_of_float (duration_seconds ttl')) None) = Ok resp
    /\ decodeCredentialPayload (dl_Credential resp) = Ok child
    /\ s = mkSession agentDID (dl_Credential resp) (cp_ExpiresAt child) parentToken scope.
Proof.
  unfold StartAgentSession. intros Hs. bind_inv Hs as sdk Ha. ok_simp Ha. stop_inv Hs as _. stop_inv Hs as _.
  bind_inv Hs as parent Hp. ok_simp Hp. stop_inv Hs as Hsub. stop_inv Hs as Httl. bind_inv Hs as resp Hr.
  bind_inv Hs as child Hc. ok_simp Hc. injection Hs as <-.
  exists sdk, parent, (clampTTL now ttl (cp_ExpiresAt parent)), resp, child. split; [done|]. split; [done|].
  assert (Hpos : (0 < clampTTL now ttl (cp_ExpiresAt parent))%Z) by (apply Z.leb_gt in Httl; lia).
  split; [|split; [done|split; [by apply clampTTL_spec|done]]].
  apply negb_false_iff in Hsub. pose proof (proj1 (isScopeSubset_spec _ _) Hsub) as Hsub'. clear Hsub.
  assert (Hsc : cp_Scope parent = ScopeFromClaims (cp_Claims parent)).
  { unfold decodeCredentialPayload in Hp. destruct (split_on _ _) as [|? [|part ?]]; try done.
    bind_inv Hp as b Hb. bind_inv Hp as q Hq. injection Hp as <-. apply scopeFromClaims_same. }
  by rewrite <- Hsc.
Qed.

(** *** Over the real services *)

(** A W3C payload has none of the members the SDK reads. *)
Definition w3c_unread `{Json VCJWTPayload} : Prop :=
  forall (q : VCJWTPayload) text, json_marshal q = Ok text ->
    json_unmarshal text = Ok (mkCredentialPayload "" zero_time None []).

(** The agent helpers do not understand the credentials the issuer makes.  The payload of a
    W3C credential keeps subject, expiry and claims under other names, so the helper finds no
    scope in the parent: a session with any scope is refused before a request is made, whatever
    the parent allows; and with no scope the lifetime is not limited by the parent's. *)
Theorem agent_ignores_w3c `{Json VCJWTPayload} a now net ht (q : VCJWTPayload) text sg agentDID scope ttl :
  w3c_unread -> json_marshal q = Ok text ->
  (scope <> [] -> is_ok (StartAgentSession a now net (jwt_token ht text sg) agentDID scope ttl) = false)
  /\ clampTTL now ttl zero_time = ttl
  /\ decodeCredentialPayload (jwt_token ht text sg) = Ok (mkCredentialPayload "" zero_time None []).
Proof.
  intros Hw Hm. assert (Hd : decodeCredentialPayload (jwt_token ht text sg) = Ok (mkCredentialPayload "" zero_time None [])).
  { unfold decodeCredentialPayload. rewrite split_jwt_token, b64_roundtrip. cbn [of_option rbind]. by rewrite (Hw q text Hm). }
  split; [|done]. intros Hs. unfold StartAgentSession. destruct (agent_SDK a) as [sdk|]; [|done]. cbn [of_option rbind].
  destruct (bool_decide _); [done|]. destruct (bool_decide (agentDID = "")); [done|]. rewrite Hd. cbn [map_err rbind cp_Scope].
  destruct (isScopeSubset [] scope) eqn:Hsub; [|done]. destruct scope as [|x scope]; [done|].
  exfalso. apply (not_elem_of_nil x). apply (proj1 (isScopeSubset_spec _ _) Hsub). by left.
Qed.
End props.

Section gateway_props.
Context `{NewRequest, BodyDecoder APIError}.
Context `{Json DelegateRequest, Json AuthorizeRequest, BodyDecoder DelegateResponse, BodyDecoder AuthorizeResponse}.
Context `{Json credentialPayload}.
Context `{Json (gmap string gval), Json (list gval), Json VCJWTPayload, Json VerifiableCredential,
  Json GatewayAuthorizeResponse, Sha256, Ed25519}.
Context {T C L : Type} `{TrustRegistry T, DecisionCache C, Limiter L}.
Context `{BodyDecoder GatewayAuthorizeRequest}.

(** What the SDK writes is what the gateway reads: the members have the same names. *)
Definition same_members : Prop := forall (q : AuthorizeRequest) text, json_marshal q = Ok text ->
  decode_body text = Some (Gateway.mkAuthorize (aq_Credential q) (aq_Credentials q) (aq_ExpectedAudience q)
    (aq_WantSyntheticJWT q) (aq_Resource q) (aq_Action q)).

Definition gateway_base (c : Client) : string :=
  if bool_decide (cl_GatewayURL c = "") then cl_VerifierURL c else cl_GatewayURL c.

(** At [url] the network reaches the gateway, in some state and at some time; or nothing. *)
Definition reaches_gateway (net : network) (url : string) : Prop := forall rq,
  hq_Method rq = "POST" -> hq_URL rq = url ->
  (exists e, net rq = Err e)
  \/ exists cfg ck r s o text, handleAuthorize (T := T) (C := C) (L := L) cfg ck r s = Ok o
       /\ r_Method r = "POST" /\ r_Body r = decode_body (hq_Body rq)
       /\ net rq = Ok (mkHttpReply (rs_Status (out_response o)) text).

(** The gateway wants a resource. *)
Lemma handleAuthorize_no_resource cfg ck r s (o : outcome (gateway_state (T := T) (C := C) (L := L)) _) q :
  handleAuthorize cfg ck r s = Ok o -> r_Method r = "POST" -> r_Body r = Some q -> gr_Resource q = "" ->
  rs_Status (out_response o) = 400%Z.
Proof.
  intros Ho Hm Hb Hq. unfold handleAuthorize in Ho. rewrite Hm, Hb in Ho. cbn [negb bool_decide] in Ho.
  rewrite bool_decide_eq_true_2 in Ho by done. cbn [negb] in Ho. unfold validateGatewayRequest in Ho.
  destruct (bool_decide (request_tokens _ _ = [])); [by injection Ho as <-|].
  rewrite Hq, bool_decide_eq_true_2 in Ho by done. by injection Ho as <-.
Qed.

(** The agent helper cannot get a call past the gateway.  It asks for a decision without
    naming a resource or an action, and the gateway refuses such a request as invalid: over a
    network that reaches the gateway, no call is ever made, and when the gateway answers, the
    caller of a session that has not expired sees an invalid credential. *)
Theorem agent_calls_refused {B} `{Json B} a c ck net s method url (body : option B) gw text :
  same_members -> agent_SDK a = Some c -> buildURL (gateway_base c) "/v1/gateway/authorize" = Ok gw ->
  reaches_gateway (net 1%nat) gw ->
  (forall s res s', CallAuthorized a ck net s method url body = Ok (res, s') -> is_ok res = false)
  /\ (after (at_expired ck) (se_ExpiresAt s) = false -> new_request "POST" gw = Ok tt ->
      json_marshal (gateway_request s) = Ok text ->
      is_ok (net 1%nat (mkHttpRequest "POST" gw call_headers text)) = true ->
      exists e, CallAuthorized a ck net (Some s) method url body = Ok (Err e, Some s) /\ error_is e ErrInvalidCredential = true).
Proof.
  intros Hsame Ha Hurl Hgw.
  assert (Hstatus : forall s t reply, json_marshal (gateway_request s) = Ok t ->
    net 1%nat (mkHttpRequest "POST" gw call_headers t) = Ok reply -> hp_Status reply = 400%Z).
  { intros s0 t reply Hm Hr. destruct (Hgw (mkHttpRequest "POST" gw call_headers t) eq_refl eq_refl)
      as [[e He]|(cfg & rd & r & st & o & txt & Ho & Hme & Hb & Hnet)]; [congruence|]. rewrite Hr in Hnet. injection Hnet as ->.
    cbn in Hb. rewrite (Hsame _ _ Hm) in Hb. by apply (handleAuthorize_no_resource _ _ _ _ _ _ Ho Hme Hb). }
  split.
  - intros s0 res s' Hc. unfold CallAuthorized in Hc. destruct s0 as [s0|]; [|by injection Hc as <- <-].
    destruct (if after _ _ then _ else _) as [s1|e]; [|by injection Hc as <- <-]. rewrite Ha in Hc. cbn [of_option rbind] in Hc.
    injection Hc as <- <-. unfold Authorize. fold (gateway_base c).
    destruct (post _ _ _ (gateway_request s1)) as [d|e] eqn:Hp; [|done]. exfalso.
    apply post_Ok in Hp as (u & t & reply & Hu & _ & Hm & Hr & Hlt & _). rewrite Hurl in Hu. injection Hu as <-.
    rewrite (Hstatus _ _ _ Hm Hr) in Hlt. done.
  - intros Hexp Hnr Hm Hok. destruct (net 1%nat _) as [reply|e] eqn:Hr; [|done].
    assert (H400 := Hstatus _ _ _ Hm Hr). exists (decodeAPIError reply). split.
    + unfold CallAuthorized. rewrite Hexp, Ha. cbn [of_option rbind]. unfold Authorize. fold (gateway_base c).
      erewrite post_refused; [done|exact Hurl|exact Hnr|exact Hm|exact Hr|by rewrite H400].
    + by rewrite decodeAPIError_is, H400.
Qed.
End gateway_props.

(** ** Instances *)

#[local] Instance any_url : NewRequest := fun _ _ => Ok tt.
#[local] Instance bare_error : BodyDecoder APIError := fun text => Some (mkAPIError text "" "" "").
#[local] Instance bare_delegate : Json DelegateRequest := {|
  json_marshal r := Ok (dr_ParentCredential r);
  json_unmarshal s := Ok (mkDelegate s "" [] 0 None);
|}.
#[local] Instance bare_delegated : BodyDecoder DelegateResponse := fun text => Some (mkDelegated text "").
#[local] Instance no_decision : BodyDecoder AuthorizeResponse := fun _ => None.

(** W3C payloads have other members; any other text is a payload that alice's is. *)
#[local] Instance members : Json credentialPayload := {|
  json_marshal p := Ok (cp_Subject p);
  json_unmarshal s :=
    if has_prefix s "p" then Ok (mkCredentialPayload "" zero_time None [])
    else Ok (mkCredentialPayload "did:ex:alice" (t0 + hour)%Z (Some {["scope" := VStrs ["read"]]}) []);
|}.

Definition flat_token : string := jwt_token "{}" "flat" "sig".

Definition agent_of (c : Client) : AgentClient := mkAgentClient (Some c).

Definition authorize_request_eq_dec : EqDecision AuthorizeRequest.
Proof. solve_decision. Defined.
#[local] Existing Instance authorize_request_eq_dec.
Definition authorize_request_countable : Countable AuthorizeRequest.
Proof.
  refine (inj_countable' (fun q => (aq_Credential q, aq_Credentials q, aq_ExpectedAudience q, aq_Resource q, aq_Action q, aq_WantSyntheticJWT q))
    (fun '(a, b, c, d, e, f) => mkAuthorize a b c d e f) _). by intros [].
Defined.
#[local] Existing Instance authorize_request_countable.
#[local] Instance authorize_json : Json AuthorizeRequest := code_json "" (fun q => q).

Lemma agent_session_within_parent_witness :
  exists s, StartAgentSession (agent_of NewLocalDevClient) t0 (fun _ => Ok (mkHttpReply 200 flat_token))
      flat_token "did:ex:bot" ["read"] minute = Ok s
    /\ exists parent, decodeCredentialPayload flat_token = Ok parent
    /\ (forall sc, sc ∈ ["read"] -> sc ∈ ScopeFromClaims (cp_Claims parent)).
Proof.
  assert (Hok : is_ok (StartAgentSession (agent_of NewLocalDevClient) t0 (fun _ => Ok (mkHttpReply 200 flat_token))
      flat_token "did:ex:bot" ["read"] minute) = true) by (vm_compute; reflexivity).
  destruct (StartAgentSession (agent_of NewLocalDevClient) t0 (fun _ => Ok (mkHttpReply 200 flat_token))
      flat_token "did:ex:bot" ["read"] minute) as [s|e] eqn:Hs; [|discriminate Hok].
  destruct (agent_session_within_parent _ _ _ _ _ _ _ _ Hs) as (sdk & parent & ttl' & resp & child & _ & Hp & Hsc & _).
  exists s. split; [reflexivity|]. exists parent. split; [exact Hp|exact Hsc].
Defined.

Lemma w3c_is_unread : w3c_unread.
Proof.
  intros q text Hm. injection Hm as <-. cbn [json_unmarshal members].
  change (String "p" (pos_to_string (encode (payload_image q)))) with ("p" +:+ pos_to_string (encode (payload_image q))).
  by rewrite has_prefix_app.
Qed.

Lemma agent_ignores_w3c_witness :
  exists text, json_marshal (basic_payload t0 "id" "did:ex:alice" "did:ex:bob" hour None) = Ok text
    /\ is_ok (StartAgentSession (agent_of NewLocalDevClient) t0 (fun _ => Ok (mkHttpReply 200 flat_token))
         (jwt_token "{}" text "sig") "did:ex:bot" ["read"] minute) = false.
Proof.
  eexists. split; [reflexivity|].
  refine (proj1 (agent_ignores_w3c _ _ _ "{}" (basic_payload t0 "id" "did:ex:alice" "did:ex:bob" hour None) _ "sig" _ _ _
    w3c_is_unread eq_refl) _).
  discriminate.
Defined.

#[local] Instance gateway_reads : BodyDecoder GatewayAuthorizeRequest := fun text =>
  (fun q => Gateway.mkAuthorize (aq_Credential q) (aq_Credentials q) (aq_ExpectedAudience q)
    (aq_WantSyntheticJWT q) (aq_Resource q) (aq_Action q)) <$> to_option (json_unmarshal text : result error AuthorizeRequest).

(** The request as it arrives, and the gateway of [GatewayProps] behind the network. *)
Definition arrived (rq : http_request) : request GatewayAuthorizeRequest :=
  mkRequest (hq_Method rq) "/v1/gateway/authorize" "" (fun _ => "") "10.0.0.1:4711" (decode_body (hq_Body rq)) background.

Definition to_gateway : network := fun rq =>
  match handleAuthorize gateway_cfg (all_at t0) (arrived rq) gateway0 with
  | Ok o => Ok (mkHttpReply (rs_Status (out_response o)) "refused")
  | Err _ => Err (ErrText "EOF")
  end.

Lemma members_agree : same_members.
Proof.
  intros q text Hm. injection Hm as <-. unfold decode_body, gateway_reads. cbn [json_unmarshal authorize_json code_json].
  change (pos_to_string (encode q)) with ("" +:+ pos_to_string (encode q)).
  by rewrite has_prefix_app, drop_bytes_app, pos_of_to_string, decode_encode.
Qed.

Lemma agent_calls_refused_witness :
  exists e, CallAuthorized (agent_of NewLocalDevClient) (mkMoments t0 t0 t0) (fun _ => to_gateway)
      (Some (mkSession "did:ex:bot" flat_token (t0 + hour)%Z flat_token ["read"])) "GET" "http://service"
      (None : option (gmap string gval))
    = Ok (Err e, Some (mkSession "did:ex:bot" flat_token (t0 + hour)%Z flat_token ["read"]))
    /\ error_is e ErrInvalidCredential = true.
Proof.
  refine (proj2 (agent_calls_refused (T := _) (C := _) (L := _) (agent_of NewLocalDevClient) NewLocalDevClient
    (mkMoments t0 t0 t0) (fun _ => to_gateway)
    (mkSession "did:ex:bot" flat_token (t0 + hour)%Z flat_token ["read"]) "GET" "http://service" None
    "http://localhost:8081/v1/gateway/authorize" _ members_agree eq_refl eq_refl _) _ eq_refl eq_refl _).
  - intros rq Hm Hu. unfold to_gateway.
    destruct (handleAuthorize gateway_cfg (all_at t0) (arrived rq) gateway0) as [o|f] eqn:Ho.
    + right. exists gateway_cfg, (all_at t0), (arrived rq), gateway0, o, "refused".
      split; [exact Ho|]. split; [exact Hm|]. split; reflexivity.
    + left. exists (ErrText "EOF"). reflexivity.
  - reflexivity.
  - vm_compute. reflexivity.
Defined.
