(* ===== verification/Idctl.v ===== *)
(** * The command-line tool.

    Models cmd/idctl/main.go: the commands over the store of key documents and over the SDK.
    The machine a command runs on (environment, home directory, errors of the disk, the keys
    it draws, the network) is the record [machine], the files are explicit state. *)

From S2P Require Import Prelude GoStrings Base64 GoTime Errors Values Crypto Credential Instances.
From S2P Require Import Flags Did Keys KeysProps Config Server Sdk.
From Stdlib Require Import ZArith Ascii String Lia.
From stdpp Require Import countable gmap list strings.

Local Open Scope string_scope.

(** ** The machine *)

Record machine := mkMachine {
  mc_env : string -> string;
  mc_home : result error string;
  mc_join : string -> string -> string;
  mc_mkdir : string -> option error;
  mc_read : string -> option error;
  mc_write : string -> option error;
  mc_draw : draw;
  mc_net : network;
}.

Abbreviation files := (gmap string string).

(** What a command writes on the standard output. *)
Inductive output :=
| Printed (payload : gmap string gval)
| PrintedText (text : string)
| PrintedVerdict (resp : VerifyResponse).

(** A command: what it printed or the error it returns, and the files it leaves. *)
Definition command : Type := list string -> files -> result error (list output) * files.

Definition with_disk (d : draw) (e : option error) : draw :=
  mkDraw (d_ed25519 d) (d_p256 d) (d_uuid d) (d_now d) e (d_vault d) (d_kms d).

(** Source: internal/did/store.go, [DefaultStorePath]. *)
Definition DefaultStorePath (m : machine) : string :=
  match mc_home m with
  | Err _ => "dids.json"
  | Ok home => mc_join m (mc_join m home ".credential-service") "dids.json"
  end.

(** Source: cmd/idctl/main.go, [envDefault]. *)
Definition envDefault (m : machine) (key fallback : string) : string :=
  let val := mc_env m key in if bool_decide (val = "") then fallback else val.

(** Source: cmd/idctl/main.go, [parseScope]. *)
Definition parseScope `{Unicode} (scope : string) : list string :=
  if bool_decide (scope = "") then []
  else filter (fun p => p <> "") (trim_space <$> split_on ","%char scope).

(** Source: cmd/idctl/main.go:18-18, [issuerURLEnv]. *)
Definition issuerURLEnv : string := "CRED_ISSUER_URL".
(** Source: cmd/idctl/main.go:19-19, [verifierURLEnv]. *)
Definition verifierURLEnv : string := "CRED_VERIFIER_URL".
(** Source: cmd/idctl/main.go:21-21, [defaultIssuerURL]. *)
Definition defaultIssuerURL : string := "http://localhost:8080".
(** Source: cmd/idctl/main.go:22-22, [defaultVerifierURL]. *)
Definition defaultVerifierURL : string := "http://localhost:8081".

Section commands.
Context `{Unicode, ParseInt0, Json (gmap string gval), Pkcs8, Json DIDDocument, Json (gmap string DIDDocument)}.
Context `{NewRequest, BodyDecoder APIError, Json IssueRequest, Json VerifyRequest,
  BodyDecoder IssueResponse, BodyDecoder VerifyResponse}.
Variable m : machine.

(** Source: cmd/idctl/main.go, [loadStore]. *)
Definition loadStore (path : string) (fs : files) : result error FileStore :=
  match FileStore_Load (mc_mkdir m path) (mc_read m path) (mkFileStore ∅ (fs !! path)) with
  | (Err e, _) => Err (ErrWrap "load DID store: " e "")
  | (Ok _, s) => Ok s
  end.

(** The file of a store, once it was written. *)
Definition written (path : string) (s : FileStore) (fs : files) : files :=
  match fs_file s with Some data => <[path := data]> fs | None => fs end.

Definition at_path (path : string) : draw := with_disk (mc_draw m) (mc_write m path).

(** Source: cmd/idctl/main.go, [printDID]. *)
Definition printDID (doc : DIDDocument) : result error (list output) :=
  let! key := CurrentKey doc in
  Ok [Printed {["did" := VStr (doc_DID doc); "algorithm" := VStr (ke_Algorithm key);
                "current_key_id" := VStr (doc_CurrentKeyID doc);
                "public_jwk" := from_option VObj VNull (ke_PublicJWK key);
                "private_key_pem" := VStr (trim_space (ke_PrivateKeyPEM key))]}].

(** The store is changed, then the document is printed. *)
Definition save_and_print (store : FileStore) (path label : string) (doc : DIDDocument) (fs : files)
  : result error (list output) * files :=
  let '(saved, store') := FileStore_Save (at_path path) store label doc in
  let fs' := written path store' fs in
  match saved with
  | Err e => (Err (ErrWrap "save DID: " e ""), fs')
  | Ok _ => (printDID doc, fs')
  end.

(** Source: cmd/idctl/main.go, [didCreate]. *)
Definition didCreate : command := fun args fs =>
  match parse_flags {["alg" := StringFlag; "store" := StringFlag; "label" := StringFlag]} args ∅ with
  | Err e => (Err e, fs)
  | Ok vals =>
      let storePath := flag_or vals "store" (DefaultStorePath m) in
      match NewDIDJWKWithAlg (mc_draw m) (flag_or vals "alg" "EdDSA") with
      | Err e => (Err (ErrWrap "generate did:jwk: " e ""), fs)
      | Ok doc =>
          match loadStore storePath fs with
          | Err e => (Err e, fs)
          | Ok store => save_and_print store storePath (flag_or vals "label" "") doc fs
          end
      end
  end.

(** Source: cmd/idctl/main.go, [didExport]. *)
Definition didExport : command := fun args fs =>
  match parse_flags {["label" := StringFlag; "output" := StringFlag; "store" := StringFlag]} args ∅ with
  | Err e => (Err e, fs)
  | Ok vals =>
      let label := flag_or vals "label" "" in
      let output := flag_or vals "output" "" in
      if bool_decide (label = "") then (Err (ErrText "--label is required"), fs)
      else
        match loadStore (flag_or vals "store" (DefaultStorePath m)) fs with
        | Err e => (Err e, fs)
        | Ok store =>
            match FileStore_Get store label with
            | None => (Err (ErrText ("did not find entry for label " +:+ label)), fs)
            | Some doc =>
                match ExportDID doc with
                | Err e => (Err (ErrWrap "export DID: " e ""), fs)
                | Ok data =>
                    if bool_decide (output = "") then (Ok [PrintedText data], fs)
                    else match mc_write m output with
                         | Some e => (Err e, fs)
                         | None => (Ok [], <[output := data]> fs)
                         end
                end
            end
        end
  end.

(** [os.ReadFile] *)
Definition read_text (path : string) (fs : files) : result error string :=
  match mc_read m path with
  | Some e => Err e
  | None => of_option (ErrText ("open " +:+ path +:+ ": no such file or directory")) (fs !! path)
  end.

(** Source: cmd/idctl/main.go, [didImport]. *)
Definition didImport : command := fun args fs =>
  match parse_flags {["file" := StringFlag; "label" := StringFlag; "store" := StringFlag]} args ∅ with
  | Err e => (Err e, fs)
  | Ok vals =>
      let file := flag_or vals "file" "" in
      let storePath := flag_or vals "store" (DefaultStorePath m) in
      if bool_decide (file = "") then (Err (ErrText "--file is required"), fs)
      else
        match (let! data := map_err (fun e => ErrWrap "read DID file: " e "") (read_text file fs) in
               let! doc := map_err (fun e => ErrWrap "import DID: " e "") (ImportDID data) in
               let! store := loadStore storePath fs in
               Ok (doc, store)) with
        | Err e => (Err e, fs)
        | Ok (doc, store) => save_and_print store storePath (flag_or vals "label" "") doc fs
        end
  end.

(** Source: cmd/idctl/main.go, [didRotate]. *)
Definition didRotate : command := fun args fs =>
  match parse_flags {["label" := StringFlag; "store" := StringFlag]} args ∅ with
  | Err e => (Err e, fs)
  | Ok vals =>
      let label := flag_or vals "label" "" in
      let storePath := flag_or vals "store" (DefaultStorePath m) in
      if bool_decide (label = "") then (Err (ErrText "--label is required"), fs)
      else
        match loadStore storePath fs with
        | Err e => (Err e, fs)
        | Ok store =>
            let '(rotated, store') := FileStore_Rotate (at_path storePath) store label in
            let fs' := written storePath store' fs in
            match rotated with
            | Err e => (Err (ErrWrap "rotate DID: " e ""), fs')
            | Ok doc => (printDID doc, fs')
            end
        end
  end.

(** Source: cmd/idctl/main.go, [handleDID]. *)
Definition handleDID : command := fun args fs =>
  match args with
  | [] => (Err (ErrText "missing did subcommand"), fs)
  | sub :: rest =>
      if bool_decide (sub = "create") then didCreate rest fs
      else if bool_decide (sub = "export") then didExport rest fs
      else if bool_decide (sub = "import") then didImport rest fs
      else if bool_decide (sub = "rotate") then didRotate rest fs
      else if bool_decide (sub ∈ ["-h"; "--help"; "help"]) then (Ok [], fs)
      else (Err (ErrText ("unknown did command: " +:+ sub)), fs)
  end.

(** Source: cmd/idctl/main.go, [vcIssue]. *)
Definition vcIssue : command := fun args fs =>
  (let! vals := parse_flags {["subject-did" := StringFlag; "scope" := StringFlag; "ttl-seconds" := IntFlag; "issuer-url" := StringFlag]} args ∅ in
   let subject := flag_or vals "subject-did" "" in
   stop! bool_decide (subject = "") with ErrText "--subject-did is required" in
   let scope := parseScope (flag_or vals "scope" "") in
   let claims : gmap string gval := if bool_decide (scope = []) then ∅ else {["scope" := VStrs scope]} in
   let ttl := match vals !! "ttl-seconds" with Some t => default 0%Z (parse_int_0 t) | None => 300%Z end in
   let client := mkClient (flag_or vals "issuer-url" (envDefault m issuerURLEnv defaultIssuerURL)) "" "" in
   let! resp := map_err (fun e => ErrWrap "issue credential: " e "")
     (IssueCredential client (mc_net m) (mkIssue subject ttl (Some claims) "")) in
   Ok [PrintedText (is_Credential resp)], fs).

(** Source: cmd/idctl/main.go, [vcVerify]. *)
Definition vcVerify : command := fun args fs =>
  (let! vals := parse_flags {["credential" := StringFlag; "credential-file" := StringFlag; "verifier-url" := StringFlag]} args ∅ in
   let token := trim_space (flag_or vals "credential" "") in
   let credentialFile := flag_or vals "credential-file" "" in
   let! token :=
     if bool_decide (token = "") && negb (bool_decide (credentialFile = "")) then
       let! data := map_err (fun e => ErrWrap "read credential file: " e "") (read_text credentialFile fs) in
       Ok (trim_space data)
     else Ok token in
   stop! bool_decide (token = "") with ErrText "either --credential or --credential-file must be provided" in
   let client := mkClient "" (flag_or vals "verifier-url" (envDefault m verifierURLEnv defaultVerifierURL)) "" in
   let! resp := map_err (fun e => ErrWrap "verify credential: " e "") (Verify client (mc_net m) token) in
   Ok [PrintedVerdict resp], fs).

(** Source: cmd/idctl/main.go, [handleVC]. *)
Definition handleVC : command := fun args fs =>
  match args with
  | [] => (Err (ErrText "missing vc subcommand"), fs)
  | sub :: rest =>
      if bool_decide (sub = "issue") then vcIssue rest fs
      else if bool_decide (sub = "verify") then vcVerify rest fs
      else if bool_decide (sub ∈ ["-h"; "--help"; "help"]) then (Ok [], fs)
      else (Err (ErrText ("unknown vc command: " +:+ sub)), fs)
  end.

(** The exit code, what was printed, and the files.
    Source: cmd/idctl/main.go, [main]. *)
Definition main (args : list string) (fs : files) : Z * list output * files :=
  let exit (r : result error (list output) * files) : Z * list output * files :=
    match r with
    | (Err _, fs) => (1%Z, [], fs)
    | (Ok out, fs) => (0%Z, out, fs)
    end in
  match args with
  | [] => (1%Z, [], fs)
  | cmd :: rest =>
      if bool_decide (cmd = "did") then exit (handleDID rest fs)
      else if bool_decide (cmd = "vc") then exit (handleVC rest fs)
      else if bool_decide (cmd ∈ ["-h"; "--help"; "help"]) then (0%Z, [], fs)
      else (1%Z, [], fs)
  end.
End commands.

(** ** Properties *)

Section props.
Context `{Unicode, ParseInt0, Json (gmap string gval), Pkcs8, Json DIDDocument, Json (gmap string DIDDocument)}.
Context `{NewRequest, BodyDecoder APIError, Json IssueRequest, Json VerifyRequest,
  BodyDecoder IssueResponse, BodyDecoder VerifyResponse}.
Context (doc_safe : DIDDocument -> bool).

Definition docs_safe (docs : gmap string DIDDocument) : bool := bool_decide (map_Forall (fun _ d => doc_safe d = true) docs).

Context `{!JsonLaw DIDDocument doc_safe (fun d => d), !JsonLaw (gmap string DIDDocument) docs_safe (fun d => d)}.

Definition disk_works (m : machine) : Prop :=
  forall path, mc_mkdir m path = None /\ mc_read m path = None /\ mc_write m path = None.

Context (m : machine) (Hdisk : disk_works m).

(** The documents of the store at [path]: none, when there is no file. *)
Definition store_at (fs : files) (path : string) (docs : gmap string DIDDocument) : Prop :=
  match fs !! path with
  | None => docs = ∅
  | Some data => json_unmarshal data = Ok docs
  end.

Lemma store_at_other fs path data path' docs :
  path <> path' -> store_at fs path' docs -> store_at (<[path := data]> fs) path' docs.
Proof. intros Hne. unfold store_at. by rewrite lookup_insert_ne. Qed.

Lemma loadStore_ok path fs docs : store_at fs path docs -> exists s, loadStore m path fs = Ok s /\ fs_docs s = docs.
Proof.
  unfold store_at, loadStore, FileStore_Load. destruct (Hdisk path) as (-> & -> & _). cbn [fs_file].
  destruct (fs !! path) as [data|]; [intros ->|intros ->]; eauto.
Qed.

(** A document that is saved is in the file, and the others are as they were. *)
Lemma save_and_print_ok s path label doc fs docs :
  fs_docs s = docs -> docs_safe docs = true -> doc_safe doc = true -> label <> "" ->
  exists data, save_and_print m s path label doc fs = (printDID doc, <[path := data]> fs)
    /\ store_at (<[path := data]> fs) path (<[label := doc]> docs).
Proof.
  intros Hs Hds Hd Hl. unfold save_and_print, FileStore_Save, persist. rewrite bool_decide_eq_false_2 by done.
  cbn [fs_docs]. rewrite Hs.
  assert (Hsafe : docs_safe (<[label := doc]> docs) = true).
  { unfold docs_safe in *. apply bool_decide_eq_true in Hds. apply bool_decide_eq_true. by apply map_Forall_insert_2. }
  destruct (json_law _ Hsafe) as (data & Hm & Hu). rewrite Hm. unfold at_path, with_disk. cbn [d_disk].
  destruct (Hdisk path) as (_ & _ & ->). cbn. exists data. split; [done|]. unfold store_at. by rewrite lookup_insert_eq.
Qed.

(** A new document prints. *)
Lemma new_doc_prints d alg doc : NewDIDJWKWithAlg d alg = Ok doc -> d_uuid d <> "" ->
  (exists out, printDID doc = Ok out) /\ doc_CurrentKeyID doc <> "" /\ length (doc_Keys doc) = 1%nat.
Proof.
  unfold NewDIDJWKWithAlg. intros Hn Hu. bind_inv Hn as k Hk. injection Hn as <-. cbn.
  apply generateKey_fields in Hk as [_ Hid]. split; [|by rewrite Hid].
  unfold printDID, CurrentKey. cbn. rewrite decide_True by done. cbn. by eexists.
Qed.

Definition create_args (alg path label : string) : list string :=
  ["did"; "create"; "--alg"; alg; "--store"; path; "--label"; label].
Definition export_args (label file path : string) : list string :=
  ["did"; "export"; "--label"; label; "--output"; file; "--store"; path].
Definition import_args (file label path : string) : list string :=
  ["did"; "import"; "--file"; file; "--label"; label; "--store"; path].

Lemma create_ok alg path label fs docs doc :
  store_at fs path docs -> docs_safe docs = true -> NewDIDJWKWithAlg (mc_draw m) alg = Ok doc -> doc_safe doc = true ->
  d_uuid (mc_draw m) <> "" -> label <> "" ->
  exists out data, printDID doc = Ok out /\ main m (create_args alg path label) fs = (0%Z, out, <[path := data]> fs)
    /\ store_at (<[path := data]> fs) path (<[label := doc]> docs).
Proof.
  intros Hs Hds Hn Hd Hu Hl. destruct (new_doc_prints _ _ _ Hn Hu) as ((out & Hout) & _).
  destruct (loadStore_ok _ _ _ Hs) as (s & Hload & Hdocs).
  destruct (save_and_print_ok s path label doc fs docs Hdocs Hds Hd Hl) as (data & Hsave & Hat).
  exists out, data. split; [done|]. split; [|done].
  change (main m (create_args alg path label) fs) with
    (match didCreate m ["--alg"; alg; "--store"; path; "--label"; label] fs with
     | (Err _, fs) => (1%Z, [], fs) | (Ok out, fs) => (0%Z, out, fs) end).
  unfold didCreate.
  change (parse_flags _ _ _) with (@Ok error _ (<["label" := label]> (<["store" := path]> ({["alg" := alg]} : gmap string string)))).
  cbv iota. change (flag_or _ "store" _) with path. change (flag_or _ "alg" _) with alg.
  rewrite Hn, Hload. change (flag_or _ "label" _) with label. by rewrite Hsave, Hout.
Qed.

Lemma export_ok path label file fs docs doc :
  store_at fs path docs -> docs !! label = Some doc -> doc_safe doc = true -> label <> "" -> file <> "" ->
  exists data, json_unmarshal data = Ok doc /\ main m (export_args label file path) fs = (0%Z, [], <[file := data]> fs).
Proof.
  intros Hs Hdoc Hd Hl Hf. destruct (loadStore_ok _ _ _ Hs) as (s & Hload & <-).
  destruct (json_law doc Hd) as (data & Hm & Hu). exists data. split; [done|].
  change (main m (export_args label file path) fs) with
    (match didExport m ["--label"; label; "--output"; file; "--store"; path] fs with
     | (Err _, fs) => (1%Z, [], fs) | (Ok out, fs) => (0%Z, out, fs) end).
  unfold didExport.
  change (parse_flags _ _ _) with (@Ok error _ (<["store" := path]> (<["output" := file]> ({["label" := label]} : gmap string string)))).
  cbv iota. change (flag_or _ "store" _) with path. change (flag_or _ "output" _) with file. change (flag_or _ "label" _) with label.
  rewrite bool_decide_eq_false_2, Hload by done. unfold FileStore_Get. rewrite Hdoc. unfold ExportDID. rewrite Hm.
  rewrite bool_decide_eq_false_2 by done. by destruct (Hdisk file) as (_ & _ & ->).
Qed.

Lemma import_ok path label file data fs docs doc out :
  store_at fs path docs -> docs_safe docs = true -> doc_safe doc = true -> label <> "" -> file <> "" ->
  fs !! file = Some data -> json_unmarshal data = Ok doc -> doc_CurrentKeyID doc <> "" -> length (doc_Keys doc) = 1%nat ->
  printDID doc = Ok out ->
  exists data', main m (import_args file label path) fs = (0%Z, out, <[path := data']> fs)
    /\ store_at (<[path := data']> fs) path (<[label := doc]> docs).
Proof.
  intros Hs Hds Hd Hl Hf Hfile Hu Hcur Hlen Hout. destruct (loadStore_ok _ _ _ Hs) as (s & Hload & Hdocs).
  destruct (save_and_print_ok s path label doc fs docs Hdocs Hds Hd Hl) as (data' & Hsave & Hat).
  exists data'. split; [|done].
  change (main m (import_args file label path) fs) with
    (match didImport m ["--file"; file; "--label"; label; "--store"; path] fs with
     | (Err _, fs) => (1%Z, [], fs) | (Ok out, fs) => (0%Z, out, fs) end).
  unfold didImport.
  change (parse_flags _ _ _) with (@Ok error _ (<["store" := path]> (<["label" := label]> ({["file" := file]} : gmap string string)))).
  cbv iota. change (flag_or _ "file" _) with file. change (flag_or _ "store" _) with path. change (flag_or _ "label" _) with label.
  rewrite bool_decide_eq_false_2 by done. unfold read_text. destruct (Hdisk file) as (_ & -> & _). rewrite Hfile. cbn [of_option map_err rbind].
  unfold ImportDID. rewrite Hu. cbn [rbind]. rewrite bool_decide_eq_false_2, Hlen by done. cbn [orb Nat.eqb map_err rbind].
  by rewrite Hload; cbn [rbind]; rewrite Hsave, Hout.
Qed.

(** C32: A key document travels.  A document that was created under a label, exported to a file
    and imported from it into another store is, under its new label, the document that was
    created: every command exits with 0, creation and import print the same, and what the two
    stores held before is still there. *)
Theorem did_transfer alg path label file path' label' fs docs docs' doc :
  NewDIDJWKWithAlg (mc_draw m) alg = Ok doc -> doc_safe doc = true -> d_uuid (mc_draw m) <> "" ->
  store_at fs path docs -> docs_safe docs = true -> store_at fs path' docs' -> docs_safe docs' = true ->
  label <> "" -> label' <> "" -> file <> "" -> file <> path -> file <> path' -> path <> path' ->
  exists out fs1 fs2 fs3,
    main m (create_args alg path label) fs = (0%Z, out, fs1)
    /\ main m (export_args label file path) fs1 = (0%Z, [], fs2)
    /\ main m (import_args file label' path') fs2 = (0%Z, out, fs3)
    /\ store_at fs3 path (<[label := doc]> docs) /\ store_at fs3 path' (<[label' := doc]> docs').
Proof.
  intros Hn Hd Hu Hs Hds Hs' Hds' Hl Hl' Hf Hfp Hfp' Hpp.
  destruct (create_ok alg path label fs docs doc Hs Hds Hn Hd Hu Hl) as (out & data1 & Hout & Hm1 & Hat1).
  destruct (export_ok path label file _ _ doc Hat1 (lookup_insert_eq _ _ _) Hd Hl Hf) as (data2 & Hdata & Hm2).
  destruct (new_doc_prints _ _ _ Hn Hu) as (_ & Hcur & Hlen).
  assert (Hat' : store_at (<[file := data2]> (<[path := data1]> fs)) path' docs')
    by (apply store_at_other; [done|]; by apply store_at_other).
  destruct (import_ok path' label' file data2 _ _ doc out Hat' Hds' Hd Hl' Hf (lookup_insert_eq _ _ _) Hdata Hcur Hlen Hout)
    as (data3 & Hm3 & Hat3).
  exists out, (<[path := data1]> fs), (<[file := data2]> (<[path := data1]> fs)),
    (<[path' := data3]> (<[file := data2]> (<[path := data1]> fs))).
  do 3 (split; [done|]). split; [|done]. apply store_at_other; [done|]. by apply store_at_other.
Qed.
End props.

(** ** Instances *)

#[local] Instance key_entry_eq_dec : EqDecision KeyEntry.
Proof. solve_decision. Defined.
#[local] Instance key_entry_countable : Countable KeyEntry.
Proof.
  refine (inj_countable' (fun k => (ke_ID k, ke_DID k, ke_Algorithm k, from_option VObj VNull (ke_PublicJWK k),
      ke_PrivateKeyPEM k, ke_CreatedAt k))
    (fun '(a, b, c, d, e, f) => mkKeyEntry a b c (match d with VObj m => Some m | _ => None end) e f) _).
  by intros [? ? ? [|] ? ?].
Defined.

#[local] Instance document_eq_dec : EqDecision DIDDocument.
Proof. solve_decision. Defined.
#[local] Instance document_countable : Countable DIDDocument.
Proof.
  refine (inj_countable' (fun d => (doc_DID d, doc_Method d, doc_Keys d, doc_CurrentKeyID d))
    (fun '(a, b, c, d) => mkDoc a b c d) _). by intros [].
Defined.

#[local] Instance document_json : Json DIDDocument := code_json "d" (fun d => d).
#[local] Instance documents_json : Json (gmap string DIDDocument) := code_json "s" (fun d => d).
#[local] Instance document_json_law safe : JsonLaw DIDDocument safe (fun d => d).
Proof. apply code_json_law. Qed.
#[local] Instance documents_json_law safe : JsonLaw (gmap string DIDDocument) safe (fun d => d).
Proof. apply code_json_law. Qed.

#[local] Instance decimal_only : ParseInt0 := parse_int.
#[local] Instance any_url : NewRequest := fun _ _ => Ok tt.
#[local] Instance no_api_error : BodyDecoder APIError := fun _ => None.
#[local] Instance no_issued : BodyDecoder IssueResponse := fun _ => None.
#[local] Instance no_verified : BodyDecoder VerifyResponse := fun _ => None.
#[local] Instance bare_issue : Json IssueRequest := {|
  json_marshal r := Ok (ir_SubjectDID r);
  json_unmarshal _ := Err (ErrText "");
|}.
#[local] Instance bare_verify : Json VerifyRequest := {|
  json_marshal r := Ok (vq_Credential r);
  json_unmarshal _ := Err (ErrText "");
|}.

Definition laptop : machine :=
  mkMachine (fun _ => "") (Ok "/home/alice") (fun a b => a +:+ "/" +:+ b) (fun _ => None) (fun _ => None) (fun _ => None)
    (draw_key alice_key "1") (fun _ => Err (ErrText "no network")).

Lemma did_transfer_witness :
  exists out fs1 fs2 fs3,
    main laptop (create_args "EdDSA" "a.json" "alice") ∅ = (0%Z, out, fs1)
    /\ main laptop (export_args "alice" "doc.json" "a.json") fs1 = (0%Z, [], fs2)
    /\ main laptop (import_args "doc.json" "alice-again" "b.json") fs2 = (0%Z, out, fs3).
Proof.
  destruct (NewDIDJWKWithAlg (mc_draw laptop) "EdDSA") as [doc|e] eqn:Hn.
  - assert (Hempty : forall path, store_at ∅ path ∅) by (intros path; reflexivity).
    assert (Hsafe : docs_safe (fun _ => true) ∅ = true) by (apply bool_decide_eq_true; intros k d _; reflexivity).
    assert (Hid : d_uuid (mc_draw laptop) <> "") by discriminate.
    assert (Hne : forall a b : string, bool_decide (a = b) = false -> a <> b) by (intros a b Hab; exact (proj1 (bool_decide_eq_false _) Hab)).
    destruct (did_transfer (fun _ => true) laptop (fun _ => conj eq_refl (conj eq_refl eq_refl)) "EdDSA" "a.json" "alice"
      "doc.json" "b.json" "alice-again" ∅ ∅ ∅ doc Hn eq_refl Hid (Hempty _) Hsafe (Hempty _) Hsafe
      (Hne "alice" "" eq_refl) (Hne "alice-again" "" eq_refl) (Hne "doc.json" "" eq_refl)
      (Hne "doc.json" "a.json" eq_refl) (Hne "doc.json" "b.json" eq_refl) (Hne "a.json" "b.json" eq_refl))
      as (out & fs1 & fs2 & fs3 & Hc & He & Hi & _).
    exists out, fs1, fs2, fs3. split; [exact Hc|]. split; [exact He|exact Hi].
  - assert (Hok : is_ok (NewDIDJWKWithAlg (mc_draw laptop) "EdDSA") = true) by (vm_compute; reflexivity).
    rewrite Hn in Hok. discriminate Hok.
Defined.
