(* ===== verification/Startup.v ===== *)
(** * Starting the services.

    Models how services/issuer/server.go and services/verifier/server.go choose their key store,
    and [NewServer] of the issuer: the part of a deployment the two processes share is the file
    of keys.  The properties say when the two agree on the key of the default tenant. *)

From S2P Require Import Prelude GoStrings Base64 GoTime Errors Values GoFmt Crypto Credential Instances.
From S2P Require Import Delegation SDJwt Verify VerifyFacts Issue IssueFacts ChainExample IssuancePolicy AuthzBridge.
From S2P Require Import Policy PolicyStore Config Http Mux Tenant Server Trust Did Gateway GatewayProps Keys.
From S2P Require Import RateLimit Redis Metrics MetricsProps KeysProps Issuer IssuerProps Admin AdminProps.
From S2P Require Import PolicyAdmin Oidc4vp Oidc4vpEndpoint VerifierServer VerifierServerProps VerifierServerRuns.
From S2P Require Import Postgres DatabaseServer IssuerServer EndToEnd Idctl.
From Stdlib Require Import ZArith Ascii String Lia.
From stdpp Require Import gmap list strings.

Local Open Scope string_scope.

(** ** The key store of a service *)

(** Source: services/issuer/server.go:41-58, [NewServer]. *)
Inductive service_store :=
| ProductionStore (p : ProductionKeyStore)
| FileStored (f : FileStore)
| MemoryStored (s : MemoryKeyStore).

Section choice.
Context `{Json (gmap string gval), Pkcs8, Json (gmap string DIDDocument), Unicode}.
Variable m : machine.

#[local] Instance service_keystore : KeyStore service_store := fun s d t =>
  match s with
  | ProductionStore p => let '(r, p) := ProductionKeyStore_GetSigningKey (mc_env m) p d t in (r, ProductionStore p)
  | FileStored f => let '(r, f) := FileBackedKeyStore_GetSigningKey f d t in (r, FileStored f)
  | MemoryStored s => let '(r, s) := MemoryKeyStore_GetSigningKey s d t in (r, MemoryStored s)
  end.

(** Source: internal/keystore/did_keystore.go:33-36, [NewFileBackedKeyStoreFromEnv]. *)
Definition keys_path : string :=
  let path := mc_env m "DID_STORE_PATH" in
  if bool_decide (path = "") then DefaultStorePath m else path.

(** Source: internal/keystore/did_keystore.go, [NewFileBackedKeyStoreFromEnv]. *)
Definition NewFileBackedKeyStoreFromEnv (fs : files) : result error FileStore :=
  NewFileBackedKeyStore (mc_mkdir m keys_path) (mc_read m keys_path) (fs !! keys_path).

(** Both services choose alike; without a file they use keys in memory.
    Source: services/verifier/server.go:105-122, [NewServer]. *)
Definition choose_store (fs : files) : service_store :=
  if bool_decide (mc_env m "USE_PRODUCTION_KEYSTORE" = "true") then
    ProductionStore (NewProductionKeyStoreFromEnv (mc_env m))
  else
    match NewFileBackedKeyStoreFromEnv fs with
    | Err _ => MemoryStored NewMemoryKeyStore
    | Ok f => FileStored f
    end.

(** What a store leaves on the disk. *)
Definition stored (s : service_store) (fs : files) : files :=
  match s with FileStored f => written keys_path f fs | _ => fs end.

(** The issuer: its key store and its tenants.  [open_db] is [sql.Open].
    Source: services/issuer/server.go, [NewServer]. *)
Definition NewIssuerServer (open_db : string -> result error unit) (cfg : IssuerConfig) (seeded : time) (fs : files)
  : result error (service_store * TenantStore) :=
  let! _ := if bool_decide (ic_AuditDB_DSN cfg = "") then Ok tt else open_db (ic_AuditDB_DSN cfg) in
  Ok (choose_store fs, issuer_tenants cfg seeded).

(** ** The store is a key store *)

Lemma production_case p t sg :
  holds (ProductionStore p) t sg <-> @holds _ (production_keystore (mc_env m)) p t sg.
Proof.
  unfold holds, GetSigningKey, service_keystore, production_keystore.
  split; intros Hh d; specialize (Hh d); destruct (ProductionKeyStore_GetSigningKey _ p d t); congruence.
Qed.

Lemma file_case f t sg : holds (FileStored f) t sg <-> holds f t sg.
Proof.
  unfold holds, GetSigningKey, service_keystore, file_keystore.
  split; intros Hh d; specialize (Hh d); destruct (FileBackedKeyStore_GetSigningKey f d t); congruence.
Qed.

Lemma memory_case s t sg : holds (MemoryStored s) t sg <-> holds s t sg.
Proof.
  unfold holds, GetSigningKey, service_keystore, memory_keystore.
  split; intros Hh d; specialize (Hh d); destruct (MemoryKeyStore_GetSigningKey s d t); congruence.
Qed.

Lemma service_keystore_laws : KeyStoreLaws service_store.
Proof.
  pose proof (production_keystore_laws (mc_env m)) as Hp. split.
  - intros [p|f|s] d; by eexists.
  - intros [p|f|s] d t sg s' Hg; unfold GetSigningKey, service_keystore in Hg.
    + destruct (ProductionKeyStore_GetSigningKey (mc_env m) p d t) as [r p'] eqn:Hk. injection Hg as -> <-.
      apply production_case. by eapply (key_held (S := ProductionKeyStore)).
    + destruct (FileBackedKeyStore_GetSigningKey f d t) as [r f'] eqn:Hk. injection Hg as -> <-.
      apply file_case. by eapply (key_held (S := FileStore)).
    + destruct (MemoryKeyStore_GetSigningKey s d t) as [r s1] eqn:Hk. injection Hg as -> <-.
      apply memory_case. by eapply (key_held (S := MemoryKeyStore)).
  - intros [p|f|s] d t r s' t' sg Hh Hg; unfold GetSigningKey, service_keystore in Hg.
    + destruct (ProductionKeyStore_GetSigningKey (mc_env m) p d t) as [r1 p'] eqn:Hk. injection Hg as <- <-.
      apply production_case in Hh. apply production_case. by eapply (key_frame (S := ProductionKeyStore)).
    + destruct (FileBackedKeyStore_GetSigningKey f d t) as [r1 f'] eqn:Hk. injection Hg as <- <-.
      apply file_case in Hh. apply file_case. by eapply (key_frame (S := FileStore)).
    + destruct (MemoryKeyStore_GetSigningKey s d t) as [r1 s1] eqn:Hk. injection Hg as <- <-.
      apply memory_case in Hh. apply memory_case. by eapply (key_frame (S := MemoryKeyStore)).
Qed.
End choice.

(** ** The file of keys *)

Section keysfile.
Context `{Json (gmap string gval), Pkcs8, Json (gmap string DIDDocument), Unicode}.
Context (doc_safe : DIDDocument -> bool) `{!JsonLaw (gmap string DIDDocument) (docs_safe doc_safe) (fun d => d)}.
Context (m : machine) (Hdisk : disk_works m) (Hdev : mc_env m "USE_PRODUCTION_KEYSTORE" <> "true").

Lemma choose_file fs docs :
  store_at fs (keys_path m) docs -> choose_store m fs = FileStored (mkFileStore docs (fs !! keys_path m)).
Proof.
  unfold choose_store, NewFileBackedKeyStoreFromEnv, NewFileBackedKeyStore, store_at, FileStore_Load. intros Hs.
  rewrite bool_decide_eq_false_2 by done. destruct (Hdisk (keys_path m)) as (-> & -> & _). cbn [fs_file].
  by destruct (fs !! keys_path m) as [data|]; rewrite Hs.
Qed.

(** A key that is handed out is the current one of the tenant's document; a document that is
    new was drawn and is in the file. *)
Lemma file_get f d t sg f' :
  FileBackedKeyStore_GetSigningKey f d t = (Ok sg, f') ->
  t <> "" /\ exists doc, fs_docs f' !! t = Some doc /\ CurrentSigner doc = Ok sg
    /\ ((fs_docs f !! t = Some doc /\ f' = f)
        \/ (fs_docs f !! t = None /\ NewDIDJWK d = Ok doc /\ fs_docs f' = <[t := doc]> (fs_docs f)
            /\ exists data, json_marshal (fs_docs f') = Ok data /\ fs_file f' = Some data)).
Proof.
  unfold FileBackedKeyStore_GetSigningKey, FileStore_Get. case_bool_decide as Ht; [done|].
  destruct (fs_docs f !! t) as [doc|] eqn:Hk.
  { destruct (CurrentSigner doc) as [sg'|] eqn:Hs; [|done]. intros [= <- <-]. split; [done|]. exists doc. auto. }
  destruct (NewDIDJWK d) as [doc|] eqn:Hn; [|done]. unfold FileStore_Save, persist.
  rewrite bool_decide_eq_false_2 by done. cbn [fs_docs fs_file].
  destruct (json_marshal _) as [data|] eqn:Hm; [|done]. destruct (d_disk d); [done|].
  destruct (CurrentSigner doc) as [sg'|] eqn:Hs; [|done]. intros [= <- <-]. split; [done|]. exists doc.
  cbn [fs_docs fs_file]. rewrite lookup_insert_eq. split; [done|]. split; [done|]. right. repeat split; eauto.
Qed.

(** A store that handed out a key has the disk hold what it holds. *)
Lemma stored_docs fs docs d t sg f' :
  store_at fs (keys_path m) docs -> docs_safe doc_safe docs = true ->
  (forall doc, NewDIDJWK d = Ok doc -> doc_safe doc = true) ->
  FileBackedKeyStore_GetSigningKey (mkFileStore docs (fs !! keys_path m)) d t = (Ok sg, f') ->
  store_at (stored m (FileStored f') fs) (keys_path m) (fs_docs f').
Proof.
  intros Hs Hsafe Hnew Hg. apply file_get in Hg as (_ & doc & _ & _ & [[_ ->]|(_ & Hn & Hdocs & data & Hm & Hf)]).
  - unfold stored, written, store_at in *. cbn [fs_file fs_docs].
    destruct (fs !! keys_path m) as [data|] eqn:Hp; [by rewrite lookup_insert_eq|by rewrite Hp].
  - unfold stored, written, store_at. rewrite Hf, lookup_insert_eq.
    assert (Hsafe' : docs_safe doc_safe (fs_docs f') = true).
    { rewrite Hdocs. unfold docs_safe in *. apply bool_decide_eq_true in Hsafe. apply bool_decide_eq_true.
      apply map_Forall_insert_2; [by apply Hnew|done]. }
    destruct (json_law _ Hsafe') as (data' & Hm' & Hu). congruence.
Qed.

(** A store that is started where another one left the disk gives the same key. *)
Lemma restarted_holds fs docs d t sg s' :
  store_at fs (keys_path m) docs -> docs_safe doc_safe docs = true ->
  (forall doc, NewDIDJWK d = Ok doc -> doc_safe doc = true) ->
  GetSigningKey (KeyStore := service_keystore m) (choose_store m fs) d t = (Ok sg, s') ->
  @holds _ (service_keystore m) (choose_store m (stored m s' fs)) t sg.
Proof.
  intros Hs Hsafe Hnew Hg. rewrite (choose_file fs docs Hs) in Hg. unfold GetSigningKey, service_keystore in Hg.
  destruct (FileBackedKeyStore_GetSigningKey _ d t) as [r f'] eqn:Hk. injection Hg as -> <-.
  pose proof (stored_docs _ _ _ _ _ _ Hs Hsafe Hnew Hk) as Hs'. rewrite (choose_file _ _ Hs').
  apply file_get in Hk as (Ht & doc & Hdoc & Hcur & _). apply file_case, file_holds. cbn [fs_docs]. eauto.
Qed.
End keysfile.

(** ** Two services on one disk *)

Section deployment.
Context `{Json (gmap string gval), Json (gmap string (list string)), Json (list gval), Json VCJWTPayload,
  Json VerifiableCredential, Json GatewayAuthorizeResponse, Sha256, Ed25519, Rfc3339, FloatFormat, Unicode, Pkcs8Law,
  Json (gmap string DIDDocument)}.
Context `{!JsonLaw (gmap string gval) (fun m => json_safe (VObj m)) (fmap json_image)}.
Context `{!JsonLaw VCJWTPayload payload_safe payload_image}.
Context (doc_safe : DIDDocument -> bool) `{!JsonLaw (gmap string DIDDocument) (docs_safe doc_safe) (fun d => d)}.
Context `{BodyDecoder VerifyRequest, BodyDecoder form, BodyDecoder GatewayAuthorizeRequest,
  BodyDecoder AddTrustedIssuerRequest, BodyDecoder PolicyRequest}.
Context `{BodyDecoder KeygenRequest, BodyDecoder IssueRequest, BodyDecoder DelegateRequest,
  BodyDecoder BootstrapRequest}.
Context {R V F : Type} `{Prometheus R V F} {D : Type} `{Redis D, SortedSets D}.
Context (m : machine) (Hdisk : disk_works m) (Hdev : mc_env m "USE_PRODUCTION_KEYSTORE" <> "true").

#[local] Existing Instances Memory.memory_ops Memory.memory_laws.
#[local] Instance machine_store : KeyStore service_store := service_keystore m.
#[local] Abbreviation state := (VerifierState MemoryTrust.MemoryTrustRegistry Memory.MemoryStore
  MemoryRequests.MemoryRequestStore (server_cache D) (server_limiter D)).

(** The verifier, started on the files [fs]. *)
Definition start_verifier (cfg : VerifierConfig) (seeded created : time) (d : draw) (reg : R) (fs : files) :=
  NewServer (V := V) (F := F) (D := D) cfg (mc_env m) seeded created (choose_store m fs) d reg.

(** A request to the issuer for a credential that it can serve, of whatever format: its life,
    and what is signed and disclosed for its claims. *)
Definition asks_credential (cfg : IssuerConfig) (i : issuance) (r : request string) (req : IssueRequest) (ttl : Z)
    (signed : gmap string gval) (ds : list string) : Prop :=
  r_Path r = "/v1/credentials/issue" /\ r_Method r = "POST" /\ r_Body r ≫= decode_body = Some req
  /\ exists claims, issue_checks (R := IssueResponse) cfg req = Ok (ttl, claims)
       /\ signs i (issue_format req) claims signed ds.

Lemma issuer_tenant_only cfg seeded tenants ai ri ti :
  tenants = issuer_tenants cfg seeded -> issuer_admits cfg tenants ai ri ti ->
  tenants_ok tenants /\ t_ID ti = ic_DefaultTenantID cfg.
Proof.
  intros -> Ha. unfold issuer_tenants in *. destruct (UpsertTenant ∅ seeded _) as [ts|e] eqn:Hu; cbn in *.
  - pose proof (upsert_ok _ _ _ _ empty_ok Hu) as Hok. split; [done|].
    apply Resolve_Ok in Ha as (get & id & [= <-] & Hg & _). unfold GetTenant in Hg. rewrite of_option_Ok in Hg.
    unfold UpsertTenant in Hu. stop_inv Hu as Hne. injection Hu as <-. cbn [t_ID] in Hg.
    apply (lookup_insert_Some (M := gmap string)) in Hg as [[_ <-]|[_ Hx]]; [done|].
    by apply (lookup_empty_Some (M := gmap string)) in Hx.
  - apply Resolve_Ok in Ha as (get & id & [= <-] & Hg & _). unfold GetTenant in Hg. rewrite of_option_Ok in Hg.
    by apply (lookup_empty_Some (M := gmap string)) in Hg.
Qed.

(** *** The commands *)

(** A command serves at an address, or ends with a message or a panic. *)
Inductive process (S : Type) :=
| Serves (address : string) (server : S)
| Exits (msg : string)
| Crashes.
Arguments Serves {S}. Arguments Exits {S}. Arguments Crashes {S}.

(** Source: cmd/issuer/main.go, [main]. *)
Definition issuer_main (open_db : string -> result error unit) (seeded : time) (fs : files)
  : process (service_store * TenantStore) :=
  let cfg := LoadIssuerConfigFromEnv (mc_env m) in
  match NewIssuerServer m open_db cfg seeded fs with
  | Err err => Exits ("failed to build issuer server: " +:+ error_text err)
  | Ok srv => Serves (":" +:+ ic_HTTPPort cfg) srv
  end.

(** A verifier with its stores in memory, or on the database. *)
Definition verifier_server : Type :=
  (Verifier * state * (GatewayMetrics V * VerifierMetrics V * R) * service_store)
  + (Verifier * VerifierState trust_store Database MemoryRequests.MemoryRequestStore (server_cache D) (server_limiter D)
     * (GatewayMetrics V * VerifierMetrics V * R) * service_store).

(** With the database as it leaves it.
    Source: cmd/verifier/main.go, [main]. *)
Definition verifier_main (opened : result error unit) (fails : nat -> option error) (seeded created : time) (d : draw)
    (reg : R) (fs : files) (db : Database) : process verifier_server * Database :=
  let cfg := LoadVerifierConfigFromEnv (mc_env m) in
  let run {S} (r : result fault S) (inj : S -> verifier_server) :=
    match r with
    | Err (Failed err) => Exits ("failed to build verifier server: " +:+ error_text err)
    | Err Panic => Crashes
    | Ok srv => Serves (":" +:+ vf_HTTPPort cfg) (inj srv)
    end in
  if bool_decide (vf_DB_DSN cfg = "") then (run (start_verifier cfg seeded created d reg fs) inl, db)
  else
    let '(r, db) := NewDatabaseServer cfg (mc_env m) opened fails seeded created (choose_store m fs) d reg db in
    (run r inr, db).

(** What the verifier command serves without a database comes from [start_verifier], with the
    configuration of the environment; the issuer command, in the same environment, is for the
    same default tenant. *)
Lemma verifier_main_serves opened fails seeded created d reg fs db address v (s : state) ms store db' :
  verifier_main opened fails seeded created d reg fs db = (Serves address (inl (v, s, ms, store)), db') ->
  let cfg := LoadVerifierConfigFromEnv (mc_env m) in
  start_verifier cfg seeded created d reg fs = Ok (v, s, ms, store) /\ db' = db /\ address = ":" +:+ vf_HTTPPort cfg
  /\ ic_DefaultTenantID (LoadIssuerConfigFromEnv (mc_env m)) = vf_DefaultTenantID cfg.
Proof.
  cbv zeta. unfold verifier_main. destruct (bool_decide _).
  - destruct (start_verifier _ _ _ _ _ _) as [srv|[]]; intros [= <- -> <-]. done.
  - destruct (NewDatabaseServer _ _ _ _ _ _ _ _ _ _) as [[srv|[]] db1]; done.
Qed.

Lemma issuer_main_serves open_db seeded fs address k0 tenants :
  issuer_main open_db seeded fs = Serves address (k0, tenants) ->
  NewIssuerServer m open_db (LoadIssuerConfigFromEnv (mc_env m)) seeded fs = Ok (k0, tenants).
Proof. unfold issuer_main. destruct (NewIssuerServer _ _ _ _ _); [by intros [= _ ->]|done]. Qed.

(** Different keys have different DIDs. *)
Lemma DIDFromPublicKey_inj k k' did :
  DIDFromPublicKey (PubEd25519 k) = Ok did -> DIDFromPublicKey (PubEd25519 k') = Ok did -> k = k'.
Proof.
  unfold DIDFromPublicKey. intros Hk Hk'. bind_inv Hk as x Hx. bind_inv Hk' as x' Hx'. ok_simp Hx. ok_simp Hx'.
  assert (x = x') as <- by (injection Hk as <-; injection Hk' as Hk'; by apply b64_encode_inj).
  assert (Hc : forall k x, json_marshal (jwk_of_ed25519 k) = Ok x -> json_unmarshal x = Ok (json_image <$> jwk_of_ed25519 k)).
  { intros k0 x0 Hm. destruct (json_law (safe := fun m => json_safe (VObj m)) (jwk_of_ed25519 k0) (jwk_object_safe k0)) as (x1 & Hm1 & Hu). congruence. }
  apply Hc in Hx, Hx'. assert (Heq : json_image <$> jwk_of_ed25519 k = json_image <$> jwk_of_ed25519 k') by congruence.
  assert (He : claim_string (Some (json_image <$> jwk_of_ed25519 k)) "x" = claim_string (Some (json_image <$> jwk_of_ed25519 k')) "x")
    by by rewrite Heq.
  rewrite !claim_string_image in He. change (b64_encode k = b64_encode k') in He.
  by apply b64_encode_inj.
Qed.

Lemma new_doc_signer d doc pub seed sg :
  NewDIDJWK d = Ok doc -> d_ed25519 d = Ok (pub, seed) -> CurrentSigner doc = Ok sg ->
  sg = private_signer (PrivEd25519 pub seed).
Proof.
  unfold NewDIDJWK, NewDIDJWKWithAlg, generateKey, GenerateDIDJWK, generateEd25519DID, key_pair. intros Hn Hd.
  rewrite bool_decide_eq_true_2, Hd in Hn by done. cbn [map_err rbind] in Hn.
  bind_inv Hn as ke Hke. bind_inv Hke as kp Hkp. bind_inv Hkp as j Hj. bind_inv Hkp as t Ht. ok_simp Ht.
  injection Hkp as <-. cbn [kp_PublicJWK kp_PrivateKeyPEM kp_DID kp_Algorithm] in Hke. bind_inv Hke as pk Hpk.
  injection Hke as <-. injection Hn as <-. destruct (pkcs8_law _ _ Ht) as (Hne & blk & Hdec & Hparse).
  unfold CurrentSigner, CurrentKey. cbn -[pem_decode parse_pkcs8]. rewrite decide_True by done. cbn -[pem_decode parse_pkcs8].
  rewrite bool_decide_eq_false_2, Hdec by done. cbn [of_option rbind]. rewrite Hparse. cbn. congruence.
Qed.

(** The first key of a tenant is the one that was drawn. *)
Lemma first_key fs docs d t sg s' pub seed :
  store_at fs (keys_path m) docs -> docs !! t = None -> d_ed25519 d = Ok (pub, seed) ->
  GetSigningKey (choose_store m fs) d t = (Ok sg, s') -> signer_Public sg = PubEd25519 pub.
Proof.
  intros Hs Hnone Hd Hg. rewrite (choose_file m Hdisk Hdev fs docs Hs) in Hg.
  unfold GetSigningKey, machine_store, service_keystore in Hg.
  destruct (FileBackedKeyStore_GetSigningKey _ d t) as [r f'] eqn:Hk. injection Hg as -> <-.
  apply file_get in Hk as (_ & doc & _ & Hcur & [[Hdoc _]|(_ & Hn & _)]); [cbn in Hdoc; congruence|].
  by rewrite (new_doc_signer _ _ _ _ _ Hn Hd Hcur).
Qed.

(** *** A verifier, and an issuer that was started on the disk the verifier left *)

Section running.
Context (fs : files) (docs : gmap string DIDDocument) (cfgv : VerifierConfig) (seeded created : time) (d : draw) (reg : R)
  (v : Verifier) (s : state) (ms : GatewayMetrics V * VerifierMetrics V * R) (store1 : service_store)
  (open_db : string -> result error unit) (cfgi : IssuerConfig) (seededi : time) (k0 : service_store)
  (tenants : TenantStore).
Hypothesis Hat : store_at fs (keys_path m) docs.
Hypothesis Hsafe : docs_safe doc_safe docs = true.
Hypothesis Hnew : forall doc, NewDIDJWK d = Ok doc -> doc_safe doc = true.
Hypothesis Hv : start_verifier cfgv seeded created d reg fs = Ok (v, s, ms, store1).
Hypothesis Hi : NewIssuerServer m open_db cfgi seededi (stored m store1 fs) = Ok (k0, tenants).
Hypothesis Hdef : ic_DefaultTenantID cfgi = vf_DefaultTenantID cfgv.

Lemma running_default : default_tenant v = vf_DefaultTenantID cfgv /\ vf_DefaultTenantID cfgv <> "".
Proof. pose proof Hv as Hs. apply startup_spec in Hs as (? & ? & _). done. Qed.

(** The issuer holds the key of the verifier. *)
Lemma running_key : holds k0 (vf_DefaultTenantID cfgv) (ve_signer v).
Proof.
  pose proof Hv as Hs. apply startup_spec in Hs as (_ & _ & Hkey & _).
  pose proof (restarted_holds doc_safe m Hdisk Hdev fs docs d _ _ _ Hat Hsafe Hnew Hkey) as Hh.
  unfold NewIssuerServer in Hi. bind_inv Hi as u Hu. injection Hi as <- _. exact Hh.
Qed.

Lemma running_trust t did : IsTrustedIssuer (v_trust s) t did = Ok true <-> t = default_tenant v /\ did = ve_issuerDID v.
Proof. pose proof Hv as Hs. apply startup_spec in Hs as (-> & _ & _ & _ & _ & Htr & _). apply Htr. Qed.

Lemma running_trusted : ve_issuerDID v ∈ trusted_set (v_trust s) (default_tenant v).
Proof.
  pose proof (proj2 (running_trust (default_tenant v) (ve_issuerDID v)) (conj eq_refl eq_refl)) as Ht.
  rewrite is_trusted_law in Ht. by injection Ht as Ht%bool_decide_eq_true.
Qed.

(** The one tenant of both. *)
Lemma running_tenant a r t : admits v a r t -> t_ID t = default_tenant v.
Proof.
  pose proof Hv as Hs. apply startup_spec in Hs as (Hdt & _ & _ & _ & Hten & _).
  intros Ha. apply Resolve_Ok in Ha as (get & id & [= <-] & [-> ->]%Hten & _). by rewrite Hdt.
Qed.

Lemma running_lookup : lookup_ok (ve_tenants v).
Proof. pose proof Hv as Hs. apply startup_spec in Hs as (_ & Hne & _ & _ & Hten & _). intros id t Ht. by apply Hten in Ht as [-> ->]. Qed.

(** What the issuer hands out verifies for the verifier. *)
Lemma running_credential ai ri ti req ttl signed ds k a now :
  let p := basic_payload (i_now (iv_issuance ai)) (i_uuid (iv_issuance ai)) (ve_issuerDID v)
             (iq_SubjectDID req) ttl (Some signed) in
  issuer_admits cfgi tenants ai ri ti -> asks_credential cfgi (iv_issuance ai) ri req ttl signed ds ->
  signer_ok (ve_signer v) k -> ValidateDID (ve_issuerDID v) = Ok tt ->
  payload_safe p = true -> payload_safe (with_format (payload_image p) (issue_format req)) = true ->
  vi_resolve a (ve_issuerDID v) = Ok (PubEd25519 k) -> within_life (i_now (iv_issuance ai)) ttl now ->
  exists token c,
    (let o := issuer_handler cfgi tenants ai (with_context background ri) k0 in
      rs_Status (out_response o) = 200%Z
      /\ rs_Body (out_response o) = Body (Issued (mkIssueResponse token ds (issue_format req) APIVersion)))
    /\ VerifyCredential token
         (mkDeps (Some (trusted_resolver (Some (v_trust s)) (default_tenant v) (Some (server_resolver v a (v_trust s)))))) "" now
       = Ok c
    /\ vc_Issuer c = ve_issuerDID v /\ vc_Subject c = iq_SubjectDID req /\ vc_Claims c = map_image (Some signed)
    /\ utf8_valid token = true.
Proof.
  cbv zeta. intros Hai (Hp & Hm & Hb & claims & Hc & Hf) Hsg Hvd Hps Hps' Hres Hl.
  assert (Htenants : tenants = issuer_tenants cfgi seededi).
  { unfold NewIssuerServer in Hi. bind_inv Hi as u Hu. by injection Hi as _ <-. }
  destruct (issuer_tenant_only _ _ _ _ _ _ Htenants Hai) as [Htok Hti].
  assert (Hkd : DIDFromPublicKey (PubEd25519 k) = Ok (ve_issuerDID v)).
  { pose proof Hv as Hs. apply startup_spec in Hs as (_ & _ & _ & Hdid & _). by rewrite <- (proj1 Hsg). }
  assert (Hgi : GetSigningKey k0 (i_keys (iv_issuance ai)) (t_ID ti) = (Ok (ve_signer v), k0))
    by (rewrite Hti, Hdef; apply running_key).
  pose proof running_trusted as Htd.
  destruct (issued_credential cfgi tenants ai ri k0 ti req ttl claims signed ds (ve_signer v) k (ve_issuerDID v) k0
    (trusted_resolver (Some (v_trust s)) (default_tenant v) (Some (server_resolver v a (v_trust s)))) now Htok Hai Hp Hm
    Hb Hc Hf Hgi Hsg Hkd Hvd Hps Hps' (trusted_key v a _ _ _ _ Htd Htd Hres) Hl) as (token & c & (Hst & _ & Hbody) & Hrest).
  exists token, c. by split.
Qed.
(** The gateway opens for such a credential: reading orders is what the demonstration policy
    allows, and the token it hands out is signed with the key of the verifier. *)
Lemma running_gateway a r t token audience c k :
  let decision := mkDecision true (vc_Subject c) (vc_Subject c) 0 (vc_Claims c) "" in
  let payload := synthetic_payload (at_mint (vi_gateway a)) decision (ve_issuerDID v) (15 * minute) in
  admits v a r t -> r_Path r = "/v1/gateway/authorize" -> r_Method r = "POST" ->
  r_Body r ≫= decode_body = Some (mkAuthorize token [] audience true "orders" "read") ->
  (String.length token <= maxCredentialLength)%nat -> too_long audience = false ->
  VerifyCredential token
    (mkDeps (Some (trusted_resolver (Some (v_trust s)) (default_tenant v) (Some (server_resolver v a (v_trust s)))))) ""
    (Gateway.at_verify (vi_gateway a)) = Ok c ->
  for_audience audience c ->
  (forall key, (limiter_allow (v_limiter s) (at_limit (vi_gateway a)) key).1 = true) ->
  (forall key, readCachedDecision (v_cache s) (at_lookup (vi_gateway a)) key = None) ->
  vi_order a gval ∅ = [] -> signer_ok (ve_signer v) k -> ve_issuerDID v <> "" -> json_safe (VObj payload) = true ->
  exists d, answers v a r s 200 (Body (Authorized d)) /\ gd_Allowed d = true /\ gd_Subject d = vc_Subject c
    /\ DecodeSyntheticJWT (gd_SyntheticJWT d) = Ok (json_image <$> payload)
    /\ VerifySyntheticJWTSignature (gd_SyntheticJWT d) (PubEd25519 k) = Ok tt
    /\ utf8_valid (gd_SyntheticJWT d) = true /\ gd_Reason d = "policy_allow".
Proof.
  cbv zeta. intros Ha Hp Hm Hb Hlen Haud Hver Hfor Hlim Hcache Ho Hsg Hne Hpay.
  destruct (VerifyCredential_chain _ _ _ _ audience 3 Hver Hfor) as [Hnt Hchain]; [lia|].
  pose proof (running_tenant _ _ _ Ha) as Htid.
  assert (Hten : tenant_or_default (tenant_view a r t) (default_tenant v) = default_tenant v).
  { rewrite <- Htid at 2. apply (exact_path_tenant v a r t running_lookup Ha (header_or_path _ _ Hp eq_refl)). }
  set (decision := mkDecision true (vc_Subject c) (vc_Subject c) 0 (vc_Claims c) "") in *.
  destruct (synthetic_roundtrip (at_mint (vi_gateway a)) decision (ve_signer v) k (ve_issuerDID v) (15 * minute)%Z
    Hsg eq_refl Hne ltac:(by vm_compute) Hpay) as (jwt & Hjwt & Hdec & Hsig).
  assert (Htext : utf8_valid jwt = true).
  { apply BuildSyntheticJWT_Ok in Hjwt as (_ & _ & _ & ht & pt & sg & _ & _ & _ & ->). apply jwt_token_text. }
  set (input := evaluation_input (default_tenant v) (r_Path r) (mkAuthorize token [] audience true "orders" "read")
    (chain_result [c]) decision).
  assert (Heval : EngineV1_Evaluate (vi_order a _) (Some (ListPoliciesForTenant (v_policies s))) input
    = Ok (mkResult true "policy_allow" (Some 1%Z))).
  { pose proof Hv as Hs. apply startup_spec in Hs as (Hdt & _ & _ & _ & _ & _ & Htab & Hok & _).
    apply (demo_evaluates _ _ (default_tenant v) created); [done| |done..]. intros id p. rewrite Htab, Hdt. naive_solver. }
  destruct (ServeHTTP_admitted v a r s t Ha) as [_ Hans].
  rewrite (at_gateway v a (tenant_view a r t) s Hp) in Hans. unfold gateway_route, authorize_or_panic in Hans.
  rewrite mount_eq in Hans.
  destruct (handleAuthorize_allows (gateway_config v a s) (vi_gateway a) (decoded (tenant_view a r t))
    (mkGateway (Some (v_trust s)) (v_cache s) (v_limiter s)) (mkAuthorize token [] audience true "orders" "read")
    (chain_result [c]) (mkResult true "policy_allow" (Some 1%Z)) jwt) as (g' & es & Hh & _).
  - exact Hm.
  - exact Hb.
  - unfold validateGatewayRequest, request_tokens.
    cbn [gr_Credentials gr_Credential gr_Resource gr_Action gr_ExpectedAudience].
    rewrite (bool_decide_eq_false_2 (token = "") Hnt), Haud.
    change (too_long "orders") with false. change (too_long "read") with false. cbn -[maxCredentialLength Nat.ltb].
    rewrite (bool_decide_eq_false_2 (token = "") Hnt). by rewrite (proj2 (Nat.ltb_ge _ _) Hlen).
  - apply Hlim.
  - apply Hcache.
  - change (tenant_or_default (decoded ?r') ?dd) with (tenant_or_default r' dd). cbn [gw_DefaultTenantID gateway_config].
    rewrite Hten. cbn [gr_Credentials gr_Credential request_tokens gs_registry gw_Resolver gr_ExpectedAudience].
    rewrite (bool_decide_eq_false_2 (token = "") Hnt). exact Hchain.
  - change (tenant_or_default (decoded ?r') ?dd) with (tenant_or_default r' dd). cbn [gw_DefaultTenantID gateway_config].
    rewrite Hten. exact Heval.
  - reflexivity.
  - exact Hjwt.
  - rewrite Hh in Hans. cbn in Hans. eexists. split; [apply Hans; discriminate|]. by split_and!.
Qed.
End running.

(** C7: A deployment that works.  The verifier is started on a disk, in development mode, and
    the issuer afterwards on the disk as the verifier left it, for the same default tenant.
    Then the two have the same key for that tenant, which was on the disk or is now, and the
    verifier trusts its DID; so every credential the issuer hands out for a request it can
    serve, a plain token or an SD-JWT, is valid for the verifier, during its life, for the
    subject that was asked for. *)
Theorem deployment_works fs docs cfgv seeded created d (reg : R) v (s : state)
    (ms : GatewayMetrics V * VerifierMetrics V * R) store1 open_db cfgi seededi k0 tenants :
  store_at fs (keys_path m) docs -> docs_safe doc_safe docs = true ->
  (forall doc, NewDIDJWK d = Ok doc -> doc_safe doc = true) ->
  start_verifier cfgv seeded created d reg fs = Ok (v, s, ms, store1) ->
  NewIssuerServer m open_db cfgi seededi (stored m store1 fs) = Ok (k0, tenants) ->
  ic_DefaultTenantID cfgi = vf_DefaultTenantID cfgv ->
  holds k0 (ic_DefaultTenantID cfgi) (ve_signer v)
  /\ IsTrustedIssuer (v_trust s) (default_tenant v) (ve_issuerDID v) = Ok true
  /\ forall ai ri ti req ttl signed ds k a,
       let p := basic_payload (i_now (iv_issuance ai)) (i_uuid (iv_issuance ai)) (ve_issuerDID v)
                  (iq_SubjectDID req) ttl (Some signed) in
       issuer_admits cfgi tenants ai ri ti -> asks_credential cfgi (iv_issuance ai) ri req ttl signed ds ->
       signer_ok (ve_signer v) k -> ValidateDID (ve_issuerDID v) = Ok tt ->
       payload_safe p = true -> payload_safe (with_format (payload_image p) (issue_format req)) = true ->
       vi_resolve a (ve_issuerDID v) = Ok (PubEd25519 k) -> within_life (i_now (iv_issuance ai)) ttl (vi_verify a) ->
       exists token,
         rs_Body (out_response (issuer_handler cfgi tenants ai (with_context background ri) k0))
           = Body (Issued (mkIssueResponse token ds (issue_format req) APIVersion))
         /\ forall r t, admits v a r t -> presents r token ->
              exists exp, answers v a r s 200 (Body (Verified (mkVerifyResponse true (iq_SubjectDID req)
                            (ve_issuerDID v) exp (iq_SubjectDID req) 0 APIVersion))).
Proof.
  intros Hat Hsafe Hnew Hv Hi Hdef. rewrite Hdef. split; [by eapply running_key|]. split; [by eapply running_trust|].
  intros ai ri ti req ttl signed ds k a. cbv zeta. intros Hai Hasks Hsg Hvd Hps Hps' Hres Hl.
  destruct (running_credential fs docs cfgv seeded created d reg v s ms store1 open_db cfgi seededi k0 tenants Hat Hsafe
    Hnew Hv Hi Hdef ai ri ti req ttl signed ds k a (vi_verify a)) as (token & c & [_ Hbody] & Hver & Hci & Hcs & _); try done.
  exists token. split; [exact Hbody|]. intros r t Ha Hpr. exists (vc_ExpiresAt c). rewrite <- Hci, <- Hcs.
  eapply verify_accepts; [by eapply running_lookup|done..|]. by erewrite running_tenant.
Qed.

(** C18: Started side by side.  When both services are started on a disk that has no key for
    the default tenant, each draws its own.  Then the verifier does not trust the issuer's DID
    for any tenant, no credential of the issuer is valid for it, and the disk ends up with the
    issuer's key alone: the verifier, started again, has another key than before. *)
Theorem started_together fs docs cfgv seeded created d (reg : R) v (s : state)
    (ms : GatewayMetrics V * VerifierMetrics V * R) store1 open_db cfgi seededi k0 tenants d2 sg2 k0' pub seed pub2 seed2 :
  store_at fs (keys_path m) docs -> docs_safe doc_safe docs = true ->
  (forall doc, NewDIDJWK d2 = Ok doc -> doc_safe doc = true) ->
  docs !! ic_DefaultTenantID cfgi = None ->
  start_verifier cfgv seeded created d reg fs = Ok (v, s, ms, store1) ->
  NewIssuerServer m open_db cfgi seededi fs = Ok (k0, tenants) ->
  ic_DefaultTenantID cfgi = vf_DefaultTenantID cfgv ->
  GetSigningKey k0 d2 (ic_DefaultTenantID cfgi) = (Ok sg2, k0') ->
  d_ed25519 d = Ok (pub, seed) -> d_ed25519 d2 = Ok (pub2, seed2) -> pub <> pub2 ->
  exists did2, DIDFromPublicKey (signer_Public sg2) = Ok did2
    /\ (forall t, IsTrustedIssuer (v_trust s) t did2 = Ok false)
    /\ (forall a r t resp, admits v a r t -> r_Path r = "/v1/credentials/verify" ->
          answers v a r s 200 (Body (Verified resp)) -> vs_Issuer resp <> did2)
    /\ holds (choose_store m (stored m k0' (stored m store1 fs))) (ic_DefaultTenantID cfgi) sg2
    /\ signer_Public sg2 <> signer_Public (ve_signer v).
Proof.
  intros Hat Hsafe Hnew Hnone Hv Hi Hdef Hg2 Hd Hd2 Hne. pose proof Hv as Hspec. apply startup_spec in Hspec.
  destruct Hspec as (Hdt & _ & Hkey & Hdid & _ & Htr & _).
  assert (Hk0 : k0 = choose_store m fs).
  { unfold NewIssuerServer in Hi. bind_inv Hi as u Hu. by injection Hi as <- _. }
  subst k0. rewrite <- Hdef in *.
  pose proof (first_key fs docs d _ _ _ _ _ Hat Hnone Hd Hkey) as Hp1.
  pose proof (first_key fs docs d2 _ _ _ _ _ Hat Hnone Hd2 Hg2) as Hp2.
  destruct (json_law (safe := fun m => json_safe (VObj m)) (jwk_of_ed25519 pub2) (jwk_object_safe pub2)) as (x & Hx & _).
  set (did2 := "did:jwk:" +:+ b64_encode x).
  assert (Hdid2 : DIDFromPublicKey (PubEd25519 pub2) = Ok did2) by (unfold DIDFromPublicKey; by rewrite Hx).
  assert (Hdiff : did2 <> ve_issuerDID v).
  { intros Heq. rewrite Hp1 in Hdid. rewrite <- Heq in Hdid. by apply Hne, (DIDFromPublicKey_inj _ _ did2). }
  assert (Huntrusted : forall t, did2 ∉ trusted_set (v_trust s) t).
  { intros t Hin. destruct (proj1 (Htr t did2)) as [_ ?]; [|done]. rewrite is_trusted_law.
    by rewrite bool_decide_eq_true_2. }
  exists did2. rewrite Hp2. split; [done|]. split; [|split; [|split]].
  - intros t. rewrite is_trusted_law. by rewrite bool_decide_eq_false_2.
  - intros a r t resp Ha Hp Hans Heq.
    assert (Hlk : lookup_ok (ve_tenants v)).
    { pose proof Hv as Hs2. apply startup_spec in Hs2 as (_ & Hnn & _ & _ & Hten & _).
      intros id t' [-> ->]%Hten. done. }
    destruct (verify_trusted v a r s t Hlk Ha _ Hp Hans) as (resp' & [= <-] & Hin). rewrite Heq in Hin.
    by apply (Huntrusted (t_ID t)).
  - pose proof Hg2 as Hg2'. rewrite (choose_file m Hdisk Hdev fs docs Hat) in Hg2.
    unfold GetSigningKey, machine_store, service_keystore in Hg2.
    destruct (FileBackedKeyStore_GetSigningKey _ d2 _) as [r2 f2] eqn:Hk2. injection Hg2 as -> <-.
    pose proof (restarted_holds doc_safe m Hdisk Hdev fs docs d2 _ _ _ Hat Hsafe Hnew Hg2') as Hh.
    enough (stored m (FileStored f2) (stored m store1 fs) !! keys_path m = stored m (FileStored f2) fs !! keys_path m)
      as Hsame.
    { unfold choose_store, NewFileBackedKeyStoreFromEnv in *. by rewrite Hsame. }
    apply file_get in Hk2 as (_ & doc & _ & _ & [[Hdoc _]|(_ & _ & _ & data & _ & Hf)]); [cbn in Hdoc; congruence|].
    unfold stored at 1 3, written. rewrite Hf. by rewrite !lookup_insert_eq.
  - rewrite Hp1. congruence.
Qed.
End deployment.

(** ** Instances *)

#[local] Existing Instances documents_json documents_json_law.
#[local] Existing Instances raw_decoder form_decoder gateway_decoder trust_decoder policy_decoder.
#[local] Existing Instances Memory.memory_ops Memory.memory_laws.
#[local] Existing Instances keygen_decoder issue_decoder delegate_decoder bootstrap_decoder.

Import MapRegistry.

Definition every_doc (_ : DIDDocument) : bool := true.

Lemma laptop_disk : disk_works laptop.
Proof. intros path. repeat split. Qed.

Lemma laptop_dev : mc_env laptop "USE_PRODUCTION_KEYSTORE" <> "true".
Proof. discriminate. Qed.

Lemma nothing_stored path : store_at ∅ path ∅.
Proof. reflexivity. Qed.

Lemma no_docs : docs_safe every_doc ∅ = true.
Proof. apply bool_decide_eq_true. intros k d _. reflexivity. Qed.

(** The verifier draws alice's key on an empty disk. *)
Definition dev_verifier :=
  start_verifier (R := registry) (V := string * string) (F := Z) (D := redis_server) laptop (acme_config "single")
    t0 t0 (draw_key alice_key "1") ∅ ∅.

Definition no_database (dsn : string) : result error unit := Err (ErrText "no database").

Lemma dev_starts :
  exists v s ms store k0 tenants, dev_verifier = Ok (v, s, ms, store)
    /\ NewIssuerServer laptop no_database issuer_config t0 (stored laptop store ∅) = Ok (k0, tenants)
    /\ ve_signer v = private_signer (PrivEd25519 alice_key "seed") /\ ve_issuerDID v = alice_did
    /\ tenants = {["acme" := mkTenant "acme" "default" true t0 t0]}
    /\ (forall a r, admits v a r (mkTenant "acme" "default" true t0 t0)
          <-> resolves_to (mkResolver ModeSingle "acme" (Some (ve_tenants v))) (vi_arrival a) (with_context background r)
                (mkTenant "acme" "default" true t0 t0))
    /\ ve_tenants v "acme" = Ok (mkTenant "acme" "default" true t0 t0).
Proof.
  assert (Hx : (let! (v, _, _, _) := dev_verifier in
      Ok (ve_signer v, ve_issuerDID v, ve_cfg v, ve_tenants v "acme"))
    = Ok (private_signer (PrivEd25519 alice_key "seed"), alice_did, acme_config "single",
          Ok (mkTenant "acme" "default" true t0 t0))) by (vm_compute; reflexivity).
  destruct dev_verifier as [[[[v s] ms] store]|]; [|discriminate Hx]. cbn [rbind] in Hx.
  injection Hx as Hs Hd Hc Ht. eexists v, s, ms, store, _, _. split; [reflexivity|]. split; [reflexivity|].
  split; [exact Hs|]. split; [exact Hd|]. split; [reflexivity|]. split; [|exact Ht].
  intros a r. unfold admits, tenantResolver, default_tenant. rewrite Hc. reflexivity.
Qed.

#[local] Instance laptop_store : KeyStore service_store := service_keystore laptop.

Lemma dev_admits (lookup : string -> result error Tenant) a (r : request string) t :
  lookup "acme" = Ok t -> t_Enabled t = true -> r_Header r "X-Tenant-ID" = "" ->
  resolves_to (mkResolver ModeSingle "acme" (Some lookup)) a r t.
Proof.
  intros Hl He Hh. apply Resolve_Ok. exists lookup, "acme". split; [reflexivity|]. split; [exact Hl|].
  split; [exact He|]. cbn. rewrite Hh. done.
Qed.

Lemma bare_header path body h : r_Header (acme_request path body "" "") h = "".
Proof. cbn. by repeat case_bool_decide. Qed.

(** A request for an SD-JWT, and an issuance with a salt for each claim. *)
Definition issue_bob_sd : request string := acme_request "/v1/credentials/issue" "issue sd-jwt" "" "".

Definition salted_issuer (t : time) : issuer_visit :=
  mkIssuerVisit (mkArrival "cid" t 0 0) no_draw
    (mkIssuance no_draw t t "id" t (fun claims => pair "salt" <$> map_to_list claims)) "" t t t "id".

Definition bob_disclosures : list (string * string) := Eval vm_compute in
  default [] (to_option (build_disclosures (pair "salt" <$> map_to_list scope_claims))).

Definition bob_digests : gmap string gval :=
  {["_sd" := VStrs bob_disclosures.*2; "_sd_alg" := VStr "sha256"]}.

Lemma bob_signs : signs (iv_issuance (salted_issuer t0)) "sd-jwt" scope_claims bob_digests bob_disclosures.*1.
Proof. exists bob_disclosures. split; [vm_compute; reflexivity|by split]. Qed.

Lemma deployment_works_witness :
  exists v s ms store k0 tenants token exp, length bob_disclosures = 1%nat /\ dev_verifier = Ok (v, s, ms, store)
    /\ NewIssuerServer laptop no_database issuer_config t0 (stored laptop store ∅) = Ok (k0, tenants)
    /\ rs_Body (out_response (issuer_handler issuer_config tenants (salted_issuer t0)
                  (with_context background issue_bob_sd) k0))
       = Body (Issued (mkIssueResponse token bob_disclosures.*1 "sd-jwt" APIVersion))
    /\ answers v (calm (t0 + 5 * second)%Z) (acme_request "/v1/credentials/verify" token "" "") s 200
         (Body (Verified (mkVerifyResponse true "did:ex:bob" alice_did exp "did:ex:bob" 0 APIVersion))).
Proof.
  destruct dev_starts as (v & s & ms & store & k0 & tenants & Hv & Hi & Hs & Hd & Hten & Hadm & Hl).
  pose proof (deployment_works every_doc laptop laptop_disk laptop_dev ∅ ∅ (acme_config "single") t0 t0
    (draw_key alice_key "1") (∅ : registry) v s ms store no_database issuer_config t0 k0 tenants (nothing_stored _)
    no_docs (fun _ _ => eq_refl)) as Hdep.
  destruct (Hdep Hv Hi eq_refl) as (_ & _ & Hall).
  rewrite Hd, Hs in Hall.
  destruct (Hall (salted_issuer t0) issue_bob_sd (mkTenant "acme" "default" true t0 t0)
    (mkIssueRequest "did:ex:bob" 60 (Some scope_claims) "sd-jwt") minute bob_digests bob_disclosures.*1
    alice_key (calm (t0 + 5 * second)%Z)) as (token & Hb & Hver).
  - rewrite Hten. unfold issuer_admits. apply dev_admits; [reflexivity|reflexivity|apply bare_header].
  - split; [reflexivity|]. split; [reflexivity|]. split; [reflexivity|]. exists scope_claims. split; [vm_compute; reflexivity|exact bob_signs].
  - split; [reflexivity|]. intros msg. exists (alice_key +:+ msg). split; [reflexivity|]. by apply bool_decide_eq_true.
  - vm_compute. reflexivity.
  - vm_compute. reflexivity.
  - vm_compute. reflexivity.
  - reflexivity.
  - unfold within_life, civil_time. repeat split; vm_compute; congruence.
  - destruct (Hver (acme_request "/v1/credentials/verify" token "" "") (mkTenant "acme" "default" true t0 t0)) as [exp He].
    + apply Hadm. apply dev_admits; [exact Hl|reflexivity|apply bare_header].
    + repeat split.
    + exists v, s, ms, store, k0, tenants, token, exp. split; [reflexivity|]. split; [exact Hv|]. split; [exact Hi|]. split; [exact Hb|exact He].
Defined.

Lemma started_together_witness :
  exists v s ms store sg2 did2, dev_verifier = Ok (v, s, ms, store)
    /\ (GetSigningKey (choose_store laptop ∅) (draw_key bob_key "2") "acme").1 = Ok sg2
    /\ DIDFromPublicKey (signer_Public sg2) = Ok did2 /\ did2 <> ve_issuerDID v
    /\ forall t, IsTrustedIssuer (v_trust s) t did2 = Ok false.
Proof.
  destruct dev_starts as (v & s & ms & store & k0 & tenants & Hv & _ & _ & Hdid & _).
  destruct (GetSigningKey (choose_store laptop ∅) (draw_key bob_key "2") "acme") as [r k1] eqn:Hg.
  destruct r as [sg2|e].
  2: { assert (Hok : is_ok (GetSigningKey (choose_store laptop ∅) (draw_key bob_key "2") "acme").1 = true)
         by (vm_compute; reflexivity). rewrite Hg in Hok. discriminate Hok. }
  pose proof (started_together every_doc laptop laptop_disk laptop_dev ∅ ∅ (acme_config "single") t0 t0
    (draw_key alice_key "1") (∅ : registry) v s ms store no_database issuer_config t0 (choose_store laptop ∅)
    (issuer_tenants issuer_config t0) (draw_key bob_key "2") sg2 k1 alice_key "seed" bob_key "seed"
    (nothing_stored _) no_docs (fun _ _ => eq_refl) eq_refl) as Hside.
  assert (Hne : alice_key <> bob_key) by discriminate.
  destruct (Hside Hv eq_refl eq_refl Hg eq_refl eq_refl Hne) as (did2 & Hd2 & Hun & _).
  exists v, s, ms, store, sg2, did2. split; [exact Hv|]. split; [reflexivity|]. split; [exact Hd2|].
  split; [|exact Hun]. intros Heq. specialize (Hun "acme"). rewrite Heq, Hdid in Hun.
  pose proof (startup_spec (acme_config "single") (mc_env laptop) t0 t0 (choose_store laptop ∅) (draw_key alice_key "1")
    (∅ : registry) v s ms store Hv) as (_ & _ & _ & _ & _ & Htr & _).
  rewrite (proj2 (Htr "acme" alice_did) (conj eq_refl (eq_sym Hdid))) in Hun. discriminate Hun.
Defined.
