(* ===== verification/S2S.v ===== *)
(** * The service-to-service sample.

    Models samples/s2s: a client that asks the issuer for a credential, exchanges it at the
    gateway for a token and calls a service with it, and that service.  It is the deployment of
    docker-compose.yml, so its properties are about the services together: the run of the
    client through all three, and what the called service checks. *)

From S2P Require Import Prelude GoStrings Base64 GoTime Errors Values GoFmt Crypto Credential Instances.
From S2P Require Import Delegation SDJwt Verify VerifyFacts Issue IssueFacts ChainExample IssuancePolicy AuthzBridge.
From S2P Require Import Policy PolicyFacts PolicyStore Config Http Mux Tenant Server Trust Did Gateway GatewayProps.
From S2P Require Import Flags Keys RateLimit Redis Metrics MetricsProps KeysProps Jwk JwkProps Issuer IssuerProps Admin AdminProps.
From S2P Require Import PolicyAdmin Oidc4vp Oidc4vpEndpoint VerifierServer VerifierServerProps VerifierServerRuns.
From S2P Require Import IssuerServer EndToEnd.
From S2P Require Sdk SdkAgent.
From S2P Require Import Idctl Startup.
From Stdlib Require Import ZArith Ascii String Lia.
From stdpp Require Import gmap list strings.

Local Open Scope string_scope.

(** A text with its quotation marks written as apostrophes. *)
Definition quoted (s : string) : string :=
  string_map (fun a => if bool_decide (a = "'"%char) then ascii_of_nat 34 else a) s.

(** ** The called service *)

Module SampleApi.
(** A body is a document or a text of its own.
    Source: samples/s2s/api-service/main.go, [response]. *)
Inductive api_body :=
| Document (OK : bool) (Subject : string) (Claims : gmap string gval)
| Raw (text : string).

Section api.
Context `{Json (gmap string gval)}.
Context {B St : Type}.

(** Source: samples/s2s/api-service/main.go:23-46, [main]. *)
Definition orders : handler B St api_body := fun r s =>
  let authz := r_Header r "Authorization" in
  let unauthorized text := halt s (mkResponse 401 ∅ (Body (Raw (quoted text)))) in
  if bool_decide (authz = "") || negb (has_prefix authz "Bearer ") then unauthorized "{'error':'missing_token'}"
  else
    match DecodeSyntheticJWT (trim_prefix authz "Bearer ") with
    | Err _ => unauthorized "{'error':'invalid_token'}"
    | Ok payload =>
        let subject := match payload !! "sub" with Some (VStr subject) => subject | _ => "" end in
        halt s (respond 200 (Document true subject payload))
    end.

(** The mux of the service.
    Source: samples/s2s/api-service/main.go:22-23, [main]. *)
Definition mux : ServeMux := [("/orders", orders)].
End api.

(** Source: samples/s2s/api-service/main.go, [envOrDefault]. *)
Definition envOrDefault (env : string -> string) (key fallback : string) : string :=
  if bool_decide (env key = "") then fallback else env key.

(** The address it listens on.
    Source: samples/s2s/api-service/main.go:20-20, [main]. *)
Definition address (env : string -> string) : string := ":" +:+ envOrDefault env "API_HTTP_PORT" "8082".
End SampleApi.

(** ** The client *)

Module SampleClient.
(** Source: samples/s2s/client-service/main.go, [issueResponse]. *)
Record issueResponse := mkIssueResponse { ir_Credential : string }.

(** Source: samples/s2s/client-service/main.go, [gatewayAuthzResponse]. *)
Record gatewayAuthzResponse := mkAuthzResponse {
  ga_Allowed : bool;
  ga_Subject : string;
  ga_Claims : claims_map;
  ga_SyntheticJWT : string;
  ga_Reason : string;
}.

(** What it logs. *)
Inductive log_line :=
| IssuedCredential (credential : string)
| Authorized (subject : string) (claims : claims_map)
| ApiResponse (data : string)
| Completed.

(** How it ends: [Fatal] is [log.Fatalf], a [Panic] comes from a request that was not made. *)
Inductive ending :=
| Done
| Fatal (msg : string)
| Panicked.

(** Source: samples/s2s/client-service/main.go, [envOrDefault]. *)
Fixpoint envOrDefault (env : string -> string) (keys : list string) (fallback : string) : string :=
  match keys with
  | [] => fallback
  | key :: keys' => if bool_decide (env key = "") then envOrDefault env keys' fallback else env key
  end.

(** Source: samples/s2s/client-service/main.go:68-75, [issueCredential]. *)
Definition issue_payload : gmap string gval :=
  {["subject_did" := VStr "did:example:client"; "ttl_seconds" := VInt 300;
    "claims" := VObj {["scope" := VStr "read:orders"; "aud" := VStr "sample-api"]}]}.

(** Source: samples/s2s/client-service/main.go:97-103, [authorizeWithGateway]. *)
Definition authorize_payload (credential : string) : gmap string gval :=
  {["credential" := VStr credential; "expected_audience" := VStr "sample-api"; "want_synthetic_jwt" := VBool true;
    "resource" := VStr "orders"; "action" := VStr "read"]}.

(** [http.Post] of a JSON body. *)
Definition post (url body : string) : Sdk.http_request :=
  Sdk.mkHttpRequest "POST" url {["Content-Type" := "application/json"]} body.

Section client.
Context `{Json (gmap string gval), NewRequest, BodyDecoder issueResponse, BodyDecoder gatewayAuthzResponse}.
Variable net : Sdk.network.

(** Source: samples/s2s/client-service/main.go, [issueCredential]. *)
Definition issueCredential (baseURL : string) : result error string :=
  let! resp := net (post (baseURL +:+ "/v1/credentials/issue") (marshal_or_empty issue_payload)) in
  stop! negb (Sdk.hp_Status resp =? 200)%Z with
    ErrText ("unexpected status " +:+ pretty (Sdk.hp_Status resp) +:+ ": " +:+ Sdk.hp_Body resp) in
  let! parsed := of_option (ErrText "invalid character") (decode_body (Sdk.hp_Body resp)) in
  Ok (ir_Credential parsed).

(** The status of the answer is not looked at.
    Source: samples/s2s/client-service/main.go, [authorizeWithGateway]. *)
Definition authorizeWithGateway (baseURL credential : string) : result error gatewayAuthzResponse :=
  let! resp := net (post (baseURL +:+ "/v1/gateway/authorize") (marshal_or_empty (authorize_payload credential))) in
  of_option (ErrText "invalid character") (decode_body (Sdk.hp_Body resp)).

(** The request to the service.
    Source: samples/s2s/client-service/main.go:120-121, [callAPI]. *)
Definition api_request (baseURL token : string) : Sdk.http_request :=
  Sdk.mkHttpRequest "GET" (baseURL +:+ "/orders") {["Authorization" := "Bearer " +:+ token]} "".

(** The error of making the request is ignored: using it then is a panic.
    Source: samples/s2s/client-service/main.go, [callAPI]. *)
Definition callAPI (baseURL token : string) : result fault string :=
  match new_request "GET" (baseURL +:+ "/orders") with
  | Err _ => Err Panic
  | Ok _ =>
      let! resp := map_err Failed (net (api_request baseURL token)) in
      stop! negb (Sdk.hp_Status resp =? 200)%Z with
        Failed (ErrText ("api returned " +:+ pretty (Sdk.hp_Status resp) +:+ ": " +:+ Sdk.hp_Body resp)) in
      Ok (Sdk.hp_Body resp)
  end.

(** How it ends and what it logged.
    Source: samples/s2s/client-service/main.go, [main]. *)
Definition main (env : string -> string) : ending * list log_line :=
  let issuerURL := envOrDefault env ["ISSUER_BASE_URL"; "ISSUER_URL"] "http://localhost:8080" in
  let gatewayURL := envOrDefault env ["GATEWAY_AUTHORIZE_URL"; "GATEWAY_URL"] "http://localhost:8081" in
  let apiURL := envOrDefault env ["API_BASE_URL"; "API_URL"] "http://localhost:8082" in
  match issueCredential issuerURL with
  | Err err => (Fatal ("issue credential: " +:+ error_text err), [])
  | Ok credential =>
      let log := [IssuedCredential credential] in
      match authorizeWithGateway gatewayURL credential with
      | Err err => (Fatal ("authorize: " +:+ error_text err), log)
      | Ok decision =>
          if negb (ga_Allowed decision) then (Fatal ("gateway denied request: " +:+ ga_Reason decision), log)
          else
            let log := app log [Authorized (ga_Subject decision) (ga_Claims decision)] in
            if bool_decide (ga_SyntheticJWT decision = "") then (Fatal "gateway did not return a synthetic jwt", log)
            else
              match callAPI apiURL (ga_SyntheticJWT decision) with
              | Err Panic => (Panicked, log)
              | Err (Failed err) => (Fatal ("call api: " +:+ error_text err), log)
              | Ok data => (Done, app log [ApiResponse data; Completed])
              end
      end
  end.
End client.
End SampleClient.

(** ** The sample of an agent *)

Module SampleAgent.
Inductive ending :=
| Printed (status : Z)
| Fatal (msg : string)
| Panicked.

Section agent.
Context `{NewRequest, BodyDecoder Sdk.APIError}.
Context `{Json Sdk.DelegateRequest, Json Sdk.AuthorizeRequest, BodyDecoder Sdk.DelegateResponse,
  BodyDecoder Sdk.AuthorizeResponse, Json SdkAgent.credentialPayload, Json (gmap string gval)}.

(** Source: samples/agent/main.go:18-23, [main]. *)
Definition client : Sdk.Client := Sdk.mkClient "http://localhost:8080" "http://localhost:8081" "http://localhost:8081".

(** The sample as it goes on with a credential.
    Source: samples/agent/main.go:15-33, [main]. *)
Definition run (now : time) (ck : SdkAgent.moments) (start : Sdk.network) (net : nat -> Sdk.network) (parentToken : string)
  : ending :=
  if bool_decide (parentToken = "") then Fatal "parent credential required (placeholder)"
  else
    let agent := SdkAgent.mkAgentClient (Some client) in
    match SdkAgent.StartAgentSession agent now start parentToken "did:example:agent" ["read"] (5 * minute) with
    | Err err => Fatal (error_text err)
    | Ok session =>
        match SdkAgent.CallAuthorized agent ck net (Some session) "GET" "http://localhost:8080/examples/s2s"
                (None : option (gmap string gval)) with
        | Err Panic => Panicked
        | Err (Failed err) | Ok (Err err, _) => Fatal (error_text err)
        | Ok (Ok resp, _) => Printed (Sdk.hp_Status resp)
        end
    end.

(** Source: samples/agent/main.go, [main]. *)
Definition main now ck start net : ending := run now ck start net "".
End agent.
End SampleAgent.

(** ** What the service checks *)

Section api.
Context `{Json (gmap string gval)}.
Context `{!JsonLaw (gmap string gval) (fun m => json_safe (VObj m)) (fmap json_image)}.

(** The answer to a token that decodes. *)
Lemma orders_Ok {B St} (r : request B) (s : St) token payload :
  r_Header r "Authorization" = "Bearer " +:+ token -> DecodeSyntheticJWT token = Ok payload ->
  SampleApi.orders r s
  = halt s (respond 200 (SampleApi.Document true (default "" (string_member payload "sub")) payload)).
Proof.
  intros Ha Hd. unfold SampleApi.orders. rewrite Ha, has_prefix_app, trim_prefix_app, Hd.
  rewrite bool_decide_eq_false_2 by done. unfold string_member. by destruct (payload !! "sub") as [[]|].
Qed.

(** The called service believes anybody.  It decodes the token it is given and checks
    neither the signature nor the issuer nor the dates: whatever claims somebody writes, with
    any signature, are answered 200 with those claims and their subject; and no token, or one
    that does not decode, is refused with 401. *)
Theorem api_believes_anybody {B St} (r : request B) (s : St) :
  r_Path r = "/orders" ->
  let serve := mux_serve SampleApi.mux r s in
  out_state serve = s
  /\ (forall claims ht pt signature,
        json_marshal claims = Ok pt -> json_safe (VObj claims) = true ->
        r_Header r "Authorization" = "Bearer " +:+ jwt_token ht pt signature ->
        out_response serve
        = respond 200 (SampleApi.Document true (claim_string (Some claims) "sub") (json_image <$> claims)))
  /\ (rs_Status (out_response serve) <> 401%Z <->
        exists token payload, r_Header r "Authorization" = "Bearer " +:+ token /\ DecodeSyntheticJWT token = Ok payload).
Proof.
  intros Hp. cbv zeta. rewrite (mux_serve_exact _ r s "/orders" SampleApi.orders); [| |by left|done|done].
  2: { cbn. apply NoDup_singleton. }
  split; [|split].
  - unfold SampleApi.orders. destruct (_ || _)%bool; [done|]. by destruct (DecodeSyntheticJWT _).
  - intros claims ht pt signature Hpt Hsafe Ha.
    destruct (json_law claims Hsafe) as (pt' & Hpt' & Hu). rewrite Hpt in Hpt'. injection Hpt' as <-.
    rewrite (orders_Ok r s _ (json_image <$> claims) Ha) by by rewrite DecodeSyntheticJWT_token, Hu.
    cbn. unfold respond. do 3 f_equal. rewrite <- (claim_string_image claims "sub"). unfold string_member, claim_string, claim. cbn.
    by destruct ((json_image <$> claims) !! "sub") as [[]|].
  - split; [|intros (token & payload & Ha & Hd); by rewrite (orders_Ok r s _ _ Ha Hd)].
    unfold SampleApi.orders. destruct (bool_decide _ || negb _)%bool eqn:Hb; [done|].
    apply orb_false_iff in Hb as [_ Hb%negb_false_iff]. apply has_prefix_spec in Hb as [token Ht]. rewrite Ht, trim_prefix_app.
    destruct (DecodeSyntheticJWT token) as [payload|] eqn:Hd; [|done]. intros _. by exists token, payload.
Qed.
End api.

(** ** The client through all three services *)

(** What the client asks the issuer and the gateway for, as they decode it. *)
Definition sample_claims : gmap string gval := {["scope" := VStr "read:orders"; "aud" := VStr "sample-api"]}.
Definition sample_issue : IssueRequest := mkIssueRequest "did:example:client" 300 (Some sample_claims) "".
Definition sample_authorize (credential : string) : GatewayAuthorizeRequest :=
  mkAuthorize credential [] "sample-api" true "orders" "read".

(** JSON between the client and the services: the fields of the documents that are sent and of
    those that come back are read as they were written. *)
Class SampleWire `{Json (gmap string gval), BodyDecoder IssueRequest, BodyDecoder GatewayAuthorizeRequest,
    BodyDecoder SampleClient.issueResponse, BodyDecoder SampleClient.gatewayAuthzResponse}
    (issuer_text : body issuer_answer -> string) (gateway_text : body answer -> string) : Prop := {
  wire_issue : decode_body (marshal_or_empty SampleClient.issue_payload) = Some sample_issue;
  wire_authorize credential : utf8_valid credential = true ->
    decode_body (marshal_or_empty (SampleClient.authorize_payload credential)) = Some (sample_authorize credential);
  wire_issued credential ds format version : utf8_valid credential = true ->
    decode_body (issuer_text (Body (Issued (mkIssueResponse credential ds format version))))
    = Some (SampleClient.mkIssueResponse credential);
  wire_decided d :
    utf8_valid (gd_Subject d) = true -> utf8_valid (gd_SyntheticJWT d) = true -> utf8_valid (gd_Reason d) = true ->
    exists claims,
    decode_body (gateway_text (Body (Authorized d)))
    = Some (SampleClient.mkAuthzResponse (gd_Allowed d) (gd_Subject d) claims (gd_SyntheticJWT d) (gd_Reason d));
}.

(** A request of the client as it reaches a handler for [path]. *)
Definition arrives (q : Sdk.http_request) (path : string) (r : request string) : Prop :=
  r_Method r = Sdk.hq_Method q /\ r_Path r = path /\ r_Body r = Some (Sdk.hq_Body q)
  /\ forall h x, Sdk.hq_Header q !! h = Some x -> r_Header r h = x.

(** The client, when it is answered as it hopes. *)
Lemma client_runs `{Json (gmap string gval), NewRequest, BodyDecoder SampleClient.issueResponse,
    BodyDecoder SampleClient.gatewayAuthzResponse} (net : Sdk.network) env issued credential status decided decision data :
  let issuerURL := SampleClient.envOrDefault env ["ISSUER_BASE_URL"; "ISSUER_URL"] "http://localhost:8080" in
  let gatewayURL := SampleClient.envOrDefault env ["GATEWAY_AUTHORIZE_URL"; "GATEWAY_URL"] "http://localhost:8081" in
  let apiURL := SampleClient.envOrDefault env ["API_BASE_URL"; "API_URL"] "http://localhost:8082" in
  net (SampleClient.post (issuerURL +:+ "/v1/credentials/issue") (marshal_or_empty SampleClient.issue_payload))
    = Ok (Sdk.mkHttpReply 200 issued) ->
  decode_body issued = Some (SampleClient.mkIssueResponse credential) ->
  net (SampleClient.post (gatewayURL +:+ "/v1/gateway/authorize")
         (marshal_or_empty (SampleClient.authorize_payload credential))) = Ok (Sdk.mkHttpReply status decided) ->
  decode_body decided = Some decision ->
  SampleClient.ga_Allowed decision = true -> SampleClient.ga_SyntheticJWT decision <> "" ->
  new_request "GET" (apiURL +:+ "/orders") = Ok tt ->
  net (SampleClient.api_request apiURL (SampleClient.ga_SyntheticJWT decision)) = Ok (Sdk.mkHttpReply 200 data) ->
  SampleClient.main net env
  = (SampleClient.Done,
     [SampleClient.IssuedCredential credential;
      SampleClient.Authorized (SampleClient.ga_Subject decision) (SampleClient.ga_Claims decision);
      SampleClient.ApiResponse data; SampleClient.Completed]).
Proof.
  cbv zeta. intros Hi Hid Hg Hgd Ha Hj Hr Hn.
  unfold SampleClient.main, SampleClient.issueCredential. rewrite Hi. cbn [rbind Sdk.hp_Status Sdk.hp_Body Z.eqb negb Pos.eqb].
  rewrite Hid. cbn [of_option rbind SampleClient.ir_Credential].
  unfold SampleClient.authorizeWithGateway. rewrite Hg. cbn [rbind Sdk.hp_Body]. rewrite Hgd. cbn [of_option].
  rewrite Ha. cbn [negb]. rewrite bool_decide_eq_false_2 by done.
  unfold SampleClient.callAPI. by rewrite Hr, Hn.
Qed.

Section sample.
Context `{Json (gmap string gval), Json (gmap string (list string)), Json (list gval), Json VCJWTPayload,
  Json VerifiableCredential, Json GatewayAuthorizeResponse, Sha256, Ed25519, Rfc3339, FloatFormat, Unicode, Pkcs8Law,
  Json (gmap string DIDDocument)}.
Context `{!JsonLaw (gmap string gval) (fun m => json_safe (VObj m)) (fmap json_image)}.
Context `{!JsonLaw VCJWTPayload payload_safe payload_image}.
Context (doc_safe : DIDDocument -> bool) `{!JsonLaw (gmap string DIDDocument) (docs_safe doc_safe) (fun d => d)}.
Context `{BodyDecoder VerifyRequest, BodyDecoder form, BodyDecoder GatewayAuthorizeRequest,
  BodyDecoder AddTrustedIssuerRequest, BodyDecoder PolicyRequest}.
Context `{BodyDecoder KeygenRequest, BodyDecoder IssueRequest, BodyDecoder DelegateRequest,
  BodyDecoder BootstrapRequest}.
Context {R V F : Type} `{Prometheus R V F} {D : Type} `{Redis D, SortedSets D}.
Context `{NewRequest, BodyDecoder SampleClient.issueResponse, BodyDecoder SampleClient.gatewayAuthzResponse}.
Context (issuer_text : body issuer_answer -> string) (gateway_text : body answer -> string)
  (api_text : body SampleApi.api_body -> string) `{!SampleWire issuer_text gateway_text}.
Context (m : machine) (Hdisk : disk_works m) (Hdev : mc_env m "USE_PRODUCTION_KEYSTORE" <> "true").

#[local] Existing Instances Memory.memory_ops Memory.memory_laws.
#[local] Instance sample_store : KeyStore service_store := service_keystore m.
#[local] Abbreviation state := (VerifierState MemoryTrust.MemoryTrustRegistry Memory.MemoryStore
  MemoryRequests.MemoryRequestStore (server_cache D) (server_limiter D)).

(** The DID of an Ed25519 key is a text that JSON carries. *)
Lemma did_of_key_text k did : DIDFromPublicKey (PubEd25519 k) = Ok did -> did <> "" /\ utf8_valid did = true.
Proof.
  unfold DIDFromPublicKey. intros Hd. bind_inv Hd as payload Hp. injection Hd as <-. split; [done|].
  apply utf8_valid_ascii. cbn. by apply b64_encode_ascii.
Qed.

(** The network takes each request of the client to the service it is for, and back; what the
    issuer hands out is not too long for the gateway. *)
Record connected (net : Sdk.network) (issuerURL gatewayURL apiURL : string) (cfgi : IssuerConfig) (tenants : TenantStore)
    (k0 : service_store) (ai : issuer_visit) (v : Verifier) (s : state) (a : visit) : Prop := {
  to_issuer :
    let q := SampleClient.post (issuerURL +:+ "/v1/credentials/issue") (marshal_or_empty SampleClient.issue_payload) in
    exists r t, arrives q "/v1/credentials/issue" r /\ issuer_admits cfgi tenants ai r t
      /\ let o := issuer_handler cfgi tenants ai (with_context background r) k0 in
         net q = Ok (Sdk.mkHttpReply (rs_Status (out_response o)) (issuer_text (rs_Body (out_response o))))
         /\ forall token, rs_Body (out_response o) = Body (Issued (mkIssueResponse token [] "jwt-vc" APIVersion)) ->
              (String.length token <= maxCredentialLength)%nat;
  to_gateway credential :
    let q := SampleClient.post (gatewayURL +:+ "/v1/gateway/authorize")
               (marshal_or_empty (SampleClient.authorize_payload credential)) in
    exists r t, arrives q "/v1/gateway/authorize" r /\ admits v a r t
      /\ forall status b, answers v a r s status b -> net q = Ok (Sdk.mkHttpReply status (gateway_text b));
  to_api token :
    let q := SampleClient.api_request apiURL token in
    exists r, arrives q "/orders" r /\ new_request "GET" (apiURL +:+ "/orders") = Ok tt
      /\ let o := mux_serve SampleApi.mux r tt in
         net q = Ok (Sdk.mkHttpReply (rs_Status (out_response o)) (api_text (rs_Body (out_response o))));
}.

(** C30: The sample runs.  The verifier is started on a disk, in development mode, then the
    issuer on the disk the verifier left and for the same default tenant, and the sample's
    service anywhere; the network connects the client to the three, nobody is over the limit
    and no decision is cached.  When the issuer's policy permits what the client asks for, the
    client completes: it gets a credential for
    its DID, a decision that allows it, and from the service the claims of a token that the
    verifier signed, for that DID and with the scope of the credential. *)
Theorem sample_completes fs docs cfgv seeded created d (reg : R) v (s : state)
    (ms : GatewayMetrics V * VerifierMetrics V * R) store1 open_db cfgi seededi k0 tenants ai a k net env :
  let issuerURL := SampleClient.envOrDefault env ["ISSUER_BASE_URL"; "ISSUER_URL"] "http://localhost:8080" in
  let gatewayURL := SampleClient.envOrDefault env ["GATEWAY_AUTHORIZE_URL"; "GATEWAY_URL"] "http://localhost:8081" in
  let apiURL := SampleClient.envOrDefault env ["API_BASE_URL"; "API_URL"] "http://localhost:8082" in
  let p := basic_payload (i_now (iv_issuance ai)) (i_uuid (iv_issuance ai)) (ve_issuerDID v) "did:example:client"
             (300 * second) (Some sample_claims) in
  store_at fs (keys_path m) docs -> docs_safe doc_safe docs = true ->
  (forall doc, NewDIDJWK d = Ok doc -> doc_safe doc = true) ->
  start_verifier m cfgv seeded created d reg fs = Ok (v, s, ms, store1) ->
  NewIssuerServer m open_db cfgi seededi (stored m store1 fs) = Ok (k0, tenants) ->
  ic_DefaultTenantID cfgi = vf_DefaultTenantID cfgv ->
  issue_checks (R := IssueResponse) cfgi sample_issue = Ok ((300 * second)%Z, sample_claims) ->
  signer_ok (ve_signer v) k -> ValidateDID (ve_issuerDID v) = Ok tt ->
  payload_safe p = true -> payload_safe (with_format (payload_image p) "jwt-vc") = true ->
  vi_resolve a (ve_issuerDID v) = Ok (PubEd25519 k) ->
  within_life (i_now (iv_issuance ai)) (300 * second) (Gateway.at_verify (vi_gateway a)) ->
  (forall key, (limiter_allow (v_limiter s) (at_limit (vi_gateway a)) key).1 = true) ->
  (forall key, readCachedDecision (v_cache s) (at_lookup (vi_gateway a)) key = None) ->
  vi_order a gval ∅ = [] ->
  connected net issuerURL gatewayURL apiURL cfgi tenants k0 ai v s a ->
  exists credential claims jwt payload,
    SampleClient.main net env
    = (SampleClient.Done,
       [SampleClient.IssuedCredential credential; SampleClient.Authorized "did:example:client" claims;
        SampleClient.ApiResponse (api_text (Body (SampleApi.Document true "did:example:client" payload)));
        SampleClient.Completed])
    /\ DecodeSyntheticJWT jwt = Ok payload /\ VerifySyntheticJWTSignature jwt (PubEd25519 k) = Ok tt
    /\ payload !! "iss" = Some (VStr (ve_issuerDID v)) /\ payload !! "sub" = Some (VStr "did:example:client")
    /\ payload !! "scope" = Some (VStr "read:orders").
Proof.
  cbv zeta. intros Hat Hsafe Hnew Hv Hi Hdef Hchecks Hsg Hvd Hps Hps' Hres Hlife Hlim Hcache Ho [Hiss Hgw Hapi].
  destruct Hiss as (ri & ti & (Hm & Hp & Hb & _) & Hai & Hnet & Hfits).
  destruct (running_credential doc_safe m Hdisk Hdev fs docs cfgv seeded created d reg v s ms store1 open_db cfgi seededi
    k0 tenants Hat Hsafe Hnew Hv Hi Hdef ai ri ti sample_issue (300 * second) sample_claims [] k a
    (Gateway.at_verify (vi_gateway a)) Hai) as (token & c & [Hst Hbody] & Hver & Hci & Hcs & Hcc & Htok); try done.
  { split; [done|]. split; [done|]. split; [rewrite Hb; exact wire_issue|]. exists sample_claims. by split. }
  destruct (Hgw token) as (rg & t & (Hgm & Hgp & Hgb & _) & Hga & Hgnet).
  assert (Hdid : ve_issuerDID v <> "" /\ utf8_valid (ve_issuerDID v) = true).
  { pose proof Hv as Hs. apply startup_spec in Hs as (_ & _ & _ & Hdid & _). rewrite (proj1 Hsg) in Hdid.
    by apply did_of_key_text in Hdid. }
  assert (Hclaim : forall key, claim (vc_Claims c) key = json_image <$> sample_claims !! key).
  { intros key. rewrite Hcc. cbn. by rewrite lookup_fmap. }
  destruct (running_gateway m fs cfgv seeded created d reg v s ms store1 Hv a rg t token "sample-api" c k)
    as (dec & Hans & Hallow & Hsub & Hdec & Hsig & Hjwt & Hreason); try done.
  { rewrite Hgb. by apply wire_authorize. }
  { eapply Hfits, Hbody. }
  { intros _. by rewrite Hclaim. }
  { by destruct Hdid. }
  { apply synthetic_payload_safe; [by destruct Hdid|by rewrite Hcs..|]. cbn [ad_Claims]. intros x. rewrite Hclaim. by intros [= <-]. }
  apply Hgnet in Hans. destruct (wire_decided dec) as [claims Hwire]; [by rewrite Hsub, Hcs|done|by rewrite Hreason|].
  destruct (Hapi (gd_SyntheticJWT dec)) as (ra & (_ & Hap & _ & Hah) & Hreq & Hanet).
  set (payload := synthetic_payload _ _ _ _) in *.
  assert (Hauth : r_Header ra "Authorization" = "Bearer " +:+ gd_SyntheticJWT dec) by (by apply Hah).
  rewrite (mux_serve_exact _ ra tt "/orders" SampleApi.orders) in Hanet; [|by apply NoDup_singleton|by left|done|done].
  rewrite (orders_Ok ra tt _ _ Hauth Hdec) in Hanet. cbn [out_response halt fst respond rs_Status rs_Body] in Hanet.
  destruct (synthetic_payload_lookup (at_mint (vi_gateway a)) (mkDecision true (vc_Subject c) (vc_Subject c) 0 (vc_Claims c) "")
    (ve_issuerDID v) (15 * minute)) as (Hpi & Hps2 & Hpsc & _). fold payload in Hpi, Hps2, Hpsc.
  cbn [ad_SubjectDID ad_Claims] in Hps2, Hpsc. rewrite Hcs in Hps2. rewrite Hclaim in Hpsc.
  exists token, claims, (gd_SyntheticJWT dec), (json_image <$> payload).
  split; [|rewrite !lookup_fmap, Hpi, Hps2, Hpsc; done].
  cbv zeta in Hst, Hbody, Hnet. unfold sample_store, machine_store in *. rewrite Hst, Hbody in Hnet.
  assert (Hs : default "" (string_member (json_image <$> payload) "sub") = "did:example:client")
    by (unfold string_member; by rewrite lookup_fmap, Hps2).
  rewrite Hs in Hanet.
  etransitivity.
  { eapply client_runs; [exact Hnet|by apply wire_issued|exact Hans|exact Hwire|exact Hallow| |exact Hreq|exact Hanet].
    cbn. intros Hx. by rewrite Hx in Hdec. }
  cbn. by rewrite Hsub, Hcs.
Qed.
End sample.

(** ** Instances *)

#[local] Existing Instances documents_json documents_json_law.
#[local] Existing Instances raw_decoder form_decoder trust_decoder policy_decoder.
#[local] Existing Instances Memory.memory_ops Memory.memory_laws.
#[local] Existing Instances keygen_decoder delegate_decoder bootstrap_decoder any_url.

Import MapRegistry.

#[local] Instance sample_issue_decoder : BodyDecoder IssueRequest :=
  only (marshal_or_empty SampleClient.issue_payload) sample_issue.
#[local] Instance sample_authorize_decoder : BodyDecoder GatewayAuthorizeRequest := fun text =>
  m ← to_option (json_unmarshal (T := gmap string gval) text); sample_authorize <$> string_member m "credential".
#[local] Instance sample_issued_decoder : BodyDecoder SampleClient.issueResponse := fun text =>
  Some (SampleClient.mkIssueResponse text).
#[local] Instance sample_decided_decoder : BodyDecoder SampleClient.gatewayAuthzResponse := fun text =>
  m ← to_option (json_unmarshal (T := gmap string gval) text);
  match m !! "allowed" with
  | Some (VBool allowed) =>
      Some (SampleClient.mkAuthzResponse allowed (default "" (string_member m "subject")) None
        (default "" (string_member m "synthetic_jwt")) (default "" (string_member m "reason")))
  | _ => None
  end.

Definition sample_issuer_text (b : body issuer_answer) : string :=
  match b with Body (Issued r) => is_Credential r | _ => "" end.

Definition decided_members (d : GatewayAuthorizeResponse) : gmap string gval :=
  {["allowed" := VBool (gd_Allowed d); "subject" := VStr (gd_Subject d);
    "synthetic_jwt" := VStr (gd_SyntheticJWT d); "reason" := VStr (gd_Reason d)]}.

Definition sample_gateway_text (b : body answer) : string :=
  match b with Body (Authorized d) => marshal_or_empty (decided_members d) | _ => "" end.

Definition sample_api_text (b : body SampleApi.api_body) : string :=
  match b with Body (SampleApi.Document _ subject _) => subject | _ => "" end.

(** A document that is sent is read as it was written. *)
Lemma sent_document (m : gmap string gval) :
  json_unmarshal (marshal_or_empty m) = Ok (json_image <$> m).
Proof.
  destruct (json_law (T := gmap string gval) (safe := fun _ => true) m eq_refl) as (text & Ht & Hu).
  unfold marshal_or_empty. by rewrite Ht.
Qed.

Lemma sample_wire : SampleWire sample_issuer_text sample_gateway_text.
Proof.
  split.
  - unfold decode_body, sample_issue_decoder, only. by rewrite bool_decide_eq_true_2.
  - intros credential Hu. unfold decode_body, sample_authorize_decoder. rewrite sent_document. cbn [to_option mbind option_bind].
    unfold string_member. rewrite lookup_fmap. cbn. reflexivity.
  - reflexivity.
  - intros d Hs Hj Hr. exists None. unfold decode_body, sample_decided_decoder, sample_gateway_text. rewrite sent_document.
    cbn [to_option mbind option_bind]. unfold string_member. rewrite !lookup_fmap. cbn. reflexivity.
Qed.

Definition sample_config : IssuerConfig :=
  mkIssuerConfig "8080" "acme" "single" "info" "" (mkIssuancePolicy 86400 [] []).

(** A request as it reaches a handler. *)
Definition to_request (q : Sdk.http_request) (path : string) : request string :=
  mkRequest (Sdk.hq_Method q) path "" (fun h => default "" (Sdk.hq_Header q !! h)) "10.0.0.1:4711" (Some (Sdk.hq_Body q))
    background.

Lemma to_request_arrives q path : arrives q path (to_request q path).
Proof. split_and!; try done. intros h x Hx. cbn. by rewrite Hx. Qed.

#[local] Instance laptop_keys : KeyStore service_store := service_keystore laptop.

Definition issuer_side tenants (k0 : service_store) (q : Sdk.http_request) :=
  out_response (issuer_handler sample_config tenants (calm_issuer t0)
    (with_context background (to_request q "/v1/credentials/issue")) k0).

(** The network of docker-compose.yml. *)
Definition sample_net tenants k0 (v : Verifier) (s : VerifierState MemoryTrust.MemoryTrustRegistry Memory.MemoryStore
    MemoryRequests.MemoryRequestStore (server_cache redis_server) (server_limiter redis_server)) : Sdk.network := fun q =>
  if bool_decide (Sdk.hq_URL q = "http://localhost:8080/v1/credentials/issue") then
    let resp := issuer_side tenants k0 q in
    Ok (Sdk.mkHttpReply (rs_Status resp) (sample_issuer_text (rs_Body resp)))
  else if bool_decide (Sdk.hq_URL q = "http://localhost:8081/v1/gateway/authorize") then
    match (ServeHTTP v (calm (t0 + 5 * second)%Z) (to_request q "/v1/gateway/authorize") s).1.1 with
    | Some resp => Ok (Sdk.mkHttpReply (rs_Status resp) (sample_gateway_text (rs_Body resp)))
    | None => Err (ErrText "EOF")
    end
  else
    let resp := out_response (mux_serve (St := unit) SampleApi.mux (to_request q "/orders") tt) in
    Ok (Sdk.mkHttpReply (rs_Status resp) (sample_api_text (rs_Body resp))).

Definition credential_fits (resp : response issuer_answer) : bool :=
  match rs_Body resp with Body (Issued i) => (String.length (is_Credential i) <=? maxCredentialLength)%nat | _ => true end.

Lemma fitting resp token :
  credential_fits resp = true -> rs_Body resp = Body (Issued (mkIssueResponse token [] "jwt-vc" APIVersion)) ->
  (String.length token <= maxCredentialLength)%nat.
Proof. unfold credential_fits. intros Hf Hb. rewrite Hb in Hf. by apply Nat.leb_le in Hf. Qed.

Definition the_request : Sdk.http_request :=
  SampleClient.post ("http://localhost:8080" +:+ "/v1/credentials/issue") (marshal_or_empty SampleClient.issue_payload).

Lemma sample_fits v s ms store k0 tenants :
  dev_verifier = Ok (v, s, ms, store) ->
  NewIssuerServer laptop no_database sample_config t0 (stored laptop store ∅) = Ok (k0, tenants) ->
  credential_fits (issuer_side tenants k0 the_request) = true.
Proof.
  assert (Hx : (let! (_, _, _, store) := dev_verifier in
      let! (k0, tenants) := map_err Failed (NewIssuerServer laptop no_database sample_config t0 (stored laptop store ∅)) in
      Ok (credential_fits (issuer_side tenants k0 the_request))) = Ok true) by (vm_compute; reflexivity).
  intros Hv Hi. rewrite Hv in Hx. cbn [rbind] in Hx. rewrite Hi in Hx. cbn [rbind map_err] in Hx. by injection Hx.
Qed.

Definition mallory_claims : gmap string gval := {["sub" := VStr "did:ex:mallory"; "role" := VStr "admin"]}.

Lemma api_believes_anybody_witness :
  exists token, rs_Body (out_response (mux_serve SampleApi.mux
    (to_request (SampleClient.api_request "http://localhost:8082" token) "/orders") tt))
  = Body (SampleApi.Document true "did:ex:mallory" (json_image <$> mallory_claims)).
Proof.
  assert (Hsafe : json_safe (VObj mallory_claims) = true) by (vm_compute; reflexivity).
  destruct (json_law (T := gmap string gval) (safe := fun m => json_safe (VObj m)) mallory_claims Hsafe) as (pt & Hm & _).
  exists (jwt_token "" pt "nobody").
  pose proof (api_believes_anybody (St := unit)
    (to_request (SampleClient.api_request "http://localhost:8082" (jwt_token "" pt "nobody")) "/orders") tt eq_refl)
    as (_ & Hall & _).
  rewrite (Hall _ "" pt "nobody" Hm Hsafe eq_refl). reflexivity.
Defined.

Lemma sample_completes_witness :
  exists v s ms store k0 tenants, dev_verifier = Ok (v, s, ms, store)
    /\ NewIssuerServer laptop no_database sample_config t0 (stored laptop store ∅) = Ok (k0, tenants)
    /\ exists credential claims, SampleClient.main (sample_net tenants k0 v s) (fun _ => "")
         = (SampleClient.Done,
            [SampleClient.IssuedCredential credential; SampleClient.Authorized "did:example:client" claims;
             SampleClient.ApiResponse "did:example:client"; SampleClient.Completed]).
Proof.
  destruct dev_starts as (v & s & ms & store & k1 & tenants1 & Hv & _ & Hs & Hd & _ & Hadm & Hl).
  assert (Hi : NewIssuerServer laptop no_database sample_config t0 (stored laptop store ∅)
    = Ok (choose_store laptop (stored laptop store ∅), issuer_tenants sample_config t0)) by reflexivity.
  set (k0 := choose_store laptop (stored laptop store ∅)) in *.
  set (tenants := issuer_tenants sample_config t0) in *.
  pose proof (sample_completes (SampleWire0 := sample_wire) every_doc sample_issuer_text sample_gateway_text sample_api_text laptop
    laptop_disk laptop_dev ∅ ∅ (acme_config "single") t0 t0 (draw_key alice_key "1") (∅ : registry) v s ms store no_database
    sample_config t0 k0 tenants (calm_issuer t0) (calm (t0 + 5 * second)%Z) alice_key
    (sample_net tenants k0 v s) (fun _ => "") (nothing_stored _) no_docs (fun _ _ => eq_refl) Hv Hi eq_refl) as H.
  rewrite Hs, Hd in H. cbv zeta in H.
  pose proof Hv as Hstart. apply (startup_spec (V := string * string) (F := Z) (D := redis_server)) in Hstart.
  destruct Hstart as (_ & _ & _ & _ & _ & _ & _ & _ & _ & _ & Hcache & Hlimiter & _).
  assert (Hresolve : resolves_to (mkResolver ModeSingle "acme" (Some (GetTenant tenants))) (iv_arrival (calm_issuer t0))
    (with_context background (to_request the_request "/v1/credentials/issue")) (mkTenant "acme" "default" true t0 t0)).
  { apply dev_admits; reflexivity. }
  destruct H as (credential & claims & jwt & payload & Hmain & _); cycle -1.
  { exists v, s, ms, store, k0, tenants. split; [exact Hv|]. split; [exact Hi|]. exists credential, claims. exact Hmain. }
  - vm_compute. reflexivity.
  - split; [reflexivity|]. intros msg. exists (alice_key +:+ msg). split; [reflexivity|]. by apply bool_decide_eq_true.
  - vm_compute. reflexivity.
  - vm_compute. reflexivity.
  - vm_compute. reflexivity.
  - reflexivity.
  - unfold within_life, civil_time. repeat split; vm_compute; congruence.
  - intros key. rewrite Hlimiter. reflexivity.
  - intros key. rewrite Hcache. reflexivity.
  - reflexivity.
  - split.
    + exists (to_request the_request "/v1/credentials/issue"), (mkTenant "acme" "default" true t0 t0).
      split; [apply to_request_arrives|]. split; [exact Hresolve|]. split; [reflexivity|].
      intros token Hb. exact (fitting _ token (sample_fits v s ms store k0 tenants Hv Hi) Hb).
    + intros credential. eexists (to_request _ _), (mkTenant "acme" "default" true t0 t0).
      split; [apply to_request_arrives|]. split.
      { apply Hadm. apply dev_admits; [exact Hl|reflexivity|reflexivity]. }
      intros status b (resp & Hr & <- & <-). unfold sample_net. cbn [Sdk.hq_URL SampleClient.post].
      rewrite bool_decide_eq_false_2 by (vm_compute; discriminate). rewrite bool_decide_eq_true_2 by (vm_compute; reflexivity).
      rewrite Hr. reflexivity.
    + intros token. eexists (to_request _ _). split; [apply to_request_arrives|]. split; [reflexivity|].
      reflexivity.
Defined.
