(* ===== verification/AuditDemo.v ===== *)
(** * The audit demonstration.

    Models examples/audit-logging-demo/main.go: an issuer's routes behind the standard
    middlewares, without the tenant middleware, and the requests and events the program makes to
    show the audit log.  The property says what it shows. *)

From S2P Require Import Prelude GoStrings Base64 GoTime Errors Values GoFmt Crypto Credential Instances.
From S2P Require Import Delegation SDJwt Verify VerifyFacts Issue IssueFacts ChainExample IssuancePolicy Config Http Mux.
From S2P Require Import Tenant Server Did Gateway Logging Keys KeysProps Jwk Issuer IssuerProps Admin IssuerServer.
From S2P Require Sdk.
From Stdlib Require Import ZArith Ascii String Lia.
From stdpp Require Import gmap list strings.

Local Open Scope string_scope.

(** ** The server *)

(** Source: examples/audit-logging-demo/main.go:29-33, [main]. *)
Definition demo_config : IssuerConfig :=
  mkIssuerConfig "8086" "demo-tenant" "" "info" "" (mkIssuancePolicy 0 [] []).

Section server.
Context `{Json (gmap string gval), Json (list gval), Json VCJWTPayload, Json VerifiableCredential,
  Sha256, Ed25519, Rfc3339, Unicode, Pkcs8}.
Context `{BodyDecoder KeygenRequest, BodyDecoder IssueRequest, BodyDecoder DelegateRequest}.

#[local] Existing Instance memory_keystore.

(** Source: examples/audit-logging-demo/main.go:38-40, [main]. *)
Definition demo_mux (a : issuer_visit) : ServeMux (B := string) (St := MemoryKeyStore) (R := issuer_answer) :=
  [("/v1/keys/generate", mount (fun _ => tt) (fun _ s => s) KeyGenerated (handleKeygen (iv_draw a)));
   ("/v1/credentials/issue",
      mount id (fun s _ => s) Issued (handleIssue demo_config false (iv_decode_error a) (iv_issuance a)));
   ("/v1/credentials/delegate",
      mount id (fun s _ => s) Issued (handleDelegate demo_config false (iv_decode_error a) (iv_issuance a)));
   ("/healthz", mount (B := unit) id (fun s _ => s) IssuerHealth handleHealth);
   ("/readyz", mount (B := unit) id (fun s _ => s) IssuerHealth (handleReady None))].

(** Source: examples/audit-logging-demo/main.go:43-43, [main]. *)
Definition demo_server (a : issuer_visit) : handler string MemoryKeyStore issuer_answer :=
  let r := iv_arrival a in
  StandardMiddlewareChain (ar_now r) (ar_generated r) (ar_duration r) (ar_bytes r) (mux_serve (demo_mux a)).
End server.

(** ** The requests *)

(** Source: examples/audit-logging-demo/main.go:73-75, [demoAuditLogging]. *)
Definition health_request (base : string) : Sdk.http_request :=
  Sdk.mkHttpRequest "GET" (base +:+ "/health")
    {["X-Correlation-ID" := "demo-health-check"; "X-Tenant-ID" := "demo-tenant"]} "".

(** Source: examples/audit-logging-demo/main.go:85-92, [demoAuditLogging]. *)
Definition demo_issue : gmap string gval :=
  {["subject_did" := VStr "did:jwk:demo-subject"; "ttl_seconds" := VInt 1800;
    "claims" := VObj {["role" := VStr "demo-user"; "permissions" := VStrs ["read"; "write"]]};
    "format" := VStr ""]}.

(** Source: examples/audit-logging-demo/main.go:113-113, [demoAuditLogging]. *)
Definition bad_issue : gmap string gval := {["subject_did" := VStr "not-a-did"; "ttl_seconds" := VInt (-1)]}.

Section requests.
Context `{Json (gmap string gval)}.

(** Source: examples/audit-logging-demo/main.go:93-98, [demoAuditLogging]. *)
Definition issue_request (base : string) : Sdk.http_request :=
  Sdk.mkHttpRequest "POST" (base +:+ "/v1/credentials/issue")
    {["Content-Type" := "application/json"; "X-Correlation-ID" := "demo-credential-issuance";
      "X-Tenant-ID" := "demo-tenant"; "User-Agent" := "AuditLoggingDemo/1.0"]} (marshal_or_empty demo_issue).

(** Source: examples/audit-logging-demo/main.go:114-118, [demoAuditLogging]. *)
Definition invalid_request (base : string) : Sdk.http_request :=
  Sdk.mkHttpRequest "POST" (base +:+ "/v1/credentials/issue")
    {["Content-Type" := "application/json"; "X-Correlation-ID" := "demo-invalid-request";
      "X-Tenant-ID" := "demo-tenant"]} (marshal_or_empty bad_issue).

(** What is printed of an answer. *)
Definition reported (failed got remark : string) (after : Z -> list string) (answer : result error Sdk.http_reply)
  : list string :=
  match answer with
  | Err err => [failed +:+ error_text err]
  | Ok resp => (got +:+ pretty (Sdk.hp_Status resp) +:+ remark) :: after (Sdk.hp_Status resp)
  end.

(** The events the program logs itself; [now] are three readings of the clock.
    Source: examples/audit-logging-demo/main.go:128-136, [demoAuditLogging]. *)
Definition manual_events (now : nat -> time) : list effect :=
  let ctx := WithUserID "demo-admin" (WithTenantID "demo-tenant" (WithCorrelationID "demo-manual-audit" background)) in
  [LogSecurityEvent ctx (now 0%nat) (event_name AuditEventAccessDenied) "blocked" "insufficient_privileges"
     {["resource" := VStr "/admin/sensitive-data"]};
   LogAdminEvent ctx (now 1%nat) AuditEventPolicyCreated "/policies/demo-policy" "CREATE" "success"
     {["policy_type" := VStr "access_control"; "effect" := VStr "allow"]};
   LogCredentialEvent ctx (now 2%nat) (event_name AuditEventCredentialRevoked) "did:jwk:revoked-subject"
     "did:jwk:demo-issuer" "success"].

(** What it prints, and the events; [net n] answers the n-th request.
    Source: examples/audit-logging-demo/main.go, [demoAuditLogging]. *)
Definition demoAuditLogging (net : nat -> Sdk.network) (now : nat -> time) (port : string) : list string * list effect :=
  let base := "http://localhost:" +:+ port in
  (concat
    [[""; "1) Health endpoint (non-sensitive)"];
     reported "   ❌ Health check error: " "   ✅ Health status: " "" (fun _ => []) (net 0%nat (health_request base));
     [""; "2) Credential issuance (audited)"];
     reported "   ❌ Issuance error: " "   ✅ Issuance status: " ""
       (fun status => if (status =? 200)%Z then ["   📄 Credential issued"] else []) (net 1%nat (issue_request base));
     [""; "3) Invalid issuance (audited failure)"];
     reported "   ❌ Invalid request error: " "   ✅ Invalid handled: " " (expected error)" (fun _ => []) (net 2%nat (invalid_request base));
     [""; "4) Manual audit events"; "   ✅ Manual events emitted"]],
   manual_events now).

(** What the program prints; the server it starts, which has printed its line by the time the
    first request is made, answers its requests.
    Source: examples/audit-logging-demo/main.go, [main]. *)
Definition demo_main (net : nat -> Sdk.network) (now : nat -> time) : list string :=
  let port := ic_HTTPPort demo_config in
  concat
    [["🔍 Credential Service - Audit Logging Demo"; "==========================================";
      "✅ Initialized structured logging with audit trail capabilities";
      "🚀 Server running on http://localhost:" +:+ port];
     (demoAuditLogging net now port).1;
     [""; "✨ Demo completed! Check logs above for audit events."]].
End requests.

(** ** What the demonstration shows *)

(** The types and the outcomes of the audit events. *)
Definition trail (es : list effect) : list (string * string) :=
  omap (fun e => match e with Logged e => Some (ev_EventType e, ev_Outcome e) | _ => None end) es.

(** A request as it arrives at the server. *)
Definition arrived (q : Sdk.http_request) (path : string) : request string :=
  mkRequest (Sdk.hq_Method q) path "" (fun h => default "" (Sdk.hq_Header q !! h)) "127.0.0.1:4711" (Some (Sdk.hq_Body q))
    background.

(** The claims of the request, as they are decoded. *)
Definition demo_claims : gmap string gval :=
  {["role" := VStr "demo-user"; "permissions" := VArr [VStr "read"; VStr "write"]]}.

Section shows.
Context `{Json (gmap string gval), Json (list gval), Json VCJWTPayload, Json VerifiableCredential,
  Sha256, Ed25519, Rfc3339, Unicode, Pkcs8}.
Context `{BodyDecoder KeygenRequest, BodyDecoder IssueRequest, BodyDecoder DelegateRequest}.
Context `{!JsonLaw (gmap string gval) (fun m => json_safe (VObj m)) (fmap json_image)}.
Context `{!JsonLaw VCJWTPayload payload_safe payload_image}.
Context (Hissue : decode_body (marshal_or_empty demo_issue) = Some (mkIssueRequest "did:jwk:demo-subject" 1800 (Some demo_claims) "")).
Context (Hbad : decode_body (marshal_or_empty bad_issue) = Some (mkIssueRequest "not-a-did" (-1) None "")).

#[local] Existing Instance memory_keystore.

Lemma demo_patterns a : NoDup (demo_mux a).*1.
Proof. apply (bool_decide_unpack _). vm_compute. exact I. Qed.

(** What the middlewares add to the trail of a handler. *)
Lemma chain_trail now generated duration bytes (h : handler string MemoryKeyStore issuer_answer) r s :
  let o := h (seen_request generated r) s in
  rs_Status (out_response o) <> 429%Z ->
  trail (out_effects (StandardMiddlewareChain now generated duration bytes h r s))
  = app (trail (out_effects o))
      (if isSensitiveEndpoint (r_Path r) then
         [("security.data_access", if (400 <=? rs_Status (out_response o))%Z then "failure" else "success")]
       else []).
Proof.
  cbv zeta. intros Hne. unfold StandardMiddlewareChain. rewrite !MiddlewareChain_cons.
  unfold SecurityHeadersMiddleware, CorrelationIDMiddleware, AuditMiddleware, RateLimitAuditMiddleware.
  change (MiddlewareChain [] h) with h. change (with_context _ r) with (seen_request generated r).
  destruct (h (seen_request generated r) s) as [[resp s'] es]. cbn [out_response out_effects fst snd] in *.
  rewrite (proj2 (Z.eqb_neq _ _) Hne), app_nil_r. change (r_Path (seen_request generated r)) with (r_Path r).
  unfold trail, set_headers, out_effects. cbn [fst snd]. rewrite omap_app. by destruct (isSensitiveEndpoint (r_Path r)).
Qed.

(** A request to the issue route. *)
Lemma at_demo_issue a r s :
  r_Path r = "/v1/credentials/issue" ->
  demo_server a r s
  = StandardMiddlewareChain (ar_now (iv_arrival a)) (ar_generated (iv_arrival a)) (ar_duration (iv_arrival a))
      (ar_bytes (iv_arrival a))
      (mount id (fun s _ => s) Issued (handleIssue demo_config false (iv_decode_error a) (iv_issuance a))) r s.
Proof.
  intros Hp. unfold demo_server, StandardMiddlewareChain. rewrite !MiddlewareChain_cons.
  unfold SecurityHeadersMiddleware, CorrelationIDMiddleware, AuditMiddleware, RateLimitAuditMiddleware.
  change (MiddlewareChain [] ?h) with h.
  rewrite (mux_serve_exact (demo_mux a) _ s "/v1/credentials/issue"
    (mount id (fun s _ => s) Issued (handleIssue demo_config false (iv_decode_error a) (iv_issuance a))));
    [done|apply demo_patterns|right; left|exact Hp|reflexivity].
Qed.

(** What the demonstration shows.  Its request for the health of the server goes to a path that
    is not served: the answer is 404, and is reported as the status.  The credential it asks for
    is issued; the request that is invalid is refused with 400.  In the audit log there are the
    credential, the two requests to the sensitive path with their outcomes, and the three events
    the program makes up; the first request leaves no line. *)
Theorem demo_shows a0 a1 a2 s sg k did s' now' now reply :
  let p := basic_payload (i_now (iv_issuance a1)) (i_uuid (iv_issuance a1)) did "did:jwk:demo-subject" (1800 * second)
             (Some demo_claims) in
  let base := "http://localhost:8086" in
  GetSigningKey s (i_keys (iv_issuance a1)) "demo-tenant" = (Ok sg, s') -> signer_ok sg k ->
  DIDFromPublicKey (PubEd25519 k) = Ok did -> ValidateDID did = Ok tt ->
  payload_safe p = true -> payload_safe (with_format (payload_image p) "jwt-vc") = true ->
  within_life (i_now (iv_issuance a1)) (1800 * second) now' ->
  let o0 := demo_server a0 (arrived (health_request base) "/health") s in
  let o1 := demo_server a1 (arrived (issue_request base) "/v1/credentials/issue") s in
  let o2 := demo_server a2 (arrived (invalid_request base) "/v1/credentials/issue") s' in
  let net n q := Ok (Sdk.mkHttpReply
    (match n with 0%nat => rs_Status (out_response o0) | 1%nat => rs_Status (out_response o1) | _ => rs_Status (out_response o2) end)
    (reply q)) in
  out_state o0 = s /\ out_state o1 = s' /\ out_state o2 = s'
  /\ (demoAuditLogging net now (ic_HTTPPort demo_config)).1
     = [""; "1) Health endpoint (non-sensitive)"; "   ✅ Health status: 404";
        ""; "2) Credential issuance (audited)"; "   ✅ Issuance status: 200"; "   📄 Credential issued";
        ""; "3) Invalid issuance (audited failure)"; "   ✅ Invalid handled: 400 (expected error)";
        ""; "4) Manual audit events"; "   ✅ Manual events emitted"]
  /\ trail (out_effects o0) = []
  /\ trail (out_effects o1) = [("credential.issued", "success"); ("security.data_access", "success")]
  /\ trail (out_effects o2) = [("security.data_access", "failure")]
  /\ trail (manual_events now)
     = [("auth.access_denied", "blocked"); ("admin.policy_created", "success"); ("credential.revoked", "success")].
Proof.
  cbv zeta. intros Hg Hk Hdid Hvd Hsafe Hsafe' Hl.
  set (r1 := arrived (issue_request _) _). set (r2 := arrived (invalid_request _) _).
  set (m a := mount id (fun s _ => s) Issued (handleIssue demo_config false (iv_decode_error a) (iv_issuance a))
    : handler string MemoryKeyStore issuer_answer).
  assert (Ha : exists resp es, m a1 (seen_request (ar_generated (iv_arrival a1)) r1) s = (resp, s', es)
    /\ rs_Status resp = 200%Z /\ trail es = [("credential.issued", "success")]).
  { destruct (issue_endpoint_roundtrip demo_config false (iv_decode_error a1) (iv_issuance a1)
      (decoded (seen_request (ar_generated (iv_arrival a1)) r1)) s
      (mkIssueRequest "did:jwk:demo-subject" 1800 (Some demo_claims) "") (1800 * second) demo_claims demo_claims [] sg k did s'
      (fun _ => Ok (PubEd25519 k)) now') as (token & c & es & Hh & _).
    1: reflexivity.
    1: exact Hissue.
    1: vm_compute; reflexivity.
    1: by split.
    1: exact Hg.
    1: exact Hk. 1: exact Hdid. 1: exact Hvd. 1: exact Hsafe. 1: exact Hsafe'. 1: reflexivity. 1: exact Hl.
    unfold m. rewrite mount_eq. change (id s) with s. rewrite Hh. do 2 eexists. split; [reflexivity|]. split; [reflexivity|].
    cbn [out_effects snd]. destruct (handleIssue_200 _ _ _ _ _ _ _ _ _ Hh eq_refl)
      as (req & ttl & cl & sg' & did' & token' & ds & _ & _ & _ & _ & _ & _ & e & -> & Hty & _ & _ & Hout).
    unfold record_event, trail. cbn. by rewrite Hty, Hout. }
  assert (Hb : exists resp, m a2 (seen_request (ar_generated (iv_arrival a2)) r2) s' = (resp, s', [])
    /\ rs_Status resp = 400%Z).
  { destruct (issue_checks (R := IssueResponse) demo_config (mkIssueRequest "not-a-did" (-1) None "")) as [[ttl c]|resp] eqn:Hc.
    { apply issue_checks_Ok in Hc as [Hc _]. discriminate Hc. }
    exists (map_response Issued resp). split; [|by apply issue_checks_Err in Hc].
    unfold m. rewrite mount_eq. change (id s') with s'.
    assert (Hh : handleIssue demo_config false (iv_decode_error a2) (iv_issuance a2)
      (decoded (seen_request (ar_generated (iv_arrival a2)) r2)) s' = halt s' resp).
    { unfold handleIssue. change (r_Method (decoded (seen_request _ r2))) with "POST".
      change (r_Body (decoded (seen_request _ r2))) with (decode_body (T := IssueRequest) (marshal_or_empty bad_issue)).
      rewrite Hbad, Hc. reflexivity. }
    by rewrite Hh. }
  destruct Ha as (resp1 & es1 & Ha & Hst1 & Htr1), Hb as (resp2 & Hb & Hst2).
  assert (H0' : mux_serve (demo_mux a0) (seen_request (ar_generated (iv_arrival a0)) (arrived (health_request "http://localhost:8086") "/health")) s
    = halt s not_found) by reflexivity.
  rewrite (at_demo_issue a1), (at_demo_issue a2) by reflexivity. fold (m a1) (m a2). unfold demo_server.
  assert (Hs : rs_Status resp1 <> 429%Z /\ rs_Status resp2 <> 429%Z) by (rewrite Hst1, Hst2; done).
  rewrite !standard_chain_state, !(proj1 (standard_chain_response _ _ _ _ _ _ _)), !chain_trail; rewrite ?H0', ?Ha, ?Hb; try (done || apply Hs).
  cbn [out_state out_response out_effects fst snd]. rewrite Hst1, Hst2, Htr1. repeat split; reflexivity.
Qed.
End shows.

(** ** Instances *)

#[local] Instance no_keygen : BodyDecoder KeygenRequest := fun _ => None.
#[local] Instance no_delegate : BodyDecoder DelegateRequest := fun _ => None.
#[local] Instance demo_decoder : BodyDecoder IssueRequest := fun text =>
  if bool_decide (text = marshal_or_empty demo_issue) then
    Some (mkIssueRequest "did:jwk:demo-subject" 1800 (Some demo_claims) "")
  else if bool_decide (text = marshal_or_empty bad_issue) then Some (mkIssueRequest "not-a-did" (-1) None "")
  else None.
#[local] Existing Instance memory_keystore.

Definition demo_visit : issuer_visit :=
  mkIssuerVisit (mkArrival "cid" t0 0 0) no_draw (issuance_at t0) "" t0 t0 t0 "id".

Definition demo_store : MemoryKeyStore := mkMemory {["demo-tenant" := alice]} ∅.

Lemma demo_shows_witness :
  trail (out_effects (demo_server demo_visit (arrived (issue_request "http://localhost:8086") "/v1/credentials/issue") demo_store))
  = [("credential.issued", "success"); ("security.data_access", "success")].
Proof.
  refine (proj1 (proj2 (proj2 (proj2 (proj2 (proj2 (demo_shows _ _ demo_visit demo_visit demo_visit demo_store alice alice_key
    alice_did demo_store (t0 + minute)%Z (fun _ => t0) (fun _ => "") _ _ _ _ _ _ _))))))).
  - vm_compute. reflexivity.
  - vm_compute. reflexivity.
  - reflexivity.
  - apply plain_signer_ok.
  - exact alice_did_eq.
  - vm_compute. reflexivity.
  - vm_compute. reflexivity.
  - vm_compute. reflexivity.
  - unfold within_life, civil_time. repeat split; vm_compute; congruence.
Defined.
