(* ===== verification/Examples.v ===== *)
(** * The small examples.

    Models examples/: programs of a page each, on the SDK (agent-basic, go-basic, killer-demo,
    sdk-go/sd-jwt) and on the production key store (kms-test).  [net] answers the n-th request
    of a program; what a program prints is a list of lines. *)

From S2P Require Import Prelude GoStrings Base64 GoTime Errors Values Crypto Credential Instances Config Policy Server Keys.
From S2P Require KeysProps Sdk SdkAgent.
From Stdlib Require Import ZArith Ascii String Lia.
From stdpp Require Import gmap list strings.

Local Open Scope string_scope.

(** How a program ends: [Fatal] is [log.Fatalf], [Panicked] a panic with an error or a nil
    dereference. *)
Inductive ending :=
| Done
| Fatal (msg : string)
| Panicked (msg : string).

(** The end of a program and what it printed; a step that fails ends it. *)
Definition program : Type := ending * list string.

Definition fatal (what : string) (err : error) : ending := Fatal (what +:+ ": " +:+ error_text err).

(** ** An agent *)

Module AgentBasic.
Section agent.
Context `{NewRequest, BodyDecoder Sdk.APIError}.
Context `{Json Sdk.DelegateRequest, Json Sdk.AuthorizeRequest, BodyDecoder Sdk.DelegateResponse,
  BodyDecoder Sdk.AuthorizeResponse, Json SdkAgent.credentialPayload, Json (gmap string gval)}.

(** Source: examples/agent-basic/main.go:13-18, [main]. *)
Definition client : Sdk.Client := Sdk.mkClient "http://localhost:8080" "http://localhost:8081" "http://localhost:8081".

(** The example as it goes on with a parent credential.
    Source: examples/agent-basic/main.go:19-31, [main]. *)
Definition run (now : time) (ck : SdkAgent.moments) (net : nat -> Sdk.network) (parent : string) : program :=
  let agent := SdkAgent.mkAgentClient (Some client) in
  match SdkAgent.StartAgentSession agent now (net 0%nat) parent "did:example:agent" ["read"] (2 * minute) with
  | Err err => (Panicked (error_text err), [])
  | Ok session =>
      match SdkAgent.CallAuthorized agent ck (fun n => net (S n)) (Some session) "GET" "http://localhost:8080/healthz"
              (None : option (gmap string gval)) with
      | Err Panic => (Panicked "nil pointer dereference", [])
      | Err (Failed err) | Ok (Err err, _) => (Panicked (error_text err), [])
      | Ok (Ok resp, _) => (Done, ["status " +:+ pretty (Sdk.hp_Status resp)])
      end
  end.

(** Source: examples/agent-basic/main.go, [main]. *)
Definition main now ck net : program := run now ck net "".

(** The example starts its session with no parent credential: whatever the services answer, it
    panics before it makes a request. *)
Lemma agent_basic_panics now ck net : main now ck net = (Panicked "parent token is required", []).
Proof. reflexivity. Qed.
End agent.
End AgentBasic.

(** ** Issue and authorize *)

Module GoBasic.
Section basic.
Context `{NewRequest, BodyDecoder Sdk.APIError}.
Context `{Json Sdk.IssueRequest, Json Sdk.AuthorizeRequest, BodyDecoder Sdk.IssueResponse, BodyDecoder Sdk.AuthorizeResponse}.

(** What is printed of the claims with [%#v]. *)
Variable show_claims : claims_map -> string.

(** Source: examples/go-basic/main.go:13-17, [main]. *)
Definition client : Sdk.Client := Sdk.mkClient "http://localhost:8080" "http://localhost:8081" "http://localhost:8081".

(** Source: examples/go-basic/main.go:20-24, [main]. *)
Definition issue_request : Sdk.IssueRequest :=
  Sdk.mkIssue "did:example:alice" (int_of_float (SdkAgent.duration_seconds (10 * minute)))
    (Some {["aud" := VStr "example-api"; "role" := VStr "admin"]}) "".

(** Source: examples/go-basic/main.go:29-33, [main]. *)
Definition authorize_request (credential : string) : Sdk.AuthorizeRequest :=
  Sdk.mkAuthorize credential [] "example-api" "" "" true.

(** Source: examples/go-basic/main.go:38-43, [main]. *)
Definition summary (decision : Sdk.AuthorizeResponse) : list string :=
  app ["Subject: " +:+ Sdk.ap_Subject decision;
       "Acting on behalf of: " +:+ Sdk.ap_ActingOnBehalfOf decision;
       "Claims: " +:+ show_claims (Sdk.ap_Claims decision)]
    (if bool_decide (Sdk.ap_SyntheticJWT decision = "") then []
     else ["Synthetic JWT: " +:+ Sdk.ap_SyntheticJWT decision]).

(** Source: examples/go-basic/main.go, [main]. *)
Definition main (net : nat -> Sdk.network) : program :=
  match Sdk.IssueCredential client (net 0%nat) issue_request with
  | Err err => (fatal "issue credential" err, [])
  | Ok issued =>
      match Sdk.Authorize client (net 1%nat) (authorize_request (Sdk.is_Credential issued)) with
      | Err err => (fatal "gateway authorize" err, [])
      | Ok decision => (Done, summary decision)
      end
  end.

(** It ends well exactly when both calls succeed, and then it has printed the summary of the
    decision on the credential that was issued, an allow or not. *)
Lemma go_basic_spec net out :
  main net = (Done, out) <->
  exists issued decision, Sdk.IssueCredential client (net 0%nat) issue_request = Ok issued
    /\ Sdk.Authorize client (net 1%nat) (authorize_request (Sdk.is_Credential issued)) = Ok decision
    /\ out = summary decision.
Proof.
  unfold main. split.
  - destruct (Sdk.IssueCredential _ _ _) as [issued|e] eqn:Hi; [|discriminate].
    destruct (Sdk.Authorize _ _ _) as [decision|e] eqn:Ha; [|discriminate]. intros [= <-]. by exists issued, decision.
  - by intros (issued & decision & -> & -> & ->).
Qed.
End basic.

(** The lifetime the SDK's arithmetic on floats gives is ten minutes. *)
Lemma issue_request_ttl : Sdk.ir_TTLSeconds issue_request = 600%Z.
Proof. vm_compute. reflexivity. Qed.
End GoBasic.

(** ** A delegated agent *)

Module KillerDemo.
Section demo.
Context `{NewRequest, BodyDecoder Sdk.APIError}.
Context `{Json Sdk.IssueRequest, Json Sdk.DelegateRequest, Json Sdk.AuthorizeRequest, BodyDecoder Sdk.IssueResponse,
  BodyDecoder Sdk.DelegateResponse, BodyDecoder Sdk.AuthorizeResponse}.

(** Source: examples/go/killer-demo/main.go:15-15, [main]. *)
Definition parentClaims : claims_map :=
  Some {["aud" := VStr "sample-api"; "scope" := VStrs ["orders:read"; "orders:write"]]}.

(** Source: examples/go/killer-demo/main.go:21-21, [main]. *)
Definition agentClaims : claims_map := Some {["aud" := VStr "sample-api"]}.

(** The first 24 bytes of a longer token.
    Source: examples/go/killer-demo/main.go:32-35, [main]. *)
Definition tokenPreview (token : string) : string :=
  if (24 <? String.length token)%nat then substring 0 24 token else token.

(** Source: examples/go/killer-demo/main.go:37-37, [main]. *)
Definition summary (decision : Sdk.AuthorizeResponse) : string :=
  "allowed=" +:+ (if Sdk.ap_Allowed decision then "true" else "false")
  +:+ " acting_on_behalf_of=" +:+ Sdk.ap_ActingOnBehalfOf decision
  +:+ " synthetic_jwt_prefix=" +:+ tokenPreview (Sdk.ap_SyntheticJWT decision) +:+ "...".

(** Source: examples/go/killer-demo/main.go, [main]. *)
Definition main (net : nat -> Sdk.network) : program :=
  let client := Sdk.NewMagicLocalClient in
  match Sdk.MagicClient_IssueVC client (net 0%nat) "did:example:human-demo" 600 parentClaims with
  | Err err => (fatal "issue parent vc" err, [])
  | Ok parentVC =>
      match Sdk.SpawnAgent client (net 1%nat) parentVC "did:example:agent-demo" ["orders:read"] 120 agentClaims with
      | Err err => (fatal "delegate agent vc" err, [])
      | Ok agentVC =>
          match Sdk.MagicClient_Authorize client (net 2%nat) [parentVC; agentVC] "orders" "read" "sample-api" true with
          | Err err => (fatal "authorize chain" err, [])
          | Ok decision => (Done, [summary decision])
          end
      end
  end.

(** It ends well exactly when its three calls succeed: the chain it presents is the parent and
    what was delegated from it, in this order. *)
Lemma killer_demo_spec net out :
  main net = (Done, out) <->
  exists parentVC agentVC decision,
    Sdk.MagicClient_IssueVC Sdk.NewMagicLocalClient (net 0%nat) "did:example:human-demo" 600 parentClaims = Ok parentVC
    /\ Sdk.SpawnAgent Sdk.NewMagicLocalClient (net 1%nat) parentVC "did:example:agent-demo" ["orders:read"] 120 agentClaims
       = Ok agentVC
    /\ Sdk.MagicClient_Authorize Sdk.NewMagicLocalClient (net 2%nat) [parentVC; agentVC] "orders" "read" "sample-api" true
       = Ok decision
    /\ out = [summary decision].
Proof.
  unfold main. split.
  - destruct (Sdk.MagicClient_IssueVC _ _ _ _ _) as [p|e] eqn:Hp; [|discriminate].
    destruct (Sdk.SpawnAgent _ _ _ _ _ _ _) as [a|e] eqn:Ha; [|discriminate].
    destruct (Sdk.MagicClient_Authorize _ _ _ _ _ _ _) as [d|e] eqn:Hd; [|discriminate].
    intros [= <-]. by exists p, a, d.
  - by intros (p & a & d & -> & -> & -> & ->).
Qed.
End demo.

(** At most 24 bytes of a token are shown, and they are its first. *)
Lemma tokenPreview_prefix token :
  (String.length (tokenPreview token) <= 24)%nat /\ exists rest, token = tokenPreview token +:+ rest.
Proof.
  unfold tokenPreview. destruct (24 <? String.length token)%nat eqn:Hl.
  - apply Nat.ltb_lt in Hl. split.
    + clear Hl. generalize 24%nat. intros n. revert token. induction n as [|n IH]; intros [|a s]; cbn; try lia.
      specialize (IH s). lia.
    + clear Hl. generalize 24%nat. intros n. revert token. induction n as [|n IH]; intros [|a s]; cbn.
      * by exists "".
      * by eexists.
      * by exists "".
      * destruct (IH s) as [rest Hr]. exists rest. by rewrite Hr at 1.
  - apply Nat.ltb_ge in Hl. split; [done|]. exists "". by rewrite string_app_nil_r.
Qed.
End KillerDemo.

(** ** An SD-JWT *)

Module SdJwt.
Section sdjwt.
Context `{NewRequest, BodyDecoder Sdk.APIError}.
Context `{Json Sdk.IssueRequest, Json Sdk.VerifyRequest, BodyDecoder Sdk.IssueResponse, BodyDecoder Sdk.VerifyResponse}.

(** Source: examples/sdk-go/sd-jwt/main.go, [env]. *)
Definition env (getenv : string -> string) (k def : string) : string :=
  let v := getenv k in
  if bool_decide (v = "") then def else v.

(** Source: examples/sdk-go/sd-jwt/main.go:25-33, [main]. *)
Definition issue_request (subjectDID : string) : Sdk.IssueRequest :=
  Sdk.mkIssue subjectDID 600
    (Some {["email" := VStr "alice@example.com"; "department" := VStr "engineering"; "scope" := VStr "read:orders"]}) "".

(** [fmt.Println] of a list of strings. *)
Definition show_list (l : list string) : string := "[" +:+ String.concat " " l +:+ "]".

(** Source: examples/sdk-go/sd-jwt/main.go, [main]. *)
Definition main (getenv : string -> string) (net : nat -> Sdk.network) : program :=
  let issuerURL := env getenv "ISSUER_URL" "http://localhost:8080" in
  let verifierURL := env getenv "VERIFIER_URL" "http://localhost:8081" in
  let subjectDID := getenv "ALICE_DID" in
  if bool_decide (subjectDID = "")
  then (Fatal "ALICE_DID is required. Generate one via ./bin/keygen -did-only and export ALICE_DID before running.", [])
  else
    let client := Sdk.mkClient issuerURL verifierURL "" in
    match Sdk.IssueSDJWT client (net 0%nat) (issue_request subjectDID) with
    | Err err => (fatal "issue sd-jwt" err, [])
    | Ok issued =>
        let printed := ["SD-JWT: " +:+ Sdk.is_Credential issued; "Disclosures: " +:+ show_list (Sdk.is_Disclosures issued)] in
        match Sdk.Verify client (net 1%nat) (Sdk.is_Credential issued) with
        | Err err => (fatal "verify sd-jwt" err, printed)
        | Ok verify =>
            (Done, app printed ["Verification valid: " +:+ (if Sdk.vp_Valid verify then "true" else "false")])
        end
    end.
End sdjwt.
End SdJwt.

(** ** The production key store *)

Module KmsTest.
(** What [%T] prints of a public key. *)
Definition key_type (k : public_key) : string :=
  match k with
  | PubNil => "<nil>"
  | PubEd25519 _ => "ed25519.PublicKey"
  | PubECDSA _ _ _ => "*ecdsa.PublicKey"
  | PubRSA _ => "*rsa.PublicKey"
  end.

Section test.
Context `{Json (gmap string gval), Pkcs8, Unicode}.
Variable env : string -> string.

(** Neither construction returns an error.
    Source: examples/kms-test/main.go, [main]. *)
Definition main (d : draw) : program :=
  let store := NewProductionKeyStore env BackendMemory "" in
  match (ProductionKeyStore_GetSigningKey env store d "test-tenant").1 with
  | Err err => (fatal "Failed to get signing key" err, ["Testing production keystore functionality..."])
  | Ok signer =>
      (Done,
       ["Testing production keystore functionality...";
        "✅ Memory keystore: Created signer with key type " +:+ key_type (signer_Public signer);
        "✅ Auto-detection: Backend selected: " +:+ GetBackend (NewProductionKeyStoreFromEnv env);
        "🎉 Production keystore tests passed!"])
  end.

(** The key it asks for is one that the in-memory store generates. *)
Lemma test_key d :
  (ProductionKeyStore_GetSigningKey env (NewProductionKeyStore env BackendMemory "") d "test-tenant").1
  = map_err (fun e => ErrWrap "get signing key for tenant test-tenant: " e "")
      (let! doc := map_err (fun e => ErrWrap "generate did document: " e "") (NewDIDJWK d) in
       map_err (fun e => ErrWrap "load signer from did: " e "") (CurrentSigner doc)).
Proof.
  change (NewProductionKeyStore env BackendMemory "") with (mkProduction BackendMemory ∅ NewMemoryKeyStore "tenant-").
  unfold ProductionKeyStore_GetSigningKey, getOrCreateKey, MemoryKeyStore_GetSigningKey. cbn.
  destruct (NewDIDJWK d) as [doc|e]; [|done]. cbn. by destruct (CurrentSigner doc).
Qed.

(** The test ends well exactly when the generator of Ed25519 keys gives a key that can be
    loaded: it never calls Vault or the key service, whatever the environment selects, and the
    backend it reports is one whose settings are there. *)
Lemma kms_test_spec d out :
  main d = (Done, out) <->
  exists doc signer, NewDIDJWK d = Ok doc /\ CurrentSigner doc = Ok signer
    /\ validateBackend env (GetBackend (NewProductionKeyStoreFromEnv env)) = Ok tt
    /\ out = ["Testing production keystore functionality...";
              "✅ Memory keystore: Created signer with key type " +:+ key_type (signer_Public signer);
              "✅ Auto-detection: Backend selected: " +:+ GetBackend (NewProductionKeyStoreFromEnv env);
              "🎉 Production keystore tests passed!"].
Proof.
  unfold main. rewrite test_key. set (back := GetBackend _).
  assert (Hb : validateBackend env back = Ok tt) by apply KeysProps.backend_available.
  destruct (NewDIDJWK d) as [doc|e]; cbn [map_err rbind].
  - destruct (CurrentSigner doc) as [signer|e] eqn:Hc; cbn [map_err].
    + split; [intros [= <-]; by exists doc, signer|].
      by intros (? & ? & [= <-] & [= <-]%(eq_trans (eq_sym Hc)) & _ & ->).
    + split; [discriminate|]. by intros (? & ? & [= <-] & ?%(eq_trans (eq_sym Hc)) & _).
  - split; [discriminate|]. by intros (? & ? & ? & _).
Qed.
End test.
End KmsTest.
